(* ===== verification/_CoqProject ===== *)
-Q . S2P
Prelude.v
Bytes.v
Monad.v
Uapi.v
State.v
Stats.v
Kernel.v
Demo.v
Registry.v
Sbq.v
Sbtx.v
Proxy.v
Carrier.v
Nb.v
Sbrx.v
Service.v
Encap.v
Netdev.v
Lower.v
Xid.v
Create.v
Team.v
Vlan.v
Ethtool.v
Qsfp.v
Text.v
Port.v
Props.v
Probe.v
Boot.v
Muxeto.v
Mod.v
Ops.v
