(* ===== verification/Prelude.v ===== *)
(** * A verification of the xeth driver

    xeth (src/dkms) is a Linux kernel module that presents the ports of a remote
    Ethernet switch as network devices of the host.  The switch is reached through
    a few ordinary devices, the links; a mux device owns them, and for each port,
    VLAN, LAG, bridge and loopback of the switch there is a proxy device of the mux.
    A frame a proxy sends is tagged with the XID of the proxy and sent on a link; a
    frame a link receives is demultiplexed by its tags to the proxy with that XID.
    Beside the data path a daemon that programs the switch is connected to the mux
    by a Unix socket, the side band: the driver reports interfaces, addresses,
    routes, neighbours and settings, and the daemon sends carrier, speed, statistics
    and exception frames.

    ** The parts and their files

    The files follow the order of _CoqProject; each requires those it calls.

    - [Prelude]: machine integers with their wrap-around, error numbers, tactics and
      general lemmas.  [Bytes]: byte order and the layout of C structs.  [Monad]: the
      monad of driver code, whose state is explicit and whose failure is an oops
      (dereference of NULL, access outside of an allocation, a lock never had);
      error numbers are ordinary results.  Its judgements are [triple] (no oops and
      a postcondition), [preserves] (an invariant) and [steps] (a preorder).
      [Text]: printed numbers.
    - [Uapi] (xeth_uapi.h): the messages of the side band as records with their
      layout, images and decoding; the class [Wire] is what a message promises to
      those who send and receive it.
    - [State] (xeth.h, the structs of xeth_mux.c and xeth_port.c): the records of the
      mux, the proxies and the net_device; the machine is the record [world].
      [Stats] (xeth.h): link statistics, counters and flags.
    - [Kernel], [Netdev]: what the driver takes from the kernel, as classes of
      operations with laws; [Demo] a concrete machine that has all of it, on which
      the witnesses of the theorems are evaluated.
    - [Registry] (xeth_mux.c): the hash table by XID and the lists of each kind.
      [Sbq] (xeth_mux.c): the buffers and the queue of the side band.  [Sbtx]
      (xeth_sbtx.c): every message the driver sends.  [Proxy] (xeth_proxy.c): the
      operations the proxies share, and the dump of the interfaces.  [Carrier]
      (xeth_mux.c): what the mux does to all its proxies.  [Nb] (xeth_nb.c): the
      notifiers.  [Sbrx] (xeth_sbrx.c): the messages of the daemon.  [Service]
      (xeth_mux.c): the task of the mux that serves the socket.
    - [Encap] (xeth_mux.c, xeth_proxy.c): the data path, on frames as bytes.
      [Lower] (xeth_mux.c): the links, and the life of a mux made through rtnl.
    - [Xid], [Create], [Team] (xeth_lag.c, xeth_bridge.c), [Vlan] (xeth_vlan.c,
      xeth_lb.c), [Port] (xeth_port.c): how proxies are made and removed.
      [Ethtool] (xeth_port.c, xeth_mux.c), [Muxeto] (xeth_mux.c): what ethtool sets
      and shows.  [Qsfp] (xeth_qsfp.c): the modules in the cages of the ports.
    - [Props], [Probe] (xeth_mux.c): the platform driver of the mux, what it reads
      from the firmware, its probe and removal.  [Boot]: the probes of the mux and
      of its ports one after the other.  [Mod] (xeth_mod.c): loading and unloading.
    - [Ops]: the tables of device and link operations of each kind, and the kernel
      that goes through them to make a link, and to close, uninitialise and free one.

    Definitions have the names of the C functions they translate.  Pointers to
    devices are the keys of [w_devs]; a struct that code reaches through a pointer
    is looked up there at each use, so that aliasing is that of the code.  Loops
    that walk a list are structural.  Loops that do not have fuel, and theorems that
    say how much is enough: the search for the XID of a port ends after as many
    steps as there are proxies ([Xid.xid_allocation]), the search of a link by its
    names after as many rounds as the string has bytes ([Props.link_akas_ends]), the
    link table after its 16 slots ([Lower.link_table]), a number has ten digits
    ([Text.dec]).  The service of a connection runs over the sequence of events that
    happen to it, any sequence whatever.

    ** What is shown

    - The data path: what a proxy sends comes back to the proxy with the same XID,
      as the same frame but for the length of an 802.3 frame of a port, which the
      code overwrites ([Encap.encap_demux_roundtrip]); exception frames are returned
      to their proxy; every received frame is forwarded to the proxy of its tags or
      freed, once, and counted ([Encap.demux_consumes_once]).
    - The registry refines a list of proxies for any hash ([Registry.registry_refinement]).
    - The side band: images of messages ([Uapi.message_layout]), the contents of the
      dump and of routes, order of delivery, no message of the daemon breaks the
      invariants of the driver, and what a connection and the task leave at their
      end ([Service], [Sbrx], [Nb]).
    - Devices: what newlink, dellink and the members of LAGs and bridges do to the
      devices and tell the daemon; distinct XIDs; link settings and names.
    - The platform: search for links equals a plain search; a failed probe leaves
      nothing; a platina,mk1 comes up with its 32 ports, each found by its XID
      ([Boot.mk1_boot]); the removal takes everything back in order and under the
      rtnl lock, the lowers are released and their references dropped, and what the
      kernel does with the tables then leaves an empty registry and no device
      ([Ops.mux_link_removed]); loading the module for each way it may go.
    - Where the code does not do what it means to, a theorem says what it does: the
      overflow by IPv6 siblings, the read past a port made by rtnl, the oops on an
      unknown XID, the double unlink, the probe of other platforms, the unwinding
      of a failed load, the encapsulation of a mux asked for in vain, the length of
      802.3 frames, the upper half of an SFP.

    ** What is not modelled

    Locks and RCU sections within one operation (operations are atomic, the rtnl
    lock of the probe and of the removal excepted), memory barriers, log messages and the constant
    strings of the driver info of ports and VLANs; the timing of sleeps but for their length; the Go
    package and the sample daemon (src/go), the packaging and the documents.  The
    kernel and the firmware are parameters.

    The rest of this file is the prelude. *)

From stdpp Require Import base numbers list gmap.
From Stdlib Require Import ZArith Lia.

Local Open Scope Z_scope.

(** ** Machine integers: a w-bit C integer is a [Z] with its wrap-around. *)

Definition u8 (x : Z) : Z := x `mod` 2 ^ 8.
Definition u16 (x : Z) : Z := x `mod` 2 ^ 16.
Definition u32 (x : Z) : Z := x `mod` 2 ^ 32.
Definition u64 (x : Z) : Z := x `mod` 2 ^ 64.
Definition s32 (x : Z) : Z := (x + 2 ^ 31) `mod` 2 ^ 32 - 2 ^ 31.
Definition s64 (x : Z) : Z := (x + 2 ^ 63) `mod` 2 ^ 64 - 2 ^ 63.

(** ** Error numbers the driver returns, negated as in the source. *)

Definition ENXIO : Z := 6.
Definition EAGAIN : Z := 11.
Definition ENOMEM : Z := 12.
Definition EBUSY : Z := 16.
Definition ENODEV : Z := 19.
Definition EINVAL : Z := 22.
Definition ERANGE : Z := 34.
Definition EOPNOTSUPP : Z := 95.
Definition ECONNRESET : Z := 104.
Definition EPROBE_DEFER : Z := 517.

(** ** Automation *)

Create HintDb xeth discriminated.

(** Split the first [match] or [if] of the goal or of a hypothesis. *)
Ltac split_match :=
  match goal with
  | |- context [match ?x with _ => _ end] => destruct x eqn:?
  | H : context [match ?x with _ => _ end] |- _ => destruct x eqn:?
  end.

(** Turn boolean comparisons in the context into propositions. *)
Ltac unbool :=
  repeat match goal with
  | H : (_ && _)%bool = true |- _ => apply andb_true_iff in H; destruct H
  | H : (_ || _)%bool = false |- _ => apply orb_false_iff in H; destruct H
  | H : (_ && _)%bool = false |- _ => apply andb_false_iff in H
  | H : (_ || _)%bool = true |- _ => apply orb_true_iff in H
  | H : negb _ = true |- _ => apply negb_true_iff in H
  | H : negb _ = false |- _ => apply negb_false_iff in H
  | H : (_ =? _) = true |- _ => apply Z.eqb_eq in H
  | H : (_ =? _) = false |- _ => apply Z.eqb_neq in H
  | H : (_ <? _) = true |- _ => apply Z.ltb_lt in H
  | H : (_ <? _) = false |- _ => apply Z.ltb_ge in H
  | H : (_ <=? _) = true |- _ => apply Z.leb_le in H
  | H : (_ <=? _) = false |- _ => apply Z.leb_gt in H
  | H : bool_decide _ = true |- _ => apply bool_decide_eq_true in H
  | H : bool_decide _ = false |- _ => apply bool_decide_eq_false in H
  end.

(** Unfold the wrap-around functions and leave div/mod to [lia]. *)
Ltac wrap_lia :=
  unfold u8, u16, u32, u64, s32, s64 in *;
  change (2 ^ 8) with 256 in *; change (2 ^ 16) with 65536 in *;
  change (2 ^ 31) with 2147483648 in *; change (2 ^ 32) with 4294967296 in *;
  change (2 ^ 63) with 9223372036854775808 in *;
  change (2 ^ 64) with 18446744073709551616 in *;
  Z.div_mod_to_equations; lia.

(** Equality of two bit-level expressions, bit by bit. *)
Ltac zbits i :=
  apply Z.bits_inj'; intros i ?;
  rewrite ?Z.lor_spec, ?Z.land_spec, ?Z.ldiff_spec, ?Z.lxor_spec.

Lemma u8_small x : 0 <= x < 256 -> u8 x = x.
Proof. intros; wrap_lia. Qed.
Lemma u16_small x : 0 <= x < 65536 -> u16 x = x.
Proof. intros; wrap_lia. Qed.
Lemma u32_small x : 0 <= x < 2 ^ 32 -> u32 x = x.
Proof. intros; wrap_lia. Qed.
Lemma u64_small x : 0 <= x < 2 ^ 64 -> u64 x = x.
Proof. intros; wrap_lia. Qed.
Lemma u64_s64 x : u64 (s64 x) = u64 x.
Proof.
  unfold u64, s64.
  rewrite Zminus_mod_idemp_l. f_equal; lia.
Qed.
Lemma s64_small x : - 2 ^ 63 <= x < 2 ^ 63 -> s64 x = x.
Proof. intros; wrap_lia. Qed.
#[export] Hint Resolve u8_small u16_small u32_small u64_small s64_small : xeth.

(** ** Bits *)

Lemma land_ones_mod a n : 0 <= n -> Z.land a (2 ^ n - 1) = a `mod` 2 ^ n.
Proof. intros; rewrite <- Z.land_ones by lia. f_equal. rewrite Z.ones_equiv. lia. Qed.

(** Two fields packed by shift-and-or come apart by mask and shift. *)
Lemma lor_shiftl_low lo hi n :
  0 <= n -> 0 <= lo < 2 ^ n -> Z.lor lo (Z.shiftl hi n) `mod` 2 ^ n = lo.
Proof.
  intros Hn Hlo. rewrite <- Z.land_ones by lia.
  rewrite Z.land_lor_distr_l.
  rewrite Z.land_ones by lia. rewrite Z.mod_small by lia.
  rewrite Z.land_ones by lia. rewrite Z.shiftl_mul_pow2 by lia.
  rewrite Z_mod_mult. apply Z.lor_0_r.
Qed.

Lemma lor_shiftl_high lo hi n :
  0 <= n -> 0 <= lo < 2 ^ n -> Z.shiftr (Z.lor lo (Z.shiftl hi n)) n = hi.
Proof.
  intros Hn Hlo. rewrite Z.shiftr_lor, Z.shiftr_shiftl_l by lia.
  rewrite Z.sub_diag, Z.shiftl_0_r.
  rewrite Z.shiftr_div_pow2, Z.div_small by lia. apply Z.lor_0_l.
Qed.

Lemma lor_shiftl_add lo hi n :
  0 <= n -> 0 <= lo < 2 ^ n -> Z.lor lo (Z.shiftl hi n) = lo + hi * 2 ^ n.
Proof.
  intros Hn Hlo.
  rewrite (Z.div_mod (Z.lor lo (Z.shiftl hi n)) (2 ^ n)) by lia.
  rewrite lor_shiftl_low by lia.
  rewrite <- Z.shiftr_div_pow2, lor_shiftl_high by lia. lia.
Qed.

(** ** Lists *)

Lemma list_lookup_total_alter_same `{!Inhabited A} (f : A -> A) i (l : list A) :
  (i < length l)%nat -> alter f i l !!! i = f (l !!! i).
Proof.
  intros H. apply list_lookup_total_correct.
  rewrite list_lookup_alter_eq, list_lookup_lookup_total_lt by done. done.
Qed.
Lemma list_lookup_total_alter_other `{!Inhabited A} (f : A -> A) i j (l : list A) :
  i <> j -> alter f i l !!! j = l !!! j.
Proof. intros H. rewrite !list_lookup_total_alt. by rewrite list_lookup_alter_ne. Qed.


(** Filters by predicates that agree on the elements. *)
Lemma filter_all {A} (P : A -> Prop) `{!forall x, Decision (P x)} (l : list A) :
  (forall x, P x) -> filter P l = l.
Proof. intros Hp. induction l as [|x l IH]; [done|]. by rewrite filter_cons_True, IH by apply Hp. Qed.
Lemma filter_iff_elem {A} (P Q : A -> Prop) `{!forall x, Decision (P x), !forall x, Decision (Q x)} (l : list A) :
  (forall x, x ∈ l -> P x <-> Q x) -> filter P l = filter Q l.
Proof.
  induction l as [|x l IH]; intros Hl; [done|]. rewrite !filter_cons.
  rewrite IH by (intros y Hy; apply Hl; by right).
  assert (P x <-> Q x) by (apply Hl; left). repeat case_decide; tauto.
Qed.
