(* ===== verification/Bytes.v ===== *)
(** * Bytes, byte order and struct layout

    A byte buffer is a [list Z] whose elements lie in [0,256).  The host is
    little-endian (the module is built for x86-64 and arm64 hosts), network
    order is big-endian.  A C struct is described by the list of its fields;
    [enc_struct]/[dec_struct] are the memory image of the struct and its
    reading back, and [aligned_from] checks that the compiler inserts no
    padding, so that the image is the plain concatenation of the fields. *)

From stdpp Require Import base numbers list.
From Stdlib Require Import ZArith Lia.
From S2P Require Import Prelude.

Local Open Scope Z_scope.

Definition byte_ok (b : Z) : Prop := 0 <= b < 256.
Definition bytes_ok (l : list Z) : Prop := Forall byte_ok l.

(** ** Integers as bytes *)

Fixpoint le_bytes (n : nat) (x : Z) : list Z :=
  match n with
  | O => []
  | S n => x `mod` 256 :: le_bytes n (x `div` 256)
  end.

Fixpoint le_val (l : list Z) : Z :=
  match l with
  | [] => 0
  | b :: l => b + 256 * le_val l
  end.

Definition be_bytes (n : nat) (x : Z) : list Z := reverse (le_bytes n x).
Definition be_val (l : list Z) : Z := le_val (reverse l).

Lemma length_le_bytes n x : length (le_bytes n x) = n.
Proof. revert x; induction n; intros; simpl; auto. Qed.

Lemma length_be_bytes n x : length (be_bytes n x) = n.
Proof. unfold be_bytes. by rewrite length_reverse, length_le_bytes. Qed.

Lemma le_bytes_ok n x : bytes_ok (le_bytes n x).
Proof.
  revert x; induction n; intros x; simpl; constructor; [|apply IHn].
  apply Z.mod_pos_bound; lia.
Qed.

Lemma be_bytes_ok n x : bytes_ok (be_bytes n x).
Proof. apply Forall_reverse, le_bytes_ok. Qed.

Lemma pow256_succ n : 256 ^ Z.of_nat (S n) = 256 * 256 ^ Z.of_nat n.
Proof. rewrite Nat2Z.inj_succ, Z.pow_succ_r by lia; lia. Qed.

Lemma le_val_le_bytes n x : le_val (le_bytes n x) = x `mod` 256 ^ Z.of_nat n.
Proof.
  revert x; induction n; intros x; simpl le_bytes; simpl le_val.
  - by rewrite Z.mod_1_r.
  - rewrite IHn, pow256_succ, Z.rem_mul_r by lia. lia.
Qed.

Lemma le_val_bound l : bytes_ok l -> 0 <= le_val l < 256 ^ Z.of_nat (length l).
Proof.
  induction 1 as [|b l Hb _ IH]; simpl length; simpl le_val; [lia|].
  rewrite pow256_succ. unfold byte_ok in Hb. nia.
Qed.

Lemma le_bytes_le_val l : bytes_ok l -> le_bytes (length l) (le_val l) = l.
Proof.
  induction 1 as [|b l Hb Hl IH]; simpl; [done|].
  unfold byte_ok in Hb. f_equal.
  - rewrite (Z.mul_comm 256), Z_mod_plus_full. apply Z.mod_small; lia.
  - rewrite (Z.mul_comm 256), Z.div_add, Z.div_small by lia. by rewrite Z.add_0_l.
Qed.

Lemma be_val_be_bytes n x : be_val (be_bytes n x) = x `mod` 256 ^ Z.of_nat n.
Proof. unfold be_val, be_bytes. by rewrite reverse_involutive, le_val_le_bytes. Qed.

Lemma be_bytes_be_val l : bytes_ok l -> be_bytes (length l) (be_val l) = l.
Proof.
  intros Hl. unfold be_val, be_bytes.
  rewrite <- (length_reverse l), le_bytes_le_val by (by apply Forall_reverse).
  apply reverse_involutive.
Qed.

(** ** Reading and writing a buffer at an offset

    [None] is an access outside of the buffer. *)

Definition buf_read (off n : nat) (l : list Z) : option (list Z) :=
  if decide (off + n <= length l)%nat then Some (take n (drop off l)) else None.

Definition buf_write (off : nat) (bs l : list Z) : option (list Z) :=
  if decide (off + length bs <= length l)%nat
  then Some (take off l ++ bs ++ drop (off + length bs) l)
  else None.

(** memset(l, 0, n), for n within the buffer. *)
Definition buf_zero (n : nat) (l : list Z) : list Z :=
  replicate (min n (length l)) 0 ++ drop n l.

Lemma length_buf_write off bs l l' :
  buf_write off bs l = Some l' -> length l' = length l.
Proof.
  unfold buf_write. case_decide; [|done]. intros [= <-].
  rewrite !length_app, length_take, length_drop. lia.
Qed.

Lemma length_buf_zero n l : length (buf_zero n l) = length l.
Proof. unfold buf_zero. rewrite length_app, length_replicate, length_drop. lia. Qed.

Lemma buf_write_prefix bs l :
  (length bs <= length l)%nat -> buf_write 0 bs l = Some (bs ++ drop (length bs) l).
Proof. intros. unfold buf_write. by rewrite decide_True by lia. Qed.

Lemma buf_zero_take n l :
  (n <= length l)%nat -> take n (buf_zero n l) = replicate n 0.
Proof.
  intros Hn. unfold buf_zero. rewrite min_l by lia.
  by rewrite take_app_length' by (by rewrite length_replicate).
Qed.

Lemma buf_write_ok off bs l l' :
  bytes_ok bs -> bytes_ok l -> buf_write off bs l = Some l' -> bytes_ok l'.
Proof.
  intros Hbs Hl. unfold buf_write. case_decide; [|done]. intros [= <-].
  repeat apply Forall_app_2; auto using Forall_take, Forall_drop.
Qed.

Lemma buf_zero_ok n l : bytes_ok l -> bytes_ok (buf_zero n l).
Proof.
  intros. apply Forall_app_2; [|by apply Forall_drop].
  apply Forall_replicate. unfold byte_ok; lia.
Qed.

Create Rewrite HintDb xeth_len.
#[export] Hint Rewrite length_le_bytes length_be_bytes length_buf_zero : xeth_len.
#[export] Hint Resolve le_bytes_ok be_bytes_ok buf_zero_ok : xeth.

(** ** C structs *)

(** A field is an integer of [n] bytes, signed or not, or an array of [n] bytes. *)
Inductive field := FUInt (n : nat) | FSInt (n : nat) | FBytes (n : nat).
Inductive value := VInt (z : Z) | VBytes (bs : list Z).

#[export] Instance field_eq_dec : EqDecision field.
Proof. solve_decision. Defined.
#[export] Instance value_eq_dec : EqDecision value.
Proof. solve_decision. Defined.

Definition fsize (f : field) : nat :=
  match f with FUInt n | FSInt n | FBytes n => n end.

(** The alignment the ABI gives a field: an integer's size, one for an array of bytes. *)
Definition falign (f : field) : nat :=
  match f with FUInt n | FSInt n => n | FBytes _ => 1 end.

Definition struct_size (fs : list field) : nat := sum_list_with fsize fs.

(** Every field lies at a multiple of its alignment when laid out with no padding. *)
Fixpoint aligned_from (off : nat) (fs : list field) : bool :=
  match fs with
  | [] => true
  | f :: fs => bool_decide (off `mod` falign f = 0)%nat && aligned_from (off + fsize f)%nat fs
  end.

Definition sext (n : nat) (z : Z) : Z :=
  if z <? 256 ^ Z.of_nat n / 2 then z else z - 256 ^ Z.of_nat n.

Definition enc_field (f : field) (v : value) : list Z :=
  match f, v with
  | FUInt n, VInt z | FSInt n, VInt z => le_bytes n z
  | FBytes n, VBytes bs => resize n 0 bs
  | FBytes n, VInt _ => replicate n 0
  | _, VBytes _ => replicate (fsize f) 0
  end.

Definition dec_field (f : field) (bs : list Z) : value :=
  match f with
  | FUInt _ => VInt (le_val bs)
  | FSInt n => VInt (sext n (le_val bs))
  | FBytes _ => VBytes bs
  end.

Fixpoint enc_struct (fs : list field) (vs : list value) : list Z :=
  match fs, vs with
  | f :: fs, v :: vs => enc_field f v ++ enc_struct fs vs
  | _, _ => []
  end.

Fixpoint dec_struct (fs : list field) (bs : list Z) : option (list value) :=
  match fs with
  | [] => Some []
  | f :: fs =>
      b ← buf_read 0 (fsize f) bs;
      vs ← dec_struct fs (drop (fsize f) bs);
      Some (dec_field f b :: vs)
  end.

(** The value is in the range of the field's C type. *)
Definition field_wf (f : field) (v : value) : Prop :=
  match f, v with
  | FUInt n, VInt z => 0 <= z < 256 ^ Z.of_nat n
  | FSInt n, VInt z => - (256 ^ Z.of_nat n / 2) <= z < 256 ^ Z.of_nat n / 2
  | FBytes n, VBytes bs => length bs = n /\ bytes_ok bs
  | _, _ => False
  end.

Lemma length_enc_field f v : length (enc_field f v) = fsize f.
Proof.
  destruct f, v; simpl; autorewrite with xeth_len;
    rewrite ?length_resize, ?length_replicate; done.
Qed.

Lemma length_enc_struct fs vs :
  length fs = length vs -> length (enc_struct fs vs) = struct_size fs.
Proof.
  revert vs; induction fs as [|f fs IH]; intros [|v vs] H; simplify_eq/=; [done|].
  rewrite length_app, length_enc_field, IH; done.
Qed.

Lemma sext_mod n z :
  - (256 ^ Z.of_nat n / 2) <= z < 256 ^ Z.of_nat n / 2 ->
  sext n (z `mod` 256 ^ Z.of_nat n) = z.
Proof.
  set (m := 256 ^ Z.of_nat n). intros Hz. unfold sext. fold m.
  assert (0 < m) by (apply Z.pow_pos_nonneg; lia).
  pose proof (Z.div_mod m 2 ltac:(lia)). pose proof (Z.mod_pos_bound m 2 ltac:(lia)).
  destruct (decide (0 <= z)).
  - rewrite Z.mod_small by lia. destruct (Z.ltb_spec z (m / 2)); lia.
  - rewrite <- (Z_mod_plus_full z 1), Z.mod_small by lia.
    destruct (Z.ltb_spec (z + 1 * m) (m / 2)); lia.
Qed.

Lemma dec_enc_field f v : field_wf f v -> dec_field f (enc_field f v) = v.
Proof.
  destruct f, v; simpl; try done; intros H.
  - by rewrite le_val_le_bytes, Z.mod_small.
  - by rewrite le_val_le_bytes, sext_mod.
  - destruct H as [<- _]. by rewrite resize_all.
Qed.

Lemma le_bytes_sub_pow n z : le_bytes n (z - 256 ^ Z.of_nat n) = le_bytes n z.
Proof.
  revert z; induction n as [|n IH]; intros z; [done|]. cbn [le_bytes].
  rewrite pow256_succ.
  replace (z - 256 * 256 ^ Z.of_nat n) with (z + (- 256 ^ Z.of_nat n) * 256) by lia.
  rewrite Z_mod_plus_full, Z.div_add by lia. by rewrite Z.add_opp_r, IH.
Qed.

Lemma enc_dec_field f bs :
  length bs = fsize f -> bytes_ok bs -> enc_field f (dec_field f bs) = bs.
Proof.
  destruct f; simpl; intros Hl Hb; subst.
  - by rewrite le_bytes_le_val.
  - unfold sext. case_match; [|rewrite le_bytes_sub_pow]; by rewrite le_bytes_le_val.
  - by rewrite resize_all.
Qed.

Lemma dec_enc_struct fs vs rest :
  Forall2 field_wf fs vs -> dec_struct fs (enc_struct fs vs ++ rest) = Some vs.
Proof.
  induction 1 as [|f v fs vs Hf _ IH]; simpl; [done|].
  pose proof (length_enc_field f v) as Hlen.
  unfold buf_read. rewrite decide_True by (rewrite !length_app; lia).
  rewrite drop_0, <- app_assoc. simpl.
  rewrite take_app_length' by done. rewrite drop_app_length' by done.
  rewrite IH. simpl. by rewrite dec_enc_field.
Qed.

Lemma enc_dec_struct fs bs vs :
  bytes_ok bs -> dec_struct fs bs = Some vs ->
  enc_struct fs vs = take (struct_size fs) bs.
Proof.
  revert bs vs; induction fs as [|f fs IH]; intros bs vs Hb H; simplify_eq/=; [done|].
  unfold buf_read in H. case_decide as Hd; [|done]. rewrite drop_0 in H. simpl in H.
  destruct (dec_struct fs _) as [vs'|] eqn:E; simplify_eq/=.
  rewrite (IH _ _ (Forall_drop _ _ _ Hb) E), enc_dec_field.
  - by rewrite take_take_drop.
  - rewrite length_take. lia.
  - by apply Forall_take.
Qed.

Lemma dec_struct_short fs bs :
  (length bs < struct_size fs)%nat -> dec_struct fs bs = None.
Proof.
  revert bs; induction fs as [|f fs IH]; intros bs H; simpl in *; [lia|].
  unfold buf_read. case_decide; simpl; [|done].
  rewrite IH; [done|]. rewrite length_drop. lia.
Qed.

Lemma enc_struct_ok fs vs : Forall2 field_wf fs vs -> bytes_ok (enc_struct fs vs).
Proof.
  induction 1 as [|f v fs vs Hf _ IH]; simpl; [constructor|].
  apply Forall_app_2; [|done].
  destruct f, v; simpl in *; try done; try apply le_bytes_ok.
  destruct Hf as [<- ?]. by rewrite resize_all.
Qed.
