(* ===== verification/Monad.v ===== *)
(** * The driver monad

    Driver code runs in a state monad over a state [S] whose failure is a
    kernel oops: the dereference of a NULL or dangling pointer, or a write
    outside of an allocation.  Error numbers are ordinary results; only
    undefined behaviour is [None].  The file gives the monad, its loops, and
    three judgements on programs: [triple] (total correctness: no oops and a
    postcondition), [preserves] (an invariant holds again if the program
    returns) and [steps] (a preorder relates the states before and after). *)

From stdpp Require Import base list option.
From S2P Require Import Prelude.

Definition M (S A : Type) : Type := S -> option (A * S).

#[export] Instance M_ret S : MRet (M S) := fun A a s => Some (a, s).
#[export] Instance M_bind S : MBind (M S) := fun A B k c s =>
  match c s with
  | Some (a, s') => k a s'
  | None => None
  end.

Definition oops {S A} : M S A := fun _ => None.
Definition gets {S A} (f : S -> A) : M S A := fun s => Some (f s, s).
Definition modify {S} (f : S -> S) : M S unit := fun s => Some (tt, f s).

(** A pointer the code dereferences. *)
Definition deref {S A} (o : option A) : M S A :=
  match o with Some a => mret a | None => oops end.

Definition when {S} (b : bool) (c : M S unit) : M S unit :=
  if b then c else mret tt.

Fixpoint for_each {S A} (l : list A) (f : A -> M S unit) : M S unit :=
  match l with
  | [] => mret tt
  | a :: l => f a ≫= fun _ => for_each l f
  end.

(** The first element of the list the test accepts. *)
Fixpoint find_m {S A} (l : list A) (f : A -> M S bool) : M S (option A) :=
  match l with
  | [] => mret None
  | a :: l => b ← f a; if (b : bool) then mret (Some a) else find_m l f
  end.

Declare Scope xeth_scope.
Delimit Scope xeth_scope with xeth.
Notation "c ;; k" := (c ≫= fun _ => k)%stdpp
  (at level 100, k at level 200, right associativity, only parsing) : xeth_scope.

Section laws.
Context {S : Type}.

Lemma bind_run {A B} (c : M S A) (k : A -> M S B) s :
  (c ≫= k) s = match c s with Some (a, s') => k a s' | None => None end.
Proof. done. Qed.

Lemma bind_inv {A B} (c : M S A) (k : A -> M S B) s b s' :
  (c ≫= k) s = Some (b, s') -> exists a s1, c s = Some (a, s1) /\ k a s1 = Some (b, s').
Proof. rewrite bind_run. destruct (c s) as [[a s1]|]; [eauto|done]. Qed.

Lemma for_each_app {A} (l1 l2 : list A) (f : A -> M S unit) s :
  for_each (l1 ++ l2) f s = (for_each l1 f ≫= fun _ => for_each l2 f) s.
Proof.
  revert s; induction l1 as [|a l1 IH]; intros s; [done|]. simpl.
  rewrite !bind_run. destruct (f a s) as [[[] s1]|]; [|done].
  rewrite IH. done.
Qed.

(** ** Invariants *)

Definition preserves {A} (I : S -> Prop) (c : M S A) : Prop :=
  forall s a s', I s -> c s = Some (a, s') -> I s'.

Context (I : S -> Prop).

Lemma preserves_ret {A} (a : A) : preserves I (mret a).
Proof. intros s ? ? ? [= <- <-]. done. Qed.
Lemma preserves_oops {A} : preserves I (@oops S A).
Proof. intros s ? ? ? [=]. Qed.
Lemma preserves_deref {A} (o : option A) : preserves I (deref o).
Proof. destruct o; [apply preserves_ret|apply preserves_oops]. Qed.
Lemma preserves_gets {A} (f : S -> A) : preserves I (gets f).
Proof. intros s ? ? ? [= <- <-]. done. Qed.
Lemma preserves_modify f : (forall s, I s -> I (f s)) -> preserves I (modify f).
Proof. intros Hf s ? ? ? [= <- <-]. auto. Qed.
Lemma preserves_bind {A B} (c : M S A) (k : A -> M S B) :
  preserves I c -> (forall a, preserves I (k a)) -> preserves I (c ≫= k).
Proof.
  intros Hc Hk s b s' Hs (a & s1 & H1 & H2)%bind_inv.
  eapply Hk; [|done]. eapply Hc; done.
Qed.
Lemma preserves_when b c : preserves I c -> preserves I (when b c).
Proof. destruct b; [done|intros _; apply preserves_ret]. Qed.
Lemma preserves_for_each {A} (l : list A) f :
  (forall a, preserves I (f a)) -> preserves I (for_each l f).
Proof.
  intros Hf; induction l; [apply preserves_ret|].
  apply preserves_bind; [apply Hf|intros []; done].
Qed.
Lemma preserves_find_m {A} (l : list A) f :
  (forall a, preserves I (f a)) -> preserves I (find_m l f).
Proof.
  intros Hf; induction l; [apply preserves_ret|].
  apply preserves_bind; [apply Hf|]. intros []; [apply preserves_ret|done].
Qed.
End laws.

(** ** State relations *)

Definition steps {S A} (R : S -> S -> Prop) (c : M S A) : Prop :=
  forall s a s', c s = Some (a, s') -> R s s'.

Section steps.
Context {S : Type} (R : S -> S -> Prop) `{!PreOrder R}.

Lemma steps_ret {A} (a : A) : steps R (mret a).
Proof. intros s ? ? [= <- <-]. reflexivity. Qed.
Lemma steps_oops {A} : steps R (@oops S A).
Proof. intros s ? ? [=]. Qed.
Lemma steps_deref {A} (o : option A) : steps R (deref o).
Proof. destruct o; [apply steps_ret|apply steps_oops]. Qed.
Lemma steps_gets {A} (f : S -> A) : steps R (gets f).
Proof. intros s ? ? [= <- <-]. reflexivity. Qed.
Lemma steps_modify f : (forall s, R s (f s)) -> steps R (modify f).
Proof. intros Hf s ? ? [= <- <-]. auto. Qed.
Lemma steps_bind {A B} (c : M S A) (k : A -> M S B) :
  steps R c -> (forall a, steps R (k a)) -> steps R (c ≫= k).
Proof.
  intros Hc Hk s b s' (a & s1 & H1 & H2)%bind_inv.
  etrans; [by eapply Hc|by eapply Hk].
Qed.
Lemma steps_when b c : steps R c -> steps R (when b c).
Proof. destruct b; [done|intros _; apply steps_ret]. Qed.
Lemma steps_for_each {A} (l : list A) f :
  (forall a, steps R (f a)) -> steps R (for_each l f).
Proof.
  intros Hf; induction l; [apply steps_ret|].
  apply steps_bind; [apply Hf|intros []; done].
Qed.
Lemma steps_find_m {A} (l : list A) f :
  (forall a, steps R (f a)) -> steps R (find_m l f).
Proof.
  intros Hf; induction l; [apply steps_ret|].
  apply steps_bind; [apply Hf|]. intros []; [apply steps_ret|done].
Qed.
End steps.

(** ** Total correctness *)

Definition triple {S A} (P : S -> Prop) (c : M S A) (Q : A -> S -> Prop) : Prop :=
  forall s, P s -> exists a s', c s = Some (a, s') /\ Q a s'.

Section triple.
Context {S : Type}.

Lemma triple_ret {A} (P : S -> Prop) (a : A) (Q : A -> S -> Prop) :
  (forall s, P s -> Q a s) -> triple P (mret a) Q.
Proof. intros H s Hs. exists a, s. split; [done|auto]. Qed.
Lemma triple_gets {A} (P : S -> Prop) (f : S -> A) (Q : A -> S -> Prop) :
  (forall s, P s -> Q (f s) s) -> triple P (gets f) Q.
Proof. intros H s Hs. exists (f s), s. split; [done|auto]. Qed.
Lemma triple_modify (P : S -> Prop) f (Q : unit -> S -> Prop) :
  (forall s, P s -> Q tt (f s)) -> triple P (modify f) Q.
Proof. intros H s Hs. exists tt, (f s). split; [done|auto]. Qed.
Lemma triple_bind {A B} P (c : M S A) R (k : A -> M S B) Q :
  triple P c R -> (forall a, triple (R a) (k a) Q) -> triple P (c ≫= k) Q.
Proof.
  intros Hc Hk s Hs. destruct (Hc s Hs) as (a & s1 & H1 & HR).
  destruct (Hk a s1 HR) as (b & s2 & H2 & HQ).
  exists b, s2. split; [|done]. by rewrite bind_run, H1.
Qed.
Lemma triple_weaken {A} (P P' : S -> Prop) (c : M S A) Q Q' :
  triple P' c Q' -> (forall s, P s -> P' s) -> (forall a s, Q' a s -> Q a s) ->
  triple P c Q.
Proof. intros Hc HP HQ s Hs. destruct (Hc s) as (a & s' & ? & ?); eauto. Qed.
Lemma triple_for_each {A} (I : S -> Prop) (l : list A) f :
  (forall a, In a l -> triple I (f a) (fun _ => I)) -> triple I (for_each l f) (fun _ => I).
Proof.
  induction l as [|a l IH]; intros Hf; [by apply triple_ret|].
  eapply triple_bind; [apply Hf; by left|]. intros []. apply IH.
  intros; apply Hf; by right.
Qed.
End triple.

(** [by_structure]: discharge a [preserves] or [steps] goal along the syntax of
    the program, leaving the primitive state changes. *)
Create HintDb preserves discriminated.
Create HintDb steps discriminated.
#[export] Hint Resolve preserves_ret preserves_oops preserves_deref preserves_gets : preserves.
#[export] Hint Resolve steps_ret steps_oops steps_deref steps_gets : steps.

Ltac structure_step :=
  match goal with
  | |- preserves _ (_ ≫= _) => apply preserves_bind; [|intros ?]
  | |- preserves _ (when _ _) => apply preserves_when
  | |- preserves _ (for_each _ _) => apply preserves_for_each; intros ?
  | |- preserves _ (find_m _ _) => apply preserves_find_m; intros ?
  | |- preserves _ (match ?x with _ => _ end) => destruct x
  | |- preserves _ _ => solve [auto with preserves nocore]
  | |- steps _ (_ ≫= _) => apply steps_bind; [exact _| |intros ?]
  | |- steps _ (when _ _) => apply steps_when; [exact _|]
  | |- steps _ (for_each _ _) => apply steps_for_each; [exact _|intros ?]
  | |- steps _ (find_m _ _) => apply steps_find_m; [exact _|intros ?]
  | |- steps _ (match ?x with _ => _ end) => destruct x
  | |- steps _ _ => solve [eauto with steps nocore typeclass_instances]
  end.
Ltac by_structure := repeat structure_step.

(** Run one bind of a hypothesis [H : (c ≫= k) s = Some _]. *)
Ltac bind_step H :=
  let a := fresh "a" in let s := fresh "s" in let E := fresh "E" in
  apply bind_inv in H; destruct H as (a & s & E & H).
