(* ===== verification/Uapi.v ===== *)
(** * The side-band protocol (dkms/xeth_uapi.h)

    The constants, enumerations and message structs of the protocol between
    the mux and the switch daemon, with their memory images.  [Wire] is the
    interface every message body implements: its C layout and the reading and
    writing of its fields; the round trip, size and layout theorems are proved
    once against the interface. *)

From stdpp Require Import base numbers list.
From Stdlib Require Import ZArith Lia.
From S2P Require Import Prelude Bytes.

Local Open Scope Z_scope.

(** ** Constants *)

Definition XETH_IFNAMSIZ : nat := 16.
Definition XETH_ALEN : nat := 6.
Definition XETH_VLAN_VID_MASK : Z := 0x0fff.
Definition XETH_VLAN_N_VID : Z := 4096.
Definition XETH_VLAN_PRIO_SHIFT : Z := 13.
Definition XETH_VLAN_PRIO_BITS : Z := 3.
Definition XETH_VLAN_PRIO_MAX : Z := Z.shiftl 1 XETH_VLAN_PRIO_BITS - 1.
Definition XETH_VLAN_PRIO_MASK : Z := Z.shiftl XETH_VLAN_PRIO_MAX XETH_VLAN_PRIO_SHIFT.

Definition xeth_vlan_tci_is_exception (tci : Z) : bool :=
  Z.land tci XETH_VLAN_PRIO_MASK =? XETH_VLAN_PRIO_MASK.

Definition XETH_MSG_VERSION : Z := 2.
Definition XETH_SIZEOF_JUMBO_FRAME : Z := 9728.

Inductive xeth_encap := XETH_ENCAP_VLAN | XETH_ENCAP_VPLS.
#[export] Instance xeth_encap_eq_dec : EqDecision xeth_encap.
Proof. solve_decision. Defined.

Definition xeth_encap_val (e : xeth_encap) : Z :=
  match e with XETH_ENCAP_VLAN => 0 | XETH_ENCAP_VPLS => 1 end.

Definition XETH_ENCAP_VLAN_VID_BIT : Z := 12.
Definition XETH_ENCAP_VPLS_VID_BIT : Z := 20.
Definition XETH_ENCAP_VLAN_VID_MASK : Z := Z.shiftl 1 XETH_ENCAP_VLAN_VID_BIT - 1.
Definition XETH_ENCAP_VPLS_VID_MASK : Z := Z.shiftl 1 XETH_ENCAP_VPLS_VID_BIT - 1.

Inductive xeth_dev_kind :=
| XETH_DEV_KIND_UNSPEC
| XETH_DEV_KIND_PORT
| XETH_DEV_KIND_VLAN
| XETH_DEV_KIND_BRIDGE
| XETH_DEV_KIND_LAG
| XETH_DEV_KIND_LB.
#[export] Instance xeth_dev_kind_eq_dec : EqDecision xeth_dev_kind.
Proof. solve_decision. Defined.

Definition xeth_dev_kind_val (k : xeth_dev_kind) : Z :=
  match k with
  | XETH_DEV_KIND_UNSPEC => 0
  | XETH_DEV_KIND_PORT => 1
  | XETH_DEV_KIND_VLAN => 2
  | XETH_DEV_KIND_BRIDGE => 3
  | XETH_DEV_KIND_LAG => 4
  | XETH_DEV_KIND_LB => 5
  end.

Inductive xeth_msg_kind :=
| XETH_MSG_KIND_BREAK
| XETH_MSG_KIND_LINK_STAT
| XETH_MSG_KIND_ETHTOOL_STAT
| XETH_MSG_KIND_ETHTOOL_FLAGS
| XETH_MSG_KIND_ETHTOOL_SETTINGS
| XETH_MSG_KIND_ETHTOOL_LINK_MODES_SUPPORTED
| XETH_MSG_KIND_ETHTOOL_LINK_MODES_ADVERTISING
| XETH_MSG_KIND_ETHTOOL_LINK_MODES_LP_ADVERTISING
| XETH_MSG_KIND_DUMP_IFINFO
| XETH_MSG_KIND_CARRIER
| XETH_MSG_KIND_SPEED
| XETH_MSG_KIND_IFINFO
| XETH_MSG_KIND_IFA
| XETH_MSG_KIND_IFA6
| XETH_MSG_KIND_DUMP_FIBINFO
| XETH_MSG_KIND_FIBENTRY
| XETH_MSG_KIND_FIB6ENTRY
| XETH_MSG_KIND_NEIGH_UPDATE
| XETH_MSG_KIND_CHANGE_UPPER_XID
| XETH_MSG_KIND_NETNS_ADD
| XETH_MSG_KIND_NETNS_DEL.
#[export] Instance xeth_msg_kind_eq_dec : EqDecision xeth_msg_kind.
Proof. solve_decision. Defined.

Definition xeth_msg_kinds : list xeth_msg_kind :=
  [ XETH_MSG_KIND_BREAK; XETH_MSG_KIND_LINK_STAT; XETH_MSG_KIND_ETHTOOL_STAT;
    XETH_MSG_KIND_ETHTOOL_FLAGS; XETH_MSG_KIND_ETHTOOL_SETTINGS;
    XETH_MSG_KIND_ETHTOOL_LINK_MODES_SUPPORTED;
    XETH_MSG_KIND_ETHTOOL_LINK_MODES_ADVERTISING;
    XETH_MSG_KIND_ETHTOOL_LINK_MODES_LP_ADVERTISING; XETH_MSG_KIND_DUMP_IFINFO;
    XETH_MSG_KIND_CARRIER; XETH_MSG_KIND_SPEED; XETH_MSG_KIND_IFINFO;
    XETH_MSG_KIND_IFA; XETH_MSG_KIND_IFA6; XETH_MSG_KIND_DUMP_FIBINFO;
    XETH_MSG_KIND_FIBENTRY; XETH_MSG_KIND_FIB6ENTRY; XETH_MSG_KIND_NEIGH_UPDATE;
    XETH_MSG_KIND_CHANGE_UPPER_XID; XETH_MSG_KIND_NETNS_ADD; XETH_MSG_KIND_NETNS_DEL ].

Fixpoint index_of {A} `{EqDecision A} (x : A) (l : list A) : nat :=
  match l with
  | [] => 0
  | y :: l => if decide (x = y) then 0 else S (index_of x l)
  end.

(** The enumerator's value is its position. *)
Definition xeth_msg_kind_val (k : xeth_msg_kind) : Z := Z.of_nat (index_of k xeth_msg_kinds).
Definition xeth_msg_kind_of (z : Z) : option xeth_msg_kind :=
  if z <? 0 then None else xeth_msg_kinds !! Z.to_nat z.

Definition XETH_CARRIER_OFF : Z := 0.
Definition XETH_CARRIER_ON : Z := 1.

Inductive xeth_msg_ifinfo_reason :=
| XETH_IFINFO_REASON_NEW
| XETH_IFINFO_REASON_DEL
| XETH_IFINFO_REASON_UP
| XETH_IFINFO_REASON_DOWN
| XETH_IFINFO_REASON_DUMP
| XETH_IFINFO_REASON_REG
| XETH_IFINFO_REASON_UNREG
| XETH_IFINFO_REASON_FEATURES.
#[export] Instance xeth_msg_ifinfo_reason_eq_dec : EqDecision xeth_msg_ifinfo_reason.
Proof. solve_decision. Defined.

Definition xeth_msg_ifinfo_reason_val (r : xeth_msg_ifinfo_reason) : Z :=
  match r with
  | XETH_IFINFO_REASON_NEW => 0
  | XETH_IFINFO_REASON_DEL => 1
  | XETH_IFINFO_REASON_UP => 2
  | XETH_IFINFO_REASON_DOWN => 3
  | XETH_IFINFO_REASON_DUMP => 4
  | XETH_IFINFO_REASON_REG => 5
  | XETH_IFINFO_REASON_UNREG => 6
  | XETH_IFINFO_REASON_FEATURES => 7
  end.

Definition XETH_IFINFO_FEATURE_L2_FWD_OFFLOAD_BIT : Z := 0.

(** ** The message header *)

Record xeth_msg_header := {
  mh_z64 : Z; mh_z32 : Z; mh_z16 : Z; mh_version : Z; mh_kind : Z }.

Definition header_fmt : list field := [FUInt 8; FUInt 4; FUInt 2; FUInt 1; FUInt 1].
Definition header_vals (h : xeth_msg_header) : list value :=
  [VInt (mh_z64 h); VInt (mh_z32 h); VInt (mh_z16 h); VInt (mh_version h); VInt (mh_kind h)].
Definition header_of (vs : list value) : option xeth_msg_header :=
  match vs with
  | [VInt a; VInt b; VInt c; VInt d; VInt e] => Some (Build_xeth_msg_header a b c d e)
  | _ => None
  end.

Definition sizeof_header : nat := struct_size header_fmt.

(** A [struct xeth_msg_header *] cast of a buffer. *)
Definition header_at (bs : list Z) : option xeth_msg_header :=
  dec_struct header_fmt bs ≫= header_of.

Definition xeth_is_msg (h : xeth_msg_header) : bool :=
  (mh_z64 h =? 0) && (mh_z32 h =? 0) && (mh_z16 h =? 0).
Definition xeth_msg_version_match (h : xeth_msg_header) : bool :=
  mh_version h =? XETH_MSG_VERSION.
Definition xeth_msg_init (kind : xeth_msg_kind) : xeth_msg_header :=
  {| mh_z64 := 0; mh_z32 := 0; mh_z16 := 0;
     mh_version := XETH_MSG_VERSION; mh_kind := xeth_msg_kind_val kind |}.

(** ** Message bodies *)

(** What a message body promises: its fields after the header, and that the
    record and the field values determine each other. *)
Class Wire (A : Type) := {
  wire_fmt : list field;
  wire_vals : A -> list value;
  wire_of : list value -> option A;
}.
Class WireLaws (A : Type) `{!Wire A} : Prop := {
  wire_of_vals a : wire_of (wire_vals a) = Some a;
  wire_arity a : length (wire_vals a) = length (wire_fmt (A:=A));
}.
Arguments wire_fmt A {_}.

(** The values fit their C types. *)
Definition wire_wf {A} `{!Wire A} (a : A) : Prop := Forall2 field_wf (wire_fmt A) (wire_vals a).

Definition msg_size (A : Type) `{!Wire A} : nat := (sizeof_header + struct_size (wire_fmt A))%nat.

(** The image of a message: the header [xeth_msg_init] writes, then the body. *)
Definition msg_bytes {A} `{!Wire A} (kind : xeth_msg_kind) (a : A) : list Z :=
  enc_struct header_fmt (header_vals (xeth_msg_init kind)) ++ enc_struct (wire_fmt A) (wire_vals a).

(** The body of a received message: the struct cast past the header. *)
Definition msg_body (A : Type) `{!Wire A} (bs : list Z) : option A :=
  dec_struct (wire_fmt A) (drop sizeof_header bs) ≫= wire_of.

Record xeth_msg_empty := XethMsgEmpty {}.

Record xeth_msg_carrier := { carrier_xid : Z; carrier_flag : Z; carrier_pad : list Z }.

Record xeth_msg_change_upper_xid := {
  cu_upper : Z; cu_lower : Z; cu_linking : Z; cu_pad : list Z }.

Record xeth_msg_ethtool_flags := { etf_xid : Z; etf_flags : Z }.

Record xeth_msg_ethtool_settings := {
  ets_xid : Z; ets_speed : Z; ets_duplex : Z; ets_port : Z; ets_phy_address : Z;
  ets_autoneg : Z; ets_mdio_support : Z; ets_eth_tp_mdix : Z; ets_eth_tp_mdix_ctrl : Z;
  ets_pad : Z }.

Record xeth_msg_ethtool_link_modes := { etm_xid : Z; etm_reserved : Z; etm_modes : Z }.

Record xeth_next_hop := {
  nh_ifindex : Z; nh_weight : Z; nh_flags : Z; nh_gw : Z; nh_scope : Z; nh_pad : list Z }.

Record xeth_msg_fibentry := {
  fe_net : Z; fe_address : Z; fe_mask : Z; fe_event : Z; fe_nhs : Z; fe_tos : Z;
  fe_type : Z; fe_table : Z }.

Record xeth_next_hop6 := {
  nh6_ifindex : Z; nh6_weight : Z; nh6_flags : Z; nh6_reserved : Z; nh6_gw : list Z }.

Record xeth_msg_fib6entry := {
  f6_net : Z; f6_address : list Z; f6_length : Z; f6_event : Z; f6_nsiblings : Z;
  f6_type : Z; f6_table : Z; f6_nh : xeth_next_hop6 }.

Record xeth_msg_ifa := { ifa_xid : Z; ifa_event : Z; ifa_address : Z; ifa_mask : Z }.

Record xeth_msg_ifa6 := {
  ifa6_xid : Z; ifa6_event : Z; ifa6_address : list Z; ifa6_length : Z; ifa6_pad : list Z }.

Record xeth_msg_ifinfo := {
  ii_xid : Z; ii_kdata : Z; ii_ifname : list Z; ii_net : Z; ii_ifindex : Z; ii_flags : Z;
  ii_addr : list Z; ii_kind : Z; ii_reason : Z; ii_features : Z }.

Record xeth_msg_neigh_update := {
  nu_net : Z; nu_ifindex : Z; nu_family : Z; nu_len : Z; nu_reserved : Z;
  nu_dst : list Z; nu_lladdr : list Z; nu_pad : list Z }.

Record xeth_msg_netns := { ns_net : Z }.
Record xeth_msg_speed := { sp_xid : Z; sp_mbps : Z }.
Record xeth_msg_stat := { st_xid : Z; st_index : Z; st_count : Z }.

#[export] Instance wire_empty : Wire xeth_msg_empty := {|
  wire_fmt := [];
  wire_vals _ := [];
  wire_of vs := match vs with [] => Some (XethMsgEmpty) | _ => None end |}.

#[export] Instance wire_carrier : Wire xeth_msg_carrier := {|
  wire_fmt := [FUInt 4; FUInt 1; FBytes 3];
  wire_vals m := [VInt (carrier_xid m); VInt (carrier_flag m); VBytes (carrier_pad m)];
  wire_of vs := match vs with
    | [VInt a; VInt b; VBytes c] => Some (Build_xeth_msg_carrier a b c)
    | _ => None end |}.

#[export] Instance wire_change_upper : Wire xeth_msg_change_upper_xid := {|
  wire_fmt := [FUInt 4; FUInt 4; FUInt 1; FBytes 7];
  wire_vals m := [VInt (cu_upper m); VInt (cu_lower m); VInt (cu_linking m); VBytes (cu_pad m)];
  wire_of vs := match vs with
    | [VInt a; VInt b; VInt c; VBytes d] => Some (Build_xeth_msg_change_upper_xid a b c d)
    | _ => None end |}.

#[export] Instance wire_ethtool_flags : Wire xeth_msg_ethtool_flags := {|
  wire_fmt := [FUInt 4; FUInt 4];
  wire_vals m := [VInt (etf_xid m); VInt (etf_flags m)];
  wire_of vs := match vs with
    | [VInt a; VInt b] => Some (Build_xeth_msg_ethtool_flags a b)
    | _ => None end |}.

#[export] Instance wire_ethtool_settings : Wire xeth_msg_ethtool_settings := {|
  wire_fmt := [FUInt 4; FUInt 4; FUInt 1; FUInt 1; FUInt 1; FUInt 1; FUInt 1; FUInt 1; FUInt 1;
               FUInt 1];
  wire_vals m := [VInt (ets_xid m); VInt (ets_speed m); VInt (ets_duplex m); VInt (ets_port m);
    VInt (ets_phy_address m); VInt (ets_autoneg m); VInt (ets_mdio_support m);
    VInt (ets_eth_tp_mdix m); VInt (ets_eth_tp_mdix_ctrl m); VInt (ets_pad m)];
  wire_of vs := match vs with
    | [VInt a; VInt b; VInt c; VInt d; VInt e; VInt f; VInt g; VInt h; VInt i; VInt j] =>
        Some (Build_xeth_msg_ethtool_settings a b c d e f g h i j)
    | _ => None end |}.

#[export] Instance wire_ethtool_link_modes : Wire xeth_msg_ethtool_link_modes := {|
  wire_fmt := [FUInt 4; FUInt 4; FUInt 8];
  wire_vals m := [VInt (etm_xid m); VInt (etm_reserved m); VInt (etm_modes m)];
  wire_of vs := match vs with
    | [VInt a; VInt b; VInt c] => Some (Build_xeth_msg_ethtool_link_modes a b c)
    | _ => None end |}.

#[export] Instance wire_next_hop : Wire xeth_next_hop := {|
  wire_fmt := [FSInt 4; FSInt 4; FUInt 4; FUInt 4; FUInt 1; FBytes 7];
  wire_vals m := [VInt (nh_ifindex m); VInt (nh_weight m); VInt (nh_flags m); VInt (nh_gw m);
    VInt (nh_scope m); VBytes (nh_pad m)];
  wire_of vs := match vs with
    | [VInt a; VInt b; VInt c; VInt d; VInt e; VBytes f] =>
        Some (Build_xeth_next_hop a b c d e f)
    | _ => None end |}.

#[export] Instance wire_fibentry : Wire xeth_msg_fibentry := {|
  wire_fmt := [FUInt 8; FUInt 4; FUInt 4; FUInt 1; FUInt 1; FUInt 1; FUInt 1; FUInt 4];
  wire_vals m := [VInt (fe_net m); VInt (fe_address m); VInt (fe_mask m); VInt (fe_event m);
    VInt (fe_nhs m); VInt (fe_tos m); VInt (fe_type m); VInt (fe_table m)];
  wire_of vs := match vs with
    | [VInt a; VInt b; VInt c; VInt d; VInt e; VInt f; VInt g; VInt h] =>
        Some (Build_xeth_msg_fibentry a b c d e f g h)
    | _ => None end |}.

#[export] Instance wire_next_hop6 : Wire xeth_next_hop6 := {|
  wire_fmt := [FSInt 4; FSInt 4; FUInt 4; FUInt 4; FBytes 16];
  wire_vals m := [VInt (nh6_ifindex m); VInt (nh6_weight m); VInt (nh6_flags m);
    VInt (nh6_reserved m); VBytes (nh6_gw m)];
  wire_of vs := match vs with
    | [VInt a; VInt b; VInt c; VInt d; VBytes e] => Some (Build_xeth_next_hop6 a b c d e)
    | _ => None end |}.

#[export] Instance wire_fib6entry : Wire xeth_msg_fib6entry := {|
  wire_fmt := [FUInt 8; FBytes 16; FUInt 1; FUInt 1; FUInt 1; FUInt 1; FUInt 4] ++
    wire_fmt xeth_next_hop6;
  wire_vals m := [VInt (f6_net m); VBytes (f6_address m); VInt (f6_length m); VInt (f6_event m);
    VInt (f6_nsiblings m); VInt (f6_type m); VInt (f6_table m)] ++ wire_vals (f6_nh m);
  wire_of vs := match vs with
    | VInt a :: VBytes b :: VInt c :: VInt d :: VInt e :: VInt f :: VInt g :: rest =>
        nh ← wire_of rest; Some (Build_xeth_msg_fib6entry a b c d e f g nh)
    | _ => None end |}.

#[export] Instance wire_ifa : Wire xeth_msg_ifa := {|
  wire_fmt := [FUInt 4; FUInt 4; FUInt 4; FUInt 4];
  wire_vals m := [VInt (ifa_xid m); VInt (ifa_event m); VInt (ifa_address m); VInt (ifa_mask m)];
  wire_of vs := match vs with
    | [VInt a; VInt b; VInt c; VInt d] => Some (Build_xeth_msg_ifa a b c d)
    | _ => None end |}.

#[export] Instance wire_ifa6 : Wire xeth_msg_ifa6 := {|
  wire_fmt := [FUInt 4; FUInt 4; FBytes 16; FUInt 1; FBytes 7];
  wire_vals m := [VInt (ifa6_xid m); VInt (ifa6_event m); VBytes (ifa6_address m);
    VInt (ifa6_length m); VBytes (ifa6_pad m)];
  wire_of vs := match vs with
    | [VInt a; VInt b; VBytes c; VInt d; VBytes e] => Some (Build_xeth_msg_ifa6 a b c d e)
    | _ => None end |}.

#[export] Instance wire_ifinfo : Wire xeth_msg_ifinfo := {|
  wire_fmt := [FUInt 4; FUInt 4; FBytes XETH_IFNAMSIZ; FUInt 8; FSInt 4; FUInt 4;
    FBytes XETH_ALEN; FUInt 1; FUInt 1; FUInt 8];
  wire_vals m := [VInt (ii_xid m); VInt (ii_kdata m); VBytes (ii_ifname m); VInt (ii_net m);
    VInt (ii_ifindex m); VInt (ii_flags m); VBytes (ii_addr m); VInt (ii_kind m);
    VInt (ii_reason m); VInt (ii_features m)];
  wire_of vs := match vs with
    | [VInt a; VInt b; VBytes c; VInt d; VInt e; VInt f; VBytes g; VInt h; VInt i; VInt j] =>
        Some (Build_xeth_msg_ifinfo a b c d e f g h i j)
    | _ => None end |}.

#[export] Instance wire_neigh_update : Wire xeth_msg_neigh_update := {|
  wire_fmt := [FUInt 8; FSInt 4; FUInt 1; FUInt 1; FUInt 2; FBytes 16; FBytes XETH_ALEN;
    FBytes (8 - XETH_ALEN)];
  wire_vals m := [VInt (nu_net m); VInt (nu_ifindex m); VInt (nu_family m); VInt (nu_len m);
    VInt (nu_reserved m); VBytes (nu_dst m); VBytes (nu_lladdr m); VBytes (nu_pad m)];
  wire_of vs := match vs with
    | [VInt a; VInt b; VInt c; VInt d; VInt e; VBytes f; VBytes g; VBytes h] =>
        Some (Build_xeth_msg_neigh_update a b c d e f g h)
    | _ => None end |}.

#[export] Instance wire_netns : Wire xeth_msg_netns := {|
  wire_fmt := [FUInt 8];
  wire_vals m := [VInt (ns_net m)];
  wire_of vs := match vs with [VInt a] => Some (Build_xeth_msg_netns a) | _ => None end |}.

#[export] Instance wire_speed : Wire xeth_msg_speed := {|
  wire_fmt := [FUInt 4; FUInt 4];
  wire_vals m := [VInt (sp_xid m); VInt (sp_mbps m)];
  wire_of vs := match vs with
    | [VInt a; VInt b] => Some (Build_xeth_msg_speed a b) | _ => None end |}.

#[export] Instance wire_stat : Wire xeth_msg_stat := {|
  wire_fmt := [FUInt 4; FUInt 4; FUInt 8];
  wire_vals m := [VInt (st_xid m); VInt (st_index m); VInt (st_count m)];
  wire_of vs := match vs with
    | [VInt a; VInt b; VInt c] => Some (Build_xeth_msg_stat a b c) | _ => None end |}.

Ltac wire_laws := split; intros []; reflexivity.
#[export] Instance wire_empty_laws : WireLaws xeth_msg_empty. Proof. wire_laws. Qed.
#[export] Instance wire_carrier_laws : WireLaws xeth_msg_carrier. Proof. wire_laws. Qed.
#[export] Instance wire_change_upper_laws : WireLaws xeth_msg_change_upper_xid. Proof. wire_laws. Qed.
#[export] Instance wire_ethtool_flags_laws : WireLaws xeth_msg_ethtool_flags. Proof. wire_laws. Qed.
#[export] Instance wire_ethtool_settings_laws : WireLaws xeth_msg_ethtool_settings.
Proof. wire_laws. Qed.
#[export] Instance wire_ethtool_link_modes_laws : WireLaws xeth_msg_ethtool_link_modes.
Proof. wire_laws. Qed.
#[export] Instance wire_next_hop_laws : WireLaws xeth_next_hop. Proof. wire_laws. Qed.
#[export] Instance wire_fibentry_laws : WireLaws xeth_msg_fibentry. Proof. wire_laws. Qed.
#[export] Instance wire_next_hop6_laws : WireLaws xeth_next_hop6. Proof. wire_laws. Qed.
#[export] Instance wire_fib6entry_laws : WireLaws xeth_msg_fib6entry.
Proof. split; intros [??????? []]; reflexivity. Qed.
#[export] Instance wire_ifa_laws : WireLaws xeth_msg_ifa. Proof. wire_laws. Qed.
#[export] Instance wire_ifa6_laws : WireLaws xeth_msg_ifa6. Proof. wire_laws. Qed.
#[export] Instance wire_ifinfo_laws : WireLaws xeth_msg_ifinfo. Proof. wire_laws. Qed.
#[export] Instance wire_neigh_update_laws : WireLaws xeth_msg_neigh_update. Proof. wire_laws. Qed.
#[export] Instance wire_netns_laws : WireLaws xeth_msg_netns. Proof. wire_laws. Qed.
#[export] Instance wire_speed_laws : WireLaws xeth_msg_speed. Proof. wire_laws. Qed.
#[export] Instance wire_stat_laws : WireLaws xeth_msg_stat. Proof. wire_laws. Qed.

(** ** Lemmas *)

Lemma xeth_msg_kind_of_val k : xeth_msg_kind_of (xeth_msg_kind_val k) = Some k.
Proof. destruct k; reflexivity. Qed.

Lemma xeth_msg_kind_val_bound k : 0 <= xeth_msg_kind_val k < 256.
Proof. destruct k; vm_compute; split; congruence. Qed.

Lemma header_init_wf k : Forall2 field_wf header_fmt (header_vals (xeth_msg_init k)).
Proof.
  pose proof (xeth_msg_kind_val_bound k).
  repeat constructor; simpl; unfold XETH_MSG_VERSION; lia.
Qed.

Lemma length_header_init k :
  length (enc_struct header_fmt (header_vals (xeth_msg_init k))) = sizeof_header.
Proof. by apply length_enc_struct. Qed.

Section wire.
Context {A : Type} `{!Wire A, !WireLaws A}.

Lemma length_msg_bytes k (a : A) : length (msg_bytes k a) = msg_size A.
Proof.
  unfold msg_bytes. rewrite length_app, length_header_init, length_enc_struct; [done|].
  by rewrite wire_arity.
Qed.

Lemma header_at_msg_bytes k (a : A) rest :
  header_at (msg_bytes k a ++ rest) = Some (xeth_msg_init k).
Proof.
  unfold header_at, msg_bytes. rewrite <- app_assoc.
  by rewrite dec_enc_struct by apply header_init_wf.
Qed.

Lemma msg_body_msg_bytes k (a : A) rest :
  wire_wf a -> msg_body A (msg_bytes k a ++ rest) = Some a.
Proof.
  intros Hwf. unfold msg_body, msg_bytes.
  rewrite <- app_assoc, drop_app_length' by (by rewrite length_header_init).
  rewrite dec_enc_struct by done. apply wire_of_vals.
Qed.

Lemma msg_bytes_ok k (a : A) : wire_wf a -> bytes_ok (msg_bytes k a).
Proof.
  intros. apply Forall_app_2; apply enc_struct_ok; [apply header_init_wf|done].
Qed.
End wire.

(** ** Layout *)

(** The C alignment of a field, and that fields one after the other, from offset
    [off] on, are each at a multiple of theirs: the compiler inserts no padding. *)
Definition falign (f : field) : nat :=
  match f with FUInt n | FSInt n => n | FBytes _ => 1 end.
Fixpoint unpadded (off : nat) (fmt : list field) : bool :=
  match fmt with
  | [] => (off mod 8 =? 0)%nat
  | f :: fmt => (off mod falign f =? 0)%nat && unpadded (off + fsize f) fmt
  end.

Definition message_fmts : list (list field) :=
  [wire_fmt xeth_msg_empty; wire_fmt xeth_msg_carrier; wire_fmt xeth_msg_change_upper_xid;
   wire_fmt xeth_msg_ethtool_flags; wire_fmt xeth_msg_ethtool_settings;
   wire_fmt xeth_msg_ethtool_link_modes; wire_fmt xeth_msg_fibentry; wire_fmt xeth_msg_fib6entry;
   wire_fmt xeth_msg_ifa; wire_fmt xeth_msg_ifa6; wire_fmt xeth_msg_ifinfo;
   wire_fmt xeth_msg_neigh_update; wire_fmt xeth_msg_netns; wire_fmt xeth_msg_speed;
   wire_fmt xeth_msg_stat].

(** C18: Every message of the protocol, with values that fit their C types, is an
    image of the size of its struct, of bytes, that its receiver tells for a
    message of this version and of its kind, and reads back as it was, whatever
    follows it; and the structs have no padding, next hops behind them included, so
    that the image is the struct. *)
Theorem message_layout :
  (forall A `{!Wire A, !WireLaws A} k (a : A) rest, wire_wf a ->
    length (msg_bytes k a) = msg_size A /\ bytes_ok (msg_bytes k a) /\
    msg_body A (msg_bytes k a ++ rest) = Some a /\
    exists h, header_at (msg_bytes k a ++ rest) = Some h /\ xeth_is_msg h = true /\
      xeth_msg_version_match h = true /\ xeth_msg_kind_of (mh_kind h) = Some k) /\
  Forall (fun fmt => unpadded sizeof_header fmt = true) message_fmts /\
  unpadded (msg_size xeth_msg_fibentry) (wire_fmt xeth_next_hop) = true /\
  unpadded (msg_size xeth_msg_fib6entry) (wire_fmt xeth_next_hop6) = true.
Proof.
  split; [|split; [repeat constructor|done]].
  intros A ? ? k a rest Hwf. split; [apply length_msg_bytes|]. split; [by apply msg_bytes_ok|].
  split; [by apply msg_body_msg_bytes|]. eexists. split; [apply header_at_msg_bytes|].
  split; [done|]. split; [done|]. apply xeth_msg_kind_of_val.
Qed.

Lemma message_layout_witness :
  msg_body xeth_msg_speed (msg_bytes XETH_MSG_KIND_SPEED {| sp_xid := 3999; sp_mbps := 100000 |} ++ [7]) =
    Some {| sp_xid := 3999; sp_mbps := 100000 |}.
Proof.
  destruct message_layout as [T _].
  apply (T xeth_msg_speed _ _ XETH_MSG_KIND_SPEED {| sp_xid := 3999; sp_mbps := 100000 |} [7]).
  repeat constructor; vm_compute; discriminate.
Defined.
