(* ===== verification/State.v ===== *)
(** * The driver's state

    The data of dkms/xeth.h, of the private structs of dkms/xeth_mux.c,
    xeth_port.c, xeth_vlan.c and xeth_lb.c, and what the driver reads and
    writes of the kernel's [struct net_device].  A pointer to a net_device is
    an address ([Z]) in the store [w_devs]; a proxy lives in the private area
    of its net_device, so a [struct xeth_proxy *] is the address of its
    net_device.  One [world] is one mux, the devices of the machine, the
    network namespaces, the allocations that will succeed ([w_kmem]), the
    messages the side-band socket has taken ([w_wire]), what became of the
    frames ([w_io]), the devices queued for removal ([w_unregq]), the references
    to devices the driver holds ([w_refs]), and whether the mux has its sysfs
    file ([w_stat_file]). *)

From stdpp Require Import base numbers list gmap.
From Stdlib Require Import ZArith Lia.
From S2P Require Import Prelude Bytes Monad Uapi.

Local Open Scope Z_scope.

(** ** Kernel constants the driver uses *)

Definition IFF_UP : Z := Z.shiftl 1 0.
Definition IFF_MASTER : Z := Z.shiftl 1 10.
Definition IFF_SLAVE : Z := Z.shiftl 1 11.
Definition IFF_TEAM_PORT : Z := Z.shiftl 1 13.
Definition IFF_DONT_BRIDGE : Z := Z.shiftl 1 6.
Definition IFF_LIVE_ADDR_CHANGE : Z := Z.shiftl 1 15.
Definition IFF_TX_SKB_SHARING : Z := Z.shiftl 1 11.
Definition IFF_NO_QUEUE : Z := Z.shiftl 1 19.
Definition IFF_PHONY_HEADROOM : Z := Z.shiftl 1 24.
Definition NET_ADDR_PERM : Z := 0.
Definition NET_ADDR_RANDOM : Z := 1.
Definition NET_ADDR_STOLEN : Z := 2.
Definition IFNAMSIZ : nat := 16.
Definition ETH_ALEN : nat := 6.
Definition ETH_GSTRING_LEN : nat := 32.
Definition NETDEV_UP : Z := 1.

(** A bit test [x & flag] of C. *)
Definition has_flag (x flag : Z) : bool := negb (Z.land x flag =? 0).

(** ** Network namespaces *)

(** [struct net]: its address and its inode number. *)
Record net := { net_addr : Z; net_inum : Z }.
#[export] Instance net_eq_dec : EqDecision net.
Proof. solve_decision. Defined.

(** The address of [init_net]. *)
Definition init_net : Z := 0.

Definition net_eq (n : net) (addr : Z) : bool := net_addr n =? addr.

(** ** Ports *)

(** [struct ethtool_link_ksettings], its bitmaps as bit sets. *)

Record ksettings := {
  ks_speed : Z;
  ks_duplex : Z;
  ks_port : Z;
  ks_phy_address : Z;
  ks_autoneg : Z;
  ks_mdio_support : Z;
  ks_eth_tp_mdix : Z;
  ks_eth_tp_mdix_ctrl : Z;
  ks_supported : Z;
  ks_advertising : Z
}.

Definition upd_ks_speed (h : Z -> Z) (r : ksettings) : ksettings :=
  {| ks_speed := h (ks_speed r); ks_duplex := ks_duplex r; ks_port := ks_port r;
     ks_phy_address := ks_phy_address r; ks_autoneg := ks_autoneg r; ks_mdio_support :=
     ks_mdio_support r; ks_eth_tp_mdix := ks_eth_tp_mdix r; ks_eth_tp_mdix_ctrl :=
     ks_eth_tp_mdix_ctrl r; ks_supported := ks_supported r; ks_advertising := ks_advertising
     r |}.
Definition upd_ks_duplex (h : Z -> Z) (r : ksettings) : ksettings :=
  {| ks_speed := ks_speed r; ks_duplex := h (ks_duplex r); ks_port := ks_port r;
     ks_phy_address := ks_phy_address r; ks_autoneg := ks_autoneg r; ks_mdio_support :=
     ks_mdio_support r; ks_eth_tp_mdix := ks_eth_tp_mdix r; ks_eth_tp_mdix_ctrl :=
     ks_eth_tp_mdix_ctrl r; ks_supported := ks_supported r; ks_advertising := ks_advertising
     r |}.
Definition upd_ks_port (h : Z -> Z) (r : ksettings) : ksettings :=
  {| ks_speed := ks_speed r; ks_duplex := ks_duplex r; ks_port := h (ks_port r);
     ks_phy_address := ks_phy_address r; ks_autoneg := ks_autoneg r; ks_mdio_support :=
     ks_mdio_support r; ks_eth_tp_mdix := ks_eth_tp_mdix r; ks_eth_tp_mdix_ctrl :=
     ks_eth_tp_mdix_ctrl r; ks_supported := ks_supported r; ks_advertising := ks_advertising
     r |}.
Definition upd_ks_phy_address (h : Z -> Z) (r : ksettings) : ksettings :=
  {| ks_speed := ks_speed r; ks_duplex := ks_duplex r; ks_port := ks_port r; ks_phy_address
     := h (ks_phy_address r); ks_autoneg := ks_autoneg r; ks_mdio_support := ks_mdio_support
     r; ks_eth_tp_mdix := ks_eth_tp_mdix r; ks_eth_tp_mdix_ctrl := ks_eth_tp_mdix_ctrl r;
     ks_supported := ks_supported r; ks_advertising := ks_advertising r |}.
Definition upd_ks_autoneg (h : Z -> Z) (r : ksettings) : ksettings :=
  {| ks_speed := ks_speed r; ks_duplex := ks_duplex r; ks_port := ks_port r; ks_phy_address
     := ks_phy_address r; ks_autoneg := h (ks_autoneg r); ks_mdio_support := ks_mdio_support
     r; ks_eth_tp_mdix := ks_eth_tp_mdix r; ks_eth_tp_mdix_ctrl := ks_eth_tp_mdix_ctrl r;
     ks_supported := ks_supported r; ks_advertising := ks_advertising r |}.
Definition upd_ks_mdio_support (h : Z -> Z) (r : ksettings) : ksettings :=
  {| ks_speed := ks_speed r; ks_duplex := ks_duplex r; ks_port := ks_port r; ks_phy_address
     := ks_phy_address r; ks_autoneg := ks_autoneg r; ks_mdio_support := h (ks_mdio_support
     r); ks_eth_tp_mdix := ks_eth_tp_mdix r; ks_eth_tp_mdix_ctrl := ks_eth_tp_mdix_ctrl r;
     ks_supported := ks_supported r; ks_advertising := ks_advertising r |}.
Definition upd_ks_eth_tp_mdix (h : Z -> Z) (r : ksettings) : ksettings :=
  {| ks_speed := ks_speed r; ks_duplex := ks_duplex r; ks_port := ks_port r; ks_phy_address
     := ks_phy_address r; ks_autoneg := ks_autoneg r; ks_mdio_support := ks_mdio_support r;
     ks_eth_tp_mdix := h (ks_eth_tp_mdix r); ks_eth_tp_mdix_ctrl := ks_eth_tp_mdix_ctrl r;
     ks_supported := ks_supported r; ks_advertising := ks_advertising r |}.
Definition upd_ks_eth_tp_mdix_ctrl (h : Z -> Z) (r : ksettings) : ksettings :=
  {| ks_speed := ks_speed r; ks_duplex := ks_duplex r; ks_port := ks_port r; ks_phy_address
     := ks_phy_address r; ks_autoneg := ks_autoneg r; ks_mdio_support := ks_mdio_support r;
     ks_eth_tp_mdix := ks_eth_tp_mdix r; ks_eth_tp_mdix_ctrl := h (ks_eth_tp_mdix_ctrl r);
     ks_supported := ks_supported r; ks_advertising := ks_advertising r |}.
Definition upd_ks_supported (h : Z -> Z) (r : ksettings) : ksettings :=
  {| ks_speed := ks_speed r; ks_duplex := ks_duplex r; ks_port := ks_port r; ks_phy_address
     := ks_phy_address r; ks_autoneg := ks_autoneg r; ks_mdio_support := ks_mdio_support r;
     ks_eth_tp_mdix := ks_eth_tp_mdix r; ks_eth_tp_mdix_ctrl := ks_eth_tp_mdix_ctrl r;
     ks_supported := h (ks_supported r); ks_advertising := ks_advertising r |}.
Definition upd_ks_advertising (h : Z -> Z) (r : ksettings) : ksettings :=
  {| ks_speed := ks_speed r; ks_duplex := ks_duplex r; ks_port := ks_port r; ks_phy_address
     := ks_phy_address r; ks_autoneg := ks_autoneg r; ks_mdio_support := ks_mdio_support r;
     ks_eth_tp_mdix := ks_eth_tp_mdix r; ks_eth_tp_mdix_ctrl := ks_eth_tp_mdix_ctrl r;
     ks_supported := ks_supported r; ks_advertising := h (ks_advertising r) |}.

(** [struct xeth_port_ext], allocated behind the private area of the first subport only. *)
Record xeth_port_ext := {
  pe_qsfp : option Z;
  pe_priv_flags : Z;
  pe_stats : list Z
}.

Definition upd_pe_qsfp (h : (option Z) -> (option Z)) (r : xeth_port_ext) : xeth_port_ext :=
  {| pe_qsfp := h (pe_qsfp r); pe_priv_flags := pe_priv_flags r; pe_stats := pe_stats r |}.
Definition upd_pe_priv_flags (h : Z -> Z) (r : xeth_port_ext) : xeth_port_ext :=
  {| pe_qsfp := pe_qsfp r; pe_priv_flags := h (pe_priv_flags r); pe_stats := pe_stats r |}.
Definition upd_pe_stats (h : (list Z) -> (list Z)) (r : xeth_port_ext) : xeth_port_ext :=
  {| pe_qsfp := pe_qsfp r; pe_priv_flags := pe_priv_flags r; pe_stats := h (pe_stats r) |}.

(** [struct xeth_port_priv]; [pp_ext] is [None] where the flexible array has no element. *)
Record xeth_port_priv := {
  pp_port : Z;
  pp_subport : Z;
  pp_ksettings : ksettings;
  pp_ext : option xeth_port_ext
}.

Definition upd_pp_port (h : Z -> Z) (r : xeth_port_priv) : xeth_port_priv :=
  {| pp_port := h (pp_port r); pp_subport := pp_subport r; pp_ksettings := pp_ksettings r;
     pp_ext := pp_ext r |}.
Definition upd_pp_subport (h : Z -> Z) (r : xeth_port_priv) : xeth_port_priv :=
  {| pp_port := pp_port r; pp_subport := h (pp_subport r); pp_ksettings := pp_ksettings r;
     pp_ext := pp_ext r |}.
Definition upd_pp_ksettings (h : ksettings -> ksettings) (r : xeth_port_priv) : xeth_port_priv :=
  {| pp_port := pp_port r; pp_subport := pp_subport r; pp_ksettings := h (pp_ksettings r);
     pp_ext := pp_ext r |}.
Definition upd_pp_ext (h : (option xeth_port_ext) -> (option xeth_port_ext)) (r : xeth_port_priv) : xeth_port_priv :=
  {| pp_port := pp_port r; pp_subport := pp_subport r; pp_ksettings := pp_ksettings r;
     pp_ext := h (pp_ext r) |}.

(** ** Proxies *)

(** What follows the [struct xeth_proxy] in the private area of each kind of device. *)
Inductive proxy_priv :=
| PrivPort (p : xeth_port_priv)
| PrivVlan (link : option Z)
| PrivBridge
| PrivLag
| PrivLb (chan : Z).

(** [struct xeth_proxy]; its [nd] is its own address, its list nodes are in the mux. *)
Record xeth_proxy := {
  px_mux : option Z;
  px_kind : xeth_dev_kind;
  px_xid : Z;
  px_link_stats : list Z;
  px_priv : proxy_priv
}.

Definition upd_px_mux (h : (option Z) -> (option Z)) (r : xeth_proxy) : xeth_proxy :=
  {| px_mux := h (px_mux r); px_kind := px_kind r; px_xid := px_xid r; px_link_stats :=
     px_link_stats r; px_priv := px_priv r |}.
Definition upd_px_kind (h : xeth_dev_kind -> xeth_dev_kind) (r : xeth_proxy) : xeth_proxy :=
  {| px_mux := px_mux r; px_kind := h (px_kind r); px_xid := px_xid r; px_link_stats :=
     px_link_stats r; px_priv := px_priv r |}.
Definition upd_px_xid (h : Z -> Z) (r : xeth_proxy) : xeth_proxy :=
  {| px_mux := px_mux r; px_kind := px_kind r; px_xid := h (px_xid r); px_link_stats :=
     px_link_stats r; px_priv := px_priv r |}.
Definition upd_px_link_stats (h : (list Z) -> (list Z)) (r : xeth_proxy) : xeth_proxy :=
  {| px_mux := px_mux r; px_kind := px_kind r; px_xid := px_xid r; px_link_stats := h
     (px_link_stats r); px_priv := px_priv r |}.
Definition upd_px_priv (h : proxy_priv -> proxy_priv) (r : xeth_proxy) : xeth_proxy :=
  {| px_mux := px_mux r; px_kind := px_kind r; px_xid := px_xid r; px_link_stats :=
     px_link_stats r; px_priv := h (px_priv r) |}.

(** ** Network devices *)

(** The identities of the [net_device_ops], [rtnl_link_ops] and [ethtool_ops] tables. *)
Inductive ndo := NdoMux | NdoPort | NdoVlan | NdoBridge | NdoLag | NdoLb | NdoOther.
Inductive lnko := LnkoMux | LnkoPort | LnkoVlan | LnkoBridge | LnkoLag | LnkoLb | LnkoOther.
Inductive eto := EtoMux | EtoPort | EtoSubport | EtoVlan | EtoBridge | EtoLag | EtoLb.
#[export] Instance ndo_eq_dec : EqDecision ndo.
Proof. solve_decision. Defined.
#[export] Instance lnko_eq_dec : EqDecision lnko.
Proof. solve_decision. Defined.

(** An IPv4 and an IPv6 address of a device. *)
Record in_ifaddr := { in_address : Z; in_mask : Z }.
Record inet6_ifaddr := { in6_addr : list Z; in6_prefix_len : Z }.

Record net_device := {
  nd_name : list Z;
  nd_ifindex : Z;
  nd_flags : Z;
  nd_priv_flags : Z;
  nd_features : Z;
  nd_hw_features : Z;
  nd_carrier : bool;
  nd_addr : list Z;
  nd_mtu : Z;
  nd_min_mtu : Z;
  nd_max_mtu : Z;
  nd_net : net;
  nd_ops : ndo;
  nd_lnko : option lnko;
  nd_master : option Z;
  nd_lowers : list Z;
  nd_ifas : option (list in_ifaddr);
  nd_ifa6s : option (list inet6_ifaddr);
  nd_registered : bool;
  nd_needs_free : bool;
  nd_addr_assign_type : Z;
  nd_eto : option eto;
  nd_promiscuity : Z;
  nd_rx_handler : option Z;
  nd_proxy : option xeth_proxy
}.

Definition upd_nd_name (h : (list Z) -> (list Z)) (r : net_device) : net_device :=
  {| nd_name := h (nd_name r); nd_ifindex := nd_ifindex r; nd_flags := nd_flags r;
     nd_priv_flags := nd_priv_flags r; nd_features := nd_features r; nd_hw_features :=
     nd_hw_features r; nd_carrier := nd_carrier r; nd_addr := nd_addr r; nd_mtu := nd_mtu r;
     nd_min_mtu := nd_min_mtu r; nd_max_mtu := nd_max_mtu r; nd_net := nd_net r; nd_ops :=
     nd_ops r; nd_lnko := nd_lnko r; nd_master := nd_master r; nd_lowers := nd_lowers r;
     nd_ifas := nd_ifas r; nd_ifa6s := nd_ifa6s r; nd_registered := nd_registered r;
     nd_needs_free := nd_needs_free r; nd_addr_assign_type := nd_addr_assign_type r; nd_eto
     := nd_eto r; nd_promiscuity := nd_promiscuity r; nd_rx_handler := nd_rx_handler r;
     nd_proxy := nd_proxy r |}.
Definition upd_nd_ifindex (h : Z -> Z) (r : net_device) : net_device :=
  {| nd_name := nd_name r; nd_ifindex := h (nd_ifindex r); nd_flags := nd_flags r;
     nd_priv_flags := nd_priv_flags r; nd_features := nd_features r; nd_hw_features :=
     nd_hw_features r; nd_carrier := nd_carrier r; nd_addr := nd_addr r; nd_mtu := nd_mtu r;
     nd_min_mtu := nd_min_mtu r; nd_max_mtu := nd_max_mtu r; nd_net := nd_net r; nd_ops :=
     nd_ops r; nd_lnko := nd_lnko r; nd_master := nd_master r; nd_lowers := nd_lowers r;
     nd_ifas := nd_ifas r; nd_ifa6s := nd_ifa6s r; nd_registered := nd_registered r;
     nd_needs_free := nd_needs_free r; nd_addr_assign_type := nd_addr_assign_type r; nd_eto
     := nd_eto r; nd_promiscuity := nd_promiscuity r; nd_rx_handler := nd_rx_handler r;
     nd_proxy := nd_proxy r |}.
Definition upd_nd_flags (h : Z -> Z) (r : net_device) : net_device :=
  {| nd_name := nd_name r; nd_ifindex := nd_ifindex r; nd_flags := h (nd_flags r);
     nd_priv_flags := nd_priv_flags r; nd_features := nd_features r; nd_hw_features :=
     nd_hw_features r; nd_carrier := nd_carrier r; nd_addr := nd_addr r; nd_mtu := nd_mtu r;
     nd_min_mtu := nd_min_mtu r; nd_max_mtu := nd_max_mtu r; nd_net := nd_net r; nd_ops :=
     nd_ops r; nd_lnko := nd_lnko r; nd_master := nd_master r; nd_lowers := nd_lowers r;
     nd_ifas := nd_ifas r; nd_ifa6s := nd_ifa6s r; nd_registered := nd_registered r;
     nd_needs_free := nd_needs_free r; nd_addr_assign_type := nd_addr_assign_type r; nd_eto
     := nd_eto r; nd_promiscuity := nd_promiscuity r; nd_rx_handler := nd_rx_handler r;
     nd_proxy := nd_proxy r |}.
Definition upd_nd_priv_flags (h : Z -> Z) (r : net_device) : net_device :=
  {| nd_name := nd_name r; nd_ifindex := nd_ifindex r; nd_flags := nd_flags r; nd_priv_flags
     := h (nd_priv_flags r); nd_features := nd_features r; nd_hw_features := nd_hw_features
     r; nd_carrier := nd_carrier r; nd_addr := nd_addr r; nd_mtu := nd_mtu r; nd_min_mtu :=
     nd_min_mtu r; nd_max_mtu := nd_max_mtu r; nd_net := nd_net r; nd_ops := nd_ops r;
     nd_lnko := nd_lnko r; nd_master := nd_master r; nd_lowers := nd_lowers r; nd_ifas :=
     nd_ifas r; nd_ifa6s := nd_ifa6s r; nd_registered := nd_registered r; nd_needs_free :=
     nd_needs_free r; nd_addr_assign_type := nd_addr_assign_type r; nd_eto := nd_eto r;
     nd_promiscuity := nd_promiscuity r; nd_rx_handler := nd_rx_handler r; nd_proxy :=
     nd_proxy r |}.
Definition upd_nd_features (h : Z -> Z) (r : net_device) : net_device :=
  {| nd_name := nd_name r; nd_ifindex := nd_ifindex r; nd_flags := nd_flags r; nd_priv_flags
     := nd_priv_flags r; nd_features := h (nd_features r); nd_hw_features := nd_hw_features
     r; nd_carrier := nd_carrier r; nd_addr := nd_addr r; nd_mtu := nd_mtu r; nd_min_mtu :=
     nd_min_mtu r; nd_max_mtu := nd_max_mtu r; nd_net := nd_net r; nd_ops := nd_ops r;
     nd_lnko := nd_lnko r; nd_master := nd_master r; nd_lowers := nd_lowers r; nd_ifas :=
     nd_ifas r; nd_ifa6s := nd_ifa6s r; nd_registered := nd_registered r; nd_needs_free :=
     nd_needs_free r; nd_addr_assign_type := nd_addr_assign_type r; nd_eto := nd_eto r;
     nd_promiscuity := nd_promiscuity r; nd_rx_handler := nd_rx_handler r; nd_proxy :=
     nd_proxy r |}.
Definition upd_nd_hw_features (h : Z -> Z) (r : net_device) : net_device :=
  {| nd_name := nd_name r; nd_ifindex := nd_ifindex r; nd_flags := nd_flags r; nd_priv_flags
     := nd_priv_flags r; nd_features := nd_features r; nd_hw_features := h (nd_hw_features
     r); nd_carrier := nd_carrier r; nd_addr := nd_addr r; nd_mtu := nd_mtu r; nd_min_mtu :=
     nd_min_mtu r; nd_max_mtu := nd_max_mtu r; nd_net := nd_net r; nd_ops := nd_ops r;
     nd_lnko := nd_lnko r; nd_master := nd_master r; nd_lowers := nd_lowers r; nd_ifas :=
     nd_ifas r; nd_ifa6s := nd_ifa6s r; nd_registered := nd_registered r; nd_needs_free :=
     nd_needs_free r; nd_addr_assign_type := nd_addr_assign_type r; nd_eto := nd_eto r;
     nd_promiscuity := nd_promiscuity r; nd_rx_handler := nd_rx_handler r; nd_proxy :=
     nd_proxy r |}.
Definition upd_nd_carrier (h : bool -> bool) (r : net_device) : net_device :=
  {| nd_name := nd_name r; nd_ifindex := nd_ifindex r; nd_flags := nd_flags r; nd_priv_flags
     := nd_priv_flags r; nd_features := nd_features r; nd_hw_features := nd_hw_features r;
     nd_carrier := h (nd_carrier r); nd_addr := nd_addr r; nd_mtu := nd_mtu r; nd_min_mtu :=
     nd_min_mtu r; nd_max_mtu := nd_max_mtu r; nd_net := nd_net r; nd_ops := nd_ops r;
     nd_lnko := nd_lnko r; nd_master := nd_master r; nd_lowers := nd_lowers r; nd_ifas :=
     nd_ifas r; nd_ifa6s := nd_ifa6s r; nd_registered := nd_registered r; nd_needs_free :=
     nd_needs_free r; nd_addr_assign_type := nd_addr_assign_type r; nd_eto := nd_eto r;
     nd_promiscuity := nd_promiscuity r; nd_rx_handler := nd_rx_handler r; nd_proxy :=
     nd_proxy r |}.
Definition upd_nd_addr (h : (list Z) -> (list Z)) (r : net_device) : net_device :=
  {| nd_name := nd_name r; nd_ifindex := nd_ifindex r; nd_flags := nd_flags r; nd_priv_flags
     := nd_priv_flags r; nd_features := nd_features r; nd_hw_features := nd_hw_features r;
     nd_carrier := nd_carrier r; nd_addr := h (nd_addr r); nd_mtu := nd_mtu r; nd_min_mtu :=
     nd_min_mtu r; nd_max_mtu := nd_max_mtu r; nd_net := nd_net r; nd_ops := nd_ops r;
     nd_lnko := nd_lnko r; nd_master := nd_master r; nd_lowers := nd_lowers r; nd_ifas :=
     nd_ifas r; nd_ifa6s := nd_ifa6s r; nd_registered := nd_registered r; nd_needs_free :=
     nd_needs_free r; nd_addr_assign_type := nd_addr_assign_type r; nd_eto := nd_eto r;
     nd_promiscuity := nd_promiscuity r; nd_rx_handler := nd_rx_handler r; nd_proxy :=
     nd_proxy r |}.
Definition upd_nd_mtu (h : Z -> Z) (r : net_device) : net_device :=
  {| nd_name := nd_name r; nd_ifindex := nd_ifindex r; nd_flags := nd_flags r; nd_priv_flags
     := nd_priv_flags r; nd_features := nd_features r; nd_hw_features := nd_hw_features r;
     nd_carrier := nd_carrier r; nd_addr := nd_addr r; nd_mtu := h (nd_mtu r); nd_min_mtu :=
     nd_min_mtu r; nd_max_mtu := nd_max_mtu r; nd_net := nd_net r; nd_ops := nd_ops r;
     nd_lnko := nd_lnko r; nd_master := nd_master r; nd_lowers := nd_lowers r; nd_ifas :=
     nd_ifas r; nd_ifa6s := nd_ifa6s r; nd_registered := nd_registered r; nd_needs_free :=
     nd_needs_free r; nd_addr_assign_type := nd_addr_assign_type r; nd_eto := nd_eto r;
     nd_promiscuity := nd_promiscuity r; nd_rx_handler := nd_rx_handler r; nd_proxy :=
     nd_proxy r |}.
Definition upd_nd_min_mtu (h : Z -> Z) (r : net_device) : net_device :=
  {| nd_name := nd_name r; nd_ifindex := nd_ifindex r; nd_flags := nd_flags r; nd_priv_flags
     := nd_priv_flags r; nd_features := nd_features r; nd_hw_features := nd_hw_features r;
     nd_carrier := nd_carrier r; nd_addr := nd_addr r; nd_mtu := nd_mtu r; nd_min_mtu := h
     (nd_min_mtu r); nd_max_mtu := nd_max_mtu r; nd_net := nd_net r; nd_ops := nd_ops r;
     nd_lnko := nd_lnko r; nd_master := nd_master r; nd_lowers := nd_lowers r; nd_ifas :=
     nd_ifas r; nd_ifa6s := nd_ifa6s r; nd_registered := nd_registered r; nd_needs_free :=
     nd_needs_free r; nd_addr_assign_type := nd_addr_assign_type r; nd_eto := nd_eto r;
     nd_promiscuity := nd_promiscuity r; nd_rx_handler := nd_rx_handler r; nd_proxy :=
     nd_proxy r |}.
Definition upd_nd_max_mtu (h : Z -> Z) (r : net_device) : net_device :=
  {| nd_name := nd_name r; nd_ifindex := nd_ifindex r; nd_flags := nd_flags r; nd_priv_flags
     := nd_priv_flags r; nd_features := nd_features r; nd_hw_features := nd_hw_features r;
     nd_carrier := nd_carrier r; nd_addr := nd_addr r; nd_mtu := nd_mtu r; nd_min_mtu :=
     nd_min_mtu r; nd_max_mtu := h (nd_max_mtu r); nd_net := nd_net r; nd_ops := nd_ops r;
     nd_lnko := nd_lnko r; nd_master := nd_master r; nd_lowers := nd_lowers r; nd_ifas :=
     nd_ifas r; nd_ifa6s := nd_ifa6s r; nd_registered := nd_registered r; nd_needs_free :=
     nd_needs_free r; nd_addr_assign_type := nd_addr_assign_type r; nd_eto := nd_eto r;
     nd_promiscuity := nd_promiscuity r; nd_rx_handler := nd_rx_handler r; nd_proxy :=
     nd_proxy r |}.
Definition upd_nd_net (h : net -> net) (r : net_device) : net_device :=
  {| nd_name := nd_name r; nd_ifindex := nd_ifindex r; nd_flags := nd_flags r; nd_priv_flags
     := nd_priv_flags r; nd_features := nd_features r; nd_hw_features := nd_hw_features r;
     nd_carrier := nd_carrier r; nd_addr := nd_addr r; nd_mtu := nd_mtu r; nd_min_mtu :=
     nd_min_mtu r; nd_max_mtu := nd_max_mtu r; nd_net := h (nd_net r); nd_ops := nd_ops r;
     nd_lnko := nd_lnko r; nd_master := nd_master r; nd_lowers := nd_lowers r; nd_ifas :=
     nd_ifas r; nd_ifa6s := nd_ifa6s r; nd_registered := nd_registered r; nd_needs_free :=
     nd_needs_free r; nd_addr_assign_type := nd_addr_assign_type r; nd_eto := nd_eto r;
     nd_promiscuity := nd_promiscuity r; nd_rx_handler := nd_rx_handler r; nd_proxy :=
     nd_proxy r |}.
Definition upd_nd_ops (h : ndo -> ndo) (r : net_device) : net_device :=
  {| nd_name := nd_name r; nd_ifindex := nd_ifindex r; nd_flags := nd_flags r; nd_priv_flags
     := nd_priv_flags r; nd_features := nd_features r; nd_hw_features := nd_hw_features r;
     nd_carrier := nd_carrier r; nd_addr := nd_addr r; nd_mtu := nd_mtu r; nd_min_mtu :=
     nd_min_mtu r; nd_max_mtu := nd_max_mtu r; nd_net := nd_net r; nd_ops := h (nd_ops r);
     nd_lnko := nd_lnko r; nd_master := nd_master r; nd_lowers := nd_lowers r; nd_ifas :=
     nd_ifas r; nd_ifa6s := nd_ifa6s r; nd_registered := nd_registered r; nd_needs_free :=
     nd_needs_free r; nd_addr_assign_type := nd_addr_assign_type r; nd_eto := nd_eto r;
     nd_promiscuity := nd_promiscuity r; nd_rx_handler := nd_rx_handler r; nd_proxy :=
     nd_proxy r |}.
Definition upd_nd_lnko (h : (option lnko) -> (option lnko)) (r : net_device) : net_device :=
  {| nd_name := nd_name r; nd_ifindex := nd_ifindex r; nd_flags := nd_flags r; nd_priv_flags
     := nd_priv_flags r; nd_features := nd_features r; nd_hw_features := nd_hw_features r;
     nd_carrier := nd_carrier r; nd_addr := nd_addr r; nd_mtu := nd_mtu r; nd_min_mtu :=
     nd_min_mtu r; nd_max_mtu := nd_max_mtu r; nd_net := nd_net r; nd_ops := nd_ops r;
     nd_lnko := h (nd_lnko r); nd_master := nd_master r; nd_lowers := nd_lowers r; nd_ifas
     := nd_ifas r; nd_ifa6s := nd_ifa6s r; nd_registered := nd_registered r; nd_needs_free
     := nd_needs_free r; nd_addr_assign_type := nd_addr_assign_type r; nd_eto := nd_eto r;
     nd_promiscuity := nd_promiscuity r; nd_rx_handler := nd_rx_handler r; nd_proxy :=
     nd_proxy r |}.
Definition upd_nd_master (h : (option Z) -> (option Z)) (r : net_device) : net_device :=
  {| nd_name := nd_name r; nd_ifindex := nd_ifindex r; nd_flags := nd_flags r; nd_priv_flags
     := nd_priv_flags r; nd_features := nd_features r; nd_hw_features := nd_hw_features r;
     nd_carrier := nd_carrier r; nd_addr := nd_addr r; nd_mtu := nd_mtu r; nd_min_mtu :=
     nd_min_mtu r; nd_max_mtu := nd_max_mtu r; nd_net := nd_net r; nd_ops := nd_ops r;
     nd_lnko := nd_lnko r; nd_master := h (nd_master r); nd_lowers := nd_lowers r; nd_ifas
     := nd_ifas r; nd_ifa6s := nd_ifa6s r; nd_registered := nd_registered r; nd_needs_free
     := nd_needs_free r; nd_addr_assign_type := nd_addr_assign_type r; nd_eto := nd_eto r;
     nd_promiscuity := nd_promiscuity r; nd_rx_handler := nd_rx_handler r; nd_proxy :=
     nd_proxy r |}.
Definition upd_nd_lowers (h : (list Z) -> (list Z)) (r : net_device) : net_device :=
  {| nd_name := nd_name r; nd_ifindex := nd_ifindex r; nd_flags := nd_flags r; nd_priv_flags
     := nd_priv_flags r; nd_features := nd_features r; nd_hw_features := nd_hw_features r;
     nd_carrier := nd_carrier r; nd_addr := nd_addr r; nd_mtu := nd_mtu r; nd_min_mtu :=
     nd_min_mtu r; nd_max_mtu := nd_max_mtu r; nd_net := nd_net r; nd_ops := nd_ops r;
     nd_lnko := nd_lnko r; nd_master := nd_master r; nd_lowers := h (nd_lowers r); nd_ifas
     := nd_ifas r; nd_ifa6s := nd_ifa6s r; nd_registered := nd_registered r; nd_needs_free
     := nd_needs_free r; nd_addr_assign_type := nd_addr_assign_type r; nd_eto := nd_eto r;
     nd_promiscuity := nd_promiscuity r; nd_rx_handler := nd_rx_handler r; nd_proxy :=
     nd_proxy r |}.
Definition upd_nd_ifas (h : (option (list in_ifaddr)) -> (option (list in_ifaddr))) (r : net_device) : net_device :=
  {| nd_name := nd_name r; nd_ifindex := nd_ifindex r; nd_flags := nd_flags r; nd_priv_flags
     := nd_priv_flags r; nd_features := nd_features r; nd_hw_features := nd_hw_features r;
     nd_carrier := nd_carrier r; nd_addr := nd_addr r; nd_mtu := nd_mtu r; nd_min_mtu :=
     nd_min_mtu r; nd_max_mtu := nd_max_mtu r; nd_net := nd_net r; nd_ops := nd_ops r;
     nd_lnko := nd_lnko r; nd_master := nd_master r; nd_lowers := nd_lowers r; nd_ifas := h
     (nd_ifas r); nd_ifa6s := nd_ifa6s r; nd_registered := nd_registered r; nd_needs_free :=
     nd_needs_free r; nd_addr_assign_type := nd_addr_assign_type r; nd_eto := nd_eto r;
     nd_promiscuity := nd_promiscuity r; nd_rx_handler := nd_rx_handler r; nd_proxy :=
     nd_proxy r |}.
Definition upd_nd_ifa6s (h : (option (list inet6_ifaddr)) -> (option (list inet6_ifaddr))) (r : net_device) : net_device :=
  {| nd_name := nd_name r; nd_ifindex := nd_ifindex r; nd_flags := nd_flags r; nd_priv_flags
     := nd_priv_flags r; nd_features := nd_features r; nd_hw_features := nd_hw_features r;
     nd_carrier := nd_carrier r; nd_addr := nd_addr r; nd_mtu := nd_mtu r; nd_min_mtu :=
     nd_min_mtu r; nd_max_mtu := nd_max_mtu r; nd_net := nd_net r; nd_ops := nd_ops r;
     nd_lnko := nd_lnko r; nd_master := nd_master r; nd_lowers := nd_lowers r; nd_ifas :=
     nd_ifas r; nd_ifa6s := h (nd_ifa6s r); nd_registered := nd_registered r; nd_needs_free
     := nd_needs_free r; nd_addr_assign_type := nd_addr_assign_type r; nd_eto := nd_eto r;
     nd_promiscuity := nd_promiscuity r; nd_rx_handler := nd_rx_handler r; nd_proxy :=
     nd_proxy r |}.
Definition upd_nd_registered (h : bool -> bool) (r : net_device) : net_device :=
  {| nd_name := nd_name r; nd_ifindex := nd_ifindex r; nd_flags := nd_flags r; nd_priv_flags
     := nd_priv_flags r; nd_features := nd_features r; nd_hw_features := nd_hw_features r;
     nd_carrier := nd_carrier r; nd_addr := nd_addr r; nd_mtu := nd_mtu r; nd_min_mtu :=
     nd_min_mtu r; nd_max_mtu := nd_max_mtu r; nd_net := nd_net r; nd_ops := nd_ops r;
     nd_lnko := nd_lnko r; nd_master := nd_master r; nd_lowers := nd_lowers r; nd_ifas :=
     nd_ifas r; nd_ifa6s := nd_ifa6s r; nd_registered := h (nd_registered r); nd_needs_free
     := nd_needs_free r; nd_addr_assign_type := nd_addr_assign_type r; nd_eto := nd_eto r;
     nd_promiscuity := nd_promiscuity r; nd_rx_handler := nd_rx_handler r; nd_proxy :=
     nd_proxy r |}.
Definition upd_nd_needs_free (h : bool -> bool) (r : net_device) : net_device :=
  {| nd_name := nd_name r; nd_ifindex := nd_ifindex r; nd_flags := nd_flags r; nd_priv_flags
     := nd_priv_flags r; nd_features := nd_features r; nd_hw_features := nd_hw_features r;
     nd_carrier := nd_carrier r; nd_addr := nd_addr r; nd_mtu := nd_mtu r; nd_min_mtu :=
     nd_min_mtu r; nd_max_mtu := nd_max_mtu r; nd_net := nd_net r; nd_ops := nd_ops r;
     nd_lnko := nd_lnko r; nd_master := nd_master r; nd_lowers := nd_lowers r; nd_ifas :=
     nd_ifas r; nd_ifa6s := nd_ifa6s r; nd_registered := nd_registered r; nd_needs_free := h
     (nd_needs_free r); nd_addr_assign_type := nd_addr_assign_type r; nd_eto := nd_eto r;
     nd_promiscuity := nd_promiscuity r; nd_rx_handler := nd_rx_handler r; nd_proxy :=
     nd_proxy r |}.
Definition upd_nd_addr_assign_type (h : Z -> Z) (r : net_device) : net_device :=
  {| nd_name := nd_name r; nd_ifindex := nd_ifindex r; nd_flags := nd_flags r; nd_priv_flags
     := nd_priv_flags r; nd_features := nd_features r; nd_hw_features := nd_hw_features r;
     nd_carrier := nd_carrier r; nd_addr := nd_addr r; nd_mtu := nd_mtu r; nd_min_mtu :=
     nd_min_mtu r; nd_max_mtu := nd_max_mtu r; nd_net := nd_net r; nd_ops := nd_ops r;
     nd_lnko := nd_lnko r; nd_master := nd_master r; nd_lowers := nd_lowers r; nd_ifas :=
     nd_ifas r; nd_ifa6s := nd_ifa6s r; nd_registered := nd_registered r; nd_needs_free :=
     nd_needs_free r; nd_addr_assign_type := h (nd_addr_assign_type r); nd_eto := nd_eto r;
     nd_promiscuity := nd_promiscuity r; nd_rx_handler := nd_rx_handler r; nd_proxy :=
     nd_proxy r |}.
Definition upd_nd_eto (h : (option eto) -> (option eto)) (r : net_device) : net_device :=
  {| nd_name := nd_name r; nd_ifindex := nd_ifindex r; nd_flags := nd_flags r; nd_priv_flags
     := nd_priv_flags r; nd_features := nd_features r; nd_hw_features := nd_hw_features r;
     nd_carrier := nd_carrier r; nd_addr := nd_addr r; nd_mtu := nd_mtu r; nd_min_mtu :=
     nd_min_mtu r; nd_max_mtu := nd_max_mtu r; nd_net := nd_net r; nd_ops := nd_ops r;
     nd_lnko := nd_lnko r; nd_master := nd_master r; nd_lowers := nd_lowers r; nd_ifas :=
     nd_ifas r; nd_ifa6s := nd_ifa6s r; nd_registered := nd_registered r; nd_needs_free :=
     nd_needs_free r; nd_addr_assign_type := nd_addr_assign_type r; nd_eto := h (nd_eto r);
     nd_promiscuity := nd_promiscuity r; nd_rx_handler := nd_rx_handler r; nd_proxy :=
     nd_proxy r |}.
Definition upd_nd_promiscuity (h : Z -> Z) (r : net_device) : net_device :=
  {| nd_name := nd_name r; nd_ifindex := nd_ifindex r; nd_flags := nd_flags r; nd_priv_flags
     := nd_priv_flags r; nd_features := nd_features r; nd_hw_features := nd_hw_features r;
     nd_carrier := nd_carrier r; nd_addr := nd_addr r; nd_mtu := nd_mtu r; nd_min_mtu :=
     nd_min_mtu r; nd_max_mtu := nd_max_mtu r; nd_net := nd_net r; nd_ops := nd_ops r;
     nd_lnko := nd_lnko r; nd_master := nd_master r; nd_lowers := nd_lowers r; nd_ifas :=
     nd_ifas r; nd_ifa6s := nd_ifa6s r; nd_registered := nd_registered r; nd_needs_free :=
     nd_needs_free r; nd_addr_assign_type := nd_addr_assign_type r; nd_eto := nd_eto r;
     nd_promiscuity := h (nd_promiscuity r); nd_rx_handler := nd_rx_handler r; nd_proxy :=
     nd_proxy r |}.
Definition upd_nd_rx_handler (h : (option Z) -> (option Z)) (r : net_device) : net_device :=
  {| nd_name := nd_name r; nd_ifindex := nd_ifindex r; nd_flags := nd_flags r; nd_priv_flags
     := nd_priv_flags r; nd_features := nd_features r; nd_hw_features := nd_hw_features r;
     nd_carrier := nd_carrier r; nd_addr := nd_addr r; nd_mtu := nd_mtu r; nd_min_mtu :=
     nd_min_mtu r; nd_max_mtu := nd_max_mtu r; nd_net := nd_net r; nd_ops := nd_ops r;
     nd_lnko := nd_lnko r; nd_master := nd_master r; nd_lowers := nd_lowers r; nd_ifas :=
     nd_ifas r; nd_ifa6s := nd_ifa6s r; nd_registered := nd_registered r; nd_needs_free :=
     nd_needs_free r; nd_addr_assign_type := nd_addr_assign_type r; nd_eto := nd_eto r;
     nd_promiscuity := nd_promiscuity r; nd_rx_handler := h (nd_rx_handler r); nd_proxy :=
     nd_proxy r |}.
Definition upd_nd_proxy (h : (option xeth_proxy) -> (option xeth_proxy)) (r : net_device) : net_device :=
  {| nd_name := nd_name r; nd_ifindex := nd_ifindex r; nd_flags := nd_flags r; nd_priv_flags
     := nd_priv_flags r; nd_features := nd_features r; nd_hw_features := nd_hw_features r;
     nd_carrier := nd_carrier r; nd_addr := nd_addr r; nd_mtu := nd_mtu r; nd_min_mtu :=
     nd_min_mtu r; nd_max_mtu := nd_max_mtu r; nd_net := nd_net r; nd_ops := nd_ops r;
     nd_lnko := nd_lnko r; nd_master := nd_master r; nd_lowers := nd_lowers r; nd_ifas :=
     nd_ifas r; nd_ifa6s := nd_ifa6s r; nd_registered := nd_registered r; nd_needs_free :=
     nd_needs_free r; nd_addr_assign_type := nd_addr_assign_type r; nd_eto := nd_eto r;
     nd_promiscuity := nd_promiscuity r; nd_rx_handler := nd_rx_handler r; nd_proxy := h
     (nd_proxy r) |}.

(** ** The mux *)

(** [struct xeth_sbtxb]: a side-band transmit buffer with the [sb_sz] bytes behind it. *)

Record xeth_sbtxb := {
  sb_len : Z;
  sb_sz : Z;
  sb_data : list Z
}.

Definition upd_sb_len (h : Z -> Z) (r : xeth_sbtxb) : xeth_sbtxb :=
  {| sb_len := h (sb_len r); sb_sz := sb_sz r; sb_data := sb_data r |}.
Definition upd_sb_sz (h : Z -> Z) (r : xeth_sbtxb) : xeth_sbtxb :=
  {| sb_len := sb_len r; sb_sz := h (sb_sz r); sb_data := sb_data r |}.
Definition upd_sb_data (h : (list Z) -> (list Z)) (r : xeth_sbtxb) : xeth_sbtxb :=
  {| sb_len := sb_len r; sb_sz := sb_sz r; sb_data := h (sb_data r) |}.

(** The notifier chains the driver registers with; a FIB notifier is registered
    for a namespace. *)
Inductive notifier := NbInetaddr | NbInet6addr | NbNetdevice | NbNetevent | NbFib (n : net).
#[export] Instance notifier_eq_dec : EqDecision notifier.
Proof. solve_decision. Defined.

(** [struct xeth_mux_priv].  [mx_hls] are the hash chains and the five lists
    after it the lists of kin, each of proxy addresses; [mx_fibs] are the
    namespaces of [nb.fibs]; [mx_chains] are the notifier blocks the kernel
    holds for this mux, one entry per registration; a set of GPIO descriptors is
    the values of its lines. *)

Record xeth_mux_priv := {
  mx_link : list (option Z);
  mx_hls : list (list Z);
  mx_ports : list Z;
  mx_vlans : list Z;
  mx_bridges : list Z;
  mx_lags : list Z;
  mx_lbs : list Z;
  mx_counters : list Z;
  mx_link_stats : list Z;
  mx_flags : Z;
  mx_sb_free : list xeth_sbtxb;
  mx_sb_tx : list xeth_sbtxb;
  mx_encap : xeth_encap;
  mx_base_port : Z;
  mx_n_ports : Z;
  mx_fibs : list net;
  mx_chains : list notifier;
  mx_absent_gpios : option (list Z);
  mx_intr_gpios : option (list Z);
  mx_lpmode_gpios : option (list Z);
  mx_reset_gpios : option (list Z);
  mx_flag_names : list (list Z);
  mx_flag_named : Z;
  mx_stat_names : list (list Z);
  mx_stat_named : Z;
  mx_qsfp_addrs : list Z;
  mx_stat_sysfs : bool;
  mx_main : bool
}.

Definition upd_mx_link (h : (list (option Z)) -> (list (option Z))) (r : xeth_mux_priv) : xeth_mux_priv :=
  {| mx_link := h (mx_link r); mx_hls := mx_hls r; mx_ports := mx_ports r; mx_vlans :=
     mx_vlans r; mx_bridges := mx_bridges r; mx_lags := mx_lags r; mx_lbs := mx_lbs r;
     mx_counters := mx_counters r; mx_link_stats := mx_link_stats r; mx_flags := mx_flags r;
     mx_sb_free := mx_sb_free r; mx_sb_tx := mx_sb_tx r; mx_encap := mx_encap r;
     mx_base_port := mx_base_port r; mx_n_ports := mx_n_ports r; mx_fibs := mx_fibs r;
     mx_chains := mx_chains r; mx_absent_gpios := mx_absent_gpios r; mx_intr_gpios :=
     mx_intr_gpios r; mx_lpmode_gpios := mx_lpmode_gpios r; mx_reset_gpios := mx_reset_gpios
     r; mx_flag_names := mx_flag_names r; mx_flag_named := mx_flag_named r; mx_stat_names :=
     mx_stat_names r; mx_stat_named := mx_stat_named r; mx_qsfp_addrs := mx_qsfp_addrs r;
     mx_stat_sysfs := mx_stat_sysfs r; mx_main := mx_main r |}.
Definition upd_mx_hls (h : (list (list Z)) -> (list (list Z))) (r : xeth_mux_priv) : xeth_mux_priv :=
  {| mx_link := mx_link r; mx_hls := h (mx_hls r); mx_ports := mx_ports r; mx_vlans :=
     mx_vlans r; mx_bridges := mx_bridges r; mx_lags := mx_lags r; mx_lbs := mx_lbs r;
     mx_counters := mx_counters r; mx_link_stats := mx_link_stats r; mx_flags := mx_flags r;
     mx_sb_free := mx_sb_free r; mx_sb_tx := mx_sb_tx r; mx_encap := mx_encap r;
     mx_base_port := mx_base_port r; mx_n_ports := mx_n_ports r; mx_fibs := mx_fibs r;
     mx_chains := mx_chains r; mx_absent_gpios := mx_absent_gpios r; mx_intr_gpios :=
     mx_intr_gpios r; mx_lpmode_gpios := mx_lpmode_gpios r; mx_reset_gpios := mx_reset_gpios
     r; mx_flag_names := mx_flag_names r; mx_flag_named := mx_flag_named r; mx_stat_names :=
     mx_stat_names r; mx_stat_named := mx_stat_named r; mx_qsfp_addrs := mx_qsfp_addrs r;
     mx_stat_sysfs := mx_stat_sysfs r; mx_main := mx_main r |}.
Definition upd_mx_ports (h : (list Z) -> (list Z)) (r : xeth_mux_priv) : xeth_mux_priv :=
  {| mx_link := mx_link r; mx_hls := mx_hls r; mx_ports := h (mx_ports r); mx_vlans :=
     mx_vlans r; mx_bridges := mx_bridges r; mx_lags := mx_lags r; mx_lbs := mx_lbs r;
     mx_counters := mx_counters r; mx_link_stats := mx_link_stats r; mx_flags := mx_flags r;
     mx_sb_free := mx_sb_free r; mx_sb_tx := mx_sb_tx r; mx_encap := mx_encap r;
     mx_base_port := mx_base_port r; mx_n_ports := mx_n_ports r; mx_fibs := mx_fibs r;
     mx_chains := mx_chains r; mx_absent_gpios := mx_absent_gpios r; mx_intr_gpios :=
     mx_intr_gpios r; mx_lpmode_gpios := mx_lpmode_gpios r; mx_reset_gpios := mx_reset_gpios
     r; mx_flag_names := mx_flag_names r; mx_flag_named := mx_flag_named r; mx_stat_names :=
     mx_stat_names r; mx_stat_named := mx_stat_named r; mx_qsfp_addrs := mx_qsfp_addrs r;
     mx_stat_sysfs := mx_stat_sysfs r; mx_main := mx_main r |}.
Definition upd_mx_vlans (h : (list Z) -> (list Z)) (r : xeth_mux_priv) : xeth_mux_priv :=
  {| mx_link := mx_link r; mx_hls := mx_hls r; mx_ports := mx_ports r; mx_vlans := h
     (mx_vlans r); mx_bridges := mx_bridges r; mx_lags := mx_lags r; mx_lbs := mx_lbs r;
     mx_counters := mx_counters r; mx_link_stats := mx_link_stats r; mx_flags := mx_flags r;
     mx_sb_free := mx_sb_free r; mx_sb_tx := mx_sb_tx r; mx_encap := mx_encap r;
     mx_base_port := mx_base_port r; mx_n_ports := mx_n_ports r; mx_fibs := mx_fibs r;
     mx_chains := mx_chains r; mx_absent_gpios := mx_absent_gpios r; mx_intr_gpios :=
     mx_intr_gpios r; mx_lpmode_gpios := mx_lpmode_gpios r; mx_reset_gpios := mx_reset_gpios
     r; mx_flag_names := mx_flag_names r; mx_flag_named := mx_flag_named r; mx_stat_names :=
     mx_stat_names r; mx_stat_named := mx_stat_named r; mx_qsfp_addrs := mx_qsfp_addrs r;
     mx_stat_sysfs := mx_stat_sysfs r; mx_main := mx_main r |}.
Definition upd_mx_bridges (h : (list Z) -> (list Z)) (r : xeth_mux_priv) : xeth_mux_priv :=
  {| mx_link := mx_link r; mx_hls := mx_hls r; mx_ports := mx_ports r; mx_vlans := mx_vlans
     r; mx_bridges := h (mx_bridges r); mx_lags := mx_lags r; mx_lbs := mx_lbs r;
     mx_counters := mx_counters r; mx_link_stats := mx_link_stats r; mx_flags := mx_flags r;
     mx_sb_free := mx_sb_free r; mx_sb_tx := mx_sb_tx r; mx_encap := mx_encap r;
     mx_base_port := mx_base_port r; mx_n_ports := mx_n_ports r; mx_fibs := mx_fibs r;
     mx_chains := mx_chains r; mx_absent_gpios := mx_absent_gpios r; mx_intr_gpios :=
     mx_intr_gpios r; mx_lpmode_gpios := mx_lpmode_gpios r; mx_reset_gpios := mx_reset_gpios
     r; mx_flag_names := mx_flag_names r; mx_flag_named := mx_flag_named r; mx_stat_names :=
     mx_stat_names r; mx_stat_named := mx_stat_named r; mx_qsfp_addrs := mx_qsfp_addrs r;
     mx_stat_sysfs := mx_stat_sysfs r; mx_main := mx_main r |}.
Definition upd_mx_lags (h : (list Z) -> (list Z)) (r : xeth_mux_priv) : xeth_mux_priv :=
  {| mx_link := mx_link r; mx_hls := mx_hls r; mx_ports := mx_ports r; mx_vlans := mx_vlans
     r; mx_bridges := mx_bridges r; mx_lags := h (mx_lags r); mx_lbs := mx_lbs r;
     mx_counters := mx_counters r; mx_link_stats := mx_link_stats r; mx_flags := mx_flags r;
     mx_sb_free := mx_sb_free r; mx_sb_tx := mx_sb_tx r; mx_encap := mx_encap r;
     mx_base_port := mx_base_port r; mx_n_ports := mx_n_ports r; mx_fibs := mx_fibs r;
     mx_chains := mx_chains r; mx_absent_gpios := mx_absent_gpios r; mx_intr_gpios :=
     mx_intr_gpios r; mx_lpmode_gpios := mx_lpmode_gpios r; mx_reset_gpios := mx_reset_gpios
     r; mx_flag_names := mx_flag_names r; mx_flag_named := mx_flag_named r; mx_stat_names :=
     mx_stat_names r; mx_stat_named := mx_stat_named r; mx_qsfp_addrs := mx_qsfp_addrs r;
     mx_stat_sysfs := mx_stat_sysfs r; mx_main := mx_main r |}.
Definition upd_mx_lbs (h : (list Z) -> (list Z)) (r : xeth_mux_priv) : xeth_mux_priv :=
  {| mx_link := mx_link r; mx_hls := mx_hls r; mx_ports := mx_ports r; mx_vlans := mx_vlans
     r; mx_bridges := mx_bridges r; mx_lags := mx_lags r; mx_lbs := h (mx_lbs r);
     mx_counters := mx_counters r; mx_link_stats := mx_link_stats r; mx_flags := mx_flags r;
     mx_sb_free := mx_sb_free r; mx_sb_tx := mx_sb_tx r; mx_encap := mx_encap r;
     mx_base_port := mx_base_port r; mx_n_ports := mx_n_ports r; mx_fibs := mx_fibs r;
     mx_chains := mx_chains r; mx_absent_gpios := mx_absent_gpios r; mx_intr_gpios :=
     mx_intr_gpios r; mx_lpmode_gpios := mx_lpmode_gpios r; mx_reset_gpios := mx_reset_gpios
     r; mx_flag_names := mx_flag_names r; mx_flag_named := mx_flag_named r; mx_stat_names :=
     mx_stat_names r; mx_stat_named := mx_stat_named r; mx_qsfp_addrs := mx_qsfp_addrs r;
     mx_stat_sysfs := mx_stat_sysfs r; mx_main := mx_main r |}.
Definition upd_mx_counters (h : (list Z) -> (list Z)) (r : xeth_mux_priv) : xeth_mux_priv :=
  {| mx_link := mx_link r; mx_hls := mx_hls r; mx_ports := mx_ports r; mx_vlans := mx_vlans
     r; mx_bridges := mx_bridges r; mx_lags := mx_lags r; mx_lbs := mx_lbs r; mx_counters :=
     h (mx_counters r); mx_link_stats := mx_link_stats r; mx_flags := mx_flags r; mx_sb_free
     := mx_sb_free r; mx_sb_tx := mx_sb_tx r; mx_encap := mx_encap r; mx_base_port :=
     mx_base_port r; mx_n_ports := mx_n_ports r; mx_fibs := mx_fibs r; mx_chains :=
     mx_chains r; mx_absent_gpios := mx_absent_gpios r; mx_intr_gpios := mx_intr_gpios r;
     mx_lpmode_gpios := mx_lpmode_gpios r; mx_reset_gpios := mx_reset_gpios r; mx_flag_names
     := mx_flag_names r; mx_flag_named := mx_flag_named r; mx_stat_names := mx_stat_names r;
     mx_stat_named := mx_stat_named r; mx_qsfp_addrs := mx_qsfp_addrs r; mx_stat_sysfs :=
     mx_stat_sysfs r; mx_main := mx_main r |}.
Definition upd_mx_link_stats (h : (list Z) -> (list Z)) (r : xeth_mux_priv) : xeth_mux_priv :=
  {| mx_link := mx_link r; mx_hls := mx_hls r; mx_ports := mx_ports r; mx_vlans := mx_vlans
     r; mx_bridges := mx_bridges r; mx_lags := mx_lags r; mx_lbs := mx_lbs r; mx_counters :=
     mx_counters r; mx_link_stats := h (mx_link_stats r); mx_flags := mx_flags r; mx_sb_free
     := mx_sb_free r; mx_sb_tx := mx_sb_tx r; mx_encap := mx_encap r; mx_base_port :=
     mx_base_port r; mx_n_ports := mx_n_ports r; mx_fibs := mx_fibs r; mx_chains :=
     mx_chains r; mx_absent_gpios := mx_absent_gpios r; mx_intr_gpios := mx_intr_gpios r;
     mx_lpmode_gpios := mx_lpmode_gpios r; mx_reset_gpios := mx_reset_gpios r; mx_flag_names
     := mx_flag_names r; mx_flag_named := mx_flag_named r; mx_stat_names := mx_stat_names r;
     mx_stat_named := mx_stat_named r; mx_qsfp_addrs := mx_qsfp_addrs r; mx_stat_sysfs :=
     mx_stat_sysfs r; mx_main := mx_main r |}.
Definition upd_mx_flags (h : Z -> Z) (r : xeth_mux_priv) : xeth_mux_priv :=
  {| mx_link := mx_link r; mx_hls := mx_hls r; mx_ports := mx_ports r; mx_vlans := mx_vlans
     r; mx_bridges := mx_bridges r; mx_lags := mx_lags r; mx_lbs := mx_lbs r; mx_counters :=
     mx_counters r; mx_link_stats := mx_link_stats r; mx_flags := h (mx_flags r); mx_sb_free
     := mx_sb_free r; mx_sb_tx := mx_sb_tx r; mx_encap := mx_encap r; mx_base_port :=
     mx_base_port r; mx_n_ports := mx_n_ports r; mx_fibs := mx_fibs r; mx_chains :=
     mx_chains r; mx_absent_gpios := mx_absent_gpios r; mx_intr_gpios := mx_intr_gpios r;
     mx_lpmode_gpios := mx_lpmode_gpios r; mx_reset_gpios := mx_reset_gpios r; mx_flag_names
     := mx_flag_names r; mx_flag_named := mx_flag_named r; mx_stat_names := mx_stat_names r;
     mx_stat_named := mx_stat_named r; mx_qsfp_addrs := mx_qsfp_addrs r; mx_stat_sysfs :=
     mx_stat_sysfs r; mx_main := mx_main r |}.
Definition upd_mx_sb_free (h : (list xeth_sbtxb) -> (list xeth_sbtxb)) (r : xeth_mux_priv) : xeth_mux_priv :=
  {| mx_link := mx_link r; mx_hls := mx_hls r; mx_ports := mx_ports r; mx_vlans := mx_vlans
     r; mx_bridges := mx_bridges r; mx_lags := mx_lags r; mx_lbs := mx_lbs r; mx_counters :=
     mx_counters r; mx_link_stats := mx_link_stats r; mx_flags := mx_flags r; mx_sb_free :=
     h (mx_sb_free r); mx_sb_tx := mx_sb_tx r; mx_encap := mx_encap r; mx_base_port :=
     mx_base_port r; mx_n_ports := mx_n_ports r; mx_fibs := mx_fibs r; mx_chains :=
     mx_chains r; mx_absent_gpios := mx_absent_gpios r; mx_intr_gpios := mx_intr_gpios r;
     mx_lpmode_gpios := mx_lpmode_gpios r; mx_reset_gpios := mx_reset_gpios r; mx_flag_names
     := mx_flag_names r; mx_flag_named := mx_flag_named r; mx_stat_names := mx_stat_names r;
     mx_stat_named := mx_stat_named r; mx_qsfp_addrs := mx_qsfp_addrs r; mx_stat_sysfs :=
     mx_stat_sysfs r; mx_main := mx_main r |}.
Definition upd_mx_sb_tx (h : (list xeth_sbtxb) -> (list xeth_sbtxb)) (r : xeth_mux_priv) : xeth_mux_priv :=
  {| mx_link := mx_link r; mx_hls := mx_hls r; mx_ports := mx_ports r; mx_vlans := mx_vlans
     r; mx_bridges := mx_bridges r; mx_lags := mx_lags r; mx_lbs := mx_lbs r; mx_counters :=
     mx_counters r; mx_link_stats := mx_link_stats r; mx_flags := mx_flags r; mx_sb_free :=
     mx_sb_free r; mx_sb_tx := h (mx_sb_tx r); mx_encap := mx_encap r; mx_base_port :=
     mx_base_port r; mx_n_ports := mx_n_ports r; mx_fibs := mx_fibs r; mx_chains :=
     mx_chains r; mx_absent_gpios := mx_absent_gpios r; mx_intr_gpios := mx_intr_gpios r;
     mx_lpmode_gpios := mx_lpmode_gpios r; mx_reset_gpios := mx_reset_gpios r; mx_flag_names
     := mx_flag_names r; mx_flag_named := mx_flag_named r; mx_stat_names := mx_stat_names r;
     mx_stat_named := mx_stat_named r; mx_qsfp_addrs := mx_qsfp_addrs r; mx_stat_sysfs :=
     mx_stat_sysfs r; mx_main := mx_main r |}.
Definition upd_mx_encap (h : xeth_encap -> xeth_encap) (r : xeth_mux_priv) : xeth_mux_priv :=
  {| mx_link := mx_link r; mx_hls := mx_hls r; mx_ports := mx_ports r; mx_vlans := mx_vlans
     r; mx_bridges := mx_bridges r; mx_lags := mx_lags r; mx_lbs := mx_lbs r; mx_counters :=
     mx_counters r; mx_link_stats := mx_link_stats r; mx_flags := mx_flags r; mx_sb_free :=
     mx_sb_free r; mx_sb_tx := mx_sb_tx r; mx_encap := h (mx_encap r); mx_base_port :=
     mx_base_port r; mx_n_ports := mx_n_ports r; mx_fibs := mx_fibs r; mx_chains :=
     mx_chains r; mx_absent_gpios := mx_absent_gpios r; mx_intr_gpios := mx_intr_gpios r;
     mx_lpmode_gpios := mx_lpmode_gpios r; mx_reset_gpios := mx_reset_gpios r; mx_flag_names
     := mx_flag_names r; mx_flag_named := mx_flag_named r; mx_stat_names := mx_stat_names r;
     mx_stat_named := mx_stat_named r; mx_qsfp_addrs := mx_qsfp_addrs r; mx_stat_sysfs :=
     mx_stat_sysfs r; mx_main := mx_main r |}.
Definition upd_mx_base_port (h : Z -> Z) (r : xeth_mux_priv) : xeth_mux_priv :=
  {| mx_link := mx_link r; mx_hls := mx_hls r; mx_ports := mx_ports r; mx_vlans := mx_vlans
     r; mx_bridges := mx_bridges r; mx_lags := mx_lags r; mx_lbs := mx_lbs r; mx_counters :=
     mx_counters r; mx_link_stats := mx_link_stats r; mx_flags := mx_flags r; mx_sb_free :=
     mx_sb_free r; mx_sb_tx := mx_sb_tx r; mx_encap := mx_encap r; mx_base_port := h
     (mx_base_port r); mx_n_ports := mx_n_ports r; mx_fibs := mx_fibs r; mx_chains :=
     mx_chains r; mx_absent_gpios := mx_absent_gpios r; mx_intr_gpios := mx_intr_gpios r;
     mx_lpmode_gpios := mx_lpmode_gpios r; mx_reset_gpios := mx_reset_gpios r; mx_flag_names
     := mx_flag_names r; mx_flag_named := mx_flag_named r; mx_stat_names := mx_stat_names r;
     mx_stat_named := mx_stat_named r; mx_qsfp_addrs := mx_qsfp_addrs r; mx_stat_sysfs :=
     mx_stat_sysfs r; mx_main := mx_main r |}.
Definition upd_mx_n_ports (h : Z -> Z) (r : xeth_mux_priv) : xeth_mux_priv :=
  {| mx_link := mx_link r; mx_hls := mx_hls r; mx_ports := mx_ports r; mx_vlans := mx_vlans
     r; mx_bridges := mx_bridges r; mx_lags := mx_lags r; mx_lbs := mx_lbs r; mx_counters :=
     mx_counters r; mx_link_stats := mx_link_stats r; mx_flags := mx_flags r; mx_sb_free :=
     mx_sb_free r; mx_sb_tx := mx_sb_tx r; mx_encap := mx_encap r; mx_base_port :=
     mx_base_port r; mx_n_ports := h (mx_n_ports r); mx_fibs := mx_fibs r; mx_chains :=
     mx_chains r; mx_absent_gpios := mx_absent_gpios r; mx_intr_gpios := mx_intr_gpios r;
     mx_lpmode_gpios := mx_lpmode_gpios r; mx_reset_gpios := mx_reset_gpios r; mx_flag_names
     := mx_flag_names r; mx_flag_named := mx_flag_named r; mx_stat_names := mx_stat_names r;
     mx_stat_named := mx_stat_named r; mx_qsfp_addrs := mx_qsfp_addrs r; mx_stat_sysfs :=
     mx_stat_sysfs r; mx_main := mx_main r |}.
Definition upd_mx_fibs (h : (list net) -> (list net)) (r : xeth_mux_priv) : xeth_mux_priv :=
  {| mx_link := mx_link r; mx_hls := mx_hls r; mx_ports := mx_ports r; mx_vlans := mx_vlans
     r; mx_bridges := mx_bridges r; mx_lags := mx_lags r; mx_lbs := mx_lbs r; mx_counters :=
     mx_counters r; mx_link_stats := mx_link_stats r; mx_flags := mx_flags r; mx_sb_free :=
     mx_sb_free r; mx_sb_tx := mx_sb_tx r; mx_encap := mx_encap r; mx_base_port :=
     mx_base_port r; mx_n_ports := mx_n_ports r; mx_fibs := h (mx_fibs r); mx_chains :=
     mx_chains r; mx_absent_gpios := mx_absent_gpios r; mx_intr_gpios := mx_intr_gpios r;
     mx_lpmode_gpios := mx_lpmode_gpios r; mx_reset_gpios := mx_reset_gpios r; mx_flag_names
     := mx_flag_names r; mx_flag_named := mx_flag_named r; mx_stat_names := mx_stat_names r;
     mx_stat_named := mx_stat_named r; mx_qsfp_addrs := mx_qsfp_addrs r; mx_stat_sysfs :=
     mx_stat_sysfs r; mx_main := mx_main r |}.
Definition upd_mx_chains (h : (list notifier) -> (list notifier)) (r : xeth_mux_priv) : xeth_mux_priv :=
  {| mx_link := mx_link r; mx_hls := mx_hls r; mx_ports := mx_ports r; mx_vlans := mx_vlans
     r; mx_bridges := mx_bridges r; mx_lags := mx_lags r; mx_lbs := mx_lbs r; mx_counters :=
     mx_counters r; mx_link_stats := mx_link_stats r; mx_flags := mx_flags r; mx_sb_free :=
     mx_sb_free r; mx_sb_tx := mx_sb_tx r; mx_encap := mx_encap r; mx_base_port :=
     mx_base_port r; mx_n_ports := mx_n_ports r; mx_fibs := mx_fibs r; mx_chains := h
     (mx_chains r); mx_absent_gpios := mx_absent_gpios r; mx_intr_gpios := mx_intr_gpios r;
     mx_lpmode_gpios := mx_lpmode_gpios r; mx_reset_gpios := mx_reset_gpios r; mx_flag_names
     := mx_flag_names r; mx_flag_named := mx_flag_named r; mx_stat_names := mx_stat_names r;
     mx_stat_named := mx_stat_named r; mx_qsfp_addrs := mx_qsfp_addrs r; mx_stat_sysfs :=
     mx_stat_sysfs r; mx_main := mx_main r |}.
Definition upd_mx_absent_gpios (h : (option (list Z)) -> (option (list Z))) (r : xeth_mux_priv) : xeth_mux_priv :=
  {| mx_link := mx_link r; mx_hls := mx_hls r; mx_ports := mx_ports r; mx_vlans := mx_vlans
     r; mx_bridges := mx_bridges r; mx_lags := mx_lags r; mx_lbs := mx_lbs r; mx_counters :=
     mx_counters r; mx_link_stats := mx_link_stats r; mx_flags := mx_flags r; mx_sb_free :=
     mx_sb_free r; mx_sb_tx := mx_sb_tx r; mx_encap := mx_encap r; mx_base_port :=
     mx_base_port r; mx_n_ports := mx_n_ports r; mx_fibs := mx_fibs r; mx_chains :=
     mx_chains r; mx_absent_gpios := h (mx_absent_gpios r); mx_intr_gpios := mx_intr_gpios
     r; mx_lpmode_gpios := mx_lpmode_gpios r; mx_reset_gpios := mx_reset_gpios r;
     mx_flag_names := mx_flag_names r; mx_flag_named := mx_flag_named r; mx_stat_names :=
     mx_stat_names r; mx_stat_named := mx_stat_named r; mx_qsfp_addrs := mx_qsfp_addrs r;
     mx_stat_sysfs := mx_stat_sysfs r; mx_main := mx_main r |}.
Definition upd_mx_intr_gpios (h : (option (list Z)) -> (option (list Z))) (r : xeth_mux_priv) : xeth_mux_priv :=
  {| mx_link := mx_link r; mx_hls := mx_hls r; mx_ports := mx_ports r; mx_vlans := mx_vlans
     r; mx_bridges := mx_bridges r; mx_lags := mx_lags r; mx_lbs := mx_lbs r; mx_counters :=
     mx_counters r; mx_link_stats := mx_link_stats r; mx_flags := mx_flags r; mx_sb_free :=
     mx_sb_free r; mx_sb_tx := mx_sb_tx r; mx_encap := mx_encap r; mx_base_port :=
     mx_base_port r; mx_n_ports := mx_n_ports r; mx_fibs := mx_fibs r; mx_chains :=
     mx_chains r; mx_absent_gpios := mx_absent_gpios r; mx_intr_gpios := h (mx_intr_gpios
     r); mx_lpmode_gpios := mx_lpmode_gpios r; mx_reset_gpios := mx_reset_gpios r;
     mx_flag_names := mx_flag_names r; mx_flag_named := mx_flag_named r; mx_stat_names :=
     mx_stat_names r; mx_stat_named := mx_stat_named r; mx_qsfp_addrs := mx_qsfp_addrs r;
     mx_stat_sysfs := mx_stat_sysfs r; mx_main := mx_main r |}.
Definition upd_mx_lpmode_gpios (h : (option (list Z)) -> (option (list Z))) (r : xeth_mux_priv) : xeth_mux_priv :=
  {| mx_link := mx_link r; mx_hls := mx_hls r; mx_ports := mx_ports r; mx_vlans := mx_vlans
     r; mx_bridges := mx_bridges r; mx_lags := mx_lags r; mx_lbs := mx_lbs r; mx_counters :=
     mx_counters r; mx_link_stats := mx_link_stats r; mx_flags := mx_flags r; mx_sb_free :=
     mx_sb_free r; mx_sb_tx := mx_sb_tx r; mx_encap := mx_encap r; mx_base_port :=
     mx_base_port r; mx_n_ports := mx_n_ports r; mx_fibs := mx_fibs r; mx_chains :=
     mx_chains r; mx_absent_gpios := mx_absent_gpios r; mx_intr_gpios := mx_intr_gpios r;
     mx_lpmode_gpios := h (mx_lpmode_gpios r); mx_reset_gpios := mx_reset_gpios r;
     mx_flag_names := mx_flag_names r; mx_flag_named := mx_flag_named r; mx_stat_names :=
     mx_stat_names r; mx_stat_named := mx_stat_named r; mx_qsfp_addrs := mx_qsfp_addrs r;
     mx_stat_sysfs := mx_stat_sysfs r; mx_main := mx_main r |}.
Definition upd_mx_reset_gpios (h : (option (list Z)) -> (option (list Z))) (r : xeth_mux_priv) : xeth_mux_priv :=
  {| mx_link := mx_link r; mx_hls := mx_hls r; mx_ports := mx_ports r; mx_vlans := mx_vlans
     r; mx_bridges := mx_bridges r; mx_lags := mx_lags r; mx_lbs := mx_lbs r; mx_counters :=
     mx_counters r; mx_link_stats := mx_link_stats r; mx_flags := mx_flags r; mx_sb_free :=
     mx_sb_free r; mx_sb_tx := mx_sb_tx r; mx_encap := mx_encap r; mx_base_port :=
     mx_base_port r; mx_n_ports := mx_n_ports r; mx_fibs := mx_fibs r; mx_chains :=
     mx_chains r; mx_absent_gpios := mx_absent_gpios r; mx_intr_gpios := mx_intr_gpios r;
     mx_lpmode_gpios := mx_lpmode_gpios r; mx_reset_gpios := h (mx_reset_gpios r);
     mx_flag_names := mx_flag_names r; mx_flag_named := mx_flag_named r; mx_stat_names :=
     mx_stat_names r; mx_stat_named := mx_stat_named r; mx_qsfp_addrs := mx_qsfp_addrs r;
     mx_stat_sysfs := mx_stat_sysfs r; mx_main := mx_main r |}.
Definition upd_mx_flag_names (h : (list (list Z)) -> (list (list Z))) (r : xeth_mux_priv) : xeth_mux_priv :=
  {| mx_link := mx_link r; mx_hls := mx_hls r; mx_ports := mx_ports r; mx_vlans := mx_vlans
     r; mx_bridges := mx_bridges r; mx_lags := mx_lags r; mx_lbs := mx_lbs r; mx_counters :=
     mx_counters r; mx_link_stats := mx_link_stats r; mx_flags := mx_flags r; mx_sb_free :=
     mx_sb_free r; mx_sb_tx := mx_sb_tx r; mx_encap := mx_encap r; mx_base_port :=
     mx_base_port r; mx_n_ports := mx_n_ports r; mx_fibs := mx_fibs r; mx_chains :=
     mx_chains r; mx_absent_gpios := mx_absent_gpios r; mx_intr_gpios := mx_intr_gpios r;
     mx_lpmode_gpios := mx_lpmode_gpios r; mx_reset_gpios := mx_reset_gpios r; mx_flag_names
     := h (mx_flag_names r); mx_flag_named := mx_flag_named r; mx_stat_names :=
     mx_stat_names r; mx_stat_named := mx_stat_named r; mx_qsfp_addrs := mx_qsfp_addrs r;
     mx_stat_sysfs := mx_stat_sysfs r; mx_main := mx_main r |}.
Definition upd_mx_flag_named (h : Z -> Z) (r : xeth_mux_priv) : xeth_mux_priv :=
  {| mx_link := mx_link r; mx_hls := mx_hls r; mx_ports := mx_ports r; mx_vlans := mx_vlans
     r; mx_bridges := mx_bridges r; mx_lags := mx_lags r; mx_lbs := mx_lbs r; mx_counters :=
     mx_counters r; mx_link_stats := mx_link_stats r; mx_flags := mx_flags r; mx_sb_free :=
     mx_sb_free r; mx_sb_tx := mx_sb_tx r; mx_encap := mx_encap r; mx_base_port :=
     mx_base_port r; mx_n_ports := mx_n_ports r; mx_fibs := mx_fibs r; mx_chains :=
     mx_chains r; mx_absent_gpios := mx_absent_gpios r; mx_intr_gpios := mx_intr_gpios r;
     mx_lpmode_gpios := mx_lpmode_gpios r; mx_reset_gpios := mx_reset_gpios r; mx_flag_names
     := mx_flag_names r; mx_flag_named := h (mx_flag_named r); mx_stat_names :=
     mx_stat_names r; mx_stat_named := mx_stat_named r; mx_qsfp_addrs := mx_qsfp_addrs r;
     mx_stat_sysfs := mx_stat_sysfs r; mx_main := mx_main r |}.
Definition upd_mx_stat_names (h : (list (list Z)) -> (list (list Z))) (r : xeth_mux_priv) : xeth_mux_priv :=
  {| mx_link := mx_link r; mx_hls := mx_hls r; mx_ports := mx_ports r; mx_vlans := mx_vlans
     r; mx_bridges := mx_bridges r; mx_lags := mx_lags r; mx_lbs := mx_lbs r; mx_counters :=
     mx_counters r; mx_link_stats := mx_link_stats r; mx_flags := mx_flags r; mx_sb_free :=
     mx_sb_free r; mx_sb_tx := mx_sb_tx r; mx_encap := mx_encap r; mx_base_port :=
     mx_base_port r; mx_n_ports := mx_n_ports r; mx_fibs := mx_fibs r; mx_chains :=
     mx_chains r; mx_absent_gpios := mx_absent_gpios r; mx_intr_gpios := mx_intr_gpios r;
     mx_lpmode_gpios := mx_lpmode_gpios r; mx_reset_gpios := mx_reset_gpios r; mx_flag_names
     := mx_flag_names r; mx_flag_named := mx_flag_named r; mx_stat_names := h (mx_stat_names
     r); mx_stat_named := mx_stat_named r; mx_qsfp_addrs := mx_qsfp_addrs r; mx_stat_sysfs
     := mx_stat_sysfs r; mx_main := mx_main r |}.
Definition upd_mx_stat_named (h : Z -> Z) (r : xeth_mux_priv) : xeth_mux_priv :=
  {| mx_link := mx_link r; mx_hls := mx_hls r; mx_ports := mx_ports r; mx_vlans := mx_vlans
     r; mx_bridges := mx_bridges r; mx_lags := mx_lags r; mx_lbs := mx_lbs r; mx_counters :=
     mx_counters r; mx_link_stats := mx_link_stats r; mx_flags := mx_flags r; mx_sb_free :=
     mx_sb_free r; mx_sb_tx := mx_sb_tx r; mx_encap := mx_encap r; mx_base_port :=
     mx_base_port r; mx_n_ports := mx_n_ports r; mx_fibs := mx_fibs r; mx_chains :=
     mx_chains r; mx_absent_gpios := mx_absent_gpios r; mx_intr_gpios := mx_intr_gpios r;
     mx_lpmode_gpios := mx_lpmode_gpios r; mx_reset_gpios := mx_reset_gpios r; mx_flag_names
     := mx_flag_names r; mx_flag_named := mx_flag_named r; mx_stat_names := mx_stat_names r;
     mx_stat_named := h (mx_stat_named r); mx_qsfp_addrs := mx_qsfp_addrs r; mx_stat_sysfs
     := mx_stat_sysfs r; mx_main := mx_main r |}.
Definition upd_mx_qsfp_addrs (h : (list Z) -> (list Z)) (r : xeth_mux_priv) : xeth_mux_priv :=
  {| mx_link := mx_link r; mx_hls := mx_hls r; mx_ports := mx_ports r; mx_vlans := mx_vlans
     r; mx_bridges := mx_bridges r; mx_lags := mx_lags r; mx_lbs := mx_lbs r; mx_counters :=
     mx_counters r; mx_link_stats := mx_link_stats r; mx_flags := mx_flags r; mx_sb_free :=
     mx_sb_free r; mx_sb_tx := mx_sb_tx r; mx_encap := mx_encap r; mx_base_port :=
     mx_base_port r; mx_n_ports := mx_n_ports r; mx_fibs := mx_fibs r; mx_chains :=
     mx_chains r; mx_absent_gpios := mx_absent_gpios r; mx_intr_gpios := mx_intr_gpios r;
     mx_lpmode_gpios := mx_lpmode_gpios r; mx_reset_gpios := mx_reset_gpios r; mx_flag_names
     := mx_flag_names r; mx_flag_named := mx_flag_named r; mx_stat_names := mx_stat_names r;
     mx_stat_named := mx_stat_named r; mx_qsfp_addrs := h (mx_qsfp_addrs r); mx_stat_sysfs
     := mx_stat_sysfs r; mx_main := mx_main r |}.
Definition upd_mx_stat_sysfs (h : bool -> bool) (r : xeth_mux_priv) : xeth_mux_priv :=
  {| mx_link := mx_link r; mx_hls := mx_hls r; mx_ports := mx_ports r; mx_vlans := mx_vlans
     r; mx_bridges := mx_bridges r; mx_lags := mx_lags r; mx_lbs := mx_lbs r; mx_counters :=
     mx_counters r; mx_link_stats := mx_link_stats r; mx_flags := mx_flags r; mx_sb_free :=
     mx_sb_free r; mx_sb_tx := mx_sb_tx r; mx_encap := mx_encap r; mx_base_port :=
     mx_base_port r; mx_n_ports := mx_n_ports r; mx_fibs := mx_fibs r; mx_chains :=
     mx_chains r; mx_absent_gpios := mx_absent_gpios r; mx_intr_gpios := mx_intr_gpios r;
     mx_lpmode_gpios := mx_lpmode_gpios r; mx_reset_gpios := mx_reset_gpios r; mx_flag_names
     := mx_flag_names r; mx_flag_named := mx_flag_named r; mx_stat_names := mx_stat_names r;
     mx_stat_named := mx_stat_named r; mx_qsfp_addrs := mx_qsfp_addrs r; mx_stat_sysfs := h
     (mx_stat_sysfs r); mx_main := mx_main r |}.
Definition upd_mx_main (h : bool -> bool) (r : xeth_mux_priv) : xeth_mux_priv :=
  {| mx_link := mx_link r; mx_hls := mx_hls r; mx_ports := mx_ports r; mx_vlans := mx_vlans
     r; mx_bridges := mx_bridges r; mx_lags := mx_lags r; mx_lbs := mx_lbs r; mx_counters :=
     mx_counters r; mx_link_stats := mx_link_stats r; mx_flags := mx_flags r; mx_sb_free :=
     mx_sb_free r; mx_sb_tx := mx_sb_tx r; mx_encap := mx_encap r; mx_base_port :=
     mx_base_port r; mx_n_ports := mx_n_ports r; mx_fibs := mx_fibs r; mx_chains :=
     mx_chains r; mx_absent_gpios := mx_absent_gpios r; mx_intr_gpios := mx_intr_gpios r;
     mx_lpmode_gpios := mx_lpmode_gpios r; mx_reset_gpios := mx_reset_gpios r; mx_flag_names
     := mx_flag_names r; mx_flag_named := mx_flag_named r; mx_stat_names := mx_stat_names r;
     mx_stat_named := mx_stat_named r; mx_qsfp_addrs := mx_qsfp_addrs r; mx_stat_sysfs :=
     mx_stat_sysfs r; mx_main := h (mx_main r) |}.

(** ** Frames *)

(** [struct sk_buff]: a buffer of bytes with the offsets of the data and of the
    MAC header in it, and the metadata the driver reads and writes.  The
    protocol fields are in host order. *)

Record sk_buff := {
  skb_dev : Z;
  skb_buf : list Z;
  skb_data : nat;
  skb_mac : nat;
  skb_vlan_proto : Z;
  skb_vlan_tci : Z;
  skb_protocol : Z;
  skb_priority : Z
}.

Definition upd_skb_dev (h : Z -> Z) (r : sk_buff) : sk_buff :=
  {| skb_dev := h (skb_dev r); skb_buf := skb_buf r; skb_data := skb_data r; skb_mac :=
     skb_mac r; skb_vlan_proto := skb_vlan_proto r; skb_vlan_tci := skb_vlan_tci r;
     skb_protocol := skb_protocol r; skb_priority := skb_priority r |}.
Definition upd_skb_buf (h : (list Z) -> (list Z)) (r : sk_buff) : sk_buff :=
  {| skb_dev := skb_dev r; skb_buf := h (skb_buf r); skb_data := skb_data r; skb_mac :=
     skb_mac r; skb_vlan_proto := skb_vlan_proto r; skb_vlan_tci := skb_vlan_tci r;
     skb_protocol := skb_protocol r; skb_priority := skb_priority r |}.
Definition upd_skb_data (h : nat -> nat) (r : sk_buff) : sk_buff :=
  {| skb_dev := skb_dev r; skb_buf := skb_buf r; skb_data := h (skb_data r); skb_mac :=
     skb_mac r; skb_vlan_proto := skb_vlan_proto r; skb_vlan_tci := skb_vlan_tci r;
     skb_protocol := skb_protocol r; skb_priority := skb_priority r |}.
Definition upd_skb_mac (h : nat -> nat) (r : sk_buff) : sk_buff :=
  {| skb_dev := skb_dev r; skb_buf := skb_buf r; skb_data := skb_data r; skb_mac := h
     (skb_mac r); skb_vlan_proto := skb_vlan_proto r; skb_vlan_tci := skb_vlan_tci r;
     skb_protocol := skb_protocol r; skb_priority := skb_priority r |}.
Definition upd_skb_vlan_proto (h : Z -> Z) (r : sk_buff) : sk_buff :=
  {| skb_dev := skb_dev r; skb_buf := skb_buf r; skb_data := skb_data r; skb_mac := skb_mac
     r; skb_vlan_proto := h (skb_vlan_proto r); skb_vlan_tci := skb_vlan_tci r; skb_protocol
     := skb_protocol r; skb_priority := skb_priority r |}.
Definition upd_skb_vlan_tci (h : Z -> Z) (r : sk_buff) : sk_buff :=
  {| skb_dev := skb_dev r; skb_buf := skb_buf r; skb_data := skb_data r; skb_mac := skb_mac
     r; skb_vlan_proto := skb_vlan_proto r; skb_vlan_tci := h (skb_vlan_tci r); skb_protocol
     := skb_protocol r; skb_priority := skb_priority r |}.
Definition upd_skb_protocol (h : Z -> Z) (r : sk_buff) : sk_buff :=
  {| skb_dev := skb_dev r; skb_buf := skb_buf r; skb_data := skb_data r; skb_mac := skb_mac
     r; skb_vlan_proto := skb_vlan_proto r; skb_vlan_tci := skb_vlan_tci r; skb_protocol :=
     h (skb_protocol r); skb_priority := skb_priority r |}.
Definition upd_skb_priority (h : Z -> Z) (r : sk_buff) : sk_buff :=
  {| skb_dev := skb_dev r; skb_buf := skb_buf r; skb_data := skb_data r; skb_mac := skb_mac
     r; skb_vlan_proto := skb_vlan_proto r; skb_vlan_tci := skb_vlan_tci r; skb_protocol :=
     skb_protocol r; skb_priority := h (skb_priority r) |}.

(** What the driver does with a frame it owns: hand it to a device's queue, pass
    it up the stack as received by a device, or free it. *)
Inductive frame_io :=
| IoXmit (dev : Z) (skb : sk_buff)
| IoForward (dev : Z) (skb : sk_buff)
| IoFree (skb : sk_buff).

(** ** The machine *)

Record world := {
  w_mux : Z;
  w_priv : xeth_mux_priv;
  w_devs : gmap Z net_device;
  w_nets : list net;
  w_kmem : nat;
  w_wire : list (list Z);
  w_io : list frame_io;
  w_unregq : list Z;
  w_refs : list Z;
  w_stat_file : bool
}.

Definition upd_w_mux (h : Z -> Z) (r : world) : world :=
  {| w_mux := h (w_mux r); w_priv := w_priv r; w_devs := w_devs r; w_nets := w_nets r; w_kmem := w_kmem r;
     w_wire := w_wire r; w_io := w_io r; w_unregq := w_unregq r; w_refs := w_refs r; w_stat_file := w_stat_file r |}.
Definition upd_w_priv (h : xeth_mux_priv -> xeth_mux_priv) (r : world) : world :=
  {| w_mux := w_mux r; w_priv := h (w_priv r); w_devs := w_devs r; w_nets := w_nets r; w_kmem := w_kmem r;
     w_wire := w_wire r; w_io := w_io r; w_unregq := w_unregq r; w_refs := w_refs r; w_stat_file := w_stat_file r |}.
Definition upd_w_devs (h : (gmap Z net_device) -> (gmap Z net_device)) (r : world) : world :=
  {| w_mux := w_mux r; w_priv := w_priv r; w_devs := h (w_devs r); w_nets := w_nets r; w_kmem := w_kmem r;
     w_wire := w_wire r; w_io := w_io r; w_unregq := w_unregq r; w_refs := w_refs r; w_stat_file := w_stat_file r |}.
Definition upd_w_nets (h : (list net) -> (list net)) (r : world) : world :=
  {| w_mux := w_mux r; w_priv := w_priv r; w_devs := w_devs r; w_nets := h (w_nets r); w_kmem := w_kmem r;
     w_wire := w_wire r; w_io := w_io r; w_unregq := w_unregq r; w_refs := w_refs r; w_stat_file := w_stat_file r |}.
Definition upd_w_kmem (h : nat -> nat) (r : world) : world :=
  {| w_mux := w_mux r; w_priv := w_priv r; w_devs := w_devs r; w_nets := w_nets r; w_kmem := h (w_kmem r);
     w_wire := w_wire r; w_io := w_io r; w_unregq := w_unregq r; w_refs := w_refs r; w_stat_file := w_stat_file r |}.
Definition upd_w_wire (h : (list (list Z)) -> (list (list Z))) (r : world) : world :=
  {| w_mux := w_mux r; w_priv := w_priv r; w_devs := w_devs r; w_nets := w_nets r; w_kmem := w_kmem r;
     w_wire := h (w_wire r); w_io := w_io r; w_unregq := w_unregq r; w_refs := w_refs r; w_stat_file := w_stat_file r |}.
Definition upd_w_io (h : (list frame_io) -> (list frame_io)) (r : world) : world :=
  {| w_mux := w_mux r; w_priv := w_priv r; w_devs := w_devs r; w_nets := w_nets r; w_kmem := w_kmem r;
     w_wire := w_wire r; w_io := h (w_io r); w_unregq := w_unregq r; w_refs := w_refs r; w_stat_file := w_stat_file r |}.
Definition upd_w_unregq (h : (list Z) -> (list Z)) (r : world) : world :=
  {| w_mux := w_mux r; w_priv := w_priv r; w_devs := w_devs r; w_nets := w_nets r; w_kmem := w_kmem r;
     w_wire := w_wire r; w_io := w_io r; w_unregq := h (w_unregq r); w_refs := w_refs r; w_stat_file := w_stat_file r |}.
Definition upd_w_refs (h : (list Z) -> (list Z)) (r : world) : world :=
  {| w_mux := w_mux r; w_priv := w_priv r; w_devs := w_devs r; w_nets := w_nets r; w_kmem := w_kmem r;
     w_wire := w_wire r; w_io := w_io r; w_unregq := w_unregq r; w_refs := h (w_refs r); w_stat_file := w_stat_file r |}.
Definition upd_w_stat_file (h : bool -> bool) (r : world) : world :=
  {| w_mux := w_mux r; w_priv := w_priv r; w_devs := w_devs r; w_nets := w_nets r; w_kmem := w_kmem r;
     w_wire := w_wire r; w_io := w_io r; w_unregq := w_unregq r; w_refs := w_refs r; w_stat_file := h (w_stat_file r) |}.

(** ** Access *)

(** Dereference a [struct net_device *], and its private area as a proxy. *)
Definition dev (p : Z) : M world net_device := fun w => deref (w_devs w !! p) w.

Definition proxy_at (w : world) (p : Z) : option xeth_proxy :=
  w_devs w !! p ≫= nd_proxy.

Definition netdev_priv (p : Z) : M world xeth_proxy := fun w => deref (proxy_at w p) w.

Definition get_mux : M world xeth_mux_priv := gets w_priv.
Definition mod_mux (f : xeth_mux_priv -> xeth_mux_priv) : M world unit := modify (upd_w_priv f).

(** Assign a field of the device at [p]. *)
Definition mod_dev (p : Z) (f : net_device -> net_device) : M world unit :=
  d ← dev p; modify (upd_w_devs (insert p (f d))).

Definition mod_proxy (p : Z) (f : xeth_proxy -> xeth_proxy) : M world unit :=
  px ← netdev_priv p; mod_dev p (upd_nd_proxy (fun _ => Some (f px))).

Definition is_xeth_port (d : net_device) : bool := bool_decide (nd_ops d = NdoPort).
Definition is_xeth_mux (d : net_device) : bool := bool_decide (nd_ops d = NdoMux).
Definition is_xeth_vlan (d : net_device) : bool := bool_decide (nd_lnko d = Some LnkoVlan).
Definition is_xeth_lag (d : net_device) : bool := bool_decide (nd_lnko d = Some LnkoLag).
Definition is_xeth_bridge (d : net_device) : bool := bool_decide (nd_lnko d = Some LnkoBridge).
Definition is_xeth_lb (d : net_device) : bool := bool_decide (nd_lnko d = Some LnkoLb).

(** [netif_carrier_on] and [netif_carrier_off]. *)
Definition netif_carrier_on (p : Z) : M world unit := mod_dev p (upd_nd_carrier (fun _ => true)).
Definition netif_carrier_off (p : Z) : M world unit := mod_dev p (upd_nd_carrier (fun _ => false)).

Lemma dev_run w p d : w_devs w !! p = Some d -> dev p w = Some (d, w).
Proof. intros H. unfold dev. by rewrite H. Qed.

Lemma mod_dev_run w p f d :
  w_devs w !! p = Some d -> mod_dev p f w = Some (tt, upd_w_devs (insert p (f d)) w).
Proof. intros H. unfold mod_dev. by rewrite bind_run, (dev_run _ _ _ H). Qed.

Lemma netdev_priv_run w p px : proxy_at w p = Some px -> netdev_priv p w = Some (px, w).
Proof. intros H. unfold netdev_priv. by rewrite H. Qed.

Lemma dev_inv w p d w' : dev p w = Some (d, w') -> w' = w /\ w_devs w !! p = Some d.
Proof. unfold dev, deref. destruct (w_devs w !! p); [|done]. by intros [= <- <-]. Qed.

Lemma mod_dev_inv w p f u w' :
  mod_dev p f w = Some (u, w') ->
  exists d, w_devs w !! p = Some d /\ w' = upd_w_devs (insert p (f d)) w.
Proof.
  intros E. unfold mod_dev in E. bind_step E. apply dev_inv in E0 as [-> Ed].
  injection E as _ <-. eauto.
Qed.

Lemma netdev_priv_inv w p px w' :
  netdev_priv p w = Some (px, w') -> w' = w /\ proxy_at w p = Some px.
Proof. unfold netdev_priv, deref. destruct (proxy_at w p); [|done]. by intros [= <- <-]. Qed.

Lemma preserves_dev I p : preserves I (dev p).
Proof. intros w d w' Hw [-> _]%dev_inv. done. Qed.
Lemma preserves_netdev_priv I p : preserves I (netdev_priv p).
Proof. intros w d w' Hw [-> _]%netdev_priv_inv. done. Qed.
Lemma steps_dev R `{!PreOrder R} p : steps R (dev p).
Proof. intros w d w' [-> _]%dev_inv. reflexivity. Qed.
Lemma steps_netdev_priv R `{!PreOrder R} p : steps R (netdev_priv p).
Proof. intros w d w' [-> _]%netdev_priv_inv. reflexivity. Qed.
#[export] Hint Resolve preserves_dev preserves_netdev_priv : preserves.
#[export] Hint Resolve steps_dev steps_netdev_priv : steps.
