(* ===== verification/Stats.v ===== *)
(** * Link statistics, mux counters and mux flags (dkms/xeth.h)

    Arrays of [atomic64_t] indexed by an enumeration, and the bits of the mux
    flags word.  The source makes one set of accessors per enumerator with a
    macro; here the enumerator is an argument of each accessor. *)

From stdpp Require Import base numbers list gmap.
From Stdlib Require Import ZArith Lia.
From S2P Require Import Prelude Bytes Monad Uapi State.

Local Open Scope Z_scope.

(** ** Link statistics *)

Inductive xeth_link_stat :=
| XETH_LINK_STAT_RX_PACKETS
| XETH_LINK_STAT_TX_PACKETS
| XETH_LINK_STAT_RX_BYTES
| XETH_LINK_STAT_TX_BYTES
| XETH_LINK_STAT_RX_ERRORS
| XETH_LINK_STAT_TX_ERRORS
| XETH_LINK_STAT_RX_DROPPED
| XETH_LINK_STAT_TX_DROPPED
| XETH_LINK_STAT_MULTICAST
| XETH_LINK_STAT_COLLISIONS
| XETH_LINK_STAT_RX_LENGTH_ERRORS
| XETH_LINK_STAT_RX_OVER_ERRORS
| XETH_LINK_STAT_RX_CRC_ERRORS
| XETH_LINK_STAT_RX_FRAME_ERRORS
| XETH_LINK_STAT_RX_FIFO_ERRORS
| XETH_LINK_STAT_RX_MISSED_ERRORS
| XETH_LINK_STAT_TX_ABORTED_ERRORS
| XETH_LINK_STAT_TX_CARRIER_ERRORS
| XETH_LINK_STAT_TX_FIFO_ERRORS
| XETH_LINK_STAT_TX_HEARTBEAT_ERRORS
| XETH_LINK_STAT_TX_WINDOW_ERRORS
| XETH_LINK_STAT_RX_COMPRESSED
| XETH_LINK_STAT_TX_COMPRESSED
| XETH_LINK_STAT_RX_NOHANDLER.
#[export] Instance xeth_link_stat_eq_dec : EqDecision xeth_link_stat.
Proof. solve_decision. Defined.

Definition xeth_link_stat_all : list xeth_link_stat :=
  [
    XETH_LINK_STAT_RX_PACKETS; XETH_LINK_STAT_TX_PACKETS; XETH_LINK_STAT_RX_BYTES;
    XETH_LINK_STAT_TX_BYTES; XETH_LINK_STAT_RX_ERRORS; XETH_LINK_STAT_TX_ERRORS;
    XETH_LINK_STAT_RX_DROPPED; XETH_LINK_STAT_TX_DROPPED; XETH_LINK_STAT_MULTICAST;
    XETH_LINK_STAT_COLLISIONS; XETH_LINK_STAT_RX_LENGTH_ERRORS;
    XETH_LINK_STAT_RX_OVER_ERRORS; XETH_LINK_STAT_RX_CRC_ERRORS;
    XETH_LINK_STAT_RX_FRAME_ERRORS; XETH_LINK_STAT_RX_FIFO_ERRORS;
    XETH_LINK_STAT_RX_MISSED_ERRORS; XETH_LINK_STAT_TX_ABORTED_ERRORS;
    XETH_LINK_STAT_TX_CARRIER_ERRORS; XETH_LINK_STAT_TX_FIFO_ERRORS;
    XETH_LINK_STAT_TX_HEARTBEAT_ERRORS; XETH_LINK_STAT_TX_WINDOW_ERRORS;
    XETH_LINK_STAT_RX_COMPRESSED; XETH_LINK_STAT_TX_COMPRESSED;
    XETH_LINK_STAT_RX_NOHANDLER ].

Definition link_stat_idx (s : xeth_link_stat) : nat := index_of s xeth_link_stat_all.
Definition XETH_N_LINK_STAT : Z := Z.of_nat (length xeth_link_stat_all).

(** An [atomic64_t] array after its init loop. *)
Definition xeth_link_stat_init : list Z := replicate (length xeth_link_stat_all) 0.

Definition xeth_stat_get (s : xeth_link_stat) (t : list Z) : Z := t !!! link_stat_idx s.
Definition xeth_stat_add (s : xeth_link_stat) (n : Z) (t : list Z) : list Z :=
  alter (fun x => s64 (x + n)) (link_stat_idx s) t.
Definition xeth_stat_inc (s : xeth_link_stat) (t : list Z) : list Z := xeth_stat_add s 1 t.
Definition xeth_stat_set (s : xeth_link_stat) (n : Z) (t : list Z) : list Z :=
  <[link_stat_idx s := s64 n]> t.

(** [struct rtnl_link_stats64] *)
Record rtnl_link_stats64 := {
  rs_rx_packets : Z; rs_tx_packets : Z; rs_rx_bytes : Z; rs_tx_bytes : Z; rs_rx_errors :
  Z; rs_tx_errors : Z; rs_rx_dropped : Z; rs_tx_dropped : Z; rs_multicast : Z;
  rs_collisions : Z; rs_rx_length_errors : Z; rs_rx_over_errors : Z; rs_rx_crc_errors :
  Z; rs_rx_frame_errors : Z; rs_rx_fifo_errors : Z; rs_rx_missed_errors : Z;
  rs_tx_aborted_errors : Z; rs_tx_carrier_errors : Z; rs_tx_fifo_errors : Z;
  rs_tx_heartbeat_errors : Z; rs_tx_window_errors : Z; rs_rx_compressed : Z;
  rs_tx_compressed : Z; rs_rx_nohandler : Z }.

Definition xeth_link_stats (src : list Z) : rtnl_link_stats64 := {|
  rs_rx_packets := u64 (xeth_stat_get XETH_LINK_STAT_RX_PACKETS src);
  rs_tx_packets := u64 (xeth_stat_get XETH_LINK_STAT_TX_PACKETS src);
  rs_rx_bytes := u64 (xeth_stat_get XETH_LINK_STAT_RX_BYTES src);
  rs_tx_bytes := u64 (xeth_stat_get XETH_LINK_STAT_TX_BYTES src);
  rs_rx_errors := u64 (xeth_stat_get XETH_LINK_STAT_RX_ERRORS src);
  rs_tx_errors := u64 (xeth_stat_get XETH_LINK_STAT_TX_ERRORS src);
  rs_rx_dropped := u64 (xeth_stat_get XETH_LINK_STAT_RX_DROPPED src);
  rs_tx_dropped := u64 (xeth_stat_get XETH_LINK_STAT_TX_DROPPED src);
  rs_multicast := u64 (xeth_stat_get XETH_LINK_STAT_MULTICAST src);
  rs_collisions := u64 (xeth_stat_get XETH_LINK_STAT_COLLISIONS src);
  rs_rx_length_errors := u64 (xeth_stat_get XETH_LINK_STAT_RX_LENGTH_ERRORS src);
  rs_rx_over_errors := u64 (xeth_stat_get XETH_LINK_STAT_RX_OVER_ERRORS src);
  rs_rx_crc_errors := u64 (xeth_stat_get XETH_LINK_STAT_RX_CRC_ERRORS src);
  rs_rx_frame_errors := u64 (xeth_stat_get XETH_LINK_STAT_RX_FRAME_ERRORS src);
  rs_rx_fifo_errors := u64 (xeth_stat_get XETH_LINK_STAT_RX_FIFO_ERRORS src);
  rs_rx_missed_errors := u64 (xeth_stat_get XETH_LINK_STAT_RX_MISSED_ERRORS src);
  rs_tx_aborted_errors := u64 (xeth_stat_get XETH_LINK_STAT_TX_ABORTED_ERRORS src);
  rs_tx_carrier_errors := u64 (xeth_stat_get XETH_LINK_STAT_TX_CARRIER_ERRORS src);
  rs_tx_fifo_errors := u64 (xeth_stat_get XETH_LINK_STAT_TX_FIFO_ERRORS src);
  rs_tx_heartbeat_errors := u64 (xeth_stat_get XETH_LINK_STAT_TX_HEARTBEAT_ERRORS src);
  rs_tx_window_errors := u64 (xeth_stat_get XETH_LINK_STAT_TX_WINDOW_ERRORS src);
  rs_rx_compressed := u64 (xeth_stat_get XETH_LINK_STAT_RX_COMPRESSED src);
  rs_tx_compressed := u64 (xeth_stat_get XETH_LINK_STAT_TX_COMPRESSED src);
  rs_rx_nohandler := u64 (xeth_stat_get XETH_LINK_STAT_RX_NOHANDLER src) |}.

(** The field of the report a statistic goes to. *)
Definition rtnl_field (s : xeth_link_stat) : rtnl_link_stats64 -> Z :=
  match s with
  | XETH_LINK_STAT_RX_PACKETS => rs_rx_packets
  | XETH_LINK_STAT_TX_PACKETS => rs_tx_packets
  | XETH_LINK_STAT_RX_BYTES => rs_rx_bytes
  | XETH_LINK_STAT_TX_BYTES => rs_tx_bytes
  | XETH_LINK_STAT_RX_ERRORS => rs_rx_errors
  | XETH_LINK_STAT_TX_ERRORS => rs_tx_errors
  | XETH_LINK_STAT_RX_DROPPED => rs_rx_dropped
  | XETH_LINK_STAT_TX_DROPPED => rs_tx_dropped
  | XETH_LINK_STAT_MULTICAST => rs_multicast
  | XETH_LINK_STAT_COLLISIONS => rs_collisions
  | XETH_LINK_STAT_RX_LENGTH_ERRORS => rs_rx_length_errors
  | XETH_LINK_STAT_RX_OVER_ERRORS => rs_rx_over_errors
  | XETH_LINK_STAT_RX_CRC_ERRORS => rs_rx_crc_errors
  | XETH_LINK_STAT_RX_FRAME_ERRORS => rs_rx_frame_errors
  | XETH_LINK_STAT_RX_FIFO_ERRORS => rs_rx_fifo_errors
  | XETH_LINK_STAT_RX_MISSED_ERRORS => rs_rx_missed_errors
  | XETH_LINK_STAT_TX_ABORTED_ERRORS => rs_tx_aborted_errors
  | XETH_LINK_STAT_TX_CARRIER_ERRORS => rs_tx_carrier_errors
  | XETH_LINK_STAT_TX_FIFO_ERRORS => rs_tx_fifo_errors
  | XETH_LINK_STAT_TX_HEARTBEAT_ERRORS => rs_tx_heartbeat_errors
  | XETH_LINK_STAT_TX_WINDOW_ERRORS => rs_tx_window_errors
  | XETH_LINK_STAT_RX_COMPRESSED => rs_rx_compressed
  | XETH_LINK_STAT_TX_COMPRESSED => rs_tx_compressed
  | XETH_LINK_STAT_RX_NOHANDLER => rs_rx_nohandler
  end.

(** ** Mux counters *)

Inductive xeth_mux_counter :=
| xeth_mux_counter_ex_frames
| xeth_mux_counter_ex_bytes
| xeth_mux_counter_sb_connections
| xeth_mux_counter_sbex_invalid
| xeth_mux_counter_sbex_dropped
| xeth_mux_counter_sbrx_invalid
| xeth_mux_counter_sbrx_no_dev
| xeth_mux_counter_sbrx_no_mem
| xeth_mux_counter_sbrx_msgs
| xeth_mux_counter_sbrx_ticks
| xeth_mux_counter_sbtx_msgs
| xeth_mux_counter_sbtx_retries
| xeth_mux_counter_sbtx_no_mem
| xeth_mux_counter_sbtx_queued
| xeth_mux_counter_sbtx_free
| xeth_mux_counter_sbtx_ticks.
#[export] Instance xeth_mux_counter_eq_dec : EqDecision xeth_mux_counter.
Proof. solve_decision. Defined.

Definition xeth_mux_counter_all : list xeth_mux_counter :=
  [
    xeth_mux_counter_ex_frames; xeth_mux_counter_ex_bytes;
    xeth_mux_counter_sb_connections; xeth_mux_counter_sbex_invalid;
    xeth_mux_counter_sbex_dropped; xeth_mux_counter_sbrx_invalid;
    xeth_mux_counter_sbrx_no_dev; xeth_mux_counter_sbrx_no_mem;
    xeth_mux_counter_sbrx_msgs; xeth_mux_counter_sbrx_ticks; xeth_mux_counter_sbtx_msgs;
    xeth_mux_counter_sbtx_retries; xeth_mux_counter_sbtx_no_mem;
    xeth_mux_counter_sbtx_queued; xeth_mux_counter_sbtx_free;
    xeth_mux_counter_sbtx_ticks ].
Definition counter_idx (c : xeth_mux_counter) : nat := index_of c xeth_mux_counter_all.
Definition xeth_mux_n_counters : nat := length xeth_mux_counter_all.

Definition xeth_mux_counter_init : list Z := replicate xeth_mux_n_counters 0.

Definition counter_get (c : xeth_mux_counter) (p : xeth_mux_priv) : Z :=
  mx_counters p !!! counter_idx c.
Definition counter_add (c : xeth_mux_counter) (n : Z) (p : xeth_mux_priv) : xeth_mux_priv :=
  upd_mx_counters (alter (fun x => s64 (x + n)) (counter_idx c)) p.

Definition xeth_mux_add (c : xeth_mux_counter) (n : Z) : M world unit := mod_mux (counter_add c n).
Definition xeth_mux_inc (c : xeth_mux_counter) : M world unit := xeth_mux_add c 1.
Definition xeth_mux_dec (c : xeth_mux_counter) : M world unit := xeth_mux_add c (-1).
Definition xeth_mux_get (c : xeth_mux_counter) : M world Z := gets (fun w => counter_get c (w_priv w)).

(** ** Mux flags *)

Inductive xeth_mux_flag :=
| xeth_mux_flag_main_task
| xeth_mux_flag_sb_listen
| xeth_mux_flag_sb_connection
| xeth_mux_flag_sbrx_task
| xeth_mux_flag_fib_notifier
| xeth_mux_flag_inetaddr_notifier
| xeth_mux_flag_inet6addr_notifier
| xeth_mux_flag_netdevice_notifier
| xeth_mux_flag_netevent_notifier.
#[export] Instance xeth_mux_flag_eq_dec : EqDecision xeth_mux_flag.
Proof. solve_decision. Defined.

Definition xeth_mux_flag_all : list xeth_mux_flag :=
  [
    xeth_mux_flag_main_task; xeth_mux_flag_sb_listen; xeth_mux_flag_sb_connection;
    xeth_mux_flag_sbrx_task; xeth_mux_flag_fib_notifier;
    xeth_mux_flag_inetaddr_notifier; xeth_mux_flag_inet6addr_notifier;
    xeth_mux_flag_netdevice_notifier; xeth_mux_flag_netevent_notifier ].
Definition flag_bit (f : xeth_mux_flag) : Z := Z.of_nat (index_of f xeth_mux_flag_all).
Definition xeth_mux_n_flags : nat := length xeth_mux_flag_all.

Definition flag_has (f : xeth_mux_flag) (p : xeth_mux_priv) : bool :=
  Z.testbit (mx_flags p) (flag_bit f).

Definition xeth_mux_has (f : xeth_mux_flag) : M world bool := gets (fun w => flag_has f (w_priv w)).
Definition xeth_mux_set (f : xeth_mux_flag) : M world unit :=
  mod_mux (upd_mx_flags (fun x => Z.setbit x (flag_bit f))).
Definition xeth_mux_clear (f : xeth_mux_flag) : M world unit :=
  mod_mux (upd_mx_flags (fun x => Z.clearbit x (flag_bit f))).

(** ** Lemmas *)

Lemma link_stat_idx_lt s : (link_stat_idx s < length xeth_link_stat_init)%nat.
Proof. destruct s; vm_compute; lia. Qed.
Lemma link_stat_idx_inj s1 s2 : link_stat_idx s1 = link_stat_idx s2 -> s1 = s2.
Proof. destruct s1, s2; vm_compute; congruence. Qed.
Lemma link_stat_at_idx s : xeth_link_stat_all !! link_stat_idx s = Some s.
Proof. by destruct s. Qed.
Lemma counter_idx_lt c : (counter_idx c < xeth_mux_n_counters)%nat.
Proof. destruct c; vm_compute; lia. Qed.
Lemma counter_idx_inj c1 c2 : counter_idx c1 = counter_idx c2 -> c1 = c2.
Proof. destruct c1, c2; vm_compute; congruence. Qed.
Lemma flag_bit_nonneg f : 0 <= flag_bit f.
Proof. unfold flag_bit; lia. Qed.
Lemma flag_bit_inj f1 f2 : flag_bit f1 = flag_bit f2 -> f1 = f2.
Proof. destruct f1, f2; vm_compute; congruence. Qed.

(** A counter moves by what is added, and alone. *)
Lemma counter_get_add_same c n p :
  length (mx_counters p) = xeth_mux_n_counters ->
  counter_get c (counter_add c n p) = s64 (counter_get c p + n).
Proof.
  intros H. unfold counter_get, counter_add. simpl.
  rewrite list_lookup_total_alter_same; [done|]. rewrite H. apply counter_idx_lt.
Qed.
Lemma counter_get_add_other c c' n p :
  c <> c' -> counter_get c' (counter_add c n p) = counter_get c' p.
Proof.
  intros H. unfold counter_get, counter_add. simpl.
  rewrite list_lookup_total_alter_other; [done|]. by intros ?%counter_idx_inj.
Qed.
Lemma length_counter_add c n p :
  length (mx_counters (counter_add c n p)) = length (mx_counters p).
Proof. apply length_alter. Qed.

(** A flag is set and cleared alone. *)
Lemma flag_has_set f g x p :
  flag_has g (upd_mx_flags (fun _ => Z.setbit x (flag_bit f)) p) =
    bool_decide (f = g) || Z.testbit x (flag_bit g).
Proof.
  unfold flag_has; simpl. rewrite Z.setbit_eqb by apply flag_bit_nonneg.
  f_equal. destruct (Z.eqb_spec (flag_bit f) (flag_bit g)) as [->%flag_bit_inj|H];
    case_bool_decide; congruence.
Qed.
Lemma flag_has_clear f g x p :
  flag_has g (upd_mx_flags (fun _ => Z.clearbit x (flag_bit f)) p) =
    negb (bool_decide (f = g)) && Z.testbit x (flag_bit g).
Proof.
  unfold flag_has; simpl. rewrite Z.clearbit_eqb, andb_comm. f_equal. f_equal.
  destruct (Z.eqb_spec (flag_bit f) (flag_bit g)) as [->%flag_bit_inj|H];
    case_bool_decide; congruence.
Qed.

Lemma flag_set_other f g p :
  f <> g -> flag_has g (upd_mx_flags (fun x => Z.setbit x (flag_bit f)) p) = flag_has g p.
Proof.
  intros Hne. etrans; [apply (flag_has_set f g (mx_flags p) p)|].
  by rewrite bool_decide_eq_false_2.
Qed.
Lemma flag_clear_other f g p :
  f <> g -> flag_has g (upd_mx_flags (fun x => Z.clearbit x (flag_bit f)) p) = flag_has g p.
Proof.
  intros Hne. etrans; [apply (flag_has_clear f g (mx_flags p) p)|].
  by rewrite bool_decide_eq_false_2.
Qed.
Lemma flag_clear_same f p :
  flag_has f (upd_mx_flags (fun x => Z.clearbit x (flag_bit f)) p) = false.
Proof. apply Z.clearbit_eq. Qed.

(** A statistic is set and read alone. *)
Lemma stat_get_set_same s n t :
  length t = length xeth_link_stat_all -> xeth_stat_get s (xeth_stat_set s n t) = s64 n.
Proof.
  intros H. apply list_lookup_total_correct, list_lookup_insert_eq.
  rewrite H. apply link_stat_idx_lt.
Qed.
Lemma stat_get_set_other s s' n t :
  s <> s' -> xeth_stat_get s' (xeth_stat_set s n t) = xeth_stat_get s' t.
Proof.
  intros H. unfold xeth_stat_get, xeth_stat_set. rewrite !list_lookup_total_alt.
  rewrite list_lookup_insert_ne; [done|]. by intros ?%link_stat_idx_inj.
Qed.
Lemma stat_get_add_same s n t :
  length t = length xeth_link_stat_all ->
  xeth_stat_get s (xeth_stat_add s n t) = s64 (xeth_stat_get s t + n).
Proof.
  intros H. unfold xeth_stat_get, xeth_stat_add.
  rewrite list_lookup_total_alter_same; [done|]. rewrite H. apply link_stat_idx_lt.
Qed.
Lemma stat_get_add_other s s' n t :
  s <> s' -> xeth_stat_get s' (xeth_stat_add s n t) = xeth_stat_get s' t.
Proof.
  intros H. unfold xeth_stat_get, xeth_stat_add.
  rewrite list_lookup_total_alter_other; [done|]. by intros ?%link_stat_idx_inj.
Qed.

Lemma rtnl_field_link_stats s t : rtnl_field s (xeth_link_stats t) = u64 (xeth_stat_get s t).
Proof. by destruct s. Qed.
