(* ===== verification/Kernel.v ===== *)
(** * What the driver takes from the kernel

    Kernel functions whose code is not part of the driver are parameters of
    the model: a class of operations, and a class of the documented laws the
    theorems rely on.  [golden_hash] is a concrete hash for evaluation. *)

From stdpp Require Import base numbers list.
From Stdlib Require Import ZArith Lia.
From S2P Require Import Prelude.

Local Open Scope Z_scope.

(** [hash_min(val, bits)] of linux/hashtable.h. *)
Class KernelHash := hash_min : Z -> nat -> nat.

(** Its result has [bits] bits. *)
Class KernelHashLaws {H : KernelHash} : Prop :=
  hash_min_bound : forall x bits, (hash_min x bits < 2 ^ bits)%nat.

(** The multiplicative hash of a 32-bit value. *)
Definition golden_hash : KernelHash := fun x bits =>
  (Z.to_nat (u32 (x * 0x61C88647) / 2 ^ (32 - Z.of_nat bits)) `mod` 2 ^ bits)%nat.

Lemma golden_hash_laws : @KernelHashLaws golden_hash.
Proof.
  intros x bits. apply Nat.mod_upper_bound. apply Nat.pow_nonzero. lia.
Qed.

(** Kernel constants that differ between the kernels the driver builds for. *)
Class KernelConst := {
  NETIF_F_HW_L2FW_DOFFLOAD : Z;
  NETIF_F_SOFT_FEATURES : Z;
  NETIF_F_VLAN_CHALLENGED : Z;
  NETIF_F_NETNS_LOCAL : Z;
  ETHTOOL_LINK_MODE_MASK_NBITS : Z;
  (** A kernel before 5.5 passes the namespace in the FIB notification. *)
  fib_notifier_info_with_net : bool;
}.

(** Values for evaluation. *)
Definition demo_const : KernelConst := {|
  NETIF_F_HW_L2FW_DOFFLOAD := 2 ^ 34;
  NETIF_F_SOFT_FEATURES := 2 ^ 14 + 2 ^ 15;
  NETIF_F_VLAN_CHALLENGED := 2 ^ 10;
  NETIF_F_NETNS_LOCAL := 2 ^ 13;
  ETHTOOL_LINK_MODE_MASK_NBITS := 74;
  fib_notifier_info_with_net := false;
|}.
