(* ===== verification/Demo.v ===== *)
(** * A concrete machine

    A mux (address 100) with three ports (1, 2, 3), a VLAN of port 1 (4), a LAG
    (5), a bridge (6) and a loopback (7), to evaluate the definitions on and to
    show that the hypotheses of the theorems can hold together. *)

From stdpp Require Import base numbers list gmap.
From Stdlib Require Import ZArith Lia.
From S2P Require Import Prelude Bytes Monad Uapi State Stats Kernel.

Local Open Scope Z_scope.

Definition demo_net : net := {| net_addr := init_net; net_inum := 4026531840 |}.

Definition demo_ks : ksettings :=
  {| ks_speed := 0; ks_duplex := 1; ks_port := 255; ks_phy_address := 0; ks_autoneg := 1;
     ks_mdio_support := 0; ks_eth_tp_mdix := 0; ks_eth_tp_mdix_ctrl := 0;
     ks_supported := 0; ks_advertising := 0 |}.

Definition demo_port (port : Z) : proxy_priv :=
  PrivPort {| pp_port := port; pp_subport := -1; pp_ksettings := demo_ks;
              pp_ext := Some {| pe_qsfp := None; pe_priv_flags := 0; pe_stats := replicate 512 0 |} |}.

Definition demo_proxy (kind : xeth_dev_kind) (xid : Z) (priv : proxy_priv) : xeth_proxy :=
  {| px_mux := Some 100; px_kind := kind; px_xid := xid; px_link_stats := xeth_link_stat_init;
     px_priv := priv |}.

Definition demo_dev (ifindex : Z) (ops : ndo) (link_ops : option lnko) (px : option xeth_proxy)
  : net_device :=
  {| nd_name := [120; 101; 116; 104; 48 + ifindex]; nd_ifindex := ifindex; nd_flags := IFF_UP;
     nd_priv_flags := 0; nd_features := 0; nd_hw_features := 0; nd_carrier := true;
     nd_addr := [2; 0; 0; 0; 0; ifindex]; nd_mtu := 1500; nd_min_mtu := 68; nd_max_mtu := 9000;
     nd_net := demo_net; nd_ops := ops; nd_lnko := link_ops; nd_master := None;
     nd_lowers := []; nd_ifas := Some [{| in_address := 1; in_mask := 255 |}]; nd_ifa6s := None;
     nd_registered := true; nd_needs_free := true; nd_addr_assign_type := 0; nd_eto := None;
     nd_promiscuity := 0; nd_rx_handler := None; nd_proxy := px |}.

Definition demo_devs : gmap Z net_device := list_to_map [
  (100, demo_dev 8 NdoMux (Some LnkoMux) None);
  (1, demo_dev 1 NdoPort None (Some (demo_proxy XETH_DEV_KIND_PORT 3999 (demo_port 0))));
  (2, demo_dev 2 NdoPort None (Some (demo_proxy XETH_DEV_KIND_PORT 3998 (demo_port 1))));
  (3, demo_dev 3 NdoPort None (Some (demo_proxy XETH_DEV_KIND_PORT 3997 (demo_port 2))));
  (4, demo_dev 4 NdoVlan (Some LnkoVlan)
        (Some (demo_proxy XETH_DEV_KIND_VLAN (Z.lor 3999 (Z.shiftl 5 12)) (PrivVlan (Some 1)))));
  (5, demo_dev 5 NdoLag (Some LnkoLag) (Some (demo_proxy XETH_DEV_KIND_LAG 3000 PrivLag)));
  (6, demo_dev 6 NdoBridge (Some LnkoBridge)
        (Some (demo_proxy XETH_DEV_KIND_BRIDGE 3001 PrivBridge)));
  (7, demo_dev 7 NdoLb (Some LnkoLb) (Some (demo_proxy XETH_DEV_KIND_LB 3002 (PrivLb 1)))) ].

(** The mux as [xeth_mux_setup] leaves it: nothing registered, nothing queued. *)
Definition demo_priv : xeth_mux_priv :=
  {| mx_link := replicate 16 None; mx_hls := replicate 16 []; mx_ports := []; mx_vlans := [];
     mx_bridges := []; mx_lags := []; mx_lbs := []; mx_counters := xeth_mux_counter_init;
     mx_link_stats := xeth_link_stat_init; mx_flags := 0; mx_sb_free := []; mx_sb_tx := [];
     mx_encap := XETH_ENCAP_VLAN; mx_base_port := 1; mx_n_ports := 32; mx_fibs := [];
     mx_chains := []; mx_absent_gpios := None; mx_intr_gpios := None;
     mx_lpmode_gpios := Some (replicate 32 1); mx_reset_gpios := None; mx_flag_names := [];
     mx_flag_named := 0; mx_stat_names := replicate 512 (replicate 32 0); mx_stat_named := 0;
     mx_qsfp_addrs := [80]; mx_stat_sysfs := false; mx_main := true |}.

Definition demo_world : world :=
  {| w_mux := 100; w_priv := demo_priv; w_devs := demo_devs; w_nets := [demo_net]; w_kmem := 100;
     w_wire := []; w_io := []; w_unregq := []; w_refs := []; w_stat_file := false |}.

(** The same mux with a daemon connected to its side band. *)
Definition demo_connected : world :=
  upd_w_priv (upd_mx_flags (fun _ => Z.setbit 0 (flag_bit xeth_mux_flag_sb_connection))) demo_world.
