(* ===== verification/Registry.v ===== *)
(** * The proxy registry of the mux (dkms/xeth_mux.c)

    The hash table of proxies by XID, the lists of kin, their insertion,
    removal and lookup.  The abstract specification is the list of registered
    proxies, newest first: the hash chains and the lists of kin are its
    filters ([registry_rep]), insertion pushes, removal drops, and a lookup by
    XID finds the newest proxy with that XID. *)

From stdpp Require Import base numbers list gmap.
From Stdlib Require Import ZArith Lia.
From S2P Require Import Prelude Bytes Monad Uapi State Kernel Demo.

Local Open Scope Z_scope.

Definition xeth_mux_proxy_hash_bits : nat := 4.
Definition xeth_mux_proxy_hash_bkts : nat := 2 ^ xeth_mux_proxy_hash_bits.

Section registry.
  Context {H : KernelHash}.

(** ** Operations *)

Definition xeth_mux_proxy_of_xid (xid : Z) : M world (option Z) :=
  priv ← get_mux;
  let bkt := hash_min xid xeth_mux_proxy_hash_bits in
  find_m (mx_hls priv !!! bkt) (fun proxy =>
    px ← netdev_priv proxy; mret (px_xid px =? xid)).

Definition xeth_mux_proxy_of_nd (nd : Z) : M world (option Z) :=
  priv ← get_mux;
  find_m (concat (mx_hls priv)) (fun proxy =>
    _ ← netdev_priv proxy; mret (proxy =? nd)).

(** The list of kin a kind of proxy is linked to. *)
Definition add_kin (kind : xeth_dev_kind) (proxy : Z) : xeth_mux_priv -> xeth_mux_priv :=
  match kind with
  | XETH_DEV_KIND_PORT => upd_mx_ports (cons proxy)
  | XETH_DEV_KIND_VLAN => upd_mx_vlans (cons proxy)
  | XETH_DEV_KIND_BRIDGE => upd_mx_bridges (cons proxy)
  | XETH_DEV_KIND_LAG => upd_mx_lags (cons proxy)
  | XETH_DEV_KIND_LB => upd_mx_lbs (cons proxy)
  | XETH_DEV_KIND_UNSPEC => id
  end.

(** Linking a node that is linked already corrupts its list. *)
Definition xeth_mux_add_proxy (proxy : Z) : M world unit :=
  px ← netdev_priv proxy;
  _ ← deref (px_mux px);
  priv ← get_mux;
  if bool_decide (proxy ∈ concat (mx_hls priv)) then oops else
  let bkt := hash_min (px_xid px) xeth_mux_proxy_hash_bits in
  mod_mux (upd_mx_hls (alter (cons proxy) bkt)) ≫= fun _ =>
  mod_mux (add_kin (px_kind px) proxy).

(** Unlink the node from the list it is on. *)
Definition unlink (proxy : Z) (l : list Z) : list Z := filter (fun p => p <> proxy) l.

Definition del_kin (proxy : Z) (priv : xeth_mux_priv) : xeth_mux_priv :=
  upd_mx_ports (unlink proxy) (upd_mx_vlans (unlink proxy) (upd_mx_bridges (unlink proxy)
    (upd_mx_lags (unlink proxy) (upd_mx_lbs (unlink proxy) priv)))).

(** Unlinking a node that is not linked dereferences the list poison; a proxy of
    no kind is on no list of kin, and its own list head is unlinked from itself. *)
Definition xeth_mux_del_proxy (proxy : Z) : M world unit :=
  px ← netdev_priv proxy;
  _ ← deref (px_mux px);
  priv ← get_mux;
  if bool_decide (proxy ∈ concat (mx_hls priv)) then
    mod_mux (upd_mx_hls (fmap (unlink proxy))) ≫= fun _ =>
    mod_mux (del_kin proxy)
  else oops.

(** ** Specification *)

Definition xid_of (w : world) (p : Z) : option Z := px_xid <$> proxy_at w p.
Definition kind_of (w : world) (p : Z) : option xeth_dev_kind := px_kind <$> proxy_at w p.
Definition bkt_of (w : world) (p : Z) : option nat :=
  (fun xid => hash_min xid xeth_mux_proxy_hash_bits) <$> xid_of w p.

Definition of_kind (w : world) (k : xeth_dev_kind) (l : list Z) : list Z :=
  filter (fun p => kind_of w p = Some k) l.

(** A proxy that is set up: it has a kind and a mux. *)
Definition registrable (w : world) (p : Z) : bool :=
  match proxy_at w p with
  | Some px => bool_decide (px_mux px <> None) &&
               negb (bool_decide (px_kind px = XETH_DEV_KIND_UNSPEC))
  | None => false
  end.

(** [l] is the list of registered proxies, newest first. *)
Record registry_rep (w : world) (l : list Z) : Prop := {
  rep_nodup : NoDup l;
  rep_alive : Forall (fun p => registrable w p = true) l;
  rep_len : length (mx_hls (w_priv w)) = xeth_mux_proxy_hash_bkts;
  rep_hls : forall i, (i < xeth_mux_proxy_hash_bkts)%nat ->
    mx_hls (w_priv w) !!! i = filter (fun p => bkt_of w p = Some i) l;
  rep_ports : mx_ports (w_priv w) = of_kind w XETH_DEV_KIND_PORT l;
  rep_vlans : mx_vlans (w_priv w) = of_kind w XETH_DEV_KIND_VLAN l;
  rep_bridges : mx_bridges (w_priv w) = of_kind w XETH_DEV_KIND_BRIDGE l;
  rep_lags : mx_lags (w_priv w) = of_kind w XETH_DEV_KIND_LAG l;
  rep_lbs : mx_lbs (w_priv w) = of_kind w XETH_DEV_KIND_LB l;
}.

(** The abstract lookup: the newest registered proxy with the XID. *)
Definition spec_of_xid (w : world) (l : list Z) (xid : Z) : option Z :=
  head (filter (fun p => xid_of w p = Some xid) l).

(** ** Refinement *)

Lemma find_m_pure {A} (l : list A) (f : A -> M world bool) (g : A -> bool) w :
  Forall (fun a => f a w = Some (g a, w)) l ->
  find_m l f w = Some (head (filter (fun a => g a = true) l), w).
Proof.
  induction 1 as [|a l Ha _ IH]; [done|].
  simpl. rewrite bind_run, Ha, filter_cons. destruct (g a); simpl; done.
Qed.

Context {HL : KernelHashLaws}.

Lemma hash_lt xid : (hash_min xid xeth_mux_proxy_hash_bits < xeth_mux_proxy_hash_bkts)%nat.
Proof. apply hash_min_bound. Qed.

Lemma registrable_inv w p :
  registrable w p = true -> exists px mux,
    proxy_at w p = Some px /\ px_mux px = Some mux /\ px_kind px <> XETH_DEV_KIND_UNSPEC.
Proof.
  unfold registrable. destruct (proxy_at w p) as [px|]; [|done]. intros Hr. unbool.
  destruct (px_mux px) as [mux|] eqn:E; [|done]. by exists px, mux.
Qed.

Lemma rep_proxy w l p :
  registry_rep w l -> p ∈ l -> exists px mux,
    proxy_at w p = Some px /\ px_mux px = Some mux /\ px_kind px <> XETH_DEV_KIND_UNSPEC.
Proof.
  intros R Hp. pose proof (rep_alive _ _ R) as Ha. rewrite Forall_forall in Ha.
  by apply registrable_inv, Ha.
Qed.

Lemma elem_of_hls w l p : registry_rep w l -> p ∈ concat (mx_hls (w_priv w)) <-> p ∈ l.
Proof.
  intros R. split.
  - intros (xs & Hp & Hxs)%list_elem_of_In%in_concat.
    apply list_elem_of_In, list_elem_of_lookup_1 in Hp as [i Hi].
    pose proof (lookup_lt_Some _ _ _ Hi) as Hlt.
    apply list_lookup_total_correct in Hi.
    rewrite (rep_hls _ _ R) in Hi by (by rewrite <- (rep_len _ _ R)). subst xs.
    apply list_elem_of_In in Hxs. by apply list_elem_of_filter in Hxs as [_ ?].
  - intros Hp. destruct (rep_proxy _ _ _ R Hp) as (px & mux & Hpx & Hmux & Hkind).
    apply list_elem_of_In, in_concat. eexists. split.
    + apply list_elem_of_In, (list_elem_of_lookup_2 _ (hash_min (px_xid px) 4)).
      apply list_lookup_lookup_total_lt. rewrite (rep_len _ _ R). apply hash_lt.
    + apply list_elem_of_In. rewrite (rep_hls _ _ R) by apply hash_lt.
      apply list_elem_of_filter. split; [|done]. unfold bkt_of, xid_of. by rewrite Hpx.
Qed.

Lemma proxy_of_xid_run w l xid :
  registry_rep w l -> xeth_mux_proxy_of_xid xid w = Some (spec_of_xid w l xid, w).
Proof.
  intros R. unfold xeth_mux_proxy_of_xid. rewrite bind_run. simpl.
  rewrite (rep_hls _ _ R) by apply hash_lt.
  rewrite (find_m_pure _ _ (fun p => bool_decide (xid_of w p = Some xid))).
  - f_equal. f_equal. unfold spec_of_xid. f_equal. rewrite list_filter_filter.
    apply list_filter_iff. intros p. rewrite bool_decide_eq_true.
    unfold bkt_of. split; [tauto|]. intros ->. done.
  - apply Forall_forall. intros p [_ Hp]%list_elem_of_filter.
    destruct (rep_proxy _ _ _ R Hp) as (px & mux & Hpx & Hmux & Hkind).
    rewrite bind_run, (netdev_priv_run _ _ _ Hpx). unfold xid_of. rewrite Hpx.
    unfold mret, M_ret. simpl. do 2 f_equal. destruct (Z.eqb_spec (px_xid px) xid); case_bool_decide; congruence.
Qed.

Lemma proxy_of_nd_run w l nd :
  registry_rep w l ->
  xeth_mux_proxy_of_nd nd w = Some (if bool_decide (nd ∈ l) then Some nd else None, w).
Proof.
  intros R. unfold xeth_mux_proxy_of_nd. rewrite bind_run. simpl.
  rewrite (find_m_pure _ _ (fun p => p =? nd)).
  - do 2 f_equal. case_bool_decide as Hnd.
    + apply (elem_of_hls _ _ _ R) in Hnd.
      destruct (filter _ _) as [|p ps] eqn:E.
      * exfalso. apply (not_elem_of_nil nd). rewrite <- E. apply list_elem_of_filter.
        split; [apply Z.eqb_refl|done].
      * assert (p ∈ p :: ps) as Hp by left. rewrite <- E in Hp.
        apply list_elem_of_filter in Hp as [->%Z.eqb_eq _]. done.
    + destruct (filter _ _) as [|p ps] eqn:E; [done|].
      assert (p ∈ p :: ps) as Hp by left. rewrite <- E in Hp.
      apply list_elem_of_filter in Hp as [->%Z.eqb_eq Hp].
      by apply (elem_of_hls _ _ _ R) in Hp.
  - apply Forall_forall. intros p Hp%(elem_of_hls _ _ _ R).
    destruct (rep_proxy _ _ _ R Hp) as (px & mux & Hpx & Hmux & Hkind).
    by rewrite bind_run, (netdev_priv_run _ _ _ Hpx).
Qed.

(** The representation depends on the registry and on XID and kind of the
    registered proxies only. *)
Lemma registry_rep_frame_in w w' l :
  mx_hls (w_priv w') = mx_hls (w_priv w) ->
  mx_ports (w_priv w') = mx_ports (w_priv w) ->
  mx_vlans (w_priv w') = mx_vlans (w_priv w) ->
  mx_bridges (w_priv w') = mx_bridges (w_priv w) ->
  mx_lags (w_priv w') = mx_lags (w_priv w) ->
  mx_lbs (w_priv w') = mx_lbs (w_priv w) ->
  (forall p, p ∈ l -> xid_of w' p = xid_of w p /\ kind_of w' p = kind_of w p /\
    registrable w' p = registrable w p) ->
  registry_rep w l -> registry_rep w' l.
Proof.
  intros E1 E2 E3 E4 E5 E6 E [].
  assert (forall k, of_kind w' k l = of_kind w k l) as Ek.
  { intros k. apply filter_iff_elem. intros p Hp. by rewrite (proj1 (proj2 (E p Hp))). }
  split; rewrite ?E1, ?E2, ?E3, ?E4, ?E5, ?E6, ?Ek; try done.
  - rewrite Forall_forall in *. intros p Hp. rewrite (proj2 (proj2 (E p Hp))). by apply rep_alive0.
  - intros i Hi. rewrite rep_hls0 by done. apply filter_iff_elem. intros p Hp.
    unfold bkt_of. by rewrite (proj1 (E p Hp)).
Qed.

Lemma registry_rep_frame w w' l :
  mx_hls (w_priv w') = mx_hls (w_priv w) ->
  mx_ports (w_priv w') = mx_ports (w_priv w) ->
  mx_vlans (w_priv w') = mx_vlans (w_priv w) ->
  mx_bridges (w_priv w') = mx_bridges (w_priv w) ->
  mx_lags (w_priv w') = mx_lags (w_priv w) ->
  mx_lbs (w_priv w') = mx_lbs (w_priv w) ->
  (forall p, xid_of w' p = xid_of w p /\ kind_of w' p = kind_of w p /\
    registrable w' p = registrable w p) ->
  registry_rep w l -> registry_rep w' l.
Proof. intros. by eapply (registry_rep_frame_in w w'). Qed.

(** What happens to a device that is not registered does not matter. *)
Lemma registry_rep_other w l p d :
  p ∉ l -> registry_rep w l -> registry_rep (upd_w_devs (insert p d) w) l.
Proof.
  intros Hp. apply registry_rep_frame_in; try done. intros q Hq.
  assert (p <> q) as Hne by (by intros ->).
  unfold xid_of, kind_of, registrable, proxy_at. simpl. by rewrite lookup_insert_ne.
Qed.

Lemma filter_unlink (P : Z -> Prop) `{!forall x, Decision (P x)} p l :
  unlink p (filter P l) = filter P (unlink p l).
Proof.
  unfold unlink. rewrite !list_filter_filter. apply list_filter_iff. intros; tauto.
Qed.

Lemma unlink_not_in p l : p ∉ l -> unlink p l = l.
Proof.
  induction l as [|q l IH]; intros Hp; [done|].
  apply not_elem_of_cons in Hp as [? ?]. unfold unlink. rewrite filter_cons_True by done.
  f_equal. by apply IH.
Qed.

(** Registration: no oops exactly when the device is alive and not yet
    registered, and the proxy is the newest afterwards. *)
Lemma add_proxy_run w l p px :
  registry_rep w l -> registrable w p = true -> proxy_at w p = Some px -> p ∉ l ->
  exists w', xeth_mux_add_proxy p w = Some (tt, w') /\ registry_rep w' (p :: l) /\
    w' = upd_w_priv (fun priv => add_kin (px_kind px) p
           (upd_mx_hls (alter (cons p) (hash_min (px_xid px) xeth_mux_proxy_hash_bits)) priv)) w.
Proof.
  intros R Hr Hpx Hp. eexists. split; [|split; [|reflexivity]].
  - destruct (registrable_inv _ _ Hr) as (px' & mux & Hpx' & Hmux & _).
    rewrite Hpx in Hpx'. injection Hpx' as <-.
    unfold xeth_mux_add_proxy. rewrite bind_run, (netdev_priv_run _ _ _ Hpx), bind_run, Hmux.
    cbn [deref mret M_ret]. rewrite bind_run. simpl. rewrite bool_decide_eq_false_2 by (by rewrite (elem_of_hls _ _ _ R)).
    rewrite bind_run. reflexivity.
  - assert (forall f k, of_kind (upd_w_priv f w) k (p :: l) =
      if decide (px_kind px = k) then p :: of_kind w k l else of_kind w k l) as Ek.
    { intros f k. change (of_kind (upd_w_priv f w) k (p :: l)) with (of_kind w k (p :: l)).
      assert (kind_of w p = Some (px_kind px)) as Hk
        by (unfold kind_of; by rewrite Hpx).
      unfold of_kind. rewrite filter_cons. do 2 case_decide; congruence. }
    destruct R. split; rewrite ?Ek; try (destruct (px_kind px); simpl; congruence).
    + by constructor.
    + by constructor.
    + destruct (px_kind px); simpl; rewrite length_alter; done.
    + intros i Hi.
      replace (mx_hls _) with
        (alter (cons p) (hash_min (px_xid px) xeth_mux_proxy_hash_bits) (mx_hls (w_priv w)))
        by (by destruct (px_kind px)).
      transitivity (filter (fun q => bkt_of w q = Some i) (p :: l)); [|reflexivity].
      assert (bkt_of w p = Some (hash_min (px_xid px) xeth_mux_proxy_hash_bits)) as Hb
        by (unfold bkt_of, xid_of; by rewrite Hpx).
      destruct (decide (hash_min (px_xid px) xeth_mux_proxy_hash_bits = i)) as [<-|Hne].
      * rewrite list_lookup_total_alter_same by (rewrite rep_len0; apply hash_lt).
        rewrite filter_cons_True by done. by rewrite rep_hls0.
      * rewrite list_lookup_total_alter_other by done.
        rewrite filter_cons_False by congruence. by apply rep_hls0.
Qed.

Lemma del_proxy_run w l p :
  registry_rep w l -> p ∈ l ->
  exists w', xeth_mux_del_proxy p w = Some (tt, w') /\ registry_rep w' (unlink p l) /\
    w' = upd_w_priv (fun priv => del_kin p (upd_mx_hls (fmap (unlink p)) priv)) w.
Proof.
  intros R Hp. eexists. split; [|split; [|reflexivity]].
  - destruct (rep_proxy _ _ _ R Hp) as (px & mux & Hpx & Hmux & Hkind).
    unfold xeth_mux_del_proxy. rewrite bind_run, (netdev_priv_run _ _ _ Hpx), bind_run, Hmux.
    cbn [deref mret M_ret]. rewrite bind_run. simpl.
    rewrite bool_decide_eq_true_2 by (by rewrite (elem_of_hls _ _ _ R)).
    rewrite bind_run. reflexivity.
  - destruct R. split; simpl;
      try (match goal with E : ?f (w_priv w) = _ |- unlink _ (?f (w_priv w)) = _ =>
             rewrite E; apply filter_unlink end).
    + by apply NoDup_filter.
    + apply Forall_forall. intros q [_ Hq]%list_elem_of_filter.
      rewrite Forall_forall in rep_alive0. by apply rep_alive0.
    + by rewrite length_fmap.
    + intros i Hi. rewrite list_lookup_total_alt, list_lookup_fmap.
      rewrite list_lookup_lookup_total_lt by (by rewrite rep_len0). simpl.
      rewrite rep_hls0 by done. apply filter_unlink.
Qed.

(** Removing what is not registered is an oops. *)
Lemma del_proxy_oops w l p : registry_rep w l -> p ∉ l -> xeth_mux_del_proxy p w = None.
Proof.
  intros R Hp. unfold xeth_mux_del_proxy. rewrite bind_run.
  destruct (netdev_priv p w) as [[px w']|] eqn:E; [|done].
  apply netdev_priv_inv in E as [-> _]. rewrite bind_run. destruct (px_mux px); [|done]. simpl.
  rewrite bind_run. simpl.
  by rewrite bool_decide_eq_false_2 by (by rewrite (elem_of_hls _ _ _ R)).
Qed.

(** ** Sequences of operations *)

(** A registry call, and its effect on the abstract list. *)
Inductive reg_op := RegAdd (p : Z) | RegDel (p : Z).
Definition run_op (o : reg_op) : M world unit :=
  match o with RegAdd p => xeth_mux_add_proxy p | RegDel p => xeth_mux_del_proxy p end.
Definition spec_op (o : reg_op) (l : list Z) : list Z :=
  match o with RegAdd p => p :: l | RegDel p => unlink p l end.
Definition op_ok (w : world) (o : reg_op) (l : list Z) : bool :=
  match o with
  | RegAdd p => registrable w p && bool_decide (p ∉ l)
  | RegDel p => bool_decide (p ∈ l)
  end.
Fixpoint ops_ok (w : world) (os : list reg_op) (l : list Z) : bool :=
  match os with
  | [] => true
  | o :: os => op_ok w o l && ops_ok w os (spec_op o l)
  end.
Definition spec_ops (os : list reg_op) (l : list Z) : list Z := foldl (flip spec_op) l os.

Lemma run_op_refines w l o :
  registry_rep w l -> op_ok w o l = true ->
  exists w', run_op o w = Some (tt, w') /\ registry_rep w' (spec_op o l) /\ w_devs w' = w_devs w.
Proof.
  intros R Hok. destruct o as [p|p]; simpl in *; unbool.
  - destruct (registrable_inv _ _ H0) as (px & mux & Hpx & _).
    destruct (add_proxy_run w l p px) as (w' & ? & ? & ->); try done. by eexists.
  - destruct (del_proxy_run w l p) as (w' & ? & ? & ->); try done. by eexists.
Qed.

Lemma op_ok_devs w w' o l : w_devs w' = w_devs w -> op_ok w' o l = op_ok w o l.
Proof. intros E. destruct o; [|done]. simpl. unfold registrable, proxy_at. by rewrite E. Qed.
Lemma ops_ok_devs w w' os l : w_devs w' = w_devs w -> ops_ok w' os l = ops_ok w os l.
Proof.
  intros E. revert l; induction os as [|o os IH]; intros l; simpl; [done|].
  by rewrite (op_ok_devs w w'), IH.
Qed.

Lemma run_ops_refine w l os :
  registry_rep w l -> ops_ok w os l = true ->
  exists w', for_each os run_op w = Some (tt, w') /\ registry_rep w' (spec_ops os l) /\
    w_devs w' = w_devs w.
Proof.
  revert w l; induction os as [|o os IH]; intros w l R Hok; simpl in *; [by eexists|].
  unbool. destruct (run_op_refines w l o) as (w1 & E1 & R1 & D1); try done.
  destruct (IH w1 (spec_op o l)) as (w2 & E2 & R2 & D2); try done.
  { by rewrite (ops_ok_devs w w1). }
  exists w2. rewrite bind_run, E1. split; [done|]. split; [done|]. congruence.
Qed.

(** C2: The hash table, whatever the hash, refines the list of registered
    proxies: after any sequence of registrations and removals the callers may
    issue, none of them an oops, a lookup by XID answers the newest proxy
    registered with that XID and not removed since, NULL if there is none, and a
    lookup by device answers exactly the registered devices. *)
Theorem registry_refinement w l os xid nd :
  registry_rep w l -> ops_ok w os l = true ->
  exists w', for_each os run_op w = Some (tt, w') /\
    xeth_mux_proxy_of_xid xid w' = Some (spec_of_xid w (spec_ops os l) xid, w') /\
    xeth_mux_proxy_of_nd nd w' =
      Some (if bool_decide (nd ∈ spec_ops os l) then Some nd else None, w').
Proof.
  intros R Hok. destruct (run_ops_refine w l os) as (w' & E & R' & D); try done.
  exists w'. split; [done|]. rewrite (proxy_of_xid_run _ _ _ R').
  split; [|by apply proxy_of_nd_run]. do 2 f_equal. unfold spec_of_xid. f_equal.
  apply list_filter_iff. intros p. unfold xid_of, proxy_at. by rewrite D.
Qed.

(** A proxy is found by its XID right after its registration, and the
    lookups of other XIDs are unchanged by it. *)
Theorem add_then_lookup w l p px xid :
  registry_rep w l -> registrable w p = true -> proxy_at w p = Some px -> p ∉ l ->
  exists w', xeth_mux_add_proxy p w = Some (tt, w') /\
    xeth_mux_proxy_of_xid xid w' =
      Some (if px_xid px =? xid then Some p else spec_of_xid w l xid, w').
Proof.
  intros R Hr Hpx Hp. destruct (add_proxy_run w l p px) as (w' & E & R' & Hw'); try done.
  exists w'. split; [done|]. rewrite (proxy_of_xid_run _ _ _ R'). do 2 f_equal.
  subst w'. unfold spec_of_xid.
  assert (xid_of w p = Some (px_xid px)) as Hx by (unfold xid_of; by rewrite Hpx).
  transitivity (head (filter (fun q => xid_of w q = Some xid) (p :: l))); [done|].
  rewrite filter_cons. destruct (Z.eqb_spec (px_xid px) xid); case_decide; done || congruence.
Qed.

End registry.

(** ** Witnesses *)

Lemma registry_rep_empty {H : KernelHash} w :
  w_priv w = demo_priv -> registry_rep w [].
Proof.
  intros E. split; rewrite ?E; try done; try by constructor.
  intros i Hi. apply list_lookup_total_correct. by apply (lookup_replicate_2 16 (@nil Z) i).
Qed.

Lemma registry_refinement_witness :
  exists w', for_each [RegAdd 1; RegAdd 4; RegAdd 2; RegDel 1] (run_op (H:=golden_hash)) demo_world
      = Some (tt, w') /\
    xeth_mux_proxy_of_xid (H:=golden_hash) 3998 w' = Some (Some 2, w') /\
    xeth_mux_proxy_of_nd 1 w' = Some (None, w').
Proof.
  pose proof (registry_refinement (H:=golden_hash) (HL:=golden_hash_laws) demo_world []
    [RegAdd 1; RegAdd 4; RegAdd 2; RegDel 1] 3998 1) as T.
  apply T; [by apply registry_rep_empty|reflexivity].
Defined.

(** The demonstration mux with its devices registered and a daemon connected. *)
Definition demo_ops : list reg_op :=
  [RegAdd 1; RegAdd 2; RegAdd 3; RegAdd 5; RegAdd 4; RegAdd 6; RegAdd 7].
Definition demo_full : world :=
  match for_each demo_ops (run_op (H:=golden_hash)) demo_connected with
  | Some (_, w) => w
  | None => demo_connected
  end.

Lemma demo_full_rep : registry_rep (H:=golden_hash) demo_full [7; 6; 4; 5; 3; 2; 1].
Proof.
  destruct (run_ops_refine (H:=golden_hash) (HL:=golden_hash_laws) demo_connected [] demo_ops)
    as (w' & E & R & _).
  - split; try done; try by constructor.
    intros i Hi. apply list_lookup_total_correct. by apply (lookup_replicate_2 16 (@nil Z) i).
  - reflexivity.
  - unfold demo_full. rewrite E. exact R.
Qed.
