(* ===== verification/Sbq.v ===== *)
(** * Side-band transmit buffers (dkms/xeth_mux.c, dkms/xeth.h)

    Allocation of [struct xeth_sbtxb] from the free list or from the kernel,
    the transmit queue, and the counters that report both lists. *)

From stdpp Require Import base numbers list gmap.
From Stdlib Require Import ZArith Lia.
From S2P Require Import Prelude Bytes Monad Uapi State Stats Kernel Demo.

Local Open Scope Z_scope.

(** ** Operations *)

(** The kernel's ALIGN for a power of two. *)
Definition ALIGN (x a : Z) : Z := Z.land (x + (a - 1)) (Z.lnot (a - 1)).

(** sizeof(struct xeth_sbtxb): a list_head and two size_t. *)
Definition sizeof_sbtxb : Z := 16 + 8 + 8.
Definition xeth_sbtxb_size : Z := ALIGN sizeof_sbtxb 32.

Definition xeth_sbtxb_zero (b : xeth_sbtxb) : xeth_sbtxb :=
  upd_sb_data (buf_zero (Z.to_nat (sb_len b))) b.

(** The first free buffer of at least [len] bytes, and the list without it. *)
Fixpoint take_free (len : Z) (l : list xeth_sbtxb) : option (xeth_sbtxb * list xeth_sbtxb) :=
  match l with
  | [] => None
  | b :: l =>
      if len <=? sb_sz b then Some (b, l)
      else '(b', l') ← take_free len l; Some (b', b :: l')
  end.

(** devm_kzalloc: NULL when memory is exhausted. *)
Definition kzalloc_ok : M world bool := fun w =>
  match w_kmem w with
  | O => Some (false, w)
  | S k => Some (true, upd_w_kmem (fun _ => k) w)
  end.

(** A new buffer is written through before any NULL test. *)
Definition xeth_mux_alloc_sbtxb (len : Z) : M world xeth_sbtxb :=
  priv ← get_mux;
  match take_free len (mx_sb_free priv) with
  | Some (b, rest) =>
      mod_mux (upd_mx_sb_free (fun _ => rest)) ≫= fun _ =>
      xeth_mux_dec xeth_mux_counter_sbtx_free ≫= fun _ =>
      mret (xeth_sbtxb_zero (upd_sb_len (fun _ => len) b))
  | None =>
      let sz := ALIGN (xeth_sbtxb_size + len) 1024 in
      ok ← kzalloc_ok;
      if (ok : bool) then
        mret {| sb_len := len; sb_sz := sz - xeth_sbtxb_size;
                sb_data := replicate (Z.to_nat (sz - xeth_sbtxb_size)) 0 |}
      else oops
  end.

Definition xeth_mux_append_sbtxb (b : xeth_sbtxb) : M world unit :=
  mod_mux (upd_mx_sb_tx (fun tx => tx ++ [b])) ≫= fun _ =>
  xeth_mux_inc xeth_mux_counter_sbtx_queued.

Definition xeth_mux_prepend_sbtxb (b : xeth_sbtxb) : M world unit :=
  mod_mux (upd_mx_sb_tx (cons b)) ≫= fun _ =>
  xeth_mux_inc xeth_mux_counter_sbtx_queued.

Definition xeth_mux_pop_sbtxb : M world (option xeth_sbtxb) :=
  priv ← get_mux;
  match mx_sb_tx priv with
  | [] => mret None
  | b :: tx =>
      mod_mux (upd_mx_sb_tx (fun _ => tx)) ≫= fun _ =>
      xeth_mux_dec xeth_mux_counter_sbtx_queued ≫= fun _ =>
      mret (Some b)
  end.

Definition xeth_mux_free_sbtxb (b : xeth_sbtxb) : M world unit :=
  mod_mux (upd_mx_sb_free (fun l => l ++ [b])) ≫= fun _ =>
  xeth_mux_inc xeth_mux_counter_sbtx_free.

Definition xeth_mux_queue_sbtx (b : xeth_sbtxb) : M world unit :=
  conn ← xeth_mux_has xeth_mux_flag_sb_connection;
  if (conn : bool) then xeth_mux_append_sbtxb b else xeth_mux_free_sbtxb b.

(** The drain of the transmit queue when a connection ends: every queued buffer
    goes to the free list. *)
Definition xeth_mux_flush_sbtx : M world unit :=
  priv ← get_mux;
  for_each (mx_sb_tx priv) (fun b =>
    mod_mux (upd_mx_sb_tx (fun tx => drop 1 tx)) ≫= fun _ =>
    xeth_mux_dec xeth_mux_counter_sbtx_queued ≫= fun _ =>
    mod_mux (upd_mx_sb_free (fun l => l ++ [b])) ≫= fun _ =>
    xeth_mux_inc xeth_mux_counter_sbtx_free).

(** The bytes a buffer sends: sb_len of them. *)
Definition payload (b : xeth_sbtxb) : list Z := take (Z.to_nat (sb_len b)) (sb_data b).

(** ** Invariant *)

(** A buffer's length is within its capacity. *)
Definition sbtxb_ok (b : xeth_sbtxb) : Prop :=
  0 <= sb_len b <= sb_sz b /\ Z.of_nat (length (sb_data b)) = sb_sz b.

(** The counters report the lengths of the lists, whose buffers are sound. *)
Record sb_ok (w : world) : Prop := {
  sb_counters : length (mx_counters (w_priv w)) = xeth_mux_n_counters;
  sb_free_ok : Forall sbtxb_ok (mx_sb_free (w_priv w));
  sb_tx_ok : Forall sbtxb_ok (mx_sb_tx (w_priv w));
  sb_free_n : counter_get xeth_mux_counter_sbtx_free (w_priv w) =
    s64 (Z.of_nat (length (mx_sb_free (w_priv w))));
  sb_tx_n : counter_get xeth_mux_counter_sbtx_queued (w_priv w) =
    s64 (Z.of_nat (length (mx_sb_tx (w_priv w))));
}.

(** What buffer operations may change: the buffers, the counters, free memory. *)
Definition erase_sb (w : world) : world :=
  upd_w_kmem (fun _ => O) (upd_w_priv (fun p =>
    upd_mx_counters (fun _ => []) (upd_mx_sb_free (fun _ => []) (upd_mx_sb_tx (fun _ => []) p))) w).
Definition sb_frame (w w' : world) : Prop := erase_sb w = erase_sb w'.
#[export] Instance sb_frame_preorder : PreOrder sb_frame.
Proof. split; [by intros ?|by intros ???; unfold sb_frame; etrans]. Qed.

(** ** Lemmas *)

Lemma s64_add_l a b : s64 (s64 a + b) = s64 (a + b).
Proof.
  unfold s64. f_equal.
  replace ((a + 2 ^ 63) `mod` 2 ^ 64 - 2 ^ 63 + b + 2 ^ 63)
    with ((a + 2 ^ 63) `mod` 2 ^ 64 + b) by lia.
  rewrite Zplus_mod_idemp_l. f_equal. lia.
Qed.

Lemma ALIGN_1024 x : ALIGN x 1024 = (x + 1023) / 1024 * 1024.
Proof.
  unfold ALIGN. change (1024 - 1) with (Z.ones 10).
  rewrite <- Z.ldiff_land, Z.ldiff_ones_r by lia.
  rewrite Z.shiftl_mul_pow2, Z.shiftr_div_pow2 by lia. done.
Qed.

Lemma xeth_sbtxb_size_val : xeth_sbtxb_size = 32.
Proof. reflexivity. Qed.

(** A new buffer holds what was asked for and wastes less than a kilobyte. *)
Lemma alloc_capacity len :
  0 <= len ->
  len <= ALIGN (xeth_sbtxb_size + len) 1024 - xeth_sbtxb_size < len + 1024.
Proof.
  intros. rewrite ALIGN_1024, xeth_sbtxb_size_val.
  pose proof (Z.div_mod (32 + len + 1023) 1024 ltac:(lia)).
  pose proof (Z.mod_pos_bound (32 + len + 1023) 1024 ltac:(lia)). lia.
Qed.

Lemma take_free_spec len l b l' :
  take_free len l = Some (b, l') ->
  exists l1 l2, l = l1 ++ b :: l2 /\ l' = l1 ++ l2 /\ len <= sb_sz b /\
    Forall (fun c => sb_sz c < len) l1.
Proof.
  revert b l'; induction l as [|c l IH]; intros b l' E; [done|]. simpl in E.
  destruct (Z.leb_spec len (sb_sz c)).
  - simplify_eq. by exists [], l'.
  - destruct (take_free len l) as [[b1 l1]|] eqn:E1; simplify_eq/=.
    destruct (IH _ _ eq_refl) as (x & y & -> & -> & ? & ?).
    exists (c :: x), y. split; [done|]. split; [done|]. split; [done|]. by constructor.
Qed.

Lemma sbtxb_zero_ok b len :
  sbtxb_ok b -> 0 <= len <= sb_sz b -> sbtxb_ok (xeth_sbtxb_zero (upd_sb_len (fun _ => len) b)).
Proof. intros [_ E] ?. split; [done|]. simpl. by rewrite length_buf_zero. Qed.

Lemma sb_frame_mux f w :
  (forall p, upd_mx_counters (fun _ => []) (upd_mx_sb_free (fun _ => []) (upd_mx_sb_tx (fun _ => []) p))
    = upd_mx_counters (fun _ => []) (upd_mx_sb_free (fun _ => []) (upd_mx_sb_tx (fun _ => []) (f p)))) ->
  sb_frame w (upd_w_priv f w).
Proof. intros Hf. unfold sb_frame, erase_sb. simpl. unfold upd_w_priv, upd_w_kmem. simpl. by rewrite Hf. Qed.
Lemma steps_sb_mod f :
  (forall p, upd_mx_counters (fun _ => []) (upd_mx_sb_free (fun _ => []) (upd_mx_sb_tx (fun _ => []) p))
    = upd_mx_counters (fun _ => []) (upd_mx_sb_free (fun _ => []) (upd_mx_sb_tx (fun _ => []) (f p)))) ->
  steps sb_frame (mod_mux f).
Proof. intros Hf. apply steps_modify. intros w. by apply sb_frame_mux. Qed.

Lemma steps_sb_counter c n : steps sb_frame (xeth_mux_add c n).
Proof. by apply steps_sb_mod. Qed.
Lemma steps_sb_inc c : steps sb_frame (xeth_mux_inc c).
Proof. apply steps_sb_counter. Qed.
Lemma steps_sb_dec c : steps sb_frame (xeth_mux_dec c).
Proof. apply steps_sb_counter. Qed.
Lemma steps_sb_kzalloc : steps sb_frame kzalloc_ok.
Proof.
  intros w a w'. unfold kzalloc_ok. destruct (w_kmem w) as [|k] eqn:E; intros [= <- <-].
  - done.
  - done.
Qed.
#[export] Hint Resolve steps_sb_counter steps_sb_inc steps_sb_dec steps_sb_kzalloc : steps.
#[export] Hint Extern 1 (steps sb_frame (mod_mux _)) => apply steps_sb_mod; done : steps.

Lemma steps_sb_has f : steps sb_frame (xeth_mux_has f).
Proof. apply steps_gets; exact _. Qed.
Lemma steps_sb_get_mux : steps sb_frame get_mux.
Proof. apply steps_gets; exact _. Qed.
#[export] Hint Resolve steps_sb_has steps_sb_get_mux : steps.

Lemma steps_alloc len : steps sb_frame (xeth_mux_alloc_sbtxb len).
Proof. unfold xeth_mux_alloc_sbtxb. by_structure. Qed.
Lemma steps_append b : steps sb_frame (xeth_mux_append_sbtxb b).
Proof. unfold xeth_mux_append_sbtxb. by_structure. Qed.
Lemma steps_prepend b : steps sb_frame (xeth_mux_prepend_sbtxb b).
Proof. unfold xeth_mux_prepend_sbtxb. by_structure. Qed.
Lemma steps_pop : steps sb_frame xeth_mux_pop_sbtxb.
Proof. unfold xeth_mux_pop_sbtxb. by_structure. Qed.
Lemma steps_free b : steps sb_frame (xeth_mux_free_sbtxb b).
Proof. unfold xeth_mux_free_sbtxb. by_structure. Qed.
#[export] Hint Resolve steps_alloc steps_append steps_prepend steps_pop steps_free : steps.
Lemma steps_queue b : steps sb_frame (xeth_mux_queue_sbtx b).
Proof. unfold xeth_mux_queue_sbtx. by_structure. Qed.
Lemma steps_flush : steps sb_frame xeth_mux_flush_sbtx.
Proof. unfold xeth_mux_flush_sbtx. by_structure. Qed.
#[export] Hint Resolve steps_queue steps_flush : steps.

(** ** The invariant is preserved *)

Ltac counters :=
  repeat first
    [ rewrite counter_get_add_same by (rewrite ?length_counter_add; assumption)
    | rewrite counter_get_add_other by discriminate ].

Lemma counter_get_upd_free c f p : counter_get c (upd_mx_sb_free f p) = counter_get c p.
Proof. done. Qed.
Lemma counter_get_upd_tx c f p : counter_get c (upd_mx_sb_tx f p) = counter_get c p.
Proof. done. Qed.

(** One change of the free list with its counter. *)
Lemma sb_ok_free_change w f n :
  sb_ok w -> Forall sbtxb_ok (f (mx_sb_free (w_priv w))) ->
  Z.of_nat (length (f (mx_sb_free (w_priv w)))) = Z.of_nat (length (mx_sb_free (w_priv w))) + n ->
  sb_ok (upd_w_priv (fun p => counter_add xeth_mux_counter_sbtx_free n (upd_mx_sb_free f p)) w).
Proof.
  intros [] Hf Hn. split; simpl; try done.
  - by rewrite length_alter.
  - counters. rewrite counter_get_upd_free, sb_free_n0, s64_add_l. by rewrite Hn.
  - by counters.
Qed.

(** One change of the transmit queue with its counter. *)
Lemma sb_ok_tx_change w f n :
  sb_ok w -> Forall sbtxb_ok (f (mx_sb_tx (w_priv w))) ->
  Z.of_nat (length (f (mx_sb_tx (w_priv w)))) = Z.of_nat (length (mx_sb_tx (w_priv w))) + n ->
  sb_ok (upd_w_priv (fun p => counter_add xeth_mux_counter_sbtx_queued n (upd_mx_sb_tx f p)) w).
Proof.
  intros [] Hf Hn. split; simpl; try done.
  - by rewrite length_alter.
  - by counters.
  - counters. rewrite counter_get_upd_tx, sb_tx_n0, s64_add_l. by rewrite Hn.
Qed.

(** Another counter moves freely. *)
Lemma sb_ok_counter w c n :
  c <> xeth_mux_counter_sbtx_free -> c <> xeth_mux_counter_sbtx_queued ->
  sb_ok w -> sb_ok (upd_w_priv (counter_add c n) w).
Proof.
  intros ?? []. split; simpl; try done.
  - by rewrite length_alter.
  - by rewrite counter_get_add_other.
  - by rewrite counter_get_add_other.
Qed.

Lemma upd_w_priv_compose f g w : upd_w_priv f (upd_w_priv g w) = upd_w_priv (fun p => f (g p)) w.
Proof. done. Qed.

Lemma append_run b w :
  xeth_mux_append_sbtxb b w = Some (tt, upd_w_priv (fun p =>
    counter_add xeth_mux_counter_sbtx_queued 1 (upd_mx_sb_tx (fun tx => tx ++ [b]) p)) w).
Proof. done. Qed.
Lemma prepend_run b w :
  xeth_mux_prepend_sbtxb b w = Some (tt, upd_w_priv (fun p =>
    counter_add xeth_mux_counter_sbtx_queued 1 (upd_mx_sb_tx (cons b) p)) w).
Proof. done. Qed.
Lemma free_run b w :
  xeth_mux_free_sbtxb b w = Some (tt, upd_w_priv (fun p =>
    counter_add xeth_mux_counter_sbtx_free 1 (upd_mx_sb_free (fun l => l ++ [b]) p)) w).
Proof. done. Qed.
Lemma pop_run w :
  xeth_mux_pop_sbtxb w =
    match mx_sb_tx (w_priv w) with
    | [] => Some (None, w)
    | b :: tx => Some (Some b, upd_w_priv (fun p =>
        counter_add xeth_mux_counter_sbtx_queued (-1) (upd_mx_sb_tx (fun _ => tx) p)) w)
    end.
Proof. unfold xeth_mux_pop_sbtxb. rewrite bind_run. simpl. by destruct (mx_sb_tx (w_priv w)). Qed.
Lemma queue_run b w :
  xeth_mux_queue_sbtx b w =
    (if flag_has xeth_mux_flag_sb_connection (w_priv w)
     then xeth_mux_append_sbtxb b w else xeth_mux_free_sbtxb b w).
Proof. unfold xeth_mux_queue_sbtx. rewrite bind_run. simpl. by destruct (flag_has _ _). Qed.

Lemma sb_ok_append b w w' :
  sb_ok w -> sbtxb_ok b -> xeth_mux_append_sbtxb b w = Some (tt, w') -> sb_ok w'.
Proof.
  intros Hw Hb [= <-]. apply (sb_ok_tx_change w (fun tx => tx ++ [b]) 1 Hw).
  - apply Forall_app. split; [by apply sb_tx_ok|by apply Forall_singleton].
  - rewrite length_app. simpl. lia.
Qed.
Lemma sb_ok_prepend b w w' :
  sb_ok w -> sbtxb_ok b -> xeth_mux_prepend_sbtxb b w = Some (tt, w') -> sb_ok w'.
Proof.
  intros Hw Hb [= <-]. apply (sb_ok_tx_change w (cons b) 1 Hw).
  - constructor; [done|]. by apply sb_tx_ok.
  - simpl. lia.
Qed.
Lemma sb_ok_free b w w' :
  sb_ok w -> sbtxb_ok b -> xeth_mux_free_sbtxb b w = Some (tt, w') -> sb_ok w'.
Proof.
  intros Hw Hb [= <-]. apply (sb_ok_free_change w (fun tx => tx ++ [b]) 1 Hw).
  - apply Forall_app. split; [by apply sb_free_ok|by apply Forall_singleton].
  - rewrite length_app. simpl. lia.
Qed.
Lemma sb_ok_queue b w w' :
  sb_ok w -> sbtxb_ok b -> xeth_mux_queue_sbtx b w = Some (tt, w') -> sb_ok w'.
Proof. rewrite queue_run. destruct (flag_has _ _); [apply sb_ok_append|apply sb_ok_free]. Qed.
Lemma sb_ok_pop o w w' :
  sb_ok w -> xeth_mux_pop_sbtxb w = Some (o, w') -> sb_ok w' /\ from_option sbtxb_ok True o.
Proof.
  intros Hw. rewrite pop_run. pose proof (sb_tx_ok _ Hw) as Htx.
  destruct (mx_sb_tx (w_priv w)) as [|b tx] eqn:E; intros [= <- <-]; [done|].
  inv Htx. split; [|done]. apply (sb_ok_tx_change w (fun _ => tx) (-1) Hw); [done|].
  rewrite E. simpl. lia.
Qed.

(** Allocation: it oopses exactly when no free buffer fits and memory is
    exhausted; otherwise the buffer holds [len] zero bytes. *)
Lemma alloc_oops w len :
  xeth_mux_alloc_sbtxb len w = None <->
  take_free len (mx_sb_free (w_priv w)) = None /\ w_kmem w = O.
Proof.
  unfold xeth_mux_alloc_sbtxb. rewrite bind_run. simpl.
  destruct (take_free _ _) as [[b l]|]; [split; [done|by intros [? _]]|].
  rewrite bind_run. unfold kzalloc_ok. destruct (w_kmem w); split; try done. by intros [_ ?].
Qed.

(** With nothing to recycle the buffer is new. *)
Lemma alloc_fresh w len b w' :
  mx_sb_free (w_priv w) = [] -> xeth_mux_alloc_sbtxb len w = Some (b, w') ->
  length (sb_data b) = Z.to_nat (ALIGN (xeth_sbtxb_size + len) 1024 - xeth_sbtxb_size).
Proof.
  intros Hf. unfold xeth_mux_alloc_sbtxb, get_mux. rewrite bind_run. cbn [gets]. rewrite Hf.
  cbn [take_free]. rewrite bind_run. unfold kzalloc_ok.
  destruct (w_kmem w); [done|]. intros [= <- <-]. apply length_replicate.
Qed.

Lemma alloc_sound w len b w' :
  sb_ok w -> 0 <= len -> xeth_mux_alloc_sbtxb len w = Some (b, w') ->
  sb_ok w' /\ sbtxb_ok b /\ sb_len b = len /\ payload b = replicate (Z.to_nat len) 0 /\
  mx_sb_tx (w_priv w') = mx_sb_tx (w_priv w).
Proof.
  intros Hw Hlen. unfold xeth_mux_alloc_sbtxb. rewrite bind_run. simpl.
  destruct (take_free _ _) as [[c l]|] eqn:E.
  - apply take_free_spec in E as (l1 & l2 & E1 & -> & Hsz & _).
    pose proof (sb_free_ok _ Hw) as Hf. rewrite E1 in Hf.
    apply Forall_app in Hf as [Hf1 Hf2]. inv Hf2.
    intros [= <- <-]. split.
    { apply (sb_ok_free_change w (fun _ => l1 ++ l2) (-1) Hw).
      - by apply Forall_app.
      - rewrite E1, !length_app. simpl. lia. }
    split; [by apply sbtxb_zero_ok|]. split; [done|]. split; [|done].
    unfold payload. simpl. apply buf_zero_take. destruct H1 as [_ ?]. lia.
  - rewrite bind_run. unfold kzalloc_ok. destruct (w_kmem w); intros [= <- <-].
    pose proof (alloc_capacity len Hlen). split.
    { by destruct Hw. }
    split; [split; simpl; [lia|rewrite length_replicate; lia]|].
    split; [done|]. split; [|done]. unfold payload. cbn [sb_len sb_data].
    rewrite take_replicate. f_equal. lia.
Qed.

Lemma flush_step_ok b w :
  sb_ok w -> head (mx_sb_tx (w_priv w)) = Some b ->
  sb_ok (upd_w_priv (fun p => counter_add xeth_mux_counter_sbtx_free 1
      (upd_mx_sb_free (fun l => l ++ [b]) (counter_add xeth_mux_counter_sbtx_queued (-1)
        (upd_mx_sb_tx (drop 1) p)))) w).
Proof.
  intros Hw Hh. pose proof (sb_tx_ok _ Hw) as Htx.
  destruct (mx_sb_tx (w_priv w)) as [|c tx] eqn:E; simplify_eq/=. inv Htx.
  assert (sb_ok (upd_w_priv (fun p => counter_add xeth_mux_counter_sbtx_queued (-1)
    (upd_mx_sb_tx (drop 1) p)) w)) as H3.
  { apply sb_ok_tx_change; rewrite ?E; simpl; rewrite ?drop_0; [done..|lia]. }
  apply (sb_ok_free b _ _ H3); done.
Qed.

(** The drain of the queue empties it, keeps every buffer, in order, and leaves
    the queued counter at zero. *)
Lemma flush_run w :
  sb_ok w ->
  exists w', xeth_mux_flush_sbtx w = Some (tt, w') /\ sb_ok w' /\
    mx_sb_tx (w_priv w') = [] /\
    mx_sb_free (w_priv w') = mx_sb_free (w_priv w) ++ mx_sb_tx (w_priv w) /\
    counter_get xeth_mux_counter_sbtx_queued (w_priv w') = 0.
Proof.
  intros Hw. unfold xeth_mux_flush_sbtx. rewrite bind_run. simpl.
  set (step := fun b : xeth_sbtxb => _).
  assert (forall tx w, sb_ok w -> mx_sb_tx (w_priv w) = tx ->
    exists w', for_each tx step w = Some (tt, w') /\ sb_ok w' /\ mx_sb_tx (w_priv w') = [] /\
      mx_sb_free (w_priv w') = mx_sb_free (w_priv w) ++ tx) as Hind.
  { clear w Hw. induction tx as [|b tx IH]; intros w Hw E.
    - exists w. by rewrite app_nil_r.
    - simpl. rewrite bind_run. simpl. rewrite !upd_w_priv_compose.
      destruct (IH (upd_w_priv (fun p => counter_add xeth_mux_counter_sbtx_free 1
        (upd_mx_sb_free (fun l => l ++ [b]) (counter_add xeth_mux_counter_sbtx_queued (-1)
          (upd_mx_sb_tx (drop 1) p)))) w)) as (w' & Ew & Hok & Etx & Efree).
      + apply flush_step_ok; [done|by rewrite E].
      + simpl. by rewrite E.
      + exists w'. split; [done|]. split; [done|]. split; [done|].
        rewrite Efree. simpl. by rewrite <- app_assoc. }
  destruct (Hind _ w Hw eq_refl) as (w' & E & Hok & Etx & Efree).
  exists w'. repeat (split; [done|]). rewrite (sb_tx_n _ Hok), Etx. done.
Qed.

Lemma sb_ok_frame_priv w w' :
  w_priv w' = w_priv w -> sb_ok w -> sb_ok w'.
Proof. intros E []. by split; rewrite E. Qed.

Lemma demo_sb_ok : sb_ok demo_world.
Proof. split; done. Qed.
