(* ===== verification/Sbtx.v ===== *)
(** * Side-band messages of the mux (dkms/xeth_sbtx.c)

    Each function allocates a buffer, writes a message into it and queues it.
    A buffer is zeroed up to its length when it is allocated, so the fields a
    function does not assign are zero.  The functions test the buffer for NULL
    and return -ENOMEM; [xeth_mux_alloc_sbtxb] has dereferenced it by then, so
    that branch cannot be taken and exhaustion of memory is an oops. *)

From stdpp Require Import base numbers list gmap.
From Stdlib Require Import ZArith Lia.
From S2P Require Import Prelude Bytes Monad Uapi State Stats Kernel Demo Sbq.

Local Open Scope Z_scope.

(** Write bytes into the data of a buffer; outside of its capacity is an oops. *)
Definition sbtxb_write (off : nat) (bs : list Z) (b : xeth_sbtxb) : M world xeth_sbtxb :=
  data ← deref (buf_write off bs (sb_data b));
  mret (upd_sb_data (fun _ => data) b).

(** A message of fixed size: allocate, write header and body, queue. *)
Definition sbtx_msg {A} `{!Wire A} (kind : xeth_msg_kind) (a : A) : M world Z :=
  b ← xeth_mux_alloc_sbtxb (Z.of_nat (msg_size A));
  b ← sbtxb_write 0 (msg_bytes kind a) b;
  xeth_mux_queue_sbtx b ≫= fun _ => mret 0.

Definition zeros (n : nat) : list Z := replicate n 0.

(** dev_net(nd) as the protocol numbers it. *)
Definition net_number (n : net) : Z := if net_eq n init_net then 1 else net_inum n.
Definition xeth_sbtx_ns_inum (d : net_device) : Z := net_number (nd_net d).

Definition xeth_sbtx_break : M world Z := sbtx_msg XETH_MSG_KIND_BREAK XethMsgEmpty.

Definition xeth_sbtx_change_upper (upper_xid lower_xid : Z) (linking : bool) : M world Z :=
  sbtx_msg XETH_MSG_KIND_CHANGE_UPPER_XID
    {| cu_upper := upper_xid; cu_lower := lower_xid; cu_linking := if linking then 1 else 0;
       cu_pad := zeros 7 |}.

Definition xeth_sbtx_et_flags (xid flags : Z) : M world Z :=
  sbtx_msg XETH_MSG_KIND_ETHTOOL_FLAGS {| etf_xid := xid; etf_flags := flags |}.

(** The loop over the bits of a link mode bitmap. *)
Definition modes_loop (bits : nat) (addr : Z) : Z :=
  foldl (fun modes bit => if Z.testbit addr bit then Z.lor modes (Z.shiftl 1 bit) else modes)
    0 (seqZ 0 (Z.of_nat bits)).

Section sbtx.
Context {C : KernelConst}.

Definition link_modes_msg (xid addr : Z) : xeth_msg_ethtool_link_modes :=
  let bits := Z.min ETHTOOL_LINK_MODE_MASK_NBITS 64 in
  {| etm_xid := xid; etm_reserved := 0; etm_modes := modes_loop (Z.to_nat bits) addr |}.

Definition xeth_sbtx_et_link_modes (kind : xeth_msg_kind) (xid addr : Z) : M world Z :=
  sbtx_msg kind (link_modes_msg xid addr).

(** Speed 0 if autoneg, whatever the last speed the daemon noted. *)
Definition settings_msg (xid : Z) (ks : ksettings) : xeth_msg_ethtool_settings :=
  {| ets_xid := xid;
     ets_speed := if negb (ks_autoneg ks =? 0) then 0 else ks_speed ks;
     ets_duplex := ks_duplex ks; ets_port := ks_port ks;
     ets_phy_address := ks_phy_address ks; ets_autoneg := ks_autoneg ks;
     ets_mdio_support := ks_mdio_support ks; ets_eth_tp_mdix := ks_eth_tp_mdix ks;
     ets_eth_tp_mdix_ctrl := ks_eth_tp_mdix_ctrl ks; ets_pad := 0 |}.

Definition xeth_sbtx_et_settings (xid : Z) (ks : ksettings) : M world Z :=
  sbtx_msg XETH_MSG_KIND_ETHTOOL_SETTINGS (settings_msg xid ks) ≫= fun _ =>
  xeth_sbtx_et_link_modes XETH_MSG_KIND_ETHTOOL_LINK_MODES_ADVERTISING xid (ks_advertising ks).

(** *** FIB entries *)

(** What the driver reads of a [struct fib_nh_common]. *)
Record fib_nh_common := {
  nhc_dev : option Z;  (** the ifindex of nhc_dev, unless NULL *)
  nhc_weight : Z; nhc_flags : Z; nhc_gw4 : Z; nhc_gw6 : list Z; nhc_scope : Z }.

Definition nhc_ifindex (nhc : fib_nh_common) : Z := default 0 (nhc_dev nhc).

(** What it reads of a [struct fib_entry_notifier_info]. *)
Record fib_entry_notifier_info := {
  fen_dst : Z; fen_dst_len : Z; fen_tos : Z; fen_type : Z; fen_tb_id : Z;
  fen_nhs : list fib_nh_common }.

Definition htonl (x : Z) : Z := le_val (be_bytes 4 x).
Definition inet_make_mask (logmask : Z) : Z :=
  if logmask =? 0 then 0 else htonl (u32 (Z.lnot (Z.shiftl 1 (32 - logmask) - 1))).

Definition next_hop_of (nhc : fib_nh_common) : xeth_next_hop :=
  {| nh_ifindex := nhc_ifindex nhc; nh_weight := nhc_weight nhc; nh_flags := nhc_flags nhc;
     nh_gw := nhc_gw4 nhc; nh_scope := nhc_scope nhc; nh_pad := zeros 7 |}.

Definition sizeof_next_hop : nat := struct_size (wire_fmt xeth_next_hop).
Definition next_hop_bytes (nh : xeth_next_hop) : list Z :=
  enc_struct (wire_fmt xeth_next_hop) (wire_vals nh).

Definition fibentry_msg (n : net) (feni : fib_entry_notifier_info) (event : Z) : xeth_msg_fibentry :=
  {| fe_net := net_number n; fe_address := htonl (fen_dst feni);
     fe_mask := inet_make_mask (fen_dst_len feni); fe_event := u8 event;
     fe_nhs := u8 (Z.of_nat (length (fen_nhs feni))); fe_tos := fen_tos feni;
     fe_type := fen_type feni; fe_table := fen_tb_id feni |}.

(** The message's count of next hops is 8 bits wide and bounds the loop that
    writes them. *)
Definition xeth_sbtx_fib_entry (n : net) (feni : fib_entry_notifier_info) (event : Z) : M world Z :=
  let msg := fibentry_msg n feni event in
  let nhs := length (fen_nhs feni) in
  b ← xeth_mux_alloc_sbtxb (Z.of_nat (msg_size xeth_msg_fibentry + nhs * sizeof_next_hop));
  b ← sbtxb_write 0 (msg_bytes XETH_MSG_KIND_FIBENTRY msg) b;
  b ← sbtxb_write (msg_size xeth_msg_fibentry)
        (concat ((fun nhc => next_hop_bytes (next_hop_of nhc)) <$>
                 take (Z.to_nat (fe_nhs msg)) (fen_nhs feni))) b;
  xeth_mux_queue_sbtx b ≫= fun _ => mret 0.

(** A nexthop object: a single next hop or a group. *)
Inductive nexthop :=
| NhSingle (nhc : fib_nh_common)
| NhGroup (mpath : bool) (entries : list fib_nh_common).

(** What the driver reads of a [struct fib6_info]; [f6i_siblings] is the list,
    [f6i_nsiblings] the count kept beside it. *)
Record fib6_info := {
  f6i_dst : list Z; f6i_plen : Z; f6i_type : Z; f6i_tb_id : Z; f6i_nexthop : option nexthop;
  f6i_nh : fib_nh_common; f6i_nsiblings : Z; f6i_siblings : list fib_nh_common }.

Definition next_hop6_of (nhc : fib_nh_common) : xeth_next_hop6 :=
  {| nh6_ifindex := nhc_ifindex nhc; nh6_weight := nhc_weight nhc; nh6_flags := nhc_flags nhc;
     nh6_reserved := 0; nh6_gw := nhc_gw6 nhc |}.

Definition zero_next_hop6 : xeth_next_hop6 :=
  {| nh6_ifindex := 0; nh6_weight := 0; nh6_flags := 0; nh6_reserved := 0; nh6_gw := zeros 16 |}.

Definition sizeof_next_hop6 : nat := struct_size (wire_fmt xeth_next_hop6).
Definition sizeof_pointer : nat := 8.

(** The assignments to one element of [siblings]: ifindex, weight and flags,
    then the gateway. *)
Definition sibling_write (off : nat) (nhc : fib_nh_common) (b : xeth_sbtxb) : M world xeth_sbtxb :=
  let nh := next_hop6_of nhc in
  b ← sbtxb_write off
        (le_bytes 4 (nh6_ifindex nh) ++ le_bytes 4 (nh6_weight nh) ++ le_bytes 4 (nh6_flags nh)) b;
  sbtxb_write (off + 16) (resize 16 0 (nh6_gw nh)) b.

Fixpoint siblings_write (off : nat) (l : list fib_nh_common) (b : xeth_sbtxb) : M world xeth_sbtxb :=
  match l with
  | [] => mret b
  | nhc :: l =>
      b ← sibling_write off nhc b;
      siblings_write (off + sizeof_next_hop6) l b
  end.

Definition fib6entry_msg (n : net) (f6i : fib6_info) (event : Z) (nsiblings : Z)
    (nh : xeth_next_hop6) : xeth_msg_fib6entry :=
  {| f6_net := net_number n; f6_address := f6i_dst f6i; f6_length := f6i_plen f6i;
     f6_event := u8 event; f6_nsiblings := u8 nsiblings; f6_type := f6i_type f6i;
     f6_table := f6i_tb_id f6i; f6_nh := nh |}.

Definition xeth_sbtx_fib6_nh_entry (n : net) (f6i : fib6_info) (nh : nexthop) (event : Z)
  : M world Z :=
  let nsiblings :=
    match nh with
    | NhGroup true entries => (length entries - 1)%nat
    | _ => O
    end in
  b ← xeth_mux_alloc_sbtxb (Z.of_nat (msg_size xeth_msg_fib6entry + nsiblings * sizeof_next_hop6));
  let first := match nh with NhSingle nhc => Some nhc | NhGroup _ entries => head entries end in
  let others := match nh with NhSingle _ => [] | NhGroup _ entries => tail entries end in
  b ← sbtxb_write 0
        (msg_bytes XETH_MSG_KIND_FIB6ENTRY
          (fib6entry_msg n f6i event (Z.of_nat nsiblings)
            (from_option next_hop6_of zero_next_hop6 first))) b;
  b ← siblings_write (msg_size xeth_msg_fib6entry) others b;
  xeth_mux_queue_sbtx b ≫= fun _ => mret 0.

(** The room for siblings is computed with the size of a pointer. *)
Definition xeth_sbtx_fib6_entry (n : net) (rt : option fib6_info) (event : Z) : M world Z :=
  match rt with
  | None => mret (- ENOMEM)
  | Some f6i =>
      match f6i_nexthop f6i with
      | Some nh => xeth_sbtx_fib6_nh_entry n f6i nh event
      | None =>
          let nsiblings := Z.to_nat (f6i_nsiblings f6i) in
          b ← xeth_mux_alloc_sbtxb
                (Z.of_nat (msg_size xeth_msg_fib6entry + nsiblings * sizeof_pointer));
          b ← sbtxb_write 0
                (msg_bytes XETH_MSG_KIND_FIB6ENTRY
                  (fib6entry_msg n f6i event (f6i_nsiblings f6i) (next_hop6_of (f6i_nh f6i)))) b;
          b ← siblings_write (msg_size xeth_msg_fib6entry) (take nsiblings (f6i_siblings f6i)) b;
          xeth_mux_queue_sbtx b ≫= fun _ => mret 0
      end
  end.

(** *** Addresses, devices, neighbours, namespaces *)

Definition xeth_sbtx_ifa (ifa : in_ifaddr) (event xid : Z) : M world Z :=
  sbtx_msg XETH_MSG_KIND_IFA
    {| ifa_xid := xid; ifa_event := event; ifa_address := in_address ifa; ifa_mask := in_mask ifa |}.

Definition xeth_sbtx_ifa6 (ifa6 : inet6_ifaddr) (event xid : Z) : M world Z :=
  sbtx_msg XETH_MSG_KIND_IFA6
    {| ifa6_xid := xid; ifa6_event := event; ifa6_address := in6_addr ifa6;
       ifa6_length := in6_prefix_len ifa6; ifa6_pad := zeros 7 |}.

(** strlcpy into a zeroed array of [n] bytes. *)
Definition strlcpy (n : nat) (s : list Z) : list Z := resize n 0 (take (n - 1) s).

Definition xeth_lb_chan (px : xeth_proxy) : Z :=
  match px_priv px with PrivLb chan => chan | _ => 0 end.

Definition ifinfo_msg (priv : xeth_mux_priv) (d : net_device) (px : xeth_proxy) (iff : Z)
    (reason : xeth_msg_ifinfo_reason) : xeth_msg_ifinfo :=
  {| ii_xid := px_xid px;
     ii_kdata := match px_kind px with
       | XETH_DEV_KIND_VLAN => xeth_encap_val (mx_encap priv)
       | XETH_DEV_KIND_LB => xeth_lb_chan px
       | _ => 0
       end;
     ii_ifname := strlcpy IFNAMSIZ (nd_name d);
     ii_net := xeth_sbtx_ns_inum d;
     ii_ifindex := nd_ifindex d;
     ii_flags := if negb (iff =? 0) then iff else nd_flags d;
     ii_addr := take ETH_ALEN (nd_addr d);
     ii_kind := xeth_dev_kind_val (px_kind px);
     ii_reason := xeth_msg_ifinfo_reason_val reason;
     ii_features := if has_flag (nd_features d) NETIF_F_HW_L2FW_DOFFLOAD
       then Z.shiftl 1 XETH_IFINFO_FEATURE_L2_FWD_OFFLOAD_BIT else 0 |}.

Definition xeth_sbtx_ifinfo (proxy : Z) (iff : Z) (reason : xeth_msg_ifinfo_reason) : M world Z :=
  px ← netdev_priv proxy;
  if (px_xid px =? 0) || bool_decide (px_mux px = None) then mret 0 else
  d ← dev proxy;
  priv ← get_mux;
  sbtx_msg XETH_MSG_KIND_IFINFO (ifinfo_msg priv d px iff reason).

(** What the driver reads of a [struct neighbour]. *)
Record neighbour := {
  ne_dev : Z; ne_family : Z; ne_key_len : Z; ne_primary_key : list Z;
  ne_nud_valid : bool; ne_dead : bool; ne_ha : list Z }.

(** The offsets of dst and lladdr in the message. *)
Definition offset_nu_dst : nat := 32.
Definition offset_nu_lladdr : nat := 48.

Definition xeth_sbtx_neigh_update (neigh : neighbour) : M world Z :=
  d ← dev (ne_dev neigh);
  b ← xeth_mux_alloc_sbtxb (Z.of_nat (msg_size xeth_msg_neigh_update));
  b ← sbtxb_write 0
        (msg_bytes XETH_MSG_KIND_NEIGH_UPDATE
          {| nu_net := xeth_sbtx_ns_inum d; nu_ifindex := nd_ifindex d;
             nu_family := ne_family neigh; nu_len := ne_key_len neigh; nu_reserved := 0;
             nu_dst := zeros 16; nu_lladdr := zeros XETH_ALEN; nu_pad := zeros 2 |}) b;
  b ← sbtxb_write offset_nu_dst (take (Z.to_nat (ne_key_len neigh)) (ne_primary_key neigh)) b;
  b ← (if ne_nud_valid neigh && negb (ne_dead neigh)
       then sbtxb_write offset_nu_lladdr (take ETH_ALEN (ne_ha neigh)) b
       else mret b);
  xeth_mux_queue_sbtx b ≫= fun _ => mret 0.

Definition xeth_sbtx_netns (ns_inum : Z) (add : bool) : M world Z :=
  sbtx_msg (if add then XETH_MSG_KIND_NETNS_ADD else XETH_MSG_KIND_NETNS_DEL)
    {| ns_net := ns_inum |}.

End sbtx.

(** ** What a program queues *)

(** The messages waiting for the socket. *)
Definition queued (w : world) : list (list Z) := payload <$> mx_sb_tx (w_priv w).

Definition connected (w : world) : bool := flag_has xeth_mux_flag_sb_connection (w_priv w).

(** From [w] to [w'] exactly the messages [ms] were queued, in order, if the
    daemon is connected, and nothing but buffers and counters changed. *)
Record emits (w : world) (ms : list (list Z)) (w' : world) : Prop := {
  emits_ok : sb_ok w';
  emits_frame : sb_frame w w';
  emits_queued : queued w' = queued w ++ (if connected w then ms else []);
  emits_mem : (w_kmem w <= w_kmem w' + length ms)%nat;
}.

(** The program runs without an oops if memory lasts, and queues [ms]. *)
Definition delivers {A} (w : world) (c : M world A) (ms : list (list Z)) : Prop :=
  sb_ok w -> (length ms <= w_kmem w)%nat -> exists a w', c w = Some (a, w') /\ emits w ms w'.

Lemma sb_frame_connected w w' : sb_frame w w' -> connected w' = connected w.
Proof.
  intros E. unfold connected, flag_has.
  by apply (f_equal (fun w => mx_flags (w_priv w))) in E; simpl in E; rewrite E.
Qed.
Lemma sb_frame_devs w w' : sb_frame w w' -> w_devs w' = w_devs w.
Proof. intros E. by apply (f_equal w_devs) in E. Qed.
Lemma sb_frame_proxy_at w w' p : sb_frame w w' -> proxy_at w' p = proxy_at w p.
Proof. intros E. unfold proxy_at. by rewrite (sb_frame_devs _ _ E). Qed.
Lemma sb_frame_encap w w' : sb_frame w w' -> mx_encap (w_priv w') = mx_encap (w_priv w).
Proof. intros E. by apply (f_equal (fun w => mx_encap (w_priv w))) in E. Qed.

Lemma emits_nil w : sb_ok w -> emits w [] w.
Proof. intros. split; [done|reflexivity|by destruct (connected w); rewrite app_nil_r|simpl; lia]. Qed.

Lemma emits_app w ms w1 ms' w2 : emits w ms w1 -> emits w1 ms' w2 -> emits w (ms ++ ms') w2.
Proof.
  intros [] []. split; [done|by etrans| |].
  - rewrite emits_queued1, emits_queued0, (sb_frame_connected _ _ emits_frame0), <- app_assoc.
    by destruct (connected w).
  - rewrite length_app. lia.
Qed.

Lemma delivers_bind {A B} w (c : M world A) ms (k : A -> M world B) ms' :
  delivers w c ms -> (forall a w', emits w ms w' -> delivers w' (k a) ms') ->
  delivers w (c ≫= k) (ms ++ ms').
Proof.
  intros Hc Hk Hw Hm. rewrite length_app in Hm.
  destruct Hc as (a & w1 & E & H1); [done|lia|].
  destruct (Hk a w1 H1) as (b & w2 & E2 & H2).
  - by apply emits_ok in H1.
  - apply emits_mem in H1. lia.
  - exists b, w2. rewrite bind_run, E. split; [done|]. by eapply emits_app.
Qed.

Lemma delivers_ret {A} w (a : A) : delivers w (mret a) [].
Proof. intros Hw _. exists a, w. split; [done|]. by apply emits_nil. Qed.

Lemma delivers_gets {A B} w (f : world -> A) (k : A -> M world B) ms :
  delivers w (k (f w)) ms -> delivers w (gets f ≫= k) ms.
Proof. done. Qed.

Lemma delivers_dev {A} w p d (k : net_device -> M world A) ms :
  w_devs w !! p = Some d -> delivers w (k d) ms -> delivers w (dev p ≫= k) ms.
Proof. intros E Hk Hw Hm. rewrite bind_run, (dev_run _ _ _ E). by apply Hk. Qed.

Lemma delivers_priv {A} w p px (k : xeth_proxy -> M world A) ms :
  proxy_at w p = Some px -> delivers w (k px) ms -> delivers w (netdev_priv p ≫= k) ms.
Proof. intros E Hk Hw Hm. rewrite bind_run, (netdev_priv_run _ _ _ E). by apply Hk. Qed.

Lemma delivers_for_each {A} w (l : list A) (f : A -> M world unit) (g : A -> list (list Z)) :
  (forall a w', a ∈ l -> sb_frame w w' -> delivers w' (f a) (g a)) ->
  delivers w (for_each l f) (concat (g <$> l)).
Proof.
  revert w; induction l as [|a l IH]; intros w Hf; simpl; [by apply delivers_ret|].
  apply delivers_bind; [apply Hf; [left|reflexivity]|].
  intros [] w1 H1. apply IH. intros b w2 Hb H2. apply Hf; [by right|].
  etrans; [by apply emits_frame in H1|done].
Qed.

Lemma delivers_eq {A} w (c : M world A) ms ms' : delivers w c ms -> ms = ms' -> delivers w c ms'.
Proof. by intros ? <-. Qed.

(** Queueing a filled buffer. *)
Lemma queue_emits b w :
  sb_ok w -> sbtxb_ok b ->
  exists w', xeth_mux_queue_sbtx b w = Some (tt, w') /\ sb_ok w' /\ sb_frame w w' /\
    w_kmem w' = w_kmem w /\ queued w' = queued w ++ (if connected w then [payload b] else []).
Proof.
  intros Hw Hb.
  assert (exists w', xeth_mux_queue_sbtx b w = Some (tt, w')) as [w' E].
  { rewrite queue_run. destruct (flag_has _ _); by eexists. }
  exists w'. split; [done|]. split; [by eapply sb_ok_queue|]. split; [by eapply steps_queue|].
  rewrite queue_run in E. unfold connected.
  destruct (flag_has _ _); [rewrite append_run in E|rewrite free_run in E];
    injection E as <-; (split; [done|]); unfold queued; simpl.
  - by rewrite fmap_app.
  - by rewrite app_nil_r.
Qed.

Lemma alloc_succeeds w len :
  (0 < w_kmem w)%nat -> exists b w', xeth_mux_alloc_sbtxb len w = Some (b, w') /\
    (w_kmem w <= w_kmem w' + 1)%nat.
Proof.
  intros Hm. unfold xeth_mux_alloc_sbtxb. rewrite bind_run. simpl.
  destruct (take_free _ _) as [[b l]|]; [do 2 eexists; split; [done|simpl; lia]|].
  rewrite bind_run. unfold kzalloc_ok. destruct (w_kmem w) eqn:E; [lia|].
  do 2 eexists. split; [done|]. simpl. lia.
Qed.

(** A message of the buffer's length, written from its start, is its payload. *)
Lemma payload_write0 b bs :
  sbtxb_ok b -> Z.of_nat (length bs) = sb_len b ->
  exists data, buf_write 0 bs (sb_data b) = Some data /\
    sbtxb_ok (upd_sb_data (fun _ => data) b) /\ payload (upd_sb_data (fun _ => data) b) = bs.
Proof.
  intros [? Hd] Hl. eexists. split; [apply buf_write_prefix; lia|]. split.
  - split; [done|]. simpl. rewrite length_app, length_drop. lia.
  - unfold payload. simpl. rewrite take_app_length'; [done|lia].
Qed.

Lemma sbtx_msg_delivers {A} `{!Wire A, !WireLaws A} kind (a : A) w :
  delivers w (sbtx_msg kind a) [msg_bytes kind a].
Proof.
  intros Hw Hm. simpl in Hm. unfold sbtx_msg.
  destruct (alloc_succeeds w (Z.of_nat (msg_size A))) as (b & w1 & E1 & M1); [lia|].
  destruct (alloc_sound _ _ _ _ Hw (Nat2Z.is_nonneg _) E1) as (Hw1 & Hb & Hlen & _ & Htx).
  pose proof (steps_alloc _ _ _ _ E1) as F1.
  destruct (payload_write0 b (msg_bytes kind a)) as (data & E2 & Hb2 & P2); [done| |].
  { by rewrite length_msg_bytes, Hlen. }
  destruct (queue_emits (upd_sb_data (fun _ => data) b) w1) as (w2 & E3 & Hw2 & F2 & M2 & Q2);
    [done..|].
  exists 0, w2. split.
  - rewrite bind_run, E1, bind_run. unfold sbtxb_write. rewrite bind_run, E2. simpl.
    by rewrite bind_run, E3.
  - split; [done|by etrans| |simpl; lia].
    rewrite Q2, P2, (sb_frame_connected _ _ F1). f_equal. unfold queued. by rewrite Htx.
Qed.

(** The loop over the mode bits keeps the low bits of the bitmap. *)
Lemma modes_loop_testbit bits addr i :
  0 <= i -> Z.testbit (modes_loop bits addr) i = (i <? Z.of_nat bits) && Z.testbit addr i.
Proof.
  intros Hi. unfold modes_loop. induction bits as [|n IH].
  { change (Z.of_nat 0) with 0. replace (i <? 0) with false by lia. apply Z.bits_0. }
  rewrite seqZ_S, foldl_app, Z.add_0_l. cbn [foldl].
  rewrite Nat2Z.inj_succ, <- Z.add_1_r.
  set (m := foldl _ _ _) in *.
  destruct (decide (i = Z.of_nat n)) as [->|Hne].
  - rewrite Z.ltb_irrefl in IH. destruct (Z.ltb_spec (Z.of_nat n) (Z.of_nat n + 1)); [|lia].
    destruct (Z.testbit addr (Z.of_nat n)) eqn:E; [|done].
    rewrite Z.lor_spec, Z.shiftl_1_l, Z.pow2_bits_true by lia. by rewrite orb_true_r.
  - replace (i <? Z.of_nat n + 1) with (i <? Z.of_nat n) by lia. rewrite <- IH.
    destruct (Z.testbit addr (Z.of_nat n)); [|done].
    rewrite Z.lor_spec, Z.shiftl_1_l, Z.pow2_bits_false by lia. by rewrite orb_false_r.
Qed.

Lemma modes_loop_mod bits addr : modes_loop bits addr = addr `mod` 2 ^ Z.of_nat bits.
Proof.
  apply Z.bits_inj'. intros i Hi. rewrite modes_loop_testbit by done.
  rewrite <- Z.land_ones, Z.land_spec, Z.testbit_ones_nonneg by lia. apply andb_comm.
Qed.

(** ** Variable length messages *)

Lemma buf_write_middle off pre bs mid post :
  length pre = off -> length bs = length mid ->
  buf_write off bs (pre ++ mid ++ post) = Some (pre ++ bs ++ post).
Proof.
  intros <- Hl. unfold buf_write. rewrite decide_True by (rewrite !length_app; lia).
  rewrite take_app_length, drop_app_add, Hl, drop_app_length. done.
Qed.

Lemma sbtxb_write_run off bs b data w :
  buf_write off bs (sb_data b) = Some data ->
  sbtxb_write off bs b w = Some (upd_sb_data (fun _ => data) b, w).
Proof. intros E. unfold sbtxb_write. by rewrite bind_run, E. Qed.

Definition next_hop6_bytes (nh : xeth_next_hop6) : list Z :=
  enc_struct (wire_fmt xeth_next_hop6) (wire_vals nh).
Lemma length_next_hop6_bytes nh : length (next_hop6_bytes nh) = sizeof_next_hop6.
Proof. by apply length_enc_struct. Qed.
Lemma length_next_hop_bytes nh : length (next_hop_bytes nh) = sizeof_next_hop.
Proof. by apply length_enc_struct. Qed.

(** Assigning a sibling in zeroed memory leaves its image there. *)
Lemma sibling_write_run off nhc b pre post w :
  length pre = off -> sb_data b = pre ++ zeros sizeof_next_hop6 ++ post ->
  sibling_write off nhc b w =
    Some (upd_sb_data (fun _ => pre ++ next_hop6_bytes (next_hop6_of nhc) ++ post) b, w).
Proof.
  intros Hp Hd. unfold sibling_write. rewrite bind_run.
  set (nh := next_hop6_of nhc).
  set (a := le_bytes 4 _ ++ le_bytes 4 _ ++ le_bytes 4 _).
  assert (length a = 12%nat) as Ha by (unfold a; by rewrite !length_app, !length_le_bytes).
  rewrite (sbtxb_write_run _ _ _ (pre ++ a ++ zeros 20 ++ post)).
  2: { rewrite Hd. change (zeros sizeof_next_hop6) with (zeros 12 ++ zeros 20).
       rewrite <- app_assoc. by apply buf_write_middle. }
  rewrite (sbtxb_write_run _ _ _ ((pre ++ a ++ zeros 4) ++ resize 16 0 (nh6_gw nh) ++ post)).
  2: { cbn [sb_data upd_sb_data].
       replace (pre ++ a ++ zeros 20 ++ post) with ((pre ++ a ++ zeros 4) ++ zeros 16 ++ post)
         by (by rewrite <- !app_assoc).
       apply buf_write_middle; [|by rewrite length_resize].
       rewrite !length_app, Ha. simpl. lia. }
  unfold upd_sb_data. simpl. do 3 f_equal. unfold next_hop6_bytes, a.
  by rewrite <- !app_assoc.
Qed.

Lemma siblings_write_run l : forall off b pre post w,
  length pre = off -> sb_data b = pre ++ zeros (length l * sizeof_next_hop6) ++ post ->
  siblings_write off l b w =
    Some (upd_sb_data (fun _ => pre ++
      concat ((fun nhc => next_hop6_bytes (next_hop6_of nhc)) <$> l) ++ post) b, w).
Proof.
  induction l as [|nhc l IH]; intros off b pre post w Hp Hd; cbn [siblings_write].
  - simpl in *. rewrite <- Hd. by destruct b.
  - rewrite bind_run.
    rewrite (sibling_write_run off nhc b pre (zeros (length l * sizeof_next_hop6) ++ post)); [|done|].
    2: { rewrite Hd. simpl length. rewrite Nat.mul_succ_l, Nat.add_comm.
         unfold zeros at 1. rewrite replicate_add. by rewrite <- app_assoc. }
    rewrite (IH _ _ (pre ++ next_hop6_bytes (next_hop6_of nhc)) post).
    + rewrite fmap_cons. cbn [concat]. unfold upd_sb_data. cbn [sb_len sb_sz].
      by rewrite <- !app_assoc.
    + rewrite length_app, length_next_hop6_bytes. lia.
    + cbn [sb_data upd_sb_data]. by rewrite <- !app_assoc.
Qed.

(** A zeroed buffer of [len] bytes: its data starts with [len] zeros. *)
Lemma alloc_data w len b w' :
  sb_ok w -> 0 <= len -> xeth_mux_alloc_sbtxb len w = Some (b, w') ->
  exists post, sb_data b = zeros (Z.to_nat len) ++ post.
Proof.
  intros Hw Hlen E. destruct (alloc_sound _ _ _ _ Hw Hlen E) as (_ & Hb & Hl & Hp & _).
  exists (drop (Z.to_nat len) (sb_data b)). unfold zeros. rewrite <- Hp.
  unfold payload. rewrite Hl. by rewrite take_drop.
Qed.

(** Allocate, fill the zeroed buffer with [bs], and queue: the message is [bs]. *)
Lemma fill_delivers w len (k : xeth_sbtxb -> M world Z) bs :
  length bs = Z.to_nat len -> 0 <= len ->
  (forall b post w, sb_data b = zeros (Z.to_nat len) ++ post ->
     k b w = (xeth_mux_queue_sbtx (upd_sb_data (fun _ => bs ++ post) b) ≫= fun _ => mret 0) w) ->
  delivers w (b ← xeth_mux_alloc_sbtxb len; k b) [bs].
Proof.
  intros Hl Hlen Hf Hw Hm. simpl in Hm.
  destruct (alloc_succeeds w len) as (b & w1 & E1 & M1); [lia|].
  destruct (alloc_sound _ _ _ _ Hw Hlen E1) as (Hw1 & [Hb1 Hb2] & Hbl & _ & Htx).
  destruct (alloc_data _ _ _ _ Hw Hlen E1) as [post Hd].
  pose proof (steps_alloc _ _ _ _ E1) as F1.
  destruct (queue_emits (upd_sb_data (fun _ => bs ++ post) b) w1)
    as (w2 & E3 & Hw2 & F2 & M2 & Q2); [done| |].
  { split; [done|]. simpl. rewrite <- Hb2, Hd, !length_app, Hl.
    unfold zeros. by rewrite length_replicate. }
  exists 0, w2. split.
  - rewrite bind_run, E1, (Hf _ _ _ Hd), bind_run, E3. done.
  - split; [done|by etrans| |simpl; lia].
    rewrite Q2, (sb_frame_connected _ _ F1). unfold queued at 2. rewrite <- Htx. do 2 f_equal.
    unfold payload. simpl. rewrite Hbl, <- Hl, take_app_length. done.
Qed.

Lemma length_concat_same {A} (n : nat) (ls : list (list A)) :
  Forall (fun l => length l = n) ls -> length (concat ls) = (length ls * n)%nat.
Proof. induction 1; simpl; [done|]. rewrite length_app. lia. Qed.

Lemma length_hops l :
  length (concat ((fun nhc => next_hop_bytes (next_hop_of nhc)) <$> l)) =
    (length l * sizeof_next_hop)%nat.
Proof.
  rewrite (length_concat_same sizeof_next_hop), length_fmap; [done|].
  apply Forall_fmap, Forall_true. intros. apply length_next_hop_bytes.
Qed.
Lemma length_hops6 l :
  length (concat ((fun nhc => next_hop6_bytes (next_hop6_of nhc)) <$> l)) =
    (length l * sizeof_next_hop6)%nat.
Proof.
  rewrite (length_concat_same sizeof_next_hop6), length_fmap; [done|].
  apply Forall_fmap, Forall_true. intros. apply length_next_hop6_bytes.
Qed.

Section fib.
Context {C : KernelConst}.

(** An IPv4 route is reported as one message: the entry, then its next hops
    in order.  The count in the message is 8 bits wide: a route of 256 next hops
    or more is reported with its count modulo 256, that many next hops, and
    zeros for the others. *)
Theorem fib_entry_message n feni event w :
  delivers w (xeth_sbtx_fib_entry n feni event)
    [msg_bytes XETH_MSG_KIND_FIBENTRY (fibentry_msg n feni event) ++
     concat ((fun nhc => next_hop_bytes (next_hop_of nhc)) <$>
       take (length (fen_nhs feni) `mod` 256) (fen_nhs feni)) ++
     zeros (length (drop (length (fen_nhs feni) `mod` 256) (fen_nhs feni)) * sizeof_next_hop)].
Proof.
  set (nhs := fen_nhs feni).
  assert (Z.to_nat (fe_nhs (fibentry_msg n feni event)) = (length nhs `mod` 256)%nat) as Hk.
  { simpl. unfold u8. change (2 ^ 8) with (Z.of_nat 256).
    by rewrite <- Nat2Z.inj_mod, Nat2Z.id. }
  set (k := (length nhs `mod` 256)%nat) in *.
  assert (k <= length nhs)%nat by apply Nat.Div0.mod_le.
  unfold xeth_sbtx_fib_entry. cbv zeta. fold nhs. rewrite Hk.
  set (hops := concat _). set (rest := zeros _).
  assert (length hops = k * sizeof_next_hop)%nat as Hh.
  { unfold hops. rewrite length_hops, length_take_le by done. done. }
  apply fill_delivers; [|lia|].
  { rewrite Nat2Z.id, !length_app, length_msg_bytes, Hh. unfold rest, zeros.
    rewrite length_replicate, length_drop. unfold sizeof_next_hop. simpl. lia. }
  intros b post w' Hd. rewrite Nat2Z.id in Hd. unfold zeros in Hd.
  rewrite replicate_add, <- app_assoc in Hd.
  rewrite bind_run, (sbtxb_write_run _ _ _ (msg_bytes XETH_MSG_KIND_FIBENTRY
    (fibentry_msg n feni event) ++ replicate (length nhs * sizeof_next_hop) 0 ++ post)).
  2: { rewrite Hd. apply (buf_write_middle 0 []); [done|].
       by rewrite length_msg_bytes, length_replicate. }
  rewrite bind_run, (sbtxb_write_run _ _ _ (msg_bytes XETH_MSG_KIND_FIBENTRY
    (fibentry_msg n feni event) ++ hops ++ rest ++ post)).
  { unfold upd_sb_data. cbn [sb_len sb_sz]. by rewrite <- !app_assoc. }
  cbn [sb_data upd_sb_data].
  replace (length nhs * sizeof_next_hop)%nat
    with (k * sizeof_next_hop + length (drop k nhs) * sizeof_next_hop)%nat
    by (rewrite length_drop; unfold sizeof_next_hop; simpl; lia).
  rewrite replicate_add, <- app_assoc.
  apply buf_write_middle; [apply length_msg_bytes|by rewrite Hh, length_replicate].
Qed.

(** The siblings of a nexthop object. *)
Definition nexthop_first (nh : nexthop) : option fib_nh_common :=
  match nh with NhSingle nhc => Some nhc | NhGroup _ entries => head entries end.
Definition nexthop_others (nh : nexthop) : list fib_nh_common :=
  match nh with NhSingle _ => [] | NhGroup _ entries => tail entries end.
Definition nexthop_is_mpath (nh : nexthop) : bool :=
  match nh with NhGroup mpath _ => mpath | NhSingle _ => true end.

(** C27: An IPv6 route through a nexthop object, single or a multipath group, is
    reported as one message with the first next hop in the entry and the image
    of every other one behind it. *)
Theorem fib6_nh_entry_message n f6i nh event w :
  nexthop_is_mpath nh = true ->
  delivers w (xeth_sbtx_fib6_nh_entry n f6i nh event)
    [msg_bytes XETH_MSG_KIND_FIB6ENTRY
       (fib6entry_msg n f6i event (Z.of_nat (length (nexthop_others nh)))
         (from_option next_hop6_of zero_next_hop6 (nexthop_first nh))) ++
     concat ((fun nhc => next_hop6_bytes (next_hop6_of nhc)) <$> nexthop_others nh)].
Proof.
  intros Hm. unfold xeth_sbtx_fib6_nh_entry. cbv zeta.
  replace (match nh with NhSingle _ => _ | NhGroup _ _ => _ end)
    with (length (nexthop_others nh)) by (destruct nh as [|[] [|]]; simpl; by rewrite ?Nat.sub_0_r).
  change (match nh with NhSingle nhc => Some nhc | NhGroup _ entries => head entries end)
    with (nexthop_first nh).
  change (match nh with NhSingle _ => [] | NhGroup _ entries => tail entries end)
    with (nexthop_others nh).
  set (others := nexthop_others nh). set (msg := fib6entry_msg _ _ _ _ _).
  apply fill_delivers; [|lia|].
  { rewrite Nat2Z.id, length_app, length_msg_bytes, length_hops6. done. }
  intros b post w' Hd. rewrite Nat2Z.id in Hd. unfold zeros in Hd.
  rewrite replicate_add, <- app_assoc in Hd.
  rewrite bind_run, (sbtxb_write_run _ _ _ (msg_bytes XETH_MSG_KIND_FIB6ENTRY msg ++
    replicate (length others * sizeof_next_hop6) 0 ++ post)).
  2: { rewrite Hd. apply (buf_write_middle 0 []); [done|].
       by rewrite length_msg_bytes, length_replicate. }
  rewrite bind_run, (siblings_write_run others _ _ (msg_bytes XETH_MSG_KIND_FIB6ENTRY msg) post);
    [|apply length_msg_bytes|done].
  unfold upd_sb_data. cbn [sb_len sb_sz]. by rewrite <- !app_assoc.
Qed.
End fib.

Lemma sbtxb_write_inv off bs b b' w w' :
  sbtxb_write off bs b w = Some (b', w') ->
  w' = w /\ sb_len b' = sb_len b /\ sb_sz b' = sb_sz b /\
  length (sb_data b') = length (sb_data b) /\ (off + length bs <= length (sb_data b))%nat.
Proof.
  unfold sbtxb_write. rewrite bind_run.
  destruct (buf_write off bs (sb_data b)) as [data|] eqn:E; [|done].
  intros [= <- <-]. simpl. rewrite (length_buf_write _ _ _ _ E).
  unfold buf_write in E. by case_decide.
Qed.

(** The siblings are written within the buffer or not at all. *)
Lemma siblings_write_inv l : forall off b b' w w',
  siblings_write off l b w = Some (b', w') ->
  w' = w /\ sb_len b' = sb_len b /\ sb_sz b' = sb_sz b /\
  length (sb_data b') = length (sb_data b) /\
  (l <> [] -> off + length l * sizeof_next_hop6 <= length (sb_data b))%nat.
Proof.
  induction l as [|nhc l IH]; intros off b b' w w' E; cbn [siblings_write] in E.
  { by injection E as <- <-. }
  bind_step E. unfold sibling_write in E0. bind_step E0.
  apply sbtxb_write_inv in E1 as (-> & Ea & Eb & Ed & _).
  apply sbtxb_write_inv in E0 as (-> & Ea' & Eb' & Ed' & Hb).
  apply IH in E as (-> & Ea'' & Eb'' & Ed'' & Hl).
  rewrite length_resize in Hb.
  split; [done|]. split; [congruence|]. split; [congruence|]. split; [congruence|].
  intros _. destruct l as [|x l].
  - simpl length. unfold sizeof_next_hop6. simpl struct_size. lia.
  - specialize (Hl ltac:(done)). simpl length in *. rewrite Ed', Ed in Hl. lia.
Qed.

(** *** Safety of the functions that send *)

(** Whatever the outcome, the buffers stay sound and nothing else changes. *)
Definition sb_safe {A} (c : M world A) : Prop :=
  forall w r w', sb_ok w -> c w = Some (r, w') -> sb_ok w' /\ sb_frame w w'.

Lemma sb_safe_ret {A} (a : A) : sb_safe (mret a).
Proof. intros w r w' Hw [= <- <-]. split; [done|reflexivity]. Qed.
Lemma sb_safe_gets {A} (f : world -> A) : sb_safe (gets f).
Proof. intros w r w' Hw [= <- <-]. split; [done|reflexivity]. Qed.
Lemma sb_safe_deref {A} (o : option A) : sb_safe (deref o).
Proof. destruct o; [apply sb_safe_ret|by intros w r w' _ [=]]. Qed.
Lemma sb_safe_oops {A} : sb_safe (@oops world A).
Proof. by intros w r w' _ [=]. Qed.
Lemma sb_safe_dev p : sb_safe (dev p).
Proof. intros w r w' Hw [-> _]%dev_inv. split; [done|reflexivity]. Qed.
Lemma sb_safe_priv p : sb_safe (netdev_priv p).
Proof. intros w r w' Hw [-> _]%netdev_priv_inv. split; [done|reflexivity]. Qed.
Lemma sb_safe_bind {A B} (c : M world A) (k : A -> M world B) :
  sb_safe c -> (forall a, sb_safe (k a)) -> sb_safe (c ≫= k).
Proof.
  intros Hc Hk w r w' Hw (a & w1 & E1 & E2)%bind_inv.
  destruct (Hc _ _ _ Hw E1) as [H1 F1]. destruct (Hk _ _ _ _ H1 E2) as [H2 F2].
  split; [done|by etrans].
Qed.
Lemma sb_safe_alloc {A} len (k : xeth_sbtxb -> M world A) :
  0 <= len -> (forall b, sbtxb_ok b -> sb_safe (k b)) -> sb_safe (xeth_mux_alloc_sbtxb len ≫= k).
Proof.
  intros Hl Hk w r w' Hw (b & w1 & E1 & E2)%bind_inv.
  destruct (alloc_sound _ _ _ _ Hw Hl E1) as (H1 & Hb & _).
  destruct (Hk _ Hb _ _ _ H1 E2). split; [done|]. etrans; [by eapply steps_alloc|done].
Qed.
Lemma sb_safe_write {A} off bs b (k : xeth_sbtxb -> M world A) :
  sbtxb_ok b -> (forall b', sbtxb_ok b' -> sb_safe (k b')) -> sb_safe (sbtxb_write off bs b ≫= k).
Proof.
  intros [Hb Hd] Hk w r w' Hw (b' & w1 & E1 & E2)%bind_inv.
  apply sbtxb_write_inv in E1 as (-> & El & Es & Ed & _).
  apply (Hk b' ltac:(by split; rewrite ?El, ?Es, ?Ed) _ _ _ Hw E2).
Qed.
Lemma sb_safe_siblings {A} off l b (k : xeth_sbtxb -> M world A) :
  sbtxb_ok b -> (forall b', sbtxb_ok b' -> sb_safe (k b')) -> sb_safe (siblings_write off l b ≫= k).
Proof.
  intros [Hb Hd] Hk w r w' Hw (b' & w1 & E1 & E2)%bind_inv.
  apply siblings_write_inv in E1 as (-> & El & Es & Ed & _).
  apply (Hk b' ltac:(by split; rewrite ?El, ?Es, ?Ed) _ _ _ Hw E2).
Qed.
Lemma sb_safe_queue b : sbtxb_ok b -> sb_safe (xeth_mux_queue_sbtx b).
Proof.
  intros Hb w [] w' Hw E. split; [by eapply sb_ok_queue|by eapply steps_queue].
Qed.
Lemma sb_safe_when b c : sb_safe c -> sb_safe (when b c).
Proof. destruct b; [done|intros _; apply sb_safe_ret]. Qed.
Lemma sb_safe_for_each {A} (l : list A) f : (forall a, sb_safe (f a)) -> sb_safe (for_each l f).
Proof.
  intros Hf; induction l; [apply sb_safe_ret|]. apply sb_safe_bind; [apply Hf|by intros []].
Qed.
Lemma sb_safe_counter c n :
  c <> xeth_mux_counter_sbtx_free -> c <> xeth_mux_counter_sbtx_queued -> sb_safe (xeth_mux_add c n).
Proof.
  intros ?? w r w' Hw E. split; [|by eapply steps_sb_counter].
  injection E as <- <-. by apply sb_ok_counter.
Qed.

Create HintDb sb_safe discriminated.
#[export] Hint Resolve sb_safe_ret sb_safe_gets sb_safe_deref sb_safe_oops sb_safe_dev
  sb_safe_priv sb_safe_queue sb_safe_counter : sb_safe.

(** Along the syntax of a program that sends. *)
Ltac sb_safe_step :=
  match goal with
  | |- sb_safe (xeth_mux_alloc_sbtxb _ ≫= _) => apply sb_safe_alloc; [lia|intros ? ?]
  | |- sb_safe (sbtxb_write _ _ _ ≫= _) => apply sb_safe_write; [assumption|intros ? ?]
  | |- sb_safe (siblings_write _ _ _ ≫= _) => apply sb_safe_siblings; [assumption|intros ? ?]
  | |- sb_safe (mret ?x ≫= ?k) => change (sb_safe (k x)); cbv beta
  | |- sb_safe (_ ≫= _) => apply sb_safe_bind; [|intros ?]
  | |- sb_safe (when _ _) => apply sb_safe_when
  | |- sb_safe (for_each _ _) => apply sb_safe_for_each; intros ?
  | |- sb_safe (match ?x with _ => _ end) => destruct x
  | |- sb_safe (let _ := _ in _) => cbv zeta
  | |- sb_safe _ => solve [auto with sb_safe nocore]
  end.
Ltac sb_safe := repeat sb_safe_step.

Lemma sb_safe_msg {A} `{!Wire A} kind (a : A) : sb_safe (sbtx_msg kind a).
Proof. unfold sbtx_msg. sb_safe. Qed.
#[export] Hint Resolve sb_safe_msg : sb_safe.

Section safe.
Context {C : KernelConst}.

Lemma sb_safe_break : sb_safe xeth_sbtx_break.
Proof. unfold xeth_sbtx_break. apply sb_safe_msg. Qed.
Lemma sb_safe_change_upper u l b : sb_safe (xeth_sbtx_change_upper u l b).
Proof. unfold xeth_sbtx_change_upper. apply sb_safe_msg. Qed.
Lemma sb_safe_et_flags x f : sb_safe (xeth_sbtx_et_flags x f).
Proof. unfold xeth_sbtx_et_flags. apply sb_safe_msg. Qed.
Lemma sb_safe_et_settings x ks : sb_safe (xeth_sbtx_et_settings x ks).
Proof. unfold xeth_sbtx_et_settings, xeth_sbtx_et_link_modes. sb_safe. Qed.
Lemma sb_safe_fib_entry n f e : sb_safe (xeth_sbtx_fib_entry n f e).
Proof. unfold xeth_sbtx_fib_entry. sb_safe. Qed.
Lemma sb_safe_fib6_nh_entry n f nh e : sb_safe (xeth_sbtx_fib6_nh_entry n f nh e).
Proof. unfold xeth_sbtx_fib6_nh_entry. sb_safe. Qed.
Hint Resolve sb_safe_fib6_nh_entry : sb_safe.
Lemma sb_safe_fib6_entry n rt e : sb_safe (xeth_sbtx_fib6_entry n rt e).
Proof. unfold xeth_sbtx_fib6_entry. sb_safe. Qed.
Lemma sb_safe_ifa i e x : sb_safe (xeth_sbtx_ifa i e x).
Proof. unfold xeth_sbtx_ifa. apply sb_safe_msg. Qed.
Lemma sb_safe_ifa6 i e x : sb_safe (xeth_sbtx_ifa6 i e x).
Proof. unfold xeth_sbtx_ifa6. apply sb_safe_msg. Qed.
Lemma sb_safe_ifinfo p i r : sb_safe (xeth_sbtx_ifinfo p i r).
Proof. unfold xeth_sbtx_ifinfo, get_mux. sb_safe. Qed.
Lemma sb_safe_neigh_update n : sb_safe (xeth_sbtx_neigh_update n).
Proof.
  unfold xeth_sbtx_neigh_update. sb_safe_step; [sb_safe|]. do 3 sb_safe_step.
  destruct (_ && _); sb_safe.
Qed.
Lemma sb_safe_netns n b : sb_safe (xeth_sbtx_netns n b).
Proof. unfold xeth_sbtx_netns. apply sb_safe_msg. Qed.
End safe.
#[export] Hint Resolve sb_safe_break sb_safe_change_upper sb_safe_et_flags sb_safe_et_settings
  sb_safe_fib_entry sb_safe_fib6_nh_entry sb_safe_fib6_entry sb_safe_ifa sb_safe_ifa6
  sb_safe_ifinfo sb_safe_neigh_update sb_safe_netns : sb_safe.

Section fib6.
Context {C : KernelConst}.

(** The room for the siblings of an IPv6 route is computed with the size of
    a pointer, 8 bytes, where an element has 32: the message that is sent for a
    route with [k > 0] siblings announces [k] of them and ends 24*k bytes short
    of them. *)
Theorem fib6_siblings_truncated n f6i event w r w' :
  sb_ok w -> connected w = true -> f6i_nexthop f6i = None -> 0 < f6i_nsiblings f6i ->
  xeth_sbtx_fib6_entry n (Some f6i) event w = Some (r, w') ->
  exists m, queued w' = queued w ++ [m] /\
    Z.of_nat (length m) = Z.of_nat (msg_size xeth_msg_fib6entry) + 8 * f6i_nsiblings f6i /\
    Z.of_nat (length m) + 24 * f6i_nsiblings f6i =
      Z.of_nat (msg_size xeth_msg_fib6entry) + Z.of_nat sizeof_next_hop6 * f6i_nsiblings f6i.
Proof.
  intros Hw Hc Hn Hk E. unfold xeth_sbtx_fib6_entry in E. rewrite Hn in E. cbv zeta in E.
  bind_step E. bind_step E. bind_step E. bind_step E. injection E as <- <-.
  destruct (alloc_sound _ _ _ _ Hw (Nat2Z.is_nonneg _) E0) as (Hw1 & Hb & Hlen & _ & Htx).
  pose proof (steps_alloc _ _ _ _ E0) as F.
  apply sbtxb_write_inv in E1 as (-> & A1 & A2 & A3 & _).
  apply siblings_write_inv in E2 as (-> & B1 & B2 & B3 & _).
  destruct (queue_emits a1 s) as (w2 & E4 & _ & _ & _ & Q); [done| |].
  { destruct Hb. split; rewrite ?B1, ?B2, ?B3, ?A1, ?A2, ?A3; done. }
  rewrite E3 in E4. injection E4 as -> ->.
  rewrite (sb_frame_connected _ _ F), Hc in Q. exists (payload a1). split.
  { rewrite Q. unfold queued. by rewrite Htx. }
  assert (Z.of_nat (length (payload a1)) =
    Z.of_nat (msg_size xeth_msg_fib6entry + Z.to_nat (f6i_nsiblings f6i) * sizeof_pointer)) as ->.
  { unfold payload. destruct Hb as [? Hd]. rewrite length_take, B1, B3, A1, A3, Hlen. lia. }
  change (msg_size xeth_msg_fib6entry) with 80%nat.
  change sizeof_next_hop6 with 32%nat. change sizeof_pointer with 8%nat. split; lia.
Qed.

(** C28: With 29 siblings or more and no buffer to recycle, the writes of the
    siblings leave the allocation: undefined behaviour. *)
Theorem fib6_siblings_overflow n f6i event w :
  mx_sb_free (w_priv w) = [] -> f6i_nexthop f6i = None ->
  f6i_nsiblings f6i = Z.of_nat (length (f6i_siblings f6i)) ->
  (29 <= length (f6i_siblings f6i))%nat ->
  xeth_sbtx_fib6_entry n (Some f6i) event w = None.
Proof.
  intros Hf Hn Hns Hk. destruct (xeth_sbtx_fib6_entry _ _ _ w) as [[r w']|] eqn:E; [|done].
  exfalso. unfold xeth_sbtx_fib6_entry in E. rewrite Hn in E. cbv zeta in E.
  bind_step E. bind_step E. bind_step E.
  apply sbtxb_write_inv in E1 as (-> & _ & _ & A3 & _).
  apply siblings_write_inv in E2 as (_ & _ & _ & _ & Hb).
  apply alloc_fresh in E0; [|done].
  rewrite Hns, Nat2Z.id, firstn_all in Hb. rewrite Hns, Nat2Z.id in E0.
  assert (f6i_siblings f6i <> []) as Hne by (intros E'; rewrite E' in Hk; simpl in Hk; lia).
  specialize (Hb Hne). rewrite A3, E0 in Hb. set (k := length (f6i_siblings f6i)) in *.
  rewrite ALIGN_1024, xeth_sbtxb_size_val in Hb.
  change (msg_size xeth_msg_fib6entry) with 80%nat in Hb.
  change sizeof_next_hop6 with 32%nat in Hb. change sizeof_pointer with 8%nat in Hb.
  pose proof (Z.div_mod (32 + Z.of_nat (80 + k * 8) + 1023) 1024 ltac:(lia)).
  pose proof (Z.mod_pos_bound (32 + Z.of_nat (80 + k * 8) + 1023) 1024 ltac:(lia)).
  lia.
Qed.

(** The settings of a port are reported as two messages, the settings and
    the advertised link modes; an autonegotiating port reports speed 0 whatever
    speed the daemon noted last, and the modes are the low 64 bits, or all if
    there are fewer, of the bitmap. *)
Theorem et_settings_messages xid ks w :
  delivers w (xeth_sbtx_et_settings xid ks)
    [ msg_bytes XETH_MSG_KIND_ETHTOOL_SETTINGS (settings_msg xid ks);
      msg_bytes XETH_MSG_KIND_ETHTOOL_LINK_MODES_ADVERTISING
        {| etm_xid := xid; etm_reserved := 0;
           etm_modes := ks_advertising ks `mod`
             2 ^ Z.of_nat (Z.to_nat (Z.min ETHTOOL_LINK_MODE_MASK_NBITS 64)) |} ] /\
  (ks_autoneg ks <> 0 -> ets_speed (settings_msg xid ks) = 0) /\
  (ks_autoneg ks = 0 -> ets_speed (settings_msg xid ks) = ks_speed ks).
Proof.
  split.
  - apply (delivers_bind w _ [_] _ [_]); [apply sbtx_msg_delivers|].
    intros r w' _. unfold xeth_sbtx_et_link_modes, link_modes_msg. cbv zeta.
    rewrite modes_loop_mod. apply sbtx_msg_delivers.
  - simpl. by destruct (Z.eqb_spec (ks_autoneg ks) 0).
Qed.
End fib6.

(** ** Witnesses *)

Lemma demo_connected_ok : sb_ok demo_connected.
Proof. split; done. Qed.

Definition demo_nhc (ifindex : Z) : fib_nh_common :=
  {| nhc_dev := Some ifindex; nhc_weight := 1; nhc_flags := 0; nhc_gw4 := 16777343;
     nhc_gw6 := replicate 16 1; nhc_scope := 0 |}.
Definition demo_f6i (k : nat) : fib6_info :=
  {| f6i_dst := replicate 16 2; f6i_plen := 64; f6i_type := 1; f6i_tb_id := 254;
     f6i_nexthop := None; f6i_nh := demo_nhc 1; f6i_nsiblings := Z.of_nat k;
     f6i_siblings := replicate k (demo_nhc 2) |}.

Lemma fib6_nh_entry_message_witness :
  exists r w', xeth_sbtx_fib6_nh_entry demo_net (demo_f6i 0)
      (NhGroup true [demo_nhc 1; demo_nhc 2]) 1 demo_connected = Some (r, w') /\
    (length <$> queued w') = [112%nat].
Proof.
  destruct (fib6_nh_entry_message demo_net (demo_f6i 0)
    (NhGroup true [demo_nhc 1; demo_nhc 2]) 1 demo_connected eq_refl demo_connected_ok)
    as (r & w' & E & H).
  - simpl. lia.
  - exists r, w'. split; [exact E|]. rewrite (emits_queued _ _ _ H). vm_compute. reflexivity.
Defined.

Lemma fib6_siblings_truncated_witness :
  exists r w' m, xeth_sbtx_fib6_entry demo_net (Some (demo_f6i 2)) 1 demo_connected = Some (r, w') /\
    queued w' = [] ++ [m] /\ Z.of_nat (length m) = 80 + 8 * 2 /\ Z.of_nat (length m) + 24 * 2 = 80 + 32 * 2.
Proof.
  destruct (xeth_sbtx_fib6_entry demo_net (Some (demo_f6i 2)) 1 demo_connected) as [[r w']|] eqn:E.
  - destruct (fib6_siblings_truncated demo_net (demo_f6i 2) 1 demo_connected r w' demo_connected_ok
      eq_refl eq_refl eq_refl E) as (m & H). exists r, w', m. split; [reflexivity|exact H].
  - exfalso. vm_compute in E. discriminate E.
Defined.

Lemma fib6_siblings_overflow_witness :
  xeth_sbtx_fib6_entry demo_net (Some (demo_f6i 29)) 1 demo_connected = None.
Proof. apply fib6_siblings_overflow; [reflexivity..|]. vm_compute. lia. Defined.
