(* ===== verification/Proxy.v ===== *)
(** * Proxy devices (dkms/xeth_proxy.c)

    What every proxy does: report itself and its addresses to the daemon, keep
    its link statistics, and the device operations the kinds share. *)

From stdpp Require Import base numbers list gmap.
From Stdlib Require Import ZArith Lia.
From S2P Require Import Prelude Bytes Monad Uapi State Stats Kernel Demo Registry Sbq Sbtx.

Local Open Scope Z_scope.

(** ** What the proxies need of the ports (dkms/xeth_port.c) *)

(** [netdev_priv] of a port, as [struct xeth_port_priv *]. *)
Definition port_priv (p : Z) : M world xeth_port_priv :=
  px ← netdev_priv p;
  match px_priv px with PrivPort pp => mret pp | _ => oops end.

(** [ext[0]], outside of the allocation where the flexible array is empty. *)
Definition port_ext (pp : xeth_port_priv) : M world xeth_port_ext := deref (pp_ext pp).

Definition xeth_port_ethtool_ksettings (p : Z) : M world ksettings :=
  pp ← port_priv p; mret (pp_ksettings pp).

Definition xeth_port_ethtool_priv_flags (p : Z) : M world Z :=
  pp ← port_priv p;
  if pp_subport pp <=? 0 then ext ← port_ext pp; mret (pe_priv_flags ext) else mret 0.

(** ** Operations *)

Definition ignore {A} (c : M world A) : M world unit := c ≫= fun _ => mret tt.

Lemma delivers_ignore {A} w (c : M world A) ms : delivers w c ms -> delivers w (ignore c) ms.
Proof.
  intros Hc. unfold ignore. rewrite <- (app_nil_r ms).
  apply delivers_bind; [done|]. intros. apply delivers_ret.
Qed.

Lemma sb_safe_ignore {A} (c : M world A) : sb_safe c -> sb_safe (ignore c).
Proof. intros. unfold ignore. apply sb_safe_bind; [done|]. intros. apply sb_safe_ret. Qed.
#[export] Hint Resolve sb_safe_ignore : sb_safe.

Lemma delivers_when w b c ms : delivers w c ms -> delivers w (when b c) (if b then ms else []).
Proof. destruct b; [done|]. intros _. apply delivers_ret. Qed.

(** A program that only reads. *)
Lemma delivers_run {A B} w (c : M world A) (a : A) (k : A -> M world B) ms :
  c w = Some (a, w) -> delivers w (k a) ms -> delivers w (c ≫= k) ms.
Proof. intros E Hk Hw Hm. rewrite bind_run, E. by apply Hk. Qed.

(** A call of one of the functions that send one message of fixed size. *)
Ltac one_msg :=
  try apply delivers_ignore;
  unfold xeth_sbtx_et_flags, xeth_sbtx_ifa, xeth_sbtx_ifa6, xeth_sbtx_change_upper,
    xeth_sbtx_break, xeth_sbtx_netns;
  apply sbtx_msg_delivers.

Section proxy.
Context {C : KernelConst}.

(** The call passes the XID where the event goes, and the event where the XID goes. *)
Definition xeth_proxy_dump_ifa (proxy : Z) : M world unit :=
  px ← netdev_priv proxy;
  d ← dev proxy;
  match nd_ifas d with
  | None => mret tt
  | Some l => for_each l (fun ifa => ignore (xeth_sbtx_ifa ifa (px_xid px) NETDEV_UP))
  end.

Definition xeth_proxy_dump_ifa6 (proxy : Z) : M world unit :=
  px ← netdev_priv proxy;
  d ← dev proxy;
  match nd_ifa6s d with
  | None => mret tt
  | Some l => for_each l (fun ifa6 => ignore (xeth_sbtx_ifa6 ifa6 (px_xid px) NETDEV_UP))
  end.

Definition xeth_proxy_dump_ifinfo (proxy : Z) : M world unit :=
  px ← netdev_priv proxy;
  if (px_xid px =? 0) || bool_decide (px_mux px = None) then mret tt else
  ignore (xeth_sbtx_ifinfo proxy 0 XETH_IFINFO_REASON_DUMP) ≫= fun _ =>
  when (bool_decide (px_kind px = XETH_DEV_KIND_PORT)) (
    ks ← xeth_port_ethtool_ksettings proxy;
    ignore (xeth_sbtx_et_settings (px_xid px) ks) ≫= fun _ =>
    flags ← xeth_port_ethtool_priv_flags proxy;
    ignore (xeth_sbtx_et_flags (px_xid px) flags)) ≫= fun _ =>
  d ← dev proxy;
  when (negb (has_flag (nd_flags d) IFF_SLAVE)) (
    xeth_proxy_dump_ifa proxy ≫= fun _ =>
    xeth_proxy_dump_ifa6 proxy) ≫= fun _ =>
  when (bool_decide (px_kind px = XETH_DEV_KIND_LAG) || bool_decide (px_kind px = XETH_DEV_KIND_BRIDGE)) (
    for_each (nd_lowers d) (fun lower =>
      lproxy ← netdev_priv lower;
      ignore (xeth_sbtx_change_upper (px_xid px) (px_xid lproxy) true))).

Definition xeth_proxy_link_stat (nd : Z) (index count : Z) : M world unit :=
  px ← netdev_priv nd;
  if index <? XETH_N_LINK_STAT
  then mod_proxy nd (upd_px_link_stats (<[Z.to_nat index := s64 count]>))
  else _ ← deref (px_mux px); xeth_mux_inc xeth_mux_counter_sbrx_invalid.

Definition xeth_proxy_reset_link_stats (proxy : Z) : M world unit :=
  mod_proxy proxy (upd_px_link_stats (fun _ => xeth_link_stat_init)).

Definition xeth_proxy_init (nd : Z) : M world Z :=
  mod_dev nd (fun d =>
    upd_nd_carrier (fun _ => false)
    (upd_nd_features (fun f =>
       Z.lor (Z.ldiff (Z.lor f NETIF_F_VLAN_CHALLENGED) NETIF_F_SOFT_FEATURES)
             NETIF_F_HW_L2FW_DOFFLOAD)
    (upd_nd_hw_features (fun _ => NETIF_F_HW_L2FW_DOFFLOAD) d))) ≫= fun _ => mret 0.

Context {H : KernelHash}.

Definition xeth_proxy_uninit (nd : Z) : M world unit :=
  ignore (xeth_sbtx_ifinfo nd 0 XETH_IFINFO_REASON_DEL) ≫= fun _ =>
  xeth_mux_del_proxy nd.

Definition xeth_proxy_open (nd : Z) : M world Z :=
  px ← netdev_priv nd;
  d ← dev nd;
  if negb (px_xid px =? 0) && bool_decide (px_mux px <> None)
  then xeth_sbtx_ifinfo nd (nd_flags d) XETH_IFINFO_REASON_UP else mret 0.

Definition xeth_proxy_stop (nd : Z) : M world Z :=
  d ← dev nd;
  xeth_sbtx_ifinfo nd (nd_flags d) XETH_IFINFO_REASON_DOWN.

Definition xeth_proxy_get_iflink (nd : Z) : M world Z :=
  px ← netdev_priv nd;
  match px_mux px with
  | Some mux => m ← dev mux; mret (nd_ifindex m)
  | None => d ← dev nd; mret (nd_ifindex d)
  end.

Definition xeth_proxy_get_stats64 (nd : Z) : M world rtnl_link_stats64 :=
  px ← netdev_priv nd; mret (xeth_link_stats (px_link_stats px)).

Definition xeth_proxy_change_mtu (nd : Z) (mtu : Z) : M world Z :=
  mod_dev nd (upd_nd_mtu (fun _ => mtu)) ≫= fun _ => mret 0.

Definition xeth_proxy_fix_features (features : Z) : Z := Z.ldiff features NETIF_F_SOFT_FEATURES.

Definition xeth_proxy_set_features (nd : Z) (features : Z) : M world Z :=
  mod_dev nd (upd_nd_features (fun _ => features)) ≫= fun _ =>
  ignore (xeth_sbtx_ifinfo nd 0 XETH_IFINFO_REASON_FEATURES) ≫= fun _ => mret 1.

(** *** The dump of every proxy (dkms/xeth_mux.c) *)

Definition xeth_mux_dump_all_ifinfo : M world unit :=
  priv ← get_mux;
  for_each (mx_lbs priv) xeth_proxy_dump_ifinfo ≫= fun _ =>
  for_each (mx_ports priv) xeth_proxy_dump_ifinfo ≫= fun _ =>
  for_each (mx_lags priv) xeth_proxy_dump_ifinfo ≫= fun _ =>
  for_each (mx_vlans priv) xeth_proxy_dump_ifinfo ≫= fun _ =>
  for_each (mx_bridges priv) xeth_proxy_dump_ifinfo.

(** ** Specification *)

(** The messages that describe a proxy. *)
Definition ifa_msgs (px : xeth_proxy) (d : net_device) : list (list Z) :=
  (fun ifa => msg_bytes XETH_MSG_KIND_IFA
     {| ifa_xid := NETDEV_UP; ifa_event := px_xid px; ifa_address := in_address ifa;
        ifa_mask := in_mask ifa |}) <$> default [] (nd_ifas d).
Definition ifa6_msgs (px : xeth_proxy) (d : net_device) : list (list Z) :=
  (fun ifa6 => msg_bytes XETH_MSG_KIND_IFA6
     {| ifa6_xid := NETDEV_UP; ifa6_event := px_xid px; ifa6_address := in6_addr ifa6;
        ifa6_length := in6_prefix_len ifa6; ifa6_pad := zeros 7 |}) <$> default [] (nd_ifa6s d).
Definition port_msgs (px : xeth_proxy) : list (list Z) :=
  match px_priv px with
  | PrivPort pp =>
      [ msg_bytes XETH_MSG_KIND_ETHTOOL_SETTINGS (settings_msg (px_xid px) (pp_ksettings pp));
        msg_bytes XETH_MSG_KIND_ETHTOOL_LINK_MODES_ADVERTISING
          (link_modes_msg (px_xid px) (ks_advertising (pp_ksettings pp)));
        msg_bytes XETH_MSG_KIND_ETHTOOL_FLAGS
          {| etf_xid := px_xid px;
             etf_flags := if pp_subport pp <=? 0 then from_option pe_priv_flags 0 (pp_ext pp)
                          else 0 |} ]
  | _ => []
  end.
Definition upper_msgs (w : world) (px : xeth_proxy) (d : net_device) : list (list Z) :=
  (fun lower => msg_bytes XETH_MSG_KIND_CHANGE_UPPER_XID
     {| cu_upper := px_xid px; cu_lower := default 0 (xid_of w lower); cu_linking := 1;
        cu_pad := zeros 7 |}) <$> nd_lowers d.
Definition ifinfo_bytes (priv : xeth_mux_priv) (d : net_device) (px : xeth_proxy) (iff : Z)
  (reason : xeth_msg_ifinfo_reason) : list Z :=
  msg_bytes XETH_MSG_KIND_IFINFO (ifinfo_msg priv d px iff reason).

Definition dump_msgs (w : world) (p : Z) : list (list Z) :=
  match w_devs w !! p with
  | Some d =>
      match nd_proxy d with
      | Some px =>
          if (px_xid px =? 0) || bool_decide (px_mux px = None) then [] else
          [ifinfo_bytes (w_priv w) d px 0 XETH_IFINFO_REASON_DUMP] ++
          (if bool_decide (px_kind px = XETH_DEV_KIND_PORT) then port_msgs px else []) ++
          (if negb (has_flag (nd_flags d) IFF_SLAVE) then ifa_msgs px d ++ ifa6_msgs px d else []) ++
          (if bool_decide (px_kind px = XETH_DEV_KIND_LAG) ||
              bool_decide (px_kind px = XETH_DEV_KIND_BRIDGE) then upper_msgs w px d else [])
      | None => []
      end
  | None => []
  end.

(** A proxy that can be described: alive, its lowers are proxies, and a port has
    its private data, with the extension a first subport reads. *)
Definition port_sound (px : xeth_proxy) : bool :=
  match px_kind px, px_priv px with
  | XETH_DEV_KIND_PORT, PrivPort pp => (0 <? pp_subport pp) || bool_decide (is_Some (pp_ext pp))
  | XETH_DEV_KIND_PORT, _ => false
  | _, _ => true
  end.
Definition dumpable (w : world) (p : Z) : bool :=
  match w_devs w !! p ≫= (fun d => px ← nd_proxy d; Some (d, px)) with
  | Some (d, px) =>
      port_sound px && forallb (fun l => bool_decide (is_Some (proxy_at w l))) (nd_lowers d)
  | None => false
  end.

(** ** Lemmas *)

Lemma ifinfo_delivers w p d px iff reason :
  w_devs w !! p = Some d -> nd_proxy d = Some px ->
  delivers w (xeth_sbtx_ifinfo p iff reason)
    (if (px_xid px =? 0) || bool_decide (px_mux px = None) then []
     else [ifinfo_bytes (w_priv w) d px iff reason]).
Proof.
  intros Ed Ep. unfold xeth_sbtx_ifinfo.
  eapply delivers_priv; [unfold proxy_at; rewrite Ed; exact Ep|].
  destruct (_ || _); [apply delivers_ret|].
  eapply delivers_dev; [exact Ed|]. apply delivers_gets. apply sbtx_msg_delivers.
Qed.

Lemma port_delivers w p px :
  proxy_at w p = Some px -> px_kind px = XETH_DEV_KIND_PORT -> port_sound px = true ->
  delivers w
    (ks ← xeth_port_ethtool_ksettings p;
     ignore (xeth_sbtx_et_settings (px_xid px) ks) ≫= fun _ =>
     flags ← xeth_port_ethtool_priv_flags p;
     ignore (xeth_sbtx_et_flags (px_xid px) flags)) (port_msgs px).
Proof.
  intros Ep Hk Hs. unfold port_sound in Hs. rewrite Hk in Hs. unfold port_msgs.
  destruct (px_priv px) as [pp| | | |] eqn:Epp; try done.
  assert (forall w', proxy_at w' p = Some px -> port_priv p w' = Some (pp, w')) as Hrun.
  { intros w' E. unfold port_priv. by rewrite bind_run, (netdev_priv_run _ _ _ E), Epp. }
  eapply delivers_run.
  { unfold xeth_port_ethtool_ksettings. rewrite bind_run, Hrun by done. reflexivity. }
  apply (delivers_bind w _ [_; _] _ [_]).
  - apply delivers_ignore. apply (delivers_bind w _ [_] _ [_]); [apply sbtx_msg_delivers|].
    intros. apply sbtx_msg_delivers.
  - intros [] w' Hem. apply emits_frame in Hem.
    apply (delivers_run w' _ (if pp_subport pp <=? 0 then from_option pe_priv_flags 0 (pp_ext pp)
                              else 0)).
    2: one_msg.
    unfold xeth_port_ethtool_priv_flags.
    rewrite bind_run, Hrun by (by rewrite (sb_frame_proxy_at _ _ _ Hem)).
    destruct (Z.leb_spec (pp_subport pp) 0); [|done].
    destruct (pp_ext pp) as [ext|] eqn:Ee; unfold port_ext; rewrite Ee; [done|].
    exfalso. unbool. destruct Hs; unbool; [lia|]. by destruct H0.
Qed.

Lemma concat_singletons {A B} (f : A -> B) (l : list A) : concat ((fun a => [f a]) <$> l) = f <$> l.
Proof. induction l; simpl; [done|]. by f_equal. Qed.

Lemma dump_ifa_delivers w p d px :
  w_devs w !! p = Some d -> nd_proxy d = Some px ->
  delivers w (xeth_proxy_dump_ifa p) (ifa_msgs px d).
Proof.
  intros Ed Ep. unfold xeth_proxy_dump_ifa.
  eapply delivers_priv; [unfold proxy_at; rewrite Ed; exact Ep|].
  eapply delivers_dev; [exact Ed|]. unfold ifa_msgs.
  destruct (nd_ifas d) as [l|]; [|apply delivers_ret]. simpl default.
  rewrite <- (concat_singletons _ l). apply delivers_for_each.
  intros. one_msg.
Qed.

Lemma dump_ifa6_delivers w p d px :
  w_devs w !! p = Some d -> nd_proxy d = Some px ->
  delivers w (xeth_proxy_dump_ifa6 p) (ifa6_msgs px d).
Proof.
  intros Ed Ep. unfold xeth_proxy_dump_ifa6.
  eapply delivers_priv; [unfold proxy_at; rewrite Ed; exact Ep|].
  eapply delivers_dev; [exact Ed|]. unfold ifa6_msgs.
  destruct (nd_ifa6s d) as [l|]; [|apply delivers_ret]. simpl default.
  rewrite <- (concat_singletons _ l). apply delivers_for_each.
  intros. one_msg.
Qed.

Lemma uppers_deliver w d px :
  forallb (fun l => bool_decide (is_Some (proxy_at w l))) (nd_lowers d) = true ->
  delivers w (for_each (nd_lowers d) (fun lower =>
      lproxy ← netdev_priv lower;
      ignore (xeth_sbtx_change_upper (px_xid px) (px_xid lproxy) true))) (upper_msgs w px d).
Proof.
  intros Hl. unfold upper_msgs. rewrite <- concat_singletons. apply delivers_for_each.
  intros l w' Hin Hf. rewrite forallb_forall in Hl. apply list_elem_of_In, Hl in Hin.
  unbool. destruct Hin as [lx Hlx]. unfold xid_of. rewrite Hlx. simpl.
  eapply delivers_priv; [rewrite (sb_frame_proxy_at _ _ _ Hf); exact Hlx|].
  one_msg.
Qed.

(** The state that a dump reads is framed by buffer operations. *)
Lemma dump_frame w w' p :
  sb_frame w w' -> dump_msgs w' p = dump_msgs w p /\ dumpable w' p = dumpable w p.
Proof.
  intros F. unfold dump_msgs, dumpable, upper_msgs, ifinfo_bytes, ifinfo_msg, xid_of, proxy_at.
  by rewrite (sb_frame_devs _ _ F), (sb_frame_encap _ _ F).
Qed.

Lemma dump_ifinfo_delivers w p :
  dumpable w p = true -> delivers w (xeth_proxy_dump_ifinfo p) (dump_msgs w p).
Proof.
  intros Hd. unfold dumpable in Hd.
  destruct (w_devs w !! p) as [d|] eqn:Ed; [|done]. cbn in Hd.
  destruct (nd_proxy d) as [px|] eqn:Ep; [|done]. cbn in Hd. unbool.
  unfold dump_msgs, xeth_proxy_dump_ifinfo. rewrite Ed, Ep.
  assert (forall w', sb_frame w w' -> w_devs w' !! p = Some d) as Ed'
    by (intros w' F; rewrite (sb_frame_devs _ _ F); done).
  assert (forall w', sb_frame w w' -> proxy_at w' p = Some px) as Ep'
    by (intros w' F; rewrite (sb_frame_proxy_at _ _ _ F); unfold proxy_at; rewrite Ed; done).
  eapply delivers_priv; [apply Ep'; reflexivity|].
  destruct ((px_xid px =? 0) || bool_decide (px_mux px = None)) eqn:Hx; [apply delivers_ret|].
  apply delivers_bind.
  { apply delivers_ignore. eapply delivers_eq; [by eapply ifinfo_delivers|]. by rewrite Hx. }
  intros [] w1 F1%emits_frame. apply delivers_bind.
  { destruct (bool_decide (px_kind px = XETH_DEV_KIND_PORT)) eqn:Hk; [|apply delivers_ret].
    unbool. apply port_delivers; auto. }
  intros [] w2 F2%emits_frame. assert (sb_frame w w2) as F by (by etrans).
  eapply delivers_dev; [by apply Ed'|]. apply delivers_bind.
  { apply delivers_when. apply delivers_bind.
    - apply dump_ifa_delivers; auto.
    - intros [] w3 F3%emits_frame. apply dump_ifa6_delivers; [|done].
      apply Ed'. by etrans. }
  intros [] w3 F3%emits_frame. apply delivers_when.
  assert (sb_frame w w3) as F' by (by etrans).
  replace (upper_msgs w px d) with (upper_msgs w3 px d).
  - apply uppers_deliver. rewrite forallb_forall in *. intros l Hl.
    rewrite (sb_frame_proxy_at _ _ _ F'). auto.
  - unfold upper_msgs, xid_of. apply list_fmap_ext. intros. by rewrite (sb_frame_proxy_at _ _ _ F').
Qed.

(** The order of the dump: a proxy comes after what it is made of. *)
Definition dump_order (priv : xeth_mux_priv) : list Z :=
  mx_lbs priv ++ mx_ports priv ++ mx_lags priv ++ mx_vlans priv ++ mx_bridges priv.

Lemma dump_list_delivers w l :
  forallb (dumpable w) l = true ->
  delivers w (for_each l xeth_proxy_dump_ifinfo) (concat (dump_msgs w <$> l)).
Proof.
  intros Hl. apply delivers_for_each. intros p w' Hp F.
  rewrite forallb_forall in Hl. apply list_elem_of_In, Hl in Hp.
  destruct (dump_frame w w' p F) as [<- E]. apply dump_ifinfo_delivers. by rewrite E.
Qed.

Lemma dump_all_run w :
  xeth_mux_dump_all_ifinfo w = for_each (dump_order (w_priv w)) xeth_proxy_dump_ifinfo w.
Proof.
  unfold xeth_mux_dump_all_ifinfo, dump_order, get_mux. rewrite bind_run. cbn [gets].
  repeat (rewrite for_each_app, !bind_run;
    match goal with |- match ?x with _ => _ end = _ => destruct x as [[[] ?]|]; [|done] end).
  done.
Qed.

Lemma dump_all_delivers w :
  forallb (dumpable w) (dump_order (w_priv w)) = true ->
  delivers w xeth_mux_dump_all_ifinfo (concat (dump_msgs w <$> dump_order (w_priv w))).
Proof. intros Hd Hw Hm. rewrite dump_all_run. by apply dump_list_delivers. Qed.

(** C8: The dump of the interfaces queues, with no oops, the description of
    every registered proxy and nothing else: loopbacks, ports, LAGs, VLANs and
    bridges in this order, so that a lower device of a LAG or a VLAN is described
    before it; each description is the device, then the settings and flags of a
    port, then its addresses unless it is enslaved, then the members of a LAG or
    bridge. *)
Theorem dump_all_messages w :
  forallb (dumpable w) (dump_order (w_priv w)) = true ->
  delivers w xeth_mux_dump_all_ifinfo (concat (dump_msgs w <$> dump_order (w_priv w))).
Proof. apply dump_all_delivers. Qed.

(** *** Statistics *)

Lemma mod_proxy_run w p f d px :
  w_devs w !! p = Some d -> nd_proxy d = Some px ->
  mod_proxy p f w = Some (tt, upd_w_devs (insert p (upd_nd_proxy (fun _ => Some (f px)) d)) w).
Proof.
  intros Ed Ep. unfold mod_proxy.
  rewrite bind_run, (netdev_priv_run _ _ px) by (unfold proxy_at; by rewrite Ed).
  by rewrite (mod_dev_run _ _ _ _ Ed).
Qed.

Lemma proxy_at_inv w p px :
  proxy_at w p = Some px -> exists d, w_devs w !! p = Some d /\ nd_proxy d = Some px.
Proof.
  unfold proxy_at. destruct (w_devs w !! p) as [d|] eqn:E; [|done]. intros. by exists d.
Qed.

Lemma proxy_at_upd w p d px :
  nd_proxy d = Some px -> proxy_at (upd_w_devs (insert p d) w) p = Some px.
Proof. intros E. unfold proxy_at. simpl. by rewrite lookup_insert_eq. Qed.

(** A statistic the daemon sends is what the kernel reports for the device
    from then on, in the field of that statistic and in no other, modulo 2^64;
    an index out of range changes the counter of invalid messages only. *)
Theorem link_stat_reported w nd px index count :
  proxy_at w nd = Some px -> length (px_link_stats px) = length xeth_link_stat_all ->
  is_Some (px_mux px) -> 0 <= index ->
  exists w', xeth_proxy_link_stat nd index count w = Some (tt, w') /\
    match xeth_link_stat_all !! Z.to_nat index with
    | Some s => w_priv w' = w_priv w /\
        exists r, xeth_proxy_get_stats64 nd w' = Some (r, w') /\ rtnl_field s r = u64 count /\
          forall s', s' <> s -> rtnl_field s' r = rtnl_field s' (xeth_link_stats (px_link_stats px))
    | None => w' = upd_w_priv (counter_add xeth_mux_counter_sbrx_invalid 1) w
    end.
Proof.
  intros Hp Hl [mux Hm] Hi. unfold xeth_proxy_link_stat.
  destruct (proxy_at_inv _ _ _ Hp) as (d & Ed & Ep).
  rewrite bind_run, (netdev_priv_run _ _ _ Hp). destruct (Z.ltb_spec index XETH_N_LINK_STAT).
  - destruct (xeth_link_stat_all !! Z.to_nat index) as [s|] eqn:Es.
    2: { apply lookup_ge_None in Es. unfold XETH_N_LINK_STAT in *. lia. }
    assert (Z.to_nat index = link_stat_idx s) as Eidx.
    { eapply NoDup_lookup; [|exact Es|apply link_stat_at_idx].
      apply (bool_decide_unpack _). vm_compute. exact I. }
    rewrite (mod_proxy_run _ _ _ _ _ Ed Ep), Eidx. eexists. split; [done|]. split; [done|].
    eexists. split; [|split].
    + unfold xeth_proxy_get_stats64.
      erewrite bind_run, netdev_priv_run by (apply proxy_at_upd; reflexivity). reflexivity.
    + rewrite rtnl_field_link_stats. cbn [px_link_stats upd_px_link_stats].
      change (<[link_stat_idx s:=s64 count]> (px_link_stats px))
        with (xeth_stat_set s count (px_link_stats px)).
      rewrite stat_get_set_same by done. apply u64_s64.
    + intros s' Hs. rewrite !rtnl_field_link_stats. f_equal.
      by apply stat_get_set_other.
  - rewrite bind_run, Hm. simpl. eexists. split; [done|].
    rewrite (proj2 (lookup_ge_None _ _)); [done|]. unfold XETH_N_LINK_STAT in *. lia.
Qed.

(** *** Removal *)

Context {HL : KernelHashLaws}.

Lemma registry_rep_sb_frame w w' l : sb_frame w w' -> registry_rep w l -> registry_rep w' l.
Proof.
  intros F. apply registry_rep_frame;
    try (match goal with |- ?f (w_priv w') = _ =>
      by apply (f_equal (fun w => f (w_priv w))) in F end).
  intros p. unfold xid_of, kind_of, registrable. by rewrite (sb_frame_proxy_at _ _ _ F).
Qed.

(** The removal of a registered proxy reports its deletion to the daemon and
    takes it out of the registry, and nothing else of the registry. *)
Theorem uninit_unregisters w l p d px :
  registry_rep w l -> p ∈ l -> sb_ok w -> (0 < w_kmem w)%nat ->
  w_devs w !! p = Some d -> nd_proxy d = Some px -> px_xid px <> 0 -> is_Some (px_mux px) ->
  exists w', xeth_proxy_uninit p w = Some (tt, w') /\ registry_rep w' (unlink p l) /\
    queued w' = queued w ++
      (if connected w then [ifinfo_bytes (w_priv w) d px 0 XETH_IFINFO_REASON_DEL] else []).
Proof.
  intros R Hp Hw Hm Ed Ep Hx [mux Hmux].
  assert ((px_xid px =? 0) || bool_decide (px_mux px = None) = false) as Hc.
  { rewrite Hmux. apply Z.eqb_neq in Hx. by rewrite Hx. }
  pose proof (ifinfo_delivers w p d px 0 XETH_IFINFO_REASON_DEL Ed Ep) as D. rewrite Hc in D.
  destruct (delivers_ignore _ _ _ D Hw) as ([] & w1 & E1 & M1); [simpl; lia|].
  destruct (del_proxy_run w1 l p) as (w2 & E2 & R2 & Hw2); [|done|].
  { by eapply registry_rep_sb_frame; [apply emits_frame in M1|]. }
  exists w2. unfold xeth_proxy_uninit. rewrite bind_run, E1. split; [done|]. split; [done|].
  rewrite Hw2. apply emits_queued in M1. exact M1.
Qed.

End proxy.

(** ** Witnesses *)

Lemma demo_full_ok : sb_ok demo_full.
Proof. split; done. Qed.

Lemma dump_all_messages_witness :
  exists w', xeth_mux_dump_all_ifinfo (C:=demo_const) demo_full = Some (tt, w') /\
    length (queued w') = 23%nat.
Proof.
  destruct (dump_all_messages (C:=demo_const) demo_full) as ([] & w' & E & M).
  - vm_compute. reflexivity.
  - exact demo_full_ok.
  - vm_compute. lia.
  - exists w'. split; [exact E|]. rewrite (emits_queued _ _ _ M). vm_compute. reflexivity.
Defined.

Lemma link_stat_reported_witness :
  exists w', xeth_proxy_link_stat 1 2 77 demo_full = Some (tt, w') /\
    w_priv w' = w_priv demo_full /\
    exists r, xeth_proxy_get_stats64 1 w' = Some (r, w') /\ rtnl_field XETH_LINK_STAT_RX_BYTES r = 77.
Proof.
  destruct (link_stat_reported demo_full 1
    (demo_proxy XETH_DEV_KIND_PORT 3999 (demo_port 0)) 2 77) as (w' & E & Hp & r & Er & Hr & _).
  - reflexivity.
  - reflexivity.
  - by eexists.
  - lia.
  - exists w'. split; [exact E|]. split; [exact Hp|]. exists r. split; [exact Er|exact Hr].
Defined.

Lemma uninit_unregisters_witness :
  exists w', xeth_proxy_uninit (C:=demo_const) 4 demo_full = Some (tt, w') /\
    registry_rep (H:=golden_hash) w' [7; 6; 5; 3; 2; 1] /\ length (queued w') = 1%nat.
Proof.
  destruct (uninit_unregisters (C:=demo_const) (H:=golden_hash) (HL:=golden_hash_laws) demo_full
    [7; 6; 4; 5; 3; 2; 1] 4
    (demo_dev 4 NdoVlan (Some LnkoVlan)
      (Some (demo_proxy XETH_DEV_KIND_VLAN (Z.lor 3999 (Z.shiftl 5 12)) (PrivVlan (Some 1)))))
    (demo_proxy XETH_DEV_KIND_VLAN (Z.lor 3999 (Z.shiftl 5 12)) (PrivVlan (Some 1))))
    as (w' & E & R & Q).
  - exact demo_full_rep.
  - do 2 right. left.
  - exact demo_full_ok.
  - vm_compute. lia.
  - reflexivity.
  - reflexivity.
  - done.
  - by eexists.
  - exists w'. split; [exact E|]. split; [exact R|]. rewrite Q. reflexivity.
Defined.
