(* ===== verification/Carrier.v ===== *)
(** * Carrier and statistics across the devices of a mux (dkms/xeth_mux.c)

    The mux operations that go over a list of kin: the carrier of a port and of
    the VLANs on it, the carrier of the mux itself, and the resets at the start
    and the end of a side-band connection. *)

From stdpp Require Import base numbers list gmap.
From Stdlib Require Import ZArith Lia.
From S2P Require Import Prelude Bytes Monad Uapi State Stats Kernel Demo Registry Sbq Sbtx Proxy.

Local Open Scope Z_scope.

(** ** Operations *)

(** The private area of a VLAN (dkms/xeth_vlan.c).  A loopback is set up with the
    kind of a VLAN and is on the same list: where a VLAN has its link, it has its
    channel and zeroed padding, a number below 256 that is no device's address. *)
Definition xeth_vlan_has_link (nd link : Z) : M world bool :=
  px ← netdev_priv nd;
  match px_priv px with
  | PrivVlan l => mret (bool_decide (l = Some link))
  | PrivLb _ => mret false
  | _ => oops
  end.

(** netif_carrier_on or netif_carrier_off, as [on] says. *)
Definition set_carrier (on : bool) (nd : Z) : M world unit :=
  if on then netif_carrier_on nd else netif_carrier_off nd.

Definition xeth_mux_change_carrier (nd : Z) (on : bool) : M world unit :=
  set_carrier on nd ≫= fun _ =>
  priv ← get_mux;
  for_each (mx_vlans priv) (fun vlan =>
    b ← xeth_vlan_has_link vlan nd;
    when b (set_carrier on vlan)).

Definition netif_carrier_ok (nd : Z) : M world bool := d ← dev nd; mret (nd_carrier d).

(** The loop over the lowers: false once a lower has no carrier. *)
Fixpoint lowers_carrier (lowers : list Z) (carrier : bool) : M world bool :=
  match lowers with
  | [] => mret carrier
  | lower :: lowers =>
      ok ← netif_carrier_ok lower;
      lowers_carrier lowers (if (ok : bool) then carrier else false)
  end.

Definition xeth_mux_check_lower_carrier : M world unit :=
  mux ← gets w_mux;
  d ← dev mux;
  carrier ← lowers_carrier (nd_lowers d) true;
  ok ← netif_carrier_ok mux;
  if (carrier : bool) then when (negb ok) (netif_carrier_on mux)
  else when ok (netif_carrier_off mux).

Definition unregister_netdevice_queue (nd : Z) : M world unit :=
  modify (upd_w_unregq (fun q => q ++ [nd])).

Definition xeth_mux_del_vlans (nd : Z) : M world unit :=
  priv ← get_mux;
  for_each (mx_vlans priv) (fun vlan =>
    b ← xeth_vlan_has_link vlan nd;
    when b (unregister_netdevice_queue vlan)).

Definition xeth_mux_drop_all_port_carrier : M world unit :=
  priv ← get_mux;
  for_each (mx_ports priv) netif_carrier_off.

Definition xeth_mux_reset_all_link_stats : M world unit :=
  mod_mux (upd_mx_link_stats (fun _ => xeth_link_stat_init)) ≫= fun _ =>
  priv ← get_mux;
  for_each (mx_ports priv) xeth_proxy_reset_link_stats ≫= fun _ =>
  for_each (mx_vlans priv) xeth_proxy_reset_link_stats ≫= fun _ =>
  for_each (mx_bridges priv) xeth_proxy_reset_link_stats ≫= fun _ =>
  for_each (mx_lags priv) xeth_proxy_reset_link_stats ≫= fun _ =>
  for_each (mx_lbs priv) xeth_proxy_reset_link_stats.

(** *** The ethtool statistics of a port (dkms/xeth_port.c) *)

Definition xeth_mux_max_stats : nat := 512.

(** Assign in the private area of a port. *)
Definition mod_port (nd : Z) (f : xeth_port_priv -> xeth_port_priv) : M world unit :=
  pp ← port_priv nd; mod_proxy nd (upd_px_priv (fun _ => PrivPort (f pp))).
Definition mod_ext (nd : Z) (f : xeth_port_ext -> xeth_port_ext) : M world unit :=
  pp ← port_priv nd; ext ← port_ext pp; mod_port nd (upd_pp_ext (fun _ => Some (f ext))).

Definition xeth_port_reset_ethtool_stats (nd : Z) : M world unit :=
  pp ← port_priv nd;
  when (pp_subport pp <=? 0) (mod_ext nd (upd_pe_stats (fun _ => replicate xeth_mux_max_stats 0))).

(** The extension is written whatever the subport. *)
Definition xeth_port_ethtool_stat (nd : Z) (index count : Z) : M world unit :=
  px ← netdev_priv nd;
  if index <? Z.of_nat xeth_mux_max_stats
  then mod_ext nd (upd_pe_stats (<[Z.to_nat index := s64 count]>))
  else _ ← deref (px_mux px); xeth_mux_inc xeth_mux_counter_sbrx_invalid.

Definition xeth_port_speed (nd : Z) (mbps : Z) : M world unit :=
  mod_port nd (upd_pp_ksettings (upd_ks_speed (fun _ => mbps))).

Definition xeth_mux_reset_all_port_ethtool_stats : M world unit :=
  priv ← get_mux;
  for_each (mx_ports priv) xeth_port_reset_ethtool_stats.

(** ** Device frames *)

(** From [w] to [w'] only devices changed, each by [f]. *)
Definition devs_by (f : Z -> net_device -> net_device) (w w' : world) : Prop :=
  w' = upd_w_devs (fun _ => map_imap (fun p d => Some (f p d)) (w_devs w)) w.

Lemma devs_by_lookup f w w' p :
  devs_by f w w' -> w_devs w' !! p = f p <$> w_devs w !! p.
Proof. intros ->. simpl. rewrite map_lookup_imap. by destruct (w_devs w !! p). Qed.

Lemma devs_by_insert w p g d :
  w_devs w !! p = Some d ->
  devs_by (fun q e => if decide (q = p) then g e else e) w (upd_w_devs (insert p (g d)) w).
Proof.
  intros E. unfold devs_by, upd_w_devs. f_equal. apply map_eq. intros q.
  rewrite map_lookup_imap. destruct (decide (q = p)) as [->|Hq].
  - rewrite lookup_insert_eq, E. simpl. by destruct (decide (p = p)).
  - rewrite lookup_insert_ne by done. destruct (w_devs w !! q); [|done].
    simpl. by destruct (decide (q = p)).
Qed.

Lemma devs_by_id w f : (forall p d, w_devs w !! p = Some d -> f p d = d) -> devs_by f w w.
Proof.
  intros Hf. unfold devs_by, upd_w_devs. destruct w. simpl in *. f_equal. apply map_eq. intros q.
  rewrite map_lookup_imap. destruct (_ !! q) as [d|] eqn:E; [|done]. simpl. by rewrite Hf.
Qed.

Lemma devs_by_trans f g w1 w2 w3 :
  devs_by f w1 w2 -> devs_by g w2 w3 -> devs_by (fun p d => g p (f p d)) w1 w3.
Proof.
  intros -> ->. unfold devs_by, upd_w_devs. simpl. f_equal. apply map_eq. intros q.
  rewrite !map_lookup_imap. by destruct (w_devs w1 !! q).
Qed.

Lemma devs_by_ext f g w w' :
  devs_by f w w' -> (forall p d, w_devs w !! p = Some d -> f p d = g p d) -> devs_by g w w'.
Proof.
  intros -> Hf. unfold devs_by, upd_w_devs. f_equal. apply map_eq. intros q.
  rewrite !map_lookup_imap. destruct (w_devs w !! q) eqn:E; [|done]. simpl. by rewrite Hf.
Qed.

Lemma devs_by_mod_dev w p g d :
  w_devs w !! p = Some d ->
  exists w', mod_dev p g w = Some (tt, w') /\
    devs_by (fun q e => if decide (q = p) then g e else e) w w'.
Proof.
  intros E. eexists. split; [by apply mod_dev_run|]. by apply devs_by_insert.
Qed.

(** A loop that changes, in each iteration, at most the device it is at, and by
    a change that repeats without effect, changes the devices of the list. *)
Lemma for_each_devs w (l : list Z) (body : Z -> M world unit) (g : net_device -> net_device)
    (sel : Z -> bool) :
  (forall d, g (g d) = g d) ->
  (forall p w0, p ∈ l ->
     (exists s : Z -> bool, devs_by (fun q d => if s q then g d else d) w w0) ->
     exists w1, body p w0 = Some (tt, w1) /\
       devs_by (fun q d => if decide (q = p) then (if sel p then g d else d) else d) w0 w1) ->
  exists w', for_each l body w = Some (tt, w') /\
    devs_by (fun q d => if bool_decide (q ∈ l) && sel q then g d else d) w w'.
Proof.
  intros Hg Hb.
  assert (forall l0 w0 (s : Z -> bool), (forall p, p ∈ l0 -> p ∈ l) ->
    devs_by (fun q d => if s q then g d else d) w w0 ->
    exists w', for_each l0 body w0 = Some (tt, w') /\
      devs_by (fun q d => if s q || (bool_decide (q ∈ l0) && sel q) then g d else d) w w') as Hind.
  { induction l0 as [|p l0 IH]; intros w0 s Hin D.
    - exists w0. split; [done|]. eapply devs_by_ext; [exact D|]. intros q d _.
      by rewrite bool_decide_eq_false_2, orb_false_r by apply not_elem_of_nil.
    - destruct (Hb p w0) as (w1 & E1 & D1); [apply Hin; left|by exists s|].
      destruct (IH w1 (fun q => s q || (bool_decide (q = p) && sel q))) as (w2 & E2 & D2).
      + intros q Hq. apply Hin. by right.
      + eapply devs_by_ext; [exact (devs_by_trans _ _ _ _ _ D D1)|]. intros q d _. simpl.
        case_decide; [subst; rewrite bool_decide_eq_true_2 by done
          |rewrite bool_decide_eq_false_2 by done]; destruct (s _); simpl; [|done| |done].
        * destruct (sel p); [apply Hg|done].
        * done.
      + exists w2. simpl. rewrite bind_run, E1. split; [done|].
        eapply devs_by_ext; [exact D2|]. intros q d _. simpl.
        replace (bool_decide (q ∈ p :: l0)) with (bool_decide (q = p) || bool_decide (q ∈ l0)).
        * by destruct (s q), (bool_decide (q = p)), (bool_decide (q ∈ l0)), (sel q).
        * rewrite <- bool_decide_or. apply bool_decide_ext. by rewrite elem_of_cons. }
  destruct (Hind l w (fun _ => false)) as (w' & E & D); [done|by apply devs_by_id|].
  exists w'. split; [done|]. eapply devs_by_ext; [exact D|]. done.
Qed.

(** ** Carrier *)

Lemma set_carrier_run w on p d :
  w_devs w !! p = Some d ->
  exists w', set_carrier on p w = Some (tt, w') /\
    devs_by (fun q e => if decide (q = p) then upd_nd_carrier (fun _ => on) e else e) w w'.
Proof. intros E. destruct on; by eapply devs_by_mod_dev. Qed.

Lemma devs_by_proxy_at f w w' p :
  devs_by f w w' -> (forall q d, nd_proxy (f q d) = nd_proxy d) -> proxy_at w' p = proxy_at w p.
Proof.
  intros D Hf. unfold proxy_at. rewrite (devs_by_lookup _ _ _ _ D).
  destruct (w_devs w !! p); simpl; [apply Hf|done].
Qed.

(** The link of a VLAN. *)
Definition vlan_link (w : world) (v : Z) : option Z :=
  px ← proxy_at w v; match px_priv px with PrivVlan l => l | _ => None end.

Definition is_vlan_priv (w : world) (v : Z) : bool :=
  match proxy_at w v with
  | Some px => match px_priv px with PrivVlan _ | PrivLb _ => true | _ => false end
  | None => false
  end.

Lemma has_link_run w v nd :
  is_vlan_priv w v = true ->
  xeth_vlan_has_link v nd w = Some (bool_decide (vlan_link w v = Some nd), w).
Proof.
  unfold is_vlan_priv, vlan_link, xeth_vlan_has_link.
  destruct (proxy_at w v) as [px|] eqn:E; [|done].
  rewrite bind_run, (netdev_priv_run _ _ _ E). cbn [mbind option_bind]. by destruct (px_priv px).
Qed.

Lemma change_carrier_devs w nd on :
  is_Some (w_devs w !! nd) -> forallb (is_vlan_priv w) (mx_vlans (w_priv w)) = true ->
  exists w', xeth_mux_change_carrier nd on w = Some (tt, w') /\
    devs_by (fun p d => if bool_decide (p = nd) ||
                   (bool_decide (p ∈ mx_vlans (w_priv w)) && bool_decide (vlan_link w p = Some nd))
                then upd_nd_carrier (fun _ => on) d else d) w w'.
Proof.
  intros [d Ed] Hv. rewrite forallb_forall in Hv.
  destruct (set_carrier_run w on nd d Ed) as (w1 & E1 & D1).
  set (g := upd_nd_carrier (fun _ => on)) in *.
  assert (forall p, proxy_at w1 p = proxy_at w p) as P1.
  { intros p. eapply devs_by_proxy_at; [exact D1|]. intros q e. cbv beta. by destruct (decide (q = nd)). }
  assert (w_priv w1 = w_priv w) as Hp by (by rewrite D1).
  destruct (for_each_devs w1 (mx_vlans (w_priv w))
    (fun vlan => b ← xeth_vlan_has_link vlan nd; when b (set_carrier on vlan)) g
    (fun p => bool_decide (vlan_link w p = Some nd))) as (w2 & E2 & D2).
  - done.
  - intros p w0 Hin [s D0].
    assert (forall q, proxy_at w0 q = proxy_at w q) as P0.
    { intros q. rewrite (devs_by_proxy_at _ _ _ _ D0); [apply P1|]. intros ??. cbv beta. by destruct (s _). }
    assert (is_vlan_priv w0 p = true) as Hvp
      by (unfold is_vlan_priv; rewrite P0; by apply Hv, list_elem_of_In).
    rewrite bind_run, (has_link_run _ _ _ Hvp).
    replace (vlan_link w0 p) with (vlan_link w p) by (unfold vlan_link; by rewrite P0).
    destruct (bool_decide (vlan_link w p = Some nd)).
    + unfold is_vlan_priv, proxy_at in Hvp. destruct (w_devs w0 !! p) as [e|] eqn:Ee; [|done].
      by eapply set_carrier_run.
    + exists w0. split; [done|]. apply devs_by_id. intros q ? _. cbv beta. by destruct (decide (q = p)).
  - exists w2. unfold xeth_mux_change_carrier. rewrite bind_run, E1, bind_run.
    unfold get_mux. cbn [gets]. rewrite Hp. split; [done|].
    eapply devs_by_ext; [exact (devs_by_trans _ _ _ _ _ D1 D2)|]. intros p e _. cbv beta.
    destruct (decide (p = nd)) as [Hq|Hq]; [rewrite (bool_decide_eq_true_2 (p = nd)) by done
      |rewrite (bool_decide_eq_false_2 (p = nd)) by done]; cbn [orb]; by destruct (_ && _).
Qed.

(** When the daemon changes the carrier of a port, the carrier of the port
    and of every VLAN on it changes, and of no other device; nothing else of the
    devices or of the mux changes. *)
Theorem change_carrier_devices w nd on :
  is_Some (w_devs w !! nd) -> forallb (is_vlan_priv w) (mx_vlans (w_priv w)) = true ->
  exists w', xeth_mux_change_carrier nd on w = Some (tt, w') /\ w_priv w' = w_priv w /\
    forall p, w_devs w' !! p =
      (fun d => if bool_decide (p = nd) ||
                   (bool_decide (p ∈ mx_vlans (w_priv w)) && bool_decide (vlan_link w p = Some nd))
                then upd_nd_carrier (fun _ => on) d else d) <$> w_devs w !! p.
Proof.
  intros Hd Hv. destruct (change_carrier_devs w nd on Hd Hv) as (w' & E & D).
  exists w'. split; [done|]. split; [by rewrite D|]. intros p. apply (devs_by_lookup _ _ _ _ D).
Qed.

Lemma lowers_carrier_run w l b :
  Forall (fun p => is_Some (w_devs w !! p)) l ->
  lowers_carrier l b w =
    Some (b && forallb (fun p => from_option nd_carrier false (w_devs w !! p)) l, w).
Proof.
  intros Hl. revert b; induction Hl as [|p l [d Ed] _ IH]; intros b; simpl.
  - by rewrite andb_true_r.
  - unfold netif_carrier_ok. rewrite bind_run, bind_run, (dev_run _ _ _ Ed). simpl.
    rewrite IH, Ed. simpl. by destruct b, (nd_carrier d).
Qed.

(** After the check of the lowers the mux has carrier exactly when every
    lower has (with no lower, it has); nothing else changes. *)
Theorem check_lower_carrier_all w d :
  w_devs w !! w_mux w = Some d -> Forall (fun p => is_Some (w_devs w !! p)) (nd_lowers d) ->
  xeth_mux_check_lower_carrier w = Some (tt,
    if bool_decide (nd_carrier d =
         forallb (fun p => from_option nd_carrier false (w_devs w !! p)) (nd_lowers d)) then w
    else upd_w_devs (insert (w_mux w) (upd_nd_carrier (fun _ =>
           forallb (fun p => from_option nd_carrier false (w_devs w !! p)) (nd_lowers d)) d)) w).
Proof.
  intros Ed Hl. unfold xeth_mux_check_lower_carrier. rewrite bind_run. cbn [gets].
  rewrite bind_run, (dev_run _ _ _ Ed), bind_run, lowers_carrier_run by done.
  rewrite andb_true_l. set (c := forallb _ _).
  unfold netif_carrier_ok at 1. rewrite bind_run, bind_run, (dev_run _ _ _ Ed).
  cbn [mret M_ret]. destruct c, (nd_carrier d) eqn:Ec; simpl; try done;
    unfold netif_carrier_on, netif_carrier_off; by rewrite (mod_dev_run _ _ _ _ Ed).
Qed.

(** The end of a connection drops the carrier of every port and of no other
    device. *)
Theorem drop_carrier_ports w :
  Forall (fun p => is_Some (w_devs w !! p)) (mx_ports (w_priv w)) ->
  exists w', xeth_mux_drop_all_port_carrier w = Some (tt, w') /\ w_priv w' = w_priv w /\
    forall p, w_devs w' !! p =
      (fun d => if bool_decide (p ∈ mx_ports (w_priv w)) then upd_nd_carrier (fun _ => false) d
                else d) <$> w_devs w !! p.
Proof.
  intros Hl. rewrite Forall_forall in Hl.
  destruct (for_each_devs w (mx_ports (w_priv w)) netif_carrier_off
    (upd_nd_carrier (fun _ => false)) (fun _ => true)) as (w' & E & D).
  - done.
  - intros p w0 Hin [s D0]. destruct (Hl p Hin) as [d Ed].
    eapply (devs_by_mod_dev w0 p). rewrite (devs_by_lookup _ _ _ _ D0), Ed. done.
  - exists w'. split; [done|]. split; [by rewrite D|]. intros p.
    rewrite (devs_by_lookup _ _ _ _ D). by rewrite andb_true_r.
Qed.

(** ** Resets *)

Definition reset_proxy (d : net_device) : net_device :=
  upd_nd_proxy (fmap (upd_px_link_stats (fun _ => xeth_link_stat_init))) d.

Lemma reset_proxy_idemp d : reset_proxy (reset_proxy d) = reset_proxy d.
Proof. unfold reset_proxy, upd_nd_proxy. simpl. f_equal. by destruct (nd_proxy d). Qed.

Lemma mod_proxy_devs w p f px :
  proxy_at w p = Some px ->
  exists w', mod_proxy p f w = Some (tt, w') /\
    devs_by (fun q d => if decide (q = p) then upd_nd_proxy (fmap f) d else d) w w'.
Proof.
  intros Hp. destruct (proxy_at_inv _ _ _ Hp) as (d & Ed & Ep). eexists.
  split; [by eapply mod_proxy_run|].
  replace (upd_nd_proxy (fun _ => Some (f px)) d) with (upd_nd_proxy (fmap f) d)
    by (unfold upd_nd_proxy; f_equal; by rewrite Ep).
  by apply devs_by_insert.
Qed.

(** The proxies in the order in which the reset visits them. *)
Definition reset_order (priv : xeth_mux_priv) : list Z :=
  mx_ports priv ++ mx_vlans priv ++ mx_bridges priv ++ mx_lags priv ++ mx_lbs priv.

Lemma reset_all_run w :
  xeth_mux_reset_all_link_stats w =
    for_each (reset_order (w_priv w)) xeth_proxy_reset_link_stats
      (upd_w_priv (upd_mx_link_stats (fun _ => xeth_link_stat_init)) w).
Proof.
  unfold xeth_mux_reset_all_link_stats, reset_order, get_mux, mod_mux.
  rewrite bind_run. cbn [modify]. rewrite bind_run. cbn [gets].
  set (w0 := upd_w_priv _ w). change (mx_ports (w_priv w0)) with (mx_ports (w_priv w)).
  change (mx_vlans (w_priv w0)) with (mx_vlans (w_priv w)).
  change (mx_bridges (w_priv w0)) with (mx_bridges (w_priv w)).
  change (mx_lags (w_priv w0)) with (mx_lags (w_priv w)).
  change (mx_lbs (w_priv w0)) with (mx_lbs (w_priv w)). clearbody w0.
  repeat (rewrite for_each_app, !bind_run;
    match goal with |- match ?x with _ => _ end = _ => destruct x as [[[] ?]|]; [|done] end).
  done.
Qed.

(** A new connection starts with the link statistics of the mux and of every
    proxy on the lists of the registry at zero, and changes nothing else. *)
Theorem reset_link_stats_zero w :
  Forall (fun p => is_Some (proxy_at w p)) (reset_order (w_priv w)) ->
  exists w', xeth_mux_reset_all_link_stats w = Some (tt, w') /\
    w_priv w' = upd_mx_link_stats (fun _ => xeth_link_stat_init) (w_priv w) /\
    forall p, w_devs w' !! p =
      (fun d => if bool_decide (p ∈ reset_order (w_priv w)) then reset_proxy d else d)
        <$> w_devs w !! p.
Proof.
  intros Hl. rewrite Forall_forall in Hl. rewrite reset_all_run.
  set (w0 := upd_w_priv _ w).
  destruct (for_each_devs w0 (reset_order (w_priv w)) xeth_proxy_reset_link_stats
    reset_proxy (fun _ => true)) as (w' & E & D).
  - apply reset_proxy_idemp.
  - intros p w1 Hin [s D0].
    destruct (Hl p Hin) as [px Hpx]. unfold xeth_proxy_reset_link_stats.
    assert (is_Some (proxy_at w1 p)) as [px1 Hpx1].
    { unfold proxy_at in *. rewrite (devs_by_lookup _ _ _ _ D0). simpl.
      destruct (w_devs w !! p) as [d|]; [|done]. simpl in *.
      destruct (s p); simpl; rewrite Hpx; by eexists. }
    by eapply mod_proxy_devs.
  - exists w'. split; [done|]. split; [by rewrite D|]. intros p.
    rewrite (devs_by_lookup _ _ _ _ D). by rewrite andb_true_r.
Qed.

(** The reset of the ethtool statistics, where there are any. *)
Definition reset_priv (priv : proxy_priv) : proxy_priv :=
  match priv with
  | PrivPort pp => PrivPort (if pp_subport pp <=? 0
      then upd_pp_ext (fmap (upd_pe_stats (fun _ => replicate xeth_mux_max_stats 0))) pp else pp)
  | _ => priv
  end.
Definition reset_ext (d : net_device) : net_device :=
  upd_nd_proxy (fmap (upd_px_priv reset_priv)) d.

Lemma reset_priv_idemp p : reset_priv (reset_priv p) = reset_priv p.
Proof.
  destruct p as [pp| | | |]; try done. unfold reset_priv. f_equal.
  destruct (pp_subport pp <=? 0) eqn:E; [|by rewrite E].
  cbn [pp_subport upd_pp_ext]. rewrite E.
  unfold upd_pp_ext. cbn [pp_ext pp_port pp_subport pp_ksettings]. f_equal.
  by destruct (pp_ext pp).
Qed.
Lemma reset_ext_idemp d : reset_ext (reset_ext d) = reset_ext d.
Proof.
  unfold reset_ext, upd_nd_proxy. cbn [nd_proxy]. f_equal.
  destruct (nd_proxy d) as [px|]; [|done]. cbn [fmap option_fmap option_map]. f_equal.
  unfold upd_px_priv. cbn [px_priv]. f_equal. apply reset_priv_idemp.
Qed.

(** A proxy with the private area of a port that has what its subport needs. *)
Definition is_port_priv (w : world) (p : Z) : bool :=
  match proxy_at w p with
  | Some px =>
      match px_priv px with
      | PrivPort pp => (0 <? pp_subport pp) || bool_decide (pp_ext pp <> None)
      | _ => false
      end
  | None => false
  end.

Lemma reset_port_run w p :
  is_port_priv w p = true ->
  exists w', xeth_port_reset_ethtool_stats p w = Some (tt, w') /\
    devs_by (fun q d => if decide (q = p) then reset_ext d else d) w w'.
Proof.
  unfold is_port_priv. destruct (proxy_at w p) as [px|] eqn:Hp; [|done].
  destruct (px_priv px) as [pp| | | |] eqn:Hpp; try done. intros Hs.
  destruct (proxy_at_inv _ _ _ Hp) as (d & Ed & Ep).
  assert (port_priv p w = Some (pp, w)) as Hport.
  { unfold port_priv. by rewrite bind_run, (netdev_priv_run _ _ _ Hp), Hpp. }
  unfold xeth_port_reset_ethtool_stats. rewrite bind_run, Hport.
  destruct (Z.leb_spec (pp_subport pp) 0).
  - destruct (pp_ext pp) as [ext|] eqn:He.
    2: { exfalso. unbool. destruct Hs; unbool; [lia|done]. }
    cbn [when]. unfold mod_ext, mod_port, port_ext. rewrite bind_run, Hport, bind_run, He.
    cbn [deref mret M_ret]. rewrite bind_run, Hport, (mod_proxy_run _ _ _ _ _ Ed Ep).
    eexists. split; [done|]. eapply devs_by_ext; [by apply devs_by_insert|].
    intros q e Ee. cbv beta. destruct (decide (q = p)) as [->|]; [|done].
    rewrite Ed in Ee. injection Ee as <-. unfold reset_ext, upd_nd_proxy. f_equal. rewrite Ep.
    cbn [fmap option_fmap option_map]. f_equal. unfold upd_px_priv. f_equal. rewrite Hpp.
    unfold reset_priv. destruct (Z.leb_spec (pp_subport pp) 0); [|lia]. f_equal. unfold upd_pp_ext. by rewrite He.
  - exists w. split; [done|]. apply devs_by_id. intros q e Ee. cbv beta.
    destruct (decide (q = p)) as [->|]; [|done]. rewrite Ed in Ee. injection Ee as <-.
    unfold reset_ext, upd_nd_proxy. destruct d. simpl in *. subst. f_equal. simpl. f_equal.
    unfold upd_px_priv. destruct px. simpl in *. subst. f_equal. unfold reset_priv.
    destruct (Z.leb_spec (pp_subport pp) 0); [lia|done].
Qed.

(** ** Witnesses *)

Lemma change_carrier_devices_witness :
  exists w', xeth_mux_change_carrier 1 false demo_full = Some (tt, w') /\
    (nd_carrier <$> w_devs w' !! 1) = Some false /\ (nd_carrier <$> w_devs w' !! 4) = Some false /\
    (nd_carrier <$> w_devs w' !! 2) = Some true.
Proof.
  destruct (change_carrier_devices demo_full 1 false) as (w' & E & _ & D).
  - vm_compute. by eexists.
  - vm_compute. reflexivity.
  - exists w'. split; [exact E|]. rewrite !D. vm_compute. auto.
Defined.

(** The mux with ports 1 and 2 in the place of its lowers, port 1 down. *)
Definition demo_lowers : world :=
  upd_w_devs (fun m =>
    <[1 := upd_nd_carrier (fun _ => false) (demo_dev 1 NdoOther None None)]>
    (<[100 := upd_nd_lowers (fun _ => [1; 2]) (demo_dev 8 NdoMux (Some LnkoMux) None)]> m)) demo_full.

Lemma check_lower_carrier_all_witness :
  xeth_mux_check_lower_carrier demo_lowers = Some (tt,
    upd_w_devs (insert 100 (upd_nd_carrier (fun _ => false)
      (upd_nd_lowers (fun _ => [1; 2]) (demo_dev 8 NdoMux (Some LnkoMux) None)))) demo_lowers).
Proof.
  apply (check_lower_carrier_all demo_lowers
    (upd_nd_lowers (fun _ => [1; 2]) (demo_dev 8 NdoMux (Some LnkoMux) None))).
  - reflexivity.
  - repeat constructor; vm_compute; by eexists.
Defined.

Lemma demo_ports_alive : Forall (fun p => is_Some (w_devs demo_full !! p)) (mx_ports (w_priv demo_full)).
Proof. change (mx_ports (w_priv demo_full)) with [3; 2; 1]. repeat constructor; by eexists. Qed.
Lemma demo_proxies_alive :
  Forall (fun p => is_Some (proxy_at demo_full p)) (reset_order (w_priv demo_full)).
Proof.
  change (reset_order (w_priv demo_full)) with [3; 2; 1; 4; 6; 5; 7].
  repeat constructor; by eexists.
Qed.

Lemma reset_link_stats_zero_witness :
  exists w', xeth_mux_reset_all_link_stats demo_full = Some (tt, w') /\
    (px_link_stats <$> proxy_at w' 5) = Some xeth_link_stat_init.
Proof.
  destruct (reset_link_stats_zero demo_full) as (w' & E & _ & D).
  - exact demo_proxies_alive.
  - exists w'. split; [exact E|]. unfold proxy_at. rewrite D. vm_compute. reflexivity.
Defined.
