(* ===== verification/Nb.v ===== *)
(** * Notifiers (dkms/xeth_nb.c, dkms/xeth.h)

    What the kernel tells the mux of addresses, devices, neighbours and routes,
    and the registration of these notifiers.  The kernel's registration calls
    are parameters: they may replay events to the handler, so all that is
    assumed is that they change no more than the replayed handlers change, that
    registration links the notifier exactly when it returns 0 and that
    unregistration unlinks it, and that messages queued before stay queued. *)

From stdpp Require Import base numbers list gmap.
From Stdlib Require Import ZArith Lia.
From S2P Require Import Prelude Bytes Monad Uapi State Stats Kernel Demo Registry Sbq Sbtx Proxy Carrier.

Local Open Scope Z_scope.

(** ** Kernel interface *)

Definition NETDEV_CHANGE : Z := 4.
Definition NETDEV_REGISTER : Z := 5.
Definition NETDEV_UNREGISTER : Z := 6.
Definition NETEVENT_NEIGH_UPDATE : Z := 1.

(** enum fib_event_type, by position. *)
Inductive fib_event :=
| FIB_EVENT_ENTRY_REPLACE | FIB_EVENT_ENTRY_APPEND | FIB_EVENT_ENTRY_ADD | FIB_EVENT_ENTRY_DEL
| FIB_EVENT_RULE_ADD | FIB_EVENT_RULE_DEL | FIB_EVENT_NH_ADD | FIB_EVENT_NH_DEL
| FIB_EVENT_VIF_ADD | FIB_EVENT_VIF_DEL | FIB_EVENT_UNKNOWN (n : Z).

Definition fib_event_val (e : fib_event) : Z :=
  match e with
  | FIB_EVENT_ENTRY_REPLACE => 0 | FIB_EVENT_ENTRY_APPEND => 1 | FIB_EVENT_ENTRY_ADD => 2
  | FIB_EVENT_ENTRY_DEL => 3 | FIB_EVENT_RULE_ADD => 4 | FIB_EVENT_RULE_DEL => 5
  | FIB_EVENT_NH_ADD => 6 | FIB_EVENT_NH_DEL => 7 | FIB_EVENT_VIF_ADD => 8
  | FIB_EVENT_VIF_DEL => 9 | FIB_EVENT_UNKNOWN n => n
  end.

(** What a FIB notification carries, by its address family. *)
Inductive fib_info :=
| FibInet (feni : fib_entry_notifier_info)
| FibInet6 (rt : option fib6_info)
| FibOtherFamily.
Record fib_notifier_info := { fni_net : net; fni_info : fib_info }.

(** Registration with the kernel's chains. *)
Class KernelNotify := {
  register_nb : notifier -> M world Z;
  unregister_nb : notifier -> M world unit;
}.

(** The world without what handlers may change: buffers, counters, memory. *)
Definition erase_nb (w : world) : world := upd_w_priv (upd_mx_chains (fun _ => [])) (erase_sb w).
Definition nb_frame (w w' : world) : Prop := erase_nb w = erase_nb w'.

Class KernelNotifyLaws {K : KernelNotify} : Prop := {
  register_law n w r w' :
    register_nb n w = Some (r, w') ->
    nb_frame w w' /\ (sb_ok w -> sb_ok w') /\
    mx_chains (w_priv w') = (if r =? 0 then n :: mx_chains (w_priv w) else mx_chains (w_priv w)) /\
    queued w `prefix_of` queued w';
  (** The replayed removal of a loopback would stop the FIB notifier of its
      namespace, if there were one. *)
  unregister_law n w r w' :
    (n = NbNetdevice -> mx_fibs (w_priv w) = []) ->
    unregister_nb n w = Some (r, w') ->
    nb_frame w w' /\ (sb_ok w -> sb_ok w') /\
    mx_chains (w_priv w') = filter (fun m => m <> n) (mx_chains (w_priv w)) /\
    queued w `prefix_of` queued w';
}.

(** A kernel whose chains always accept and replay nothing. *)
Definition plain_notify : KernelNotify := {|
  register_nb n := mod_mux (upd_mx_chains (cons n)) ≫= fun _ => mret 0;
  unregister_nb n := mod_mux (upd_mx_chains (filter (fun m => m <> n)));
|}.

Lemma plain_notify_laws : @KernelNotifyLaws plain_notify.
Proof.
  split.
  - intros n w r w' [= <- <-]. split; [done|]. split; [by intros []|]. by split.
  - intros n w r w' _ [= <- <-]. split; [done|]. split; [by intros []|]. by split.
Qed.

(** ** Registration *)

Section start.
Context {C : KernelConst} {K : KernelNotify}.

Definition nb_flag (n : notifier) : xeth_mux_flag :=
  match n with
  | NbInetaddr => xeth_mux_flag_inetaddr_notifier
  | NbInet6addr => xeth_mux_flag_inet6addr_notifier
  | NbNetdevice => xeth_mux_flag_netdevice_notifier
  | NbNetevent => xeth_mux_flag_netevent_notifier
  | NbFib _ => xeth_mux_flag_fib_notifier
  end.

(** The macros xeth_nb_start and xeth_nb_stop, by the notifier they expand for. *)
Definition xeth_nb_start (n : notifier) : M world Z :=
  busy ← xeth_mux_has (nb_flag n);
  if (busy : bool) then mret (- EBUSY) else
  err ← register_nb n;
  when (err =? 0) (xeth_mux_set (nb_flag n)) ≫= fun _ => mret err.

Definition xeth_nb_stop (n : notifier) : M world unit :=
  has ← xeth_mux_has (nb_flag n);
  when has (unregister_nb n ≫= fun _ => xeth_mux_clear (nb_flag n)).

Definition xeth_nb_start_inetaddr : M world Z := xeth_nb_start NbInetaddr.
Definition xeth_nb_start_inet6addr : M world Z := xeth_nb_start NbInet6addr.
Definition xeth_nb_start_netdevice : M world Z := xeth_nb_start NbNetdevice.
Definition xeth_nb_start_netevent : M world Z := xeth_nb_start NbNetevent.
Definition xeth_nb_stop_inetaddr : M world unit := xeth_nb_stop NbInetaddr.
Definition xeth_nb_stop_inet6addr : M world unit := xeth_nb_stop NbInet6addr.
Definition xeth_nb_stop_netdevice : M world unit := xeth_nb_stop NbNetdevice.
Definition xeth_nb_stop_netevent : M world unit := xeth_nb_stop NbNetevent.

Definition xeth_nb_start_fib (n : net) : M world Z :=
  priv ← get_mux;
  if existsb (fun m => net_addr m =? net_addr n) (mx_fibs priv) then mret (- EBUSY) else
  ok ← kzalloc_ok;
  if negb ok then mret (- ENOMEM) else
  err ← register_nb (NbFib n);
  when (err =? 0) (mod_mux (upd_mx_fibs (fun l => l ++ [n]))) ≫= fun _ => mret err.

(** New namespaces are for kernels whose notifications carry none, and only
    once the routes were asked for. *)
Definition xeth_nb_start_new_fib (n : net) : M world Z :=
  if fib_notifier_info_with_net then mret 0 else
  priv ← get_mux;
  match mx_fibs priv with
  | [] => mret 0
  | _ => xeth_nb_start_fib n
  end.

Fixpoint start_new_fibs (nets : list net) : M world Z :=
  match nets with
  | [] => mret 0
  | n :: nets =>
      if net_addr n =? init_net then start_new_fibs nets else
      err ← xeth_nb_start_new_fib n;
      if err =? 0 then start_new_fibs nets else mret err
  end.

(** &init_net *)
Definition the_init_net : M world net :=
  nets ← gets w_nets; deref (find (fun n => net_addr n =? init_net) nets).

Definition xeth_nb_start_all_fib : M world Z :=
  n ← the_init_net;
  _ ← xeth_nb_start_fib n;
  nets ← gets w_nets;
  start_new_fibs nets.

(** Unregister and unlink one element of nb.fibs. *)
Definition stop_fib (n : net) : M world unit :=
  unregister_nb (NbFib n) ≫= fun _ =>
  mod_mux (upd_mx_fibs (filter (fun m => m <> n))).

Definition xeth_nb_stop_net_fib (n : net) : M world unit :=
  priv ← get_mux;
  for_each (mx_fibs priv) (fun m => when (net_addr m =? net_addr n) (stop_fib m)).

Definition xeth_nb_stop_all_fib : M world unit :=
  priv ← get_mux;
  for_each (mx_fibs priv) stop_fib.

End start.

(** ** Handlers *)

Section handlers.
Context {C : KernelConst} {K : KernelNotify} {H : KernelHash}.

(** fmn->net or info->net. *)
Definition xeth_fibmuxnet_net (fmn_net : net) (info : fib_notifier_info) : net :=
  if fib_notifier_info_with_net then fni_net info else fmn_net.

Definition xeth_nb_fib (fmn_net : net) (event : fib_event) (info : fib_notifier_info) : M world unit :=
  let n := xeth_fibmuxnet_net fmn_net info in
  match event with
  | FIB_EVENT_ENTRY_REPLACE | FIB_EVENT_ENTRY_APPEND | FIB_EVENT_ENTRY_ADD | FIB_EVENT_ENTRY_DEL =>
      match fni_info info with
      | FibInet feni => ignore (xeth_sbtx_fib_entry n feni (fib_event_val event))
      | FibInet6 rt => ignore (xeth_sbtx_fib6_entry n rt (fib_event_val event))
      | FibOtherFamily => mret tt
      end
  | _ => mret tt
  end.

(** The proxy of a device, if it has an XID and this mux. *)
Definition own_proxy (nd : Z) : M world (option xeth_proxy) :=
  proxy ← xeth_mux_proxy_of_nd nd;
  match proxy with
  | None => mret None
  | Some p =>
      px ← netdev_priv p;
      mux ← gets w_mux;
      mret (if negb (px_xid px =? 0) && bool_decide (px_mux px = Some mux) then Some px else None)
  end.

(** [ifa_dev] is the device of the address, if any. *)
Definition xeth_nb_inetaddr (event : Z) (ifa : in_ifaddr) (ifa_dev : option Z) : M world unit :=
  match ifa_dev with
  | None => mret tt
  | Some nd =>
      proxy ← own_proxy nd;
      match proxy with
      | Some px => ignore (xeth_sbtx_ifa ifa event (px_xid px))
      | None => mret tt
      end
  end.

Definition xeth_nb_inet6addr (event : Z) (ifa6 : inet6_ifaddr) (idev : option Z) : M world unit :=
  match idev with
  | None => mret tt
  | Some nd =>
      proxy ← own_proxy nd;
      match proxy with
      | Some px => ignore (xeth_sbtx_ifa6 ifa6 event (px_xid px))
      | None => mret tt
      end
  end.

(** The device of ifindex 1 is the loopback of its namespace: its coming and
    going is the namespace's. *)
Definition xeth_nb_netdevice (event : Z) (nd : Z) : M world unit :=
  d ← dev nd;
  if nd_ifindex d =? 1 then
    let n := nd_net d in
    if event =? NETDEV_REGISTER then ignore (xeth_sbtx_netns (net_number n) true)
    else if event =? NETDEV_UNREGISTER then
      xeth_nb_stop_net_fib n ≫= fun _ => ignore (xeth_sbtx_netns (net_number n) false)
    else mret tt
  else
  proxy ← xeth_mux_proxy_of_nd nd;
  if event =? NETDEV_CHANGE then xeth_mux_check_lower_carrier
  else if event =? NETDEV_REGISTER then
    match proxy with
    | Some p =>
        px ← netdev_priv p;
        when (negb (px_xid px =? 0) && bool_decide (px_mux px <> None))
          (ignore (xeth_sbtx_ifinfo p 0 XETH_IFINFO_REASON_REG))
    | None => mret tt
    end
  else mret tt.

Definition xeth_nb_netevent (event : Z) (neigh : neighbour) : M world unit :=
  if event =? NETEVENT_NEIGH_UPDATE then ignore (xeth_sbtx_neigh_update neigh) else mret tt.

End handlers.

(** ** Invariant *)

(** The driver believes that [n] is registered. *)
Definition nb_active (p : xeth_mux_priv) (n : notifier) : Prop :=
  match n with
  | NbFib m => m ∈ mx_fibs p
  | _ => flag_has (nb_flag n) p = true
  end.

(** The notifiers started and stopped through a flag: nothing starts the IPv6
    address notifier, and a FIB notifier is known by its namespace. *)
Definition by_flag (n : notifier) : bool :=
  match n with NbInetaddr | NbNetdevice | NbNetevent => true | NbInet6addr | NbFib _ => false end.

(** The kernel holds a notifier block, once, exactly when the driver believes it
    is registered, no namespace has two FIB notifiers, and the flags that nothing
    sets are clear. *)
Record nb_ok (w : world) : Prop := {
  nb_chains_nodup : NoDup (mx_chains (w_priv w));
  nb_chains : forall n, n ∈ mx_chains (w_priv w) <-> nb_active (w_priv w) n;
  nb_fibs_nodup : NoDup (net_addr <$> mx_fibs (w_priv w));
  nb_unset n : by_flag n = false -> flag_has (nb_flag n) (w_priv w) = false;
}.

Lemma nb_frame_flags w w' : nb_frame w w' -> mx_flags (w_priv w') = mx_flags (w_priv w).
Proof. intros F. by apply (f_equal (fun w => mx_flags (w_priv w))) in F. Qed.
Lemma nb_frame_fibs w w' : nb_frame w w' -> mx_fibs (w_priv w') = mx_fibs (w_priv w).
Proof. intros F. by apply (f_equal (fun w => mx_fibs (w_priv w))) in F. Qed.
Lemma nb_frame_devs w w' : nb_frame w w' -> w_devs w' = w_devs w.
Proof. intros F. by apply (f_equal w_devs) in F. Qed.
Lemma nb_frame_active w w' n :
  nb_frame w w' -> nb_active (w_priv w') n <-> nb_active (w_priv w) n.
Proof.
  intros F. unfold nb_active, flag_has. by rewrite (nb_frame_flags _ _ F), (nb_frame_fibs _ _ F).
Qed.

Lemma nb_frame_flag w w' g :
  nb_frame w w' -> flag_has g (w_priv w') = flag_has g (w_priv w).
Proof. intros F. unfold flag_has. by rewrite (nb_frame_flags _ _ F). Qed.

Lemma sb_frame_nb w w' : sb_frame w w' -> nb_frame w w'.
Proof. unfold nb_frame, erase_nb. by intros ->. Qed.
Lemma sb_frame_chains w w' : sb_frame w w' -> mx_chains (w_priv w') = mx_chains (w_priv w).
Proof. intros F. by apply (f_equal (fun w => mx_chains (w_priv w))) in F. Qed.
Lemma nb_ok_sb_frame w w' : sb_frame w w' -> nb_ok w -> nb_ok w'.
Proof.
  intros F []. pose proof (sb_frame_nb _ _ F) as F'.
  split; rewrite ?(sb_frame_chains _ _ F), ?(nb_frame_fibs _ _ F'); try done; intros n.
  - by rewrite (nb_frame_active _ _ _ F').
  - rewrite (nb_frame_flag _ _ _ F'). auto.
Qed.

Lemma NoDup_fmap_filter {A B} (f : A -> B) (P : A -> Prop) `{!forall x, Decision (P x)} l :
  NoDup (f <$> l) -> NoDup (f <$> filter P l).
Proof.
  induction l as [|x l IH]; [done|]. simpl. intros [Hx Hl]%NoDup_cons.
  destruct (decide (P x)); [rewrite filter_cons_True by done|rewrite filter_cons_False by done;
    by apply IH]. simpl. constructor; [|by apply IH].
  intros (y & E & [_ Hy]%list_elem_of_filter)%list_elem_of_fmap. apply Hx.
  rewrite E. by apply list_elem_of_fmap_2.
Qed.

Definition is_fib (n : notifier) : bool := match n with NbFib _ => true | _ => false end.

Lemma by_flag_fib n : by_flag n = true -> is_fib n = false.
Proof. by destruct n. Qed.
Lemma nb_flag_set p n m :
  by_flag n = true -> by_flag m = false ->
  flag_has (nb_flag m) (upd_mx_flags (fun x => Z.setbit x (flag_bit (nb_flag n))) p)
  = flag_has (nb_flag m) p.
Proof.
  intros Hn Hm. etrans; [apply flag_has_set|]. by destruct n, m.
Qed.
Lemma nb_flag_clear p n m :
  by_flag n = true -> by_flag m = false ->
  flag_has (nb_flag m) (upd_mx_flags (fun x => Z.clearbit x (flag_bit (nb_flag n))) p)
  = flag_has (nb_flag m) p.
Proof.
  intros Hn Hm. etrans; [apply flag_has_clear|]. by destruct n, m.
Qed.

Lemma active_set p n m :
  is_fib n = false ->
  nb_active (upd_mx_flags (fun x => Z.setbit x (flag_bit (nb_flag n))) p) m <->
  m = n \/ nb_active p m.
Proof.
  intros Hn. assert (forall g, flag_has g (upd_mx_flags (fun x => Z.setbit x (flag_bit (nb_flag n))) p)
    = bool_decide (nb_flag n = g) || flag_has g p) as E by (intros; apply flag_has_set).
  destruct m; unfold nb_active; rewrite ?E; simpl; rewrite ?orb_true_iff, ?bool_decide_eq_true;
    destruct n; simpl in *; try done; intuition congruence.
Qed.

Lemma active_clear p n m :
  is_fib n = false ->
  nb_active (upd_mx_flags (fun x => Z.clearbit x (flag_bit (nb_flag n))) p) m <->
  m <> n /\ nb_active p m.
Proof.
  intros Hn. assert (forall g, flag_has g (upd_mx_flags (fun x => Z.clearbit x (flag_bit (nb_flag n))) p)
    = negb (bool_decide (nb_flag n = g)) && flag_has g p) as E by (intros; apply flag_has_clear).
  destruct m; unfold nb_active; rewrite ?E; simpl;
    rewrite ?andb_true_iff, ?negb_true_iff, ?bool_decide_eq_false;
    destruct n; simpl in *; try done; intuition congruence.
Qed.

Section invariant.
Context {C : KernelConst} {K : KernelNotify} {KL : KernelNotifyLaws}.

(** What every operation of this file keeps: the invariants, and what is not
    theirs to change. *)
Definition nb_inv (w : world) : Prop := nb_ok w /\ sb_ok w.

Lemma start_preserves n : by_flag n = true -> preserves nb_inv (xeth_nb_start n).
Proof.
  intros Hb w r w' [Hw Hs] E. unfold xeth_nb_start in E. bind_step E. injection E0 as <- <-.
  pose proof (by_flag_fib _ Hb) as Hn.
  destruct (flag_has (nb_flag n) (w_priv w)) eqn:Hf; [by injection E as <- <-|].
  bind_step E. bind_step E. injection E as <- <-.
  apply register_law in E0 as (F & S & Hc & _). destruct (Z.eqb_spec a 0) as [->|Hr].
  - injection E1 as <- <-.
    assert (~ nb_active (w_priv w) n) as Hna by (destruct n; simpl in *; congruence).
    destruct Hw. split; [|by destruct S]. split; simpl.
    + rewrite Hc. constructor; [by rewrite nb_chains0|done].
    + intros m. rewrite Hc, elem_of_cons, nb_chains0, active_set by done.
      by rewrite (nb_frame_active _ _ _ F).
    + by rewrite (nb_frame_fibs _ _ F).
    + intros m Hm. rewrite nb_flag_set, (nb_frame_flag _ _ _ F) by done. auto.
  - injection E1 as <- <-. split; [|by apply S]. destruct Hw.
    split; rewrite ?Hc, ?(nb_frame_fibs _ _ F); try done; intros m.
    + by rewrite (nb_frame_active _ _ _ F).
    + rewrite (nb_frame_flag _ _ _ F). auto.
Qed.

Lemma stop_preserves n w r w' :
  by_flag n = true -> (n = NbNetdevice -> mx_fibs (w_priv w) = []) ->
  nb_inv w -> xeth_nb_stop n w = Some (r, w') ->
  nb_inv w' /\ mx_fibs (w_priv w') = mx_fibs (w_priv w) /\
  forall m, m ∈ mx_chains (w_priv w') <-> m <> n /\ m ∈ mx_chains (w_priv w).
Proof.
  intros Hb Hd [Hw Hs] E. unfold xeth_nb_stop in E. bind_step E. injection E0 as <- <-.
  pose proof (by_flag_fib _ Hb) as Hn.
  destruct (flag_has (nb_flag n) (w_priv w)) eqn:Hf.
  - cbn [when] in E. bind_step E. injection E as <- <-.
    apply unregister_law in E0 as (F & S & Hc & _); [|done]. simpl.
    assert (forall m, m ∈ filter (fun m => m <> n) (mx_chains (w_priv w)) <->
      m <> n /\ m ∈ mx_chains (w_priv w)) as Hm by (intros m; by rewrite list_elem_of_filter).
    rewrite Hc, (nb_frame_fibs _ _ F). split; [|done]. destruct Hw.
    split; [|by destruct S]. split; simpl.
    + rewrite Hc. by apply NoDup_filter.
    + intros m. rewrite Hc, Hm, active_clear, nb_chains0 by done.
      by rewrite (nb_frame_active _ _ _ F).
    + by rewrite (nb_frame_fibs _ _ F).
    + intros m Hu. rewrite nb_flag_clear, (nb_frame_flag _ _ _ F) by done. auto.
  - injection E as <- <-. split; [done|]. split; [done|].
    intros m. split; [|by intros [_ ?]]. intros Hm. split; [|done]. intros ->.
    apply (nb_chains _ Hw) in Hm. destruct n; simpl in *; congruence.
Qed.

Lemma stop_fib_run n w r w' :
  nb_inv w -> stop_fib n w = Some (r, w') ->
  nb_inv w' /\ mx_flags (w_priv w') = mx_flags (w_priv w) /\
  mx_fibs (w_priv w') = filter (fun m => m <> n) (mx_fibs (w_priv w)).
Proof.
  intros [Hw Hs] E. unfold stop_fib in E. bind_step E. injection E as <- <-.
  apply unregister_law in E0 as (F & S & Hc & _); [|done]. simpl.
  rewrite (nb_frame_fibs _ _ F), (nb_frame_flags _ _ F). split; [|done].
  destruct Hw. split; [|by destruct S]. split; simpl.
  - rewrite Hc. by apply NoDup_filter.
  - intros m. rewrite Hc, list_elem_of_filter, nb_chains0.
    destruct m; unfold nb_active, flag_has; simpl;
      rewrite ?(nb_frame_flags _ _ F), ?(nb_frame_fibs _ _ F), ?list_elem_of_filter;
      intuition congruence.
  - rewrite (nb_frame_fibs _ _ F). by apply NoDup_fmap_filter.
  - intros m Hu. etrans; [exact (nb_frame_flag _ _ _ F)|exact (nb_unset0 m Hu)].
Qed.

Lemma start_fib_preserves n : preserves nb_inv (xeth_nb_start_fib n).
Proof.
  intros w r w' [Hw Hs] E. unfold xeth_nb_start_fib in E. bind_step E. injection E0 as <- <-.
  destruct (existsb _ _) eqn:Hx; [by injection E as <- <-|].
  bind_step E. pose proof (steps_sb_kzalloc _ _ _ E0) as F0.
  assert (w_priv s = w_priv w) as Hp.
  { unfold kzalloc_ok in E0. by destruct (w_kmem w); injection E0 as <- <-. }
  assert (nb_ok s) as Hw0 by (by eapply nb_ok_sb_frame).
  assert (sb_ok s) as Hs0 by (by eapply sb_ok_frame_priv).
  destruct a; cbn [negb] in E; [|by injection E as <- <-].
  bind_step E. bind_step E. injection E as <- <-.
  apply register_law in E1 as (F & S & Hc & _).
  assert (forall m, m ∈ mx_fibs (w_priv s) -> net_addr m <> net_addr n) as Hfresh.
  { rewrite Hp. intros m Hm Heq. apply not_true_iff_false in Hx. apply Hx.
    apply existsb_exists. exists m. split; [by apply list_elem_of_In|by apply Z.eqb_eq]. }
  destruct (Z.eqb_spec a 0) as [->|Hr]; injection E2 as <- <-.
  - destruct Hw0. split; [|by destruct S]. split; simpl; rewrite ?(nb_frame_fibs _ _ F).
    + rewrite Hc. constructor; [|done]. rewrite nb_chains0. intros Hin. by apply (Hfresh n Hin).
    + intros m. rewrite Hc, elem_of_cons, nb_chains0.
      destruct m; unfold nb_active, flag_has; simpl; rewrite ?(nb_frame_flags _ _ F),
        ?(nb_frame_fibs _ _ F), ?elem_of_app, ?list_elem_of_singleton; intuition congruence.
    + rewrite fmap_app. apply NoDup_app. split; [done|]. split; [|apply NoDup_singleton].
      intros x (m & -> & Hm)%list_elem_of_fmap [= Heq]%list_elem_of_singleton. by apply (Hfresh m).
    + intros m Hu. etrans; [exact (nb_frame_flag _ _ _ F)|exact (nb_unset0 m Hu)].
  - split; [|by apply S]. destruct Hw0.
    split; rewrite ?Hc, ?(nb_frame_fibs _ _ F); try done; intros m.
    + by rewrite (nb_frame_active _ _ _ F).
    + rewrite (nb_frame_flag _ _ _ F). auto.
Qed.

Lemma start_new_fib_preserves n : preserves nb_inv (xeth_nb_start_new_fib n).
Proof.
  unfold xeth_nb_start_new_fib. destruct fib_notifier_info_with_net; [apply preserves_ret|].
  apply preserves_bind; [apply preserves_gets|]. intros priv.
  destruct (mx_fibs priv); [apply preserves_ret|apply start_fib_preserves].
Qed.

Lemma start_all_fib_preserves : preserves nb_inv xeth_nb_start_all_fib.
Proof.
  assert (forall l, preserves nb_inv (start_new_fibs l)) as Hl.
  { induction l as [|n l IH]; [apply preserves_ret|]. simpl.
    destruct (_ =? init_net); [apply IH|].
    apply preserves_bind; [apply start_new_fib_preserves|]. intros err.
    destruct (err =? 0); [apply IH|apply preserves_ret]. }
  unfold xeth_nb_start_all_fib, the_init_net.
  apply preserves_bind; [by_structure|]. intros n.
  apply preserves_bind; [apply start_fib_preserves|]. intros _.
  apply preserves_bind; [by_structure|]. apply Hl.
Qed.

Lemma stop_net_fib_preserves n : preserves nb_inv (xeth_nb_stop_net_fib n).
Proof.
  unfold xeth_nb_stop_net_fib. apply preserves_bind; [apply preserves_gets|]. intros priv.
  apply preserves_for_each. intros m. apply preserves_when.
  intros w r w' Hw E. by apply stop_fib_run in E as [? _].
Qed.

Lemma stop_net_fib_loop n l w r w' :
  nb_inv w ->
  for_each l (fun m => when (net_addr m =? net_addr n) (stop_fib m)) w = Some (r, w') ->
  nb_inv w' /\ mx_fibs (w_priv w') =
    filter (fun m => ~ (net_addr m = net_addr n /\ m ∈ l)) (mx_fibs (w_priv w)).
Proof.
  revert w. induction l as [|m l IH]; intros w Hw E; cbn [for_each] in E.
  - injection E as <- <-. split; [done|]. symmetry.
    induction (mx_fibs (w_priv w)) as [|x xs IHx]; [done|].
    rewrite filter_cons_True by (intros [_ ?%not_elem_of_nil]; done). by f_equal.
  - bind_step E. destruct (Z.eqb_spec (net_addr m) (net_addr n)) as [Hn|Hn].
    + apply stop_fib_run in E0 as (Hi & _ & Hl); [|done].
      destruct (IH _ Hi E) as (Hi' & Hl'). split; [done|].
      rewrite Hl', Hl, list_filter_filter. apply list_filter_iff. intros x.
      rewrite elem_of_cons. destruct (decide (x = m)) as [->|]; tauto.
    + injection E0 as <- <-. destruct (IH _ Hw E) as (Hi' & Hl'). split; [done|].
      rewrite Hl'. apply list_filter_iff. intros x. rewrite elem_of_cons.
      destruct (decide (x = m)) as [->|]; tauto.
Qed.

Lemma stop_net_fib_run n w r w' :
  nb_inv w -> xeth_nb_stop_net_fib n w = Some (r, w') ->
  nb_inv w' /\ mx_fibs (w_priv w') =
    filter (fun m => net_addr m <> net_addr n) (mx_fibs (w_priv w)).
Proof.
  intros Hw E. unfold xeth_nb_stop_net_fib in E. bind_step E. injection E0 as <- <-.
  destruct (stop_net_fib_loop _ _ _ _ _ Hw E) as [I1 F1]. split; [done|]. rewrite F1.
  apply filter_iff_elem. intros x Hx. tauto.
Qed.

(** Stopping all FIB notifiers leaves none. *)
Lemma stop_all_fib_run w r w' :
  nb_inv w -> xeth_nb_stop_all_fib w = Some (r, w') ->
  nb_inv w' /\ mx_fibs (w_priv w') = [] /\ mx_flags (w_priv w') = mx_flags (w_priv w).
Proof.
  intros Hw E. unfold xeth_nb_stop_all_fib in E. bind_step E. injection E0 as <- <-.
  assert (forall l w w', nb_inv w -> for_each l stop_fib w = Some (r, w') ->
    nb_inv w' /\ mx_flags (w_priv w') = mx_flags (w_priv w) /\
    mx_fibs (w_priv w') = filter (fun m => m ∉ l) (mx_fibs (w_priv w))) as Hind.
  { clear w w' Hw E. induction l as [|n l IH]; intros w w' Hw E; cbn [for_each] in E.
    - injection E as <- <-. split; [done|]. split; [done|]. symmetry.
      induction (mx_fibs (w_priv w)) as [|x xs IHx]; [done|].
      rewrite filter_cons_True by apply not_elem_of_nil. by f_equal.
    - bind_step E. apply stop_fib_run in E0 as (Hi & Hf & Hl); [|done].
      destruct (IH _ _ Hi E) as (Hi' & Hf' & Hl'). split; [done|].
      split; [congruence|]. rewrite Hl', Hl, list_filter_filter.
      apply list_filter_iff. intros x. rewrite elem_of_cons. intuition. }
  destruct (Hind _ _ _ Hw E) as (Hi & Hf & Hl). split; [done|]. split; [|done].
  rewrite Hl. destruct (filter _ _) as [|x xs] eqn:Ef; [done|exfalso].
  assert (x ∈ x :: xs) as Hx by left. rewrite <- Ef in Hx.
  by apply list_elem_of_filter in Hx as [? ?].
Qed.

(** The order in which the end of a connection stops the notifiers. *)
Definition stop_notifiers : M world unit :=
  xeth_nb_stop_netevent ≫= fun _ =>
  xeth_nb_stop_all_fib ≫= fun _ =>
  xeth_nb_stop_inetaddr ≫= fun _ =>
  xeth_nb_stop_netdevice.

Lemma stop_notifiers_run w r w' :
  nb_inv w -> stop_notifiers w = Some (r, w') ->
  nb_inv w' /\ mx_fibs (w_priv w') = [] /\ mx_chains (w_priv w') = [] /\
  forall n, flag_has (nb_flag n) (w_priv w') = false.
Proof.
  intros Hw E. unfold stop_notifiers in E. bind_step E. bind_step E. bind_step E.
  destruct (stop_preserves NbNetevent _ _ _ eq_refl ltac:(done) Hw E0) as (I1 & L1 & C1).
  destruct (stop_all_fib_run _ _ _ I1 E1) as (I2 & L2 & F2).
  destruct (stop_preserves NbInetaddr _ _ _ eq_refl ltac:(done) I2 E2) as (I3 & L3 & C3).
  assert (mx_fibs (w_priv s1) = []) as L3' by congruence.
  destruct (stop_preserves NbNetdevice _ _ _ eq_refl ltac:(done) I3 E) as (I4 & L4 & C4).
  assert (NbNetevent ∉ mx_chains (w_priv s0)) as Hne.
  { rewrite (nb_chains _ (proj1 I2)). unfold nb_active, flag_has. rewrite F2.
    change (~ nb_active (w_priv s) NbNetevent). rewrite <- (nb_chains _ (proj1 I1)), C1. tauto. }
  assert (forall n, n ∉ mx_chains (w_priv w')) as Hc.
  { intros n. destruct (by_flag n) eqn:Hb; [rewrite C4, C3; by destruct n; try tauto; intros [_ [? _]]|].
    rewrite (nb_chains _ (proj1 I4)). pose proof (nb_unset _ (proj1 I4) n Hb).
    destruct n; unfold nb_active; [simpl in *; congruence..|].
    rewrite L4, L3, L2. apply not_elem_of_nil. }
  split; [done|]. split; [congruence|].
  split; [by apply elem_of_nil_inv|]. intros n.
  destruct (by_flag n) eqn:Hb; [|by apply (nb_unset _ (proj1 I4))].
  apply not_true_is_false. intros Hf. apply (Hc n), (nb_chains _ (proj1 I4)). by destruct n.
Qed.

(** ** Operations on the notifiers, as the driver issues them *)

Inductive nb_op :=
| NbStartInetaddr | NbStartNetdevice | NbStartNetevent
| NbStartFib (n : net) | NbStartNewFib (n : net) | NbStartAllFib
| NbStopNetFib (n : net) | NbEnd.

Definition run_nb (o : nb_op) : M world unit :=
  match o with
  | NbStartInetaddr => ignore xeth_nb_start_inetaddr
  | NbStartNetdevice => ignore xeth_nb_start_netdevice
  | NbStartNetevent => ignore xeth_nb_start_netevent
  | NbStartFib n => ignore (xeth_nb_start_fib n)
  | NbStartNewFib n => ignore (xeth_nb_start_new_fib n)
  | NbStartAllFib => ignore xeth_nb_start_all_fib
  | NbStopNetFib n => xeth_nb_stop_net_fib n
  | NbEnd => stop_notifiers
  end.

Lemma preserves_ignore {A} (I : world -> Prop) (c : M world A) :
  preserves I c -> preserves I (ignore c).
Proof. intros. apply preserves_bind; [done|]. intros. apply preserves_ret. Qed.

Lemma run_nb_preserves o : preserves nb_inv (run_nb o).
Proof.
  destruct o; simpl; try apply preserves_ignore; try (by apply start_preserves).
  - apply start_fib_preserves.
  - apply start_new_fib_preserves.
  - apply start_all_fib_preserves.
  - apply stop_net_fib_preserves.
  - intros w r w' Hw E. by apply stop_notifiers_run in E as [? _].
Qed.

(** C12: Whatever sequence of notifier operations the mux issues, in whatever
    order: starts, namespaces coming and going, connections ended and begun
    again; and whatever the kernel answers to the registrations: the kernel holds
    each notifier block once, and exactly while the driver believes it is
    registered.  The end of a connection leaves no notifier of the mux in any
    chain of the kernel, no FIB notifier listed and no notifier flag set, so that
    the next connection can start them all again.  (The IPv6 address notifier is
    none of the operations, as no code starts it.) *)
Theorem notifiers_stopped w os u w1 r w2 :
  nb_ok w -> sb_ok w ->
  for_each os run_nb w = Some (u, w1) -> stop_notifiers w1 = Some (r, w2) ->
  nb_ok w1 /\ mx_fibs (w_priv w2) = [] /\ mx_chains (w_priv w2) = [] /\
  forall n, flag_has (nb_flag n) (w_priv w2) = false.
Proof.
  intros Hn Hs E1 E2.
  assert (nb_inv w1) as Hi.
  { eapply (preserves_for_each nb_inv os run_nb); [apply run_nb_preserves|by split|exact E1]. }
  destruct (stop_notifiers_run _ _ _ Hi E2) as (_ & ?). by destruct Hi.
Qed.
End invariant.

(** ** Events *)

Section events.
Context {C : KernelConst} {K : KernelNotify} {KL : KernelNotifyLaws}.
Context {H : KernelHash} {HL : KernelHashLaws}.

Definition is_own (w : world) (px : xeth_proxy) : bool :=
  negb (px_xid px =? 0) && bool_decide (px_mux px = Some (w_mux w)).

(** The registered proxy a device event is for. *)
Definition event_proxy (w : world) (l : list Z) (nd : Z) : option xeth_proxy :=
  if bool_decide (nd ∈ l) then
    px ← proxy_at w nd; if is_own w px then Some px else None
  else None.

Lemma own_proxy_run w l nd :
  registry_rep w l -> own_proxy nd w = Some (event_proxy w l nd, w).
Proof.
  intros R. unfold own_proxy, event_proxy.
  rewrite bind_run, (proxy_of_nd_run _ _ _ R). case_bool_decide as Hin; [|done].
  destruct (rep_proxy _ _ _ R Hin) as (px & mux & Hpx & _).
  rewrite bind_run, (netdev_priv_run _ _ _ Hpx), Hpx. done.
Qed.

(** A change of an IPv4 address is reported with the event and the XID of
    the device if, and only if, the device is a registered proxy of this mux
    with an XID. *)
Theorem inetaddr_message w l event ifa nd :
  registry_rep w l ->
  delivers w (xeth_nb_inetaddr event ifa (Some nd))
    (match event_proxy w l nd with
     | Some px => [msg_bytes XETH_MSG_KIND_IFA
         {| ifa_xid := px_xid px; ifa_event := event; ifa_address := in_address ifa;
            ifa_mask := in_mask ifa |}]
     | None => []
     end).
Proof.
  intros R. unfold xeth_nb_inetaddr.
  eapply delivers_run; [by apply own_proxy_run|].
  destruct (event_proxy w l nd); [one_msg|apply delivers_ret].
Qed.

(** A change of an IPv6 address likewise. *)
Theorem inet6addr_message w l event ifa6 nd :
  registry_rep w l ->
  delivers w (xeth_nb_inet6addr event ifa6 (Some nd))
    (match event_proxy w l nd with
     | Some px => [msg_bytes XETH_MSG_KIND_IFA6
         {| ifa6_xid := px_xid px; ifa6_event := event; ifa6_address := in6_addr ifa6;
            ifa6_length := in6_prefix_len ifa6; ifa6_pad := zeros 7 |}]
     | None => []
     end).
Proof.
  intros R. unfold xeth_nb_inet6addr.
  eapply delivers_run; [by apply own_proxy_run|].
  destruct (event_proxy w l nd); [one_msg|apply delivers_ret].
Qed.

(** The coming of a loopback device reports its namespace, 1 for the initial
    one; its going stops the FIB notifier of that namespace, if there is one,
    keeping all others, and reports it. *)
Theorem netns_events w nd d :
  w_devs w !! nd = Some d -> nd_ifindex d = 1 -> nb_inv w ->
  delivers w (xeth_nb_netdevice NETDEV_REGISTER nd)
    [msg_bytes XETH_MSG_KIND_NETNS_ADD {| ns_net := net_number (nd_net d) |}] /\
  forall u w', xeth_nb_netdevice NETDEV_UNREGISTER nd w = Some (u, w') ->
    nb_inv w' /\ mx_fibs (w_priv w') =
      filter (fun m => net_addr m <> net_addr (nd_net d)) (mx_fibs (w_priv w)).
Proof.
  intros Ed Hi Hinv. unfold xeth_nb_netdevice. split.
  - eapply delivers_dev; [exact Ed|]. rewrite Hi. cbn [Z.eqb Pos.eqb NETDEV_REGISTER].
    unfold xeth_sbtx_netns. apply delivers_ignore. apply sbtx_msg_delivers.
  - intros u w' E. bind_step E. apply dev_inv in E0 as [-> E0]. rewrite Ed in E0.
    injection E0 as <-. rewrite Hi in E. simpl in E. bind_step E.
    destruct (stop_net_fib_run _ _ _ _ Hinv E0) as [I1 F1].
    destruct (sb_safe_ignore _ (sb_safe_netns _ _) _ _ _ (proj2 I1) E) as (S & F).
    split; [split; [by eapply nb_ok_sb_frame; [|apply I1]|done]|].
    by rewrite (nb_frame_fibs _ _ (sb_frame_nb _ _ F)).
Qed.
End events.

(** ** Witnesses *)

Lemma nb_ok_fresh w :
  mx_chains (w_priv w) = [] -> mx_fibs (w_priv w) = [] -> mx_flags (w_priv w) = 4 -> nb_ok w.
Proof.
  intros Hc Hf Hg. split; rewrite ?Hc, ?Hf; try constructor.
  - by intros ?%not_elem_of_nil.
  - destruct n; unfold nb_active, flag_has; rewrite ?Hf, ?Hg, ?elem_of_nil; done.
  - intros n _. unfold flag_has. rewrite Hg. by destruct n.
Qed.
Lemma demo_full_nb : nb_ok demo_full.
Proof. apply nb_ok_fresh; vm_compute; reflexivity. Qed.

Definition demo_nb_ops : list nb_op :=
  [NbStartNetdevice; NbStartInetaddr; NbEnd; NbStartNetdevice; NbStartInetaddr; NbStartAllFib;
   NbStartNetevent; NbStartNetevent].

(** The state a program ends in. *)
Definition ends {A} (c : M world A) (w : world) : world := from_option snd w (c w).

Definition demo_started : world :=
  ends (for_each demo_nb_ops (run_nb (C:=demo_const) (K:=plain_notify))) demo_full.
Definition demo_stopped : world := ends (stop_notifiers (K:=plain_notify)) demo_started.

Lemma demo_started_run :
  for_each demo_nb_ops (run_nb (C:=demo_const) (K:=plain_notify)) demo_full = Some (tt, demo_started).
Proof. vm_compute. reflexivity. Qed.
Lemma demo_stopped_run : stop_notifiers (K:=plain_notify) demo_started = Some (tt, demo_stopped).
Proof. vm_compute. reflexivity. Qed.

Lemma notifiers_stopped_witness :
  length (mx_chains (w_priv demo_started)) = 4%nat /\ mx_fibs (w_priv demo_stopped) = [] /\
  mx_chains (w_priv demo_stopped) = [] /\
  flag_has xeth_mux_flag_netevent_notifier (w_priv demo_started) = true /\
  flag_has xeth_mux_flag_netevent_notifier (w_priv demo_stopped) = false.
Proof.
  destruct (notifiers_stopped (C:=demo_const) (K:=plain_notify) (KL:=plain_notify_laws)
    demo_full demo_nb_ops tt demo_started tt demo_stopped demo_full_nb demo_full_ok
    demo_started_run demo_stopped_run) as (_ & F & N & G).
  split; [vm_compute; reflexivity|]. split; [exact F|]. split; [exact N|].
  split; [vm_compute; reflexivity|exact (G NbNetevent)].
Defined.

Lemma inetaddr_message_witness :
  exists w', xeth_nb_inetaddr NETDEV_UP {| in_address := 1; in_mask := 255 |}
      (Some 2) demo_full = Some (tt, w') /\ length (queued w') = 1%nat.
Proof.
  destruct (inetaddr_message (H:=golden_hash) (HL:=golden_hash_laws) demo_full _ NETDEV_UP
    {| in_address := 1; in_mask := 255 |} 2 demo_full_rep) as ([] & w' & E & M).
  - exact demo_full_ok.
  - vm_compute. lia.
  - exists w'. split; [exact E|]. rewrite (emits_queued _ _ _ M). vm_compute. reflexivity.
Defined.

Lemma netns_events_witness :
  exists w', xeth_nb_netdevice (C:=demo_const) (K:=plain_notify) NETDEV_REGISTER 1 demo_full
      = Some (tt, w') /\ queued w' = [msg_bytes XETH_MSG_KIND_NETNS_ADD {| ns_net := 1 |}].
Proof.
  destruct (netns_events (C:=demo_const) (K:=plain_notify) (KL:=plain_notify_laws) demo_full 1
    (demo_dev 1 NdoPort None (Some (demo_proxy XETH_DEV_KIND_PORT 3999 (demo_port 0))))
    eq_refl eq_refl (conj demo_full_nb demo_full_ok)) as [D _].
  destruct D as ([] & w' & E & M).
  - exact demo_full_ok.
  - vm_compute. lia.
  - exists w'. split; [exact E|]. rewrite (emits_queued _ _ _ M). vm_compute. reflexivity.
Defined.
