(* ===== verification/Sbrx.v ===== *)
(** * Side-band messages to the mux (dkms/xeth_sbrx.c)

    The dispatch of a message the daemon sent.  The driver reads it in place, in
    the receive buffer of the mux: [v] is the whole buffer and [n] the number of
    bytes received at its start, so a message shorter than its kind is read on
    into what an earlier message left there. *)

From stdpp Require Import base numbers list gmap.
From Stdlib Require Import ZArith Lia.
From S2P Require Import Prelude Bytes Monad Uapi State Stats Kernel.
From S2P Require Import Demo Registry Sbq Sbtx Proxy Carrier Nb.

Local Open Scope Z_scope.

(** ** Operations *)

Section sbrx.
Context {C : KernelConst} {K : KernelNotify} {H : KernelHash}.

Definition xeth_sbrx_is_msg (h : xeth_msg_header) : bool :=
  (mh_z64 h =? 0) && (mh_z32 h =? 0) && (mh_z16 h =? 0).

(** The registered proxy with the XID, if it is a port. *)
Definition port_of_xid (xid : Z) : M world (option Z) :=
  proxy ← xeth_mux_proxy_of_xid xid;
  match proxy with
  | None => mret None
  | Some p =>
      px ← netdev_priv p;
      mret (if bool_decide (px_kind px = XETH_DEV_KIND_PORT) then Some p else None)
  end.

Definition xeth_sbrx_carrier (msg : xeth_msg_carrier) : M world unit :=
  proxy ← port_of_xid (carrier_xid msg);
  match proxy with
  | Some p => xeth_mux_change_carrier p (carrier_flag msg =? XETH_CARRIER_ON)
  | None => xeth_mux_inc xeth_mux_counter_sbrx_invalid
  end.

Definition xeth_sbrx_et_stat (msg : xeth_msg_stat) : M world unit :=
  proxy ← port_of_xid (st_xid msg);
  match proxy with
  | Some p => xeth_port_ethtool_stat p (st_index msg) (st_count msg)
  | None => mret tt
  end.

(** The proxy is not tested for NULL. *)
Definition xeth_sbrx_link_stat (msg : xeth_msg_stat) : M world unit :=
  proxy ← xeth_mux_proxy_of_xid (st_xid msg);
  p ← deref proxy;
  xeth_proxy_link_stat p (st_index msg) (st_count msg).

Definition xeth_sbrx_speed (msg : xeth_msg_speed) : M world unit :=
  proxy ← port_of_xid (sp_xid msg);
  match proxy with
  | Some p => xeth_port_speed p (sp_mbps msg)
  | None => mret tt
  end.

Definition xeth_sbrx_msg (v : list Z) (n : Z) : M world Z :=
  h ← deref (header_at v);
  if (n <? Z.of_nat sizeof_header) || negb (xeth_sbrx_is_msg h) then mret (- EINVAL) else
  if negb (mh_version h =? XETH_MSG_VERSION) then mret (- EINVAL) else
  match xeth_msg_kind_of (mh_kind h) with
  | Some XETH_MSG_KIND_DUMP_IFINFO =>
      xeth_mux_dump_all_ifinfo ≫= fun _ =>
      ignore xeth_sbtx_break ≫= fun _ =>
      ignore xeth_nb_start_netdevice ≫= fun _ =>
      ignore xeth_nb_start_inetaddr ≫= fun _ => mret 0
  | Some XETH_MSG_KIND_DUMP_FIBINFO =>
      ignore xeth_nb_start_all_fib ≫= fun _ =>
      ignore xeth_sbtx_break ≫= fun _ =>
      ignore xeth_nb_start_netevent ≫= fun _ => mret 0
  | Some XETH_MSG_KIND_CARRIER =>
      m ← deref (msg_body xeth_msg_carrier v); xeth_sbrx_carrier m ≫= fun _ => mret 0
  | Some XETH_MSG_KIND_ETHTOOL_STAT =>
      m ← deref (msg_body xeth_msg_stat v); xeth_sbrx_et_stat m ≫= fun _ => mret 0
  | Some XETH_MSG_KIND_LINK_STAT =>
      m ← deref (msg_body xeth_msg_stat v); xeth_sbrx_link_stat m ≫= fun _ => mret 0
  | Some XETH_MSG_KIND_SPEED =>
      m ← deref (msg_body xeth_msg_speed v); xeth_sbrx_speed m ≫= fun _ => mret 0
  | _ => xeth_mux_inc xeth_mux_counter_sbrx_invalid ≫= fun _ => mret (- EINVAL)
  end.

(** The kinds of message the driver takes from the daemon. *)
Definition rx_kind (k : xeth_msg_kind) : bool :=
  match k with
  | XETH_MSG_KIND_DUMP_IFINFO | XETH_MSG_KIND_DUMP_FIBINFO | XETH_MSG_KIND_CARRIER
  | XETH_MSG_KIND_ETHTOOL_STAT | XETH_MSG_KIND_LINK_STAT | XETH_MSG_KIND_SPEED => true
  | _ => false
  end.

(** ** What a message may change *)

(** The registry and what identifies the proxies are the same. *)
Record reg_frame (w w' : world) : Prop := {
  rf_hls : mx_hls (w_priv w') = mx_hls (w_priv w);
  rf_ports : mx_ports (w_priv w') = mx_ports (w_priv w);
  rf_vlans : mx_vlans (w_priv w') = mx_vlans (w_priv w);
  rf_bridges : mx_bridges (w_priv w') = mx_bridges (w_priv w);
  rf_lags : mx_lags (w_priv w') = mx_lags (w_priv w);
  rf_lbs : mx_lbs (w_priv w') = mx_lbs (w_priv w);
  rf_ids p : xid_of w' p = xid_of w p /\ kind_of w' p = kind_of w p /\
             registrable w' p = registrable w p;
}.
#[export] Instance reg_frame_preorder : PreOrder reg_frame.
Proof.
  split; [by split|]. intros w1 w2 w3 [] []. split; try congruence.
  intros p. destruct (rf_ids0 p) as (?&?&?), (rf_ids1 p) as (?&?&?). split; [congruence|].
  split; congruence.
Qed.

Lemma reg_frame_rep w w' l : reg_frame w w' -> registry_rep w l -> registry_rep w' l.
Proof. intros []. by apply registry_rep_frame. Qed.

Lemma reg_frame_sb w w' : sb_frame w w' -> reg_frame w w'.
Proof.
  intros F. split;
    try (match goal with |- ?f (w_priv w') = _ =>
      by apply (f_equal (fun w => f (w_priv w))) in F end).
  intros p. unfold xid_of, kind_of, registrable. by rewrite (sb_frame_proxy_at _ _ _ F).
Qed.

Lemma reg_frame_nb w w' : nb_frame w w' -> reg_frame w w'.
Proof.
  intros F. split;
    try (match goal with |- ?f (w_priv w') = _ =>
      by apply (f_equal (fun w => f (w_priv w))) in F end).
  intros p. unfold xid_of, kind_of, registrable, proxy_at. by rewrite (nb_frame_devs _ _ F).
Qed.

(** The invariants of the driver, with the registered proxies. *)
Definition inv (l : list Z) (w : world) : Prop := nb_inv w /\ registry_rep w l.

Lemma inv_sb_safe l {A} (c : M world A) : sb_safe c -> preserves (inv l) c.
Proof.
  intros Hc w r w' [[Hn Hs] R] E. destruct (Hc _ _ _ Hs E) as [Hs' F].
  split; [split; [by eapply nb_ok_sb_frame|done]|]. by eapply reg_frame_rep; [apply reg_frame_sb|].
Qed.

(** A change of devices that keeps what identifies the proxies. *)
Lemma inv_devs l w m :
  inv l w ->
  (forall p, xid_of (upd_w_devs (fun _ => m) w) p = xid_of w p /\
     kind_of (upd_w_devs (fun _ => m) w) p = kind_of w p /\
     registrable (upd_w_devs (fun _ => m) w) p = registrable w p) ->
  inv l (upd_w_devs (fun _ => m) w).
Proof.
  intros [[[] []] R] Hid. split; [by split|]. eapply reg_frame_rep; [|exact R]. by split.
Qed.

Lemma inv_mod_dev l p f :
  (forall d, nd_proxy (f d) = nd_proxy d) -> preserves (inv l) (mod_dev p f).
Proof.
  intros Hf w r w' Hw E. unfold mod_dev in E. bind_step E.
  apply dev_inv in E0 as [-> Ed]. injection E as <- <-.
  apply (inv_devs l w (<[p := f a]> (w_devs w)) Hw). intros q.
  unfold xid_of, kind_of, registrable, proxy_at. simpl. destruct (decide (q = p)) as [->|Hq].
  - rewrite lookup_insert_eq, Ed. simpl. by rewrite Hf.
  - by rewrite lookup_insert_ne.
Qed.

Lemma inv_mod_proxy l p f :
  (forall px, px_xid (f px) = px_xid px /\ px_kind (f px) = px_kind px /\ px_mux (f px) = px_mux px) ->
  preserves (inv l) (mod_proxy p f).
Proof.
  intros Hf w r w' Hw E. unfold mod_proxy in E. bind_step E.
  apply netdev_priv_inv in E0 as [-> Hp]. unfold mod_dev in E. bind_step E.
  apply dev_inv in E0 as [-> Ed]. injection E as <- <-.
  apply (inv_devs l w (<[p := upd_nd_proxy (fun _ => Some (f a)) a0]> (w_devs w)) Hw). intros q.
  destruct (Hf a) as (Hx & Hk & Hm).
  unfold xid_of, kind_of, registrable, proxy_at in *. simpl. destruct (decide (q = p)) as [->|Hq].
  - rewrite lookup_insert_eq, Hp. simpl. by rewrite Hx, Hk, Hm.
  - by rewrite lookup_insert_ne.
Qed.

Context {KL : KernelNotifyLaws}.

(** The notifier operations do not touch the registry. *)
Lemma steps_reg_register n : steps reg_frame (register_nb n).
Proof. intros w r w' (F & _)%register_law. by apply reg_frame_nb. Qed.
Lemma steps_reg_mod f :
  (forall p, mx_hls (f p) = mx_hls p /\ mx_ports (f p) = mx_ports p /\ mx_vlans (f p) = mx_vlans p /\
     mx_bridges (f p) = mx_bridges p /\ mx_lags (f p) = mx_lags p /\ mx_lbs (f p) = mx_lbs p) ->
  steps reg_frame (mod_mux f).
Proof.
  intros Hf. apply steps_modify. intros w. destruct (Hf (w_priv w)) as (?&?&?&?&?&?).
  by split.
Qed.
Lemma steps_reg_kzalloc : steps reg_frame kzalloc_ok.
Proof. intros w r w' E%steps_sb_kzalloc. by apply reg_frame_sb. Qed.
Hint Resolve steps_reg_register steps_reg_kzalloc : steps.
Hint Extern 1 (steps reg_frame (mod_mux _)) => apply steps_reg_mod; done : steps.
Hint Extern 1 (steps reg_frame (xeth_mux_set _)) => apply steps_reg_mod; done : steps.
Hint Extern 1 (steps reg_frame (xeth_mux_has _)) => apply steps_gets; exact _ : steps.
Hint Extern 1 (steps reg_frame get_mux) => apply steps_gets; exact _ : steps.

Lemma steps_reg_start n : steps reg_frame (xeth_nb_start n).
Proof. unfold xeth_nb_start. by_structure. Qed.
Lemma steps_reg_start_fib n : steps reg_frame (xeth_nb_start_fib n).
Proof. unfold xeth_nb_start_fib. by_structure. Qed.
Hint Resolve steps_reg_start_fib : steps.
Lemma steps_reg_start_new_fib n : steps reg_frame (xeth_nb_start_new_fib n).
Proof. unfold xeth_nb_start_new_fib. by_structure. Qed.
Hint Resolve steps_reg_start_new_fib : steps.
Lemma steps_reg_start_all_fib : steps reg_frame xeth_nb_start_all_fib.
Proof.
  assert (forall l, steps reg_frame (start_new_fibs l)).
  { induction l; simpl; by_structure; done. }
  unfold xeth_nb_start_all_fib, the_init_net. by_structure; done.
Qed.

Lemma inv_steps l {A} (c : M world A) :
  preserves nb_inv c -> steps reg_frame c -> preserves (inv l) c.
Proof.
  intros Hp Hs w r w' [Hn R] E. split; [by eapply Hp|]. eapply reg_frame_rep; [by eapply Hs|done].
Qed.

Lemma inv_start l n : by_flag n = true -> preserves (inv l) (xeth_nb_start n).
Proof. intros. apply inv_steps; [by apply start_preserves|apply steps_reg_start]. Qed.
Lemma inv_start_all_fib l : preserves (inv l) xeth_nb_start_all_fib.
Proof. apply inv_steps; [apply start_all_fib_preserves|apply steps_reg_start_all_fib]. Qed.

Lemma inv_counter l c n :
  c <> xeth_mux_counter_sbtx_free -> c <> xeth_mux_counter_sbtx_queued ->
  preserves (inv l) (xeth_mux_add c n).
Proof. intros. apply inv_sb_safe. by apply sb_safe_counter. Qed.

Lemma inv_set_carrier l on p : preserves (inv l) (set_carrier on p).
Proof. destruct on; by apply inv_mod_dev. Qed.
Hint Resolve inv_set_carrier : preserves.
Hint Extern 1 (preserves (inv _) get_mux) => apply preserves_gets : preserves.
Hint Extern 1 (preserves (inv _) (xeth_mux_inc _)) => apply inv_counter; discriminate : preserves.
Hint Extern 1 (preserves (inv _) (mod_proxy _ _)) => apply inv_mod_proxy; done : preserves.

Lemma inv_change_carrier l p on : preserves (inv l) (xeth_mux_change_carrier p on).
Proof. unfold xeth_mux_change_carrier, xeth_vlan_has_link. by_structure. Qed.
Lemma inv_port_speed l p x : preserves (inv l) (xeth_port_speed p x).
Proof. unfold xeth_port_speed, mod_port, port_priv. by_structure. Qed.
Lemma inv_ethtool_stat l p i c : preserves (inv l) (xeth_port_ethtool_stat p i c).
Proof.
  unfold xeth_port_ethtool_stat, mod_ext, mod_port, port_ext, port_priv. by_structure.
Qed.
Lemma inv_link_stat l p i c : preserves (inv l) (xeth_proxy_link_stat p i c).
Proof. unfold xeth_proxy_link_stat. by_structure. Qed.
Lemma inv_proxy_of_xid l xid : preserves (inv l) (xeth_mux_proxy_of_xid xid).
Proof. unfold xeth_mux_proxy_of_xid. by_structure. Qed.
Hint Resolve inv_change_carrier inv_port_speed inv_ethtool_stat inv_link_stat inv_proxy_of_xid
  : preserves.

(** The dump sends, and does nothing else. *)
Lemma sb_safe_dump_ifinfo p : sb_safe (xeth_proxy_dump_ifinfo p).
Proof.
  unfold xeth_proxy_dump_ifinfo, xeth_port_ethtool_ksettings, xeth_port_ethtool_priv_flags,
    port_priv, port_ext, xeth_proxy_dump_ifa, xeth_proxy_dump_ifa6.
  sb_safe.
Qed.
Hint Resolve sb_safe_dump_ifinfo : sb_safe.
Lemma sb_safe_dump_all : sb_safe xeth_mux_dump_all_ifinfo.
Proof. unfold xeth_mux_dump_all_ifinfo, get_mux. sb_safe. Qed.

Lemma inv_sbrx l v n : preserves (inv l) (xeth_sbrx_msg v n).
Proof.
  assert (preserves (inv l) (ignore xeth_sbtx_break)) as Hbreak
    by (apply inv_sb_safe; auto with sb_safe).
  assert (preserves (inv l) xeth_mux_dump_all_ifinfo) as Hdump
    by (apply inv_sb_safe, sb_safe_dump_all).
  assert (forall n, by_flag n = true -> preserves (inv l) (ignore (xeth_nb_start n))) as Hstart
    by (intros; by apply preserves_ignore, inv_start).
  assert (preserves (inv l) (ignore xeth_nb_start_all_fib)) as Hfib
    by (apply preserves_ignore, inv_start_all_fib).
  unfold xeth_sbrx_msg, xeth_sbrx_carrier, xeth_sbrx_et_stat, xeth_sbrx_link_stat,
    xeth_sbrx_speed, port_of_xid, xeth_nb_start_netdevice, xeth_nb_start_inetaddr,
    xeth_nb_start_netevent.
  by_structure; try done; by apply Hstart.
Qed.

(** C4: No message the daemon can send, whatever its bytes and its length, can
    break the driver's invariants: the buffers and their counters, the match of
    registered notifiers and the driver's record of them, and the registry. *)
Theorem sbrx_preserves l v n : preserves (inv l) (xeth_sbrx_msg v n).
Proof. apply inv_sbrx. Qed.


(** ** What each message does *)

Context {HL : KernelHashLaws}.

(** C29: The driver refuses, with -EINVAL, exactly the messages that are too
    short for a header, carry data where a header has zeros, are of another
    version, or are not of a kind it takes; it changes nothing on refusal but,
    for a wrong kind, the counter of invalid messages. *)
Theorem sbrx_refusals v n h w :
  header_at v = Some h ->
  (n < Z.of_nat sizeof_header \/ xeth_sbrx_is_msg h = false \/ mh_version h <> XETH_MSG_VERSION ->
    xeth_sbrx_msg v n w = Some (- EINVAL, w)) /\
  (Z.of_nat sizeof_header <= n -> xeth_sbrx_is_msg h = true -> mh_version h = XETH_MSG_VERSION ->
    from_option rx_kind false (xeth_msg_kind_of (mh_kind h)) = false ->
    xeth_sbrx_msg v n w =
      Some (- EINVAL, upd_w_priv (counter_add xeth_mux_counter_sbrx_invalid 1) w)) /\
  (forall r w', xeth_sbrx_msg v n w = Some (r, w') ->
    Z.of_nat sizeof_header <= n -> xeth_sbrx_is_msg h = true -> mh_version h = XETH_MSG_VERSION ->
    from_option rx_kind false (xeth_msg_kind_of (mh_kind h)) = true -> r = 0).
Proof.
  intros Hh. unfold xeth_sbrx_msg. rewrite bind_run, Hh. cbn [deref mret M_ret]. split; [|split].
  - intros Hbad. destruct (Z.ltb_spec n (Z.of_nat sizeof_header)); [done|].
    destruct (xeth_sbrx_is_msg h); [|done]. cbn [orb negb].
    destruct (Z.eqb_spec (mh_version h) XETH_MSG_VERSION); [|done].
    destruct Hbad as [?|[?|?]]; [lia|done|done].
  - intros Hn Hm Hv Hk. rewrite Hm, Hv. destruct (Z.ltb_spec n (Z.of_nat sizeof_header)); [lia|].
    cbn. by destruct (xeth_msg_kind_of (mh_kind h)) as [[]|].
  - intros r w' E Hn Hm Hv Hk. rewrite Hm, Hv in E.
    destruct (Z.ltb_spec n (Z.of_nat sizeof_header)); [lia|]. cbn [orb negb] in E.
    rewrite Z.eqb_refl in E. cbn [negb] in E.
    destruct (xeth_msg_kind_of (mh_kind h)) as [[]|]; try done;
      repeat (apply bind_inv in E as (? & ? & _ & E)); by injection E as <- _.
Qed.

(** The message a daemon builds, at the start of the buffer. *)
Lemma sbrx_at {A} `{!Wire A, !WireLaws A} kind (a : A) rest n w :
  Z.of_nat sizeof_header <= n ->
  xeth_sbrx_msg (msg_bytes kind a ++ rest) n w =
    (match kind with
     | XETH_MSG_KIND_DUMP_IFINFO =>
         xeth_mux_dump_all_ifinfo ≫= fun _ =>
         ignore xeth_sbtx_break ≫= fun _ =>
         ignore xeth_nb_start_netdevice ≫= fun _ =>
         ignore xeth_nb_start_inetaddr ≫= fun _ => mret 0
     | XETH_MSG_KIND_DUMP_FIBINFO =>
         ignore xeth_nb_start_all_fib ≫= fun _ =>
         ignore xeth_sbtx_break ≫= fun _ =>
         ignore xeth_nb_start_netevent ≫= fun _ => mret 0
     | XETH_MSG_KIND_CARRIER =>
         m ← deref (msg_body xeth_msg_carrier (msg_bytes kind a ++ rest));
         xeth_sbrx_carrier m ≫= fun _ => mret 0
     | XETH_MSG_KIND_ETHTOOL_STAT =>
         m ← deref (msg_body xeth_msg_stat (msg_bytes kind a ++ rest));
         xeth_sbrx_et_stat m ≫= fun _ => mret 0
     | XETH_MSG_KIND_LINK_STAT =>
         m ← deref (msg_body xeth_msg_stat (msg_bytes kind a ++ rest));
         xeth_sbrx_link_stat m ≫= fun _ => mret 0
     | XETH_MSG_KIND_SPEED =>
         m ← deref (msg_body xeth_msg_speed (msg_bytes kind a ++ rest));
         xeth_sbrx_speed m ≫= fun _ => mret 0
     | _ => xeth_mux_inc xeth_mux_counter_sbrx_invalid ≫= fun _ => mret (- EINVAL)
     end) w.
Proof.
  intros Hn. unfold xeth_sbrx_msg.
  rewrite bind_run, header_at_msg_bytes. cbn [deref mret M_ret].
  destruct (Z.ltb_spec n (Z.of_nat sizeof_header)); [lia|].
  change (xeth_sbrx_is_msg (xeth_msg_init kind)) with true.
  change (mh_version (xeth_msg_init kind) =? XETH_MSG_VERSION) with true. cbn [orb negb].
  change (mh_kind (xeth_msg_init kind)) with (xeth_msg_kind_val kind).
  rewrite xeth_msg_kind_of_val. by destruct kind.
Qed.

Lemma port_of_xid_run w l xid :
  registry_rep w l ->
  port_of_xid xid w = Some (p ← spec_of_xid w l xid;
    if bool_decide (kind_of w p = Some XETH_DEV_KIND_PORT) then Some p else None, w).
Proof.
  intros R. unfold port_of_xid. rewrite bind_run, (proxy_of_xid_run _ _ _ R).
  destruct (spec_of_xid w l xid) as [p|] eqn:E; [|done]. unfold spec_of_xid in E.
  assert (p ∈ l) as Hp.
  { apply head_Some in E as [? E].
    assert (p ∈ filter (fun q => xid_of w q = Some xid) l) as Hin by (rewrite E; left).
    by apply list_elem_of_filter in Hin as [_ ?]. }
  destruct (rep_proxy _ _ _ R Hp) as (px & mux & Hpx & _).
  rewrite bind_run, (netdev_priv_run _ _ _ Hpx). cbn [mbind option_bind]. unfold kind_of. rewrite Hpx.
  unfold mret, M_ret. do 2 f_equal. cbn [fmap option_fmap option_map].
  destruct (px_kind px); done.
Qed.

(** C40: A statistic for an XID no proxy has is a NULL dereference: the driver
    does not test the result of the lookup. *)
Theorem link_stat_unknown_xid_oops w l m rest n :
  registry_rep w l -> wire_wf m -> spec_of_xid w l (st_xid m) = None ->
  Z.of_nat sizeof_header <= n ->
  xeth_sbrx_msg (msg_bytes XETH_MSG_KIND_LINK_STAT m ++ rest) n w = None.
Proof.
  intros R Hwf Hx Hn. rewrite sbrx_at by done. rewrite bind_run, msg_body_msg_bytes by done.
  cbn [deref mret M_ret]. rewrite bind_run. unfold xeth_sbrx_link_stat.
  by rewrite bind_run, (proxy_of_xid_run _ _ _ R), Hx.
Qed.

(** The devices a carrier message for port [p] is about: the port, and the
    registered VLANs whose link it is. *)
Definition on_port (w : world) (l : list Z) (p q : Z) : bool :=
  bool_decide (q = p) ||
  bool_decide (q ∈ l /\ kind_of w q = Some XETH_DEV_KIND_VLAN /\ vlan_link w q = Some p).

(** C30: A carrier message for the XID of a registered port turns the carrier
    on, if its flag is XETH_CARRIER_ON, and off otherwise, on that port and on
    every registered VLAN whose link the port is, and changes nothing else of the
    devices, of the mux or of the rest of the system; for an XID that is no
    registered port's it counts an invalid message and changes nothing else.
    Either way it is accepted.  (What is on the list of VLANs has the private area
    of a VLAN or of a loopback.) *)
Theorem carrier_message w l m rest n :
  registry_rep w l -> wire_wf m -> Z.of_nat sizeof_header <= n ->
  forallb (is_vlan_priv w) (mx_vlans (w_priv w)) = true ->
  exists w', xeth_sbrx_msg (msg_bytes XETH_MSG_KIND_CARRIER m ++ rest) n w = Some (0, w') /\
    match spec_of_xid w l (carrier_xid m) ≫= (fun p =>
      if bool_decide (kind_of w p = Some XETH_DEV_KIND_PORT) then Some p else None) with
    | Some p => w' = upd_w_devs (map_imap (fun q d => Some (if on_port w l p q
        then upd_nd_carrier (fun _ => carrier_flag m =? XETH_CARRIER_ON) d else d))) w
    | None => w' = upd_w_priv (counter_add xeth_mux_counter_sbrx_invalid 1) w
    end.
Proof.
  intros R Hwf Hn Hv. rewrite sbrx_at by done. rewrite bind_run, msg_body_msg_bytes by done.
  cbn [deref mret M_ret]. rewrite bind_run. unfold xeth_sbrx_carrier.
  rewrite bind_run, (port_of_xid_run _ _ _ R).
  destruct (_ ≫= _) as [p|] eqn:Ep; [|by eexists].
  assert (is_Some (w_devs w !! p)) as Hd.
  { destruct (spec_of_xid w l (carrier_xid m)) as [q|]; [|done]. simpl in Ep.
    case_bool_decide as Hk; [|done]. injection Ep as <-. unfold kind_of, proxy_at in Hk.
    by destruct (w_devs w !! q). }
  destruct (change_carrier_devs w p (carrier_flag m =? XETH_CARRIER_ON) Hd Hv) as (w' & E & D).
  exists w'. rewrite E. split; [done|]. rewrite D. unfold upd_w_devs. f_equal.
  apply map_eq. intros q. rewrite !map_lookup_imap. destruct (w_devs w !! q); [|done]. simpl.
  rewrite (rep_vlans _ _ R). unfold on_port, of_kind.
  set (vl := filter _ _).
  replace (bool_decide (q ∈ vl)) with
    (bool_decide (q ∈ l /\ kind_of w q = Some XETH_DEV_KIND_VLAN))
    by (apply bool_decide_ext; unfold vl; rewrite list_elem_of_filter; tauto).
  rewrite <- bool_decide_and. by rewrite (bool_decide_ext _ _ (and_assoc _ _ _)).
Qed.

Lemma start_queued i w r w' :
  ignore (xeth_nb_start i) w = Some (r, w') -> queued w `prefix_of` queued w'.
Proof.
  intros E. unfold ignore in E. bind_step E. injection E as <- <-.
  unfold xeth_nb_start in E0. bind_step E0. injection E as <- <-.
  destruct (flag_has _ _); [by injection E0 as <- <-|].
  bind_step E0. bind_step E0. injection E0 as <- <-.
  apply register_law in E as (_ & _ & _ & Q). etrans; [exact Q|].
  by destruct (_ =? 0); injection E1 as <- <-.
Qed.

(** A request for the interfaces is answered with their descriptions, in the
    order of the dump, then the break that ends it, before any notification the
    request enables. *)
Theorem dump_ifinfo_request w rest n r w' :
  sb_ok w -> connected w = true -> forallb (dumpable w) (dump_order (w_priv w)) = true ->
  (length (concat (dump_msgs w <$> dump_order (w_priv w))) < w_kmem w)%nat ->
  Z.of_nat sizeof_header <= n ->
  xeth_sbrx_msg (msg_bytes XETH_MSG_KIND_DUMP_IFINFO XethMsgEmpty ++ rest) n w = Some (r, w') ->
  r = 0 /\
  (queued w ++ concat (dump_msgs w <$> dump_order (w_priv w)) ++
     [msg_bytes XETH_MSG_KIND_BREAK XethMsgEmpty]) `prefix_of` queued w'.
Proof.
  intros Hw Hc Hd Hm Hn E. rewrite sbrx_at in E by done.
  assert (delivers w (xeth_mux_dump_all_ifinfo ≫= fun _ => ignore xeth_sbtx_break)
    (concat (dump_msgs w <$> dump_order (w_priv w)) ++
     [msg_bytes XETH_MSG_KIND_BREAK XethMsgEmpty])) as D.
  { apply delivers_bind; [by apply dump_all_delivers|]. intros. one_msg. }
  destruct D as ([] & w1 & E1 & M1); [done|rewrite length_app; simpl; lia|].
  bind_step E. rewrite bind_run, E0 in E1. bind_step E. rewrite E1 in E2. injection E2 as <- <-.
  bind_step E. bind_step E. injection E as <- <-. split; [done|].
  apply start_queued in E2, E3. apply emits_queued in M1. rewrite Hc in M1. rewrite <- M1.
  by etrans.
Qed.


(** The registered port with an XID, with its private area. *)
Definition port_at (w : world) (l : list Z) (xid : Z) : option (Z * xeth_proxy * xeth_port_priv) :=
  p ← spec_of_xid w l xid; px ← proxy_at w p;
  match px_kind px, px_priv px with
  | XETH_DEV_KIND_PORT, PrivPort pp => Some (p, px, pp)
  | _, _ => None
  end.

Lemma port_at_run w l xid p px pp :
  registry_rep w l -> port_at w l xid = Some (p, px, pp) ->
  port_of_xid xid w = Some (Some p, w) /\ proxy_at w p = Some px /\ px_priv px = PrivPort pp /\
  port_priv p w = Some (pp, w).
Proof.
  intros R Hp. unfold port_at in Hp. rewrite (port_of_xid_run _ _ _ R).
  destruct (spec_of_xid w l xid) as [q|]; [|done]. cbn [mbind option_bind] in *.
  destruct (proxy_at w q) as [qx|] eqn:Hq; [|done]. cbn [mbind option_bind] in *.
  destruct (px_kind qx) eqn:Hk; try done. destruct (px_priv qx) eqn:Hpp; try done.
  injection Hp as <- <- <-. unfold kind_of. rewrite Hq. cbn. rewrite Hk. split; [done|].
  split; [done|]. split; [done|]. unfold port_priv.
  by rewrite bind_run, (netdev_priv_run _ _ _ Hq), Hpp.
Qed.

(** An ethtool statistic goes to the slot of its index in the extension of
    the port.  Only the first subport has an extension: for any other port the
    driver writes behind the end of the allocation. *)
Theorem et_stat_message w l m rest n p px pp :
  registry_rep w l -> wire_wf m -> Z.of_nat sizeof_header <= n ->
  port_at w l (st_xid m) = Some (p, px, pp) -> st_index m < Z.of_nat xeth_mux_max_stats ->
  match pp_ext pp with
  | None => xeth_sbrx_msg (msg_bytes XETH_MSG_KIND_ETHTOOL_STAT m ++ rest) n w = None
  | Some ext =>
      exists w', xeth_sbrx_msg (msg_bytes XETH_MSG_KIND_ETHTOOL_STAT m ++ rest) n w = Some (0, w') /\
        w_priv w' = w_priv w /\
        proxy_at w' p = Some (upd_px_priv (fun _ => PrivPort (upd_pp_ext (fun _ =>
          Some (upd_pe_stats (<[Z.to_nat (st_index m) := s64 (st_count m)]>) ext)) pp)) px)
  end.
Proof.
  intros R Hwf Hn Hp Hi. destruct (port_at_run _ _ _ _ _ _ R Hp) as (Ep & Hpx & Hpp & Hpriv).
  assert (xeth_sbrx_msg (msg_bytes XETH_MSG_KIND_ETHTOOL_STAT m ++ rest) n w =
    (mod_ext p (upd_pe_stats (<[Z.to_nat (st_index m) := s64 (st_count m)]>)) ≫= fun _ => mret 0) w)
    as ->.
  { rewrite sbrx_at, bind_run, msg_body_msg_bytes by done. cbn [deref mret M_ret].
    rewrite bind_run. unfold xeth_sbrx_et_stat. rewrite bind_run, Ep.
    unfold xeth_port_ethtool_stat. rewrite bind_run, (netdev_priv_run _ _ _ Hpx).
    destruct (Z.ltb_spec (st_index m) (Z.of_nat xeth_mux_max_stats)); [done|lia]. }
  unfold mod_ext, mod_port, port_ext.
  destruct (pp_ext pp) as [ext|] eqn:He.
  - destruct (proxy_at_inv _ _ _ Hpx) as (d & Ed & Ex).
    rewrite bind_run, bind_run, Hpriv, bind_run, He. cbn [deref mret M_ret].
    rewrite bind_run, Hpriv, (mod_proxy_run _ _ _ _ _ Ed Ex). eexists. split; [done|].
    split; [done|]. by apply proxy_at_upd.
  - by rewrite bind_run, bind_run, Hpriv, bind_run, He.
Qed.

(** A speed message sets the speed the port reports, and nothing else of it. *)
Theorem speed_message w l m rest n p px pp :
  registry_rep w l -> wire_wf m -> Z.of_nat sizeof_header <= n ->
  port_at w l (sp_xid m) = Some (p, px, pp) ->
  exists w', xeth_sbrx_msg (msg_bytes XETH_MSG_KIND_SPEED m ++ rest) n w = Some (0, w') /\
    w_priv w' = w_priv w /\
    proxy_at w' p = Some (upd_px_priv (fun _ => PrivPort
      (upd_pp_ksettings (upd_ks_speed (fun _ => sp_mbps m)) pp)) px) /\
    forall q, q <> p -> w_devs w' !! q = w_devs w !! q.
Proof.
  intros R Hwf Hn Hp. destruct (port_at_run _ _ _ _ _ _ R Hp) as (Ep & Hpx & Hpp & Hpriv).
  destruct (proxy_at_inv _ _ _ Hpx) as (d & Ed & Ex).
  rewrite sbrx_at, bind_run, msg_body_msg_bytes by done. cbn [deref mret M_ret].
  rewrite bind_run. unfold xeth_sbrx_speed. rewrite bind_run, Ep.
  unfold xeth_port_speed, mod_port. rewrite bind_run, Hpriv, (mod_proxy_run _ _ _ _ _ Ed Ex).
  eexists. split; [done|]. split; [done|]. split; [by apply proxy_at_upd|].
  intros q Hq. simpl. by rewrite lookup_insert_ne.
Qed.

End sbrx.

(** ** Witnesses *)

Definition demo_stat (xid : Z) : xeth_msg_stat := {| st_xid := xid; st_index := 3; st_count := 9 |}.
Lemma demo_stat_wf xid : 0 <= xid < 2 ^ 32 -> wire_wf (demo_stat xid).
Proof. intros. repeat constructor; simpl; lia. Qed.

Lemma sbrx_refusals_witness :
  xeth_sbrx_msg (C:=demo_const) (K:=plain_notify) (H:=golden_hash)
    (msg_bytes XETH_MSG_KIND_IFA XethMsgEmpty) 8 demo_full = Some (- EINVAL, demo_full).
Proof.
  destruct (sbrx_refusals (C:=demo_const) (K:=plain_notify) (H:=golden_hash)
    (msg_bytes XETH_MSG_KIND_IFA XethMsgEmpty) 8 (xeth_msg_init XETH_MSG_KIND_IFA) demo_full)
    as [T _]; [vm_compute; reflexivity|].
  apply T. left. vm_compute. reflexivity.
Defined.

Lemma link_stat_unknown_xid_oops_witness :
  xeth_sbrx_msg (C:=demo_const) (K:=plain_notify) (H:=golden_hash)
    (msg_bytes XETH_MSG_KIND_LINK_STAT (demo_stat 77) ++ []) 32 demo_full = None.
Proof.
  apply (link_stat_unknown_xid_oops (C:=demo_const) (K:=plain_notify) (H:=golden_hash)
    (HL:=golden_hash_laws) demo_full [7; 6; 4; 5; 3; 2; 1] (demo_stat 77) [] 32).
  - exact demo_full_rep.
  - apply demo_stat_wf. lia.
  - vm_compute. reflexivity.
  - vm_compute. discriminate.
Defined.

Definition demo_carrier : xeth_msg_carrier :=
  {| carrier_xid := 3999; carrier_flag := 0; carrier_pad := [0; 0; 0] |}.

Lemma carrier_message_witness :
  exists w', xeth_sbrx_msg (C:=demo_const) (K:=plain_notify) (H:=golden_hash)
      (msg_bytes XETH_MSG_KIND_CARRIER demo_carrier ++ []) 24 demo_full = Some (0, w') /\
    (fun p => nd_carrier <$> w_devs w' !! p) <$> [1; 4; 2; 100]
      = [Some false; Some false; Some true; Some true].
Proof.
  destruct (carrier_message (C:=demo_const) (K:=plain_notify) (H:=golden_hash)
    (HL:=golden_hash_laws) demo_full [7; 6; 4; 5; 3; 2; 1] demo_carrier [] 24) as (w' & E & D).
  - exact demo_full_rep.
  - repeat constructor; simpl; lia.
  - vm_compute. discriminate.
  - vm_compute. reflexivity.
  - exists w'. split; [exact E|]. vm_compute in D. rewrite D. vm_compute. reflexivity.
Defined.

Lemma et_stat_message_witness :
  exists w', xeth_sbrx_msg (C:=demo_const) (K:=plain_notify) (H:=golden_hash)
      (msg_bytes XETH_MSG_KIND_ETHTOOL_STAT (demo_stat 3998) ++ []) 32 demo_full = Some (0, w').
Proof.
  pose proof (et_stat_message (C:=demo_const) (K:=plain_notify) (H:=golden_hash)
    (HL:=golden_hash_laws) demo_full [7; 6; 4; 5; 3; 2; 1] (demo_stat 3998) [] 32 2
    (demo_proxy XETH_DEV_KIND_PORT 3998 (demo_port 1))
    {| pp_port := 1; pp_subport := -1; pp_ksettings := demo_ks;
       pp_ext := Some {| pe_qsfp := None; pe_priv_flags := 0; pe_stats := replicate 512 0 |} |}
    demo_full_rep) as T.
  destruct T as (w' & E & _).
  - apply demo_stat_wf. lia.
  - vm_compute. discriminate.
  - vm_compute. reflexivity.
  - vm_compute. reflexivity.
  - exists w'. exact E.
Defined.

Definition demo_dumped : world :=
  ends (xeth_sbrx_msg (C:=demo_const) (K:=plain_notify) (H:=golden_hash)
    (msg_bytes XETH_MSG_KIND_DUMP_IFINFO XethMsgEmpty ++ []) 16) demo_full.
Lemma demo_dumped_run :
  xeth_sbrx_msg (C:=demo_const) (K:=plain_notify) (H:=golden_hash)
    (msg_bytes XETH_MSG_KIND_DUMP_IFINFO XethMsgEmpty ++ []) 16 demo_full = Some (0, demo_dumped).
Proof. vm_compute. reflexivity. Qed.

Lemma demo_full_inv : inv (H:=golden_hash) [7; 6; 4; 5; 3; 2; 1] demo_full.
Proof. split; [split; [exact demo_full_nb|exact demo_full_ok]|exact demo_full_rep]. Qed.

Lemma sbrx_preserves_witness : inv (H:=golden_hash) [7; 6; 4; 5; 3; 2; 1] demo_dumped.
Proof.
  exact (sbrx_preserves (C:=demo_const) (K:=plain_notify) (H:=golden_hash) (KL:=plain_notify_laws)
    [7; 6; 4; 5; 3; 2; 1] _ _ demo_full 0 demo_dumped demo_full_inv demo_dumped_run).
Defined.
