(* ===== verification/Service.v ===== *)
(** * The side-band service (dkms/xeth_mux.c)

    The task of the mux: it waits for the daemon to connect, then alternates
    between receiving a message and sending a queued one until the connection
    ends.  What the kernel does in one iteration is a [tick]: the notifications
    that arrive before it, what [kernel_recvmsg] returns and writes, and what
    [kernel_sendmsg] returns if it is called; the list of ticks ends when the
    task is told to stop.  So the loops run on the list and terminate. *)

From stdpp Require Import base numbers list gmap.
From Stdlib Require Import ZArith Lia.
From S2P Require Import Prelude Bytes Monad Uapi State Stats Kernel.
From S2P Require Import Demo Registry Sbq Sbtx Proxy Carrier Nb Sbrx.

Local Open Scope Z_scope.

(** ** Events *)

(** A call of a handler, which the kernel makes while the notifier is registered. *)
Inductive event :=
| EvInetaddr (event : Z) (ifa : in_ifaddr) (nd : option Z)
| EvInet6addr (event : Z) (ifa6 : inet6_ifaddr) (nd : option Z)
| EvNetdevice (event : Z) (nd : Z)
| EvNetevent (event : Z) (neigh : neighbour)
| EvFib (n : net) (event : fib_event) (info : fib_notifier_info).

Definition event_nb (e : event) : notifier :=
  match e with
  | EvInetaddr _ _ _ => NbInetaddr
  | EvInet6addr _ _ _ => NbInet6addr
  | EvNetdevice _ _ => NbNetdevice
  | EvNetevent _ _ => NbNetevent
  | EvFib n _ _ => NbFib n
  end.

Record tick := {
  tk_events : list event;
  tk_recv : Z;          (** what kernel_recvmsg returns *)
  tk_data : list Z;     (** what it writes if that is positive *)
  tk_send : Z;          (** what kernel_sendmsg returns *)
}.

Section service.
Context {C : KernelConst} {K : KernelNotify} {H : KernelHash}.

Definition handle (e : event) : M world unit :=
  match e with
  | EvInetaddr ev ifa nd => xeth_nb_inetaddr ev ifa nd
  | EvInet6addr ev ifa6 nd => xeth_nb_inet6addr ev ifa6 nd
  | EvNetdevice ev nd => xeth_nb_netdevice ev nd
  | EvNetevent ev neigh => xeth_nb_netevent ev neigh
  | EvFib n ev info => xeth_nb_fib n ev info
  end.

Definition deliver_event (e : event) : M world unit :=
  priv ← get_mux;
  when (bool_decide (event_nb e ∈ mx_chains priv)) (handle e).

(** ** Operations *)

Definition xeth_mux_net_of_inum (inum : Z) : M world (option net) :=
  nets ← gets w_nets; mret (find (fun n => net_inum n =? inum) nets).

(** A positive result of kernel_sendmsg on a sequenced packet socket: the whole
    message is on its way. *)
Definition kernel_sendmsg (b : xeth_sbtxb) (n : Z) : M world Z :=
  when (0 <? n) (modify (upd_w_wire (fun l => l ++ [payload b]))) ≫= fun _ => mret n.

Definition xeth_mux_sbtx (b : xeth_sbtxb) (send : Z) : M world Z :=
  n ← kernel_sendmsg b send;
  if n =? - EAGAIN then
    xeth_mux_prepend_sbtxb b ≫= fun _ =>
    xeth_mux_inc xeth_mux_counter_sbtx_retries ≫= fun _ => mret n
  else
  h ← deref (header_at (sb_data b));
  when (mh_kind h =? xeth_msg_kind_val XETH_MSG_KIND_NETNS_ADD) (
    m ← deref (msg_body xeth_msg_netns (sb_data b));
    net ← xeth_mux_net_of_inum (ns_net m);
    match net with
    | Some net => ignore (xeth_nb_start_new_fib net)
    | None => mret tt
    end) ≫= fun _ =>
  xeth_mux_free_sbtxb b ≫= fun _ =>
  if 0 <? n then xeth_mux_inc xeth_mux_counter_sbtx_msgs ≫= fun _ => mret 0
  else mret (if n <? 0 then n else 1).

(** The receive buffer after [data] was received. *)
Definition rx_after (rx data : list Z) : list Z := data ++ drop (length data) rx.

(** 0: nothing to read; 1: closed; a negative number: an error; otherwise the
    number of bytes read. *)
Definition xeth_mux_sbrx (rx : list Z) (t : tick) : M world (Z * list Z) :=
  let n := tk_recv t in
  if n =? - EAGAIN then mret (0, rx) else
  if (n =? 0) || (n =? - ECONNRESET) then mret (1, rx) else
  if n <? 0 then mret (n, rx) else
  let rx := rx_after rx (tk_data t) in
  xeth_mux_inc xeth_mux_counter_sbrx_msgs ≫= fun _ =>
  err ← xeth_sbrx_msg rx n;
  mret (if err =? 0 then n else err, rx).

Definition minms : Z := 10.
Definition maxms : Z := 320.

(** The loop: [err] and [ms] are its variables, [sleeps] the milliseconds it slept. *)
Fixpoint service_loop (ticks : list tick) (err ms : Z) (rx : list Z) (sleeps : list Z)
  : M world (Z * list Z * list Z) :=
  match ticks with
  | [] => mret (err, rx, sleeps)
  | t :: ticks =>
      for_each (tk_events t) deliver_event ≫= fun _ =>
      xeth_mux_inc xeth_mux_counter_sbrx_ticks ≫= fun _ =>
      '(err, rx) ← xeth_mux_sbrx rx t;
      if err =? 1 then mret (0, rx, sleeps) else
      if err <? 0 then mret (err, rx, sleeps) else
      let ms := if 0 <? err then minms else ms in
      b ← xeth_mux_pop_sbtxb;
      match b with
      | Some b =>
          let ms := minms in
          xeth_mux_inc xeth_mux_counter_sbtx_ticks ≫= fun _ =>
          err ← xeth_mux_sbtx b (tk_send t);
          if err =? - EAGAIN then service_loop ticks 0 ms rx (sleeps ++ [ms])
          else if err =? - ECONNRESET then mret (0, rx, sleeps)
          else service_loop ticks err ms rx sleeps
      | None =>
          if err =? 0
          then service_loop ticks err (if ms <? maxms then ms * 2 else ms) rx (sleeps ++ [ms])
          else service_loop ticks err ms rx sleeps
      end
  end.

Definition xeth_mux_service_sb (ticks : list tick) (rx : list Z) : M world (Z * list Z) :=
  '(err, rx, _) ← service_loop ticks 0 minms rx [];
  xeth_nb_stop_netevent ≫= fun _ =>
  xeth_nb_stop_all_fib ≫= fun _ =>
  xeth_nb_stop_inetaddr ≫= fun _ =>
  xeth_nb_stop_netdevice ≫= fun _ =>
  xeth_mux_flush_sbtx ≫= fun _ =>
  mret (if err <? 0 then err else 0, rx).

(** One iteration of the accept loop: what kernel_accept returned, and the ticks
    of the connection if it returned 0 and the connection has its operations. *)
Inductive accept :=
| AcceptAgain
| AcceptErr (err : Z)
| AcceptNoOps
| AcceptConn (ticks : list tick).

Fixpoint main_loop (accepts : list accept) (err : Z) (rx : list Z) : M world Z :=
  match accepts with
  | [] => mret err
  | a :: accepts =>
      if negb (err =? 0) then mret err else
      match a with
      | AcceptAgain => main_loop accepts 0 rx
      | AcceptErr e => main_loop accepts e rx
      | AcceptNoOps => main_loop accepts (- EOPNOTSUPP) rx
      | AcceptConn ticks =>
          xeth_mux_set xeth_mux_flag_sb_connection ≫= fun _ =>
          xeth_mux_reset_all_link_stats ≫= fun _ =>
          xeth_mux_reset_all_port_ethtool_stats ≫= fun _ =>
          '(err, rx) ← xeth_mux_service_sb ticks rx;
          xeth_mux_clear xeth_mux_flag_sb_connection ≫= fun _ =>
          xeth_mux_drop_all_port_carrier ≫= fun _ =>
          main_loop accepts err rx
      end
  end.

Definition xeth_mux_main_exit (ln : bool) (err : Z) : M world Z :=
  when ln (xeth_mux_clear xeth_mux_flag_sb_listen) ≫= fun _ =>
  xeth_mux_clear xeth_mux_flag_main_task ≫= fun _ => mret err.

(** The results of sock_create_kern, kernel_bind and kernel_listen. *)
Record listener := { ln_create : Z; ln_bind : Z; ln_listen : Z }.

Definition xeth_mux_main (ln : listener) (accepts : list accept) (rx : list Z) : M world Z :=
  xeth_mux_set xeth_mux_flag_main_task ≫= fun _ =>
  xeth_mux_drop_all_port_carrier ≫= fun _ =>
  if negb (ln_create ln =? 0) then xeth_mux_main_exit false (ln_create ln) else
  if negb (ln_bind ln =? 0) then xeth_mux_main_exit true (ln_bind ln) else
  if negb (ln_listen ln =? 0) then xeth_mux_main_exit true (ln_listen ln) else
  xeth_mux_set xeth_mux_flag_sb_listen ≫= fun _ =>
  err ← main_loop accepts 0 rx;
  xeth_mux_main_exit true err.


(** ** Order of the messages *)

(** Messages sent and messages waiting: only ever longer at the end. *)
Definition fifo (w w' : world) : Prop :=
  (w_wire w ++ queued w) `prefix_of` (w_wire w' ++ queued w').
#[export] Instance fifo_preorder : PreOrder fifo.
Proof.
  split; [intros w; unfold fifo; reflexivity|].
  intros w1 w2 w3 H1 H2. unfold fifo in *. by etrans.
Qed.

Lemma fifo_same w w' : w_wire w' = w_wire w -> mx_sb_tx (w_priv w') = mx_sb_tx (w_priv w) -> fifo w w'.
Proof. intros E1 E2. unfold fifo, queued. by rewrite E1, E2. Qed.
Lemma fifo_queued w w' : w_wire w' = w_wire w -> queued w `prefix_of` queued w' -> fifo w w'.
Proof. intros E1 Hq. unfold fifo. rewrite E1. by apply prefix_app. Qed.

Lemma fifo_mod_mux f : (forall p, mx_sb_tx (f p) = mx_sb_tx p) -> steps fifo (mod_mux f).
Proof. intros Hf. apply steps_modify. intros w. apply fifo_same; [done|apply Hf]. Qed.
Lemma fifo_mod_dev p f : steps fifo (mod_dev p f).
Proof.
  unfold mod_dev. intros w r w' E. bind_step E. apply dev_inv in E0 as [-> _].
  injection E as <- <-. by apply fifo_same.
Qed.
Lemma fifo_mod_proxy p f : steps fifo (mod_proxy p f).
Proof.
  unfold mod_proxy. intros w r w' E. bind_step E. apply netdev_priv_inv in E0 as [-> _].
  by apply fifo_mod_dev in E.
Qed.
Lemma fifo_kzalloc : steps fifo kzalloc_ok.
Proof.
  intros w r w'. unfold kzalloc_ok. destruct (w_kmem w); intros [= <- <-]; by apply fifo_same.
Qed.
Hint Resolve fifo_mod_dev fifo_mod_proxy fifo_kzalloc : steps.
Hint Extern 1 (steps fifo (mod_mux _)) => apply fifo_mod_mux; done : steps.
Hint Extern 1 (steps fifo (xeth_mux_inc _)) => apply fifo_mod_mux; done : steps.
Hint Extern 1 (steps fifo (xeth_mux_dec _)) => apply fifo_mod_mux; done : steps.
Hint Extern 1 (steps fifo (xeth_mux_set _)) => apply fifo_mod_mux; done : steps.
Hint Extern 1 (steps fifo (xeth_mux_has _)) => apply steps_gets; exact _ : steps.
Hint Extern 1 (steps fifo get_mux) => apply steps_gets; exact _ : steps.

Lemma fifo_alloc len : steps fifo (xeth_mux_alloc_sbtxb len).
Proof. unfold xeth_mux_alloc_sbtxb. by_structure. Qed.
Lemma fifo_write off bs b : steps fifo (sbtxb_write off bs b).
Proof. unfold sbtxb_write. by_structure. Qed.
Hint Resolve fifo_alloc fifo_write : steps.
Lemma fifo_siblings l : forall off b, steps fifo (siblings_write off l b).
Proof.
  induction l as [|nhc l IH]; intros off b; cbn [siblings_write]; [apply steps_ret; exact _|].
  unfold sibling_write. by_structure.
Qed.
Lemma fifo_free b : steps fifo (xeth_mux_free_sbtxb b).
Proof. unfold xeth_mux_free_sbtxb. by_structure. Qed.
Lemma fifo_queue b : steps fifo (xeth_mux_queue_sbtx b).
Proof.
  intros w r w'. rewrite queue_run. destruct (flag_has _ _); [|by apply fifo_free].
  rewrite append_run. intros [= <- <-]. apply fifo_queued; [done|]. unfold queued. simpl.
  rewrite fmap_app. by apply prefix_app_r.
Qed.
Hint Resolve fifo_siblings fifo_free fifo_queue : steps.

Lemma fifo_msg {A} `{!Wire A} kind (a : A) : steps fifo (sbtx_msg kind a).
Proof. unfold sbtx_msg. by_structure. Qed.
Hint Resolve @fifo_msg : steps.
Lemma fifo_fib_entry n f e : steps fifo (xeth_sbtx_fib_entry n f e).
Proof. unfold xeth_sbtx_fib_entry. cbv zeta. by_structure. Qed.
Lemma fifo_fib6_nh_entry n f nh e : steps fifo (xeth_sbtx_fib6_nh_entry n f nh e).
Proof. unfold xeth_sbtx_fib6_nh_entry. cbv zeta. by_structure. Qed.
Hint Resolve fifo_fib6_nh_entry : steps.
Lemma fifo_fib6_entry n rt e : steps fifo (xeth_sbtx_fib6_entry n rt e).
Proof. unfold xeth_sbtx_fib6_entry. cbv zeta. by_structure. Qed.
Lemma fifo_ifinfo p i r : steps fifo (xeth_sbtx_ifinfo p i r).
Proof. unfold xeth_sbtx_ifinfo. by_structure. Qed.
Lemma fifo_neigh_update n : steps fifo (xeth_sbtx_neigh_update n).
Proof. unfold xeth_sbtx_neigh_update. by_structure. Qed.
Hint Resolve fifo_fib_entry fifo_fib6_entry fifo_ifinfo fifo_neigh_update : steps.

Lemma fifo_ignore {A} (c : M world A) : steps fifo c -> steps fifo (ignore c).
Proof. intros. unfold ignore. by_structure; done. Qed.
Hint Resolve fifo_ignore : steps.

Context {KL : KernelNotifyLaws}.

Lemma nb_frame_wire w w' : nb_frame w w' -> w_wire w' = w_wire w.
Proof. intros F. by apply (f_equal w_wire) in F. Qed.

Lemma fifo_register n : steps fifo (register_nb n).
Proof.
  intros w r w' (F & _ & _ & Q)%register_law. apply fifo_queued; [by apply nb_frame_wire|done].
Qed.
Hint Resolve fifo_register : steps.
Lemma fifo_stop_fib n : steps fifo (stop_fib n).
Proof.
  unfold stop_fib. apply steps_bind; [exact _| |intros _; by_structure].
  intros w r w' E. apply unregister_law in E as (F & _ & _ & Q); [|done].
  apply fifo_queued; [by apply nb_frame_wire|done].
Qed.
Hint Resolve fifo_stop_fib : steps.

Lemma fifo_start n : steps fifo (xeth_nb_start n).
Proof. unfold xeth_nb_start. by_structure. Qed.
Lemma fifo_start_fib n : steps fifo (xeth_nb_start_fib n).
Proof. unfold xeth_nb_start_fib. by_structure. Qed.
Hint Resolve fifo_start fifo_start_fib : steps.
Lemma fifo_start_new_fib n : steps fifo (xeth_nb_start_new_fib n).
Proof. unfold xeth_nb_start_new_fib. by_structure. Qed.
Hint Resolve fifo_start_new_fib : steps.
Lemma fifo_start_all_fib : steps fifo xeth_nb_start_all_fib.
Proof.
  assert (forall l, steps fifo (start_new_fibs l)) as Hl.
  { induction l; simpl; by_structure. }
  unfold xeth_nb_start_all_fib, the_init_net. by_structure; apply Hl.
Qed.
Hint Resolve fifo_start_all_fib : steps.

Lemma fifo_lowers l : forall b, steps fifo (lowers_carrier l b).
Proof.
  induction l; intros b; simpl; [apply steps_ret; exact _|].
  unfold netif_carrier_ok. by_structure.
Qed.
Lemma fifo_check_lowers : steps fifo xeth_mux_check_lower_carrier.
Proof.
  unfold xeth_mux_check_lower_carrier, netif_carrier_ok, netif_carrier_on, netif_carrier_off.
  apply steps_bind; [exact _|by_structure|intros mux].
  apply steps_bind; [exact _|by_structure|intros d].
  apply steps_bind; [exact _|apply fifo_lowers|intros c]. by_structure.
Qed.
Hint Resolve fifo_check_lowers : steps.

Lemma fifo_handle e : steps fifo (handle e).
Proof.
  destruct e; simpl; unfold xeth_nb_inetaddr, xeth_nb_inet6addr, xeth_nb_netdevice,
    xeth_nb_netevent, xeth_nb_fib, own_proxy, xeth_mux_proxy_of_nd, xeth_nb_stop_net_fib,
    xeth_sbtx_ifa, xeth_sbtx_ifa6, xeth_sbtx_netns; cbv zeta; by_structure.
Qed.
Hint Resolve fifo_handle : steps.
Lemma fifo_events l : steps fifo (for_each l deliver_event).
Proof. unfold deliver_event. by_structure. Qed.

Lemma fifo_et_settings x ks : steps fifo (xeth_sbtx_et_settings x ks).
Proof. unfold xeth_sbtx_et_settings, xeth_sbtx_et_link_modes. by_structure. Qed.
Hint Resolve fifo_et_settings : steps.

Lemma fifo_dump_all : steps fifo xeth_mux_dump_all_ifinfo.
Proof.
  unfold xeth_mux_dump_all_ifinfo, xeth_proxy_dump_ifinfo, xeth_port_ethtool_ksettings,
    xeth_port_ethtool_priv_flags, port_priv, port_ext, xeth_proxy_dump_ifa, xeth_proxy_dump_ifa6,
    xeth_sbtx_et_flags, xeth_sbtx_change_upper,
    xeth_sbtx_ifa, xeth_sbtx_ifa6.
  by_structure.
Qed.
Hint Resolve fifo_dump_all : steps.

Lemma fifo_sbrx v n : steps fifo (xeth_sbrx_msg v n).
Proof.
  unfold xeth_sbrx_msg, xeth_sbrx_carrier, xeth_sbrx_et_stat, xeth_sbrx_link_stat,
    xeth_sbrx_speed, port_of_xid, xeth_mux_proxy_of_xid, xeth_nb_start_netdevice,
    xeth_nb_start_inetaddr, xeth_nb_start_netevent, xeth_sbtx_break, xeth_mux_change_carrier,
    xeth_vlan_has_link, set_carrier, netif_carrier_on, netif_carrier_off, xeth_port_ethtool_stat,
    xeth_proxy_link_stat, xeth_port_speed, mod_ext, mod_port, port_priv, port_ext.
  by_structure.
Qed.
Lemma fifo_mux_sbrx rx t : steps fifo (xeth_mux_sbrx rx t).
Proof.
  unfold xeth_mux_sbrx. cbv zeta. pose proof fifo_sbrx. by_structure.
Qed.

(** A socket that takes a message or asks to try again. *)
Definition reliable (t : tick) : bool := (0 <? tk_send t) || (tk_send t =? - EAGAIN).

(** A message leaves the queue for the socket or returns to the head of the queue. *)
Lemma fifo_pop_sbtx w b w1 t r w2 :
  reliable t = true -> xeth_mux_pop_sbtxb w = Some (Some b, w1) ->
  (xeth_mux_inc xeth_mux_counter_sbtx_ticks ≫= fun _ => xeth_mux_sbtx b (tk_send t)) w1 = Some (r, w2) ->
  fifo w w2.
Proof.
  intros Ht Ep E. rewrite pop_run in Ep. destruct (mx_sb_tx (w_priv w)) as [|c tx] eqn:Etx; [done|].
  injection Ep as -> <-. bind_step E. injection E0 as <- <-.
  unfold xeth_mux_sbtx in E. bind_step E. unfold kernel_sendmsg in E0. bind_step E0.
  injection E0 as <- <-. destruct (Z.eqb_spec (tk_send t) (- EAGAIN)) as [Es|Es].
  - rewrite Es in E1. injection E1 as <- <-. bind_step E. bind_step E. injection E as <- <-.
    rewrite prepend_run in E0. injection E0 as <- <-. injection E1 as <- <-.
    apply fifo_same; [done|]. simpl. by rewrite Etx.
  - unfold reliable in Ht. destruct (Z.ltb_spec 0 (tk_send t)) as [Hs|Hs].
    2: { apply orb_true_iff in Ht as [?|?%Z.eqb_eq]; [lia|done]. }
    injection E1 as <- <-.
    match type of E with ?c _ = _ => assert (steps fifo c) as S end.
    { unfold xeth_mux_net_of_inum. by_structure. }
    etrans; [|exact (S _ _ _ E)].
    unfold fifo, queued. simpl. rewrite Etx, <- app_assoc. reflexivity.
Qed.

Lemma service_loop_fifo ticks : forall err ms rx sleeps,
  forallb reliable ticks = true -> steps fifo (service_loop ticks err ms rx sleeps).
Proof.
  induction ticks as [|t ticks IH]; intros err ms rx sleeps Hr; [apply steps_ret; exact _|].
  simpl in Hr. unbool. cbn [service_loop].
  apply steps_bind; [exact _|apply fifo_events|intros _].
  apply steps_bind; [exact _|by_structure|intros _].
  apply steps_bind; [exact _|apply fifo_mux_sbrx|intros [err1 rx1]].
  destruct (err1 =? 1); [apply steps_ret; exact _|].
  destruct (err1 <? 0); [apply steps_ret; exact _|]. cbv zeta.
  intros w r w' E. bind_step E. destruct a as [b|].
  - bind_step E. bind_step E. assert (fifo w s1) as F.
    { eapply fifo_pop_sbtx; [exact H0|exact E0|]. rewrite bind_run, E1. exact E2. }
    etrans; [exact F|].
    destruct (a0 =? - EAGAIN); [by eapply IH|].
    destruct (a0 =? - ECONNRESET); [by injection E as <- <-|by eapply IH].
  - assert (s = w) as ->.
    { rewrite pop_run in E0. by destruct (mx_sb_tx (w_priv w)); simplify_eq. }
    destruct (err1 =? 0); by eapply IH.
Qed.

(** C3: While the daemon is served, with whatever messages it sends and whatever
    notifications arrive between, and with a socket that takes a message or asks
    to try again, the messages reach the socket in the order in which they were
    queued, none lost, repeated or reordered: what is sent and what waits only
    ever grows at the end. *)
Theorem service_in_order ticks err ms rx sleeps w r w' :
  forallb reliable ticks = true ->
  service_loop ticks err ms rx sleeps w = Some (r, w') ->
  exists ms', w_wire w' ++ queued w' = w_wire w ++ queued w ++ ms'.
Proof.
  intros Hr E. destruct (service_loop_fifo _ _ _ _ _ Hr _ _ _ E) as [ms' Hm].
  exists ms'. by rewrite Hm, <- app_assoc.
Qed.


(** ** Invariants of the service *)

Hint Resolve inv_sb_safe : preserves.

Lemma inv_frame l w w' : sb_frame w w' -> sb_ok w' -> inv l w -> inv l w'.
Proof.
  intros F Hs [[Hn _] R]. split; [split; [by eapply nb_ok_sb_frame|done]|].
  by eapply reg_frame_rep; [apply reg_frame_sb|].
Qed.

Lemma inv_pop l w o w' :
  inv l w -> xeth_mux_pop_sbtxb w = Some (o, w') -> inv l w' /\ from_option sbtxb_ok True o.
Proof.
  intros Hi E. pose proof Hi as [[_ Hs] _]. destruct (sb_ok_pop _ _ _ Hs E) as [Hs' Hb].
  split; [|done]. eapply inv_frame; [by eapply steps_pop|done|done].
Qed.

Lemma inv_free l b : sbtxb_ok b -> preserves (inv l) (xeth_mux_free_sbtxb b).
Proof.
  intros Hb w [] w' Hi E. pose proof Hi as [[_ Hs] _].
  eapply inv_frame; [by eapply steps_free|by eapply sb_ok_free|done].
Qed.
Lemma inv_prepend l b : sbtxb_ok b -> preserves (inv l) (xeth_mux_prepend_sbtxb b).
Proof.
  intros Hb w [] w' Hi E. pose proof Hi as [[_ Hs] _].
  eapply inv_frame; [by eapply steps_prepend|by eapply sb_ok_prepend|done].
Qed.

(** The wire is no part of the invariants. *)
Lemma inv_wire l f : preserves (inv l) (modify (upd_w_wire f)).
Proof.
  apply preserves_modify. intros w [[[] []] R]. split; [by split|].
  eapply reg_frame_rep; [|exact R]. by split.
Qed.

Lemma inv_start_new_fib l n : preserves (inv l) (xeth_nb_start_new_fib n).
Proof. apply inv_steps; [apply start_new_fib_preserves|apply steps_reg_start_new_fib]. Qed.

Hint Extern 1 (preserves (inv _) get_mux) => apply preserves_gets : preserves.
Hint Extern 1 (preserves (inv _) (xeth_mux_inc _)) => apply inv_counter; discriminate : preserves.
Hint Resolve inv_wire : preserves.

Lemma inv_sbtx l b n : sbtxb_ok b -> preserves (inv l) (xeth_mux_sbtx b n).
Proof.
  intros Hb. unfold xeth_mux_sbtx, kernel_sendmsg, xeth_mux_net_of_inum.
  pose proof (inv_free l b Hb). pose proof (inv_prepend l b Hb).
  pose proof (fun n => preserves_ignore _ _ (inv_start_new_fib l n)).
  by_structure; auto.
Qed.

Lemma steps_reg_stop_fib n : steps reg_frame (stop_fib n).
Proof.
  unfold stop_fib. apply steps_bind; [exact _| |intros _; apply steps_reg_mod; done].
  intros w r w' E. apply unregister_law in E as (F & _); [|done]. by apply reg_frame_nb.
Qed.

Lemma inv_stop_net_fib l n : preserves (inv l) (xeth_nb_stop_net_fib n).
Proof.
  apply inv_steps; [apply stop_net_fib_preserves|]. unfold xeth_nb_stop_net_fib.
  apply steps_bind; [exact _|apply steps_gets; exact _|intros priv].
  apply steps_for_each; [exact _|]. intros m. apply steps_when; [exact _|].
  apply steps_reg_stop_fib.
Qed.

Lemma inv_check_lowers l : preserves (inv l) xeth_mux_check_lower_carrier.
Proof.
  assert (forall ls b, preserves (inv l) (lowers_carrier ls b)) as Hl.
  { induction ls; intros b; simpl; [apply preserves_ret|].
    unfold netif_carrier_ok. by_structure; auto. }
  assert (forall p, preserves (inv l) (netif_carrier_on p)) by (intros; by apply inv_mod_dev).
  assert (forall p, preserves (inv l) (netif_carrier_off p)) by (intros; by apply inv_mod_dev).
  unfold xeth_mux_check_lower_carrier, netif_carrier_ok. by_structure; auto.
Qed.

Lemma sb_safe_find {A} (xs : list A) (f : A -> M world bool) :
  (forall a, sb_safe (f a)) -> sb_safe (find_m xs f).
Proof.
  intros Hf. induction xs; simpl; [apply sb_safe_ret|].
  apply sb_safe_bind; [apply Hf|]. intros []; [apply sb_safe_ret|done].
Qed.
Lemma sb_safe_proxy_of_nd nd : sb_safe (xeth_mux_proxy_of_nd nd).
Proof.
  unfold xeth_mux_proxy_of_nd, get_mux. sb_safe_step; [sb_safe|]. apply sb_safe_find.
  intros p. sb_safe.
Qed.
Hint Resolve sb_safe_proxy_of_nd : sb_safe.

Lemma inv_handle l e : preserves (inv l) (handle e).
Proof.
  destruct e; simpl;
    try (apply inv_sb_safe; unfold xeth_nb_inetaddr, xeth_nb_inet6addr, xeth_nb_netevent,
      xeth_nb_fib, own_proxy; cbv zeta; sb_safe; fail).
  unfold xeth_nb_netdevice. pose proof (inv_check_lowers l). pose proof (inv_stop_net_fib l).
  assert (forall n b, preserves (inv l) (ignore (xeth_sbtx_netns n b)))
    by (intros; apply inv_sb_safe; auto with sb_safe).
  assert (forall p i r, preserves (inv l) (ignore (xeth_sbtx_ifinfo p i r)))
    by (intros; apply inv_sb_safe; auto with sb_safe).
  pose proof (inv_sb_safe l _ (sb_safe_proxy_of_nd nd)).
  by_structure; auto.
Qed.

Lemma inv_mux_sbrx l rx t : preserves (inv l) (xeth_mux_sbrx rx t).
Proof. unfold xeth_mux_sbrx. cbv zeta. pose proof (inv_sbrx l). by_structure; auto. Qed.

Lemma service_loop_inv l ticks : forall err ms rx sleeps,
  preserves (inv l) (service_loop ticks err ms rx sleeps).
Proof.
  induction ticks as [|t ticks IH]; intros err ms rx sleeps; [apply preserves_ret|].
  cbn [service_loop]. apply preserves_bind.
  { apply preserves_for_each. intros e. unfold deliver_event.
    pose proof (inv_handle l e). by_structure; auto. }
  intros _. apply preserves_bind; [by_structure|]. intros _.
  apply preserves_bind; [apply inv_mux_sbrx|]. intros [err1 rx1].
  destruct (err1 =? 1); [apply preserves_ret|].
  destruct (err1 <? 0); [apply preserves_ret|]. cbv zeta.
  intros w r w' Hi E. bind_step E. destruct (inv_pop _ _ _ _ Hi E0) as [Hi1 Hb].
  destruct a as [b|]; [|destruct (err1 =? 0); by eapply IH].
  revert E. revert Hi1. generalize s. clear -IH KL Hb. intros s. revert r w'.
  assert (preserves (inv l) (xeth_mux_inc xeth_mux_counter_sbtx_ticks ≫= fun _ =>
    err ← xeth_mux_sbtx b (tk_send t);
    if err =? - EAGAIN then service_loop ticks 0 minms rx1 (sleeps ++ [minms])
    else if err =? - ECONNRESET then mret (0, rx1, sleeps)
    else service_loop ticks err minms rx1 sleeps)) as Hp.
  { pose proof (inv_sbtx l b (tk_send t) Hb). by_structure; auto. }
  intros r w' Hi1 E. by eapply Hp.
Qed.

Lemma inv_flush l w w' : inv l w -> xeth_mux_flush_sbtx w = Some (tt, w') ->
  inv l w' /\ mx_sb_tx (w_priv w') = [] /\
  counter_get xeth_mux_counter_sbtx_queued (w_priv w') = 0.
Proof.
  intros Hi E. pose proof Hi as [[_ Hs] _].
  destruct (flush_run _ Hs) as (w2 & E2 & Hs2 & Htx & _ & Hc). rewrite E in E2. injection E2 as <-.
  split; [|done]. eapply inv_frame; [by eapply steps_flush|done|done].
Qed.

Lemma steps_reg_stop n w r w' :
  is_fib n = false -> (n = NbNetdevice -> mx_fibs (w_priv w) = []) ->
  xeth_nb_stop n w = Some (r, w') -> reg_frame w w'.
Proof.
  intros Hn Hd E. unfold xeth_nb_stop in E. bind_step E. injection E0 as <- <-.
  destruct (flag_has _ _); [|by injection E as <- <-]. cbn [when] in E. bind_step E.
  apply unregister_law in E0 as (F & _); [|done]. injection E as <- <-.
  etrans; [by apply reg_frame_nb|]. by split.
Qed.
Lemma steps_reg_stop_all_fib : steps reg_frame xeth_nb_stop_all_fib.
Proof.
  unfold xeth_nb_stop_all_fib. apply steps_bind; [exact _|apply steps_gets; exact _|intros priv].
  apply steps_for_each; [exact _|]. apply steps_reg_stop_fib.
Qed.

Lemma stop_notifiers_reg w r w' : nb_inv w -> stop_notifiers w = Some (r, w') -> reg_frame w w'.
Proof.
  intros Hw E. unfold stop_notifiers in E. bind_step E. bind_step E. bind_step E.
  destruct (stop_preserves NbNetevent _ _ _ eq_refl ltac:(done) Hw E0) as (I1 & L1 & _).
  destruct (stop_all_fib_run _ _ _ I1 E1) as (I2 & L2 & _).
  destruct (stop_preserves NbInetaddr _ _ _ eq_refl ltac:(done) I2 E2) as (I3 & L3 & _).
  etrans; [by eapply (steps_reg_stop NbNetevent)|].
  etrans; [by eapply steps_reg_stop_all_fib|].
  etrans; [by eapply (steps_reg_stop NbInetaddr)|].
  eapply (steps_reg_stop NbNetdevice); [done|congruence|exact E].
Qed.

Lemma service_sb_run l ticks rx w r w' :
  inv l w -> xeth_mux_service_sb ticks rx w = Some (r, w') ->
  inv l w' /\ mx_sb_tx (w_priv w') = [] /\
  counter_get xeth_mux_counter_sbtx_queued (w_priv w') = 0 /\ mx_fibs (w_priv w') = [] /\
  mx_chains (w_priv w') = [] /\ (forall n, flag_has (nb_flag n) (w_priv w') = false) /\ r.1 <= 0.
Proof.
  intros Hi E. unfold xeth_mux_service_sb in E. bind_step E. destruct a as [[err rx'] sl].
  apply service_loop_inv with (l := l) in E0; [|done].
  assert ((stop_notifiers ≫= fun _ => xeth_mux_flush_sbtx ≫= fun _ =>
    mret (if err <? 0 then err else 0, rx')) s = Some (r, w')) as E'.
  { rewrite <- E. unfold stop_notifiers. rewrite !bind_run.
    destruct (xeth_nb_stop_netevent s) as [[? ?]|]; [|done]. rewrite !bind_run.
    destruct (xeth_nb_stop_all_fib _) as [[? ?]|]; [|done]. rewrite !bind_run.
    by destruct (xeth_nb_stop_inetaddr _) as [[? ?]|]. }
  clear E. bind_step E'. bind_step E'. injection E' as <- <-. destruct a0.
  pose proof E0 as [Hn R].
  destruct (stop_notifiers_run _ _ _ Hn E) as (I1 & L1 & C1 & G1).
  assert (inv l s0) as Hi0.
  { split; [done|]. exact (reg_frame_rep _ _ _ (stop_notifiers_reg _ _ _ Hn E) R). }
  destruct (inv_flush _ _ _ Hi0 E1) as (Hi2 & Htx & Hc). pose proof (steps_flush _ _ _ E1) as F.
  split; [done|]. split; [done|]. split; [done|].
  rewrite (nb_frame_fibs _ _ (sb_frame_nb _ _ F)), (sb_frame_chains _ _ F).
  split; [done|]. split; [done|].
  split; [intros n; by rewrite (nb_frame_flag _ _ _ (sb_frame_nb _ _ F))|]. simpl. destruct (Z.ltb_spec err 0); lia.
Qed.

(** C5: However a connection goes and ends, whatever the daemon sends, the
    kernel notifies and the socket returns, the invariants hold after it, no
    message waits and the counter says so, no notifier of the mux is in any chain
    of the kernel, no FIB notifier is listed, every notifier flag is clear, and
    what is returned is no positive count but 0 or an error. *)
Theorem service_ends_clean l ticks rx w r w' :
  inv l w -> xeth_mux_service_sb ticks rx w = Some (r, w') ->
  inv l w' /\ mx_sb_tx (w_priv w') = [] /\
  counter_get xeth_mux_counter_sbtx_queued (w_priv w') = 0 /\ mx_fibs (w_priv w') = [] /\
  mx_chains (w_priv w') = [] /\ (forall n, flag_has (nb_flag n) (w_priv w') = false) /\ r.1 <= 0.
Proof. apply service_sb_run. Qed.

(** The back-off: doubled from 10 ms on, at most 320 ms. *)
Definition backoff (ms : Z) : Prop := exists k, 0 <= k <= 5 /\ ms = minms * 2 ^ k.

Lemma backoff_min : backoff minms.
Proof. exists 0. split; [lia|reflexivity]. Qed.
Lemma backoff_next ms : backoff ms -> backoff (if ms <? maxms then ms * 2 else ms).
Proof.
  intros (k & Hk & ->). unfold backoff, minms, maxms.
  destruct (Z.ltb_spec (10 * 2 ^ k) 320) as [Hlt|]; [|by exists k].
  exists (k + 1). rewrite Z.pow_add_r, Z.pow_1_r by lia. split; [|by rewrite Z.mul_assoc].
  destruct (decide (k = 5)) as [->|]; [|lia]. change (2 ^ 5) with 32 in Hlt. lia.
Qed.

Lemma service_loop_backoff ticks : forall err ms rx sleeps w r w',
  backoff ms -> Forall backoff sleeps ->
  service_loop ticks err ms rx sleeps w = Some (r, w') -> Forall backoff r.2.
Proof.
  induction ticks as [|t ticks IH]; intros err ms rx sleeps w r w' Hms Hsl E.
  { by injection E as <- <-. }
  cbn [service_loop] in E. bind_step E. bind_step E. bind_step E. destruct a1 as [err1 rx1].
  destruct (err1 =? 1); [by injection E as <- <-|].
  destruct (err1 <? 0); [by injection E as <- <-|]. cbv zeta in E. bind_step E.
  set (ms1 := if 0 <? err1 then minms else ms) in E.
  assert (backoff ms1) as H1 by (unfold ms1; destruct (0 <? err1); [apply backoff_min|done]).
  destruct a1 as [b|].
  - bind_step E. bind_step E.
    destruct (a2 =? - EAGAIN);
      [eapply IH; [| |exact E]; [apply backoff_min|]; apply Forall_app; split; [done|];
       apply Forall_singleton, backoff_min|].
    destruct (a2 =? - ECONNRESET); [by injection E as <- <-|].
    eapply IH; [apply backoff_min|done|exact E].
  - destruct (err1 =? 0).
    + eapply IH; [by apply backoff_next| |exact E]. apply Forall_app. split; [done|].
      by apply Forall_singleton.
    + by eapply IH.
Qed.


(** The service sleeps 10, 20, 40, 80, 160 or 320 milliseconds at a time,
    never more and never less, whatever happens. *)
Theorem service_backoff ticks rx w err rx' sleeps w' :
  service_loop ticks 0 minms rx [] w = Some (err, rx', sleeps, w') ->
  Forall (fun ms => ms ∈ [10; 20; 40; 80; 160; 320]) sleeps.
Proof.
  intros E. apply service_loop_backoff in E; [|apply backoff_min|constructor].
  eapply Forall_impl; [exact E|]. intros ms (k & Hk & ->). unfold minms.
  assert (k = 0 \/ k = 1 \/ k = 2 \/ k = 3 \/ k = 4 \/ k = 5)
    as [->|[->|[->|[->|[->| ->]]]]] by lia; apply list_elem_of_In; vm_compute; tauto.
Qed.

(** ** The task *)

Lemma main_loop_err accepts err rx w : err <> 0 -> main_loop accepts err rx w = Some (err, w).
Proof. intros He. apply Z.eqb_neq in He. destruct accepts; [done|]. simpl. by rewrite He. Qed.

(** A message the driver refuses in the first tick of a connection. *)
Definition refused (rx : list Z) (t : tick) : bool :=
  match header_at (rx_after rx (tk_data t)) with
  | Some h => (0 <? tk_recv t) &&
      ((tk_recv t <? Z.of_nat sizeof_header) || negb (xeth_sbrx_is_msg h) ||
       negb (mh_version h =? XETH_MSG_VERSION))
  | None => false
  end.

Lemma refused_sbrx rx t w :
  refused rx t = true ->
  exists w', xeth_mux_sbrx rx t w = Some (- EINVAL, rx_after rx (tk_data t), w').
Proof.
  unfold refused. destruct (header_at _) as [h|] eqn:Hh; [|done]. intros Hr. unbool.
  unfold xeth_mux_sbrx. cbv zeta. unfold EAGAIN, ECONNRESET.
  destruct (Z.eqb_spec (tk_recv t) (- (11))); [lia|].
  destruct (Z.eqb_spec (tk_recv t) 0); [lia|]. destruct (Z.eqb_spec (tk_recv t) (- (104))); [lia|].
  cbn [orb]. destruct (Z.ltb_spec (tk_recv t) 0); [lia|].
  rewrite bind_run. unfold xeth_mux_inc, xeth_mux_add, mod_mux. cbn [modify].
  rewrite bind_run. unfold xeth_sbrx_msg. rewrite bind_run, Hh. cbn [deref mret M_ret].
  eexists. destruct (_ || negb (xeth_sbrx_is_msg h)) eqn:Hb; [reflexivity|].
  destruct (mh_version h =? XETH_MSG_VERSION) eqn:Hv; [|reflexivity].
  exfalso. destruct H1 as [H1|H1]; [|done]. congruence.
Qed.

Lemma service_refused t rx w :
  tk_events t = [] -> refused rx t = true ->
  exists w', forall ticks, service_loop (t :: ticks) 0 minms rx [] w =
    Some (- EINVAL, rx_after rx (tk_data t), [], w').
Proof.
  intros He Hr.
  destruct (refused_sbrx rx t (upd_w_priv (counter_add xeth_mux_counter_sbrx_ticks 1) w) Hr)
    as [w' E]. exists w'. intros ticks. cbn [service_loop]. rewrite He. cbn [for_each].
  rewrite bind_run. cbn [mret M_ret]. rewrite bind_run.
  change (xeth_mux_inc xeth_mux_counter_sbrx_ticks w)
    with (Some (tt, upd_w_priv (counter_add xeth_mux_counter_sbrx_ticks 1) w)).
  cbv beta iota. rewrite bind_run, E. reflexivity.
Qed.

(** A message with a bad header ends not the connection only: the task of the
    mux leaves its accept loop with -EINVAL and no later connection is served. *)
Theorem refused_message_is_final t ticks accepts rx w :
  tk_events t = [] -> refused rx t = true ->
  main_loop (AcceptConn (t :: ticks) :: accepts) 0 rx w = main_loop [AcceptConn [t]] 0 rx w /\
  forall r w', main_loop (AcceptConn (t :: ticks) :: accepts) 0 rx w = Some (r, w') -> r = - EINVAL.
Proof.
  intros He Hr.
  assert (forall w0, xeth_mux_service_sb (t :: ticks) rx w0 = xeth_mux_service_sb [t] rx w0 /\
    forall r w', xeth_mux_service_sb (t :: ticks) rx w0 = Some (r, w') -> r.1 = - EINVAL) as Hsb.
  { intros w0. destruct (service_refused t rx w0 He Hr) as [w1 Es]. unfold xeth_mux_service_sb.
    rewrite !(bind_run (service_loop _ _ _ _ _)), !Es. split; [done|].
    intros r w' E. repeat (apply bind_inv in E as (? & ? & _ & E)). by injection E as <- _. }
  cbn [main_loop]. change (negb (0 =? 0)) with false. cbv iota. split.
  - rewrite ?bind_run. destruct (xeth_mux_set _ w) as [[[] w1]|]; [|done].
    rewrite ?bind_run. destruct (xeth_mux_reset_all_link_stats w1) as [[[] w2]|]; [|done].
    rewrite ?bind_run. destruct (xeth_mux_reset_all_port_ethtool_stats w2) as [[[] w3]|]; [|done].
    destruct (Hsb w3) as [Hs1 Hs2]. rewrite ?bind_run. rewrite <- Hs1.
    destruct (xeth_mux_service_sb (t :: ticks) rx w3) as [[[err rx'] w4]|] eqn:E4; [|done].
    specialize (Hs2 _ _ eq_refl). simpl in Hs2. subst err.
    rewrite ?bind_run. destruct (xeth_mux_clear _ w4) as [[[] w5]|]; [|done].
    rewrite ?bind_run. destruct (xeth_mux_drop_all_port_carrier w5) as [[[] w6]|]; [|done].
    by rewrite !main_loop_err.
  - intros r w' E. bind_step E. bind_step E. bind_step E. bind_step E.
    destruct a2 as [err rx']. destruct (Hsb s1) as [_ Hs2]. specialize (Hs2 _ _ E3).
    simpl in Hs2. subst err. bind_step E. bind_step E.
    rewrite main_loop_err in E by done. by injection E as <- _.
Qed.


(** The flags of the task itself are no notifier's. *)
Definition task_flag (f : xeth_mux_flag) : bool :=
  bool_decide (f = xeth_mux_flag_main_task) || bool_decide (f = xeth_mux_flag_sb_listen) ||
  bool_decide (f = xeth_mux_flag_sb_connection).

Lemma inv_flags l g w :
  (forall f, task_flag f = false -> flag_has f (upd_mx_flags g (w_priv w)) = flag_has f (w_priv w)) ->
  inv l w -> inv l (upd_w_priv (upd_mx_flags g) w).
Proof.
  intros Hg [[[N1 N2 N3 N4] []] R]. split.
  - split; [|by split]. split; simpl; try done; intros n.
    + rewrite N2. destruct n; unfold nb_active; try done; by rewrite Hg.
    + intros Hn. rewrite Hg by (by destruct n). auto.
  - eapply reg_frame_rep; [|exact R]. by split.
Qed.

Lemma inv_set l f : task_flag f = true -> preserves (inv l) (xeth_mux_set f).
Proof.
  intros Hf. apply preserves_modify. intros w. apply inv_flags. intros g Hg.
  apply flag_set_other. congruence.
Qed.
Lemma inv_clear l f : task_flag f = true -> preserves (inv l) (xeth_mux_clear f).
Proof.
  intros Hf. apply preserves_modify. intros w. apply inv_flags. intros g Hg.
  apply flag_clear_other. congruence.
Qed.

Lemma inv_drop_carrier l : preserves (inv l) xeth_mux_drop_all_port_carrier.
Proof.
  unfold xeth_mux_drop_all_port_carrier. apply preserves_bind; [apply preserves_gets|].
  intros priv. apply preserves_for_each. intros p. by apply inv_mod_dev.
Qed.
Lemma inv_reset_link_stats l : preserves (inv l) xeth_mux_reset_all_link_stats.
Proof.
  assert (forall p, preserves (inv l) (xeth_proxy_reset_link_stats p))
    by (intros; by apply inv_mod_proxy).
  unfold xeth_mux_reset_all_link_stats. apply preserves_bind.
  - apply preserves_modify. intros w [[[] []] R]. split; [by split|].
    eapply reg_frame_rep; [|exact R]. by split.
  - intros _. by_structure; auto.
Qed.
Lemma inv_reset_ethtool l : preserves (inv l) xeth_mux_reset_all_port_ethtool_stats.
Proof.
  assert (forall p f, (forall px, px_xid (f px) = px_xid px /\ px_kind (f px) = px_kind px /\
    px_mux (f px) = px_mux px) -> preserves (inv l) (mod_proxy p f)) by (intros; by apply inv_mod_proxy).
  unfold xeth_mux_reset_all_port_ethtool_stats, xeth_port_reset_ethtool_stats, mod_ext, mod_port,
    port_ext, port_priv.
  by_structure; auto.
Qed.

(** The flags do not change. *)
Definition same_flags (w w' : world) : Prop := mx_flags (w_priv w') = mx_flags (w_priv w).
#[export] Instance same_flags_preorder : PreOrder same_flags.
Proof. split; [by intros w|intros w1 w2 w3 E1 E2; unfold same_flags in *; congruence]. Qed.

Lemma flags_drop_carrier : steps same_flags xeth_mux_drop_all_port_carrier.
Proof.
  unfold xeth_mux_drop_all_port_carrier.
  apply steps_bind; [exact _|apply steps_gets; exact _|intros priv].
  apply steps_for_each; [exact _|]. intros p w r w' E. unfold netif_carrier_off, mod_dev in E.
  bind_step E. apply dev_inv in E0 as [-> _]. by injection E as <- <-.
Qed.

Lemma main_loop_run l accepts : forall err rx w r w',
  inv l w -> flag_has xeth_mux_flag_sb_connection (w_priv w) = false ->
  main_loop accepts err rx w = Some (r, w') ->
  inv l w' /\ flag_has xeth_mux_flag_sb_connection (w_priv w') = false.
Proof.
  induction accepts as [|a accepts IH]; intros err rx w r w' Hi Hf E; cbn [main_loop] in E.
  { by injection E as <- <-. }
  destruct (negb (err =? 0)); [by injection E as <- <-|].
  destruct a as [|e| |ticks]; [by eapply IH..|].
  bind_step E. bind_step E. bind_step E. bind_step E. destruct a2 as [err' rx'].
  bind_step E. bind_step E.
  apply (inv_set l xeth_mux_flag_sb_connection eq_refl) in E0; [|done].
  apply (inv_reset_link_stats l) in E1; [|done]. apply (inv_reset_ethtool l) in E2; [|done].
  destruct (service_sb_run l _ _ _ _ _ E2 E3) as [H3 _].
  pose proof (inv_clear l xeth_mux_flag_sb_connection eq_refl _ _ _ H3 E4) as H4.
  eapply IH; [by eapply inv_drop_carrier| |exact E].
  apply flags_drop_carrier in E5. unfold flag_has. rewrite E5. injection E4 as <- <-.
  apply Z.clearbit_eq.
Qed.

(** C7: When the task of the mux ends, however it ends, its flags say that it
    does not run, does not listen and has no connection, and the invariants hold. *)
Theorem main_ends_clean l ln accepts rx w r w' :
  inv l w -> flag_has xeth_mux_flag_sb_connection (w_priv w) = false ->
  flag_has xeth_mux_flag_sb_listen (w_priv w) = false ->
  xeth_mux_main ln accepts rx w = Some (r, w') ->
  inv l w' /\ flag_has xeth_mux_flag_main_task (w_priv w') = false /\
  flag_has xeth_mux_flag_sb_listen (w_priv w') = false /\
  flag_has xeth_mux_flag_sb_connection (w_priv w') = false.
Proof.
  intros Hi Hc Hl E. unfold xeth_mux_main in E. bind_step E. bind_step E.
  pose proof (inv_set l xeth_mux_flag_main_task eq_refl _ _ _ Hi E0) as H0.
  pose proof (inv_drop_carrier l _ _ _ H0 E1) as H1. apply flags_drop_carrier in E1.
  assert (forall f, f <> xeth_mux_flag_main_task ->
    flag_has f (w_priv s0) = flag_has f (w_priv w)) as Hf.
  { intros f Hne. unfold flag_has. rewrite E1. injection E0 as <- <-.
    apply (flag_set_other xeth_mux_flag_main_task f (w_priv w)). congruence. }
  assert (forall b e s1, inv l s1 -> flag_has xeth_mux_flag_sb_connection (w_priv s1) = false ->
    (b = false -> flag_has xeth_mux_flag_sb_listen (w_priv s1) = false) ->
    xeth_mux_main_exit b e s1 = Some (r, w') ->
    inv l w' /\ flag_has xeth_mux_flag_main_task (w_priv w') = false /\
    flag_has xeth_mux_flag_sb_listen (w_priv w') = false /\
    flag_has xeth_mux_flag_sb_connection (w_priv w') = false) as Hexit.
  { clear. intros b e s1 H1 Hc Hl E. unfold xeth_mux_main_exit in E. bind_step E. bind_step E.
    injection E as <- <-.
    assert (inv l s) as H2.
    { destruct b; [by eapply (inv_clear l xeth_mux_flag_sb_listen)|by injection E0 as <- <-]. }
    assert (flag_has xeth_mux_flag_sb_listen (w_priv s) = false /\
      flag_has xeth_mux_flag_sb_connection (w_priv s) = false) as [L2 C2].
    { destruct b; injection E0 as <- <-; [|by auto]. split; [apply flag_clear_same|].
      rewrite <- Hc. by apply flag_clear_other. }
    split; [by eapply (inv_clear l xeth_mux_flag_main_task)|]. injection E1 as <- <-.
    split; [apply flag_clear_same|].
    split; [rewrite <- L2|rewrite <- C2]; by apply flag_clear_other. }
  destruct (negb (ln_create ln =? 0)); [by eapply Hexit; rewrite ?Hf|].
  destruct (negb (ln_bind ln =? 0)); [by eapply Hexit; rewrite ?Hf|].
  destruct (negb (ln_listen ln =? 0)); [by eapply Hexit; rewrite ?Hf|].
  bind_step E. bind_step E.
  pose proof (inv_set l xeth_mux_flag_sb_listen eq_refl _ _ _ H1 E2) as H2.
  assert (flag_has xeth_mux_flag_sb_connection (w_priv s1) = false) as C2.
  { injection E2 as <- <-. rewrite <- Hc, <- Hf by done. by apply flag_set_other. }
  destruct (main_loop_run l _ _ _ _ _ _ H2 C2 E3) as [H3 C3]. by apply (Hexit true a2 s2).
Qed.

End service.

(** ** Witnesses *)

Definition demo_rx : list Z := replicate (Z.to_nat XETH_SIZEOF_JUMBO_FRAME) 0.

Definition idle (send : Z) : tick :=
  {| tk_events := []; tk_recv := - EAGAIN; tk_data := []; tk_send := send |}.
Definition demo_request (kind : xeth_msg_kind) : tick :=
  {| tk_events := []; tk_recv := 16; tk_data := msg_bytes kind XethMsgEmpty; tk_send := 64 |}.
Definition demo_event : tick :=
  {| tk_events := [EvInetaddr NETDEV_UP {| in_address := 1; in_mask := 255 |} (Some 2)];
     tk_recv := - EAGAIN; tk_data := []; tk_send := - EAGAIN |}.
Definition demo_ticks : list tick :=
  [demo_request XETH_MSG_KIND_DUMP_IFINFO; idle 64; demo_event; idle 64;
   demo_request XETH_MSG_KIND_DUMP_FIBINFO; idle (- EAGAIN); idle 32].

Definition demo_served : world :=
  ends (service_loop (C:=demo_const) (K:=plain_notify) (H:=golden_hash)
    demo_ticks 0 minms demo_rx []) demo_full.
Definition demo_rx' : list Z := rx_after (rx_after demo_rx (msg_bytes XETH_MSG_KIND_DUMP_IFINFO XethMsgEmpty))
  (msg_bytes XETH_MSG_KIND_DUMP_FIBINFO XethMsgEmpty).
Lemma demo_served_run :
  service_loop (C:=demo_const) (K:=plain_notify) (H:=golden_hash) demo_ticks 0 minms demo_rx []
    demo_full = Some (0, demo_rx', [10; 10], demo_served).
Proof. vm_compute. reflexivity. Qed.

Lemma service_in_order_witness :
  exists ms', w_wire demo_served ++ queued demo_served = w_wire demo_full ++ queued demo_full ++ ms' /\
    length (w_wire demo_served) = 5%nat.
Proof.
  destruct (service_in_order (C:=demo_const) (K:=plain_notify) (H:=golden_hash)
    (KL:=plain_notify_laws) demo_ticks 0 minms demo_rx [] demo_full (0, demo_rx', [10; 10])
    demo_served eq_refl demo_served_run) as [ms' E].
  exists ms'. split; [exact E|vm_compute; reflexivity].
Defined.

Lemma service_backoff_witness :
  Forall (fun ms => ms ∈ [10; 20; 40; 80; 160; 320]) [10; 10].
Proof.
  apply (service_backoff (C:=demo_const) (K:=plain_notify) (H:=golden_hash)
    demo_ticks demo_rx demo_full 0 demo_rx' [10; 10] demo_served demo_served_run).
Defined.

Definition demo_closed : world :=
  ends (xeth_mux_service_sb (C:=demo_const) (K:=plain_notify) (H:=golden_hash)
    demo_ticks demo_rx) demo_full.
Lemma demo_closed_run :
  xeth_mux_service_sb (C:=demo_const) (K:=plain_notify) (H:=golden_hash) demo_ticks demo_rx demo_full
    = Some (0, demo_rx', demo_closed).
Proof. vm_compute. reflexivity. Qed.

Lemma service_ends_clean_witness :
  inv (H:=golden_hash) [7; 6; 4; 5; 3; 2; 1] demo_closed /\ mx_sb_tx (w_priv demo_closed) = [] /\
  mx_fibs (w_priv demo_closed) = [] /\ mx_chains (w_priv demo_closed) = [].
Proof.
  destruct (service_ends_clean (C:=demo_const) (K:=plain_notify) (H:=golden_hash)
    (KL:=plain_notify_laws) [7; 6; 4; 5; 3; 2; 1] demo_ticks demo_rx demo_full (0, demo_rx')
    demo_closed demo_full_inv demo_closed_run) as (I & T & _ & F & N & _).
  split; [exact I|]. split; [exact T|]. split; [exact F|exact N].
Defined.

(** A message of version 0. *)
Definition demo_bad : tick :=
  {| tk_events := []; tk_recv := 16; tk_data := replicate 16 0; tk_send := 64 |}.

Lemma refused_message_is_final_witness :
  main_loop (C:=demo_const) (K:=plain_notify) (H:=golden_hash)
    [AcceptConn (demo_bad :: demo_ticks); AcceptConn demo_ticks] 0 demo_rx demo_full =
  main_loop (C:=demo_const) (K:=plain_notify) (H:=golden_hash) [AcceptConn [demo_bad]] 0 demo_rx
    demo_full.
Proof.
  apply (refused_message_is_final (C:=demo_const) (K:=plain_notify) (H:=golden_hash)
    demo_bad demo_ticks [AcceptConn demo_ticks] demo_rx demo_full); vm_compute; reflexivity.
Defined.

(** The mux before its task runs. *)
Definition demo_idle : world := ends (xeth_mux_clear xeth_mux_flag_sb_connection) demo_full.
Definition demo_listener : listener := {| ln_create := 0; ln_bind := 0; ln_listen := 0 |}.
Definition demo_ended : world :=
  ends (xeth_mux_main (C:=demo_const) (K:=plain_notify) (H:=golden_hash) demo_listener
    [AcceptAgain; AcceptConn demo_ticks] demo_rx) demo_idle.
Lemma demo_ended_run :
  xeth_mux_main (C:=demo_const) (K:=plain_notify) (H:=golden_hash) demo_listener
    [AcceptAgain; AcceptConn demo_ticks] demo_rx demo_idle = Some (0, demo_ended).
Proof. vm_compute. reflexivity. Qed.
Lemma demo_idle_inv : inv (H:=golden_hash) [7; 6; 4; 5; 3; 2; 1] demo_idle.
Proof.
  eapply (inv_clear _ xeth_mux_flag_sb_connection eq_refl demo_full tt); [exact demo_full_inv|].
  reflexivity.
Qed.

Lemma main_ends_clean_witness :
  inv (H:=golden_hash) [7; 6; 4; 5; 3; 2; 1] demo_ended /\
  flag_has xeth_mux_flag_main_task (w_priv demo_ended) = false.
Proof.
  destruct (main_ends_clean (C:=demo_const) (K:=plain_notify) (H:=golden_hash)
    (KL:=plain_notify_laws) [7; 6; 4; 5; 3; 2; 1] demo_listener [AcceptAgain; AcceptConn demo_ticks]
    demo_rx demo_idle 0 demo_ended demo_idle_inv) as (I & F & _).
  - vm_compute. reflexivity.
  - vm_compute. reflexivity.
  - exact demo_ended_run.
  - split; [exact I|exact F].
Defined.
