(* ===== verification/Encap.v ===== *)
(** * The data path (dkms/xeth_mux.c, dkms/xeth_proxy.c)

    A frame a proxy transmits is tagged with the XID of the proxy and handed to
    the mux, which sends it on a link to the switch; a frame from the switch is
    demultiplexed by its tags to the proxy with that XID.  A frame the mux is
    given with an exception tag returns to a proxy at once.  The tagging
    function of the kernel, its classification of tags and the outcome of its
    transmit and receive queues are parameters. *)

From stdpp Require Import base numbers list gmap.
From Stdlib Require Import ZArith Lia.
From S2P Require Import Prelude Bytes Monad Uapi State Stats Kernel Demo Registry.

Local Open Scope Z_scope.

(** ** Socket buffers *)

Definition ETH_HLEN : nat := 14.
Definition VLAN_HLEN : nat := 4.
Definition ETH_P_8021Q : Z := 0x8100.
Definition ETH_P_8021AD : Z := 0x88A8.
Definition ETH_P_802_3_MIN : Z := 0x0600.
Definition ETH_P_802_3 : Z := 1.
Definition ETH_P_802_2 : Z := 4.
Definition VLAN_PRIO_SHIFT : Z := 13.
Definition VLAN_PRIO_MASK : Z := 0xe000.
Definition VLAN_VID_MASK : Z := 0x0fff.

Definition eth_type_vlan (proto : Z) : bool := (proto =? ETH_P_8021Q) || (proto =? ETH_P_8021AD).

(** The bytes from skb->data on, and their number skb->len. *)
Definition skb_bytes (skb : sk_buff) : list Z := drop (skb_data skb) (skb_buf skb).
Definition skb_len (skb : sk_buff) : Z := Z.of_nat (length (skb_bytes skb)).

(** A 16-bit big-endian field at an offset from skb->data. *)
Definition skb_be16 (skb : sk_buff) (off : nat) : M world Z :=
  bs ← deref (buf_read (skb_data skb + off) 2 (skb_buf skb)); mret (be_val bs).

(** skb_pull_inline does nothing for more bytes than there are. *)
Definition skb_pull_inline (n : nat) (skb : sk_buff) : sk_buff :=
  if Z.of_nat n <=? skb_len skb then upd_skb_data (fun d => (d + n)%nat) skb else skb.

(** skb_push panics without headroom. *)
Definition skb_push (n : nat) (skb : sk_buff) : M world sk_buff :=
  if bool_decide (n <= skb_data skb)%nat then mret (upd_skb_data (fun d => (d - n)%nat) skb) else oops.

(** eth_type_trans: the MAC header is at skb->data, which moves past it. *)
Definition eth_type_trans (nd : Z) (skb : sk_buff) : sk_buff :=
  skb_pull_inline ETH_HLEN (upd_skb_mac (fun _ => skb_data skb) (upd_skb_dev (fun _ => nd) skb)).

(** ** Kernel interface *)

Class KernelTx := {
  vlan_insert_tag_set_proto : sk_buff -> Z -> Z -> option sk_buff;
  vlan_get_tag : sk_buff -> option Z;
  (** what the queues answer: 0 from dev_queue_xmit and true from
      dev_forward_skb if the frame is on its way *)
  dev_queue_xmit_result : world -> sk_buff -> Z;
  dev_forward_skb_result : world -> Z -> sk_buff -> bool;
  (** what skb->len reads once the frame was handed to dev_forward_skb *)
  forwarded_len : sk_buff -> Z;
}.

(** The tag goes behind the addresses, and is the frame's protocol then. *)
Class KernelTxLaws {T : KernelTx} : Prop := {
  insert_tag_law skb tpid tci skb' :
    vlan_insert_tag_set_proto skb tpid tci = Some skb' ->
    skb_bytes skb' = take 12 (skb_bytes skb) ++ be_bytes 2 tpid ++ be_bytes 2 tci ++
      drop 12 (skb_bytes skb) /\
    skb_protocol skb' = tpid;
}.

(** A kernel with memory for every tag, whose queues take every frame. *)
Definition plain_tx : KernelTx := {|
  vlan_insert_tag_set_proto skb tpid tci :=
    Some (upd_skb_protocol (fun _ => tpid) (upd_skb_buf (fun _ =>
      take (skb_data skb) (skb_buf skb) ++ take 12 (skb_bytes skb) ++ be_bytes 2 tpid ++
      be_bytes 2 tci ++ drop 12 (skb_bytes skb))
      (upd_skb_data (fun d => min d (length (skb_buf skb))) skb)));
  vlan_get_tag skb :=
    if eth_type_vlan (be_val (take 2 (drop 12 (skb_bytes skb))))
    then Some (be_val (take 2 (drop 14 (skb_bytes skb)))) else None;
  dev_queue_xmit_result _ _ := 0;
  dev_forward_skb_result _ _ _ := true;
  forwarded_len skb := skb_len skb - 14;
|}.

Lemma plain_tx_laws : @KernelTxLaws plain_tx.
Proof.
  split. intros skb tpid tci skb' [= <-]. split; [|done]. unfold skb_bytes at 1. simpl.
  rewrite drop_app_length'; [done|]. rewrite length_take. lia.
Qed.

Section encap.
Context {H : KernelHash} {T : KernelTx}.

(** ** Operations *)

Definition mux_stat (s : xeth_link_stat) (n : Z) : M world unit :=
  mod_mux (upd_mx_link_stats (xeth_stat_add s n)).

Definition log_io (io : frame_io) : M world unit := modify (upd_w_io (fun l => l ++ [io])).

Definition kfree_skb (skb : sk_buff) : M world unit := log_io (IoFree skb).

(** The frame goes to the queue of its device, or is dropped there. *)
Definition dev_queue_xmit (skb : sk_buff) : M world Z :=
  r ← gets (fun w => dev_queue_xmit_result w skb);
  log_io (IoXmit (skb_dev skb) skb) ≫= fun _ => mret r.

Definition dev_forward_skb (nd : Z) (skb : sk_buff) : M world bool :=
  r ← gets (fun w => dev_forward_skb_result w nd skb);
  log_io (IoForward nd skb) ≫= fun _ => mret r.

Definition xeth_mux_link_hash_vlan (skb : sk_buff) : nat :=
  match vlan_get_tag skb with
  | Some tci => Z.to_nat (Z.land tci 1)
  | None => O
  end.

(** memmove of the addresses from the MAC header to skb->data, and h_proto. *)
Definition restore_mac (skb : sk_buff) : M world sk_buff :=
  mac ← deref (buf_read (skb_mac skb) 12 (skb_buf skb));
  buf ← deref (buf_write (skb_data skb) mac (skb_buf skb));
  buf ← deref (buf_write (skb_data skb + 12) (be_bytes 2 (skb_protocol skb)) buf);
  mret (upd_skb_buf (fun _ => buf) skb).

Definition xeth_mux_demux_vlan (skb : sk_buff) : M world unit :=
  let skb := upd_skb_priority (fun _ => Z.shiftr (skb_vlan_tci skb) VLAN_PRIO_SHIFT) skb in
  let xid := Z.land (skb_vlan_tci skb) VLAN_VID_MASK in
  '(skb, xid) ← (if eth_type_vlan (skb_protocol skb) then
      tci ← skb_be16 skb 0;
      proto ← skb_be16 skb 2;
      mret (skb_pull_inline VLAN_HLEN (upd_skb_protocol (fun _ => proto) skb),
            Z.lor xid (Z.shiftl (Z.land tci VLAN_VID_MASK) XETH_ENCAP_VLAN_VID_BIT))
    else mret (skb, xid));
  proxy ← xeth_mux_proxy_of_xid xid;
  match proxy with
  | None =>
      mux_stat XETH_LINK_STAT_RX_ERRORS 1 ≫= fun _ =>
      mux_stat XETH_LINK_STAT_RX_NOHANDLER 1 ≫= fun _ =>
      kfree_skb skb
  | Some p =>
      d ← dev p;
      if has_flag (nd_flags d) IFF_UP then
        skb ← skb_push ETH_HLEN skb;
        skb ← restore_mac skb;
        let skb := upd_skb_vlan_proto (fun _ => 0) (upd_skb_vlan_tci (fun _ => 0) skb) in
        ok ← dev_forward_skb p skb;
        if (ok : bool) then
          mux_stat XETH_LINK_STAT_RX_PACKETS 1 ≫= fun _ =>
          mux_stat XETH_LINK_STAT_RX_BYTES (forwarded_len skb)
        else mux_stat XETH_LINK_STAT_RX_DROPPED 1
      else
        mux_stat XETH_LINK_STAT_RX_DROPPED 1 ≫= fun _ =>
        kfree_skb skb
  end.

Definition xeth_mux_was_vlan_exception (skb : sk_buff) : M world bool :=
  proto ← skb_be16 skb 12;
  if negb (eth_type_vlan proto) then mret false else
  encap_proto ← skb_be16 skb 16;
  tci ← skb_be16 skb 14;
  if negb (xeth_vlan_tci_is_exception tci) then mret false else
  xeth_mux_inc xeth_mux_counter_ex_frames ≫= fun _ =>
  xeth_mux_add xeth_mux_counter_ex_bytes (skb_len skb) ≫= fun _ =>
  mux ← gets w_mux;
  let skb := eth_type_trans mux skb in
  let skb := upd_skb_vlan_proto (fun _ => proto)
    (upd_skb_vlan_tci (fun _ => Z.ldiff tci VLAN_PRIO_MASK)
    (upd_skb_protocol (fun _ => encap_proto) skb)) in
  xeth_mux_demux_vlan (skb_pull_inline VLAN_HLEN skb) ≫= fun _ => mret true.

Definition xeth_mux_vlan_xmit (skb : sk_buff) : M world unit :=
  let len := skb_len skb in
  ex ← xeth_mux_was_vlan_exception skb;
  if (ex : bool) then mret tt else
  priv ← get_mux;
  mux ← gets w_mux;
  match mjoin (mx_link priv !! xeth_mux_link_hash_vlan skb) with
  | Some link =>
      d ← dev link;
      if has_flag (nd_flags d) IFF_UP then
        err ← dev_queue_xmit (upd_skb_dev (fun _ => link) skb);
        if negb (err =? 0) then mux_stat XETH_LINK_STAT_TX_DROPPED 1
        else
          mux_stat XETH_LINK_STAT_TX_PACKETS 1 ≫= fun _ =>
          mux_stat XETH_LINK_STAT_TX_BYTES len
      else
        mux_stat XETH_LINK_STAT_TX_ERRORS 1 ≫= fun _ =>
        mux_stat XETH_LINK_STAT_TX_HEARTBEAT_ERRORS 1 ≫= fun _ =>
        kfree_skb skb
  | None =>
      let skb := upd_skb_dev (fun _ => mux) skb in
      ok ← dev_forward_skb mux skb;
      if (ok : bool) then
        mux_stat XETH_LINK_STAT_RX_PACKETS 1 ≫= fun _ =>
        mux_stat XETH_LINK_STAT_RX_BYTES len
      else
        mux_stat XETH_LINK_STAT_TX_ERRORS 1 ≫= fun _ =>
        mux_stat XETH_LINK_STAT_TX_ABORTED_ERRORS 1 ≫= fun _ =>
        kfree_skb skb
  end.

Definition xeth_mux_xmit (skb : sk_buff) : M world unit :=
  priv ← get_mux;
  match mx_encap priv with
  | XETH_ENCAP_VLAN => xeth_mux_vlan_xmit skb
  | XETH_ENCAP_VPLS => mux_stat XETH_LINK_STAT_TX_DROPPED 1 ≫= fun _ => kfree_skb skb
  end.

(** The tags of a proxy's frame: its VLAN, if it is one, inside its port's. *)
Definition encap_tags (px : xeth_proxy) (skb : sk_buff) : option sk_buff :=
  if bool_decide (px_kind px = XETH_DEV_KIND_VLAN) then
    skb ← vlan_insert_tag_set_proto skb ETH_P_8021Q
            (u16 (Z.shiftr (px_xid px) XETH_ENCAP_VLAN_VID_BIT));
    vlan_insert_tag_set_proto skb ETH_P_8021AD (u16 (Z.land (px_xid px) XETH_ENCAP_VLAN_VID_MASK))
  else
    vlan_insert_tag_set_proto skb ETH_P_8021Q (u16 (Z.land (px_xid px) XETH_ENCAP_VLAN_VID_MASK)).

Definition xeth_mux_vlan_encap_xmit (skb : sk_buff) (nd : Z) : M world unit :=
  px ← netdev_priv nd;
  mux ← deref (px_mux px);
  match encap_tags px skb with
  | None => mret tt
  | Some skb =>
      let skb := upd_skb_dev (fun _ => mux) skb in
      d ← dev mux;
      if has_flag (nd_flags d) IFF_UP then dev_queue_xmit skb ≫= fun _ => mret tt
      else
        mux_stat XETH_LINK_STAT_TX_ERRORS 1 ≫= fun _ =>
        mux_stat XETH_LINK_STAT_TX_CARRIER_ERRORS 1 ≫= fun _ =>
        kfree_skb skb
  end.

Definition xeth_mux_encap_xmit (skb : sk_buff) (nd : Z) : M world unit :=
  px ← netdev_priv nd;
  _ ← deref (px_mux px);
  priv ← get_mux;
  match mx_encap priv with
  | XETH_ENCAP_VLAN => xeth_mux_vlan_encap_xmit skb nd
  | XETH_ENCAP_VPLS =>
      mod_proxy nd (upd_px_link_stats (xeth_stat_inc XETH_LINK_STAT_TX_DROPPED)) ≫= fun _ =>
      kfree_skb skb
  end.

Definition xeth_proxy_start_xmit (skb : sk_buff) (nd : Z) : M world unit :=
  d ← dev nd;
  if nd_carrier d then xeth_mux_encap_xmit skb nd else kfree_skb skb.

Definition xeth_mux_get_stats64 : M world rtnl_link_stats64 :=
  priv ← get_mux; mret (xeth_link_stats (mx_link_stats priv)).

Definition xeth_mux_demux (skb : sk_buff) : M world unit :=
  if eth_type_vlan (skb_vlan_proto skb) then xeth_mux_demux_vlan skb
  else
    mux_stat XETH_LINK_STAT_RX_ERRORS 1 ≫= fun _ =>
    mux_stat XETH_LINK_STAT_RX_FRAME_ERRORS 1 ≫= fun _ =>
    kfree_skb skb.


(** ** Reception *)

Context {HL : KernelHashLaws}.

(** A frame whose outer tag the kernel has taken off: addresses [hdr], tag [tci],
    then protocol [proto] and [rest]. *)
Record untagged (skb : sk_buff) (hdr : list Z) (tci proto : Z) (rest : list Z) : Prop := {
  ut_tci : skb_vlan_tci skb = tci;
  ut_proto : skb_protocol skb = proto;
  ut_bytes : skb_bytes skb = rest;
  ut_mac : buf_read (skb_mac skb) 12 (skb_buf skb) = Some hdr;
  ut_room : (14 <= skb_data skb)%nat;
  ut_data : (skb_data skb <= length (skb_buf skb))%nat;
}.

(** The frame that is passed up. *)
Definition eth_frame (hdr : list Z) (proto : Z) (rest : list Z) : list Z :=
  hdr ++ be_bytes 2 proto ++ rest.

Lemma buf_read_length off n l bs : buf_read off n l = Some bs -> length bs = n.
Proof.
  unfold buf_read. case_decide; [|done]. intros [= <-]. rewrite length_take, length_drop. lia.
Qed.

Lemma buf_write_at off bs l :
  (off + length bs <= length l)%nat ->
  buf_write off bs l = Some (take off l ++ bs ++ drop (off + length bs) l).
Proof. intros. unfold buf_write. by rewrite decide_True. Qed.

Lemma restore_mac_run skb hdr tci proto rest w :
  untagged skb hdr tci proto rest ->
  exists skb', (skb_push ETH_HLEN skb ≫= restore_mac) w = Some (skb', w) /\
    skb_bytes skb' = eth_frame hdr proto rest.
Proof.
  intros []. pose proof (buf_read_length _ _ _ _ ut_mac0) as Hl.
  set (d := (skb_data skb - 14)%nat).
  rewrite bind_run. unfold skb_push, ETH_HLEN. rewrite bool_decide_eq_true_2 by done.
  cbn [mret M_ret]. unfold restore_mac. cbn [skb_mac skb_buf skb_data skb_protocol upd_skb_data].
  rewrite bind_run, ut_mac0. cbn [deref mret M_ret]. fold d.
  rewrite bind_run, buf_write_at by lia. cbn [deref mret M_ret]. rewrite Hl.
  rewrite bind_run, buf_write_at.
  2: { rewrite !length_app, length_take, length_drop, length_be_bytes, Hl. lia. }
  cbn [deref mret M_ret]. eexists. split; [reflexivity|].
  unfold skb_bytes. cbn [skb_data skb_buf upd_skb_buf upd_skb_data]. fold d.
  assert (length (take d (skb_buf skb)) = d) as Ht by (rewrite length_take; lia).
  rewrite length_be_bytes. unfold eth_frame.
  rewrite take_app_ge by lia. rewrite Ht. replace (d + 12 - d)%nat with 12%nat by lia.
  rewrite (take_app_length' hdr) by lia. rewrite <- app_assoc.
  rewrite drop_app_length' by done. f_equal. f_equal.
  { by rewrite ut_proto0. } rewrite drop_app_ge by lia. rewrite Ht. rewrite drop_app_ge by lia. rewrite Hl, drop_drop.
  rewrite <- ut_bytes0. unfold skb_bytes. f_equal. lia.
Qed.

(** The delivery to the proxy with an XID. *)
Definition deliver (xid : Z) (skb : sk_buff) : M world unit :=
  proxy ← xeth_mux_proxy_of_xid xid;
  match proxy with
  | None =>
      mux_stat XETH_LINK_STAT_RX_ERRORS 1 ≫= fun _ =>
      mux_stat XETH_LINK_STAT_RX_NOHANDLER 1 ≫= fun _ =>
      kfree_skb skb
  | Some p =>
      d ← dev p;
      if has_flag (nd_flags d) IFF_UP then
        skb ← skb_push ETH_HLEN skb;
        skb ← restore_mac skb;
        let skb := upd_skb_vlan_proto (fun _ => 0) (upd_skb_vlan_tci (fun _ => 0) skb) in
        ok ← dev_forward_skb p skb;
        if (ok : bool) then
          mux_stat XETH_LINK_STAT_RX_PACKETS 1 ≫= fun _ =>
          mux_stat XETH_LINK_STAT_RX_BYTES (forwarded_len skb)
        else mux_stat XETH_LINK_STAT_RX_DROPPED 1
      else
        mux_stat XETH_LINK_STAT_RX_DROPPED 1 ≫= fun _ =>
        kfree_skb skb
  end.

(** The mux with statistics added. *)
Definition counted (cs : list (xeth_link_stat * Z)) (w : world) : world :=
  upd_w_priv (upd_mx_link_stats (fun st => foldl (fun st c => xeth_stat_add c.1 c.2 st) st cs)) w.

(** What becomes of a frame [skb] for the proxy with [xid], with addresses [hdr],
    protocol [proto] and payload [rest]: it is freed if there is none or it is
    down, and else passed to it; [skb'] is the frame then. *)
Definition delivered (w : world) (l : list Z) (xid : Z) (skb skb' : sk_buff) (hdr : list Z) (proto : Z)
    (rest : list Z) (w' : world) : Prop :=
  match spec_of_xid w l xid with
  | None =>
      skb_buf skb' = skb_buf skb /\
      w' = upd_w_io (fun l => l ++ [IoFree skb'])
        (counted [(XETH_LINK_STAT_RX_ERRORS, 1); (XETH_LINK_STAT_RX_NOHANDLER, 1)] w)
  | Some p => exists d, w_devs w !! p = Some d /\
      if has_flag (nd_flags d) IFF_UP then
        skb_bytes skb' = eth_frame hdr proto rest /\
        w' = upd_w_io (fun l => l ++ [IoForward p skb'])
          (counted (if dev_forward_skb_result w p skb'
             then [(XETH_LINK_STAT_RX_PACKETS, 1); (XETH_LINK_STAT_RX_BYTES, forwarded_len skb')]
             else [(XETH_LINK_STAT_RX_DROPPED, 1)]) w)
      else
        skb_buf skb' = skb_buf skb /\
        w' = upd_w_io (fun l => l ++ [IoFree skb']) (counted [(XETH_LINK_STAT_RX_DROPPED, 1)] w)
  end.

Lemma io_counted cs w f : w_io (upd_w_io f (counted cs w)) = f (w_io w).
Proof. done. Qed.

Lemma deliver_run w l xid skb hdr tci proto rest :
  registry_rep w l -> untagged skb hdr tci proto rest ->
  exists skb' w', deliver xid skb w = Some (tt, w') /\ delivered w l xid skb skb' hdr proto rest w'.
Proof.
  intros R Hu. unfold deliver, delivered. rewrite bind_run, (proxy_of_xid_run _ _ _ R).
  destruct (spec_of_xid w l xid) as [p|] eqn:Eq; [|exists skb; eexists; by split].
  assert (is_Some (w_devs w !! p)) as [d Ed].
  { assert (p ∈ l) as Hin.
    { unfold spec_of_xid in Eq. apply head_Some_elem_of, list_elem_of_filter in Eq. tauto. }
    destruct (rep_proxy _ _ _ R Hin) as (px & mux & Hpx & _). unfold proxy_at in Hpx.
    destruct (w_devs w !! p); [eauto|done]. }
  rewrite bind_run, (dev_run _ _ _ Ed). destruct (has_flag (nd_flags d) IFF_UP) eqn:Hf.
  2: { exists skb. eexists. split; [reflexivity|]. exists d. rewrite Hf. by split. }
  destruct (restore_mac_run _ _ _ _ _ w Hu) as (skb1 & E1 & Hb).
  rewrite bind_run in E1. rewrite bind_run. destruct (skb_push ETH_HLEN skb w) as [[s2 w2]|]; [|done].
  rewrite bind_run, E1. cbv zeta. set (skb3 := upd_skb_vlan_proto _ _).
  unfold dev_forward_skb. rewrite bind_run, bind_run. cbn [gets].
  exists skb3. eexists. split; [|exists d; rewrite Hf; split; [done|split; [exact Hb|reflexivity]]].
  by destruct (dev_forward_skb_result w p skb3).
Qed.

(** Is the proxy with the XID there, and up? *)
Definition up_proxy (w : world) (l : list Z) (xid : Z) : option Z :=
  p ← spec_of_xid w l xid; d ← w_devs w !! p;
  if has_flag (nd_flags d) IFF_UP then Some p else None.

(** What became of one frame; the rest of the world is the mux's statistics. *)
Definition outcome (w : world) (io : list frame_io) (w' : world) : Prop :=
  w_io w' = w_io w ++ io /\ w_devs w' = w_devs w /\
  exists stats, w_priv w' = upd_mx_link_stats (fun _ => stats) (w_priv w).

Lemma outcome_log w io : outcome w io (upd_w_io (fun l => l ++ io) w).
Proof.
  split; [done|]. split; [done|]. exists (mx_link_stats (w_priv w)). simpl. by destruct (w_priv w).
Qed.
Lemma outcome_none w : outcome w [] w.
Proof.
  split; [by rewrite app_nil_r|]. split; [done|]. exists (mx_link_stats (w_priv w)).
  by destruct (w_priv w).
Qed.

Lemma deliver_up w l xid p skb hdr tci proto rest :
  registry_rep w l -> up_proxy w l xid = Some p -> untagged skb hdr tci proto rest ->
  exists skb' w', deliver xid skb w = Some (tt, w') /\ skb_bytes skb' = eth_frame hdr proto rest /\
    outcome w [IoForward p skb'] w'.
Proof.
  intros R Hup Hu. destruct (deliver_run w l xid skb hdr tci proto rest R Hu) as (skb' & w' & E & D).
  unfold up_proxy in Hup. unfold delivered in D.
  destruct (spec_of_xid w l xid) as [q|] eqn:Eq; [|done]. cbn [mbind option_bind] in Hup.
  destruct D as (d & Ed & D). rewrite Ed in Hup. cbn [mbind option_bind] in Hup.
  destruct (has_flag (nd_flags d) IFF_UP); [|done]. injection Hup as <-. destruct D as [Hb ->].
  eexists _, _. split; [exact E|]. split; [exact Hb|]. split; [done|]. split; [done|]. by eexists.
Qed.

Lemma land_vid tci : Z.land tci VLAN_VID_MASK = tci `mod` 4096.
Proof. change VLAN_VID_MASK with (2 ^ 12 - 1). by rewrite land_ones_mod. Qed.

Lemma demux_vlan_plain w skb hdr tci proto rest :
  untagged skb hdr tci proto rest -> eth_type_vlan proto = false ->
  exists skb', xeth_mux_demux_vlan skb w = deliver (tci `mod` 4096) skb' w /\
    untagged skb' hdr tci proto rest /\ skb_buf skb' = skb_buf skb.
Proof.
  intros [] Hv. unfold xeth_mux_demux_vlan. cbv zeta.
  cbn [skb_protocol skb_vlan_tci upd_skb_priority].
  rewrite ut_proto0, Hv, ut_tci0, land_vid. eexists. split; [reflexivity|]. split; [by split|done].
Qed.

Lemma skb_be16_run skb off a rest w :
  drop off (skb_bytes skb) = be_bytes 2 a ++ rest -> 0 <= a < 65536 ->
  (skb_data skb + off <= length (skb_buf skb))%nat ->
  skb_be16 skb off w = Some (a, w).
Proof.
  intros Hd Ha Hl. unfold skb_be16, buf_read, skb_bytes in *. rewrite drop_drop in Hd.
  rewrite decide_True.
  - rewrite bind_run. cbn [deref mret M_ret]. rewrite Hd.
    rewrite take_app_length' by (by rewrite length_be_bytes). rewrite be_val_be_bytes.
    by rewrite Z.mod_small.
  - apply (f_equal length) in Hd. rewrite length_app, length_be_bytes, length_drop in Hd. lia.
Qed.

Lemma skb_pull_run n skb pre rest :
  skb_bytes skb = pre ++ rest -> length pre = n ->
  (skb_data skb <= length (skb_buf skb))%nat ->
  skb_bytes (skb_pull_inline n skb) = rest /\ skb_buf (skb_pull_inline n skb) = skb_buf skb /\
  skb_data (skb_pull_inline n skb) = (skb_data skb + n)%nat /\
  (skb_data skb + n <= length (skb_buf skb))%nat.
Proof.
  intros Hb Hl Hd. pose proof Hb as Hlen. apply (f_equal length) in Hlen.
  rewrite length_app, Hl in Hlen. unfold skb_bytes in Hlen. rewrite length_drop in Hlen.
  unfold skb_pull_inline, skb_len. rewrite Hb, length_app, Hl.
  destruct (Z.leb_spec (Z.of_nat n) (Z.of_nat (n + length rest))); [|lia].
  split; [|split; [done|split; [done|lia]]]. unfold skb_bytes in *. cbn [skb_data skb_buf upd_skb_data].
  rewrite <- drop_drop, Hb, <- Hl. apply drop_app_length.
Qed.

Lemma demux_vlan_inner w skb hdr tci proto tci2 proto2 rest :
  untagged skb hdr tci proto (be_bytes 2 tci2 ++ be_bytes 2 proto2 ++ rest) ->
  eth_type_vlan proto = true -> 0 <= tci2 < 65536 -> 0 <= proto2 < 65536 ->
  exists skb', xeth_mux_demux_vlan skb w =
      deliver (tci `mod` 4096 + tci2 `mod` 4096 * 4096) skb' w /\
    untagged skb' hdr tci proto2 rest /\ skb_buf skb' = skb_buf skb.
Proof.
  intros Hu Hv H2 Hp2. pose proof Hu as []. unfold xeth_mux_demux_vlan. cbv zeta.
  cbn [skb_protocol skb_vlan_tci upd_skb_priority]. rewrite ut_proto0, Hv, ut_tci0, land_vid.
  set (skb1 := upd_skb_priority _ skb).
  assert (skb_bytes skb1 = be_bytes 2 tci2 ++ be_bytes 2 proto2 ++ rest) as Hb by exact ut_bytes0.
  assert (length (skb_bytes skb1) = (4 + length rest)%nat) as Hlen
    by (rewrite Hb, !length_app, !length_be_bytes; lia).
  assert (skb_data skb1 + 2 <= length (skb_buf skb1))%nat as Hroom.
  { unfold skb_bytes in Hlen. rewrite length_drop in Hlen. lia. }
  rewrite bind_run, bind_run, (skb_be16_run skb1 0 tci2 (be_bytes 2 proto2 ++ rest)) by (done || lia).
  rewrite bind_run, (skb_be16_run skb1 2 proto2 rest).
  2: { rewrite Hb, drop_app_length' by (by rewrite length_be_bytes). done. }
  2: lia.
  2: lia.
  cbn [mret M_ret]. eexists. split; [|].
  - cbv iota beta. unfold XETH_ENCAP_VLAN_VID_BIT.
    rewrite land_vid, lor_shiftl_add; [reflexivity|lia|]. apply Z.mod_pos_bound. lia.
  - destruct (skb_pull_run VLAN_HLEN (upd_skb_protocol (fun _ => proto2) skb1)
      (be_bytes 2 tci2 ++ be_bytes 2 proto2) rest) as (P1 & P2 & P3 & P4).
    + unfold skb_bytes in *. cbn [skb_data skb_buf upd_skb_protocol]. by rewrite <- app_assoc.
    + by rewrite length_app, !length_be_bytes.
    + cbn [skb_data skb_buf upd_skb_protocol]. lia.
    + assert (forall f, f = skb_vlan_tci \/ f = skb_protocol ->
        f (skb_pull_inline VLAN_HLEN (upd_skb_protocol (fun _ => proto2) skb1)) =
        f (upd_skb_protocol (fun _ => proto2) skb1)) as Hsame.
      { unfold skb_pull_inline. intros f [-> | ->]; by destruct (_ <=? _). }
      assert (skb_mac (skb_pull_inline VLAN_HLEN (upd_skb_protocol (fun _ => proto2) skb1)) =
        skb_mac skb) as Hmac by (unfold skb_pull_inline; by destruct (_ <=? _)).
      split; [|exact P2]. split.
      * rewrite Hsame by auto. exact ut_tci0.
      * rewrite Hsame by auto. done.
      * exact P1.
      * rewrite Hmac, P2. exact ut_mac0.
      * rewrite P3. cbn [skb_data upd_skb_protocol]. unfold skb1. cbn [skb_data upd_skb_priority]. lia.
      * rewrite P3, P2. exact P4.
Qed.

(** ** Transmission *)

Context {TL : KernelTxLaws}.

(** The frame on the wire. *)
Definition tagged_frame (px : xeth_proxy) (hdr rest : list Z) : list Z :=
  hdr ++ (if bool_decide (px_kind px = XETH_DEV_KIND_VLAN)
    then be_bytes 2 ETH_P_8021AD ++ be_bytes 2 (px_xid px `mod` 4096) ++
         be_bytes 2 ETH_P_8021Q ++ be_bytes 2 (px_xid px / 4096) ++ rest
    else be_bytes 2 ETH_P_8021Q ++ be_bytes 2 (px_xid px `mod` 4096) ++ rest).

Lemma insert_tag_bytes skb hdr rest tpid tci skb' :
  skb_bytes skb = hdr ++ rest -> length hdr = 12%nat ->
  vlan_insert_tag_set_proto skb tpid tci = Some skb' ->
  skb_bytes skb' = hdr ++ be_bytes 2 tpid ++ be_bytes 2 tci ++ rest.
Proof.
  intros Hb Hl E. apply insert_tag_law in E as [E _]. rewrite E, Hb.
  rewrite take_app_length', drop_app_length' by done. done.
Qed.

Lemma encap_tags_bytes px skb hdr rest skb' :
  0 <= px_xid px < 2 ^ 24 -> skb_bytes skb = hdr ++ rest -> length hdr = 12%nat ->
  encap_tags px skb = Some skb' -> skb_bytes skb' = tagged_frame px hdr rest.
Proof.
  intros Hx Hb Hl E. unfold encap_tags, tagged_frame, XETH_ENCAP_VLAN_VID_BIT in *.
  change XETH_ENCAP_VLAN_VID_MASK with (2 ^ 12 - 1) in E.
  rewrite land_ones_mod, Z.shiftr_div_pow2 in E by lia. change (2 ^ 12) with 4096 in E.
  pose proof (Z.mod_pos_bound (px_xid px) 4096 ltac:(lia)).
  rewrite (u16_small (px_xid px `mod` 4096)) in E by lia.
  rewrite (u16_small (px_xid px / 4096)) in E.
  2: { split; [apply Z.div_pos; lia|]. apply Z.div_lt_upper_bound; lia. }
  case_bool_decide.
  - destruct (vlan_insert_tag_set_proto skb _ _) as [skb1|] eqn:E1; [|done]. cbn [mbind option_bind] in E.
    apply (insert_tag_bytes _ hdr rest) in E1; [|done..].
    by apply (insert_tag_bytes _ hdr (be_bytes 2 ETH_P_8021Q ++ be_bytes 2 (px_xid px / 4096) ++ rest)) in E.
  - by apply (insert_tag_bytes _ hdr rest) in E.
Qed.

(** The protocol the kernel gives a frame behind its tag (vlan_set_encap_proto,
    eth_type_trans): below 0x600 the field is the length of an 802.3 frame, and
    the protocol tells a raw one from one with an LLC header. *)
Definition encap_proto (field : Z) (payload : list Z) : Z :=
  if ETH_P_802_3_MIN <=? field then field else
  if bool_decide (take 2 payload = [255; 255]) then ETH_P_802_3 else ETH_P_802_2.

(** The kernel received a frame from the wire and took its outer tag off. *)
Definition received (frame : list Z) (skb : sk_buff) : Prop :=
  skb_vlan_proto skb = be_val (take 2 (drop 12 frame)) /\
  untagged skb (take 12 frame) (be_val (take 2 (drop 14 frame)))
    (encap_proto (be_val (take 2 (drop 16 frame))) (drop 18 frame)) (drop 18 frame).

Lemma received_tag skb hdr tpid tci proto rest :
  length hdr = 12%nat -> 0 <= tpid < 65536 -> 0 <= tci < 65536 -> 0 <= proto < 65536 ->
  received (hdr ++ be_bytes 2 tpid ++ be_bytes 2 tci ++ be_bytes 2 proto ++ rest) skb ->
  skb_vlan_proto skb = tpid /\ untagged skb hdr tci (encap_proto proto rest) rest.
Proof.
  intros Hl H1 H2 H3 [Hv Hu].
  assert (forall a b c, drop 12 (hdr ++ a ++ b ++ c) = a ++ b ++ c) as D0
    by (intros; by apply drop_app_length').
  assert (forall (a b c : list Z), length a = 2%nat -> drop 14 (hdr ++ a ++ b ++ c) = b ++ c) as D1.
  { intros a b c Ha. rewrite app_assoc. apply drop_app_length'. rewrite length_app. lia. }
  assert (forall (a b c : list Z), length a = 2%nat -> length b = 2%nat ->
    drop 16 (hdr ++ a ++ b ++ c) = c) as D2.
  { intros a b c Ha Hb. rewrite !app_assoc. apply drop_app_length'. rewrite !length_app. lia. }
  assert (forall (a b c d : list Z), length a = 2%nat -> length b = 2%nat -> length c = 2%nat ->
    drop 18 (hdr ++ a ++ b ++ c ++ d) = d) as D3.
  { intros a b c d Ha Hb Hc. rewrite !app_assoc. apply drop_app_length'. rewrite !length_app. lia. }
  assert (forall x (l : list Z), 0 <= x < 65536 -> be_val (take 2 (be_bytes 2 x ++ l)) = x) as V.
  { intros x l Hx. rewrite take_app_length' by (by rewrite length_be_bytes).
    rewrite be_val_be_bytes. by apply Z.mod_small. }
  rewrite D0, V in Hv by done. rewrite D1, D2, D3, !V in Hu by (done || apply length_be_bytes).
  rewrite take_app_length' in Hu by done. done.
Qed.

(** C1: A frame that a proxy sends through its tags comes back, if the switch
    returns it, to the proxy with the same XID: the tags carry the whole XID, 12
    bits for a port and 24 for a VLAN on it.  It comes back byte for byte as it was
    sent, but for one case: in the untagged 802.3 frame of a port (an LLC or
    spanning tree frame, say) the length is overwritten with the number the kernel
    uses for such frames.  (A port's own frame may not start with a tag of its own,
    which would be taken for a VLAN's.) *)
Theorem encap_demux_roundtrip w l px q skb skb1 skb2 hdr proto payload :
  registry_rep w l -> up_proxy w l (px_xid px) = Some q ->
  0 <= px_xid px < (if bool_decide (px_kind px = XETH_DEV_KIND_VLAN) then 2 ^ 24 else 2 ^ 12) ->
  length hdr = 12%nat -> 0 <= proto < 65536 ->
  (px_kind px <> XETH_DEV_KIND_VLAN -> eth_type_vlan proto = false) ->
  skb_bytes skb = eth_frame hdr proto payload ->
  encap_tags px skb = Some skb1 -> received (skb_bytes skb1) skb2 ->
  exists skb3 w', xeth_mux_demux skb2 w = Some (tt, w') /\ outcome w [IoForward q skb3] w' /\
    skb_bytes skb3 = eth_frame hdr
      (if bool_decide (px_kind px = XETH_DEV_KIND_VLAN) || (0x600 <=? proto) then proto
       else if bool_decide (take 2 payload = [255; 255]) then ETH_P_802_3 else ETH_P_802_2) payload.
Proof.
  intros R Hup Hx Hl Hp Hv Hb E Hr.
  assert (0 <= px_xid px < 2 ^ 24) as Hx24 by (case_bool_decide; lia).
  rewrite (encap_tags_bytes px skb hdr (be_bytes 2 proto ++ payload) skb1) in Hr by done.
  pose proof (Z.mod_pos_bound (px_xid px) 4096 ltac:(lia)) as Hlow.
  assert (0 <= px_xid px / 4096 < 4096) as Hhigh.
  { split; [apply Z.div_pos; lia|]. apply Z.div_lt_upper_bound; lia. }
  unfold tagged_frame in Hr. unfold xeth_mux_demux.
  case_bool_decide as Hk.
  - apply received_tag in Hr as [Hvp Hu]; [|done|unfold ETH_P_8021AD, ETH_P_8021Q; lia..].
    rewrite Hvp. change (eth_type_vlan ETH_P_8021AD) with true.
    destruct (demux_vlan_inner w skb2 hdr _ _ _ _ _ Hu eq_refl ltac:(lia) Hp) as (skb' & -> & Hu' & _).
    rewrite Zmod_mod, (Z.mod_small (px_xid px / 4096)) by lia.
    replace (px_xid px `mod` 4096 + px_xid px / 4096 * 4096) with (px_xid px)
      by (rewrite (Z.div_mod (px_xid px) 4096) at 1; lia).
    destruct (deliver_up w l _ q _ _ _ _ _ R Hup Hu') as (skb3 & w' & E3 & Hb3 & Ho). by exists skb3, w'.
  - apply received_tag in Hr as [Hvp Hu]; [|done|unfold ETH_P_8021Q; lia..|done].
    rewrite Hvp. change (eth_type_vlan ETH_P_8021Q) with true.
    assert (eth_type_vlan (encap_proto proto payload) = false) as Hnv.
    { unfold encap_proto. destruct (_ <=? _); [auto|by destruct (bool_decide _)]. }
    destruct (demux_vlan_plain w skb2 hdr _ _ _ Hu Hnv) as (skb' & -> & Hu' & _).
    rewrite Zmod_mod, (Z.mod_small (px_xid px)) by lia.
    destruct (deliver_up w l _ q _ _ _ _ _ R Hup Hu') as (skb3 & w' & E3 & Hb3 & Ho). by exists skb3, w'.
Qed.

(** C11: A proxy with carrier hands a frame it transmits, tagged with its XID, to
    the mux if the mux is up and there is memory for the tags: one tag, or two if the
    kind of the proxy is VLAN (the loopbacks have this kind, too); it frees a frame
    while it has no carrier, and counts a carrier error of the mux while the mux
    is down. *)
Theorem start_xmit_tags w p d px mux m skb hdr rest :
  w_devs w !! p = Some d -> nd_proxy d = Some px -> px_mux px = Some mux ->
  w_devs w !! mux = Some m -> mx_encap (w_priv w) = XETH_ENCAP_VLAN ->
  0 <= px_xid px < 2 ^ 24 -> skb_bytes skb = hdr ++ rest -> length hdr = 12%nat ->
  exists w' io, xeth_proxy_start_xmit skb p w = Some (tt, w') /\ outcome w io w' /\
    (if nd_carrier d then
       match encap_tags px skb with
       | None => io = []
       | Some skb1 => exists skb2, skb_bytes skb2 = tagged_frame px hdr rest /\
           io = [if has_flag (nd_flags m) IFF_UP then IoXmit mux skb2 else IoFree skb2]
       end
     else io = [IoFree skb]).
Proof.
  intros Ed Ep Em Edm Henc Hx Hb Hl. unfold xeth_proxy_start_xmit.
  rewrite bind_run, (dev_run _ _ _ Ed).
  assert (proxy_at w p = Some px) as Hp by (unfold proxy_at; by rewrite Ed).
  destruct (nd_carrier d).
  2: { do 2 eexists. split; [reflexivity|]. split; [apply outcome_log|reflexivity]. }
  unfold xeth_mux_encap_xmit. rewrite bind_run, (netdev_priv_run _ _ _ Hp), bind_run, Em.
  cbn [deref mret M_ret]. rewrite bind_run. unfold get_mux. cbn [gets]. rewrite Henc.
  unfold xeth_mux_vlan_encap_xmit. rewrite bind_run, (netdev_priv_run _ _ _ Hp), bind_run, Em.
  cbn [deref mret M_ret].
  destruct (encap_tags px skb) as [skb1|] eqn:Et; [|exists w, []; by auto using outcome_none].
  pose proof (encap_tags_bytes _ _ _ _ _ Hx Hb Hl Et) as Hb1.
  cbv zeta. rewrite bind_run, (dev_run _ _ _ Edm).
  destruct (has_flag (nd_flags m) IFF_UP); do 2 eexists; (split; [reflexivity|]);
    (split; [|exists (upd_skb_dev (fun _ => mux) skb1); split; [exact Hb1|reflexivity]]).
  - apply outcome_log.
  - split; [done|]. split; [done|]. by eexists.
Qed.

Lemma exception_of_high tci : 0xe000 <= tci < 65536 -> xeth_vlan_tci_is_exception tci = true.
Proof.
  intros Ht. unfold xeth_vlan_tci_is_exception. apply Z.eqb_eq.
  change XETH_VLAN_PRIO_MASK with (Z.shiftl (2 ^ 3 - 1) 13).
  assert (tci = Z.lor (tci `mod` 2 ^ 13) (Z.shiftl 7 13)) as ->.
  { rewrite lor_shiftl_add by (try apply Z.mod_pos_bound; lia).
    rewrite (Z.div_mod tci (2 ^ 13)) at 1 by lia.
    assert (tci / 2 ^ 13 = 7) as ->; [|lia]. change (2 ^ 13) with 8192.
    symmetry. apply Z.div_unique with (tci - 57344); lia. }
  rewrite Z.land_lor_distr_l. rewrite Z.land_diag.
  replace (Z.land (tci `mod` 2 ^ 13) (Z.shiftl (2 ^ 3 - 1) 13)) with 0; [apply Z.lor_0_l|].
  symmetry. rewrite <- Z.land_ones by lia. rewrite <- Z.land_assoc.
  change (Z.land (Z.ones 13) (Z.shiftl (2 ^ 3 - 1) 13)) with 0. apply Z.land_0_r.
Qed.

(** The frame as the exception path leaves it for the demultiplexer. *)
Lemma exception_untagged skb hdr tpid tci proto rest mux :
  length hdr = 12%nat -> (skb_data skb <= length (skb_buf skb))%nat ->
  skb_bytes skb = hdr ++ be_bytes 2 tpid ++ be_bytes 2 tci ++ be_bytes 2 proto ++ rest ->
  untagged (skb_pull_inline VLAN_HLEN (upd_skb_vlan_proto (fun _ => tpid)
    (upd_skb_vlan_tci (fun _ => Z.ldiff tci VLAN_PRIO_MASK)
    (upd_skb_protocol (fun _ => proto) (eth_type_trans mux skb)))))
    hdr (Z.ldiff tci VLAN_PRIO_MASK) proto rest.
Proof.
  intros Hl Hd Hb.
  destruct (skb_pull_run ETH_HLEN (upd_skb_mac (fun _ => skb_data skb) (upd_skb_dev (fun _ => mux) skb))
    (hdr ++ be_bytes 2 tpid) (be_bytes 2 tci ++ be_bytes 2 proto ++ rest)) as (P1 & P2 & P3 & P4).
  { unfold skb_bytes in *. simpl. by rewrite <- app_assoc. }
  { by rewrite length_app, length_be_bytes, Hl. }
  { done. }
  fold (eth_type_trans mux skb) in P1, P2, P3.
  set (skb0 := eth_type_trans mux skb) in *.
  assert (skb_mac skb0 = skb_data skb) as Hm
    by (unfold skb0, eth_type_trans, skb_pull_inline; by destruct (_ <=? _)).
  set (skb1 := upd_skb_vlan_proto _ _).
  destruct (skb_pull_run VLAN_HLEN skb1 (be_bytes 2 tci ++ be_bytes 2 proto) rest)
    as (Q1 & Q2 & Q3 & Q4).
  { unfold skb_bytes in *. unfold skb1. cbn [skb_data skb_buf upd_skb_vlan_proto upd_skb_vlan_tci
      upd_skb_protocol]. rewrite P1. by rewrite <- app_assoc. }
  { by rewrite length_app, !length_be_bytes. }
  { unfold skb1. cbn [skb_data skb_buf upd_skb_vlan_proto upd_skb_vlan_tci upd_skb_protocol].
    rewrite P2, P3. exact P4. }
  split.
  - unfold skb_pull_inline. by destruct (_ <=? _).
  - unfold skb_pull_inline. by destruct (_ <=? _).
  - exact Q1.
  - rewrite Q2. replace (skb_mac (skb_pull_inline VLAN_HLEN skb1)) with (skb_data skb)
      by (rewrite <- Hm; unfold skb_pull_inline; by destruct (_ <=? _)).
    unfold skb1. cbn [skb_buf upd_skb_vlan_proto upd_skb_vlan_tci upd_skb_protocol].
    rewrite P2. cbn [skb_buf upd_skb_mac upd_skb_dev]. unfold buf_read.
    unfold skb_bytes in Hb. rewrite Hb, take_app_length' by done. rewrite decide_True; [done|].
    apply (f_equal length) in Hb. rewrite length_app, Hl, length_drop in Hb. lia.
  - rewrite Q3. unfold skb1. cbn [skb_data upd_skb_vlan_proto upd_skb_vlan_tci upd_skb_protocol].
    rewrite P3. unfold ETH_HLEN. lia.
  - rewrite Q3, Q2. exact Q4.
Qed.

(** C9: The mux returns a frame with an exception tag, one of the highest
    priority, to the proxy of the tag's VLAN identifier, with the tag removed,
    and counts it and its bytes; no link is given the frame. *)
Theorem exception_returned w l q skb hdr tpid tci proto rest :
  registry_rep w l -> mx_encap (w_priv w) = XETH_ENCAP_VLAN ->
  eth_type_vlan tpid = true -> 0xe000 <= tci < 65536 -> 0 <= proto < 65536 ->
  eth_type_vlan proto = false -> up_proxy w l (tci `mod` 4096) = Some q -> length hdr = 12%nat ->
  (skb_data skb <= length (skb_buf skb))%nat ->
  skb_bytes skb = hdr ++ be_bytes 2 tpid ++ be_bytes 2 tci ++ be_bytes 2 proto ++ rest ->
  exists skb' w', xeth_mux_xmit skb w = Some (tt, w') /\
    skb_bytes skb' = eth_frame hdr proto rest /\ w_io w' = w_io w ++ [IoForward q skb'] /\
    exists stats, w_priv w' = upd_mx_link_stats (fun _ => stats)
      (counter_add xeth_mux_counter_ex_bytes (skb_len skb)
        (counter_add xeth_mux_counter_ex_frames 1 (w_priv w))).
Proof.
  intros R Henc Hv Ht Hp Hnv Hup Hl Hd Hb.
  assert (0 <= tpid < 65536) as Htp.
  { unfold eth_type_vlan, ETH_P_8021Q, ETH_P_8021AD in Hv.
    apply orb_true_iff in Hv as [?%Z.eqb_eq|?%Z.eqb_eq]; lia. }
  unfold xeth_mux_xmit. rewrite bind_run. unfold get_mux. cbn [gets]. rewrite Henc.
  unfold xeth_mux_vlan_xmit. cbv zeta. rewrite bind_run. unfold xeth_mux_was_vlan_exception.
  assert (length (skb_bytes skb) = (18 + length rest)%nat) as Hlen
    by (rewrite Hb, !length_app, !length_be_bytes; lia).
  assert (skb_data skb + 18 <= length (skb_buf skb))%nat as Hroom.
  { unfold skb_bytes in Hlen. rewrite length_drop in Hlen. lia. }
  rewrite bind_run, (skb_be16_run skb 12 tpid (be_bytes 2 tci ++ be_bytes 2 proto ++ rest));
    [|rewrite Hb; by apply drop_app_length'|done|lia].
  rewrite Hv. cbn [negb].
  rewrite bind_run, (skb_be16_run skb 16 proto rest); [| |done|lia].
  2: { rewrite Hb, !app_assoc, <- (app_assoc _ (be_bytes 2 proto)).
       apply drop_app_length'. by rewrite !length_app, !length_be_bytes, Hl. }
  rewrite bind_run, (skb_be16_run skb 14 tci (be_bytes 2 proto ++ rest)); [| |lia|lia].
  2: { rewrite Hb, app_assoc. apply drop_app_length'. by rewrite length_app, length_be_bytes, Hl. }
  rewrite exception_of_high by lia. cbn [negb].
  rewrite bind_run. unfold xeth_mux_inc, xeth_mux_add, mod_mux. cbn [modify].
  rewrite bind_run. cbn [modify]. rewrite bind_run. cbn [gets]. cbv zeta.
  set (w1 := upd_w_priv _ (upd_w_priv _ w)).
  set (skb1 := skb_pull_inline VLAN_HLEN _).
  assert (untagged skb1 hdr (Z.ldiff tci VLAN_PRIO_MASK) proto rest) as Hu.
  { by apply exception_untagged. }
  destruct (demux_vlan_plain w1 skb1 hdr _ _ _ Hu Hnv) as (skb2 & E2 & Hu2 & _).
  assert (registry_rep w1 l) as R1 by (eapply registry_rep_frame; [..|exact R]; done).
  assert (Z.ldiff tci VLAN_PRIO_MASK `mod` 4096 = tci `mod` 4096) as Hmod.
  { rewrite <- !land_vid. unfold VLAN_VID_MASK, VLAN_PRIO_MASK. zbits i.
    destruct (decide (i < 12)).
    - assert (i = 0 \/ i = 1 \/ i = 2 \/ i = 3 \/ i = 4 \/ i = 5 \/ i = 6 \/ i = 7 \/ i = 8 \/
        i = 9 \/ i = 10 \/ i = 11) as Hi by lia.
      repeat destruct Hi as [->|Hi]; try subst i; cbn; by rewrite ?andb_true_r.
    - rewrite (Z.bits_above_log2 4095 i) by (change (Z.log2 4095) with 11; lia).
      by rewrite !andb_false_r. }
  rewrite Hmod in E2.
  destruct (deliver_up w1 l (tci `mod` 4096) q skb2 hdr _ _ _ R1 Hup Hu2)
    as (skb3 & w3 & E3 & Hb3 & Ho3).
  exists skb3, w3. rewrite bind_run, E2, E3. split; [done|]. split; [done|].
  destruct Ho3 as (Hio & _ & stats & Hs). split; [exact Hio|]. exists stats. exact Hs.
Qed.

(** ** What becomes of a frame *)

Lemma find_m_same {A} (l : list A) (f : A -> M world bool) w o w' :
  (forall a w b w', f a w = Some (b, w') -> w' = w) -> find_m l f w = Some (o, w') -> w' = w.
Proof.
  intros Hf. induction l as [|a l IH]; intros E; cbn [find_m] in E; [by injection E as <- <-|].
  bind_step E. apply Hf in E0 as ->. destruct a0; [by injection E as <- <-|by apply IH].
Qed.

Lemma proxy_of_xid_same xid w o w' : xeth_mux_proxy_of_xid xid w = Some (o, w') -> w' = w.
Proof.
  intros E. unfold xeth_mux_proxy_of_xid in E. bind_step E. injection E0 as <- <-.
  eapply find_m_same; [|exact E]. intros a w0 b w1 E1. bind_step E1.
  apply netdev_priv_inv in E0 as [-> _]. by injection E1 as <- <-.
Qed.

Lemma skb_push_same n skb w a w' : skb_push n skb w = Some (a, w') -> w' = w.
Proof. unfold skb_push. destruct (bool_decide _); [|done]. by intros [= <- <-]. Qed.
Lemma deref_same {A} (o : option A) (w : world) a w' : deref o w = Some (a, w') -> w' = w.
Proof. destruct o; [|done]. by intros [= <- <-]. Qed.
Lemma restore_mac_same skb w a w' : restore_mac skb w = Some (a, w') -> w' = w.
Proof.
  intros E. unfold restore_mac in E. bind_step E. apply deref_same in E0 as ->.
  bind_step E. apply deref_same in E0 as ->. bind_step E. apply deref_same in E0 as ->.
  by injection E as <- <-.
Qed.
Lemma skb_be16_same skb off w a w' : skb_be16 skb off w = Some (a, w') -> w' = w.
Proof.
  intros E. unfold skb_be16 in E. bind_step E. apply deref_same in E0 as ->. by injection E as <- <-.
Qed.

(** Exactly one thing becomes of the frame. *)
Definition consumes (c : M world unit) : Prop :=
  forall w u w', c w = Some (u, w') -> exists io, w_io w' = w_io w ++ [io].

Lemma deliver_consumes xid skb : consumes (deliver xid skb).
Proof.
  intros w u w' E. unfold deliver in E. bind_step E. apply proxy_of_xid_same in E0 as ->.
  destruct a as [p|]; [|injection E as <- <-; by eexists].
  bind_step E. apply dev_inv in E0 as [-> _].
  destruct (has_flag _ _); [|injection E as <- <-; by eexists].
  bind_step E. apply skb_push_same in E0 as ->. bind_step E. apply restore_mac_same in E0 as ->.
  cbv zeta in E. bind_step E. unfold dev_forward_skb in E0. bind_step E0. injection E1 as <- <-.
  bind_step E0. injection E0 as <- <-. injection E1 as <- <-.
  destruct (dev_forward_skb_result _ _ _); injection E as <- <-; by eexists.
Qed.

Lemma demux_vlan_consumes skb : consumes (xeth_mux_demux_vlan skb).
Proof.
  intros w u w' E. unfold xeth_mux_demux_vlan in E. cbv zeta in E. bind_step E.
  assert (s = w) as ->.
  { destruct (eth_type_vlan _); [|by injection E0 as <- <-].
    bind_step E0. apply skb_be16_same in E1 as ->. bind_step E0. apply skb_be16_same in E1 as ->.
    by injection E0 as <- <-. }
  destruct a as [skb1 xid]. by apply (deliver_consumes xid skb1) in E.
Qed.

(** What the demultiplexer finds behind the outer tag: the high part of the XID,
    the protocol and the payload; nothing if an inner tag is cut short. *)
Definition inner (proto : Z) (rest : list Z) : option (Z * Z * list Z) :=
  if eth_type_vlan proto then
    match rest with
    | a :: b :: c :: d :: rest => Some (be_val [a; b] `mod` 4096 * 4096, be_val [c; d], rest)
    | _ => None
    end
  else Some (0, proto, rest).

Lemma skb_be16_short skb off w :
  (length (skb_buf skb) < skb_data skb + off + 2)%nat -> skb_be16 skb off w = None.
Proof. intros Hl. unfold skb_be16, buf_read. by rewrite decide_False by lia. Qed.

Lemma be_val2_range a b : bytes_ok [a; b] -> 0 <= be_val [a; b] < 65536.
Proof.
  intros Hb. apply (le_val_bound [b; a]). unfold bytes_ok in *. rewrite !Forall_cons in *. tauto.
Qed.

(** C10: Every frame the kernel hands to the demultiplexer, with its addresses
    before its data and at least the bytes of an inner tag if its protocol says so,
    is consumed exactly once: passed, with its addresses and protocol restored, to
    the newest proxy with the XID of its tags if that is up; freed if there is none,
    if it is down, or if the frame had no tag; and counted as what it was.
    Nothing else changes.  An inner tag that is cut short is read past the end. *)
Theorem demux_consumes_once w l skb hdr tci proto rest :
  registry_rep w l -> untagged skb hdr tci proto rest -> bytes_ok rest ->
  if eth_type_vlan (skb_vlan_proto skb) then
    match inner proto rest with
    | Some (high, proto', rest') => exists skb' w', xeth_mux_demux skb w = Some (tt, w') /\
        delivered w l (tci `mod` 4096 + high) skb skb' hdr proto' rest' w'
    | None => xeth_mux_demux skb w = None
    end
  else
    xeth_mux_demux skb w = Some (tt, upd_w_io (fun l => l ++ [IoFree skb])
      (counted [(XETH_LINK_STAT_RX_ERRORS, 1); (XETH_LINK_STAT_RX_FRAME_ERRORS, 1)] w)).
Proof.
  intros R Hu Hok. unfold xeth_mux_demux. destruct (eth_type_vlan (skb_vlan_proto skb)); [|done].
  unfold inner. destruct (eth_type_vlan proto) eqn:Hv.
  - assert ((length rest < 4)%nat -> xeth_mux_demux_vlan skb w = None) as Hshort.
    { intros Hl. destruct Hu. unfold xeth_mux_demux_vlan. cbv zeta.
      cbn [skb_protocol skb_vlan_tci upd_skb_priority]. rewrite ut_proto0, Hv, bind_run.
      rewrite <- ut_bytes0 in Hl. unfold skb_bytes in Hl. rewrite length_drop in Hl.
      rewrite bind_run. destruct (skb_be16 _ 0 w) as [[x w1]|] eqn:E0; [|done].
      rewrite bind_run, skb_be16_short by (simpl; lia). done. }
    destruct rest as [|a [|b [|c [|d rest]]]]; try (apply Hshort; simpl; lia). clear Hshort.
    assert (bytes_ok [a; b] /\ bytes_ok [c; d]) as [Hab Hcd].
    { unfold bytes_ok in *. rewrite !Forall_cons in Hok. rewrite !Forall_cons, !Forall_nil. tauto. }
    assert (a :: b :: c :: d :: rest = be_bytes 2 (be_val [a; b]) ++ be_bytes 2 (be_val [c; d]) ++ rest) as Er.
    { pose proof (be_bytes_be_val [a; b] Hab) as E1. pose proof (be_bytes_be_val [c; d] Hcd) as E2.
      simpl length in E1, E2. by rewrite E1, E2. }
    rewrite Er in Hu.
    destruct (demux_vlan_inner w skb hdr _ _ _ _ _ Hu Hv (be_val2_range _ _ Hab) (be_val2_range _ _ Hcd))
      as (skb1 & -> & Hu1 & Hbuf).
    destruct (deliver_run w l (tci `mod` 4096 + be_val [a; b] `mod` 4096 * 4096) skb1 _ _ _ _ R Hu1)
      as (skb' & w' & E & Dl).
    exists skb', w'. split; [done|]. unfold delivered in *. by rewrite Hbuf in Dl.
  - destruct (demux_vlan_plain w skb hdr _ _ _ Hu Hv) as (skb1 & -> & Hu1 & Hbuf).
    rewrite Z.add_0_r. destruct (deliver_run w l (tci `mod` 4096) skb1 _ _ _ _ R Hu1) as (skb' & w' & E & Dl).
    exists skb', w'. split; [done|]. unfold delivered in *. by rewrite Hbuf in Dl.
Qed.

(** Every frame given to the mux is consumed once, too, but for one case:
    with no link in the slot of the frame, and if the stack refuses the frame,
    which frees it, the driver frees it again. *)
Theorem xmit_consumes skb w u w' :
  xeth_mux_xmit skb w = Some (u, w') ->
  (exists io, w_io w' = w_io w ++ [io]) \/
  (mjoin (mx_link (w_priv w) !! xeth_mux_link_hash_vlan skb) = None /\
   exists skb', dev_forward_skb_result w (w_mux w) skb' = false /\
     w_io w' = w_io w ++ [IoForward (w_mux w) skb'; IoFree skb']).
Proof.
  intros E. unfold xeth_mux_xmit in E. bind_step E. injection E0 as <- <-.
  destruct (mx_encap (w_priv w)); [|injection E as <- <-; left; by eexists].
  unfold xeth_mux_vlan_xmit in E. cbv zeta in E. bind_step E.
  destruct a.
  { left. injection E as <- <-. unfold xeth_mux_was_vlan_exception in E0.
    bind_step E0. apply skb_be16_same in E as ->. destruct (negb _); [by injection E0|].
    bind_step E0. apply skb_be16_same in E as ->. bind_step E0. apply skb_be16_same in E as ->.
    destruct (negb _); [by injection E0|].
    bind_step E0. injection E as <- <-. bind_step E0. injection E as <- <-.
    bind_step E0. injection E as <- <-. cbv zeta in E0. bind_step E0. injection E0 as <-.
    by apply demux_vlan_consumes in E. }
  assert (s = w) as ->.
  { unfold xeth_mux_was_vlan_exception in E0.
    bind_step E0. apply skb_be16_same in E1 as ->. destruct (negb _); [by injection E0|].
    bind_step E0. apply skb_be16_same in E1 as ->. bind_step E0. apply skb_be16_same in E1 as ->.
    destruct (negb _); [by injection E0|].
    bind_step E0. bind_step E0. bind_step E0. cbv zeta in E0. bind_step E0. by injection E0. }
  bind_step E. injection E1 as <- <-. bind_step E. injection E1 as <- <-.
  destruct (mjoin _) as [link|].
  - left. bind_step E. apply dev_inv in E1 as [-> _].
    destruct (has_flag _ _); [|injection E as <- <-; by eexists].
    unfold dev_queue_xmit in E. bind_step E. bind_step E1. injection E2 as <- <-.
    bind_step E1. injection E1 as <- <-. injection E2 as <- <-.
    destruct (negb _); injection E as <- <-; by eexists.
  - unfold dev_forward_skb in E. bind_step E. bind_step E1. injection E2 as <- <-.
    bind_step E1. injection E1 as <- <-. injection E2 as <- <-.
    destruct (dev_forward_skb_result _ _ _) eqn:Hr; injection E as <- <-.
    + left. by eexists.
    + right. split; [done|]. eexists. split; [exact Hr|]. simpl. by rewrite <- app_assoc.
Qed.

End encap.

(** ** Witnesses *)

Definition demo_skb (bytes : list Z) : sk_buff :=
  {| skb_dev := 1; skb_buf := replicate 32 0 ++ bytes; skb_data := 32; skb_mac := 32;
     skb_vlan_proto := 0; skb_vlan_tci := 0; skb_protocol := 2048; skb_priority := 0 |}.
Definition demo_hdr : list Z := [2; 0; 0; 0; 0; 9; 2; 0; 0; 0; 0; 1].
Definition demo_payload : list Z := [69; 0; 0; 20].

(** The VLAN's frame, and the frame as received back. *)
Definition demo_sent : sk_buff := demo_skb (eth_frame demo_hdr 2048 demo_payload).
Definition demo_vlan_proxy : xeth_proxy :=
  demo_proxy XETH_DEV_KIND_VLAN (Z.lor 3999 (Z.shiftl 5 12)) (PrivVlan (Some 1)).
Definition demo_tagged : sk_buff :=
  default demo_sent (encap_tags (T:=plain_tx) demo_vlan_proxy demo_sent).
Definition demo_received : sk_buff :=
  {| skb_dev := 1; skb_buf := replicate 36 0 ++ demo_hdr ++ [0x81; 0] ++ drop 18 (skb_bytes demo_tagged);
     skb_data := 50; skb_mac := 36; skb_vlan_proto := ETH_P_8021AD; skb_vlan_tci := 3999;
     skb_protocol := ETH_P_8021Q; skb_priority := 0 |}.

Lemma encap_demux_roundtrip_witness :
  exists skb3 w', xeth_mux_demux (H:=golden_hash) (T:=plain_tx) demo_received demo_full = Some (tt, w') /\
    outcome demo_full [IoForward 4 skb3] w' /\
    skb_bytes skb3 = eth_frame demo_hdr 2048 demo_payload.
Proof.
  apply (encap_demux_roundtrip (H:=golden_hash) (T:=plain_tx) (HL:=golden_hash_laws)
    (TL:=plain_tx_laws) demo_full [7; 6; 4; 5; 3; 2; 1] demo_vlan_proxy 4 demo_sent demo_tagged
    demo_received demo_hdr 2048 demo_payload).
  - exact demo_full_rep.
  - vm_compute. reflexivity.
  - vm_compute. split; [discriminate|reflexivity].
  - reflexivity.
  - lia.
  - intros Hk. exfalso. apply Hk. reflexivity.
  - vm_compute. reflexivity.
  - vm_compute. reflexivity.
  - split; [vm_compute; reflexivity|]. split; try (vm_compute; reflexivity); vm_compute; lia.
Defined.

Lemma start_xmit_tags_witness :
  exists w' io, xeth_proxy_start_xmit (T:=plain_tx) demo_sent 4 demo_full = Some (tt, w') /\
    outcome demo_full io w' /\
    exists skb2, skb_bytes skb2 = tagged_frame demo_vlan_proxy demo_hdr (be_bytes 2 2048 ++ demo_payload) /\
    io = [IoXmit 100 skb2].
Proof.
  apply (start_xmit_tags (T:=plain_tx) (TL:=plain_tx_laws) demo_full 4
    (demo_dev 4 NdoVlan (Some LnkoVlan) (Some demo_vlan_proxy)) demo_vlan_proxy 100
    (demo_dev 8 NdoMux (Some LnkoMux) None) demo_sent demo_hdr (be_bytes 2 2048 ++ demo_payload));
    try reflexivity.
  vm_compute. split; [discriminate|reflexivity].
Defined.

(** A frame of port 1 with an exception tag. *)
Definition demo_exception : sk_buff :=
  demo_skb (demo_hdr ++ be_bytes 2 ETH_P_8021Q ++ be_bytes 2 (0xe000 + 3999) ++ be_bytes 2 2048 ++
    demo_payload).

Lemma exception_returned_witness :
  exists skb' w', xeth_mux_xmit (H:=golden_hash) (T:=plain_tx) demo_exception demo_full = Some (tt, w') /\
    skb_bytes skb' = eth_frame demo_hdr 2048 demo_payload /\
    w_io w' = w_io demo_full ++ [IoForward 1 skb'].
Proof.
  destruct (exception_returned (H:=golden_hash) (T:=plain_tx) (HL:=golden_hash_laws)
    demo_full [7; 6; 4; 5; 3; 2; 1] 1 demo_exception demo_hdr ETH_P_8021Q (0xe000 + 3999) 2048
    demo_payload) as (skb' & w' & E & B & I & _).
  - exact demo_full_rep.
  - reflexivity.
  - reflexivity.
  - lia.
  - lia.
  - reflexivity.
  - vm_compute. reflexivity.
  - reflexivity.
  - vm_compute. lia.
  - vm_compute. reflexivity.
  - exists skb', w'. split; [exact E|]. split; [exact B|exact I].
Defined.

Lemma demux_consumes_once_witness :
  exists skb' w', xeth_mux_demux (H:=golden_hash) (T:=plain_tx) demo_received demo_full = Some (tt, w') /\
    skb_bytes skb' = eth_frame demo_hdr 2048 demo_payload /\
    w_io w' = w_io demo_full ++ [IoForward 4 skb'].
Proof.
  destruct (demux_consumes_once (H:=golden_hash) (T:=plain_tx) (HL:=golden_hash_laws) demo_full
    [7; 6; 4; 5; 3; 2; 1] demo_received demo_hdr 3999 ETH_P_8021Q (drop 18 (skb_bytes demo_tagged)))
    as (skb' & w' & E & D).
  - exact demo_full_rep.
  - split; try (vm_compute; reflexivity); vm_compute; lia.
  - apply (bool_decide_unpack _). vm_compute. exact I.
  - exists skb', w'. split; [exact E|].
    change (exists d, w_devs demo_full !! 4 = Some d /\
      if has_flag (nd_flags d) IFF_UP then
        skb_bytes skb' = eth_frame demo_hdr 2048 demo_payload /\
        w' = upd_w_io (fun l => l ++ [IoForward 4 skb'])
          (counted [(XETH_LINK_STAT_RX_PACKETS, 1);
            (XETH_LINK_STAT_RX_BYTES, forwarded_len (KernelTx:=plain_tx) skb')] demo_full)
      else skb_buf skb' = skb_buf demo_received /\
        w' = upd_w_io (fun l => l ++ [IoFree skb']) (counted [(XETH_LINK_STAT_RX_DROPPED, 1)] demo_full)) in D.
    destruct D as (d & Ed & D).
    assert (nd_flags d = IFF_UP) as Hf.
    { assert (Some (nd_flags d) = Some IFF_UP) as [= ->]; [|done].
      change (Some (nd_flags d)) with (nd_flags <$> Some d). rewrite <- Ed. vm_compute. reflexivity. }
    rewrite Hf in D. destruct D as [Hb Hw]. split; [exact Hb|]. rewrite Hw. exact (io_counted _ _ _).
Defined.

(** A stack that takes no frame. *)
Definition refusing_tx : KernelTx := {|
  vlan_insert_tag_set_proto := @vlan_insert_tag_set_proto plain_tx;
  vlan_get_tag := @vlan_get_tag plain_tx;
  dev_queue_xmit_result _ _ := 1;
  dev_forward_skb_result _ _ _ := false;
  forwarded_len := @forwarded_len plain_tx;
|}.
Definition demo_doubly : world :=
  match xeth_mux_xmit (H:=golden_hash) (T:=refusing_tx) demo_sent demo_full with
  | Some (_, w) => w | None => demo_full end.
Lemma demo_doubly_run :
  xeth_mux_xmit (H:=golden_hash) (T:=refusing_tx) demo_sent demo_full = Some (tt, demo_doubly).
Proof. vm_compute. reflexivity. Qed.

Lemma xmit_consumes_witness :
  (exists io, w_io demo_doubly = w_io demo_full ++ [io]) \/
  (exists skb', w_io demo_doubly = w_io demo_full ++ [IoForward 100 skb'; IoFree skb']).
Proof.
  destruct (xmit_consumes (H:=golden_hash) (T:=refusing_tx) demo_sent demo_full tt demo_doubly
    demo_doubly_run) as [L|(_ & skb' & _ & E)]; [left; exact L|right; exists skb'; exact E].
Defined.
