(* ===== verification/Netdev.v ===== *)
(** * The kernel's network devices

    What the driver calls of the kernel to open, enslave, register and remove
    devices.  Whether a call succeeds is the kernel's to say ([KernelDev]); what
    a successful call does to the devices is written out, since the driver
    relies on it.  Registration runs the driver's own callbacks: ndo_init before
    the device is visible, the netdevice notifier after, and ndo_uninit when a
    late step fails. *)

From stdpp Require Import base numbers list gmap.
From Stdlib Require Import ZArith Lia.
From S2P Require Import Prelude Bytes Monad Uapi State Stats Kernel Demo Registry Sbq.
From S2P Require Import Sbtx Proxy Carrier Nb.

Local Open Scope Z_scope.

(** The answers of the kernel: 0 or a negated errno, unless said otherwise. *)
Class KernelDev := {
  promiscuity_result : world -> Z -> Z;
  (** the answer of the device's ndo_change_mtu, if it has one *)
  change_mtu_result : world -> Z -> option Z;
  (** of netdev_rx_handler_register for a device without a handler *)
  rx_handler_result : world -> Z -> Z;
  upper_link_result : world -> Z -> Z -> Z;
  open_result : world -> Z -> Z;
  dev_by_index : world -> net -> Z -> option Z;
  loopback_dev : world -> net -> option Z;
  (** what register_netdevice fails with before and after it called ndo_init *)
  register_early : world -> Z -> Z;
  register_late : world -> Z -> Z;
  new_ifindex : world -> Z;
  random_addr : world -> Z -> list Z;
  ether_setup : net_device -> net_device;
  kthread_result : world -> Z;
}.

Class KernelDevLaws {K : KernelDev} : Prop := {
  by_index_law w n i p :
    dev_by_index w n i = Some p ->
    exists d, w_devs w !! p = Some d /\ nd_net d = n /\ nd_ifindex d = i;
  (** a device has one master at most *)
  upper_link_law w p u d :
    upper_link_result w p u = 0 -> w_devs w !! p = Some d -> nd_master d = None /\ p <> u;
  new_ifindex_law w : 1 < new_ifindex w;
  (** ether_setup leaves alone what the driver sets before it *)
  ether_setup_law d :
    nd_ops (ether_setup d) = nd_ops d /\ nd_lnko (ether_setup d) = nd_lnko d /\
    nd_proxy (ether_setup d) = nd_proxy d /\ nd_eto (ether_setup d) = nd_eto d /\
    nd_lowers (ether_setup d) = nd_lowers d;
  ether_setup_name d : nd_name (ether_setup d) = nd_name d;
}.

(** A kernel that refuses nothing it may grant. *)
Definition plain_dev : KernelDev := {|
  promiscuity_result _ _ := 0;
  change_mtu_result _ _ := Some 0;
  rx_handler_result _ _ := 0;
  upper_link_result w p u :=
    match w_devs w !! p with
    | Some d => if bool_decide (nd_master d = None) && bool_decide (p <> u) then 0 else - EBUSY
    | None => 0
    end;
  open_result _ _ := 0;
  dev_by_index w n i :=
    fst <$> find (fun '(_, d) => bool_decide (nd_net d = n) && (nd_ifindex d =? i))
              (map_to_list (w_devs w));
  loopback_dev _ _ := None;
  register_early _ _ := 0;
  register_late _ _ := 0;
  new_ifindex w := 2 + Z.of_nat (size (w_devs w));
  random_addr _ p := [2; 0; 0; 0; 0; u8 p];
  ether_setup d := upd_nd_mtu (fun _ => 1500) (upd_nd_min_mtu (fun _ => 68)
    (upd_nd_max_mtu (fun _ => 1500)
    (upd_nd_priv_flags (fun f => Z.lor f IFF_TX_SKB_SHARING) d)));
  kthread_result _ := 0;
|}.

#[export] Instance plain_dev_laws : KernelDevLaws (K:=plain_dev).
Proof.
  split; cbn.
  - intros w n i p E. apply fmap_Some in E as ([q d] & E & ->).
    apply find_some in E as [Hin Hb]. unbool. exists d.
    apply list_elem_of_In, elem_of_map_to_list in Hin. done.
  - intros w p u d E Ed. rewrite Ed in E. destruct (_ && _) eqn:B; [|done]. by unbool.
  - intros. lia.
  - done.
  - done.
Qed.

(** ** Steps that stop at the first error *)

(** [err = c; if (!err) err = k;] *)
Definition and_then (c k : M world Z) : M world Z := err ← c; if err =? 0 then k else mret err.

Lemma and_then_run c k w r w1 :
  c w = Some (r, w1) -> and_then c k w = if r =? 0 then k w1 else Some (r, w1).
Proof. intros E. unfold and_then. rewrite bind_run, E. by destruct (r =? 0). Qed.

Lemma and_then_ok c k w w' :
  and_then c k w = Some (0, w') -> exists w1, c w = Some (0, w1) /\ k w1 = Some (0, w').
Proof.
  unfold and_then. intros E. bind_step E. destruct (Z.eqb_spec a 0) as [->|]; [eauto|].
  by injection E as [=].
Qed.

Section netdev.
Context {K : KernelDev}.

Definition dev_set_promiscuity (p inc : Z) : M world Z :=
  err ← gets (fun w => if 0 <? inc then promiscuity_result w p else 0);
  when (err =? 0) (mod_dev p (upd_nd_promiscuity (Z.add inc))) ≫= fun _ => mret err.

Definition netdev_is_rx_handler_busy (p : Z) : M world bool :=
  d ← dev p; mret (bool_decide (nd_rx_handler d <> None)).

Definition netdev_rx_handler_register (p data : Z) : M world Z :=
  busy ← netdev_is_rx_handler_busy p;
  if (busy : bool) then mret (- EBUSY) else
  err ← gets (fun w => rx_handler_result w p);
  when (err =? 0) (mod_dev p (upd_nd_rx_handler (fun _ => Some data))) ≫= fun _ => mret err.

Definition netdev_rx_handler_unregister (p : Z) : M world unit :=
  mod_dev p (upd_nd_rx_handler (fun _ => None)).

Definition netdev_master_upper_dev_link (p upper : Z) : M world Z :=
  _ ← dev p;
  _ ← dev upper;
  err ← gets (fun w => upper_link_result w p upper);
  when (err =? 0) (
    mod_dev p (upd_nd_master (fun _ => Some upper)) ≫= fun _ =>
    mod_dev upper (upd_nd_lowers (fun l => l ++ [p]))) ≫= fun _ => mret err.

Definition netdev_upper_dev_unlink (p upper : Z) : M world unit :=
  mod_dev p (upd_nd_master (fun _ => None)) ≫= fun _ =>
  mod_dev upper (upd_nd_lowers (unlink p)).

Definition netdev_master_upper_dev_get (p : Z) : M world (option Z) :=
  d ← dev p; mret (nd_master d).

(** References to devices that are held: dev_hold and dev_put. *)
Definition hold (nd : Z) (refs : list Z) : list Z := nd :: refs.
Fixpoint put (nd : Z) (refs : list Z) : list Z :=
  match refs with
  | [] => []
  | r :: refs => if r =? nd then refs else r :: put nd refs
  end.
Definition dev_hold (p : Z) : M world unit := modify (upd_w_refs (hold p)).
Definition dev_put (p : Z) : M world unit := modify (upd_w_refs (put p)).

(** dev_open and dev_close of a device of another driver. *)
Definition dev_open (p : Z) : M world Z :=
  d ← dev p;
  if has_flag (nd_flags d) IFF_UP then mret 0 else
  err ← gets (fun w => open_result w p);
  when (err =? 0) (mod_dev p (upd_nd_flags (fun f => Z.lor f IFF_UP))) ≫= fun _ => mret err.

Definition dev_close (p : Z) : M world unit := mod_dev p (upd_nd_flags (fun f => Z.ldiff f IFF_UP)).

Definition dev_get_by_index (n : net) (ifindex : Z) : M world (option Z) :=
  gets (fun w => dev_by_index w n ifindex).

Definition eth_hw_addr_inherit (p from : Z) : M world unit :=
  d ← dev from;
  mod_dev p (fun dst => upd_nd_addr_assign_type (fun _ => nd_addr_assign_type d)
    (upd_nd_addr (fun _ => nd_addr d) dst)).

Definition eth_hw_addr_random (p : Z) : M world unit :=
  addr ← gets (fun w => random_addr w p);
  mod_dev p (fun d => upd_nd_addr_assign_type (fun _ => NET_ADDR_RANDOM)
    (upd_nd_addr (fun _ => addr) d)).

Context {C : KernelConst} {N : KernelNotify} {H : KernelHash}.

(** call_netdevice_notifiers: the driver hears of it while it is registered. *)
Definition call_netdevice_notifiers (event nd : Z) : M world unit :=
  priv ← get_mux;
  when (bool_decide (NbNetdevice ∈ mx_chains priv)) (xeth_nb_netdevice event nd).

Definition register_netdevice (init : Z -> M world Z) (uninit : Z -> M world unit) (nd : Z)
  : M world Z :=
  and_then (gets (fun w => register_early w nd))
  (and_then (init nd)
  (err ← gets (fun w => register_late w nd);
   if err =? 0 then
     i ← gets new_ifindex;
     mod_dev nd (fun d => upd_nd_registered (fun _ => true) (upd_nd_ifindex (fun _ => i) d)) ≫= fun _ =>
     call_netdevice_notifiers NETDEV_REGISTER nd ≫= fun _ => mret 0
   else uninit nd ≫= fun _ => mret err)).

Definition unregister_netdevice (uninit : Z -> M world unit) (nd : Z) : M world unit :=
  call_netdevice_notifiers NETDEV_UNREGISTER nd ≫= fun _ =>
  uninit nd ≫= fun _ =>
  mod_dev nd (upd_nd_registered (fun _ => false)).

(** ** References *)

Lemma put_perm nd refs rest : refs ≡ₚ nd :: rest -> put nd refs ≡ₚ rest.
Proof.
  revert rest. induction refs as [|r refs IH]; intros rest E; simpl.
  { by apply Permutation_nil_cons in E. }
  destruct (Z.eqb_spec r nd) as [->|Hne]; [by apply Permutation_cons_inv in E|].
  assert (r ∈ rest) as Hr.
  { assert (r ∈ nd :: rest) as Hr by (rewrite <- E; left). apply elem_of_cons in Hr as [->|]; done. }
  apply elem_of_Permutation in Hr as [rest' Er]. rewrite Er. constructor. apply IH.
  rewrite Er in E. apply (Permutation_cons_inv (a := r)). rewrite E. apply Permutation_swap.
Qed.

Lemma put_each links : forall refs rest,
  refs ≡ₚ links ++ rest -> foldl (fun refs p => put p refs) refs links ≡ₚ rest.
Proof.
  induction links as [|nd links IH]; intros refs rest E; simpl; [done|]. by apply IH, put_perm.
Qed.

(** ** What a successful call did *)

Lemma set_promiscuity_ok p inc w w' :
  dev_set_promiscuity p inc w = Some (0, w') ->
  exists d, w_devs w !! p = Some d /\ w' = upd_w_devs (insert p (upd_nd_promiscuity (Z.add inc) d)) w.
Proof.
  unfold dev_set_promiscuity. intros E. do 2 bind_step E. injection E as -> <-.
  injection E0 as _ <-. by apply mod_dev_inv in E1.
Qed.

Lemma rx_handler_register_ok p data w w' :
  netdev_rx_handler_register p data w = Some (0, w') ->
  exists d, w_devs w !! p = Some d /\ nd_rx_handler d = None /\
    w' = upd_w_devs (insert p (upd_nd_rx_handler (fun _ => Some data) d)) w.
Proof.
  unfold netdev_rx_handler_register, netdev_is_rx_handler_busy. intros E.
  bind_step E. bind_step E0. apply dev_inv in E1 as [-> Ed]. injection E0 as <- <-.
  destruct (bool_decide _) eqn:B; [by injection E as [=]|]. do 2 bind_step E. injection E as -> <-.
  injection E0 as _ <-. apply mod_dev_inv in E1 as (d' & Ed' & ->).
  rewrite Ed in Ed'. injection Ed' as <-. exists a0. split; [done|]. split; [|done].
  apply bool_decide_eq_false, dec_stable in B. done.
Qed.

Context {KL : KernelDevLaws}.

Lemma master_upper_link_ok p upper w w' :
  netdev_master_upper_dev_link p upper w = Some (0, w') ->
  exists d u, w_devs w !! p = Some d /\ w_devs w !! upper = Some u /\ p <> upper /\
    nd_master d = None /\
    w' = upd_w_devs (fun devs => <[upper := upd_nd_lowers (fun l => l ++ [p]) u]>
           (<[p := upd_nd_master (fun _ => Some upper) d]> devs)) w.
Proof.
  unfold netdev_master_upper_dev_link. intros E. bind_step E. apply dev_inv in E0 as [-> Ed].
  bind_step E. apply dev_inv in E0 as [-> Eu]. do 2 bind_step E. injection E as -> <-.
  injection E0 as Hr <-. destruct (upper_link_law _ _ _ _ Hr Ed) as [Hm Hne].
  rewrite Z.eqb_refl in E1. cbn [when] in E1. bind_step E1.
  apply mod_dev_inv in E as (d' & Ed' & ->). apply mod_dev_inv in E1 as (u' & Eu' & ->).
  simpl in Eu'. rewrite lookup_insert_ne in Eu' by done.
  rewrite Ed in Ed'. rewrite Eu in Eu'. injection Ed' as <-. injection Eu' as <-. eauto 10.
Qed.

End netdev.
