(* ===== verification/Lower.v ===== *)
(** * The links of the mux and its life cycle (dkms/xeth_mux.c)

    The lower devices of the mux, the table of links a frame's VLAN is hashed
    to, and the rtnl and device operations of the mux itself: setup, validation,
    creation, opening, closing and removal. *)

From stdpp Require Import base numbers list gmap.
From Stdlib Require Import ZArith Lia.
From S2P Require Import Prelude Bytes Monad Uapi State Stats Kernel Demo Registry Sbq.
From S2P Require Import Sbtx Proxy Carrier Nb Encap Netdev.

Local Open Scope Z_scope.

Definition xeth_mux_link_hash_bits : nat := 4.
Definition xeth_mux_link_hash_bkts : nat := 2 ^ xeth_mux_link_hash_bits.
Definition ETH_MIN_MTU : Z := 68.
Definition ETH_MAX_MTU : Z := 65535.

Section lower.
Context {K : KernelDev}.

(** ** Lowers *)

Definition xeth_mux_set_lower_promiscuity (lower : Z) : M world Z := dev_set_promiscuity lower 1.

Definition xeth_mux_set_lower_mtu (lower : Z) : M world Z :=
  d ← dev lower;
  op ← gets (fun w => change_mtu_result w lower);
  match op with
  | None => mret 0
  | Some err =>
      if nd_mtu d =? XETH_SIZEOF_JUMBO_FRAME then mret 0 else
      when (err =? 0) (mod_dev lower (upd_nd_mtu (fun _ => XETH_SIZEOF_JUMBO_FRAME))) ≫= fun _ =>
      mret err
  end.

Definition xeth_mux_lower_is_loopback (mux lower : Z) : M world Z :=
  m ← dev mux;
  lo ← gets (fun w => loopback_dev w (nd_net m));
  mret (if bool_decide (lo = Some lower) then - EOPNOTSUPP else 0).

Definition xeth_mux_lower_is_busy (lower : Z) : M world Z :=
  busy ← netdev_is_rx_handler_busy lower; mret (if (busy : bool) then - EBUSY else 0).

Definition xeth_mux_handle_lower (mux lower : Z) : M world Z :=
  netdev_rx_handler_register lower mux.

(** [for (i = n - 1; i < xeth_mux_link_hash_bkts; i += n) priv->link[i] = lower;]
    [fuel] bounds the iterations. *)
Fixpoint fill_links (fuel i n : nat) (lower : Z) (link : list (option Z)) : list (option Z) :=
  match fuel with
  | O => link
  | S fuel =>
      if (i <? xeth_mux_link_hash_bkts)%nat
      then fill_links fuel (i + n) n lower (<[i := Some lower]> link)
      else link
  end.

Fixpoint rehash_links (n : nat) (lowers : list Z) (link : list (option Z)) : list (option Z) :=
  match lowers with
  | [] => link
  | lower :: lowers =>
      rehash_links (S n) lowers (fill_links xeth_mux_link_hash_bkts (n - 1) n lower link)
  end.

Definition xeth_mux_rehash_link_ht (mux : Z) : M world unit :=
  d ← dev mux;
  mod_mux (upd_mx_link (rehash_links 1 (nd_lowers d))).

Definition xeth_mux_bind_lower (mux lower : Z) : M world Z :=
  mod_dev lower (upd_nd_flags (fun f => Z.lor f IFF_SLAVE)) ≫= fun _ =>
  err ← netdev_master_upper_dev_link lower mux;
  (if negb (err =? 0) then mod_dev lower (upd_nd_flags (fun f => Z.ldiff f IFF_SLAVE))
   else xeth_mux_rehash_link_ht mux) ≫= fun _ => mret err.

Definition xeth_mux_add_lower (mux lower : Z) : M world Z :=
  err ← and_then (xeth_mux_set_lower_promiscuity lower)
       (and_then (xeth_mux_set_lower_mtu lower)
       (and_then (xeth_mux_lower_is_loopback mux lower)
       (and_then (xeth_mux_lower_is_busy lower)
       (and_then (xeth_mux_handle_lower mux lower)
                 (xeth_mux_bind_lower mux lower)))));
  when (negb (err =? 0)) (netdev_rx_handler_unregister lower) ≫= fun _ => mret err.

Definition xeth_mux_del_lower (mux lower : Z) : M world Z :=
  mod_dev lower (upd_nd_flags (fun f => Z.ldiff f IFF_SLAVE)) ≫= fun _ =>
  netdev_upper_dev_unlink lower mux ≫= fun _ =>
  netdev_rx_handler_unregister lower ≫= fun _ =>
  dev_set_promiscuity lower (-1) ≫= fun _ =>
  dev_put lower ≫= fun _ => mret 0.

(** ** Device operations *)

(** [while (xeth_mux_has_main_task(mux)) ;] does not return while the flag is set. *)
Definition wait_main_task : M world unit :=
  task ← xeth_mux_has xeth_mux_flag_main_task;
  if (task : bool) then oops else mret tt.

(** kthread_stop waits for the task, whose remaining run is [rest]. *)
Definition xeth_mux_uninit (rest : M world unit) (mux : Z) : M world unit :=
  task ← xeth_mux_has xeth_mux_flag_main_task;
  when task (
    rest ≫= fun _ =>
    mod_mux (upd_mx_main (fun _ => false)) ≫= fun _ =>
    wait_main_task) ≫= fun _ =>
  d ← dev mux;
  for_each (nd_lowers d) (fun lower => ignore (xeth_mux_del_lower mux lower)) ≫= fun _ =>
  mod_mux (upd_mx_link (fun l => replicate (length l) None)).

Definition xeth_mux_open (mux : Z) : M world Z :=
  d ← dev mux;
  for_each (nd_lowers d) (fun lower =>
    l ← dev lower;
    when (negb (has_flag (nd_flags l) IFF_UP)) (ignore (dev_open lower))) ≫= fun _ =>
  xeth_mux_check_lower_carrier ≫= fun _ => mret 0.

Definition xeth_mux_stop (mux : Z) : M world Z :=
  ok ← netif_carrier_ok mux;
  when ok (netif_carrier_off mux) ≫= fun _ =>
  d ← dev mux;
  for_each (nd_lowers d) dev_close ≫= fun _ => mret 0.

(** ** rtnl operations *)

Definition xeth_mux_priv_init : M world unit :=
  mod_mux (fun priv =>
    upd_mx_hls (fun _ => replicate xeth_mux_proxy_hash_bkts [])
    (upd_mx_ports (fun _ => []) (upd_mx_vlans (fun _ => []) (upd_mx_bridges (fun _ => [])
    (upd_mx_lags (fun _ => []) (upd_mx_lbs (fun _ => []) (upd_mx_sb_free (fun _ => [])
    (upd_mx_sb_tx (fun _ => []) (upd_mx_fibs (fun _ => []) priv))))))))).

Definition xeth_mux_setup (mux : Z) : M world unit :=
  mod_dev mux (fun d =>
    upd_nd_mtu (fun _ => XETH_SIZEOF_JUMBO_FRAME - Z.of_nat VLAN_HLEN)
    (upd_nd_max_mtu (fun _ => ETH_MAX_MTU - Z.of_nat VLAN_HLEN)
    (upd_nd_min_mtu (fun _ => ETH_MIN_MTU)
    (upd_nd_priv_flags (fun f => Z.ldiff (Z.lor (Z.lor f IFF_DONT_BRIDGE) IFF_NO_QUEUE)
                                         IFF_TX_SKB_SHARING)
    (upd_nd_flags (fun f => Z.lor f IFF_MASTER)
    (ether_setup
    (upd_nd_needs_free (fun _ => true)
    (upd_nd_eto (fun _ => Some EtoMux)
    (upd_nd_ops (fun _ => NdoMux) d))))))))) ≫= fun _ =>
  xeth_mux_priv_init ≫= fun _ =>
  mod_mux (upd_mx_counters (fun _ => xeth_mux_counter_init)) ≫= fun _ =>
  mod_mux (upd_mx_link_stats (fun _ => xeth_link_stat_init)).

(** The netlink attributes of a request: whether it has an address, the link,
    the name and the kind's own attribute. *)
Record nlattrs := {
  ifla_address : bool;
  ifla_link : option Z;
  ifla_ifname : bool;
  ifla_data : option Z;
}.

Definition xeth_mux_validate (a : nlattrs) : Z :=
  if ifla_address a then - EOPNOTSUPP else
  match ifla_data a with
  | Some val => if 1 <? val then - ERANGE else 0
  | None => 0
  end.

Definition xeth_encap_of (val : Z) : xeth_encap := if val =? 0 then XETH_ENCAP_VLAN else XETH_ENCAP_VPLS.

Context {C : KernelConst} {N : KernelNotify} {H : KernelHash}.

(** An unknown link returns PTR_ERR of the address of the array priv->link,
    [link_addr] here.  The dev_put of an error needs a link. *)
Definition xeth_mux_newlink (mux : Z) (a : nlattrs) (link_addr : Z) : M world Z :=
  mod_mux (upd_mx_encap (fun _ => from_option xeth_encap_of XETH_ENCAP_VLAN (ifla_data a))) ≫= fun _ =>
  d ← dev mux;
  link ← match ifla_link a with
         | Some i =>
             link ← dev_get_by_index (nd_net d) i;
             match link with Some link => dev_hold link | None => mret tt end ≫= fun _ => mret link
         | None => mret None
         end;
  if bool_decide (ifla_link a <> None) && bool_decide (link = None) then mret link_addr else
  match link with
  | Some link =>
      eth_hw_addr_inherit mux link ≫= fun _ =>
      l ← dev link;
      mod_dev mux (fun d => upd_nd_addr_assign_type (fun _ => NET_ADDR_STOLEN)
        (upd_nd_min_mtu (fun _ => nd_min_mtu l) (upd_nd_max_mtu (fun _ => nd_max_mtu l) d)))
  | None => eth_hw_addr_random mux
  end ≫= fun _ =>
  err ← and_then (register_netdevice (fun _ => mret 0) (xeth_mux_uninit (mret tt)) mux)
       (and_then (match link with Some link => xeth_mux_add_lower mux link | None => mret 0 end)
       (err ← gets kthread_result;
        when (err =? 0) (mod_mux (upd_mx_main (fun _ => true))) ≫= fun _ => mret err));
  when (negb (err =? 0)) (link ← deref link; dev_put link) ≫= fun _ => mret err.

Definition xeth_mux_dellink (mux : Z) : M world unit :=
  d ← dev mux;
  if negb (nd_registered d) then mret tt else
  mod_mux (fun priv => upd_mx_absent_gpios (fun _ => None) (upd_mx_intr_gpios (fun _ => None)
    (upd_mx_lpmode_gpios (fun _ => None) (upd_mx_reset_gpios (fun _ => None) priv)))) ≫= fun _ =>
  priv ← get_mux;
  when (mx_stat_sysfs priv) (modify (upd_w_stat_file (fun _ => false))) ≫= fun _ =>
  for_each (mx_bridges priv) unregister_netdevice_queue ≫= fun _ =>
  for_each (mx_vlans priv) unregister_netdevice_queue ≫= fun _ =>
  for_each (mx_lags priv) unregister_netdevice_queue ≫= fun _ =>
  for_each (mx_ports priv) unregister_netdevice_queue ≫= fun _ =>
  for_each (mx_lbs priv) unregister_netdevice_queue ≫= fun _ =>
  unregister_netdevice_queue mux.

(** ** The table of links *)

Lemma length_fill_links fuel i n lower link :
  length (fill_links fuel i n lower link) = length link.
Proof.
  revert i link; induction fuel as [|fuel IH]; intros i link; simpl; [done|].
  destruct (_ <? _)%nat; [|done]. by rewrite IH, length_insert.
Qed.

(** With fuel for every slot from [i] on, the loop assigns each [n]th of them. *)
Lemma fill_links_lookup fuel i n lower link j :
  (1 <= n)%nat -> (xeth_mux_link_hash_bkts <= i + fuel)%nat ->
  length link = xeth_mux_link_hash_bkts -> (j < xeth_mux_link_hash_bkts)%nat ->
  fill_links fuel i n lower link !! j =
    if decide (i <= j /\ (n | j - i))%nat then Some (Some lower) else link !! j.
Proof.
  intros Hn. revert i link; induction fuel as [|fuel IH]; intros i link Hf Hl Hj; simpl.
  - rewrite decide_False by lia. done.
  - destruct (Nat.ltb_spec i xeth_mux_link_hash_bkts) as [Hi|Hi].
    + rewrite IH by (rewrite ?length_insert; lia).
      destruct (decide (i = j)) as [<-|Hij].
      * rewrite decide_False by lia. rewrite decide_True by (split; [lia|exists 0%nat; lia]).
        by rewrite list_lookup_insert_eq by lia.
      * rewrite list_lookup_insert_ne by done. apply decide_ext. split.
        -- intros [? [q Hq]]. split; [lia|]. exists (S q). lia.
        -- intros [? [q Hq]]. destruct q as [|q]; [lia|]. split; [nia|]. exists q. lia.
    + rewrite decide_False by lia. done.
Qed.

Lemma fill_links_slot n lower link j :
  (1 <= n)%nat -> length link = xeth_mux_link_hash_bkts -> (j < xeth_mux_link_hash_bkts)%nat ->
  fill_links xeth_mux_link_hash_bkts (n - 1) n lower link !! j =
    if decide (n | S j)%nat then Some (Some lower) else link !! j.
Proof.
  intros Hn Hl Hj. rewrite fill_links_lookup by (done || lia). apply decide_ext. split.
  - intros [? [q Hq]]. exists (S q). lia.
  - intros [q Hq]. destruct q as [|q]; [lia|]. split; [nia|]. exists q. nia.
Qed.

(** The last lower whose number divides the slot's number has the slot. *)
Lemma rehash_links_slot n lowers link j :
  (1 <= n)%nat -> length link = xeth_mux_link_hash_bkts -> (j < xeth_mux_link_hash_bkts)%nat ->
  (exists m x, lowers !! m = Some x /\ (n + m | S j)%nat /\
     (forall m', (m < m' < length lowers)%nat -> ~ (n + m' | S j)%nat) /\
     rehash_links n lowers link !! j = Some (Some x)) \/
  ((forall m', (m' < length lowers)%nat -> ~ (n + m' | S j)%nat) /\
   rehash_links n lowers link !! j = link !! j).
Proof.
  revert n link; induction lowers as [|x lowers IH]; intros n link Hn Hl Hj; cbn [rehash_links length].
  - right. split; [lia|done].
  - set (link' := fill_links xeth_mux_link_hash_bkts (n - 1) n x link).
    destruct (IH (S n) link') as [(m & y & Em & Hd & Hg & E)|[Hg E]];
      [lia|unfold link'; by rewrite length_fill_links|done| |].
    + left. exists (S m), y. split; [done|]. split; [by replace (n + S m)%nat with (S n + m)%nat by lia|].
      split; [|done]. intros [|m'] Hm'; [lia|].
      replace (n + S m')%nat with (S n + m')%nat by lia. apply Hg. lia.
    + assert (forall m', (0 < m' < S (length lowers))%nat -> ~ (n + m' | S j)%nat) as Hg'.
      { intros [|m'] Hm'; [lia|]. replace (n + S m')%nat with (S n + m')%nat by lia. apply Hg. lia. }
      unfold link' in E. rewrite fill_links_slot in E by done.
      destruct (decide (n | S j)%nat) as [Hd|Hd].
      * left. exists 0%nat, x. rewrite Nat.add_0_r. done.
      * right. split; [|done]. intros [|m'] Hm'; [by rewrite Nat.add_0_r|]. apply Hg'. lia.
Qed.

(** C19: With one lower or more every slot of the table of links has a lower: slot
    [j] the one with the greatest number (counted from 1) that divides [j + 1].
    The slots the VLAN hash chooses from, 0 and 1, have the first lower, and the
    second if there is one. *)
Theorem link_table w mux d :
  w_devs w !! mux = Some d -> nd_lowers d <> [] ->
  length (mx_link (w_priv w)) = xeth_mux_link_hash_bkts ->
  exists w', xeth_mux_rehash_link_ht mux w = Some (tt, w') /\
    (forall j, (j < xeth_mux_link_hash_bkts)%nat ->
       exists m x, mx_link (w_priv w') !! j = Some (Some x) /\ nd_lowers d !! m = Some x /\
         (S m | S j)%nat /\
         forall m', (m' < length (nd_lowers d))%nat -> (S m' | S j)%nat -> (m' <= m)%nat) /\
    mx_link (w_priv w') !! 0%nat = Some (nd_lowers d !! 0%nat) /\
    mx_link (w_priv w') !! 1%nat = Some (nd_lowers d !! Nat.min 1 (length (nd_lowers d) - 1)).
Proof.
  intros Ed Hne Hl. eexists. split.
  { unfold xeth_mux_rehash_link_ht. by rewrite bind_run, (dev_run _ _ _ Ed). }
  cbn [w_priv upd_w_priv mx_link upd_mx_link].
  assert (forall j, (j < xeth_mux_link_hash_bkts)%nat ->
    exists m x, rehash_links 1 (nd_lowers d) (mx_link (w_priv w)) !! j = Some (Some x) /\
      nd_lowers d !! m = Some x /\ (S m | S j)%nat /\
      forall m', (m' < length (nd_lowers d))%nat -> (S m' | S j)%nat -> (m' <= m)%nat) as Hslot.
  { intros j Hj.
    destruct (rehash_links_slot 1 (nd_lowers d) (mx_link (w_priv w)) j)
      as [(m & x & Em & Hd & Hg & E)|[Hg _]]; [lia|done|done| |].
    - exists m, x. do 3 (split; [done|]). intros m' Hm' Hd'.
      destruct (decide (m' <= m)%nat) as [|Hgt]; [done|]. exfalso. apply (Hg m'); [lia|done].
    - exfalso. apply (Hg 0%nat); [destruct (nd_lowers d); simpl; [done|lia]|exists (S j); lia]. }
  split; [done|]. split.
  - destruct (Hslot 0%nat) as (m & x & -> & Em & Hd & _); [unfold xeth_mux_link_hash_bkts; simpl; lia|].
    apply Nat.divide_1_r in Hd. replace m with 0%nat in Em by lia. by rewrite Em.
  - destruct (Hslot 1%nat) as (m & x & -> & Em & Hd & Hg);
      [unfold xeth_mux_link_hash_bkts; simpl; lia|].
    apply lookup_lt_Some in Em as Hm. assert (S m <= 2)%nat as Hle by (apply Nat.divide_pos_le; [lia|done]).
    destruct (decide (length (nd_lowers d) = 1)%nat) as [E1|E1].
    + rewrite E1. replace m with 0%nat in Em by lia. change (Nat.min 1 (1 - 1)) with 0%nat.
      by rewrite Em.
    + assert (1 <= m)%nat as Hm1 by (apply Hg; [lia|exists 1%nat; lia]).
      replace (Nat.min 1 (length (nd_lowers d) - 1)) with 1%nat by lia. replace m with 1%nat in Em by lia. by rewrite Em.
Qed.

(** ** Adding a lower *)

Lemma is_loopback_same mux lower w r w' :
  xeth_mux_lower_is_loopback mux lower w = Some (r, w') -> w' = w.
Proof.
  unfold xeth_mux_lower_is_loopback. intros E. bind_step E. apply dev_inv in E0 as [-> _].
  bind_step E. injection E0 as _ <-. by injection E as _ <-.
Qed.

Lemma is_busy_same lower w r w' : xeth_mux_lower_is_busy lower w = Some (r, w') -> w' = w.
Proof.
  unfold xeth_mux_lower_is_busy, netdev_is_rx_handler_busy. intros E. bind_step E. bind_step E0.
  apply dev_inv in E1 as [-> _]. injection E0 as _ <-. by injection E as _ <-.
Qed.

Lemma set_lower_mtu_ok lower w w' :
  xeth_mux_set_lower_mtu lower w = Some (0, w') ->
  exists d mtu, w_devs w !! lower = Some d /\
    w' = upd_w_devs (insert lower (upd_nd_mtu (fun _ => mtu) d)) w.
Proof.
  unfold xeth_mux_set_lower_mtu. intros E. bind_step E. apply dev_inv in E0 as [-> Ed].
  assert (upd_w_devs (insert lower (upd_nd_mtu (fun _ => nd_mtu a) a)) w = w) as Eid.
  { destruct w, a. unfold upd_w_devs. simpl. f_equal. by rewrite insert_id. }
  bind_step E. injection E0 as _ <-. destruct a0 as [err|].
  - destruct (_ =? _); [injection E as <-; exists a, (nd_mtu a); by rewrite Eid|].
    bind_step E. injection E as -> <-. apply mod_dev_inv in E0 as (d & Ed' & ->). eauto.
  - injection E as <-. exists a, (nd_mtu a). by rewrite Eid.
Qed.

Context {KL : KernelDevLaws}.

Lemma bind_lower_ok mux lower w w' :
  xeth_mux_bind_lower mux lower w = Some (0, w') ->
  exists d m, w_devs w !! lower = Some d /\ w_devs w !! mux = Some m /\ lower <> mux /\
    w' = upd_w_priv (upd_mx_link (rehash_links 1 (nd_lowers m ++ [lower])))
      (upd_w_devs (fun devs => <[mux := upd_nd_lowers (fun l => l ++ [lower]) m]>
        (<[lower := upd_nd_master (fun _ => Some mux)
                     (upd_nd_flags (fun f => Z.lor f IFF_SLAVE) d)]> devs)) w).
Proof.
  unfold xeth_mux_bind_lower. intros E. bind_step E. apply mod_dev_inv in E0 as (d & Ed & ->).
  do 2 bind_step E. injection E as -> <-.
  apply master_upper_link_ok in E0 as (d' & m & Ed' & Em & Hne & _ & ->).
  simpl in Ed', Em. rewrite lookup_insert_eq in Ed'. rewrite lookup_insert_ne in Em by done.
  injection Ed' as <-. cbn [negb] in E1. rewrite Z.eqb_refl in E1. cbn [negb] in E1.
  unfold xeth_mux_rehash_link_ht in E1. bind_step E1. apply dev_inv in E as [-> Em'].
  simpl in Em'. rewrite lookup_insert_eq in Em'. injection Em' as <-. injection E1 as _ <-.
  exists d, m. do 3 (split; [done|]). unfold upd_w_devs, upd_w_priv. simpl.
  by rewrite insert_insert_eq.
Qed.

(** The lower as the mux uses it. *)
Definition enslaved (mux : Z) (mtu : Z) (d : net_device) : net_device :=
  upd_nd_master (fun _ => Some mux) (upd_nd_flags (fun f => Z.lor f IFF_SLAVE)
    (upd_nd_rx_handler (fun _ => Some mux) (upd_nd_mtu (fun _ => mtu)
    (upd_nd_promiscuity (Z.add 1) d)))).

(** C20: A lower that was added is a promiscuous slave of the mux whose frames go
    to the demultiplexer of the mux; it is the last lower, the table of links is
    rehashed with it, and nothing else changed but its MTU. *)
Theorem add_lower_enslaves mux lower w w' :
  xeth_mux_add_lower mux lower w = Some (0, w') ->
  exists d m mtu, w_devs w !! lower = Some d /\ w_devs w !! mux = Some m /\ lower <> mux /\
    nd_rx_handler d = None /\
    w' = upd_w_priv (upd_mx_link (rehash_links 1 (nd_lowers m ++ [lower])))
      (upd_w_devs (fun devs => <[mux := upd_nd_lowers (fun l => l ++ [lower]) m]>
        (<[lower := enslaved mux mtu d]> devs)) w).
Proof.
  unfold xeth_mux_add_lower. intros E. do 2 bind_step E. injection E as -> <-.
  cbn in E1. injection E1 as _ <-. apply and_then_ok in E0 as (w1 & E1 & E).
  apply set_promiscuity_ok in E1 as (d & Ed & ->).
  apply and_then_ok in E as (w2 & E2 & E). apply set_lower_mtu_ok in E2 as (d2 & mtu & Ed2 & ->).
  simpl in Ed2. rewrite lookup_insert_eq in Ed2. injection Ed2 as <-.
  apply and_then_ok in E as (w3 & E3 & E). apply is_loopback_same in E3 as ->.
  apply and_then_ok in E as (w4 & E4 & E). apply is_busy_same in E4 as ->.
  apply and_then_ok in E as (w5 & E5 & E).
  apply rx_handler_register_ok in E5 as (d3 & Ed3 & Hrx & ->).
  simpl in Ed3. rewrite lookup_insert_eq in Ed3. injection Ed3 as <-.
  apply bind_lower_ok in E as (d4 & m & Ed4 & Em & Hne & ->).
  simpl in Ed4, Em. rewrite lookup_insert_eq in Ed4. injection Ed4 as <-.
  rewrite !lookup_insert_ne in Em by done.
  exists d, m, mtu. do 4 (split; [done|]). unfold upd_w_devs, upd_w_priv. simpl.
  by rewrite !insert_insert_eq.
Qed.

(** A lower in use by another driver is refused with -EBUSY, but the receive
    handler of that driver is taken away, and the lower left promiscuous. *)
Theorem add_lower_busy mux lower w d m other :
  w_devs w !! lower = Some d -> w_devs w !! mux = Some m -> lower <> mux ->
  nd_rx_handler d = Some other -> nd_mtu d = XETH_SIZEOF_JUMBO_FRAME ->
  promiscuity_result w lower = 0 -> (forall w, loopback_dev w (nd_net m) <> Some lower) ->
  xeth_mux_add_lower mux lower w =
    Some (- EBUSY, upd_w_devs (insert lower (upd_nd_rx_handler (fun _ => None)
                     (upd_nd_promiscuity (Z.add 1) d))) w).
Proof.
  intros Ed Em Hne Hrx Hmtu Hp Hlo.
  set (d1 := upd_nd_promiscuity (Z.add 1) d). set (w1 := upd_w_devs (insert lower d1) w).
  assert (w_devs w1 !! lower = Some d1) as Ed1 by apply lookup_insert_eq.
  assert (w_devs w1 !! mux = Some m) as Em1 by (simpl; by rewrite lookup_insert_ne).
  unfold xeth_mux_add_lower. rewrite bind_run.
  erewrite and_then_run with (r := 0) (w1 := w1).
  2:{ unfold xeth_mux_set_lower_promiscuity, dev_set_promiscuity. rewrite bind_run. cbn [gets].
      change (0 <? 1) with true. cbn iota. rewrite Hp, bind_run. cbn [Z.eqb when].
      by rewrite (mod_dev_run _ _ _ _ Ed). }
  cbn [Z.eqb]. erewrite and_then_run with (r := 0) (w1 := w1).
  2:{ unfold xeth_mux_set_lower_mtu. rewrite bind_run, (dev_run _ _ _ Ed1), bind_run. cbn [gets].
      destruct (change_mtu_result _ _); [|done].
      by replace (nd_mtu d1) with XETH_SIZEOF_JUMBO_FRAME by (by rewrite <- Hmtu). }
  cbn [Z.eqb]. erewrite and_then_run with (r := 0) (w1 := w1).
  2:{ unfold xeth_mux_lower_is_loopback. rewrite bind_run, (dev_run _ _ _ Em1), bind_run. cbn [gets].
      by rewrite bool_decide_eq_false_2 by apply Hlo. }
  cbn [Z.eqb]. erewrite and_then_run with (r := - EBUSY) (w1 := w1).
  2:{ unfold xeth_mux_lower_is_busy, netdev_is_rx_handler_busy.
      rewrite bind_run, bind_run, (dev_run _ _ _ Ed1). cbn [mret M_ret].
      by rewrite bool_decide_eq_true_2 by (simpl; by rewrite Hrx). }
  change (- EBUSY =? 0) with false. cbn iota.
  change (- EBUSY =? 0) with false. cbn [negb when]. rewrite bind_run.
  unfold netdev_rx_handler_unregister. rewrite (mod_dev_run _ _ _ _ Ed1).
  unfold mret, M_ret, w1, upd_w_devs. simpl. by rewrite insert_insert_eq.
Qed.

(** ** Removal *)

(** The lower as it was before the mux had it, but for its MTU. *)
Definition released (d : net_device) : net_device :=
  upd_nd_promiscuity (Z.add (-1)) (upd_nd_rx_handler (fun _ => None)
    (upd_nd_master (fun _ => None) (upd_nd_flags (fun f => Z.ldiff f IFF_SLAVE) d))).

Lemma del_lower_run mux lower w d m :
  w_devs w !! lower = Some d -> w_devs w !! mux = Some m -> lower <> mux ->
  xeth_mux_del_lower mux lower w = Some (0, upd_w_refs (put lower)
    (upd_w_devs (fun devs => <[lower := released d]> (<[mux := upd_nd_lowers (unlink lower) m]> devs)) w)).
Proof.
  intros Ed Em Hne. unfold xeth_mux_del_lower, netdev_upper_dev_unlink, netdev_rx_handler_unregister,
    dev_set_promiscuity. rewrite bind_run, (mod_dev_run _ _ _ _ Ed), bind_run, bind_run.
  erewrite mod_dev_run by apply lookup_insert_eq.
  erewrite mod_dev_run by (simpl; rewrite !lookup_insert_ne by done; exact Em).
  rewrite bind_run.
  erewrite mod_dev_run by (simpl; rewrite lookup_insert_ne by done; apply lookup_insert_eq).
  rewrite !bind_run. cbn [gets]. change (0 <? -1) with false. cbn iota. rewrite bind_run.
  change (0 =? 0) with true. cbn [when].
  erewrite mod_dev_run by apply lookup_insert_eq.
  cbv beta iota. cbn [mret M_ret]. rewrite bind_run. unfold dev_put, modify. cbv beta iota.
  unfold mret, M_ret. do 3 f_equal. unfold upd_w_devs. simpl. f_equal.
  apply map_eq. intros q. destruct (decide (q = lower)) as [->|Hq]; [by rewrite !lookup_insert_eq|].
  rewrite !(lookup_insert_ne _ lower q) by done.
  destruct (decide (q = mux)) as [->|Hm]; [by rewrite !lookup_insert_eq|].
  by rewrite !lookup_insert_ne.
Qed.

Lemma upd_nd_lowers_ext f g m :
  f (nd_lowers m) = g (nd_lowers m) -> upd_nd_lowers f m = upd_nd_lowers g m.
Proof. intros E. unfold upd_nd_lowers. by rewrite E. Qed.

Lemma filter_not_in_nil (l : list Z) : filter (fun p => p ∉ []) l = l.
Proof.
  induction l as [|y l IH]; [done|]. by rewrite filter_cons_True, IH by apply not_elem_of_nil.
Qed.

Lemma filter_not_in_self (l : list Z) : filter (fun p => p ∉ l) l = [].
Proof.
  apply elem_of_nil_inv. intros x [Hn Hx]%list_elem_of_filter. done.
Qed.

Lemma del_lowers_run mux l w m :
  w_devs w !! mux = Some m -> NoDup l -> mux ∉ l -> Forall (fun p => is_Some (w_devs w !! p)) l ->
  exists w', for_each l (fun lower => ignore (xeth_mux_del_lower mux lower)) w = Some (tt, w') /\
    w_priv w' = w_priv w /\ w_refs w' = foldl (fun refs p => put p refs) (w_refs w) l /\
    w_devs w' !! mux = Some (upd_nd_lowers (filter (fun p => p ∉ l)) m) /\
    forall p, p <> mux ->
      w_devs w' !! p = (if decide (p ∈ l) then released else id) <$> w_devs w !! p.
Proof.
  revert w m; induction l as [|x l IH]; intros w m Em Hnd Hmux Hal.
  - exists w. do 3 (split; [done|]). split.
    + rewrite Em. f_equal. transitivity (upd_nd_lowers id m); [by destruct m|].
      apply upd_nd_lowers_ext. symmetry. apply filter_not_in_nil.
    + intros p _. rewrite decide_False by apply not_elem_of_nil. by destruct (w_devs w !! p).
  - apply NoDup_cons in Hnd as [Hx Hnd]. apply not_elem_of_cons in Hmux as [Hne Hmux].
    apply Forall_cons in Hal as [[d Ed] Hal]. cbn [for_each].
    rewrite bind_run. unfold ignore at 1. rewrite bind_run, (del_lower_run _ _ _ _ _ Ed Em) by done. cbn [mret M_ret].
    edestruct (IH (upd_w_refs (put x) (upd_w_devs (fun devs => <[x := released d]>
        (<[mux := upd_nd_lowers (unlink x) m]> devs)) w))) as (w' & E & Ep & Er & Em' & Eo); [| | | |].
    + simpl. rewrite lookup_insert_ne by done. apply lookup_insert_eq.
    + done.
    + done.
    + eapply Forall_impl; [exact Hal|]. intros p Hp. simpl.
      destruct (decide (p = x)) as [->|]; [rewrite lookup_insert_eq; eauto|].
      rewrite lookup_insert_ne by done.
      destruct (decide (p = mux)) as [->|]; [rewrite lookup_insert_eq; eauto|].
      by rewrite lookup_insert_ne.
    + exists w'. split; [exact E|]. split; [done|]. split; [done|]. split.
      * rewrite Em'. f_equal.
        transitivity (upd_nd_lowers (fun l0 => filter (fun p => p ∉ l) (unlink x l0)) m); [done|].
        apply upd_nd_lowers_ext. unfold unlink. rewrite list_filter_filter.
        apply list_filter_iff. intros p. rewrite not_elem_of_cons. tauto.
      * intros p Hp. rewrite Eo by done. simpl. destruct (decide (p = x)) as [->|Hpx].
        -- rewrite decide_False, decide_True by (done || left). by rewrite lookup_insert_eq, Ed.
        -- rewrite !lookup_insert_ne by done. f_equal. apply decide_ext.
           rewrite elem_of_cons. split; [by right|by intros [?|?]].
Qed.

(** A device that no other driver uses as a lower. *)
Definition unused (d : net_device) : Prop :=
  nd_master d = None /\ nd_rx_handler d = None /\ has_flag (nd_flags d) IFF_SLAVE = false.

Lemma released_enslaved mux mtu d :
  unused d -> released (enslaved mux mtu d) = upd_nd_mtu (fun _ => mtu) d.
Proof.
  intros (Hm & Hr & Hf). unfold has_flag in Hf. apply negb_false_iff, Z.eqb_eq in Hf.
  assert (Z.ldiff (Z.lor (nd_flags d) IFF_SLAVE) IFF_SLAVE = nd_flags d) as Hfl.
  { zbits i. rewrite Z.lor_spec. apply (f_equal (fun z => Z.testbit z i)) in Hf. rewrite Z.land_spec, Z.bits_0 in Hf.
    destruct (Z.testbit (nd_flags d) i), (Z.testbit IFF_SLAVE i); simpl in *; congruence. }
  destruct d. simpl in Hm, Hr, Hfl. subst. lazy -[Z.add Z.lor Z.ldiff IFF_SLAVE]. rewrite Hfl. f_equal. lia.
Qed.

(** C21: Once its task has ended, the removal of the mux gives every lower back,
    not enslaved, without a master, without the receive handler and no longer
    promiscuous on its behalf, and drops the reference to it.  So a lower that
    was added when no other driver used it is as it was before, but for the MTU
    the mux gave it, which stays.  The mux has no lower and no link afterwards,
    and no other device changed. *)
Theorem uninit_releases rest mux w w1 m :
  (if flag_has xeth_mux_flag_main_task (w_priv w) then rest w = Some (tt, w1) else w1 = w) ->
  flag_has xeth_mux_flag_main_task (w_priv w1) = false ->
  w_devs w1 !! mux = Some m -> NoDup (nd_lowers m) -> mux ∉ nd_lowers m ->
  Forall (fun p => is_Some (w_devs w1 !! p)) (nd_lowers m) ->
  exists w', xeth_mux_uninit rest mux w = Some (tt, w') /\
    Forall (eq None) (mx_link (w_priv w')) /\
    w_devs w' !! mux = Some (upd_nd_lowers (fun _ => []) m) /\
    (forall p, p <> mux ->
      w_devs w' !! p = (if decide (p ∈ nd_lowers m) then released else id) <$> w_devs w1 !! p) /\
    (forall p d mtu, p ∈ nd_lowers m -> w_devs w1 !! p = Some (enslaved mux mtu d) -> unused d ->
      w_devs w' !! p = Some (upd_nd_mtu (fun _ => mtu) d)) /\
    (forall refs, w_refs w1 ≡ₚ nd_lowers m ++ refs -> w_refs w' ≡ₚ refs).
Proof.
  intros Hrest Hflag Em Hnd Hmux Hal. unfold xeth_mux_uninit. rewrite bind_run. cbn.
  set (w2 := if flag_has xeth_mux_flag_main_task (w_priv w)
             then upd_w_priv (upd_mx_main (fun _ => false)) w1 else w1).
  assert ((when (flag_has xeth_mux_flag_main_task (w_priv w))
    (rest ≫= fun _ => mod_mux (upd_mx_main (fun _ => false)) ≫= fun _ => wait_main_task)) w
    = Some (tt, w2)) as E0.
  { unfold w2. destruct (flag_has _ (w_priv w)); [|by rewrite Hrest].
    cbn [when]. rewrite bind_run, Hrest. rewrite bind_run. cbn. unfold wait_main_task.
    rewrite bind_run. cbn. unfold flag_has in *. cbn [w_priv upd_w_priv mx_flags upd_mx_main] in *.
    by rewrite Hflag. }
  rewrite bind_run, E0.
  assert (w_devs w2 = w_devs w1) as Ed2 by (unfold w2; by destruct (flag_has _ _)).
  assert (w_refs w2 = w_refs w1) as Er2 by (unfold w2; by destruct (flag_has _ _)).
  rewrite bind_run, (dev_run w2 mux m) by (by rewrite Ed2).
  destruct (del_lowers_run mux (nd_lowers m) w2 m) as (w' & E & _ & Er & Em' & Eo);
    [by rewrite Ed2|done|done|by rewrite Ed2|].
  rewrite bind_run, E. eexists. split; [reflexivity|].
  cbn [w_priv w_devs w_refs upd_w_priv mx_link upd_mx_link]. split; [|split; [|split; [|split]]].
  - by apply Forall_replicate.
  - rewrite Em'. f_equal. apply upd_nd_lowers_ext. apply filter_not_in_self.
  - intros p Hp. by rewrite Eo, Ed2.
  - intros p d mtu Hp Ed Hd. rewrite Eo, Ed2, decide_True, Ed by (done || by intros ->).
    simpl. by rewrite released_enslaved.
  - intros refs Hr. rewrite Er, Er2. by apply put_each.
Qed.

Lemma for_each_queue l w :
  for_each l unregister_netdevice_queue w = Some (tt, upd_w_unregq (fun q => q ++ l) w).
Proof.
  revert w; induction l as [|x l IH]; intros w.
  - unfold upd_w_unregq. simpl. rewrite app_nil_r. by destruct w.
  - cbn [for_each]. rewrite bind_run. cbn. rewrite IH. unfold upd_w_unregq. simpl.
    by rewrite <- app_assoc.
Qed.

(** Every proxy is of one kind. *)
Lemma kinds_partition w l :
  Forall (fun p => registrable w p = true) l ->
  of_kind w XETH_DEV_KIND_BRIDGE l ++ of_kind w XETH_DEV_KIND_VLAN l ++
  of_kind w XETH_DEV_KIND_LAG l ++ of_kind w XETH_DEV_KIND_PORT l ++
  of_kind w XETH_DEV_KIND_LB l ≡ₚ l.
Proof.
  induction 1 as [|p l Hp _ IH]; [done|].
  destruct (registrable_inv _ _ Hp) as (px & mux & Epx & _ & Hk).
  assert (forall k, of_kind w k (p :: l) =
    if decide (px_kind px = k) then p :: of_kind w k l else of_kind w k l) as Ek.
  { intros k. assert (kind_of w p = Some (px_kind px)) as E by (unfold kind_of; by rewrite Epx).
    unfold of_kind. rewrite filter_cons. do 2 case_decide; congruence. }
  rewrite !Ek. etransitivity; [|apply perm_skip, IH].
  destruct (px_kind px); try done; repeat case_decide; try done; simpl;
    by rewrite <- ?Permutation_middle.
Qed.

Lemma unregq_twice q1 q2 w :
  upd_w_unregq (fun q => q ++ q2) (upd_w_unregq (fun q => q ++ q1) w) =
  upd_w_unregq (fun q => q ++ (q1 ++ q2)) w.
Proof. unfold upd_w_unregq. simpl. by rewrite <- app_assoc. Qed.

(** What the removal of a registered mux does. *)
Lemma dellink_eq mux w d :
  w_devs w !! mux = Some d -> nd_registered d = true ->
  xeth_mux_dellink mux w = Some (tt,
    upd_w_unregq (fun q => q ++ mx_bridges (w_priv w) ++ mx_vlans (w_priv w) ++ mx_lags (w_priv w) ++
        mx_ports (w_priv w) ++ mx_lbs (w_priv w) ++ [mux])
      (upd_w_stat_file (fun b => if mx_stat_sysfs (w_priv w) then false else b)
      (upd_w_priv (fun priv => upd_mx_absent_gpios (fun _ => None) (upd_mx_intr_gpios (fun _ => None)
        (upd_mx_lpmode_gpios (fun _ => None) (upd_mx_reset_gpios (fun _ => None) priv)))) w))).
Proof.
  intros Ed Hreg. unfold xeth_mux_dellink. rewrite bind_run, (dev_run _ _ _ Ed), Hreg. cbn [negb].
  unfold mod_mux, get_mux. rewrite bind_run. unfold modify at 1. rewrite bind_run. unfold gets.
  set (w1 := upd_w_priv _ w). rewrite bind_run.
  assert (when (mx_stat_sysfs (w_priv w1)) (modify (upd_w_stat_file (fun _ => false))) w1 =
    Some (tt, upd_w_stat_file (fun b => if mx_stat_sysfs (w_priv w) then false else b) w1)) as ->.
  { change (mx_stat_sysfs (w_priv w1)) with (mx_stat_sysfs (w_priv w)).
    destruct (mx_stat_sysfs (w_priv w)); [done|]. by destruct w. }
  do 5 rewrite bind_run, for_each_queue. unfold unregister_netdevice_queue, modify.
  rewrite !unregq_twice. rewrite ?app_assoc. done.
Qed.

Lemma dellink_run mux w l d :
  registry_rep w l -> w_devs w !! mux = Some d -> nd_registered d = true ->
  exists w' q, xeth_mux_dellink mux w = Some (tt, w') /\
    w_unregq w' = w_unregq w ++ q ++ [mux] /\ q ≡ₚ l /\
    q = of_kind w XETH_DEV_KIND_BRIDGE l ++ of_kind w XETH_DEV_KIND_VLAN l ++
        of_kind w XETH_DEV_KIND_LAG l ++ of_kind w XETH_DEV_KIND_PORT l ++
        of_kind w XETH_DEV_KIND_LB l.
Proof.
  intros R Ed Hreg. eexists _, _. split; [by eapply dellink_eq|]. split; [|split; [|reflexivity]].
  - simpl. rewrite <- !app_assoc. destruct R. simpl in *. congruence.
  - apply kinds_partition. apply R.
Qed.

Lemma dellink_lines mux w d w' :
  w_devs w !! mux = Some d -> nd_registered d = true -> xeth_mux_dellink mux w = Some (tt, w') ->
  mx_lpmode_gpios (w_priv w') = None /\ mx_reset_gpios (w_priv w') = None /\
  (mx_stat_sysfs (w_priv w) = true -> w_stat_file w' = false).
Proof.
  intros Ed Hreg. rewrite (dellink_eq _ _ _ Ed Hreg). intros [= <-]. do 2 (split; [done|]).
  simpl. by intros ->.
Qed.

(** The removal of the mux queues every registered proxy for removal, once,
    and the mux last; what may be enslaved comes after its masters: bridges,
    VLANs, LAGs, ports, loopbacks. *)
Theorem dellink_queues_all mux w l d :
  registry_rep w l -> w_devs w !! mux = Some d -> nd_registered d = true ->
  exists w' q, xeth_mux_dellink mux w = Some (tt, w') /\
    w_unregq w' = w_unregq w ++ q ++ [mux] /\ q ≡ₚ l /\
    q = of_kind w XETH_DEV_KIND_BRIDGE l ++ of_kind w XETH_DEV_KIND_VLAN l ++
        of_kind w XETH_DEV_KIND_LAG l ++ of_kind w XETH_DEV_KIND_PORT l ++
        of_kind w XETH_DEV_KIND_LB l.
Proof. exact (dellink_run mux w l d). Qed.

(** ** Setup *)

(** The setup of a mux establishes the invariants the rest of the driver
    keeps: an empty registry, no buffers and counters that say so; and the mux is
    told from other devices by its operations from then on. *)
Theorem setup_establishes mux w d :
  w_devs w !! mux = Some d ->
  exists w' d', xeth_mux_setup mux w = Some (tt, w') /\
    registry_rep w' [] /\ sb_ok w' /\ queued w' = [] /\
    w_devs w' !! mux = Some d' /\ is_xeth_mux d' = true /\ has_flag (nd_flags d') IFF_MASTER = true /\
    forall p, p <> mux -> w_devs w' !! p = w_devs w !! p.
Proof.
  intros Ed. unfold xeth_mux_setup. rewrite bind_run, (mod_dev_run _ _ _ _ Ed).
  eexists _, _. split; [reflexivity|]. split; [|split; [|split; [done|]]].
  - split; simpl; try done; [constructor|].
    intros i Hi. apply list_lookup_total_correct. by apply (lookup_replicate_2 16 (@nil Z) i).
  - split; simpl; try done; constructor.
  - split; [apply lookup_insert_eq|]. split; [|split].
    + unfold is_xeth_mux. apply bool_decide_eq_true_2.
      match goal with |- nd_ops ?x = _ => change (nd_ops x) with (nd_ops (ether_setup
        (upd_nd_needs_free (fun _ => true) (upd_nd_eto (fun _ => Some EtoMux)
          (upd_nd_ops (fun _ => NdoMux) d))))) end.
      by rewrite (proj1 (ether_setup_law _)).
    + simpl. unfold has_flag. apply negb_true_iff, Z.eqb_neq. rewrite Z.land_lor_distr_l, Z.land_diag.
      intros E. apply Z.lor_eq_0_iff in E as [_ E]. discriminate E.
    + intros p Hp. simpl. by rewrite lookup_insert_ne.
Qed.

End lower.

(** ** Witnesses *)

(** The demo mux beside three devices of another driver; 22 has a receive handler. *)
Definition demo_nic (i : Z) : net_device :=
  upd_nd_mtu (fun _ => XETH_SIZEOF_JUMBO_FRAME) (demo_dev i NdoOther None None).
Definition demo_nics : world :=
  upd_w_devs (fun devs => <[20 := demo_nic 20]> (<[21 := demo_nic 21]>
    (<[22 := upd_nd_rx_handler (fun _ => Some 77) (demo_nic 22)]> devs))) demo_full.

Definition demo_one_link : world := ends (xeth_mux_add_lower (K:=plain_dev) 100 20) demo_nics.
Definition demo_two_links : world := ends (xeth_mux_add_lower (K:=plain_dev) 100 21) demo_one_link.

Lemma demo_two_links_run :
  xeth_mux_add_lower (K:=plain_dev) 100 21 demo_one_link = Some (0, demo_two_links).
Proof. vm_compute. reflexivity. Qed.

Lemma add_lower_enslaves_witness :
  exists d m mtu, w_devs demo_one_link !! 21 = Some d /\ w_devs demo_one_link !! 100 = Some m /\
    w_devs demo_two_links !! 21 = Some (enslaved 100 mtu d) /\ nd_lowers m = [20].
Proof.
  destruct (add_lower_enslaves (K:=plain_dev) (KL:=plain_dev_laws) 100 21 demo_one_link demo_two_links
    demo_two_links_run) as (d & m & mtu & Ed & Em & Hne & _ & E).
  exists d, m, mtu. split; [exact Ed|]. split; [exact Em|]. split.
  - rewrite E. cbn [w_devs upd_w_priv upd_w_devs].
    rewrite (lookup_insert_ne _ 100 21) by discriminate. apply lookup_insert_eq.
  - vm_compute in Em. injection Em as <-. reflexivity.
Defined.

Definition demo_mux2 : net_device :=
  upd_nd_lowers (fun _ => [20; 21]) (demo_dev 8 NdoMux (Some LnkoMux) None).
Lemma demo_two_links_mux : w_devs demo_two_links !! 100 = Some demo_mux2.
Proof. vm_compute. reflexivity. Qed.

Lemma link_table_witness :
  exists w', xeth_mux_rehash_link_ht 100 demo_two_links = Some (tt, w') /\
    mx_link (w_priv w') !! 1%nat = Some (Some 21).
Proof.
  destruct (link_table demo_two_links 100 demo_mux2 demo_two_links_mux) as (w' & E & _ & _ & E1).
  - discriminate.
  - vm_compute. reflexivity.
  - exists w'. split; [exact E|exact E1].
Defined.

Lemma add_lower_busy_witness :
  xeth_mux_add_lower (K:=plain_dev) 100 22 demo_nics =
    Some (- EBUSY, upd_w_devs (insert 22 (upd_nd_rx_handler (fun _ => None)
      (upd_nd_promiscuity (Z.add 1) (upd_nd_rx_handler (fun _ => Some 77) (demo_nic 22))))) demo_nics).
Proof.
  apply (add_lower_busy (K:=plain_dev) 100 22 demo_nics
    (upd_nd_rx_handler (fun _ => Some 77) (demo_nic 22)) (demo_dev 8 NdoMux (Some LnkoMux) None) 77).
  - vm_compute. reflexivity.
  - vm_compute. reflexivity.
  - discriminate.
  - reflexivity.
  - reflexivity.
  - reflexivity.
  - intros w. discriminate.
Defined.

Lemma uninit_releases_witness :
  exists w', xeth_mux_uninit (K:=plain_dev) (mret (M:=M world) tt) 100 demo_two_links = Some (tt, w') /\
    Forall (eq None) (mx_link (w_priv w')) /\
    w_devs w' !! 20 = Some (upd_nd_mtu (fun _ => XETH_SIZEOF_JUMBO_FRAME) (demo_nic 20)).
Proof.
  destruct (uninit_releases (K:=plain_dev) (mret (M:=M world) tt) 100 demo_two_links demo_two_links demo_mux2)
    as (w' & E & Hl & _ & _ & Hback & _).
  - vm_compute. reflexivity.
  - vm_compute. reflexivity.
  - exact demo_two_links_mux.
  - apply (bool_decide_unpack _). vm_compute. exact I.
  - apply (bool_decide_unpack _). vm_compute. exact I.
  - repeat constructor; vm_compute; eexists; reflexivity.
  - exists w'. split; [exact E|]. split; [exact Hl|]. apply Hback.
    + apply (bool_decide_unpack _). vm_compute. exact I.
    + vm_compute. reflexivity.
    + repeat split; reflexivity.
Defined.

Lemma dellink_queues_all_witness :
  exists w', xeth_mux_dellink 100 demo_full = Some (tt, w') /\ w_unregq w' = [6; 4; 5; 3; 2; 1; 7; 100].
Proof.
  destruct (dellink_queues_all 100 demo_full [7; 6; 4; 5; 3; 2; 1]
    (demo_dev 8 NdoMux (Some LnkoMux) None) demo_full_rep) as (w' & q & E & Eq & _ & ->).
  - vm_compute. reflexivity.
  - reflexivity.
  - exists w'. split; [exact E|]. rewrite Eq. vm_compute. reflexivity.
Defined.

Lemma setup_establishes_witness :
  exists w', xeth_mux_setup (K:=plain_dev) 100 demo_full = Some (tt, w') /\ queued w' = [].
Proof.
  destruct (setup_establishes (K:=plain_dev) (H:=golden_hash) (KL:=plain_dev_laws) 100 demo_full
    (demo_dev 8 NdoMux (Some LnkoMux) None)) as (w' & d' & E & _ & _ & Eq & _).
  - vm_compute. reflexivity.
  - exists w'. split; [exact E|exact Eq].
Defined.
