(* ===== verification/Xid.v ===== *)
(** * Allocation of XIDs (dkms/xeth_lag.c, xeth_bridge.c, xeth_lb.c, xeth_port.c)

    LAGs, bridges and loopbacks take the first free XID from 3000 up to 4095;
    a port made through rtnl takes the first free one from 3999 down; a port of
    the platform has the XID of its port and subport numbers. *)

From stdpp Require Import base numbers list gmap.
From Stdlib Require Import ZArith Lia.
From S2P Require Import Prelude Bytes Monad Uapi State Kernel Demo Registry.

Local Open Scope Z_scope.

Definition xeth_port_top_vid : Z := 3999.

Section xid.
Context {H : KernelHash}.

(** [for (xid = 3000; xeth_mux_proxy_of_xid(mux, xid); xid++) if (xid == 4095)
    return -ENODEV;]  None is the return; [fuel] bounds the increments. *)
Fixpoint xid_up (fuel : nat) (xid : Z) : M world (option Z) :=
  proxy ← xeth_mux_proxy_of_xid xid;
  match proxy with
  | None => mret (Some xid)
  | Some _ =>
      if xid =? 4095 then mret None else
      match fuel with
      | O => oops
      | S fuel => xid_up fuel (xid + 1)
      end
  end.

Definition alloc_xid : M world (option Z) := xid_up 1095 3000.

(** [for (xid = xeth_port_top_vid; xeth_mux_proxy_of_xid(mux, xid); xid--);] with
    a 32-bit XID.  The loop has no bound of its own. *)
Fixpoint xid_down (fuel : nat) (xid : Z) : M world Z :=
  proxy ← xeth_mux_proxy_of_xid xid;
  match proxy with
  | None => mret xid
  | Some _ =>
      match fuel with
      | O => oops
      | S fuel => xid_down fuel (u32 (xid - 1))
      end
  end.

Definition alloc_port_xid (fuel : nat) : M world Z := xid_down fuel xeth_port_top_vid.

(** The XID of a platform port: [subport] is negative for a port that is not split. *)
Definition port_xid (ports port subport : Z) : Z :=
  let xid := u32 (xeth_port_top_vid - port) in
  if 0 <=? subport then u32 (xid - subport * ports) else xid.

(** ** Lemmas *)

Definition taken (w : world) (l : list Z) (xid : Z) : Prop := is_Some (spec_of_xid w l xid).

Lemma spec_of_xid_Some w l xid p :
  spec_of_xid w l xid = Some p -> p ∈ l /\ xid_of w p = Some xid.
Proof.
  unfold spec_of_xid. destruct (filter _ _) as [|q qs] eqn:E; [done|]. intros [= ->].
  assert (p ∈ p :: qs) as Hp by left. rewrite <- E in Hp.
  by apply list_elem_of_filter in Hp as [??].
Qed.

Lemma spec_of_xid_None w l xid : spec_of_xid w l xid = None <-> forall p, p ∈ l -> xid_of w p <> Some xid.
Proof.
  unfold spec_of_xid. split.
  - intros E p Hp Hx. destruct (filter _ _) as [|q qs] eqn:Ef; [|done].
    apply (not_elem_of_nil p). rewrite <- Ef. by apply list_elem_of_filter.
  - intros Hn. destruct (filter _ _) as [|q qs] eqn:Ef; [done|]. exfalso.
    assert (q ∈ q :: qs) as Hq by left. rewrite <- Ef in Hq.
    apply list_elem_of_filter in Hq as [Hx Hq]. by apply (Hn q).
Qed.

(** A run of taken XIDs is no longer than the registry. *)
Lemma taken_le w l a n :
  0 <= n -> (forall x, a <= x < a + n -> taken w l x) -> n <= Z.of_nat (length l).
Proof.
  intros Hn Ht. set (f x := default 0 (spec_of_xid w l x)).
  assert (forall x, x ∈ seqZ a n -> f x ∈ l /\ xid_of w (f x) = Some x) as Hf.
  { intros x Hx%elem_of_seqZ. destruct (Ht x Hx) as [p Ep]. unfold f. rewrite Ep.
    by apply spec_of_xid_Some. }
  assert (NoDup (f <$> seqZ a n)) as Hnd.
  { apply NoDup_fmap_2_strong; [|apply NoDup_seqZ]. intros x y Hx Hy E.
    apply Hf in Hx as [_ Hx]. apply Hf in Hy as [_ Hy]. rewrite E in Hx. congruence. }
  assert (f <$> seqZ a n ⊆+ l) as Hs.
  { apply NoDup_submseteq; [done|]. intros p (x & -> & Hx)%list_elem_of_fmap. by apply Hf. }
  apply submseteq_length in Hs. rewrite length_fmap, length_seqZ in Hs. lia.
Qed.

Context {HL : KernelHashLaws}.

Lemma xid_up_run w l fuel x :
  registry_rep w l -> x <= 4095 <= x + Z.of_nat fuel ->
  exists r, xid_up fuel x w = Some (r, w) /\
    match r with
    | Some y => x <= y <= 4095 /\ ~ taken w l y /\ forall z, x <= z < y -> taken w l z
    | None => forall z, x <= z <= 4095 -> taken w l z
    end.
Proof.
  intros R. revert x; induction fuel as [|fuel IH]; intros x Hx; cbn [xid_up];
    rewrite bind_run, (proxy_of_xid_run _ _ _ R);
    destruct (spec_of_xid w l x) as [p|] eqn:E.
  1,3: destruct (Z.eqb_spec x 4095) as [->|Hne].
  - exists None. split; [done|]. intros z Hz. replace z with 4095 by lia. by exists p.
  - lia.
  - exists None. split; [done|]. intros z Hz. replace z with 4095 by lia. by exists p.
  - destruct (IH (x + 1)) as (r & Er & Hr); [lia|]. exists r. split; [done|].
    assert (taken w l x) as Htx by (by exists p).
    destruct r as [y|].
    + destruct Hr as (? & ? & Ht). split; [lia|]. split; [done|]. intros z Hz.
      destruct (decide (z = x)) as [->|]; [done|]. apply Ht. lia.
    + intros z Hz. destruct (decide (z = x)) as [->|]; [done|]. apply Hr. lia.
  - exists (Some x). split; [done|]. split; [lia|]. unfold taken. rewrite E.
    split; [apply is_Some_None|lia].
  - exists (Some x). split; [done|]. split; [lia|]. unfold taken. rewrite E.
    split; [apply is_Some_None|lia].
Qed.

Lemma alloc_xid_run w l :
  registry_rep w l ->
  exists r, alloc_xid w = Some (r, w) /\
    (Z.of_nat (length l) < 1096 -> r <> None) /\
    match r with
    | Some y => 3000 <= y <= 4095 /\ ~ taken w l y /\ forall z, 3000 <= z < y -> taken w l z
    | None => forall z, 3000 <= z <= 4095 -> taken w l z
    end.
Proof.
  intros R. destruct (xid_up_run w l 1095 3000 R) as (r & E & Hr); [lia|].
  exists r. split; [exact E|]. split; [|done]. intros Hl ->.
  pose proof (taken_le w l 3000 1096 ltac:(lia)) as Ht. specialize (Ht ltac:(intros; apply Hr; lia)).
  lia.
Qed.

Lemma xid_down_run w l fuel x :
  registry_rep w l -> Z.of_nat fuel <= x < 2 ^ 32 ->
  (forall z, x < z <= xeth_port_top_vid -> taken w l z) -> x <= xeth_port_top_vid ->
  Z.of_nat (length l) <= Z.of_nat fuel + (xeth_port_top_vid - x) ->
  exists y, xid_down fuel x w = Some (y, w) /\ 0 <= y <= x /\ ~ taken w l y /\
    forall z, y < z <= xeth_port_top_vid -> taken w l z.
Proof.
  intros R. revert x; induction fuel as [|fuel IH]; intros x Hx Ht Hle Hl; cbn [xid_down];
    rewrite bind_run, (proxy_of_xid_run _ _ _ R);
    destruct (spec_of_xid w l x) as [p|] eqn:E.
  - exfalso. pose proof (taken_le w l x (xeth_port_top_vid - x + 1) ltac:(lia)) as Hc.
    enough (xeth_port_top_vid - x + 1 <= Z.of_nat (length l)) by lia. apply Hc. intros z Hz.
    destruct (decide (z = x)) as [->|]; [by exists p|]. apply Ht. lia.
  - exists x. split; [done|]. split; [lia|]. split; [unfold taken; rewrite E; apply is_Some_None|done].
  - rewrite u32_small by lia. destruct (IH (x - 1)) as (y & Ey & Hy & Hf & Hg); try lia.
    + intros z Hz. destruct (decide (z = x)) as [->|]; [by exists p|]. apply Ht. lia.
    + exists y. split; [done|]. split; [lia|]. done.
  - exists x. split; [done|]. split; [lia|]. split; [unfold taken; rewrite E; apply is_Some_None|done].
Qed.

(** C22: The XID of a LAG, a bridge or a loopback is the least one of 3000 to 4095
    that no registered proxy has; the allocation fails only when all of them are
    taken, and never with fewer than 1096 proxies.  The XID of an rtnl port is the
    greatest free one up to 3999: the unbounded loop ends, after as many steps as
    there are proxies at most. *)
Theorem xid_allocation w l :
  registry_rep w l -> Z.of_nat (length l) <= xeth_port_top_vid ->
  (exists r, alloc_xid w = Some (r, w) /\
    (Z.of_nat (length l) < 1096 -> r <> None) /\
    match r with
    | Some y => 3000 <= y <= 4095 /\ ~ taken w l y /\ forall z, 3000 <= z < y -> taken w l z
    | None => forall z, 3000 <= z <= 4095 -> taken w l z
    end) /\
  exists y, alloc_port_xid (length l) w = Some (y, w) /\ 0 <= y <= xeth_port_top_vid /\
    ~ taken w l y /\ forall z, y < z <= xeth_port_top_vid -> taken w l z.
Proof.
  intros R Hl. split; [by apply alloc_xid_run|].
  apply xid_down_run; [done|unfold xeth_port_top_vid in *; lia|lia|lia|lia].
Qed.

Lemma port_xid_eq ports port subport :
  ports * 4 <= xeth_port_top_vid -> 0 <= port < ports -> -1 <= subport < 4 ->
  port_xid ports port subport = xeth_port_top_vid - port - Z.max 0 subport * ports.
Proof.
  unfold port_xid, xeth_port_top_vid. intros Hb Hp Hs. rewrite (u32_small (3999 - port)) by lia.
  destruct (Z.leb_spec 0 subport).
  - rewrite Z.max_r by lia. by rewrite u32_small by nia.
  - rewrite Z.max_l by lia. lia.
Qed.

Lemma port_xid_range ports port subport :
  ports * 4 <= xeth_port_top_vid -> 0 <= port < ports -> -1 <= subport < 4 ->
  1 <= port_xid ports port subport <= xeth_port_top_vid.
Proof.
  intros. rewrite port_xid_eq by done. unfold xeth_port_top_vid in *.
  assert (0 <= Z.max 0 subport * ports <= 3 * ports); [|lia].
  split; [nia|apply Z.mul_le_mono_nonneg_r; lia].
Qed.

(** The ports of a platform do not share an XID: with [ports] ports of up to
    four subports, unsplit ports and subports have different XIDs of 1 to 3999,
    each of a port its own. *)
Theorem port_xid_injective ports p1 s1 p2 s2 :
  0 < ports -> ports * 4 <= xeth_port_top_vid ->
  0 <= p1 < ports -> 0 <= p2 < ports -> -1 <= s1 < 4 -> -1 <= s2 < 4 ->
  1 <= port_xid ports p1 s1 <= xeth_port_top_vid /\
  (port_xid ports p1 s1 = port_xid ports p2 s2 <-> p1 = p2 /\ Z.max 0 s1 = Z.max 0 s2).
Proof.
  intros Hp Hb H1 H2 Hs1 Hs2. split; [by apply port_xid_range|].
  rewrite !port_xid_eq by done. split; [|intros [-> ->]; done].
  intros Eq. assert (Z.max 0 s1 = Z.max 0 s2) as Es; [|rewrite Es in Eq; split; [lia|done]].
  nia.
Qed.

End xid.

(** ** Witnesses *)

Lemma xid_allocation_witness :
  exists y, alloc_port_xid (H:=golden_hash) 7 demo_full = Some (y, demo_full) /\
    ~ taken demo_full [7; 6; 4; 5; 3; 2; 1] y /\ y = 3996.
Proof.
  destruct (xid_allocation (H:=golden_hash) (HL:=golden_hash_laws) demo_full [7; 6; 4; 5; 3; 2; 1]
    demo_full_rep) as [_ (y & Ey & _ & Hf & _)].
  - vm_compute. discriminate.
  - exists y. split; [exact Ey|]. split; [exact Hf|].
    vm_compute in Ey. injection Ey as <-. reflexivity.
Defined.

Lemma port_xid_injective_witness : port_xid 32 5 2 <> port_xid 32 5 1.
Proof.
  intros E. apply (port_xid_injective 32 5 2 5 1) in E as [_ E]; [discriminate E|..];
    unfold xeth_port_top_vid; lia.
Defined.
