(* ===== verification/Create.v ===== *)
(** * Creation of proxies

    What the newlink operations of VLANs, loopbacks, LAGs, bridges and ports have
    in common: a proxy is put in the registry, its device registered with the
    kernel and announced to the daemon.  When the kernel's registration fails
    after ndo_init, the kernel calls ndo_uninit, which takes the proxy out of the
    registry; the newlink operations take it out once more. *)

From stdpp Require Import base numbers list gmap.
From Stdlib Require Import ZArith Lia.
From S2P Require Import Prelude Bytes Monad Uapi State Stats Kernel Demo Registry Sbq.
From S2P Require Import Sbtx Proxy Carrier Nb Netdev.

Local Open Scope Z_scope.

Section create.
Context {K : KernelDev} {C : KernelConst} {N : KernelNotify} {H : KernelHash}.

(** xeth_proxy_setup (dkms/xeth.h) *)
Definition xeth_proxy_setup (nd : Z) : M world unit :=
  mod_proxy nd (upd_px_link_stats (fun _ => xeth_link_stat_init)).

(** The flags every proxy's setup sets and clears after ether_setup. *)
Definition proxy_priv_flags (f : Z) : Z :=
  Z.lor (Z.lor (Z.lor (Z.lor (Z.ldiff f IFF_TX_SKB_SHARING) IFF_LIVE_ADDR_CHANGE) IFF_NO_QUEUE)
               IFF_PHONY_HEADROOM) IFF_DONT_BRIDGE.

(** The end of the newlink of a VLAN or a loopback: link the proxy, register its
    device, announce it, and unlink it on any error. *)
Definition register_proxy (init : Z -> M world Z) (uninit : Z -> M world unit) (nd : Z) : M world Z :=
  xeth_mux_add_proxy nd ≫= fun _ =>
  err ← and_then (register_netdevice init uninit nd)
                 (xeth_sbtx_ifinfo nd 0 XETH_IFINFO_REASON_NEW);
  when (negb (err =? 0)) (xeth_mux_del_proxy nd) ≫= fun _ => mret err.

(** ** Lemmas *)

(** xeth_proxy_init on the device. *)
Definition inited (d : net_device) : net_device :=
  upd_nd_carrier (fun _ => false)
  (upd_nd_features (fun f =>
     Z.lor (Z.ldiff (Z.lor f NETIF_F_VLAN_CHALLENGED) NETIF_F_SOFT_FEATURES) NETIF_F_HW_L2FW_DOFFLOAD)
  (upd_nd_hw_features (fun _ => NETIF_F_HW_L2FW_DOFFLOAD) d)).

(** ndo_init succeeds and changes the device by [fi], its proxy excepted. *)
Definition inits (init : Z -> M world Z) (fi : net_device -> net_device) : Prop :=
  (forall d, nd_proxy (fi d) = nd_proxy d) /\
  forall nd w d, w_devs w !! nd = Some d -> init nd w = Some (0, upd_w_devs (insert nd (fi d)) w).

Lemma proxy_inits : inits xeth_proxy_init inited.
Proof.
  split; [done|]. intros nd w d Ed. unfold xeth_proxy_init.
  by rewrite bind_run, (mod_dev_run _ _ _ _ Ed).
Qed.

(** Changing a device but not its proxy. *)
Lemma registry_rep_dev w l p d d' :
  w_devs w !! p = Some d -> nd_proxy d' = nd_proxy d -> registry_rep w l ->
  registry_rep (upd_w_devs (insert p d') w) l.
Proof.
  intros Ed Ep. apply registry_rep_frame; try done. intros q.
  assert (proxy_at (upd_w_devs (insert p d') w) q = proxy_at w q) as E.
  { unfold proxy_at. simpl. destruct (decide (q = p)) as [->|];
      [by rewrite lookup_insert_eq, Ed|by rewrite lookup_insert_ne]. }
  unfold xid_of, kind_of, registrable. by rewrite E.
Qed.

Lemma sb_ok_devs f w : sb_ok w -> sb_ok (upd_w_devs f w).
Proof. by apply sb_ok_frame_priv. Qed.

Lemma add_kin_frame {A} (f : xeth_mux_priv -> A) k p priv :
  (forall g r, f (upd_mx_ports g r) = f r) -> (forall g r, f (upd_mx_vlans g r) = f r) ->
  (forall g r, f (upd_mx_bridges g r) = f r) -> (forall g r, f (upd_mx_lags g r) = f r) ->
  (forall g r, f (upd_mx_lbs g r) = f r) -> f (add_kin k p priv) = f priv.
Proof. intros. destruct k; simpl; done. Qed.

Lemma sb_ok_add_kin k p g w :
  sb_ok w -> sb_ok (upd_w_priv (fun priv => add_kin k p (upd_mx_hls g priv)) w).
Proof. intros []. by split; destruct k. Qed.

Context {KL : KernelDevLaws} {HL : KernelHashLaws}.

(** The notification of a new device: the proxy is announced as registered. *)
Lemma notify_register_delivers w l nd d px :
  registry_rep w l -> nd ∈ l -> w_devs w !! nd = Some d -> nd_proxy d = Some px ->
  nd_ifindex d <> 1 -> px_xid px <> 0 -> is_Some (px_mux px) ->
  delivers w (call_netdevice_notifiers NETDEV_REGISTER nd)
    (if bool_decide (NbNetdevice ∈ mx_chains (w_priv w))
     then [ifinfo_bytes (w_priv w) d px 0 XETH_IFINFO_REASON_REG] else []).
Proof.
  intros R Hin Ed Ep Hi Hx [mux Hmux]. unfold call_netdevice_notifiers. apply delivers_gets.
  apply delivers_when. unfold xeth_nb_netdevice. eapply delivers_dev; [exact Ed|].
  rewrite (proj2 (Z.eqb_neq _ _) Hi). eapply delivers_run; [apply (proxy_of_nd_run _ _ _ R)|].
  rewrite bool_decide_eq_true_2 by done. change (NETDEV_REGISTER =? NETDEV_CHANGE) with false.
  rewrite Z.eqb_refl. eapply delivers_priv; [unfold proxy_at; rewrite Ed; exact Ep|].
  rewrite (proj2 (Z.eqb_neq _ _) Hx), Hmux. cbn [negb andb].
  rewrite bool_decide_eq_true_2 by done. cbn [when]. apply delivers_ignore.
  pose proof (ifinfo_delivers w nd d px 0 XETH_IFINFO_REASON_REG Ed Ep) as D.
  rewrite (proj2 (Z.eqb_neq _ _) Hx), Hmux in D. exact D.
Qed.

Lemma ifinfo_bytes_ext p1 p2 d px iff reason :
  mx_encap p1 = mx_encap p2 -> ifinfo_bytes p1 d px iff reason = ifinfo_bytes p2 d px iff reason.
Proof. intros E. unfold ifinfo_bytes, ifinfo_msg. by rewrite E. Qed.

Lemma sb_frame_n_ports w w' : sb_frame w w' -> mx_n_ports (w_priv w') = mx_n_ports (w_priv w).
Proof. intros E. by apply (f_equal (fun w => mx_n_ports (w_priv w))) in E. Qed.

Lemma sb_frame_base_port w w' : sb_frame w w' -> mx_base_port (w_priv w') = mx_base_port (w_priv w).
Proof. intros E. by apply (f_equal (fun w => mx_base_port (w_priv w))) in E. Qed.

Lemma sb_frame_unregq w w' : sb_frame w w' -> w_unregq w' = w_unregq w.
Proof. intros E. by apply (f_equal w_unregq) in E. Qed.

(** From [w] to [w'] the proxy [px] of the device at [nd] was linked and its
    device, [d] before and [d'] after, registered. *)
Record created (fi : net_device -> net_device) (nd : Z) (d : net_device) (px : xeth_proxy)
    (l : list Z) (w w' : world) (d' : net_device) : Prop := {
  cr_rep : registry_rep w' (nd :: l);
  cr_ok : sb_ok w';
  cr_dev : w_devs w' !! nd = Some d';
  cr_made : exists i, 1 < i /\
    d' = upd_nd_registered (fun _ => true) (upd_nd_ifindex (fun _ => i) (fi d));
  cr_others p : p <> nd -> w_devs w' !! p = w_devs w !! p;
  cr_encap : mx_encap (w_priv w') = mx_encap (w_priv w);
  cr_n_ports : mx_n_ports (w_priv w') = mx_n_ports (w_priv w);
  cr_base_port : mx_base_port (w_priv w') = mx_base_port (w_priv w);
  cr_connected : connected w' = connected w;
  cr_queued : queued w' = queued w ++
    (if connected w && bool_decide (NbNetdevice ∈ mx_chains (w_priv w))
     then [ifinfo_bytes (w_priv w') d' px 0 XETH_IFINFO_REASON_REG] else []);
  cr_mem : (w_kmem w <= w_kmem w' + 1)%nat;
}.

Definition registers (nd : Z) : Prop :=
  (forall w, register_early w nd = 0) /\ forall w, register_late w nd = 0.

Lemma create_run init fi uninit w l nd d px :
  inits init fi -> registers nd -> registry_rep w l -> sb_ok w -> (1 <= w_kmem w)%nat -> nd ∉ l ->
  w_devs w !! nd = Some d -> nd_proxy d = Some px -> is_Some (px_mux px) ->
  px_kind px <> XETH_DEV_KIND_UNSPEC -> px_xid px <> 0 ->
  exists w1 w' d', xeth_mux_add_proxy nd w = Some (tt, w1) /\
    register_netdevice init uninit nd w1 = Some (0, w') /\ created fi nd d px l w w' d'.
Proof.
  intros [Hfp Hinit] [He Hlt] R Hw Hm Hin Ed Ep [mux Hmux] Hk Hx.
  assert (proxy_at w nd = Some px) as Epx by (unfold proxy_at; by rewrite Ed).
  destruct (add_proxy_run w l nd px R) as (w1 & E1 & R1 & Hw1);
    [unfold registrable; rewrite Epx, Hmux, !bool_decide_eq_true_2, bool_decide_eq_false_2 by done; done
    |done|done|].
  assert (w_devs w1 !! nd = Some d) as Ed1 by (by rewrite Hw1).
  set (i := new_ifindex (upd_w_devs (insert nd (fi d)) w1)).
  set (d' := upd_nd_registered (fun _ => true) (upd_nd_ifindex (fun _ => i) (fi d))).
  set (w3 := upd_w_devs (insert nd d') w1).
  assert (nd_proxy d' = Some px) as Ep' by (simpl; by rewrite Hfp).
  assert (registry_rep w3 (nd :: l)) as R3
    by (eapply registry_rep_dev; [exact Ed1|by rewrite Ep', Ep|done]).
  destruct (notify_register_delivers w3 (nd :: l) nd d' px) as ([] & w4 & E4 & M4).
  { done. } { left. } { apply lookup_insert_eq. } { done. }
  { simpl. pose proof (new_ifindex_law (upd_w_devs (insert nd (fi d)) w1)). subst i. lia. }
  { done. } { by exists mux. }
  { unfold w3. apply sb_ok_devs. rewrite Hw1. by apply sb_ok_add_kin. }
  { simpl. rewrite Hw1. simpl. destruct (bool_decide _); simpl; lia. }
  exists w1, w4, d'. split; [done|]. split.
  - unfold register_netdevice. erewrite and_then_run by reflexivity. rewrite He. cbn [Z.eqb].
    erewrite and_then_run by (by apply Hinit). cbn [Z.eqb]. rewrite bind_run. unfold gets.
    rewrite Hlt. cbn [Z.eqb]. rewrite bind_run, bind_run.
    erewrite mod_dev_run by apply lookup_insert_eq.
    replace (upd_w_devs _ _) with w3; [by rewrite bind_run, E4|].
    unfold w3, upd_w_devs. simpl. by rewrite insert_insert_eq.
  - pose proof (emits_frame _ _ _ M4) as F. pose proof (emits_queued _ _ _ M4) as Q.
    assert (forall A (f : xeth_mux_priv -> A) k p priv g,
      (forall g r, f (upd_mx_ports g r) = f r) -> (forall g r, f (upd_mx_vlans g r) = f r) ->
      (forall g r, f (upd_mx_bridges g r) = f r) -> (forall g r, f (upd_mx_lags g r) = f r) ->
      (forall g r, f (upd_mx_lbs g r) = f r) -> (forall g r, f (upd_mx_hls g r) = f r) ->
      f (add_kin k p (upd_mx_hls g priv)) = f priv) as Hframe
      by (intros; rewrite add_kin_frame by done; done).
    assert (connected w3 = connected w) as Hc.
    { unfold connected, flag_has, w3. rewrite Hw1. cbn [w_priv upd_w_devs upd_w_priv].
      by rewrite (Hframe _ mx_flags). }
    assert (mx_encap (w_priv w4) = mx_encap (w_priv w)) as Henc.
    { rewrite (sb_frame_encap _ _ F). unfold w3. rewrite Hw1. cbn [w_priv upd_w_devs upd_w_priv].
      by rewrite (Hframe _ mx_encap). }
    split; try done.
    + by eapply registry_rep_sb_frame.
    + by apply emits_ok in M4.
    + rewrite (sb_frame_devs _ _ F). apply lookup_insert_eq.
    + exists i. split; [apply new_ifindex_law|done].
    + intros p Hp. rewrite (sb_frame_devs _ _ F). simpl. rewrite lookup_insert_ne by done.
      by rewrite Hw1.
    + transitivity (mx_n_ports (w_priv w3)); [by apply sb_frame_n_ports|].
      unfold w3. rewrite Hw1. cbn [w_priv upd_w_devs upd_w_priv]. by rewrite (Hframe _ mx_n_ports).
    + transitivity (mx_base_port (w_priv w3)); [by apply sb_frame_base_port|].
      unfold w3. rewrite Hw1. cbn [w_priv upd_w_devs upd_w_priv]. by rewrite (Hframe _ mx_base_port).
    + by rewrite (sb_frame_connected _ _ F).
    + rewrite Q, Hc. replace (queued w3) with (queued w).
      2:{ unfold queued, w3. rewrite Hw1. cbn [w_priv upd_w_devs upd_w_priv].
          by rewrite (Hframe _ mx_sb_tx). }
      replace (mx_chains (w_priv w3)) with (mx_chains (w_priv w)).
      2:{ unfold w3. rewrite Hw1. cbn [w_priv upd_w_devs upd_w_priv]. by rewrite (Hframe _ mx_chains). }
      rewrite (ifinfo_bytes_ext (w_priv w3) (w_priv w4)); [by destruct (connected w)|]. by rewrite (sb_frame_encap _ _ F).
    + pose proof (emits_mem _ _ _ M4) as Hmem.
      replace (w_kmem w3) with (w_kmem w) in Hmem by (unfold w3; by rewrite Hw1).
      destruct (bool_decide _); simpl in Hmem; lia.
Qed.

(** What the daemon is told of a new proxy. *)
Definition announcement (w : world) (d : net_device) (px : xeth_proxy) : list (list Z) :=
  if connected w then
    (if bool_decide (NbNetdevice ∈ mx_chains (w_priv w))
     then [ifinfo_bytes (w_priv w) d px 0 XETH_IFINFO_REASON_REG] else []) ++
    [ifinfo_bytes (w_priv w) d px 0 XETH_IFINFO_REASON_NEW]
  else [].

(** The proxy is registered, its device made, and both announced. *)
Record newlinked (fi : net_device -> net_device) (nd : Z) (d : net_device) (px : xeth_proxy)
    (l : list Z) (w w' : world) (d' : net_device) : Prop := {
  nl_rep : registry_rep w' (nd :: l);
  nl_ok : sb_ok w';
  nl_dev : w_devs w' !! nd = Some d';
  nl_made : exists i, 1 < i /\
    d' = upd_nd_registered (fun _ => true) (upd_nd_ifindex (fun _ => i) (fi d));
  nl_others p : p <> nd -> w_devs w' !! p = w_devs w !! p;
  nl_encap : mx_encap (w_priv w') = mx_encap (w_priv w);
  nl_queued : queued w' = queued w ++ announcement w d' px;
}.

(** A message about a proxy with XID and mux is sent, and never an error. *)
Lemma ifinfo_run w nd d px iff reason :
  w_devs w !! nd = Some d -> nd_proxy d = Some px -> px_xid px <> 0 -> is_Some (px_mux px) ->
  sb_ok w -> (1 <= w_kmem w)%nat ->
  exists w', xeth_sbtx_ifinfo nd iff reason w = Some (0, w') /\
    emits w [ifinfo_bytes (w_priv w) d px iff reason] w'.
Proof.
  intros Ed Ep Hx [mux Hmux] Hw Hm. pose proof (ifinfo_delivers w nd d px iff reason Ed Ep) as D.
  rewrite (proj2 (Z.eqb_neq _ _) Hx), Hmux in D. cbn [orb] in D.
  rewrite bool_decide_eq_false_2 in D by done.
  destruct (D Hw Hm) as (r & w' & E & M1). exists w'. split; [|done]. rewrite E.
  do 2 f_equal. unfold xeth_sbtx_ifinfo in E. bind_step E. destruct (_ || _); [by injection E|].
  bind_step E. bind_step E. unfold sbtx_msg in E. repeat bind_step E. by injection E.
Qed.

Lemma announce_new fi nd d px l w w1 d' :
  created fi nd d px l w w1 d' -> (2 <= w_kmem w)%nat -> (forall d, nd_proxy (fi d) = nd_proxy d) ->
  nd_proxy d = Some px -> px_xid px <> 0 -> is_Some (px_mux px) ->
  exists w', xeth_sbtx_ifinfo nd 0 XETH_IFINFO_REASON_NEW w1 = Some (0, w') /\
    emits w1 [ifinfo_bytes (w_priv w) d' px 0 XETH_IFINFO_REASON_NEW] w' /\
    newlinked fi nd d px l w w' d'.
Proof.
  intros Cr Hm Hfp Ep Hx [mux Hmux].
  assert (nd_proxy d' = Some px) as Ep'.
  { destruct (cr_made _ _ _ _ _ _ _ _ Cr) as (i & _ & ->). simpl. by rewrite Hfp. }
  destruct (ifinfo_run w1 nd d' px 0 XETH_IFINFO_REASON_NEW) as (w' & E & M1);
    [by destruct Cr|done|done|by rewrite Hmux|by destruct Cr
    |pose proof (cr_mem _ _ _ _ _ _ _ _ Cr); lia|].
  rewrite (ifinfo_bytes_ext _ (w_priv w)) in M1 by (by destruct Cr). exists w'.
  split; [done|]. split; [done|].
  pose proof (emits_frame _ _ _ M1) as F. destruct Cr. split; try done.
  - by eapply registry_rep_sb_frame.
  - by apply emits_ok in M1.
  - by rewrite (sb_frame_devs _ _ F).
  - intros p Hp. rewrite (sb_frame_devs _ _ F). by apply cr_others0.
  - by rewrite (sb_frame_encap _ _ F).
  - rewrite (emits_queued _ _ _ M1), cr_queued0, cr_connected0, <- app_assoc. f_equal.
    unfold announcement. rewrite (ifinfo_bytes_ext (w_priv w1) (w_priv w)) by done.
    by destruct (connected w).
Qed.

Lemma register_proxy_run init fi uninit w l nd d px :
  inits init fi -> registers nd -> registry_rep w l -> sb_ok w -> (2 <= w_kmem w)%nat -> nd ∉ l ->
  w_devs w !! nd = Some d -> nd_proxy d = Some px -> is_Some (px_mux px) ->
  px_kind px <> XETH_DEV_KIND_UNSPEC -> px_xid px <> 0 ->
  exists w' d', register_proxy init uninit nd w = Some (0, w') /\ newlinked fi nd d px l w w' d'.
Proof.
  intros Hi Hr R Hw Hm Hin Ed Ep Hmux Hk Hx.
  destruct (create_run init fi uninit w l nd d px) as (w1 & w2 & d' & E1 & E2 & Cr);
    [done|done|done|done|lia|done..|].
  destruct (announce_new fi nd d px l w w2 d' Cr Hm) as (w3 & E3 & _ & Nl);
    [by destruct Hi|done..|].
  exists w3, d'. split; [|done]. unfold register_proxy. rewrite bind_run, E1, bind_run.
  erewrite and_then_run by exact E2. cbn [Z.eqb]. rewrite E3. done.
Qed.

(** The uninit of a proxy, if it returns, has taken it out of the registry. *)
Definition uninits (uninit : Z -> M world unit) : Prop :=
  forall nd w l u w', registry_rep w l -> nd ∈ l -> sb_ok w -> uninit nd w = Some (u, w') ->
    registry_rep w' (unlink nd l).

Lemma proxy_uninits : uninits xeth_proxy_uninit.
Proof.
  intros nd w l u w' R Hin Hw E. unfold xeth_proxy_uninit in E. bind_step E.
  assert (sb_safe (ignore (xeth_sbtx_ifinfo nd 0 XETH_IFINFO_REASON_DEL))) as S by auto with sb_safe.
  destruct (S _ _ _ Hw E0) as [_ F].
  destruct (del_proxy_run s l nd) as (w2 & E2 & R2 & _);
    [by eapply registry_rep_sb_frame|done|]. rewrite E in E2. by injection E2 as _ ->.
Qed.

(** C39: When the kernel's registration of a VLAN or loopback fails after ndo_init,
    ndo_uninit has unlinked the proxy already, and newlink unlinks it again: the
    failed registration is an oops and not an error. *)
Theorem late_failure_unlinks_twice init fi uninit w l nd d px :
  inits init fi -> uninits uninit -> (forall w, register_early w nd = 0) ->
  (forall w, register_late w nd <> 0) ->
  registry_rep w l -> sb_ok w -> nd ∉ l -> w_devs w !! nd = Some d -> nd_proxy d = Some px ->
  is_Some (px_mux px) -> px_kind px <> XETH_DEV_KIND_UNSPEC ->
  register_proxy init uninit nd w = None.
Proof.
  intros [Hfp Hinit] Hu He Hlt R Hw Hin Ed Ep [mux Hmux] Hk.
  assert (proxy_at w nd = Some px) as Epx by (unfold proxy_at; by rewrite Ed).
  destruct (add_proxy_run w l nd px R) as (w1 & E1 & R1 & Hw1);
    [unfold registrable; rewrite Epx, Hmux, !bool_decide_eq_true_2, bool_decide_eq_false_2 by done; done
    |done|done|].
  assert (w_devs w1 !! nd = Some d) as Ed1 by (by rewrite Hw1).
  set (w2 := upd_w_devs (insert nd (fi d)) w1).
  assert (registry_rep w2 (nd :: l)) as R2 by (eapply registry_rep_dev; [exact Ed1|apply Hfp|done]).
  assert (sb_ok w2) as Hw2 by (apply sb_ok_devs; rewrite Hw1; by apply sb_ok_add_kin).
  unfold register_proxy. rewrite bind_run, E1, bind_run. unfold register_netdevice at 1.
  unfold and_then at 1. rewrite bind_run. erewrite and_then_run by reflexivity. rewrite He. cbn [Z.eqb].
  erewrite and_then_run by (by apply Hinit). cbn [Z.eqb]. rewrite bind_run. unfold gets. fold w2.
  specialize (Hlt w2). apply Z.eqb_neq in Hlt. rewrite Hlt, bind_run.
  destruct (uninit nd w2) as [[[] w3]|] eqn:E3; [|done]. cbn [mret M_ret]. rewrite Hlt.
  cbn [mret M_ret]. rewrite Hlt. cbn [negb when]. rewrite bind_run.
  rewrite (del_proxy_oops w3 (unlink nd (nd :: l))); [done| |].
  - by eapply Hu; [exact R2|left|done|exact E3].
  - intros [Hne _]%list_elem_of_filter. done.
Qed.

End create.

(** ** Witnesses *)

(** The demo machine with a VLAN device at 30 that is set up but not registered. *)
Definition demo_new_proxy : xeth_proxy :=
  demo_proxy XETH_DEV_KIND_VLAN (Z.lor 3998 (Z.shiftl 7 12)) (PrivVlan (Some 2)).
Definition demo_new_dev : net_device :=
  upd_nd_registered (fun _ => false) (demo_dev 0 NdoVlan (Some LnkoVlan) (Some demo_new_proxy)).
Definition demo_new : world := upd_w_devs (insert 30 demo_new_dev) demo_full.

Lemma demo_new_rep : registry_rep (H:=golden_hash) demo_new [7; 6; 4; 5; 3; 2; 1].
Proof.
  apply registry_rep_other; [|exact demo_full_rep].
  apply (bool_decide_unpack _). vm_compute. exact I.
Qed.

Lemma demo_new_ok : sb_ok demo_new.
Proof. apply sb_ok_devs. exact demo_full_ok. Qed.

(** A kernel that cannot make the sysfs entry of a device. *)
Definition late_dev : KernelDev := {|
  promiscuity_result := promiscuity_result (KernelDev:=plain_dev);
  change_mtu_result := change_mtu_result (KernelDev:=plain_dev);
  rx_handler_result := rx_handler_result (KernelDev:=plain_dev);
  upper_link_result := upper_link_result (KernelDev:=plain_dev);
  open_result := open_result (KernelDev:=plain_dev);
  dev_by_index := dev_by_index (KernelDev:=plain_dev);
  loopback_dev := loopback_dev (KernelDev:=plain_dev);
  register_early _ _ := 0;
  register_late _ _ := - ENOMEM;
  new_ifindex := new_ifindex (KernelDev:=plain_dev);
  random_addr := random_addr (KernelDev:=plain_dev);
  ether_setup := ether_setup (KernelDev:=plain_dev);
  kthread_result := kthread_result (KernelDev:=plain_dev);
|}.

Lemma late_failure_unlinks_twice_witness :
  register_proxy (K:=late_dev) (C:=demo_const) (N:=plain_notify) (H:=golden_hash)
    (xeth_proxy_init (C:=demo_const)) (xeth_proxy_uninit (C:=demo_const)) 30 demo_new
  = None.
Proof.
  apply (late_failure_unlinks_twice (K:=late_dev) (C:=demo_const) (N:=plain_notify) (H:=golden_hash)
    (HL:=golden_hash_laws) _ (inited (C:=demo_const)) _ demo_new [7; 6; 4; 5; 3; 2; 1] 30
    demo_new_dev demo_new_proxy).
  - apply proxy_inits.
  - apply (proxy_uninits (HL:=golden_hash_laws)).
  - intros w. reflexivity.
  - intros w. discriminate.
  - exact demo_new_rep.
  - exact demo_new_ok.
  - apply (bool_decide_unpack _). vm_compute. exact I.
  - apply lookup_insert_eq.
  - reflexivity.
  - eexists. reflexivity.
  - discriminate.
Defined.
