(* ===== verification/Team.v ===== *)
(** * LAGs and bridges (dkms/xeth_lag.c, dkms/xeth_bridge.c)

    The two drivers are the same but for what may be a lower, how a lower is
    marked and how many there may be: a [team] says so, and the operations are
    written for any team. *)

From stdpp Require Import base numbers list gmap.
From Stdlib Require Import ZArith Lia.
From S2P Require Import Prelude Bytes Monad Uapi State Stats Kernel Demo Registry Sbq.
From S2P Require Import Sbtx Proxy Carrier Nb Netdev Lower Xid Create.

Local Open Scope Z_scope.

Record team := {
  tm_kind : xeth_dev_kind;
  tm_ops : ndo;
  tm_lnko : lnko;
  tm_eto : eto;
  (** the devices that may be lowers *)
  tm_lower : net_device -> bool;
  tm_full : nat -> bool;
  tm_mark : net_device -> net_device;
  tm_unmark : net_device -> net_device;
  (** how newlink tests an error number *)
  tm_failed : Z -> bool;
}.

(** A lower is marked in the flags and unmarked in the private flags. *)
Definition xeth_lag : team := {|
  tm_kind := XETH_DEV_KIND_LAG; tm_ops := NdoLag; tm_lnko := LnkoLag; tm_eto := EtoLag;
  tm_lower d := is_xeth_port d;
  tm_full n := (8 <=? n)%nat;
  tm_mark := upd_nd_flags (fun f => Z.lor f IFF_TEAM_PORT);
  tm_unmark := upd_nd_priv_flags (fun f => Z.ldiff f IFF_TEAM_PORT);
  tm_failed err := err <? 0;
|}.

Definition xeth_bridge : team := {|
  tm_kind := XETH_DEV_KIND_BRIDGE; tm_ops := NdoBridge; tm_lnko := LnkoBridge; tm_eto := EtoBridge;
  tm_lower d := is_xeth_port d || is_xeth_vlan d || is_xeth_lag d;
  tm_full _ := false;
  tm_mark := upd_nd_flags (fun f => Z.lor f IFF_SLAVE);
  tm_unmark := upd_nd_flags (fun f => Z.ldiff f IFF_SLAVE);
  tm_failed err := negb (err =? 0);
|}.

(** netdev_update_features: the features the kernel settles on, if they change. *)
Class KernelFeatures := updated_features : world -> Z -> option Z.
Definition same_features : KernelFeatures := fun _ _ => None.

Section team.
Context {K : KernelDev} {C : KernelConst} {N : KernelNotify} {H : KernelHash} {F : KernelFeatures}.
Context (T : team).

(** ** Operations *)

Definition team_init (nd : Z) : M world Z :=
  and_then (xeth_proxy_init nd)
  (mod_dev nd (fun d => upd_nd_flags (fun f => Z.lor f IFF_MASTER)
     (upd_nd_features (fun f => Z.lor f NETIF_F_NETNS_LOCAL) d)) ≫= fun _ => mret 0).

Definition netdev_update_features (nd : Z) : M world unit :=
  f ← gets (fun w => updated_features w nd);
  match f with
  | Some f => ignore (xeth_proxy_set_features nd f)
  | None => mret tt
  end.

Definition team_del_lower (nd lower : Z) : M world Z :=
  px ← netdev_priv nd;
  lpx ← netdev_priv lower;
  mod_dev lower (tm_unmark T) ≫= fun _ =>
  netdev_upper_dev_unlink lower nd ≫= fun _ =>
  netdev_update_features nd ≫= fun _ =>
  ignore (xeth_sbtx_change_upper (px_xid px) (px_xid lpx) false) ≫= fun _ =>
  xeth_proxy_dump_ifa lower ≫= fun _ =>
  xeth_proxy_dump_ifa6 lower ≫= fun _ => mret 0.

Definition team_uninit (nd : Z) : M world unit :=
  d ← dev nd;
  for_each (nd_lowers d) (fun lower => ignore (team_del_lower nd lower)) ≫= fun _ =>
  xeth_proxy_uninit nd.

Definition team_ok_lower (d : net_device) : Z :=
  if negb (tm_lower T d) then - EINVAL else
  if has_flag (nd_flags d) IFF_SLAVE then - EBUSY else
  if has_flag (nd_priv_flags d) IFF_TEAM_PORT then - EBUSY else
  if bool_decide (nd_master d <> None) then - EBUSY else 0.

Definition xeth_lag_n_lowers (d : net_device) : nat := length (nd_lowers d).

Definition team_add_lower (nd lower : Z) : M world Z :=
  px ← netdev_priv nd;
  ld ← dev lower;
  if negb (team_ok_lower ld =? 0) then mret (team_ok_lower ld) else
  d ← dev nd;
  if tm_full T (xeth_lag_n_lowers d) then mret (- ERANGE) else
  lpx ← netdev_priv lower;
  and_then (netdev_master_upper_dev_link lower nd) (
    mod_dev lower (tm_mark T) ≫= fun _ =>
    ignore (xeth_sbtx_change_upper (px_xid px) (px_xid lpx) true) ≫= fun _ => mret 0).

Definition team_open (nd : Z) : M world Z := netif_carrier_on nd ≫= fun _ => xeth_proxy_open nd.
Definition team_stop (nd : Z) : M world Z := netif_carrier_off nd ≫= fun _ => xeth_proxy_stop nd.

Definition team_setup (nd : Z) : M world unit :=
  xeth_proxy_setup nd ≫= fun _ =>
  mod_proxy nd (upd_px_kind (fun _ => tm_kind T)) ≫= fun _ =>
  mod_dev nd (fun d => upd_nd_priv_flags proxy_priv_flags (ether_setup
    (upd_nd_needs_free (fun _ => true) (upd_nd_lnko (fun _ => Some (tm_lnko T))
    (upd_nd_eto (fun _ => Some (tm_eto T)) (upd_nd_ops (fun _ => tm_ops T) d)))))).

Definition team_validate (a : nlattrs) : Z :=
  if bool_decide (ifla_link a = None) then - EINVAL else
  if ifla_address a then - EOPNOTSUPP else 0.

(** An unknown link returns PTR_ERR(NULL), which is 0. *)
Definition team_newlink (nd : Z) (a : nlattrs) : M world Z :=
  d ← dev nd;
  index ← deref (ifla_link a);
  found ← dev_get_by_index (nd_net d) index;
  match found with
  | None => mret 0
  | Some link =>
      ld ← dev link;
      if negb (team_ok_lower ld =? 0) then mret (team_ok_lower ld) else
      lpx ← netdev_priv link;
      mod_proxy nd (upd_px_mux (fun _ => px_mux lpx)) ≫= fun _ =>
      eth_hw_addr_inherit nd link ≫= fun _ =>
      mod_dev nd (fun d => upd_nd_addr_assign_type (fun _ => NET_ADDR_STOLEN)
        (upd_nd_min_mtu (fun _ => nd_min_mtu ld) (upd_nd_max_mtu (fun _ => nd_max_mtu ld) d))) ≫= fun _ =>
      _ ← deref (px_mux lpx);
      xid ← alloc_xid;
      mod_proxy nd (upd_px_xid (fun _ => default 4095 xid)) ≫= fun _ =>
      if bool_decide (xid = None) then mret (- ENODEV) else
      xeth_mux_add_proxy nd ≫= fun _ =>
      err ← register_netdevice team_init team_uninit nd;
      if tm_failed T err then xeth_mux_del_proxy nd ≫= fun _ => mret err else
      ignore (xeth_sbtx_ifinfo nd 0 XETH_IFINFO_REASON_NEW) ≫= fun _ =>
      err ← team_add_lower nd link;
      if tm_failed T err then
        xeth_mux_del_proxy nd ≫= fun _ =>
        ignore (xeth_sbtx_ifinfo nd 0 XETH_IFINFO_REASON_DEL) ≫= fun _ =>
        unregister_netdevice team_uninit nd ≫= fun _ => mret err
      else mret 0
  end.

(** ** Members *)

Definition upper_msg (upper lower : Z) (linking : bool) : list Z :=
  msg_bytes XETH_MSG_KIND_CHANGE_UPPER_XID
    {| cu_upper := upper; cu_lower := lower; cu_linking := if linking then 1 else 0;
       cu_pad := zeros 7 |}.

Lemma change_upper_delivers w upper lower linking :
  delivers w (ignore (xeth_sbtx_change_upper upper lower linking)) [upper_msg upper lower linking].
Proof. apply delivers_ignore. unfold xeth_sbtx_change_upper. apply sbtx_msg_delivers. Qed.

(** The lower and the team after the lower was bound. *)
Definition bound (nd : Z) (ld : net_device) : net_device :=
  tm_mark T (upd_nd_master (fun _ => Some nd) ld).
Definition bind_devs (nd lower : Z) (d ld : net_device) (devs : gmap Z net_device)
  : gmap Z net_device :=
  <[lower := bound nd ld]> (<[nd := upd_nd_lowers (fun l => l ++ [lower]) d]> devs).

Lemma team_add_lower_run w nd lower d ld px lpx :
  sb_ok w -> (1 <= w_kmem w)%nat -> w_devs w !! nd = Some d -> nd_proxy d = Some px ->
  w_devs w !! lower = Some ld -> nd_proxy ld = Some lpx -> lower <> nd ->
  team_ok_lower ld = 0 -> tm_full T (length (nd_lowers d)) = false ->
  upper_link_result w lower nd = 0 ->
  exists w', team_add_lower nd lower w = Some (0, w') /\
    emits (upd_w_devs (bind_devs nd lower d ld) w) [upper_msg (px_xid px) (px_xid lpx) true] w'.
Proof.
  intros Hw Hm Ed Ep El Elp Hne Hok Hfull Hlink.
  set (w1 := upd_w_devs (bind_devs nd lower d ld) w).
  destruct (change_upper_delivers w1 (px_xid px) (px_xid lpx) true) as ([] & w' & E & M1);
    [by apply sb_ok_devs|done|].
  exists w'. split; [|done]. unfold team_add_lower.
  rewrite bind_run, (netdev_priv_run _ _ px) by (unfold proxy_at; by rewrite Ed).
  rewrite bind_run, (dev_run _ _ _ El), Hok. cbn [Z.eqb negb].
  rewrite bind_run, (dev_run _ _ _ Ed). unfold xeth_lag_n_lowers. rewrite Hfull.
  rewrite bind_run, (netdev_priv_run _ _ lpx) by (unfold proxy_at; by rewrite El).
  erewrite and_then_run with (r := 0).
  2:{ unfold netdev_master_upper_dev_link. rewrite bind_run, (dev_run _ _ _ El).
      rewrite bind_run, (dev_run _ _ _ Ed), bind_run. unfold gets. rewrite Hlink, bind_run.
      cbn [Z.eqb when]. rewrite bind_run, (mod_dev_run _ _ _ _ El).
      erewrite mod_dev_run by (simpl; rewrite lookup_insert_ne by done; exact Ed). reflexivity. }
  cbn [Z.eqb]. rewrite bind_run.
  erewrite mod_dev_run by (simpl; rewrite lookup_insert_ne by done; apply lookup_insert_eq).
  replace (upd_w_devs _ _) with w1; [by rewrite bind_run, E|].
  unfold w1, upd_w_devs, bind_devs. simpl. f_equal. apply map_eq. intros q.
  destruct (decide (q = lower)) as [->|]; [by rewrite !lookup_insert_eq|].
  rewrite !(lookup_insert_ne _ lower q) by done.
  destruct (decide (q = nd)) as [->|]; [by rewrite !lookup_insert_eq|].
  by rewrite !lookup_insert_ne.
Qed.

Definition unbind_devs (nd lower : Z) (d ld : net_device) (devs : gmap Z net_device)
  : gmap Z net_device :=
  <[lower := upd_nd_master (fun _ => None) (tm_unmark T ld)]>
    (<[nd := upd_nd_lowers (unlink lower) d]> devs).

(** The marks touch the flags only. *)
Definition plain_change (f : net_device -> net_device) : Prop :=
  forall d, nd_proxy (f d) = nd_proxy d /\ nd_ifas (f d) = nd_ifas d /\ nd_ifa6s (f d) = nd_ifa6s d.
Definition plain_marks : Prop := plain_change (tm_mark T) /\ plain_change (tm_unmark T).

Lemma team_del_lower_run w nd lower d ld px lpx :
  plain_marks -> (forall w, updated_features w nd = None) -> sb_ok w ->
  (1 + length (ifa_msgs lpx ld ++ ifa6_msgs lpx ld) <= w_kmem w)%nat ->
  w_devs w !! nd = Some d -> nd_proxy d = Some px ->
  w_devs w !! lower = Some ld -> nd_proxy ld = Some lpx -> lower <> nd ->
  exists w', team_del_lower nd lower w = Some (0, w') /\
    emits (upd_w_devs (unbind_devs nd lower d ld) w)
      ([upper_msg (px_xid px) (px_xid lpx) false] ++ ifa_msgs lpx ld ++ ifa6_msgs lpx ld) w'.
Proof.
  intros Hmk Hf Hw Hm Ed Ep El Elp Hne. destruct (proj2 Hmk ld) as (Hp & H4 & H6).
  set (w1 := upd_w_devs (unbind_devs nd lower d ld) w).
  set (ld' := upd_nd_master (fun _ => None) (tm_unmark T ld)).
  assert (w_devs w1 !! lower = Some ld') as El1 by apply lookup_insert_eq.
  assert (delivers w1 (ignore (xeth_sbtx_change_upper (px_xid px) (px_xid lpx) false) ≫= fun _ =>
      xeth_proxy_dump_ifa lower ≫= fun _ => xeth_proxy_dump_ifa6 lower ≫= fun _ => mret 0)
    ([upper_msg (px_xid px) (px_xid lpx) false] ++ ifa_msgs lpx ld ++ ifa6_msgs lpx ld)) as D.
  { apply delivers_bind; [apply change_upper_delivers|]. intros _ w2 M2.
    assert (forall w3, sb_frame w1 w3 -> w_devs w3 !! lower = Some ld') as Hfr
      by (intros w3 Fr; by rewrite (sb_frame_devs _ _ Fr)).
    replace (ifa_msgs lpx ld) with (ifa_msgs lpx ld') by (unfold ifa_msgs; simpl; by rewrite H4).
    replace (ifa6_msgs lpx ld) with (ifa6_msgs lpx ld') by (unfold ifa6_msgs; simpl; by rewrite H6).
    pose proof (emits_frame _ _ _ M2) as F2.
    apply delivers_bind; [apply dump_ifa_delivers; [by apply Hfr|simpl; by rewrite Hp]|].
    intros _ w3 M3. rewrite <- (app_nil_r (ifa6_msgs lpx ld')).
    apply delivers_bind; [|intros; apply delivers_ret].
    apply dump_ifa6_delivers; [|simpl; by rewrite Hp].
    apply Hfr. etrans; [exact F2|]. by apply emits_frame in M3. }
  destruct D as (r & w' & E & M1); [by apply sb_ok_devs|by simpl in *|].
  exists w'. split; [|done]. unfold team_del_lower.
  rewrite bind_run, (netdev_priv_run _ _ px) by (unfold proxy_at; by rewrite Ed).
  rewrite bind_run, (netdev_priv_run _ _ lpx) by (unfold proxy_at; by rewrite El).
  rewrite bind_run, (mod_dev_run _ _ _ _ El), bind_run. unfold netdev_upper_dev_unlink.
  rewrite bind_run. erewrite mod_dev_run by apply lookup_insert_eq.
  erewrite mod_dev_run by (simpl; rewrite !lookup_insert_ne by done; exact Ed).
  rewrite bind_run. unfold netdev_update_features. rewrite bind_run. unfold gets. rewrite Hf.
  cbn [mret M_ret]. replace (upd_w_devs _ _) with w1.
  - assert (r = 0) as ->; [|exact E]. clear -E. repeat bind_step E. by injection E.
  - unfold w1, upd_w_devs, unbind_devs. simpl. f_equal. apply map_eq. intros q.
    destruct (decide (q = nd)) as [->|]; [by rewrite (lookup_insert_ne _ lower nd), !lookup_insert_eq|].
    rewrite !(lookup_insert_ne _ nd q) by done.
    destruct (decide (q = lower)) as [->|]; [by rewrite !lookup_insert_eq|].
    by rewrite !lookup_insert_ne.
Qed.

(** Adding a lower and removing it again. *)
Lemma team_round_trip w nd lower d ld px lpx :
  plain_marks -> (forall w, updated_features w nd = None) -> sb_ok w ->
  (2 + length (ifa_msgs lpx ld ++ ifa6_msgs lpx ld) <= w_kmem w)%nat ->
  w_devs w !! nd = Some d -> nd_proxy d = Some px ->
  w_devs w !! lower = Some ld -> nd_proxy ld = Some lpx -> lower <> nd -> lower ∉ nd_lowers d ->
  team_ok_lower ld = 0 -> tm_full T (length (nd_lowers d)) = false ->
  upper_link_result w lower nd = 0 ->
  exists w1 w2, team_add_lower nd lower w = Some (0, w1) /\
    team_del_lower nd lower w1 = Some (0, w2) /\
    w_devs w2 = <[lower := upd_nd_master (fun _ => None) (tm_unmark T (bound nd ld))]> (w_devs w) /\
    queued w2 = queued w ++ (if connected w then
      [upper_msg (px_xid px) (px_xid lpx) true; upper_msg (px_xid px) (px_xid lpx) false] ++
      ifa_msgs lpx ld ++ ifa6_msgs lpx ld else []).
Proof.
  intros Hmk Hf Hw Hm Ed Ep El Elp Hne Hin Hok Hfull Hlink.
  destruct (team_add_lower_run w nd lower d ld px lpx) as (w1 & E1 & M1); try done; [lia|].
  pose proof (emits_frame _ _ _ M1) as F1. apply sb_frame_devs in F1 as D1. simpl in D1.
  destruct (proj1 Hmk (upd_nd_master (fun _ => Some nd) ld)) as (Hp & H4 & H6). simpl in Hp, H4, H6.
  assert (ifa_msgs lpx (bound nd ld) = ifa_msgs lpx ld) as Ei
    by (unfold ifa_msgs, bound; by rewrite H4).
  assert (ifa6_msgs lpx (bound nd ld) = ifa6_msgs lpx ld) as Ei6
    by (unfold ifa6_msgs, bound; by rewrite H6).
  destruct (team_del_lower_run w1 nd lower (upd_nd_lowers (fun l => l ++ [lower]) d)
    (bound nd ld) px lpx) as (w2 & E2 & M2).
  { done. } { done. } { by apply emits_ok in M1. }
  { rewrite Ei, Ei6. pose proof (emits_mem _ _ _ M1) as Hmem. simpl in Hmem. lia. }
  { rewrite D1. unfold bind_devs. rewrite lookup_insert_ne by done. apply lookup_insert_eq. }
  { done. } { rewrite D1. apply lookup_insert_eq. } { unfold bound. by rewrite Hp. } { done. }
  exists w1, w2. split; [done|]. split; [done|]. split.
  - pose proof (emits_frame _ _ _ M2) as F2. apply sb_frame_devs in F2. rewrite F2. simpl. rewrite D1.
    unfold unbind_devs, bind_devs. apply map_eq. intros q.
    destruct (decide (q = lower)) as [->|]; [by rewrite !lookup_insert_eq|].
    rewrite !(lookup_insert_ne _ lower q) by done.
    destruct (decide (q = nd)) as [->|]; [|by rewrite !lookup_insert_ne].
    rewrite lookup_insert_eq, Ed. f_equal. transitivity (upd_nd_lowers id d); [|by destruct d].
    transitivity (upd_nd_lowers (fun l => unlink lower (l ++ [lower])) d); [done|].
    apply upd_nd_lowers_ext. unfold unlink. rewrite filter_app.
    rewrite filter_cons_False by (by intros ?). rewrite app_nil_r. by apply unlink_not_in.
  - rewrite (emits_queued _ _ _ M2). change (queued (upd_w_devs _ w1)) with (queued w1).
    change (connected (upd_w_devs _ w1)) with (connected w1).
    rewrite (emits_queued _ _ _ M1), (sb_frame_connected _ _ F1).
    change (queued (upd_w_devs _ w)) with (queued w).
    change (connected (upd_w_devs _ w)) with (connected w).
    rewrite Ei, Ei6, <- app_assoc. by destruct (connected w).
Qed.

End team.

(** ** The two drivers *)

Section drivers.
Context {K : KernelDev} {C : KernelConst} {N : KernelNotify} {H : KernelHash} {F : KernelFeatures}.

Definition xeth_lag_init : Z -> M world Z := team_init.
Definition xeth_lag_del_lower : Z -> Z -> M world Z := team_del_lower xeth_lag.
Definition xeth_lag_uninit : Z -> M world unit := team_uninit xeth_lag.
Definition xeth_lag_ok_lower : net_device -> Z := team_ok_lower xeth_lag.
Definition xeth_lag_add_lower : Z -> Z -> M world Z := team_add_lower xeth_lag.
Definition xeth_lag_open : Z -> M world Z := team_open.
Definition xeth_lag_stop : Z -> M world Z := team_stop.
Definition xeth_lag_setup : Z -> M world unit := team_setup xeth_lag.
Definition xeth_lag_validate : nlattrs -> Z := team_validate.
Definition xeth_lag_newlink : Z -> nlattrs -> M world Z := team_newlink xeth_lag.

Definition xeth_bridge_init : Z -> M world Z := team_init.
Definition xeth_bridge_del_lower : Z -> Z -> M world Z := team_del_lower xeth_bridge.
Definition xeth_bridge_uninit : Z -> M world unit := team_uninit xeth_bridge.
Definition xeth_bridge_ok_lower : net_device -> Z := team_ok_lower xeth_bridge.
Definition xeth_bridge_add_lower : Z -> Z -> M world Z := team_add_lower xeth_bridge.
Definition xeth_bridge_open : Z -> M world Z := team_open.
Definition xeth_bridge_stop : Z -> M world Z := team_stop.
Definition xeth_bridge_setup : Z -> M world unit := team_setup xeth_bridge.
Definition xeth_bridge_validate : nlattrs -> Z := team_validate.
Definition xeth_bridge_newlink : Z -> nlattrs -> M world Z := team_newlink xeth_bridge.

(** ndo_del_slave of the master: a master of another driver does as [other] says. *)
Definition ndo_del_slave (other : Z -> Z -> M world unit) (upper nd : Z) : M world unit :=
  u ← dev upper;
  match nd_ops u with
  | NdoLag => ignore (xeth_lag_del_lower upper nd)
  | NdoBridge => ignore (xeth_bridge_del_lower upper nd)
  | NdoOther => other upper nd
  | _ => mret tt
  end.

(** Leave the master, if there is one, and queue the device for removal. *)
Definition leave_and_queue (other : Z -> Z -> M world unit) (nd : Z) : M world unit :=
  upper ← netdev_master_upper_dev_get nd;
  match upper with
  | Some upper => ndo_del_slave other upper nd
  | None => mret tt
  end ≫= fun _ =>
  unregister_netdevice_queue nd.

Definition xeth_vlan_dellink : (Z -> Z -> M world unit) -> Z -> M world unit := leave_and_queue.

Definition xeth_lag_dellink (other : Z -> Z -> M world unit) (nd : Z) : M world unit :=
  px ← netdev_priv nd;
  _ ← deref (px_mux px);
  xeth_mux_del_vlans nd ≫= fun _ => leave_and_queue other nd.

Definition xeth_port_dellink (other : Z -> Z -> M world unit) (nd : Z) : M world unit :=
  px ← netdev_priv nd;
  _ ← deref (px_mux px);
  xeth_mux_del_vlans nd ≫= fun _ => leave_and_queue other nd.

Definition xeth_bridge_dellink (nd : Z) : M world unit := unregister_netdevice_queue nd.
Definition xeth_lb_dellink (nd : Z) : M world unit := unregister_netdevice_queue nd.

(** ** Members *)

Lemma lag_plain_marks : plain_marks xeth_lag.
Proof. split; by intros []. Qed.
Lemma bridge_plain_marks : plain_marks xeth_bridge.
Proof. split; by intros []. Qed.

(** What a device that may be a lower is not. *)
Lemma ok_lower_inv T d :
  team_ok_lower T d = 0 ->
  tm_lower T d = true /\ has_flag (nd_flags d) IFF_SLAVE = false /\
  has_flag (nd_priv_flags d) IFF_TEAM_PORT = false /\ nd_master d = None.
Proof.
  unfold team_ok_lower. intros E. destruct (tm_lower T d); [|discriminate E].
  destruct (has_flag _ IFF_SLAVE); [discriminate E|].
  destruct (has_flag _ IFF_TEAM_PORT); [discriminate E|]. cbn [negb] in E.
  destruct (bool_decide (nd_master d <> None)) eqn:B; [discriminate E|].
  apply bool_decide_eq_false, dec_stable in B. done.
Qed.

Lemma ldiff_lor_flag f b : has_flag f b = false -> Z.ldiff (Z.lor f b) b = f /\ Z.ldiff f b = f.
Proof.
  unfold has_flag. intros E. unbool. split; zbits i; rewrite ?Z.lor_spec;
    apply (f_equal (fun x => Z.testbit x i)) in E; rewrite Z.land_spec, Z.bits_0 in E;
    destruct (Z.testbit f i), (Z.testbit b i); simpl in *; congruence.
Qed.

Lemma upd_nd_master_id f d : f (nd_master d) = nd_master d -> upd_nd_master f d = d.
Proof. intros E. unfold upd_nd_master. rewrite E. by destruct d. Qed.
Lemma upd_nd_flags_id f d : f (nd_flags d) = nd_flags d -> upd_nd_flags f d = d.
Proof. intros E. unfold upd_nd_flags. rewrite E. by destruct d. Qed.
Lemma upd_nd_priv_flags_id f d : f (nd_priv_flags d) = nd_priv_flags d -> upd_nd_priv_flags f d = d.
Proof. intros E. unfold upd_nd_priv_flags. rewrite E. by destruct d. Qed.

Lemma bridge_restores nd d :
  xeth_bridge_ok_lower d = 0 ->
  upd_nd_master (fun _ => None) (tm_unmark xeth_bridge (bound xeth_bridge nd d)) = d.
Proof.
  intros (_ & Hs & _ & Hma)%ok_lower_inv.
  transitivity (upd_nd_flags (fun f => Z.ldiff (Z.lor f IFF_SLAVE) IFF_SLAVE)
    (upd_nd_master (fun _ => None) d)); [reflexivity|].
  rewrite upd_nd_master_id by done. apply upd_nd_flags_id. by apply ldiff_lor_flag.
Qed.

Lemma lag_keeps_mark nd d :
  xeth_lag_ok_lower d = 0 ->
  upd_nd_master (fun _ => None) (tm_unmark xeth_lag (bound xeth_lag nd d)) =
  upd_nd_flags (fun f => Z.lor f IFF_TEAM_PORT) d.
Proof.
  intros (_ & _ & Ht & Hma)%ok_lower_inv.
  transitivity (upd_nd_flags (fun f => Z.lor f IFF_TEAM_PORT)
    (upd_nd_priv_flags (fun f => Z.ldiff f IFF_TEAM_PORT) (upd_nd_master (fun _ => None) d)));
    [reflexivity|].
  rewrite upd_nd_master_id by done. by rewrite upd_nd_priv_flags_id by (by apply ldiff_lor_flag).
Qed.

(** C17: A device that joins and leaves a bridge is as it was before, and so is the
    bridge; the daemon hears of both and of the addresses the device has again.
    One that joins and leaves a LAG keeps the LAG's mark in its flags: the mark
    is set in the flags and cleared in the private flags. *)
Theorem members_come_and_go w nd lower d ld px lpx :
  (forall w, updated_features w nd = None) -> sb_ok w ->
  (2 + length (ifa_msgs lpx ld ++ ifa6_msgs lpx ld) <= w_kmem w)%nat ->
  w_devs w !! nd = Some d -> nd_proxy d = Some px -> (length (nd_lowers d) < 8)%nat ->
  w_devs w !! lower = Some ld -> nd_proxy ld = Some lpx -> lower <> nd -> lower ∉ nd_lowers d ->
  upper_link_result w lower nd = 0 ->
  (xeth_bridge_ok_lower ld = 0 ->
   exists w1 w2, xeth_bridge_add_lower nd lower w = Some (0, w1) /\
     xeth_bridge_del_lower nd lower w1 = Some (0, w2) /\ w_devs w2 = w_devs w /\
     queued w2 = queued w ++ (if connected w then
       [upper_msg (px_xid px) (px_xid lpx) true; upper_msg (px_xid px) (px_xid lpx) false] ++
       ifa_msgs lpx ld ++ ifa6_msgs lpx ld else [])) /\
  (xeth_lag_ok_lower ld = 0 ->
   exists w1 w2, xeth_lag_add_lower nd lower w = Some (0, w1) /\
     xeth_lag_del_lower nd lower w1 = Some (0, w2) /\
     w_devs w2 = <[lower := upd_nd_flags (fun f => Z.lor f IFF_TEAM_PORT) ld]> (w_devs w)).
Proof.
  intros Hf Hw Hm Ed Ep Hlen El Elp Hne Hin Hlink. split; intros Hok.
  - destruct (team_round_trip xeth_bridge w nd lower d ld px lpx) as (w1 & w2 & E1 & E2 & D & Q);
      [apply bridge_plain_marks|done..|].
    exists w1, w2. do 2 (split; [done|]). split; [|done].
    rewrite D, bridge_restores by done. by apply insert_id.
  - destruct (team_round_trip xeth_lag w nd lower d ld px lpx) as (w1 & w2 & E1 & E2 & D & Q);
      [apply lag_plain_marks|try done..|]; [cbn [tm_full xeth_lag]; apply Nat.leb_gt; lia|].
    exists w1, w2. do 2 (split; [done|]). by rewrite D, lag_keeps_mark.
Qed.

(** A LAG has eight lowers at most: a ninth is refused with -ERANGE, and a
    device that may not be a lower with -EINVAL or -EBUSY, and then nothing
    changes. *)
Theorem lag_refusals w nd lower d ld px :
  w_devs w !! nd = Some d -> nd_proxy d = Some px -> w_devs w !! lower = Some ld ->
  (xeth_lag_ok_lower ld <> 0 -> xeth_lag_add_lower nd lower w = Some (xeth_lag_ok_lower ld, w)) /\
  (xeth_lag_ok_lower ld = 0 -> (8 <= length (nd_lowers d))%nat ->
   xeth_lag_add_lower nd lower w = Some (- ERANGE, w)).
Proof.
  intros Ed Ep El. split; [intros Hne|intros Hok Hlen];
    unfold xeth_lag_add_lower, team_add_lower;
    rewrite bind_run, (netdev_priv_run _ _ px) by (unfold proxy_at; by rewrite Ed);
    rewrite bind_run, (dev_run _ _ _ El); fold xeth_lag_ok_lower.
  - change (team_ok_lower xeth_lag ld) with (xeth_lag_ok_lower ld).
    by rewrite (proj2 (Z.eqb_neq _ _) Hne).
  - change (team_ok_lower xeth_lag ld) with (xeth_lag_ok_lower ld). rewrite Hok. cbn [Z.eqb negb].
    rewrite bind_run, (dev_run _ _ _ Ed). cbn [tm_full xeth_lag]; unfold xeth_lag_n_lowers.
    by rewrite (proj2 (Nat.leb_le _ _) Hlen).
Qed.

(** ** Creation *)

Definition team_inited (d : net_device) : net_device :=
  upd_nd_flags (fun f => Z.lor f IFF_MASTER)
    (upd_nd_features (fun f => Z.lor f NETIF_F_NETNS_LOCAL) (inited d)).

Lemma team_inits : inits team_init team_inited.
Proof.
  split; [done|]. intros nd w d Ed. unfold team_init.
  erewrite and_then_run by (by apply proxy_inits). cbn [Z.eqb]. rewrite bind_run.
  erewrite mod_dev_run by apply lookup_insert_eq. unfold mret, M_ret, upd_w_devs. simpl.
  by rewrite insert_insert_eq.
Qed.

(** The device of a new team before its registration. *)
Definition team_dev (d ld : net_device) (px lpx : xeth_proxy) (xid : Z) : net_device :=
  upd_nd_proxy (fun _ => Some (upd_px_xid (fun _ => xid) (upd_px_mux (fun _ => px_mux lpx) px)))
  (upd_nd_addr_assign_type (fun _ => NET_ADDR_STOLEN)
  (upd_nd_min_mtu (fun _ => nd_min_mtu ld) (upd_nd_max_mtu (fun _ => nd_max_mtu ld)
  (upd_nd_addr (fun _ => nd_addr ld) d)))).

Context {KL : KernelDevLaws} {HL : KernelHashLaws}.

(** A team that can be made: its devices have a kind, and 0 is no error. *)
Definition team_sound (T : team) : Prop :=
  tm_kind T <> XETH_DEV_KIND_UNSPEC /\ tm_failed T 0 = false /\ tm_full T 0 = false /\ plain_marks T.
Lemma lag_sound : team_sound xeth_lag.
Proof. by repeat split. Qed.
Lemma bridge_sound : team_sound xeth_bridge.
Proof. by repeat split. Qed.

(** What newlink does up to the registration. *)
Lemma team_newlink_prepares T w l nd a index link d px ld lpx x :
  registry_rep w l -> nd ∉ l -> link <> nd ->
  w_devs w !! nd = Some d -> nd_proxy d = Some px -> ifla_link a = Some index ->
  dev_by_index w (nd_net d) index = Some link -> w_devs w !! link = Some ld ->
  nd_proxy ld = Some lpx -> is_Some (px_mux lpx) -> team_ok_lower T ld = 0 ->
  alloc_xid w = Some (Some x, w) ->
  team_newlink T nd a w = (
    xeth_mux_add_proxy nd ≫= fun _ =>
    err ← register_netdevice team_init (team_uninit T) nd;
    if tm_failed T err then xeth_mux_del_proxy nd ≫= fun _ => mret err else
    ignore (xeth_sbtx_ifinfo nd 0 XETH_IFINFO_REASON_NEW) ≫= fun _ =>
    err ← team_add_lower T nd link;
    if tm_failed T err then
      xeth_mux_del_proxy nd ≫= fun _ =>
      ignore (xeth_sbtx_ifinfo nd 0 XETH_IFINFO_REASON_DEL) ≫= fun _ =>
      unregister_netdevice (team_uninit T) nd ≫= fun _ => mret err
    else mret 0) (upd_w_devs (insert nd (team_dev d ld px lpx x)) w).
Proof.
  intros R Hin Hne Ed Ep Ha Hidx El Elp [mux Hmux] Hok Hx. unfold team_newlink.
  rewrite bind_run, (dev_run _ _ _ Ed), bind_run, Ha. cbn [deref mret M_ret].
  rewrite bind_run. unfold dev_get_by_index, gets. rewrite Hidx.
  rewrite bind_run, (dev_run _ _ _ El), Hok. cbn [Z.eqb negb].
  rewrite bind_run, (netdev_priv_run _ _ lpx) by (unfold proxy_at; by rewrite El).
  rewrite bind_run, (mod_proxy_run _ _ _ _ _ Ed Ep), bind_run. unfold eth_hw_addr_inherit.
  rewrite bind_run. erewrite dev_run by (simpl; rewrite lookup_insert_ne by done; exact El).
  erewrite mod_dev_run by apply lookup_insert_eq. rewrite bind_run.
  erewrite mod_dev_run by apply lookup_insert_eq. rewrite bind_run, Hmux. cbn [deref mret M_ret].
  rewrite bind_run.
  match goal with |- context [alloc_xid ?w0] => set (w3 := w0) end.
  assert (exists d3, w3 = upd_w_devs (insert nd d3) w) as [d3 E3].
  { eexists. unfold w3, upd_w_devs. simpl. by rewrite !insert_insert_eq. }
  replace (alloc_xid w3) with (Some (Some x, w3)).
  2:{ destruct (alloc_xid_run w l R) as (r & Er & _ & Hr). rewrite Hx in Er. injection Er as <-.
      assert (registry_rep w3 l) as R3 by (rewrite E3; by apply registry_rep_other).
      destruct (alloc_xid_run w3 l R3) as (r & Er & _ & Hr3). rewrite Er. do 2 f_equal.
      assert (forall z, taken w3 l z <-> taken w l z) as Ht.
      { intros z. unfold taken, spec_of_xid. replace (filter (fun p => xid_of w3 p = Some z) l)
          with (filter (fun p => xid_of w p = Some z) l); [done|].
        apply filter_iff_elem. intros p Hp. rewrite E3. unfold xid_of, proxy_at. simpl.
        rewrite lookup_insert_ne by (by intros ->). done. }
      destruct r as [y|]; [|exfalso; apply (proj1 (proj2 Hr)), Ht, Hr3; lia].
      f_equal. destruct Hr as (Hb & Hf & Hg), Hr3 as (Hb3 & Hf3 & Hg3). rewrite Ht in Hf3.
      destruct (Z.lt_trichotomy x y) as [Hlt|[->|Hlt]]; [|done|].
      - exfalso. apply Hf, Ht, Hg3. lia.
      - exfalso. apply Hf3, Hg. lia. }
  rewrite bind_run.
  erewrite mod_proxy_run; [|unfold w3; apply lookup_insert_eq|reflexivity].
  rewrite bool_decide_eq_false_2 by done. f_equal.
  unfold team_dev. rewrite Hmux. unfold w3, upd_w_devs. simpl. by rewrite !insert_insert_eq.
Qed.

(** C16: The first lower of a new LAG or bridge makes it: it has the least free XID
    of 3000 to 4095, the mux and the address of the lower; it is registered with
    the driver and with the kernel; the daemon hears of the new device, then of
    its lower. *)
Theorem team_newlink_creates T w l nd a index link d px ld lpx :
  team_sound T -> registers nd ->
  (forall w ld, w_devs w !! link = Some ld -> nd_master ld = None -> upper_link_result w link nd = 0) ->
  registry_rep w l -> sb_ok w -> (3 <= w_kmem w)%nat -> Z.of_nat (length l) < 1096 ->
  nd ∉ l -> link <> nd -> w_devs w !! nd = Some d -> nd_proxy d = Some px ->
  px_kind px = tm_kind T -> nd_lowers d = [] -> ifla_link a = Some index ->
  dev_by_index w (nd_net d) index = Some link -> w_devs w !! link = Some ld ->
  nd_proxy ld = Some lpx -> is_Some (px_mux lpx) -> team_ok_lower T ld = 0 ->
  exists w' x dn, team_newlink T nd a w = Some (0, w') /\
    3000 <= x <= 4095 /\ ~ taken w l x /\ (forall z, 3000 <= z < x -> taken w l z) /\
    registry_rep w' (nd :: l) /\ sb_ok w' /\
    (exists i, 1 < i /\ dn = upd_nd_registered (fun _ => true) (upd_nd_ifindex (fun _ => i)
       (team_inited (team_dev d ld px lpx x)))) /\
    w_devs w' = <[link := bound T nd ld]> (<[nd := upd_nd_lowers (fun _ => [link]) dn]> (w_devs w)) /\
    queued w' = queued w ++
      announcement w dn (upd_px_xid (fun _ => x) (upd_px_mux (fun _ => px_mux lpx) px)) ++
      (if connected w then [upper_msg x (px_xid lpx) true] else []).
Proof.
  intros (Hk & Hf0 & Hfull & Hmk) Hr Hul R Hw Hm Hlen Hin Hne Ed Ep Hpk Hlow Ha Hidx El Elp Hmux Hok.
  destruct (alloc_xid_run w l R) as ([x|] & Ex & Hsome & Hx); [|by destruct (Hsome Hlen)].
  destruct Hx as (Hb & Hfree & Hleast). clear Hsome.
  set (px' := upd_px_xid (fun _ => x) (upd_px_mux (fun _ => px_mux lpx) px)).
  set (d1 := team_dev d ld px lpx x). set (w1 := upd_w_devs (insert nd d1) w).
  assert (px_xid px' <> 0) as Hx0 by (simpl; lia).
  destruct (create_run team_init team_inited (team_uninit T) w1 l nd d1 px')
    as (w2 & w3 & dn & E2 & E3 & Cr);
    [apply team_inits|done|by apply registry_rep_other|by apply sb_ok_devs|simpl; lia|done
    |apply lookup_insert_eq|done|done|simpl; by rewrite Hpk|done|].
  destruct (announce_new team_inited nd d1 px' l w1 w3 dn Cr) as (w4 & E4 & M4 & Nl);
    [simpl; lia|done|done|done|done|].
  destruct (nl_made _ _ _ _ _ _ _ _ Nl) as (i & Hi & Edn).
  assert (nd_proxy dn = Some px') as Epn by (by rewrite Edn).
  assert (w_devs w4 !! link = Some ld) as El4.
  { rewrite (nl_others _ _ _ _ _ _ _ _ Nl) by done. simpl. by rewrite lookup_insert_ne. }
  assert (nd_lowers dn = []) as Hlown by (by rewrite Edn).
  destruct (team_add_lower_run T w4 nd link dn ld px' lpx) as (w5 & E5 & M5).
  { by destruct Nl. }
  { pose proof (cr_mem _ _ _ _ _ _ _ _ Cr). pose proof (emits_mem _ _ _ M4). simpl in *. lia. }
  { by destruct Nl. } { done. } { done. } { done. } { done. } { done. } { by rewrite Hlown. }
  { apply (Hul w4 ld El4). by apply ok_lower_inv in Hok as (_ & _ & _ & ?). }
  exists w5, x, dn. split.
  - rewrite (team_newlink_prepares T w l nd a index link d px ld lpx x) by done.
    rewrite bind_run. fold d1 w1. rewrite E2, bind_run, E3, Hf0.
    rewrite bind_run. unfold ignore at 1. rewrite bind_run, E4. cbn [mret M_ret].
    by rewrite bind_run, E5, Hf0.
  - pose proof (emits_frame _ _ _ M5) as F5. do 3 (split; [done|]). split; [|split; [|split; [|split]]].
    + eapply registry_rep_sb_frame; [exact F5|].
      change (upd_w_devs (bind_devs T nd link dn ld) w4) with
        (upd_w_devs (insert link (bound T nd ld))
          (upd_w_devs (insert nd (upd_nd_lowers (fun l => l ++ [link]) dn)) w4)).
      eapply registry_rep_dev with (d := ld);
        [simpl; rewrite lookup_insert_ne by done; exact El4
        |exact (proj1 (proj1 Hmk (upd_nd_master (fun _ => Some nd) ld)))|].
      eapply registry_rep_dev; [by destruct Nl|done|by destruct Nl].
    + by apply emits_ok in M5.
    + by exists i.
    + rewrite (sb_frame_devs _ _ F5). simpl. unfold bind_devs. apply map_eq. intros q.
      destruct (decide (q = link)) as [->|]; [by rewrite !lookup_insert_eq|].
      rewrite !(lookup_insert_ne _ link q) by done.
      destruct (decide (q = nd)) as [->|]; [rewrite !lookup_insert_eq|].
      * f_equal. apply upd_nd_lowers_ext. by rewrite Hlown.
      * rewrite !(lookup_insert_ne _ nd q) by done. rewrite (nl_others _ _ _ _ _ _ _ _ Nl) by done.
        simpl. by rewrite lookup_insert_ne.
    + rewrite (emits_queued _ _ _ M5). change (queued (upd_w_devs _ w4)) with (queued w4).
      rewrite (nl_queued _ _ _ _ _ _ _ _ Nl), <- app_assoc.
      change (connected (upd_w_devs _ w4)) with (connected w4).
      rewrite (sb_frame_connected _ _ (emits_frame _ _ _ M4)), (cr_connected _ _ _ _ _ _ _ _ Cr).
      reflexivity.
Qed.

End drivers.

(** ** Witnesses *)

Definition demo_port2_proxy : xeth_proxy := demo_proxy XETH_DEV_KIND_PORT 3998 (demo_port 1).
Definition demo_port2 : net_device := demo_dev 2 NdoPort None (Some demo_port2_proxy).
Definition demo_lag_proxy : xeth_proxy := demo_proxy XETH_DEV_KIND_LAG 3000 PrivLag.
Definition demo_lag : net_device := demo_dev 5 NdoLag (Some LnkoLag) (Some demo_lag_proxy).

Lemma members_come_and_go_witness :
  exists w1 w2,
    xeth_lag_add_lower (K:=plain_dev) 5 2 demo_full = Some (0, w1) /\
    xeth_lag_del_lower (C:=demo_const) (F:=same_features) 5 2 w1 = Some (0, w2) /\
    w_devs w2 = <[2 := upd_nd_flags (fun f => Z.lor f IFF_TEAM_PORT) demo_port2]> (w_devs demo_full).
Proof.
  destruct (members_come_and_go (K:=plain_dev) (C:=demo_const) (F:=same_features) demo_full 5 2
    demo_lag demo_port2 demo_lag_proxy demo_port2_proxy) as [_ T].
  - reflexivity.
  - exact demo_full_ok.
  - vm_compute. lia.
  - vm_compute. reflexivity.
  - reflexivity.
  - vm_compute. lia.
  - vm_compute. reflexivity.
  - reflexivity.
  - discriminate.
  - apply not_elem_of_nil.
  - vm_compute. reflexivity.
  - apply T. vm_compute. reflexivity.
Defined.

Lemma lag_refusals_witness :
  xeth_lag_add_lower (K:=plain_dev) 5 7 demo_full = Some (- EINVAL, demo_full).
Proof.
  destruct (lag_refusals (K:=plain_dev) demo_full 5 7 demo_lag
    (demo_dev 7 NdoLb (Some LnkoLb) (Some (demo_proxy XETH_DEV_KIND_LB 3002 (PrivLb 1))))
    demo_lag_proxy) as [T _].
  - vm_compute. reflexivity.
  - reflexivity.
  - vm_compute. reflexivity.
  - apply T. discriminate.
Defined.

(** A bridge device at 31, set up but not yet made. *)
Definition demo_br_proxy : xeth_proxy :=
  upd_px_mux (fun _ => None) (demo_proxy XETH_DEV_KIND_BRIDGE 0 PrivBridge).
Definition demo_br : net_device :=
  upd_nd_registered (fun _ => false) (demo_dev 0 NdoBridge (Some LnkoBridge) (Some demo_br_proxy)).
Definition demo_br_world : world := upd_w_devs (insert 31 demo_br) demo_full.

Lemma demo_br_rep : registry_rep (H:=golden_hash) demo_br_world [7; 6; 4; 5; 3; 2; 1].
Proof.
  apply registry_rep_other; [|exact demo_full_rep].
  apply (bool_decide_unpack _). vm_compute. exact I.
Qed.
Lemma demo_br_ok : sb_ok demo_br_world.
Proof. apply sb_ok_devs. exact demo_full_ok. Qed.

Lemma team_newlink_creates_witness :
  exists w' x,
    xeth_bridge_newlink (K:=plain_dev) (C:=demo_const) (N:=plain_notify) (H:=golden_hash)
      (F:=same_features) 31
      {| ifla_address := false; ifla_link := Some 2; ifla_ifname := true; ifla_data := None |}
      demo_br_world = Some (0, w') /\
    registry_rep (H:=golden_hash) w' (31 :: [7; 6; 4; 5; 3; 2; 1]) /\ 3000 <= x <= 4095.
Proof.
  destruct (team_newlink_creates (K:=plain_dev) (C:=demo_const) (N:=plain_notify) (H:=golden_hash)
    (F:=same_features) (KL:=plain_dev_laws) (HL:=golden_hash_laws) xeth_bridge demo_br_world
    [7; 6; 4; 5; 3; 2; 1] 31
    {| ifla_address := false; ifla_link := Some 2; ifla_ifname := true; ifla_data := None |}
    2 2 demo_br demo_br_proxy demo_port2 demo_port2_proxy) as (w' & x & dn & E & Hx & _ & _ & R & _).
  - exact bridge_sound.
  - split; reflexivity.
  - intros w ld El Hma. cbn. rewrite El, Hma. reflexivity.
  - exact demo_br_rep.
  - exact demo_br_ok.
  - vm_compute. lia.
  - vm_compute. reflexivity.
  - apply (bool_decide_unpack _). vm_compute. exact I.
  - discriminate.
  - apply lookup_insert_eq.
  - reflexivity.
  - reflexivity.
  - reflexivity.
  - reflexivity.
  - vm_compute. reflexivity.
  - vm_compute. reflexivity.
  - reflexivity.
  - eexists. reflexivity.
  - vm_compute. reflexivity.
  - exists w', x. split; [exact E|]. split; [exact R|exact Hx].
Defined.
