(* ===== verification/Vlan.v ===== *)
(** * VLANs and loopbacks (dkms/xeth_vlan.c, dkms/xeth_lb.c)

    The XID of a VLAN is the XID of its port or LAG with the VLAN's number
    above it; a loopback has an XID of its own. *)

From stdpp Require Import base numbers list gmap.
From Stdlib Require Import ZArith Lia.
From S2P Require Import Prelude Bytes Monad Uapi State Stats Kernel Demo Registry Sbq.
From S2P Require Import Sbtx Proxy Carrier Nb Netdev Lower Xid Create.

Local Open Scope Z_scope.

Definition VLAN_N_VID : Z := XETH_VLAN_N_VID.

(** kstrtoull with base 0: an error number or the value. *)
Class KernelStr := kstrtoull : list Z -> Z + Z.

Section vlan.
Context {K : KernelDev} {C : KernelConst} {N : KernelNotify} {H : KernelHash} {S : KernelStr}.

(** ** VLANs *)

(** The link in the private area of a VLAN. *)
Definition xeth_vlan_link (px : xeth_proxy) : option Z :=
  match px_priv px with PrivVlan link => link | _ => None end.

Definition xeth_vlan_get_iflink (nd : Z) : M world Z :=
  px ← netdev_priv nd;
  match xeth_vlan_link px with
  | Some link => l ← dev link; mret (nd_ifindex l)
  | None => d ← dev nd; mret (nd_ifindex d)
  end.

Definition xeth_vlan_open (nd : Z) : M world Z :=
  px ← netdev_priv nd;
  link ← deref (xeth_vlan_link px);
  ok ← netif_carrier_ok link;
  when ok (netif_carrier_on nd) ≫= fun _ => xeth_proxy_open nd.

Definition xeth_vlan_stop (nd : Z) : M world Z := netif_carrier_off nd ≫= fun _ => xeth_proxy_stop nd.

(** The XID of the link and the number of the VLAN, in the bus info. *)
Definition xeth_vlan_get_drvinfo (nd : Z) : M world (Z * Z) :=
  px ← netdev_priv nd;
  _ ← deref (px_mux px);
  priv ← get_mux;
  mret match mx_encap priv with
  | XETH_ENCAP_VLAN => (Z.land (px_xid px) XETH_ENCAP_VLAN_VID_MASK,
                        u16 (Z.shiftr (px_xid px) XETH_ENCAP_VLAN_VID_BIT))
  | XETH_ENCAP_VPLS => (Z.land (px_xid px) XETH_ENCAP_VPLS_VID_MASK,
                        u16 (Z.shiftr (px_xid px) XETH_ENCAP_VPLS_VID_BIT))
  end.

Definition xeth_vlan_setup (nd : Z) : M world unit :=
  xeth_proxy_setup nd ≫= fun _ =>
  mod_proxy nd (upd_px_kind (fun _ => XETH_DEV_KIND_VLAN)) ≫= fun _ =>
  mod_dev nd (fun d => ether_setup (upd_nd_needs_free (fun _ => true)
    (upd_nd_lnko (fun _ => Some LnkoVlan) (upd_nd_eto (fun _ => Some EtoVlan)
    (upd_nd_ops (fun _ => NdoVlan) d))))) ≫= fun _ =>
  eth_hw_addr_random nd ≫= fun _ =>
  mod_dev nd (upd_nd_priv_flags proxy_priv_flags).

Definition vid_out_of_range (vid : Z) : bool := (vid <? 1) || (VLAN_N_VID <=? vid).

Definition xeth_vlan_validate (a : nlattrs) : Z :=
  if bool_decide (ifla_link a = None) then - EINVAL else
  if negb (ifla_ifname a) then - EINVAL else
  if ifla_address a then - EOPNOTSUPP else
  match ifla_data a with
  | Some vid => if vid_out_of_range vid then - ERANGE else 0
  | None => 0
  end.

(** The rest of the name after its first dot. *)
Fixpoint after_dot (name : list Z) : option (list Z) :=
  match name with
  | [] => None
  | c :: name => if c =? 46 then Some name else after_dot name
  end.

(** The number of the VLAN: the attribute, or what follows the dot of the name;
    with neither it is what the stack held, [garbage]. *)
Definition vlan_vid (attr : option Z) (name : list Z) (garbage : Z) : Z + Z :=
  match attr with
  | Some vid => inr vid
  | None =>
      match after_dot (take IFNAMSIZ name) with
      | Some digits =>
          match kstrtoull digits with
          | inl err => if err =? 0 then inr garbage else inl err
          | inr ull => inr (u16 ull)
          end
      | None => inr garbage
      end
  end.

(** The XID of a VLAN of the link with XID [xid]. *)
Definition vlan_xid (encap : xeth_encap) (xid vid : Z) : Z :=
  Z.lor xid (u32 (Z.shiftl vid match encap with
    | XETH_ENCAP_VLAN => XETH_ENCAP_VLAN_VID_BIT
    | XETH_ENCAP_VPLS => XETH_ENCAP_VPLS_VID_BIT
    end)).

(** An unknown link returns PTR_ERR(NULL), which is 0. *)
Definition xeth_vlan_newlink (nd : Z) (a : nlattrs) (garbage : Z) : M world Z :=
  d ← dev nd;
  index ← deref (ifla_link a);
  found ← dev_get_by_index (nd_net d) index;
  mod_proxy nd (upd_px_priv (fun _ => PrivVlan found)) ≫= fun _ =>
  match found with
  | None => mret 0
  | Some link =>
      ld ← dev link;
      if negb (is_xeth_port ld) && negb (is_xeth_lag ld) then mret (- EINVAL) else
      lpx ← netdev_priv link;
      match vlan_vid (ifla_data a) (nd_name d) garbage with
      | inl err => mret err
      | inr vid =>
          if vid_out_of_range vid then mret (- ERANGE) else
          eth_hw_addr_inherit nd link ≫= fun _ =>
          mod_dev nd (upd_nd_addr_assign_type (fun _ => NET_ADDR_STOLEN)) ≫= fun _ =>
          _ ← deref (px_mux lpx);
          priv ← get_mux;
          mod_proxy nd (fun px => upd_px_xid (fun _ => vlan_xid (mx_encap priv) (px_xid lpx) vid)
            (upd_px_mux (fun _ => px_mux lpx) px)) ≫= fun _ =>
          mod_dev nd (fun d => upd_nd_min_mtu (fun _ => nd_min_mtu ld)
            (upd_nd_max_mtu (fun _ => nd_max_mtu ld) d)) ≫= fun _ =>
          register_proxy xeth_proxy_init xeth_proxy_uninit nd
      end
  end.

(** ** Loopbacks *)

Definition xeth_lb_get_iflink (nd : Z) : M world Z :=
  px ← netdev_priv nd; mux ← deref (px_mux px); m ← dev mux; mret (nd_ifindex m).

Definition xeth_lb_open (nd : Z) : M world Z := netif_carrier_on nd ≫= fun _ => xeth_proxy_open nd.
Definition xeth_lb_stop (nd : Z) : M world Z := netif_carrier_off nd ≫= fun _ => xeth_proxy_stop nd.

(** The kind is that of a VLAN. *)
Definition xeth_lb_setup (nd : Z) : M world unit :=
  xeth_proxy_setup nd ≫= fun _ =>
  mod_proxy nd (upd_px_kind (fun _ => XETH_DEV_KIND_VLAN)) ≫= fun _ =>
  mod_dev nd (fun d => ether_setup (upd_nd_needs_free (fun _ => true)
    (upd_nd_lnko (fun _ => Some LnkoLb) (upd_nd_eto (fun _ => Some EtoLb)
    (upd_nd_ops (fun _ => NdoLb) d))))) ≫= fun _ =>
  eth_hw_addr_random nd ≫= fun _ =>
  mod_dev nd (upd_nd_priv_flags proxy_priv_flags).

Definition xeth_lb_validate (a : nlattrs) : Z :=
  if bool_decide (ifla_link a = None) then - EINVAL else
  if ifla_address a then - EOPNOTSUPP else 0.

Definition xeth_lb_newlink (nd : Z) (a : nlattrs) : M world Z :=
  d ← dev nd;
  index ← deref (ifla_link a);
  found ← dev_get_by_index (nd_net d) index;
  mod_proxy nd (upd_px_mux (fun _ => found)) ≫= fun _ =>
  match found with
  | None => mret 0
  | Some mux =>
      m ← dev mux;
      if negb (is_xeth_mux m) then mret (- EINVAL) else
      mod_dev nd (fun d => upd_nd_min_mtu (fun _ => nd_min_mtu m)
        (upd_nd_max_mtu (fun _ => nd_max_mtu m) d)) ≫= fun _ =>
      match ifla_data a with
      | Some chan => mod_proxy nd (upd_px_priv (fun _ => PrivLb (u8 chan)))
      | None => mret tt
      end ≫= fun _ =>
      xid ← alloc_xid;
      mod_proxy nd (upd_px_xid (fun _ => default 4095 xid)) ≫= fun _ =>
      if bool_decide (xid = None) then mret (- ENODEV) else
      register_proxy xeth_proxy_init xeth_proxy_uninit nd
  end.

(** ** The XID of a VLAN *)

(** The XID of the link and the number of the VLAN can be read off. *)
Lemma vlan_xid_split xid vid :
  0 <= xid < 4096 -> 0 <= vid < 4096 ->
  vlan_xid XETH_ENCAP_VLAN xid vid = xid + vid * 4096 /\
  Z.land (vlan_xid XETH_ENCAP_VLAN xid vid) XETH_ENCAP_VLAN_VID_MASK = xid /\
  u16 (Z.shiftr (vlan_xid XETH_ENCAP_VLAN xid vid) XETH_ENCAP_VLAN_VID_BIT) = vid.
Proof.
  intros Hx Hv. unfold vlan_xid, XETH_ENCAP_VLAN_VID_MASK, XETH_ENCAP_VLAN_VID_BIT.
  rewrite u32_small by (rewrite Z.shiftl_mul_pow2 by lia; change (2 ^ 12) with 4096; lia).
  change (Z.shiftl 1 12 - 1) with (Z.ones 12). rewrite Z.land_ones by lia.
  rewrite lor_shiftl_low, lor_shiftl_high, lor_shiftl_add by (change (2 ^ 12) with 4096; lia).
  split; [done|]. split; [done|]. apply u16_small. lia.
Qed.

Context {KL : KernelDevLaws} {HL : KernelHashLaws}.

(** The device of a new VLAN before its registration. *)
Definition vlan_dev (d ld : net_device) (px lpx : xeth_proxy) (link xid : Z) : net_device :=
  upd_nd_min_mtu (fun _ => nd_min_mtu ld) (upd_nd_max_mtu (fun _ => nd_max_mtu ld)
  (upd_nd_proxy (fun _ => Some (upd_px_xid (fun _ => xid) (upd_px_mux (fun _ => px_mux lpx)
    (upd_px_priv (fun _ => PrivVlan (Some link)) px))))
  (upd_nd_addr_assign_type (fun _ => NET_ADDR_STOLEN) (upd_nd_addr (fun _ => nd_addr ld) d)))).

Lemma vlan_newlink_prepares w nd a garbage index link d px ld lpx vid :
  link <> nd -> w_devs w !! nd = Some d -> nd_proxy d = Some px -> ifla_link a = Some index ->
  dev_by_index w (nd_net d) index = Some link -> w_devs w !! link = Some ld ->
  nd_proxy ld = Some lpx -> is_Some (px_mux lpx) -> is_xeth_port ld || is_xeth_lag ld = true ->
  vlan_vid (ifla_data a) (nd_name d) garbage = inr vid -> 1 <= vid < VLAN_N_VID ->
  xeth_vlan_newlink nd a garbage w = register_proxy xeth_proxy_init xeth_proxy_uninit nd
    (upd_w_devs (insert nd (vlan_dev d ld px lpx link
      (vlan_xid (mx_encap (w_priv w)) (px_xid lpx) vid))) w).
Proof.
  intros Hne Ed Ep Ha Hidx El Elp [mux Hmux] Hk Hvid Hr. unfold xeth_vlan_newlink.
  rewrite bind_run, (dev_run _ _ _ Ed), bind_run, Ha. cbn [deref mret M_ret].
  rewrite bind_run. unfold dev_get_by_index, gets. rewrite Hidx.
  rewrite bind_run, (mod_proxy_run _ _ _ _ _ Ed Ep), bind_run.
  erewrite dev_run by (simpl; rewrite lookup_insert_ne by done; exact El).
  rewrite <- negb_orb, Hk. cbn [negb]. rewrite bind_run.
  erewrite netdev_priv_run
    by (unfold proxy_at; simpl; rewrite lookup_insert_ne by done; rewrite El; exact Elp).
  rewrite Hvid. replace (vid_out_of_range vid) with false.
  2:{ symmetry. unfold vid_out_of_range. apply orb_false_iff. split; lia. }
  rewrite bind_run. unfold eth_hw_addr_inherit. rewrite bind_run.
  erewrite dev_run by (simpl; rewrite lookup_insert_ne by done; exact El).
  erewrite mod_dev_run by apply lookup_insert_eq. rewrite bind_run.
  erewrite mod_dev_run by apply lookup_insert_eq. rewrite bind_run, Hmux. cbn [deref mret M_ret].
  rewrite bind_run. unfold get_mux, gets. rewrite bind_run.
  erewrite mod_proxy_run; [|apply lookup_insert_eq|reflexivity]. rewrite bind_run.
  erewrite mod_dev_run by apply lookup_insert_eq. f_equal.
  unfold vlan_dev. rewrite Hmux. unfold upd_w_devs. simpl. by rewrite !insert_insert_eq.
Qed.

(** C15: A VLAN of a port or a LAG has the link's XID and its own number in its XID,
    so that ethtool shows both again and two VLANs share an XID only if they have
    the link's XID and the number in common; it has the link's address and mux, it
    is registered with the driver and the kernel, and the daemon hears of it. *)
Theorem vlan_newlink_creates w l nd a garbage index link d px ld lpx vid :
  registers nd -> registry_rep w l -> sb_ok w -> (2 <= w_kmem w)%nat -> nd ∉ l -> link <> nd ->
  w_devs w !! nd = Some d -> nd_proxy d = Some px -> px_kind px = XETH_DEV_KIND_VLAN ->
  ifla_link a = Some index -> dev_by_index w (nd_net d) index = Some link ->
  w_devs w !! link = Some ld -> nd_proxy ld = Some lpx -> is_Some (px_mux lpx) ->
  is_xeth_port ld || is_xeth_lag ld = true -> 0 < px_xid lpx < 4096 ->
  mx_encap (w_priv w) = XETH_ENCAP_VLAN ->
  vlan_vid (ifla_data a) (nd_name d) garbage = inr vid -> 1 <= vid < VLAN_N_VID ->
  exists w' dn pn, xeth_vlan_newlink nd a garbage w = Some (0, w') /\
    registry_rep w' (nd :: l) /\ w_devs w' !! nd = Some dn /\ nd_proxy dn = Some pn /\
    px_xid pn = px_xid lpx + vid * 4096 /\ px_mux pn = px_mux lpx /\
    xeth_vlan_link pn = Some link /\ nd_addr dn = nd_addr ld /\
    xeth_vlan_get_drvinfo nd w' = Some ((px_xid lpx, vid), w') /\
    queued w' = queued w ++ announcement w dn pn.
Proof.
  intros Hr R Hw Hm Hin Hne Ed Ep Hkind Ha Hidx El Elp Hmux Hk Hx Henc Hvid Hvr.
  destruct (vlan_xid_split (px_xid lpx) vid) as (Ex & Elo & Ehi); [lia|unfold VLAN_N_VID, XETH_VLAN_N_VID in Hvr; lia|].
  set (x := vlan_xid XETH_ENCAP_VLAN (px_xid lpx) vid) in *.
  set (d1 := vlan_dev d ld px lpx link x).
  set (pn := upd_px_xid (fun _ => x) (upd_px_mux (fun _ => px_mux lpx)
    (upd_px_priv (fun _ => PrivVlan (Some link)) px))).
  destruct (register_proxy_run xeth_proxy_init inited xeth_proxy_uninit
    (upd_w_devs (insert nd d1) w) l nd d1 pn) as (w' & dn & E & Nl);
    [apply proxy_inits|done|by apply registry_rep_other|by apply sb_ok_devs|done|done
    |apply lookup_insert_eq|done|done|simpl; by rewrite Hkind|simpl; lia|].
  destruct (nl_made _ _ _ _ _ _ _ _ Nl) as (i & _ & Edn).
  assert (nd_proxy dn = Some pn) as Epn by (by rewrite Edn).
  exists w', dn, pn. split.
  { rewrite (vlan_newlink_prepares w nd a garbage index link d px ld lpx vid) by done.
    by rewrite Henc. }
  split; [by destruct Nl|]. split; [by destruct Nl|]. split; [done|]. split; [done|].
  split; [done|]. split; [done|]. split; [by rewrite Edn|]. split; [|by destruct Nl].
  unfold xeth_vlan_get_drvinfo.
  rewrite bind_run, (netdev_priv_run _ _ pn) by (unfold proxy_at; by rewrite (nl_dev _ _ _ _ _ _ _ _ Nl)).
  rewrite bind_run. destruct Hmux as [mux Hmux]. replace (px_mux pn) with (Some mux) by done.
  cbn [deref mret M_ret]. rewrite bind_run. unfold get_mux, gets.
  rewrite (nl_encap _ _ _ _ _ _ _ _ Nl). simpl. rewrite Henc.
  change (px_xid pn) with x. by rewrite Elo, Ehi.
Qed.

(** ** Loopbacks are announced as VLANs *)

(** The lists of kin after one more proxy. *)
Lemma newlinked_kin fi nd d px l w w' d' k :
  newlinked fi nd d px l w w' d' -> registry_rep w l -> nd ∉ l -> nd_proxy d' = Some px ->
  of_kind w' k (nd :: l) = if decide (px_kind px = k) then nd :: of_kind w k l else of_kind w k l.
Proof.
  intros Nl R Hin Ep. assert (kind_of w' nd = Some (px_kind px)) as Hk.
  { unfold kind_of, proxy_at. rewrite (nl_dev _ _ _ _ _ _ _ _ Nl). simpl. by rewrite Ep. }
  assert (of_kind w' k l = of_kind w k l) as El.
  { apply filter_iff_elem. intros p Hp. unfold kind_of, proxy_at.
    rewrite (nl_others _ _ _ _ _ _ _ _ Nl) by (by intros ->). done. }
  unfold of_kind in *. rewrite filter_cons, El. do 2 case_decide; congruence.
Qed.

(** The proxy and the device of a loopback in the course of its setup. *)
Definition lb_proxy (px : xeth_proxy) : xeth_proxy :=
  upd_px_kind (fun _ => XETH_DEV_KIND_VLAN) (upd_px_link_stats (fun _ => xeth_link_stat_init) px).
Definition lb_ether (d : net_device) (px : xeth_proxy) : net_device :=
  ether_setup (upd_nd_needs_free (fun _ => true) (upd_nd_lnko (fun _ => Some LnkoLb)
    (upd_nd_eto (fun _ => Some EtoLb) (upd_nd_ops (fun _ => NdoLb)
    (upd_nd_proxy (fun _ => Some (lb_proxy px)) d))))).
Definition lb_setup_dev (w : world) (nd : Z) (d : net_device) (px : xeth_proxy) : net_device :=
  upd_nd_priv_flags proxy_priv_flags (upd_nd_addr_assign_type (fun _ => NET_ADDR_RANDOM)
    (upd_nd_addr (fun _ => random_addr (upd_w_devs (insert nd (lb_ether d px)) w) nd) (lb_ether d px))).

Lemma lb_setup_run w nd d px :
  w_devs w !! nd = Some d -> nd_proxy d = Some px ->
  xeth_lb_setup nd w = Some (tt, upd_w_devs (insert nd (lb_setup_dev w nd d px)) w).
Proof.
  intros Ed Ep. unfold xeth_lb_setup, xeth_proxy_setup, eth_hw_addr_random.
  rewrite bind_run, (mod_proxy_run _ _ _ _ _ Ed Ep), bind_run.
  erewrite mod_proxy_run; [|apply lookup_insert_eq|reflexivity]. rewrite bind_run.
  erewrite mod_dev_run by apply lookup_insert_eq. rewrite !bind_run. unfold gets.
  erewrite mod_dev_run by apply lookup_insert_eq.
  erewrite mod_dev_run by apply lookup_insert_eq.
  unfold lb_setup_dev, upd_w_devs. simpl. rewrite !insert_insert_eq.
  reflexivity.
Qed.

(** A new loopback is put on the list of VLANs and announced to the daemon as a
    VLAN, with the encapsulation in the place of its channel, because its setup
    gives it the kind of a VLAN. *)
Theorem lb_announced_as_vlan w l nd a index d px mux m chan :
  registers nd -> registry_rep w l -> sb_ok w -> (2 <= w_kmem w)%nat -> connected w = true ->
  Z.of_nat (length l) < 1096 -> nd ∉ l -> mux <> nd -> w_devs w !! nd = Some d ->
  nd_proxy d = Some px -> px_priv px = PrivLb 0 -> ifla_link a = Some index ->
  ifla_data a = Some chan ->
  dev_by_index (upd_w_devs (insert nd (lb_setup_dev w nd d px)) w)
    (nd_net (lb_setup_dev w nd d px)) index = Some mux ->
  w_devs w !! mux = Some m -> is_xeth_mux m = true ->
  exists w' dn pn, (xeth_lb_setup nd ≫= fun _ => xeth_lb_newlink nd a) w = Some (0, w') /\
    registry_rep w' (nd :: l) /\ px_priv pn = PrivLb (u8 chan) /\ 3000 <= px_xid pn <= 4095 /\
    mx_vlans (w_priv w') = nd :: mx_vlans (w_priv w) /\ mx_lbs (w_priv w') = mx_lbs (w_priv w) /\
    last (queued w') = Some (msg_bytes XETH_MSG_KIND_IFINFO
      (ifinfo_msg (w_priv w) dn pn 0 XETH_IFINFO_REASON_NEW)) /\
    ii_kind (ifinfo_msg (w_priv w) dn pn 0 XETH_IFINFO_REASON_NEW) =
      xeth_dev_kind_val XETH_DEV_KIND_VLAN /\
    ii_kdata (ifinfo_msg (w_priv w) dn pn 0 XETH_IFINFO_REASON_NEW) =
      xeth_encap_val (mx_encap (w_priv w)).
Proof.
  intros Hr R Hw Hm Hc Hlen Hin Hne Ed Ep Hpp Ha Hchan Hidx Em Hmux.
  set (d1 := lb_setup_dev w nd d px). set (w1 := upd_w_devs (insert nd d1) w).
  assert (nd_proxy d1 = Some (lb_proxy px)) as Ep1
    by (exact (proj1 (proj2 (proj2 (ether_setup_law _))))).
  assert (forall d', registry_rep (upd_w_devs (insert nd d') w) l) as R1
    by (intros; by apply registry_rep_other).
  rewrite bind_run, (lb_setup_run _ _ _ _ Ed Ep). fold d1 w1. unfold xeth_lb_newlink.
  rewrite bind_run, (dev_run w1 nd d1) by apply lookup_insert_eq.
  rewrite bind_run, Ha. cbn [deref mret M_ret]. rewrite bind_run. unfold dev_get_by_index, gets at 1.
  change (dev_by_index w1 (nd_net d1) index = Some mux) in Hidx. rewrite Hidx, bind_run.
  erewrite mod_proxy_run; [|apply lookup_insert_eq|exact Ep1]. rewrite bind_run.
  erewrite dev_run by (simpl; rewrite !lookup_insert_ne by done; exact Em). rewrite Hmux. cbn [negb].
  rewrite bind_run. erewrite mod_dev_run by apply lookup_insert_eq. rewrite Hchan, bind_run.
  erewrite mod_proxy_run; [|apply lookup_insert_eq|reflexivity]. rewrite bind_run.
  match goal with |- context [alloc_xid ?w0] => set (w3 := w0) end.
  assert (exists d3, w3 = upd_w_devs (insert nd d3) w) as [d3 E3].
  { eexists. unfold w3, w1, upd_w_devs. simpl. by rewrite !insert_insert_eq. }
  destruct (alloc_xid_run w3 l) as ([x|] & Ex & Hs & Hx);
    [rewrite E3; by apply R1| |by destruct (Hs Hlen)]. rewrite Ex, bind_run.
  erewrite mod_proxy_run; [|unfold w3; apply lookup_insert_eq|reflexivity].
  rewrite bool_decide_eq_false_2 by done. cbn [default from_option id].
  match goal with |- context [register_proxy _ _ _ ?w0] => set (w4 := w0) end.
  set (pn := upd_px_xid (fun _ => x) (upd_px_priv (fun _ => PrivLb (u8 chan))
    (upd_px_mux (fun _ => Some mux) (lb_proxy px)))).
  assert (exists d4, w4 = upd_w_devs (insert nd d4) w /\ nd_proxy d4 = Some pn) as (d4 & E4 & Ep4).
  { eexists. unfold w4, w3, w1, upd_w_devs. simpl. rewrite !insert_insert_eq. split; reflexivity. }
  destruct (register_proxy_run xeth_proxy_init inited xeth_proxy_uninit w4 l nd d4 pn)
    as (w' & dn & E & Nl);
    [apply proxy_inits|done|rewrite E4; by apply R1|rewrite E4; by apply sb_ok_devs|by rewrite E4|done
    |rewrite E4; apply lookup_insert_eq|done|by eexists|done|simpl; lia|].
  assert (nd_proxy dn = Some pn) as Epn.
  { destruct (nl_made _ _ _ _ _ _ _ _ Nl) as (i & _ & ->). exact Ep4. }
  assert (registry_rep w4 l) as R4 by (rewrite E4; by apply R1).
  exists w', dn, pn. split; [exact E|]. pose proof (nl_rep _ _ _ _ _ _ _ _ Nl) as R'.
  split; [done|]. split; [done|]. split; [simpl; lia|].
  pose proof (fun k => newlinked_kin _ _ _ _ _ _ _ _ k Nl R4 Hin Epn) as Hkin.
  split; [|split; [|split; [|split; done]]].
  - rewrite (rep_vlans _ _ R'), Hkin. rewrite decide_True by done. f_equal.
    rewrite <- (rep_vlans _ _ R4). by rewrite E4.
  - rewrite (rep_lbs _ _ R'), Hkin. rewrite decide_False by done.
    rewrite <- (rep_lbs _ _ R4). by rewrite E4.
  - rewrite (nl_queued _ _ _ _ _ _ _ _ Nl). unfold announcement.
    replace (connected w4) with true by (rewrite E4; by rewrite <- Hc).
    rewrite app_assoc, last_snoc. by rewrite E4.
Qed.

End vlan.

(** ** Witnesses *)

(** The link is port 2 and the number comes from an attribute. *)
Definition demo_vlan_attrs : nlattrs :=
  {| ifla_address := false; ifla_link := Some 2; ifla_ifname := true; ifla_data := Some 7 |}.
Definition demo_link_proxy : xeth_proxy := demo_proxy XETH_DEV_KIND_PORT 3998 (demo_port 1).
Definition no_digits : KernelStr := fun _ => inl (- EINVAL).

Lemma demo_new_link :
  dev_by_index (KernelDev:=plain_dev) demo_new (nd_net demo_new_dev) 2 = Some 2.
Proof. vm_compute. reflexivity. Qed.

Lemma vlan_newlink_creates_witness :
  exists w' dn pn,
    xeth_vlan_newlink (K:=plain_dev) (C:=demo_const) (N:=plain_notify) (H:=golden_hash)
      (S:=no_digits) 30 demo_vlan_attrs 0 demo_new = Some (0, w') /\
    w_devs w' !! 30 = Some dn /\ nd_proxy dn = Some pn /\ px_xid pn = 3998 + 7 * 4096.
Proof.
  destruct (vlan_newlink_creates (K:=plain_dev) (C:=demo_const) (N:=plain_notify) (H:=golden_hash)
    (S:=no_digits) (KL:=plain_dev_laws) (HL:=golden_hash_laws) demo_new [7; 6; 4; 5; 3; 2; 1] 30
    demo_vlan_attrs 0 2 2 demo_new_dev demo_new_proxy
    (demo_dev 2 NdoPort None (Some demo_link_proxy)) demo_link_proxy 7)
    as (w' & dn & pn & E & _ & Ed & Ep & Ex & _).
  - split; reflexivity.
  - exact demo_new_rep.
  - exact demo_new_ok.
  - vm_compute. lia.
  - apply (bool_decide_unpack _). vm_compute. exact I.
  - discriminate.
  - apply lookup_insert_eq.
  - reflexivity.
  - reflexivity.
  - reflexivity.
  - exact demo_new_link.
  - vm_compute. reflexivity.
  - reflexivity.
  - eexists. reflexivity.
  - reflexivity.
  - cbn. lia.
  - vm_compute. reflexivity.
  - reflexivity.
  - unfold VLAN_N_VID, XETH_VLAN_N_VID. lia.
  - exists w', dn, pn. split; [exact E|]. split; [exact Ed|]. split; [exact Ep|exact Ex].
Defined.

(** A loopback device at 32, allocated but not yet set up, with channel 3 asked for. *)
Definition demo_lb_proxy : xeth_proxy :=
  upd_px_mux (fun _ => None) (demo_proxy XETH_DEV_KIND_UNSPEC 0 (PrivLb 0)).
Definition demo_lb_dev : net_device :=
  upd_nd_registered (fun _ => false) (demo_dev 0 NdoOther None (Some demo_lb_proxy)).
Definition demo_lb_world : world := upd_w_devs (insert 32 demo_lb_dev) demo_full.
Definition demo_lb_attrs : nlattrs :=
  {| ifla_address := false; ifla_link := Some 8; ifla_ifname := true; ifla_data := Some 3 |}.

Lemma demo_lb_rep : registry_rep (H:=golden_hash) demo_lb_world [7; 6; 4; 5; 3; 2; 1].
Proof.
  apply registry_rep_other; [|exact demo_full_rep].
  apply (bool_decide_unpack _). vm_compute. exact I.
Qed.
Lemma demo_lb_ok : sb_ok demo_lb_world.
Proof. apply sb_ok_devs. exact demo_full_ok. Qed.

Lemma lb_announced_as_vlan_witness :
  exists w', (xeth_lb_setup (K:=plain_dev) 32 ≫= fun _ =>
      xeth_lb_newlink (K:=plain_dev) (C:=demo_const) (N:=plain_notify) (H:=golden_hash)
        32 demo_lb_attrs) demo_lb_world = Some (0, w') /\
    mx_vlans (w_priv w') = 32 :: mx_vlans (w_priv demo_lb_world).
Proof.
  destruct (lb_announced_as_vlan (K:=plain_dev) (C:=demo_const) (N:=plain_notify) (H:=golden_hash)
    (KL:=plain_dev_laws) (HL:=golden_hash_laws) demo_lb_world [7; 6; 4; 5; 3; 2; 1] 32
    demo_lb_attrs 8 demo_lb_dev demo_lb_proxy 100 (demo_dev 8 NdoMux (Some LnkoMux) None) 3)
    as (w' & dn & pn & E & _ & _ & _ & Ev & _).
  - split; reflexivity.
  - exact demo_lb_rep.
  - exact demo_lb_ok.
  - vm_compute. lia.
  - vm_compute. reflexivity.
  - vm_compute. reflexivity.
  - apply (bool_decide_unpack _). vm_compute. exact I.
  - discriminate.
  - apply lookup_insert_eq.
  - reflexivity.
  - reflexivity.
  - reflexivity.
  - reflexivity.
  - vm_compute. reflexivity.
  - vm_compute. reflexivity.
  - reflexivity.
  - exists w'. split; [exact E|exact Ev].
Defined.
