(* ===== verification/Ethtool.v ===== *)
(** * Ethtool settings of the ports and the names of their statistics
      (dkms/xeth_port.c, and the names kept in dkms/xeth_mux.c)

    The link settings, the forward error correction and the private flags of a
    port, and the table of statistic names that is written through sysfs. *)

From stdpp Require Import base numbers list gmap.
From Stdlib Require Import ZArith Lia.
From S2P Require Import Prelude Bytes Monad Uapi State Stats Kernel Demo Registry Sbq.
From S2P Require Import Sbtx Proxy Carrier Nb Netdev Create.

Local Open Scope Z_scope.

(** ** Constants of linux/ethtool.h *)

Definition AUTONEG_DISABLE : Z := 0.
Definition AUTONEG_ENABLE : Z := 1.
Definition DUPLEX_HALF : Z := 0.
Definition DUPLEX_FULL : Z := 1.
Definition DUPLEX_UNKNOWN : Z := 255.
Definition PORT_TP : Z := 0.
Definition PORT_AUI : Z := 1.
Definition PORT_MII : Z := 2.
Definition PORT_FIBRE : Z := 3.
Definition PORT_BNC : Z := 4.
Definition PORT_DA : Z := 5.
Definition PORT_NONE : Z := 239.
Definition PORT_OTHER : Z := 255.
Definition ETH_SS_TEST : Z := 0.
Definition ETH_SS_STATS : Z := 1.
Definition ETH_SS_PRIV_FLAGS : Z := 2.
Definition ETH_GSTRING_LEN : nat := 32.
Definition ETHTOOL_FEC_NONE : Z := 1.
Definition ETHTOOL_FEC_AUTO : Z := 2.
Definition ETHTOOL_FEC_OFF : Z := 4.
Definition ETHTOOL_FEC_RS : Z := 8.
Definition ETHTOOL_FEC_BASER : Z := 16.

(** The bits of the link modes. *)
Definition LM_Autoneg : Z := 6.
Definition LM_TP : Z := 7.
Definition LM_AUI : Z := 8.
Definition LM_MII : Z := 9.
Definition LM_FIBRE : Z := 10.
Definition LM_BNC : Z := 11.
Definition LM_10000baseKX4_Full : Z := 18.
Definition LM_10000baseKR_Full : Z := 19.
Definition LM_10000baseR_FEC : Z := 20.
Definition LM_20000baseMLD2_Full : Z := 21.
Definition LM_20000baseKR2_Full : Z := 22.
Definition LM_40000baseKR4_Full : Z := 23.
Definition LM_40000baseCR4_Full : Z := 24.
Definition LM_40000baseSR4_Full : Z := 25.
Definition LM_40000baseLR4_Full : Z := 26.
Definition LM_25000baseCR_Full : Z := 31.
Definition LM_25000baseKR_Full : Z := 32.
Definition LM_25000baseSR_Full : Z := 33.
Definition LM_50000baseCR2_Full : Z := 34.
Definition LM_50000baseKR2_Full : Z := 35.
Definition LM_100000baseKR4_Full : Z := 36.
Definition LM_100000baseSR4_Full : Z := 37.
Definition LM_100000baseCR4_Full : Z := 38.
Definition LM_100000baseLR4_ER4_Full : Z := 39.
Definition LM_50000baseSR2_Full : Z := 40.
Definition LM_FEC_NONE : Z := 49.
Definition LM_FEC_RS : Z := 50.
Definition LM_FEC_BASER : Z := 51.

(** ** Link settings *)

(** The modes that ports and subports support. *)
Definition subport_modes : list Z :=
  [LM_Autoneg; LM_10000baseKX4_Full; LM_10000baseKR_Full; LM_10000baseR_FEC;
   LM_20000baseMLD2_Full; LM_20000baseKR2_Full; LM_25000baseCR_Full; LM_25000baseKR_Full;
   LM_25000baseSR_Full; LM_40000baseKR4_Full; LM_40000baseCR4_Full; LM_40000baseSR4_Full;
   LM_40000baseLR4_Full; LM_50000baseCR2_Full; LM_50000baseKR2_Full; LM_50000baseSR2_Full;
   LM_TP; LM_FIBRE; LM_FEC_NONE; LM_FEC_RS; LM_FEC_BASER].
Definition port_modes : list Z :=
  [LM_Autoneg; LM_10000baseKX4_Full; LM_10000baseKR_Full; LM_10000baseR_FEC;
   LM_20000baseMLD2_Full; LM_20000baseKR2_Full; LM_25000baseCR_Full; LM_25000baseKR_Full;
   LM_25000baseSR_Full; LM_40000baseKR4_Full; LM_40000baseCR4_Full; LM_40000baseSR4_Full;
   LM_40000baseLR4_Full; LM_50000baseCR2_Full; LM_50000baseKR2_Full; LM_50000baseSR2_Full;
   LM_100000baseKR4_Full; LM_100000baseSR4_Full; LM_100000baseCR4_Full;
   LM_100000baseLR4_ER4_Full; LM_TP; LM_FIBRE; LM_FEC_NONE; LM_FEC_RS; LM_FEC_BASER].

(** zero_link_mode, then add_link_mode of each. *)
Definition add_modes (modes : list Z) : Z := foldl Z.setbit 0 modes.

Definition base_ksettings (supported advertising : Z) (ks : ksettings) : ksettings :=
  upd_ks_speed (fun _ => 0) (upd_ks_duplex (fun _ => DUPLEX_FULL)
    (upd_ks_autoneg (fun _ => AUTONEG_ENABLE) (upd_ks_port (fun _ => PORT_OTHER)
    (upd_ks_supported (fun _ => supported) (upd_ks_advertising (fun _ => advertising) ks))))).

Definition xeth_port_ksettings : ksettings -> ksettings :=
  base_ksettings (add_modes port_modes) (Z.clearbit (add_modes port_modes) LM_FEC_NONE).
Definition xeth_subport_ksettings : ksettings -> ksettings :=
  base_ksettings (add_modes subport_modes) (add_modes subport_modes).

Definition xeth_port_get_link_ksettings (nd : Z) : M world ksettings :=
  pp ← port_priv nd; mret (pp_ksettings pp).

Definition xeth_port_ks_supports (ks : ksettings) (mk : Z) : bool := Z.testbit (ks_supported ks) mk.
Definition xeth_port_ks_advertising (ks : ksettings) (mk : Z) : bool :=
  Z.testbit (ks_advertising ks) mk.

Definition xeth_port_validate_port (ks : ksettings) (port : Z) : Z :=
  let t :=
    if port =? PORT_TP then xeth_port_ks_supports ks LM_TP else
    if port =? PORT_AUI then xeth_port_ks_supports ks LM_AUI else
    if port =? PORT_MII then xeth_port_ks_supports ks LM_MII else
    if port =? PORT_FIBRE then xeth_port_ks_supports ks LM_FIBRE else
    if port =? PORT_BNC then xeth_port_ks_supports ks LM_BNC else
    (port =? PORT_DA) || (port =? PORT_NONE) || (port =? PORT_OTHER)
  in if t then 0 else - EINVAL.

Definition xeth_port_validate_duplex (duplex : Z) : Z :=
  if negb (duplex =? DUPLEX_HALF) && negb (duplex =? DUPLEX_FULL) && negb (duplex =? DUPLEX_UNKNOWN)
  then - EINVAL else 0.

Definition xeth_port_validate_speed (speed : Z) : Z :=
  if negb (speed =? 100000) && negb (speed =? 50000) && negb (speed =? 40000) &&
     negb (speed =? 25000) && negb (speed =? 20000) && negb (speed =? 10000) &&
     negb (speed =? 1000)
  then - EINVAL else 0.

Definition mod_ks (nd : Z) (f : ksettings -> ksettings) : M world unit :=
  mod_port nd (upd_pp_ksettings f).

Section ethtool.
Context {C : KernelConst}.

(** The first bits of a bitmap. *)
Definition bitmap_copy (src : Z) : Z := Z.land src (Z.ones ETHTOOL_LINK_MODE_MASK_NBITS).
Definition bitmap_andnot (a b : Z) : bool := negb (bitmap_copy (Z.ldiff a b) =? 0).

(** Report the settings, as the tail of the operations that set them. *)
Definition report_ksettings (nd : Z) : M world Z :=
  px ← netdev_priv nd;
  pp ← port_priv nd;
  _ ← deref (px_mux px);
  xeth_sbtx_et_settings (px_xid px) (pp_ksettings pp).

Definition xeth_port_set_link_ksettings (nd : Z) (req : ksettings) : M world Z :=
  pp ← port_priv nd;
  let ks := pp_ksettings pp in
  and_then
    (if ks_port req =? ks_port ks then mret 0 else
     if negb (xeth_port_validate_port ks (ks_port req) =? 0)
     then mret (xeth_port_validate_port ks (ks_port req)) else
     mod_ks nd (upd_ks_port (fun _ => ks_port req)) ≫= fun _ => mret 0)
  (and_then
    (if ks_autoneg req =? AUTONEG_DISABLE then
       if negb (xeth_port_validate_speed (ks_speed req) =? 0)
       then mret (xeth_port_validate_speed (ks_speed req)) else
       if negb (xeth_port_validate_duplex (ks_duplex req) =? 0)
       then mret (xeth_port_validate_duplex (ks_duplex req)) else
       mod_ks nd (fun ks => upd_ks_autoneg (fun _ => ks_autoneg req)
         (upd_ks_speed (fun _ => ks_speed req) (upd_ks_duplex (fun _ => ks_duplex req) ks)))
       ≫= fun _ => mret 0
     else
       if bitmap_andnot (ks_advertising req) (ks_supported ks) then mret (- EINVAL) else
       if negb (xeth_port_validate_duplex (ks_duplex req) =? 0)
       then mret (xeth_port_validate_duplex (ks_duplex req)) else
       mod_ks nd (fun ks => upd_ks_advertising (fun _ => bitmap_copy (ks_advertising req))
         (upd_ks_autoneg (fun _ => AUTONEG_ENABLE) (upd_ks_speed (fun _ => 0)
         (upd_ks_duplex (fun _ => ks_duplex req) ks))))
       ≫= fun _ => mret 0)
  (report_ksettings nd)).

(** ** Forward error correction *)

(** [fec] and [active_fec]. *)
Definition xeth_port_get_fecparam (nd : Z) : M world (Z * Z) :=
  pp ← port_priv nd;
  let ks := pp_ksettings pp in
  let fec_both := Z.lor ETHTOOL_FEC_RS ETHTOOL_FEC_BASER in
  let fec := 0 in
  let fec := if xeth_port_ks_supports ks LM_FEC_NONE then Z.lor fec ETHTOOL_FEC_OFF else fec in
  let fec := if xeth_port_ks_supports ks LM_FEC_RS then Z.lor fec ETHTOOL_FEC_RS else fec in
  let fec := if xeth_port_ks_supports ks LM_FEC_BASER then Z.lor fec ETHTOOL_FEC_BASER else fec in
  let fec := if Z.land fec fec_both =? fec_both then Z.lor fec ETHTOOL_FEC_AUTO else fec in
  let fec := if fec =? 0 then ETHTOOL_FEC_NONE else fec in
  mret
    (if fec =? ETHTOOL_FEC_NONE then (fec, ETHTOOL_FEC_NONE) else
     if xeth_port_ks_advertising ks LM_FEC_NONE then (fec, ETHTOOL_FEC_OFF) else
     if xeth_port_ks_advertising ks LM_FEC_RS then
       (fec, if xeth_port_ks_advertising ks LM_FEC_BASER then ETHTOOL_FEC_AUTO else ETHTOOL_FEC_RS) else
     if xeth_port_ks_advertising ks LM_FEC_BASER then (ETHTOOL_FEC_BASER, 0) else (fec, 0)).

(** The modes [fec] needs, and what it makes of the advertised ones. *)
Definition xeth_port_set_fecparam (nd fec : Z) : M world Z :=
  pp ← port_priv nd;
  let ks := pp_ksettings pp in
  let advertise (f : Z -> Z) := mod_ks nd (upd_ks_advertising f) ≫= fun _ => report_ksettings nd in
  if fec =? ETHTOOL_FEC_AUTO then
    if negb (xeth_port_ks_supports ks LM_FEC_RS) || negb (xeth_port_ks_supports ks LM_FEC_BASER)
    then mret (- EOPNOTSUPP) else
    advertise (fun a => Z.setbit (Z.setbit (Z.clearbit a LM_FEC_NONE) LM_FEC_RS) LM_FEC_BASER)
  else if fec =? ETHTOOL_FEC_OFF then
    if negb (xeth_port_ks_supports ks LM_FEC_NONE) then mret (- EOPNOTSUPP) else
    advertise (fun a => Z.clearbit (Z.clearbit (Z.setbit a LM_FEC_NONE) LM_FEC_RS) LM_FEC_BASER)
  else if fec =? ETHTOOL_FEC_RS then
    if negb (xeth_port_ks_supports ks LM_FEC_RS) then mret (- EOPNOTSUPP) else
    advertise (fun a => Z.clearbit (Z.setbit (Z.clearbit a LM_FEC_NONE) LM_FEC_RS) LM_FEC_BASER)
  else if fec =? ETHTOOL_FEC_BASER then
    if negb (xeth_port_ks_supports ks LM_FEC_BASER) then mret (- EOPNOTSUPP) else
    advertise (fun a => Z.setbit (Z.clearbit (Z.clearbit a LM_FEC_NONE) LM_FEC_RS) LM_FEC_BASER)
  else mret (- EINVAL).

(** ** Private flags *)

Definition xeth_port_get_priv_flags (nd : Z) : M world Z :=
  pp ← port_priv nd;
  if pp_subport pp <=? 0 then ext ← port_ext pp; mret (pe_priv_flags ext) else mret 0.

Definition xeth_port_set_priv_flags (nd flags : Z) : M world Z :=
  px ← netdev_priv nd;
  pp ← port_priv nd;
  if 0 <? pp_subport pp then mret (- EINVAL) else
  mod_ext nd (upd_pe_priv_flags (fun _ => flags)) ≫= fun _ =>
  _ ← deref (px_mux px);
  xeth_sbtx_et_flags (px_xid px) flags ≫= fun _ => mret 0.
End ethtool.

(** ** The names of flags and statistics *)

(** strncpy into [n] bytes: up to the first NUL, then zeros. *)
Fixpoint strncpy (n : nat) (s : list Z) : list Z :=
  match n, s with
  | O, _ => []
  | S n, c :: s => if c =? 0 then replicate (S n) 0 else c :: strncpy n s
  | S n, [] => replicate (S n) 0
  end.

Definition xeth_mux_n_priv_flags : M world Z := priv ← get_mux; mret (mx_flag_named priv).
Definition xeth_mux_priv_flag_names : M world (list (list Z)) :=
  priv ← get_mux;
  mret (strncpy ETH_GSTRING_LEN <$> take (Z.to_nat (mx_flag_named priv)) (mx_flag_names priv)).
Definition xeth_mux_n_stats : M world Z := priv ← get_mux; mret (mx_stat_named priv).
Definition xeth_mux_stat_names : M world (list (list Z)) :=
  priv ← get_mux;
  mret (strncpy ETH_GSTRING_LEN <$> take (Z.to_nat (mx_stat_named priv)) (mx_stat_names priv)).

(** The loop over the bytes of the entry [name]: it ends at a newline or at the
    end of the [sz] bytes of [buf], which the kernel ends with a NUL. *)
Fixpoint store_name (name buf : list Z) : list Z :=
  match name, buf with
  | [], _ => []
  | _ :: name, [] => 0 :: name
  | _ :: name, c :: buf => if c =? 10 then 0 :: name else c :: store_name name buf
  end.

Definition xeth_mux_show_stat_name : M world Z := xeth_mux_n_stats.

Definition xeth_mux_store_stat_name (buf : list Z) : M world Z :=
  let sz := Z.of_nat (length buf) in
  priv ← get_mux;
  if (sz =? 0) || bool_decide (head buf = Some 10) then
    mod_mux (upd_mx_stat_named (fun _ => 0)) ≫= fun _ => mret sz
  else if Z.of_nat xeth_mux_max_stats <=? mx_stat_named priv then mret (- EINVAL) else
  mod_mux (upd_mx_stat_names
    (alter (fun name => store_name name buf) (Z.to_nat (mx_stat_named priv)))) ≫= fun _ =>
  mod_mux (upd_mx_stat_named (Z.add 1)) ≫= fun _ => mret sz.

Definition xeth_port_get_sset_count (nd sset : Z) : M world Z :=
  px ← netdev_priv nd;
  if sset =? ETH_SS_TEST then mret 0 else
  if sset =? ETH_SS_STATS then _ ← deref (px_mux px); xeth_mux_n_stats else
  if sset =? ETH_SS_PRIV_FLAGS then _ ← deref (px_mux px); xeth_mux_n_priv_flags else
  mret (- EOPNOTSUPP).

Definition xeth_port_get_strings (nd sset : Z) : M world (list (list Z)) :=
  px ← netdev_priv nd;
  if sset =? ETH_SS_STATS then _ ← deref (px_mux px); xeth_mux_stat_names else
  if sset =? ETH_SS_PRIV_FLAGS then _ ← deref (px_mux px); xeth_mux_priv_flag_names else
  mret [].

(** The statistics, 64 bits each, out of the extension. *)
Definition xeth_port_get_stats (nd : Z) : M world (list Z) :=
  px ← netdev_priv nd;
  pp ← port_priv nd;
  _ ← deref (px_mux px);
  n ← xeth_mux_n_stats;
  if n <=? 0 then mret [] else
  ext ← port_ext pp;
  mret (u64 <$> take (Z.to_nat n) (pe_stats ext)).

(** ** What is asked for and what is granted *)

Section requests.
Context {C : KernelConst}.

(** The media with the mode a port must support. *)
Definition media : list (Z * Z) :=
  [(PORT_TP, LM_TP); (PORT_AUI, LM_AUI); (PORT_MII, LM_MII); (PORT_FIBRE, LM_FIBRE);
   (PORT_BNC, LM_BNC)].
Definition port_ok (ks : ksettings) (port : Z) : Prop :=
  port = ks_port ks \/ port ∈ [PORT_DA; PORT_NONE; PORT_OTHER] \/
  exists mode, (port, mode) ∈ media /\ Z.testbit (ks_supported ks) mode = true.
Definition duplex_ok (duplex : Z) : Prop := duplex ∈ [DUPLEX_HALF; DUPLEX_FULL; DUPLEX_UNKNOWN].
Definition speed_ok (speed : Z) : Prop :=
  speed ∈ [1000; 10000; 20000; 25000; 40000; 50000; 100000].
Definition modes_within (a b : Z) : Prop :=
  forall i, 0 <= i < ETHTOOL_LINK_MODE_MASK_NBITS -> Z.testbit a i = true -> Z.testbit b i = true.

Definition request_ok (ks req : ksettings) : Prop :=
  port_ok ks (ks_port req) /\ duplex_ok (ks_duplex req) /\
  (ks_autoneg req = AUTONEG_DISABLE -> speed_ok (ks_speed req)) /\
  (ks_autoneg req <> AUTONEG_DISABLE -> modes_within (ks_advertising req) (ks_supported ks)).

(** The settings after a request that is granted. *)
Definition granted (req ks : ksettings) : ksettings :=
  upd_ks_port (fun _ => ks_port req) (upd_ks_duplex (fun _ => ks_duplex req)
  (if ks_autoneg req =? AUTONEG_DISABLE
   then upd_ks_autoneg (fun _ => AUTONEG_DISABLE) (upd_ks_speed (fun _ => ks_speed req) ks)
   else upd_ks_autoneg (fun _ => AUTONEG_ENABLE) (upd_ks_speed (fun _ => 0)
          (upd_ks_advertising (fun _ => bitmap_copy (ks_advertising req)) ks)))).

Lemma validate_port_spec ks port :
  (xeth_port_validate_port ks port = 0 <->
   port ∈ [PORT_DA; PORT_NONE; PORT_OTHER] \/
   exists mode, (port, mode) ∈ media /\ Z.testbit (ks_supported ks) mode = true) /\
  (xeth_port_validate_port ks port = 0 \/ xeth_port_validate_port ks port = - EINVAL).
Proof.
  unfold xeth_port_validate_port, xeth_port_ks_supports, media.
  assert (forall b : bool, ((if b then 0 else - EINVAL) = 0 <-> b = true) /\
    ((if b then 0 else - EINVAL) = 0 \/ (if b then 0 else - EINVAL) = - EINVAL)) as Hb.
  { intros []; repeat split; auto; discriminate. }
  match goal with |- context [if ?b then 0 else - EINVAL] => destruct (Hb b) as [Hb1 Hb2] end.
  split; [|exact Hb2]. rewrite Hb1. clear Hb Hb1 Hb2. setoid_rewrite list_elem_of_In. simpl.
  unfold PORT_TP, PORT_AUI, PORT_MII, PORT_FIBRE, PORT_BNC, PORT_DA, PORT_NONE, PORT_OTHER in *.
  repeat match goal with |- context [port =? ?k] => destruct (Z.eqb_spec port k) end;
    subst; simpl; try lia; split; intros Ht; try (by right; eauto 10); try done; try lia.
  all: try (destruct Ht as [Ht|(m & Hm & Ht)]; [lia|]).
  all: try (destruct_or! Hm; simplify_eq; done).
  all: try (left; lia).
Qed.

Lemma validate_duplex_spec duplex :
  (xeth_port_validate_duplex duplex = 0 <-> duplex_ok duplex) /\
  (xeth_port_validate_duplex duplex = 0 \/ xeth_port_validate_duplex duplex = - EINVAL).
Proof.
  unfold xeth_port_validate_duplex, duplex_ok. rewrite list_elem_of_In. simpl.
  unfold DUPLEX_HALF, DUPLEX_FULL, DUPLEX_UNKNOWN, EINVAL.
  repeat match goal with |- context [duplex =? ?k] => destruct (Z.eqb_spec duplex k) end; simpl; lia.
Qed.

Lemma validate_speed_spec speed :
  (xeth_port_validate_speed speed = 0 <-> speed_ok speed) /\
  (xeth_port_validate_speed speed = 0 \/ xeth_port_validate_speed speed = - EINVAL).
Proof.
  unfold xeth_port_validate_speed, speed_ok, EINVAL. rewrite list_elem_of_In. simpl.
  repeat match goal with |- context [speed =? ?k] => destruct (Z.eqb_spec speed k) end; simpl; lia.
Qed.

Context (NB : 0 <= ETHTOOL_LINK_MODE_MASK_NBITS).

Lemma bitmap_copy_bit a i :
  Z.testbit (bitmap_copy a) i =
    (0 <=? i) && (i <? ETHTOOL_LINK_MODE_MASK_NBITS) && Z.testbit a i.
Proof.
  unfold bitmap_copy. destruct (Z.leb_spec 0 i); [|by rewrite Z.testbit_neg_r by done].
  rewrite Z.land_spec, Z.testbit_ones by done. rewrite andb_comm.
  by rewrite (proj2 (Z.leb_le 0 i)) by done.
Qed.

Lemma bitmap_andnot_spec a b : bitmap_andnot a b = false <-> modes_within a b.
Proof.
  unfold bitmap_andnot, modes_within. rewrite negb_false_iff, Z.eqb_eq. split.
  - intros E i Hi Ha. apply (f_equal (fun x => Z.testbit x i)) in E.
    rewrite bitmap_copy_bit, Z.ldiff_spec, Ha, Z.bits_0 in E.
    rewrite (proj2 (Z.leb_le _ _)), (proj2 (Z.ltb_lt _ _)) in E by lia. simpl in E.
    by destruct (Z.testbit b i).
  - intros Hw. apply Z.bits_inj_0. intros i. rewrite bitmap_copy_bit, Z.ldiff_spec.
    destruct (Z.leb_spec 0 i), (Z.ltb_spec i ETHTOOL_LINK_MODE_MASK_NBITS); simpl; try done.
    specialize (Hw i ltac:(lia)). destruct (Z.testbit a i), (Z.testbit b i); try done. by discriminate Hw.
Qed.

(** ** The settings of a port in the machine *)

Lemma upd_nd_proxy_id f d : f (nd_proxy d) = nd_proxy d -> upd_nd_proxy f d = d.
Proof. intros E. destruct d. unfold upd_nd_proxy. simpl in *. by rewrite E. Qed.
Lemma upd_px_priv_id f px : f (px_priv px) = px_priv px -> upd_px_priv f px = px.
Proof. intros E. destruct px. unfold upd_px_priv. simpl in *. by rewrite E. Qed.
Lemma upd_pp_ksettings_id f pp : f (pp_ksettings pp) = pp_ksettings pp -> upd_pp_ksettings f pp = pp.
Proof. intros E. destruct pp. unfold upd_pp_ksettings. simpl in *. by rewrite E. Qed.

(** The device with the settings of its port changed by [f]. *)
Definition set_ks (f : ksettings -> ksettings) (d : net_device) : net_device :=
  upd_nd_proxy (fmap (upd_px_priv (fun priv =>
    match priv with PrivPort pp => PrivPort (upd_pp_ksettings f pp) | _ => priv end))) d.

(** The device at [nd] is a port of a mux. *)
Record port_at (w : world) (nd : Z) (d : net_device) (px : xeth_proxy) (pp : xeth_port_priv)
  : Prop := {
  pa_dev : w_devs w !! nd = Some d;
  pa_proxy : nd_proxy d = Some px;
  pa_priv : px_priv px = PrivPort pp;
  pa_mux : is_Some (px_mux px);
}.

Lemma port_priv_run w nd d px pp : port_at w nd d px pp -> port_priv nd w = Some (pp, w).
Proof.
  intros [Ed Ep Epp _]. unfold port_priv. rewrite bind_run.
  erewrite netdev_priv_run by (unfold proxy_at; rewrite Ed; exact Ep). by rewrite Epp.
Qed.

Lemma mod_ks_run w nd d px pp f :
  port_at w nd d px pp -> mod_ks nd f w = Some (tt, upd_w_devs (insert nd (set_ks f d)) w).
Proof.
  intros P. unfold mod_ks, mod_port. rewrite bind_run, (port_priv_run _ _ _ _ _ P).
  destruct P as [Ed Ep Epp _]. rewrite (mod_proxy_run _ _ _ _ _ Ed Ep). do 4 f_equal.
  unfold set_ks, upd_nd_proxy. rewrite Ep. simpl. unfold upd_px_priv. by rewrite Epp.
Qed.

Lemma port_at_set_ks w nd d px pp f :
  port_at w nd d px pp ->
  port_at (upd_w_devs (insert nd (set_ks f d)) w) nd (set_ks f d)
    (upd_px_priv (fun _ => PrivPort (upd_pp_ksettings f pp)) px) (upd_pp_ksettings f pp).
Proof.
  intros [Ed Ep Epp Hm]. split; [apply lookup_insert_eq| |done|done].
  simpl. rewrite Ep. simpl. unfold upd_px_priv. by rewrite Epp.
Qed.

Lemma set_ks_set_ks f g d : set_ks f (set_ks g d) = set_ks (fun ks => f (g ks)) d.
Proof.
  unfold set_ks, upd_nd_proxy. simpl. f_equal. destruct (nd_proxy d) as [px|]; [|done]. simpl.
  f_equal. unfold upd_px_priv. simpl. f_equal. by destruct (px_priv px).
Qed.

Lemma set_ks_ext f g d px pp :
  nd_proxy d = Some px -> px_priv px = PrivPort pp -> f (pp_ksettings pp) = g (pp_ksettings pp) ->
  set_ks f d = set_ks g d.
Proof.
  intros Ep Epp E. unfold set_ks, upd_nd_proxy. rewrite Ep. simpl. unfold upd_px_priv.
  rewrite Epp. unfold upd_pp_ksettings. by rewrite E.
Qed.

Lemma set_ks_id d px pp f :
  nd_proxy d = Some px -> px_priv px = PrivPort pp -> f (pp_ksettings pp) = pp_ksettings pp ->
  set_ks f d = d.
Proof.
  intros Ep Epp E. unfold set_ks. apply upd_nd_proxy_id. rewrite Ep. simpl. f_equal.
  apply upd_px_priv_id. rewrite Epp. f_equal. by apply upd_pp_ksettings_id.
Qed.

(** The two messages that report the settings of a port. *)
Definition ks_msgs (xid : Z) (ks : ksettings) : list (list Z) :=
  [ msg_bytes XETH_MSG_KIND_ETHTOOL_SETTINGS (settings_msg xid ks);
    msg_bytes XETH_MSG_KIND_ETHTOOL_LINK_MODES_ADVERTISING (link_modes_msg xid (ks_advertising ks)) ].

Lemma report_run w nd d px pp :
  port_at w nd d px pp -> sb_ok w -> (2 <= w_kmem w)%nat ->
  exists w', report_ksettings nd w = Some (0, w') /\ emits w (ks_msgs (px_xid px) (pp_ksettings pp)) w'.
Proof.
  intros P Hw Hm. assert (delivers w (xeth_sbtx_et_settings (px_xid px) (pp_ksettings pp))
    (ks_msgs (px_xid px) (pp_ksettings pp))) as D.
  { apply (delivers_bind w _ [_] _ [_]); [apply sbtx_msg_delivers|]. intros.
    unfold xeth_sbtx_et_link_modes. apply sbtx_msg_delivers. }
  destruct (D Hw Hm) as (r & w' & E & M1). exists w'. split; [|done].
  unfold report_ksettings. rewrite bind_run.
  erewrite netdev_priv_run by (unfold proxy_at; rewrite (pa_dev _ _ _ _ _ P); exact (pa_proxy _ _ _ _ _ P)).
  rewrite bind_run, (port_priv_run _ _ _ _ _ P), bind_run.
  destruct (pa_mux _ _ _ _ _ P) as [mux ->]. cbn [deref mret M_ret]. rewrite E. do 2 f_equal.
  unfold xeth_sbtx_et_settings, xeth_sbtx_et_link_modes, sbtx_msg in E. repeat bind_step E.
  by injection E.
Qed.

(** *** The two parts of a request *)

Definition port_part (req ks : ksettings) : ksettings := upd_ks_port (fun _ => ks_port req) ks.

Lemma port_ok_dec ks port :
  (port_ok ks port /\ (port = ks_port ks \/ xeth_port_validate_port ks port = 0)) \/
  (~ port_ok ks port /\ port <> ks_port ks /\ xeth_port_validate_port ks port = - EINVAL).
Proof.
  destruct (validate_port_spec ks port) as [Hs Hd]. unfold port_ok.
  destruct (decide (port = ks_port ks)) as [->|Hne]; [by left; auto|].
  destruct Hd as [E|E]; [left; apply Hs in E as ?; tauto|]. right. split; [|done].
  intros [?|Hp]; [done|]. apply Hs in Hp. rewrite E in Hp. done.
Qed.

(** The second half of a request, on settings [ks] that have the medium already. *)
Definition second_ok (ks req : ksettings) : Prop :=
  duplex_ok (ks_duplex req) /\
  (ks_autoneg req = AUTONEG_DISABLE -> speed_ok (ks_speed req)) /\
  (ks_autoneg req <> AUTONEG_DISABLE -> modes_within (ks_advertising req) (ks_supported ks)).

Lemma request_ok_split ks req : request_ok ks req <-> port_ok ks (ks_port req) /\ second_ok ks req.
Proof. unfold request_ok, second_ok. tauto. Qed.

(** A granted medium is stored before the rest is looked at. *)
Lemma medium_step w nd d px pp req (c : M world Z) :
  port_at w nd d px pp -> let ks := pp_ksettings pp in
  ks_port req = ks_port ks \/ xeth_port_validate_port ks (ks_port req) = 0 ->
  and_then (if ks_port req =? ks_port ks then mret 0 else
      if negb (xeth_port_validate_port ks (ks_port req) =? 0)
      then mret (xeth_port_validate_port ks (ks_port req)) else
      mod_ks nd (upd_ks_port (fun _ => ks_port req)) ≫= fun _ => mret 0) c w =
    c (upd_w_devs (insert nd (set_ks (port_part req) d)) w).
Proof.
  intros P ks Hv. destruct (Z.eqb_spec (ks_port req) (ks_port ks)) as [E|Hne].
  - erewrite and_then_run by reflexivity. cbn [Z.eqb]. f_equal.
    rewrite (set_ks_id _ px pp); [|by destruct P..|].
    + destruct w. unfold upd_w_devs. simpl. by rewrite insert_id by (by destruct P).
    + unfold port_part. fold ks. rewrite E. by destruct ks.
  - destruct Hv as [|Hv]; [done|]. rewrite Hv. cbn [Z.eqb negb]. erewrite and_then_run.
    2:{ rewrite bind_run, (mod_ks_run _ _ _ _ _ _ P). reflexivity. } done.
Qed.

Lemma settings_step w nd d px pp req g f (c : M world Z) :
  port_at w nd d px pp -> (forall k, g (port_part req k) = f k) ->
  and_then (mod_ks nd g ≫= fun _ => mret 0) c
      (upd_w_devs (insert nd (set_ks (port_part req) d)) w) =
    c (upd_w_devs (insert nd (set_ks f d)) w).
Proof.
  intros P Hg. erewrite and_then_run.
  2:{ rewrite bind_run, (mod_ks_run _ _ _ _ _ _ (port_at_set_ks _ _ _ _ _ _ P)). reflexivity. }
  cbn [Z.eqb]. f_equal. rewrite set_ks_set_ks. unfold upd_w_devs. simpl.
  rewrite insert_insert_eq. do 2 f_equal.
  eapply set_ks_ext; [by destruct P|by destruct P|]. apply Hg.
Qed.

(** The run of a request: refused for its medium, refused later, or granted. *)
Lemma set_link_ksettings_run w nd d px pp req :
  port_at w nd d px pp -> let ks := pp_ksettings pp in
  (~ port_ok ks (ks_port req) ->
   xeth_port_set_link_ksettings nd req w = Some (- EINVAL, w)) /\
  (port_ok ks (ks_port req) -> ~ second_ok ks req ->
   xeth_port_set_link_ksettings nd req w =
     Some (- EINVAL, upd_w_devs (insert nd (set_ks (port_part req) d)) w)) /\
  (port_ok ks (ks_port req) -> second_ok ks req ->
   xeth_port_set_link_ksettings nd req w =
     report_ksettings nd (upd_w_devs (insert nd (set_ks (granted req) d)) w)).
Proof.
  intros P ks. unfold xeth_port_set_link_ksettings.
  rewrite bind_run, (port_priv_run _ _ _ _ _ P). fold ks.
  destruct (port_ok_dec ks (ks_port req)) as [[Hp Hv]|(Hp & Hne & Hv)].
  2:{ split; [|tauto]. intros _. erewrite and_then_run.
      2:{ rewrite (proj2 (Z.eqb_neq _ _) Hne), Hv. reflexivity. } done. }
  split; [done|]. rewrite (medium_step _ _ _ _ _ _ _ P Hv).
  destruct (validate_duplex_spec (ks_duplex req)) as [Hdx Hdd].
  destruct (validate_speed_spec (ks_speed req)) as [Hsx Hsd].
  unfold second_ok, granted.
  destruct (Z.eqb_spec (ks_autoneg req) AUTONEG_DISABLE) as [Ha|Ha].
  - destruct Hsd as [Es|Es]; rewrite Es; cbn [Z.eqb negb Z.opp EINVAL].
    + destruct Hdd as [Edu|Edu]; rewrite Edu; cbn [Z.eqb negb Z.opp EINVAL].
      * split; [intros _ []; tauto|]. intros _ _. eapply settings_step; [exact P|].
        intros. by rewrite Ha.
      * split; [by erewrite and_then_run by reflexivity|]. intros _ [Hx _].
        apply Hdx in Hx. by rewrite Edu in Hx.
    + split; [by erewrite and_then_run by reflexivity|]. intros _ (_ & Hx & _).
      specialize (Hx Ha). apply Hsx in Hx. by rewrite Es in Hx.
  - destruct (bitmap_andnot _ _) eqn:B.
    + split; [by erewrite and_then_run by reflexivity|]. intros _ (_ & _ & Hx).
      specialize (Hx Ha). apply bitmap_andnot_spec in Hx. congruence.
    + apply bitmap_andnot_spec in B.
      destruct Hdd as [Edu|Edu]; rewrite Edu; cbn [Z.eqb negb Z.opp EINVAL].
      * split; [intros _ []; tauto|]. intros _ _. by eapply settings_step.
      * split; [by erewrite and_then_run by reflexivity|]. intros _ [Hx _].
        apply Hdx in Hx. by rewrite Edu in Hx.
Qed.

(** C31: A request for link settings is granted exactly when the medium is the
    present one or supported, the duplex and, without autonegotiation, the speed
    are known, and, with autonegotiation, only supported modes are advertised.
    The port then has the settings of the request (speed 0 with autonegotiation),
    advertises only modes it supports if it did before, and both messages go to
    the daemon.  A request that is refused sends nothing, but the medium is
    changed if the refusal came after the check of the medium. *)
Theorem link_settings_granted w nd d px pp req :
  port_at w nd d px pp -> sb_ok w -> (2 <= w_kmem w)%nat -> let ks := pp_ksettings pp in
  (request_ok ks req -> exists w', xeth_port_set_link_ksettings nd req w = Some (0, w') /\
     w_devs w' = <[nd := set_ks (granted req) d]> (w_devs w) /\
     queued w' = queued w ++ (if connected w then ks_msgs (px_xid px) (granted req ks) else []) /\
     (modes_within (ks_advertising ks) (ks_supported ks) ->
      modes_within (ks_advertising (granted req ks)) (ks_supported (granted req ks)))) /\
  (~ request_ok ks req -> exists f, (f = id \/ (f = port_part req /\ port_ok ks (ks_port req))) /\
     xeth_port_set_link_ksettings nd req w =
       Some (- EINVAL, upd_w_devs (insert nd (set_ks f d)) w)).
Proof.
  intros P Hw Hm ks. destruct (set_link_ksettings_run w nd d px pp req P) as (R1 & R2 & R3).
  fold ks in R1, R2, R3. split.
  - intros [Hp H2]%request_ok_split.
    destruct (report_run _ _ _ _ _ (port_at_set_ks _ _ _ _ _ (granted req) P))
      as (w' & E & M1); [by apply sb_ok_devs|done|].
    exists w'. split; [by rewrite R3|]. pose proof (emits_frame _ _ _ M1) as F.
    split; [by rewrite (sb_frame_devs _ _ F)|]. split; [exact (emits_queued _ _ _ M1)|].
    intros Hin. destruct H2 as (_ & _ & Hmodes). unfold granted.
    destruct (Z.eqb_spec (ks_autoneg req) AUTONEG_DISABLE) as [|Ha]; [done|]. simpl.
    intros i Hi Hb. apply Hmodes; [done..|]. rewrite bitmap_copy_bit in Hb.
    by apply andb_true_iff in Hb as [_ Hb].
  - rewrite request_ok_split. intros Hn.
    destruct (port_ok_dec ks (ks_port req)) as [[Hp _]|[Hp _]].
    + exists (port_part req). split; [auto|]. apply R2; tauto.
    + exists id. split; [auto|]. rewrite R1 by done. do 2 f_equal.
      rewrite (set_ks_id _ px pp) by (done || by destruct P).
      destruct w. unfold upd_w_devs. simpl. by rewrite insert_id by (by destruct P).
Qed.

(** *** Forward error correction *)

(** The modes a port must support for [fec]. *)
Definition fec_needs (fec : Z) : list Z :=
  if fec =? ETHTOOL_FEC_AUTO then [LM_FEC_RS; LM_FEC_BASER] else
  if fec =? ETHTOOL_FEC_OFF then [LM_FEC_NONE] else
  if fec =? ETHTOOL_FEC_RS then [LM_FEC_RS] else [LM_FEC_BASER].
Definition fec_supported (ks : ksettings) (fec : Z) : bool :=
  forallb (xeth_port_ks_supports ks) (fec_needs fec).
Definition fecs : list Z := [ETHTOOL_FEC_AUTO; ETHTOOL_FEC_OFF; ETHTOOL_FEC_RS; ETHTOOL_FEC_BASER].

(** The advertised modes with [fec]: exactly those it needs among the three. *)
Definition fec_modes (fec a i : Z) : bool :=
  if existsb (Z.eqb i) [LM_FEC_NONE; LM_FEC_RS; LM_FEC_BASER]
  then existsb (Z.eqb i) (fec_needs fec) else Z.testbit a i.

Lemma advertise_run w nd d px pp f :
  port_at w nd d px pp -> sb_ok w -> (2 <= w_kmem w)%nat ->
  let ks' := upd_ks_advertising f (pp_ksettings pp) in
  exists w', (mod_ks nd (upd_ks_advertising f) ≫= fun _ => report_ksettings nd) w = Some (0, w') /\
    w_devs w' = <[nd := set_ks (fun _ => ks') d]> (w_devs w) /\
    queued w' = queued w ++ (if connected w then ks_msgs (px_xid px) ks' else []) /\
    exists px' pp', port_at w' nd (set_ks (fun _ => ks') d) px' pp' /\ pp_ksettings pp' = ks'.
Proof.
  intros P Hw Hm ks'. pose proof (port_at_set_ks _ _ _ _ _ (upd_ks_advertising f) P) as P1.
  destruct (report_run _ _ _ _ _ P1) as (w' & E & M1); [by apply sb_ok_devs|done|].
  pose proof (emits_frame _ _ _ M1) as F.
  assert (set_ks (upd_ks_advertising f) d = set_ks (fun _ => ks') d) as Es.
  { eapply set_ks_ext; [by destruct P|by destruct P|done]. }
  exists w'. rewrite bind_run, (mod_ks_run _ _ _ _ _ _ P). split; [done|].
  split; [rewrite (sb_frame_devs _ _ F); simpl; by rewrite Es|].
  split; [exact (emits_queued _ _ _ M1)|]. rewrite <- Es.
  exists (upd_px_priv (fun _ => PrivPort (upd_pp_ksettings (upd_ks_advertising f) pp)) px),
    (upd_pp_ksettings (upd_ks_advertising f) pp).
  split; [|done]. destruct P1. split; [|done..]. by rewrite (sb_frame_devs _ _ F).
Qed.

Lemma get_fecparam_run w nd d px pp fec :
  port_at w nd d px pp -> fec ∈ fecs -> let ks := pp_ksettings pp in
  fec_supported ks fec = true ->
  (forall i, Z.testbit (ks_advertising ks) i = fec_modes fec (ks_advertising ks) i) ->
  exists all, xeth_port_get_fecparam nd w =
    Some (if fec =? ETHTOOL_FEC_BASER then (ETHTOOL_FEC_BASER, 0) else (all, fec), w).
Proof.
  intros P Hf ks Hs Ha. unfold xeth_port_get_fecparam.
  rewrite bind_run, (port_priv_run _ _ _ _ _ P). fold ks. unfold xeth_port_ks_advertising.
  assert (forall i, existsb (Z.eqb i) [LM_FEC_NONE; LM_FEC_RS; LM_FEC_BASER] = true ->
    Z.testbit (ks_advertising ks) i = existsb (Z.eqb i) (fec_needs fec)) as Hb.
  { intros i Hi. rewrite Ha. unfold fec_modes. by rewrite Hi. }
  rewrite !Hb by reflexivity. clear Ha Hb. unfold fec_supported in Hs.
  revert Hs. generalize (xeth_port_ks_supports ks). intros g Hs.
  apply list_elem_of_In in Hf. destruct Hf as [<-|[<-|[<-|[<-|[]]]]]; simpl in Hs;
    destruct (g LM_FEC_NONE), (g LM_FEC_RS), (g LM_FEC_BASER); try done;
    solve [exists 0; vm_compute; reflexivity | eexists; vm_compute; reflexivity].
Qed.

Lemma fec_modes_of fec a :
  fec ∈ fecs ->
  let f := if fec =? ETHTOOL_FEC_AUTO
      then fun a => Z.setbit (Z.setbit (Z.clearbit a LM_FEC_NONE) LM_FEC_RS) LM_FEC_BASER
    else if fec =? ETHTOOL_FEC_OFF
      then fun a => Z.clearbit (Z.clearbit (Z.setbit a LM_FEC_NONE) LM_FEC_RS) LM_FEC_BASER
    else if fec =? ETHTOOL_FEC_RS
      then fun a => Z.clearbit (Z.setbit (Z.clearbit a LM_FEC_NONE) LM_FEC_RS) LM_FEC_BASER
    else fun a => Z.setbit (Z.clearbit (Z.clearbit a LM_FEC_NONE) LM_FEC_RS) LM_FEC_BASER in
  forall i, Z.testbit (f a) i = fec_modes fec a i.
Proof.
  intros Hf f i. unfold fec_modes. subst f. apply list_elem_of_In in Hf.
  destruct Hf as [<-|[<-|[<-|[<-|[]]]]]; cbn -[Z.testbit Z.setbit Z.clearbit];
    repeat rewrite ?Z.clearbit_eqb, ?Z.setbit_eqb by done;
    unfold LM_FEC_NONE, LM_FEC_RS, LM_FEC_BASER;
    repeat match goal with |- context [i =? ?k] => rewrite (Z.eqb_sym i k) end;
    repeat match goal with |- context [?k =? i] => destruct (Z.eqb_spec k i) end; try lia; simpl;
    by rewrite ?andb_true_r, ?andb_false_r.
Qed.

(** One of the four modes is advertised if it is supported. *)
Lemma set_fecparam_run w nd d px pp fec :
  port_at w nd d px pp -> fec ∈ fecs -> exists f,
  xeth_port_set_fecparam nd fec w =
    (if fec_supported (pp_ksettings pp) fec
     then mod_ks nd (upd_ks_advertising f) ≫= fun _ => report_ksettings nd
     else mret (- EOPNOTSUPP)) w /\
  forall i a, Z.testbit (f a) i = fec_modes fec a i.
Proof.
  intros P Hf. pose proof (fun a => fec_modes_of fec a Hf) as Hm.
  unfold xeth_port_set_fecparam. rewrite bind_run, (port_priv_run _ _ _ _ _ P).
  unfold fec_supported. generalize (xeth_port_ks_supports (pp_ksettings pp)). intros g.
  apply list_elem_of_In in Hf. destruct Hf as [<-|[<-|[<-|[<-|[]]]]];
    cbn -[Z.testbit Z.setbit Z.clearbit fec_modes] in Hm |- *;
    eexists; (split; [|intros i a; apply Hm]);
    destruct (g LM_FEC_NONE), (g LM_FEC_RS), (g LM_FEC_BASER); reflexivity.
Qed.

(** C32: Forward error correction can be set to what the port supports: the port
    then advertises exactly the modes of the choice, the daemon is told, and the
    choice is reported back as active, save that BASE-R is reported as the only
    mode of the port and none as active.  A choice the port does not support is
    refused with -EOPNOTSUPP, any other with -EINVAL, and nothing changes. *)
Theorem fec_set_get w nd d px pp fec :
  port_at w nd d px pp -> sb_ok w -> (2 <= w_kmem w)%nat -> let ks := pp_ksettings pp in
  (fec ∈ fecs -> fec_supported ks fec = true ->
   exists w' ks' all, xeth_port_set_fecparam nd fec w = Some (0, w') /\
     w_devs w' = <[nd := set_ks (fun _ => ks') d]> (w_devs w) /\
     (forall i, Z.testbit (ks_advertising ks') i = fec_modes fec (ks_advertising ks) i) /\
     queued w' = queued w ++ (if connected w then ks_msgs (px_xid px) ks' else []) /\
     xeth_port_get_fecparam nd w' =
       Some (if fec =? ETHTOOL_FEC_BASER then (ETHTOOL_FEC_BASER, 0) else (all, fec), w')) /\
  (fec ∈ fecs -> fec_supported ks fec = false ->
   xeth_port_set_fecparam nd fec w = Some (- EOPNOTSUPP, w)) /\
  (fec ∉ fecs -> xeth_port_set_fecparam nd fec w = Some (- EINVAL, w)).
Proof.
  intros P Hw Hm ks. split; [|split].
  - intros Hf Hs. destruct (set_fecparam_run w nd d px pp fec P Hf) as (f & E & Hbits).
    fold ks in E. rewrite Hs in E.
    destruct (advertise_run w nd d px pp f P Hw Hm) as (w' & E' & D & Q & px' & pp' & P' & Eks).
    fold ks in D, Q, P', Eks.
    destruct (get_fecparam_run w' nd _ px' pp' fec P' Hf) as (all & G).
    { by rewrite Eks. }
    { intros i. rewrite Eks. cbn [ks_advertising upd_ks_advertising].
      rewrite Hbits at 1. unfold fec_modes at 1 2.
      destruct (existsb _ [_; _; _]) eqn:B; [done|]. rewrite Hbits. unfold fec_modes. by rewrite B. }
    exists w', (upd_ks_advertising f ks), all. split; [by rewrite E|]. split; [done|].
    split; [intros i; apply Hbits|]. split; [done|exact G].
  - intros Hf Hs. destruct (set_fecparam_run w nd d px pp fec P Hf) as (f & E & _).
    fold ks in E. by rewrite E, Hs.
  - intros Hf. unfold xeth_port_set_fecparam. rewrite bind_run, (port_priv_run _ _ _ _ _ P).
    assert (forall k, k ∈ fecs -> (fec =? k) = false) as Hk.
    { intros k Hk. apply Z.eqb_neq. by intros ->. }
    by rewrite !Hk by (unfold fecs; apply list_elem_of_In; simpl; auto 6).
Qed.
End requests.

(** ** The names of the statistics *)

(** The line of a buffer, and the name that ethtool shows for it. *)
Fixpoint line (buf : list Z) : list Z :=
  match buf with
  | [] => []
  | c :: buf => if c =? 10 then [] else c :: line buf
  end.
Definition shown (buf : list Z) : list Z := strncpy ETH_GSTRING_LEN (line buf).

(** Whatever the entry held before, the stored name is shown. *)
Lemma store_name_shown name buf :
  strncpy (length name) (store_name name buf) = strncpy (length name) (line buf).
Proof.
  revert buf. induction name as [|x name IH]; intros [|c buf]; try done.
  simpl store_name. simpl line. destruct (Z.eqb_spec c 10); [done|].
  cbn [strncpy length]. destruct (c =? 0); [done|]. by rewrite IH.
Qed.

Lemma store_name_length name buf : length (store_name name buf) = length name.
Proof.
  revert buf. induction name as [|x name IH]; intros [|c buf]; simpl; try done.
  destruct (c =? 10); simpl; [done|]. by rewrite IH.
Qed.

Record names_ok (priv : xeth_mux_priv) : Prop := {
  no_entries : length (mx_stat_names priv) = xeth_mux_max_stats;
  no_width : Forall (fun name => length name = ETH_GSTRING_LEN) (mx_stat_names priv);
  no_named : 0 <= mx_stat_named priv <= Z.of_nat xeth_mux_max_stats;
}.

Definition shown_names (priv : xeth_mux_priv) : list (list Z) :=
  strncpy ETH_GSTRING_LEN <$> take (Z.to_nat (mx_stat_named priv)) (mx_stat_names priv).

(** A line with something on it. *)
Definition is_name (buf : list Z) : bool :=
  match buf with c :: _ => negb (c =? 10) | [] => false end.

Lemma store_stat_name_unfold w buf :
  is_name buf = true ->
  xeth_mux_store_stat_name buf w =
    (if Z.of_nat xeth_mux_max_stats <=? mx_stat_named (w_priv w) then Some (- EINVAL, w) else
     Some (Z.of_nat (length buf), upd_w_priv (fun priv => upd_mx_stat_named (Z.add 1)
       (upd_mx_stat_names (alter (fun name => store_name name buf)
         (Z.to_nat (mx_stat_named (w_priv w)))) priv)) w)).
Proof.
  intros Hb. unfold xeth_mux_store_stat_name. rewrite bind_run. unfold get_mux, gets.
  destruct buf as [|c buf]; [done|]. simpl in Hb. apply negb_true_iff, Z.eqb_neq in Hb.
  rewrite bool_decide_eq_false_2 by (simpl; congruence).
  replace (Z.of_nat (length (c :: buf)) =? 0) with false by (symmetry; apply Z.eqb_neq; simpl; lia).
  cbn [orb]. by destruct (_ <=? _).
Qed.

Lemma store_stat_name_run w buf :
  names_ok (w_priv w) -> is_name buf = true -> mx_stat_named (w_priv w) < Z.of_nat xeth_mux_max_stats ->
  exists w', xeth_mux_store_stat_name buf w = Some (Z.of_nat (length buf), w') /\
    names_ok (w_priv w') /\ w_devs w' = w_devs w /\
    mx_stat_named (w_priv w') = mx_stat_named (w_priv w) + 1 /\
    shown_names (w_priv w') = shown_names (w_priv w) ++ [shown buf].
Proof.
  intros [He Hwd Hn] Hb Hlt. rewrite store_stat_name_unfold by done.
  rewrite (proj2 (Z.leb_gt _ _)) by done. eexists. split; [reflexivity|].
  set (k := Z.to_nat (mx_stat_named (w_priv w))).
  assert (k < length (mx_stat_names (w_priv w)))%nat as Hk by (rewrite He; unfold k; lia).
  apply lookup_lt_is_Some in Hk as [name Hname].
  assert (length name = ETH_GSTRING_LEN) as Hlen by exact (proj1 (Forall_lookup _ _) Hwd _ _ Hname).
  split; [split; simpl|].
  - by rewrite length_alter.
  - apply Forall_alter; [done|]. intros x Ex Hx. by rewrite store_name_length.
  - fold k. lia.
  - split; [done|]. split; [simpl; lia|]. unfold shown_names. simpl. fold k.
    replace (Z.to_nat (1 + mx_stat_named (w_priv w))) with (S k) by (unfold k; lia).
    erewrite take_S_r by (rewrite list_lookup_alter_eq, Hname; reflexivity).
    rewrite take_alter_ge by done. rewrite fmap_app. f_equal.
    change ([strncpy ETH_GSTRING_LEN (store_name name buf)] = [shown buf]).
    unfold shown. by rewrite <- Hlen, store_name_shown.
Qed.

Lemma store_stat_names_run bufs w :
  names_ok (w_priv w) -> Forall (fun b => is_name b = true) bufs ->
  mx_stat_named (w_priv w) + Z.of_nat (length bufs) <= Z.of_nat xeth_mux_max_stats ->
  exists w', for_each bufs (fun b => ignore (xeth_mux_store_stat_name b)) w = Some (tt, w') /\
    names_ok (w_priv w') /\ w_devs w' = w_devs w /\
    mx_stat_named (w_priv w') = mx_stat_named (w_priv w) + Z.of_nat (length bufs) /\
    shown_names (w_priv w') = shown_names (w_priv w) ++ (shown <$> bufs).
Proof.
  revert w. induction bufs as [|b bufs IH]; intros w Ho Hb Hle.
  - exists w. split; [done|]. split; [done|]. split; [done|]. split; [simpl; lia|]. by rewrite app_nil_r.
  - apply Forall_cons in Hb as [Hb Hbs]. simpl length in Hle.
    destruct (store_stat_name_run w b) as (w1 & E1 & O1 & D1 & N1 & S1); [done|done|lia|].
    destruct (IH w1) as (w2 & E2 & O2 & D2 & N2 & S2); [done|done|lia|].
    exists w2. split; [cbn [for_each]; rewrite bind_run; unfold ignore at 1; rewrite bind_run, E1; exact E2|].
    split; [done|]. split; [congruence|]. split; [simpl; lia|].
    rewrite S2, S1, <- app_assoc. done.
Qed.

(** After an empty line and then the lines [bufs], at most 512, are written to
    stat_name, ethtool shows their number and their names, each the line up to
    its newline and at most 32 bytes of it, whatever names the table held before;
    when the table is full a further name is refused and changes nothing. *)
Theorem stat_names_shown w nd px bufs :
  names_ok (w_priv w) -> proxy_at w nd = Some px -> is_Some (px_mux px) ->
  Forall (fun b => is_name b = true) bufs -> (length bufs <= xeth_mux_max_stats)%nat ->
  exists w', (ignore (xeth_mux_store_stat_name [10]) ≫= fun _ =>
      for_each bufs (fun b => ignore (xeth_mux_store_stat_name b))) w = Some (tt, w') /\
    names_ok (w_priv w') /\
    xeth_port_get_sset_count nd ETH_SS_STATS w' = Some (Z.of_nat (length bufs), w') /\
    xeth_port_get_strings nd ETH_SS_STATS w' = Some (shown <$> bufs, w') /\
    (length bufs = xeth_mux_max_stats -> forall b, is_name b = true ->
     xeth_mux_store_stat_name b w' = Some (- EINVAL, w')).
Proof.
  intros [He Hwd Hn] Hpx [mux Hmux] Hb Hlen.
  set (w1 := upd_w_priv (upd_mx_stat_named (fun _ => 0)) w).
  destruct (store_stat_names_run bufs w1) as (w' & E & O & D & N & S);
    [split; simpl; [done|done|lia]|done|simpl; lia|].
  exists w'. split; [rewrite bind_run; exact E|]. split; [done|].
  assert (proxy_at w' nd = Some px) as Hpx' by (unfold proxy_at; by rewrite D).
  simpl in N, S. split; [|split].
  - unfold xeth_port_get_sset_count. rewrite bind_run, (netdev_priv_run _ _ _ Hpx').
    cbn [Z.eqb Pos.eqb ETH_SS_STATS ETH_SS_TEST]. rewrite bind_run, Hmux. cbn [deref mret M_ret].
    unfold xeth_mux_n_stats. rewrite bind_run. unfold get_mux, gets. by rewrite N.
  - unfold xeth_port_get_strings. rewrite bind_run, (netdev_priv_run _ _ _ Hpx').
    rewrite Z.eqb_refl, bind_run, Hmux. cbn [deref mret M_ret].
    unfold xeth_mux_stat_names. rewrite bind_run. unfold get_mux, gets.
    fold (shown_names (w_priv w')). by rewrite S.
  - intros Hfull b Hbn. rewrite store_stat_name_unfold, N, Hfull by done.
    by rewrite (proj2 (Z.leb_le _ _)) by lia.
Qed.

(** ** Witnesses *)

(** Port 2 of the demo machine with the settings of a new port. *)
Definition demo_eth_pp : xeth_port_priv :=
  {| pp_port := 1; pp_subport := -1; pp_ksettings := xeth_port_ksettings demo_ks;
     pp_ext := Some {| pe_qsfp := None; pe_priv_flags := 0; pe_stats := replicate 512 0 |} |}.
Definition demo_eth_proxy : xeth_proxy := demo_proxy XETH_DEV_KIND_PORT 3998 (PrivPort demo_eth_pp).
Definition demo_eth_dev : net_device := demo_dev 2 NdoPort None (Some demo_eth_proxy).
Definition demo_eth : world := upd_w_devs (insert 2 demo_eth_dev) demo_full.

Lemma demo_eth_port : port_at demo_eth 2 demo_eth_dev demo_eth_proxy demo_eth_pp.
Proof. split; [apply lookup_insert_eq|reflexivity|reflexivity|by eexists]. Qed.
Lemma demo_eth_ok : sb_ok demo_eth.
Proof. apply sb_ok_devs. exact demo_full_ok. Qed.
Lemma demo_eth_mem : (2 <= w_kmem demo_eth)%nat.
Proof. vm_compute. lia. Qed.

(** A request for 100G full duplex over copper without autonegotiation. *)
Definition demo_request : ksettings :=
  upd_ks_autoneg (fun _ => AUTONEG_DISABLE) (upd_ks_speed (fun _ => 100000)
    (upd_ks_port (fun _ => PORT_TP) demo_ks)).

Lemma link_settings_granted_witness :
  exists w', xeth_port_set_link_ksettings (C:=demo_const) 2 demo_request demo_eth = Some (0, w') /\
    queued w' = queued demo_eth ++ ks_msgs (C:=demo_const) 3998
      (granted (C:=demo_const) demo_request (pp_ksettings demo_eth_pp)).
Proof.
  destruct (link_settings_granted (C:=demo_const) ltac:(discriminate) demo_eth 2 demo_eth_dev
    demo_eth_proxy demo_eth_pp demo_request) as [T _].
  - exact demo_eth_port.
  - exact demo_eth_ok.
  - exact demo_eth_mem.
  - destruct T as (w' & E & _ & Q & _).
    + split; [|split; [|split]].
      * right. right. exists LM_TP. split; [left|reflexivity].
      * right. left.
      * intros _. do 6 right. left.
      * intros Hne. destruct Hne. reflexivity.
    + exists w'. split; [exact E|]. exact Q.
Defined.

Lemma fec_set_get_witness :
  exists w' all, xeth_port_set_fecparam (C:=demo_const) 2 ETHTOOL_FEC_RS demo_eth = Some (0, w') /\
    xeth_port_get_fecparam 2 w' = Some ((all, ETHTOOL_FEC_RS), w').
Proof.
  destruct (fec_set_get (C:=demo_const) demo_eth 2 demo_eth_dev
    demo_eth_proxy demo_eth_pp ETHTOOL_FEC_RS) as [T _].
  - exact demo_eth_port.
  - exact demo_eth_ok.
  - exact demo_eth_mem.
  - destruct T as (w' & ks' & all & E & _ & _ & _ & G).
    + apply (bool_decide_unpack _). vm_compute. exact I.
    + vm_compute. reflexivity.
    + exists w', all. split; [exact E|]. exact G.
Defined.

(** Two names, "rx" and "tx", each with a newline. *)
Lemma stat_names_shown_witness :
  exists w', xeth_port_get_strings 2 ETH_SS_STATS w' =
    Some ([shown [114; 120; 10]; shown [116; 120; 10]], w').
Proof.
  destruct (stat_names_shown demo_eth 2 demo_eth_proxy [[114; 120; 10]; [116; 120; 10]])
    as (w' & _ & _ & _ & G & _).
  - split.
    + vm_compute. reflexivity.
    + apply (bool_decide_unpack _). vm_compute. exact I.
    + vm_compute. split; discriminate.
  - reflexivity.
  - eexists. reflexivity.
  - repeat constructor.
  - unfold xeth_mux_max_stats. simpl. lia.
  - exists w'. exact G.
Defined.
