(* ===== verification/Qsfp.v ===== *)
(** * QSFP modules (dkms/xeth_qsfp.c)

    Finding the module of a port on its I2C bus and reading the module's memory
    for ethtool. *)

From stdpp Require Import base numbers list.
From Stdlib Require Import ZArith Lia.
From S2P Require Import Prelude.

Local Open Scope Z_scope.

(** ** Constants *)

Definition I2C_CLIENT_END : Z := 65534.
Definition ETH_MODULE_SFF_8472 : Z := 2.
Definition ETH_MODULE_SFF_8636 : Z := 3.
Definition ETH_MODULE_SFF_8436 : Z := 4.
Definition ETH_MODULE_SFF_8472_LEN : Z := 512.
Definition ETH_MODULE_SFF_8636_LEN : Z := 256.
Definition ETH_MODULE_SFF_8436_LEN : Z := 256.
Definition ETHTOOL_GMODULEEEPROM : Z := 67.

(** The identifiers of the modules the driver knows. *)
Definition ID_SFP : Z := 3.
Definition ID_QSFP : Z := 12.
Definition ID_QSFPp : Z := 13.
Definition ID_QSFP28 : Z := 17.

(** ** The I2C subsystem of the kernel *)

Class KernelI2c := {
  (** i2c_get_adapter: NULL where there is no such bus *)
  i2c_get_adapter : Z -> option Z;
  (** i2c_check_functionality(adapter, I2C_FUNC_SMBUS_READ_BYTE_DATA) *)
  i2c_reads_bytes : Z -> bool;
  (** i2c_smbus_xfer, a read of byte 0 at an address: an error or the byte *)
  i2c_smbus_xfer : Z -> Z -> Z + Z;
  (** i2c_new_client_device: None for an error pointer *)
  i2c_new_client_device : Z -> Z -> option Z;
  (** adapter->algo->master_xfer is not NULL *)
  i2c_master_xfer : Z -> bool;
  (** i2c_transfer, a write of one byte and a read of [n]: the number of messages
      or an error, and the bytes read *)
  i2c_transfer : Z -> Z -> nat -> Z * list Z;
  (** i2c_smbus_read_byte_data(client, command), whose command is a u8 *)
  i2c_smbus_read_byte_data : Z -> Z -> Z;
}.

Section qsfp.
Context {I : KernelI2c}.

(** ** Operations *)

Definition known_id (id : Z) : bool :=
  (id =? ID_SFP) || (id =? ID_QSFP) || (id =? ID_QSFPp) || (id =? ID_QSFP28).

Definition xeth_qsfp_peek (adapter addr : Z) : Z :=
  if negb (i2c_reads_bytes adapter) then - ENXIO else
  match i2c_smbus_xfer adapter addr with
  | inl _ => - ENXIO
  | inr byte => if known_id byte then byte else - ENXIO
  end.

(** The bytes read before the first error; their number is what is returned. *)
Fixpoint xeth_qsfp_bload (qsfp : Z) (o : Z) (n : nat) : list Z :=
  match n with
  | O => []
  | S n =>
      let r := i2c_smbus_read_byte_data qsfp (u8 o) in
      if r <? 0 then [] else u8 r :: xeth_qsfp_bload qsfp (o + 1) n
  end.

(** What is returned and the bytes read; the length of a message is a u16. *)
Definition xeth_qsfp_xload (qsfp : Z) (o : Z) (n : nat) : Z * list Z :=
  let '(err, bytes) := i2c_transfer qsfp (u8 o) (Z.to_nat (u16 (Z.of_nat n))) in
  (if err <? 0 then err else if err =? 2 then Z.of_nat n else 0, bytes).

Definition xeth_qsfp_load (qsfp : Z) (o : Z) (n : nat) : Z * list Z :=
  if i2c_master_xfer qsfp then xeth_qsfp_xload qsfp o n
  else let bytes := xeth_qsfp_bload qsfp o n in (Z.of_nat (length bytes), bytes).

(** [emi->type] and [emi->eeprom_len], or an error; [garbage] is what the stack
    holds in the two bytes before the read. *)
Definition xeth_qsfp_get_module_info (qsfp : Z) (garbage : Z * Z) : Z + (Z * Z) :=
  let '(err, bytes) := xeth_qsfp_load qsfp 0 2 in
  if err <? 0 then inl err else
  let b0 := default (fst garbage) (bytes !! 0%nat) in
  let b1 := default (snd garbage) (bytes !! 1%nat) in
  if b0 =? ID_SFP then inr (ETH_MODULE_SFF_8472, ETH_MODULE_SFF_8472_LEN) else
  if b0 =? ID_QSFP then inr (ETH_MODULE_SFF_8436, ETH_MODULE_SFF_8436_LEN) else
  if b0 =? ID_QSFPp then
    if 3 <=? b1 then inr (ETH_MODULE_SFF_8636, ETH_MODULE_SFF_8636_LEN)
    else inr (ETH_MODULE_SFF_8436, ETH_MODULE_SFF_8436_LEN) else
  if b0 =? ID_QSFP28 then inr (ETH_MODULE_SFF_8636, ETH_MODULE_SFF_8636_LEN) else
  inl (- EINVAL).

(** The result and the bytes put in [data]. *)
Definition xeth_qsfp_get_module_eeprom (qsfp cmd offset : Z) (len : nat) : Z * list Z :=
  if negb (cmd =? ETHTOOL_GMODULEEEPROM) then (- EOPNOTSUPP, []) else
  if (len =? 0)%nat then (- EINVAL, []) else
  let '(err, bytes) := xeth_qsfp_load qsfp offset len in
  (if err <? 0 then err else 0, bytes).

(** The loop over the addresses, which end with I2C_CLIENT_END. *)
Fixpoint probe_addrs (adapter : Z) (addrs : list Z) : option Z :=
  match addrs with
  | [] => None
  | addr :: addrs =>
      if addr =? I2C_CLIENT_END then None else
      match (if 0 <? xeth_qsfp_peek adapter addr then i2c_new_client_device adapter addr else None) with
      | Some cl => Some cl
      | None => probe_addrs adapter addrs
      end
  end.

(** None is a NULL dereference: the adapter is used unchecked unless there is no
    address to look at.  The other result may be NULL, too. *)
Definition xeth_qsfp_client (nr : Z) (addrs : list Z) : option (option Z) :=
  match i2c_get_adapter nr with
  | Some adapter => Some (probe_addrs adapter addrs)
  | None => if bool_decide (head addrs = Some I2C_CLIENT_END) then Some None else None
  end.

(** ** A module with 256 bytes of memory *)

(** Both ways of reading give the bytes [mem] of the module from an 8-bit offset
    on; a sequential read rolls over from the last byte to the first, as SFF-8472
    and SFF-8636 have it. *)
Record module_at (qsfp : Z) (mem : Z -> Z) : Prop := {
  ma_bytes i : 0 <= mem i < 256;
  ma_read o : 0 <= o < 256 -> i2c_smbus_read_byte_data qsfp o = mem o;
  ma_transfer o n : 0 <= o < 256 ->
    i2c_transfer qsfp o n = (2, (fun i => mem (i `mod` 256)) <$> seqZ o (Z.of_nat n));
}.

Lemma u8_range x : 0 <= u8 x < 256.
Proof. unfold u8. apply Z.mod_pos_bound. lia. Qed.

(** A byte of the module depends on its offset modulo 256 only. *)
Lemma seq_mod (mem : Z -> Z) o o' n :
  o `mod` 256 = o' `mod` 256 ->
  (fun i => mem (i `mod` 256)) <$> seqZ o n = (fun i => mem (i `mod` 256)) <$> seqZ o' n.
Proof.
  intros Ho. unfold seqZ. rewrite <- !list_fmap_compose. apply list_fmap_ext. intros _ i _. simpl.
  f_equal. rewrite Z.add_mod, Ho, <- Z.add_mod by lia. done.
Qed.

Lemma bload_module qsfp mem o n :
  module_at qsfp mem ->
  xeth_qsfp_bload qsfp o n = (fun i => mem (i `mod` 256)) <$> seqZ o (Z.of_nat n).
Proof.
  intros M. revert o. induction n as [|n IH]; intros o; [done|]. cbn [xeth_qsfp_bload].
  pose proof (u8_range o) as Ho. pose proof (ma_bytes _ _ M (u8 o)) as Hb.
  rewrite (ma_read _ _ M), (proj2 (Z.ltb_ge _ _)) by lia.
  rewrite (seqZ_cons o) by lia. rewrite fmap_cons, u8_small, IH by done.
  do 3 f_equal. lia.
Qed.

Lemma load_module qsfp mem o n :
  module_at qsfp mem -> Z.of_nat n < 65536 ->
  xeth_qsfp_load qsfp o n = (Z.of_nat n, (fun i => mem (i `mod` 256)) <$> seqZ o (Z.of_nat n)).
Proof.
  intros M Hn. unfold xeth_qsfp_load, xeth_qsfp_xload. destruct (i2c_master_xfer qsfp).
  - rewrite u16_small, Nat2Z.id, (ma_transfer _ _ M) by (apply u8_range || lia). simpl. f_equal.
    apply seq_mod. unfold u8. by rewrite Z.mod_mod.
  - rewrite (bload_module _ _ _ _ M). by rewrite length_fmap, length_seqZ, Nat2Z.id.
Qed.

Lemma module_info qsfp mem garbage :
  module_at qsfp mem ->
  xeth_qsfp_get_module_info qsfp garbage =
    if mem 0 =? ID_SFP then inr (ETH_MODULE_SFF_8472, 512)
    else if (mem 0 =? ID_QSFP) || ((mem 0 =? ID_QSFPp) && (mem 1 <? 3))
    then inr (ETH_MODULE_SFF_8436, 256)
    else if (mem 0 =? ID_QSFP28) || (mem 0 =? ID_QSFPp) then inr (ETH_MODULE_SFF_8636, 256)
    else inl (- EINVAL).
Proof.
  intros M. unfold xeth_qsfp_get_module_info. rewrite (load_module _ _ _ _ M) by done.
  change (Z.of_nat 2 <? 0) with false. cbv iota. simpl.
  change ((Z.of_nat 0 + 0) `mod` 256) with 0. change ((Z.of_nat 1 + 0) `mod` 256) with 1.
  destruct (Z.eqb_spec (mem 0) ID_SFP); [done|]. destruct (Z.eqb_spec (mem 0) ID_QSFP); [done|].
  destruct (Z.eqb_spec (mem 0) ID_QSFPp) as [->|]; [|simpl; by destruct (mem 0 =? ID_QSFP28)].
  rewrite Z.leb_antisym. by destruct (mem 1 <? 3).
Qed.

(** The address where the search ends: the first with a module of a known
    identifier of which the kernel makes a client. *)
Lemma probe_addrs_spec adapter addrs cl :
  probe_addrs adapter addrs = Some cl <->
  exists before addr after, addrs = before ++ addr :: after /\ addr <> I2C_CLIENT_END /\
    0 < xeth_qsfp_peek adapter addr /\ i2c_new_client_device adapter addr = Some cl /\
    Forall (fun a => a <> I2C_CLIENT_END /\
      (0 < xeth_qsfp_peek adapter a -> i2c_new_client_device adapter a = None)) before.
Proof.
  induction addrs as [|a addrs IH]; simpl.
  { split; [done|]. intros ([|? ?] & ? & ? & ? & _); simplify_eq/=. }
  destruct (Z.eqb_spec a I2C_CLIENT_END) as [->|Ha].
  { split; [done|]. intros (before & addr & after & E & Hne & _ & _ & F).
    destruct before; simplify_eq/=. by apply Forall_cons in F as [[? _] _]. }
  destruct (if 0 <? xeth_qsfp_peek adapter a then i2c_new_client_device adapter a else None)
    as [c|] eqn:E.
  - destruct (Z.ltb_spec 0 (xeth_qsfp_peek adapter a)) as [Hp|]; [|done]. split.
    + intros [= <-]. exists [], a, addrs. by repeat split.
    + intros (before & addr & after & El & Hne & Hp' & Hc & F).
      destruct before as [|b before]; simplify_eq/=; [congruence|].
      apply Forall_cons in F as [[_ F] _]. rewrite F in E by done. done.
  - assert (0 < xeth_qsfp_peek adapter a -> i2c_new_client_device adapter a = None) as Hn.
    { intros Hp. by rewrite (proj2 (Z.ltb_lt _ _) Hp) in E. }
    rewrite IH. split.
    + intros (before & addr & after & -> & F). exists (a :: before), addr, after.
      destruct F as (? & ? & ? & F). repeat split; try done. by constructor.
    + intros (before & addr & after & El & Hne & Hp' & Hc & F).
      destruct before as [|b before]; simplify_eq/=; [rewrite Hn in Hc by done; done|].
      apply Forall_cons in F as [_ F]. by exists before, addr, after.
Qed.

(** C34: A module whose first byte says SFP (3) is reported as SFF-8472 with 512
    bytes; QSFP (12), and QSFP+ (13) of a revision (its second byte) before 3, as
    SFF-8436 with 256 bytes; QSFP+ from revision 3 on and QSFP28 (17) as SFF-8636
    with 256 bytes; any other is refused with EINVAL.  What ethtool reads of it, by
    one transfer or byte by byte, from any offset and of any length below 64 KiB,
    is the memory of the module at the offsets modulo 256; in particular the 512
    bytes announced for an SFP are its 256 bytes twice.  Another command and an
    empty read are refused without reading. *)
Theorem module_memory qsfp mem garbage cmd offset len :
  module_at qsfp mem -> Z.of_nat len < 65536 ->
  (mem 0 = 3 -> xeth_qsfp_get_module_info qsfp garbage = inr (ETH_MODULE_SFF_8472, 512)) /\
  (mem 0 = 12 \/ mem 0 = 13 /\ mem 1 < 3 ->
   xeth_qsfp_get_module_info qsfp garbage = inr (ETH_MODULE_SFF_8436, 256)) /\
  (mem 0 = 13 /\ 3 <= mem 1 \/ mem 0 = 17 ->
   xeth_qsfp_get_module_info qsfp garbage = inr (ETH_MODULE_SFF_8636, 256)) /\
  (mem 0 ∉ [3; 12; 13; 17] -> xeth_qsfp_get_module_info qsfp garbage = inl (- EINVAL)) /\
  xeth_qsfp_get_module_eeprom qsfp cmd offset len =
    (if negb (cmd =? ETHTOOL_GMODULEEEPROM) then (- EOPNOTSUPP, [])
     else if (len =? 0)%nat then (- EINVAL, [])
     else (0, (fun i => mem (i `mod` 256)) <$> seqZ offset (Z.of_nat len))) /\
  xeth_qsfp_get_module_eeprom qsfp ETHTOOL_GMODULEEEPROM 0 512 =
    (0, (mem <$> seqZ 0 256) ++ (mem <$> seqZ 0 256)).
Proof.
  intros M Hl. rewrite (module_info _ _ _ M).
  unfold ID_SFP, ID_QSFP, ID_QSFPp, ID_QSFP28.
  split; [by intros ->|].
  split; [intros [-> | [-> Hr]]; [done|by rewrite (proj2 (Z.ltb_lt _ _) Hr)]|].
  split; [intros [[-> Hr] | ->]; [by rewrite (proj2 (Z.ltb_ge _ _) Hr)|done]|].
  split.
  { rewrite !not_elem_of_cons. intros (H3 & H12 & H13 & H17 & _).
    by rewrite !(proj2 (Z.eqb_neq _ _)) by done. }
  unfold xeth_qsfp_get_module_eeprom. rewrite Z.eqb_refl.
  rewrite !(load_module _ _ _ _ M) by (done || lia).
  rewrite (proj2 (Z.ltb_ge (Z.of_nat len) 0)) by lia. split; [done|]. reflexivity.
Qed.

(** C35: The search of a bus for a module ends at the first address, of those before
    the end mark, where a module of a known identifier answers and the kernel
    makes a client of it, and finds none only if there is no such address; a bus
    that does not exist is a NULL dereference. *)
Theorem client_is_first nr addrs :
  (forall adapter, i2c_get_adapter nr = Some adapter ->
   (forall cl, xeth_qsfp_client nr addrs = Some (Some cl) <->
    exists before addr after id, addrs = before ++ addr :: after /\
      i2c_smbus_xfer adapter addr = inr id /\ known_id id = true /\
      addr <> I2C_CLIENT_END /\ i2c_reads_bytes adapter = true /\
      i2c_new_client_device adapter addr = Some cl /\
      Forall (fun a => a <> I2C_CLIENT_END /\
        (0 < xeth_qsfp_peek adapter a -> i2c_new_client_device adapter a = None)) before)) /\
  (i2c_get_adapter nr = None -> head addrs <> Some I2C_CLIENT_END -> xeth_qsfp_client nr addrs = None).
Proof.
  split.
  - intros adapter Ha cl. unfold xeth_qsfp_client. rewrite Ha.
    assert (forall addr, 0 < xeth_qsfp_peek adapter addr <-> exists id,
      i2c_smbus_xfer adapter addr = inr id /\ known_id id = true /\ i2c_reads_bytes adapter = true) as Hp.
    { intros addr. unfold xeth_qsfp_peek, ENXIO. destruct (i2c_reads_bytes adapter); simpl.
      2:{ split; [lia|]. by intros (? & _ & _ & ?). }
      destruct (i2c_smbus_xfer adapter addr) as [e|byte]; [split; [lia|by intros (? & ? & _)]|].
      destruct (known_id byte) eqn:Hk.
      - split; [by eauto|]. intros _. unfold known_id, ID_SFP, ID_QSFP, ID_QSFPp, ID_QSFP28 in Hk. lia.
      - split; [lia|]. intros (id & [= <-] & Hk' & _). congruence. }
    transitivity (probe_addrs adapter addrs = Some cl); [split; [by intros [= ?]|by intros ->]|].
    rewrite probe_addrs_spec. split.
    + intros (before & addr & after & -> & Hne & (id & Hx & Hk & Hr)%Hp & Hc & F).
      by exists before, addr, after, id.
    + intros (before & addr & after & id & -> & Hx & Hk & Hne & Hr & Hc & F).
      exists before, addr, after. repeat split; try done. apply Hp. by eauto.
  - intros Ha Hh. unfold xeth_qsfp_client. rewrite Ha. by rewrite bool_decide_eq_false_2.
Qed.
End qsfp.

(** ** Witnesses *)

(** A bus with a QSFP28 module at address 81 and something else at 80. *)
Definition demo_mem (i : Z) : Z := if i =? 0 then ID_QSFP28 else u8 i.
Definition demo_i2c : KernelI2c := {|
  i2c_get_adapter nr := if nr =? 1 then Some 1 else None;
  i2c_reads_bytes _ := true;
  i2c_smbus_xfer _ addr := if addr =? 81 then inr (demo_mem 0) else if addr =? 80 then inr 1 else inl (- ENXIO);
  i2c_new_client_device _ addr := Some addr;
  i2c_master_xfer _ := false;
  i2c_transfer _ o n := (2, (fun i => demo_mem (i `mod` 256)) <$> seqZ o (Z.of_nat n));
  i2c_smbus_read_byte_data _ o := demo_mem o;
|}.

Lemma demo_module : module_at (I:=demo_i2c) 81 demo_mem.
Proof.
  split; [|done|done]. intros i. unfold demo_mem. destruct (i =? 0); [done|]. apply u8_range.
Qed.

Lemma module_memory_witness :
  xeth_qsfp_get_module_info (I:=demo_i2c) 81 (0, 0) = inr (3, 256) /\
  xeth_qsfp_get_module_eeprom (I:=demo_i2c) 81 ETHTOOL_GMODULEEEPROM 254 4 = (0, [254; 255; 17; 1]).
Proof.
  destruct (module_memory (I:=demo_i2c) 81 demo_mem (0, 0) ETHTOOL_GMODULEEEPROM 254 4)
    as (_ & _ & T & _ & E & _).
  - exact demo_module.
  - vm_compute. reflexivity.
  - split; [apply T; right; reflexivity|]. rewrite E. reflexivity.
Defined.

Lemma client_is_first_witness :
  xeth_qsfp_client (I:=demo_i2c) 1 [80; 81; I2C_CLIENT_END] = Some (Some 81).
Proof.
  apply (proj1 (client_is_first (I:=demo_i2c) 1 [80; 81; I2C_CLIENT_END]) 1 eq_refl).
  exists [80], 81, [I2C_CLIENT_END], ID_QSFP28. split; [reflexivity|]. split; [reflexivity|].
  split; [reflexivity|]. split; [discriminate|]. split; [reflexivity|]. split; [reflexivity|].
  constructor; [|constructor]. split; [discriminate|]. intros Hp. vm_compute in Hp. discriminate Hp.
Defined.
