(* ===== verification/Text.v ===== *)
(** * Printed numbers and names

    Strings are lists of character codes.  [dec] is what the kernel's scnprintf
    prints for %u; two numbers print the same only if they are the same. *)

From stdpp Require Import base numbers list.
From Stdlib Require Import ZArith Lia.
From S2P Require Import Prelude.

Local Open Scope Z_scope.

(** The digits of a number; [fuel] bounds the number of divisions by 10. *)
Fixpoint dec_digits (fuel : nat) (x : Z) : list Z :=
  if x <? 10 then [48 + x] else
  match fuel with
  | O => []
  | S fuel => dec_digits fuel (x / 10) ++ [48 + x `mod` 10]
  end.

(** %u of a 32-bit number, which has ten digits at most. *)
Definition dec (x : Z) : list Z := dec_digits 9 (u32 x).

(** scnprintf into [size] bytes, one of them for the NUL. *)
Definition scnprintf (size : nat) (s : list Z) : list Z := take (size - 1) s.

(** ** Reading a number back *)

Definition dec_val (s : list Z) : Z := foldl (fun acc c => acc * 10 + (c - 48)) 0 s.

Lemma dec_val_snoc s c : dec_val (s ++ [c]) = dec_val s * 10 + (c - 48).
Proof. unfold dec_val. by rewrite foldl_app. Qed.

Definition is_digit (c : Z) : Prop := 48 <= c < 58.

(** Enough fuel prints the number: [n] digits for a number below 10 to the [n]. *)
Lemma dec_digits_spec fuel x :
  0 <= x < 10 ^ (Z.of_nat fuel + 1) ->
  dec_val (dec_digits fuel x) = x /\ Forall is_digit (dec_digits fuel x).
Proof.
  revert x. induction fuel as [|fuel IH]; intros x Hx; cbn [dec_digits].
  - change (10 ^ (Z.of_nat 0 + 1)) with 10 in Hx. rewrite (proj2 (Z.ltb_lt _ _)) by lia.
    unfold dec_val, is_digit. simpl. split; [lia|]. constructor; [lia|constructor].
  - destruct (Z.ltb_spec x 10) as [Hlt|Hge].
    { unfold dec_val, is_digit. simpl. split; [lia|]. constructor; [lia|constructor]. }
    pose proof (Z.div_mod x 10 ltac:(lia)) as E. pose proof (Z.mod_pos_bound x 10 ltac:(lia)) as Hm.
    destruct (IH (x / 10)) as [Hv Hd].
    { split; [apply Z.div_pos; lia|]. apply Z.div_lt_upper_bound; [lia|].
      replace (Z.of_nat (S fuel) + 1) with (1 + (Z.of_nat fuel + 1)) in Hx by lia.
      rewrite Z.pow_add_r in Hx by lia. lia. }
    split; [rewrite dec_val_snoc, Hv; lia|]. apply Forall_app. split; [done|].
    constructor; [unfold is_digit; lia|constructor].
Qed.

Lemma dec_digits_length fuel x n :
  (1 <= n)%nat -> x < 10 ^ Z.of_nat n -> (length (dec_digits fuel x) <= n)%nat.
Proof.
  revert x n. induction fuel as [|fuel IH]; intros x n Hn Hx; cbn [dec_digits];
    destruct (Z.ltb_spec x 10); simpl; try lia.
  rewrite length_app. simpl. destruct n as [|[|n]]; [lia|change (10 ^ Z.of_nat 1) with 10 in Hx; lia|].
  specialize (IH (x / 10) (S n) ltac:(lia)). rewrite Nat2Z.inj_succ, Z.pow_succ_r in Hx by lia.
  assert (x / 10 < 10 ^ Z.of_nat (S n)) by (apply Z.div_lt_upper_bound; lia). lia.
Qed.

Lemma u32_range x : 0 <= u32 x < 2 ^ 32.
Proof. unfold u32. apply Z.mod_pos_bound. lia. Qed.

Lemma dec_spec x : dec_val (dec x) = u32 x /\ Forall is_digit (dec x).
Proof.
  apply dec_digits_spec. pose proof (u32_range x). change (10 ^ (Z.of_nat 9 + 1)) with 10000000000. lia.
Qed.

Lemma dec_inj x y : dec x = dec y -> u32 x = u32 y.
Proof. intros E. by rewrite <- (proj1 (dec_spec x)), <- (proj1 (dec_spec y)), E. Qed.

Lemma dec_length x n : (1 <= n)%nat -> 0 <= x < 10 ^ Z.of_nat n -> x < 2 ^ 32 ->
  (length (dec x) <= n)%nat.
Proof. intros. apply dec_digits_length; [done|]. rewrite u32_small by lia. lia. Qed.

(** A number followed by something that is not a digit can be told from it. *)
Lemma digits_split c s1 s2 t1 t2 :
  ~ is_digit c -> Forall is_digit s1 -> Forall is_digit s2 ->
  s1 ++ c :: t1 = s2 ++ c :: t2 -> s1 = s2 /\ t1 = t2.
Proof.
  intros Hc F1. revert s2. induction F1 as [|x s1 Hx F1 IH]; intros s2 F2 E.
  - destruct F2 as [|y s2 Hy F2]; simplify_eq/=; done.
  - destruct F2 as [|y s2 Hy F2]; simpl in E; injection E as -> E; [done|].
    destruct (IH s2 F2 E) as [-> ->]. done.
Qed.

Lemma digits_no_sep c s1 s2 t :
  ~ is_digit c -> Forall is_digit s1 -> s1 <> s2 ++ c :: t.
Proof.
  intros Hc F ->. apply Forall_app in F as [_ F]. by apply Forall_cons in F as [? _].
Qed.

(** Within the size nothing is cut off. *)
Lemma scnprintf_fits size s : (length s < size)%nat -> scnprintf size s = s.
Proof. intros. unfold scnprintf. apply take_ge. lia. Qed.
