(* ===== verification/Port.v ===== *)
(** * Port devices (dkms/xeth_port.c)

    A port is made by the probe of its platform device, whole or split in
    subports, or by rtnl; it has the QSFP module of its cage, and takes the cage
    out of low power mode while it is up. *)

From stdpp Require Import base numbers list gmap.
From Stdlib Require Import ZArith Lia.
From S2P Require Import Prelude Bytes Monad Uapi State Stats Kernel Demo Registry Sbq.
From S2P Require Import Sbtx Proxy Carrier Nb Sbrx Netdev Lower Xid Create Ethtool Qsfp Text.

Local Open Scope Z_scope.

Definition xeth_port_drvname : list Z := [120; 101; 116; 104; 45; 112; 111; 114; 116].

(** alloc_netdev: the address of a new net_device, NULL without memory. *)
Class KernelAlloc := alloc_netdev : world -> option Z.
Class KernelAllocLaws {A : KernelAlloc} : Prop :=
  alloc_netdev_fresh : forall w nd, alloc_netdev w = Some nd -> w_devs w !! nd = None.

(** dev_get_by_name in init_net. *)
Class KernelNames := dev_by_name : world -> list Z -> option Z.

(** The properties of the platform device of a port. *)
Record port_device := {
  pd_id : Z;  (** negative: none; else the number of the platform device *)
  pd_id_auto : bool;
  pd_index : option Z;
  pd_mac : option (list Z);
  pd_qsfp_bus : option Z;
  pd_mux_name : list Z;  (** the name xeth_mux_ifname gives its parent *)
}.

Section port.
Context {K : KernelDev} {C : KernelConst} {N : KernelNotify} {H : KernelHash}.
Context {A : KernelAlloc} {B : KernelNames} {I : KernelI2c}.

(** ** The lines of the cages (dkms/xeth_mux.c) *)

(** The descriptor of a port: its place in the array, which an int such as -1,
    converted to size_t, is beyond. *)
Definition gpio_at (gpios : option (list Z)) (port : Z) : option nat :=
  gs ← gpios;
  if (0 <=? port) && (port <? Z.of_nat (length gs)) then Some (Z.to_nat port) else None.

Definition xeth_mux_qsfp_absent_gpio (port : Z) : M world (option nat) :=
  priv ← get_mux; mret (gpio_at (mx_absent_gpios priv) port).
Definition xeth_mux_qsfp_intr_gpio (port : Z) : M world (option nat) :=
  priv ← get_mux; mret (gpio_at (mx_intr_gpios priv) port).
Definition xeth_mux_qsfp_lpmode_gpio (port : Z) : M world (option nat) :=
  priv ← get_mux; mret (gpio_at (mx_lpmode_gpios priv) port).
Definition xeth_mux_qsfp_reset_gpio (port : Z) : M world (option nat) :=
  priv ← get_mux; mret (gpio_at (mx_reset_gpios priv) port).
Definition xeth_mux_base_port : M world Z := priv ← get_mux; mret (mx_base_port priv).
Definition xeth_mux_ports : M world Z := priv ← get_mux; mret (mx_n_ports priv).
Definition xeth_mux_qsfp_i2c_addrs : M world (list Z) := priv ← get_mux; mret (mx_qsfp_addrs priv).

(** gpiod_set_value_cansleep of the line of a port, unless it has none. *)
Definition set_lpmode (port value : Z) : M world unit :=
  gpio ← xeth_mux_qsfp_lpmode_gpio port;
  match gpio with
  | Some i => mod_mux (upd_mx_lpmode_gpios (fmap (<[i := value]>)))
  | None => mret tt
  end.

(** ** Device operations *)

Definition xeth_port_of (nd : Z) : M world Z := pp ← port_priv nd; mret (pp_port pp).
Definition xeth_port_subport (nd : Z) : M world Z := pp ← port_priv nd; mret (pp_subport pp).

Definition xeth_port_uninit (nd : Z) : M world unit :=
  pp ← port_priv nd;
  when (pp_subport pp <=? 0) (
    ext ← port_ext pp;
    when (bool_decide (pe_qsfp ext <> None)) (mod_ext nd (upd_pe_qsfp (fun _ => None)))) ≫= fun _ =>
  xeth_proxy_uninit nd.

(** dev_open of the mux, whose ndo_open is xeth_mux_open. *)
Definition dev_open_mux (mux : Z) : M world Z :=
  m ← dev mux;
  if has_flag (nd_flags m) IFF_UP then mret 0 else
  and_then (xeth_mux_open mux) (
    mod_dev mux (upd_nd_flags (fun f => Z.lor f IFF_UP)) ≫= fun _ =>
    call_netdevice_notifiers NETDEV_UP mux ≫= fun _ => mret 0).

Definition xeth_port_open (nd : Z) : M world Z :=
  px ← netdev_priv nd;
  pp ← port_priv nd;
  mux ← deref (px_mux px);
  m ← dev mux;
  when (negb (has_flag (nd_flags m) IFF_UP)) (ignore (dev_open_mux mux)) ≫= fun _ =>
  set_lpmode (pp_port pp) 0 ≫= fun _ =>
  xeth_proxy_open nd.

Definition xeth_port_stop (nd : Z) : M world Z :=
  px ← netdev_priv nd;
  pp ← port_priv nd;
  _ ← deref (px_mux px);
  set_lpmode (pp_port pp) 1 ≫= fun _ =>
  xeth_proxy_stop nd.

(** The numbers of the driver info: private flags, statistics, and the bus info. *)
Definition xeth_port_get_drvinfo (nd : Z) : M world (Z * Z * list Z) :=
  px ← netdev_priv nd;
  pp ← port_priv nd;
  _ ← deref (px_mux px);
  flags ← xeth_mux_n_priv_flags;
  stats ← xeth_mux_n_stats;
  mret (flags, stats, dec (pp_port pp) ++ [58] ++ dec (px_xid px)).
Definition xeth_subport_get_drvinfo (nd : Z) : M world (Z * Z * list Z) :=
  px ← netdev_priv nd;
  pp ← port_priv nd;
  mret (0, 0, dec (pp_port pp) ++ [45] ++ dec (pp_subport pp) ++ [58] ++ dec (px_xid px)).

(** The module, if the port has one. *)
Definition xeth_port_get_module_info (nd : Z) (garbage : Z * Z) : M world (Z + (Z * Z)) :=
  pp ← port_priv nd;
  ext ← port_ext pp;
  mret match pe_qsfp ext with
  | Some qsfp => xeth_qsfp_get_module_info qsfp garbage
  | None => inl (- ENXIO)
  end.
Definition xeth_port_get_module_eeprom (nd cmd offset : Z) (len : nat) : M world (Z * list Z) :=
  pp ← port_priv nd;
  ext ← port_ext pp;
  mret match pe_qsfp ext with
  | Some qsfp => xeth_qsfp_get_module_eeprom qsfp cmd offset len
  | None => (- ENXIO, [])
  end.

Definition xeth_port_setup (nd : Z) : M world unit :=
  xeth_proxy_setup nd ≫= fun _ =>
  netif_carrier_off nd ≫= fun _ =>
  mod_proxy nd (upd_px_kind (fun _ => XETH_DEV_KIND_PORT)) ≫= fun _ =>
  mod_dev nd (fun d => upd_nd_priv_flags proxy_priv_flags (ether_setup
    (upd_nd_needs_free (fun _ => true) (upd_nd_ops (fun _ => NdoPort) d)))).

(** A module that is present is taken out of reset and looked for on its bus. *)
Definition xeth_port_qsfp (nd bus : Z) : M world unit :=
  px ← netdev_priv nd;
  pp ← port_priv nd;
  _ ← deref (px_mux px);
  absent_gpio ← xeth_mux_qsfp_absent_gpio (pp_port pp);
  reset_gpio ← xeth_mux_qsfp_reset_gpio (pp_port pp);
  addrs ← xeth_mux_qsfp_i2c_addrs;
  match absent_gpio, reset_gpio with
  | Some a, Some r =>
      priv ← get_mux;
      if negb (default 0 (mx_absent_gpios priv ≫= lookup a) =? 0) then mret tt else
      mod_mux (upd_mx_reset_gpios (fmap (<[r := 0]>))) ≫= fun _ =>
      qsfp ← deref (xeth_qsfp_client bus addrs);
      mod_ext nd (upd_pe_qsfp (fun _ => qsfp))
  | _, _ => mret tt
  end.

(** ** rtnl *)

Definition xeth_port_validate (a : nlattrs) : Z :=
  if bool_decide (ifla_link a = None) then - EINVAL else
  match ifla_data a with
  | Some xid => if xid =? 0 then - ERANGE else 0
  | None => 0
  end.

(** The link is taken for a mux unchecked; [fuel] bounds the search for an XID. *)
Definition xeth_port_newlink (fuel : nat) (nd : Z) (a : nlattrs) : M world Z :=
  d ← dev nd;
  index ← deref (ifla_link a);
  found ← dev_get_by_index (nd_net d) index;
  mod_proxy nd (upd_px_mux (fun _ => found)) ≫= fun _ =>
  mux ← deref found;
  m ← dev mux;
  mod_dev nd (fun d => upd_nd_min_mtu (fun _ => nd_min_mtu m)
    (upd_nd_max_mtu (fun _ => nd_max_mtu m) d)) ≫= fun _ =>
  mod_port nd (fun pp => upd_pp_port (fun _ => -1) (upd_pp_subport (fun _ => -1) pp)) ≫= fun _ =>
  xid ← match ifla_data a with Some xid => mret xid | None => alloc_port_xid fuel end;
  mod_proxy nd (upd_px_xid (fun _ => xid)) ≫= fun _ =>
  when (negb (ifla_ifname a)) (mod_dev nd (upd_nd_name (fun _ =>
    scnprintf IFNAMSIZ (xeth_port_drvname ++ dec xid)))) ≫= fun _ =>
  xeth_mux_add_proxy nd ≫= fun _ =>
  err ← register_netdevice xeth_proxy_init xeth_port_uninit nd;
  if negb (err =? 0) then xeth_mux_del_proxy nd ≫= fun _ => mret err else
  xeth_sbtx_ifinfo nd 0 XETH_IFINFO_REASON_NEW.

(** ** Platform devices *)

Definition xeth_port_index_prop (pd : port_device) : Z :=
  if (0 <=? pd_id pd) && negb (pd_id_auto pd) then pd_id pd else default (- EINVAL) (pd_index pd).
Definition xeth_port_addr_prop (pd : port_device) : list Z := default (replicate ETH_ALEN 0) (pd_mac pd).
Definition xeth_port_qsfp_bus_prop (pd : port_device) : Z := default 0 (pd_qsfp_bus pd).

(** A device as alloc_netdev makes it, with the private area of a port, which has
    the extension if [ext]. *)
Definition new_port_dev (n : net) (name : list Z) (ext : bool) : net_device :=
  {| nd_name := name; nd_ifindex := 0; nd_flags := 0; nd_priv_flags := 0; nd_features := 0;
     nd_hw_features := 0; nd_carrier := true; nd_addr := []; nd_mtu := 0; nd_min_mtu := 0;
     nd_max_mtu := 0; nd_net := n; nd_ops := NdoOther; nd_lnko := None; nd_master := None;
     nd_lowers := []; nd_ifas := None; nd_ifa6s := None; nd_registered := false;
     nd_needs_free := false; nd_addr_assign_type := 0; nd_eto := None; nd_promiscuity := 0;
     nd_rx_handler := None;
     nd_proxy := Some {| px_mux := None; px_kind := XETH_DEV_KIND_UNSPEC; px_xid := 0;
       px_link_stats := xeth_link_stat_init;
       px_priv := PrivPort {| pp_port := 0; pp_subport := 0;
         pp_ksettings := {| ks_speed := 0; ks_duplex := 0; ks_port := 0; ks_phy_address := 0;
           ks_autoneg := 0; ks_mdio_support := 0; ks_eth_tp_mdix := 0; ks_eth_tp_mdix_ctrl := 0;
           ks_supported := 0; ks_advertising := 0 |};
         pp_ext := if ext then Some {| pe_qsfp := None; pe_priv_flags := 0;
           pe_stats := replicate xeth_mux_max_stats 0 |} else None |} |} |}.

Definition is_zero_ether_addr (addr : list Z) : bool := forallb (Z.eqb 0) addr.

(** The device as it is set up, before what depends on the subport. *)
Definition port_base (mux port subport : Z) (addr : list Z) (nd : Z) : M world unit :=
  xeth_port_setup nd ≫= fun _ =>
  ports ← xeth_mux_ports;
  mod_proxy nd (fun px => upd_px_xid (fun _ => port_xid ports port subport)
    (upd_px_mux (fun _ => Some mux) px)) ≫= fun _ =>
  m ← dev mux;
  mod_dev nd (fun d => upd_nd_min_mtu (fun _ => nd_min_mtu m)
    (upd_nd_max_mtu (fun _ => nd_max_mtu m) d)) ≫= fun _ =>
  (if negb (is_zero_ether_addr addr) then
     mod_dev nd (fun d => upd_nd_addr (fun _ => addr)
       (upd_nd_addr_assign_type (fun _ => NET_ADDR_PERM) d))
   else eth_hw_addr_random nd) ≫= fun _ =>
  mod_port nd (fun pp => upd_pp_port (fun _ => port) (upd_pp_subport (fun _ => subport) pp)).

(** The ethtool operations, the extension with the module, and the settings. *)
Definition port_extras (pd : port_device) (subport nd : Z) : M world unit :=
  (if subport <=? 0 then
     mod_dev nd (upd_nd_eto (fun _ => Some EtoPort)) ≫= fun _ =>
     mod_ext nd (upd_pe_stats (fun _ => replicate xeth_mux_max_stats 0)) ≫= fun _ =>
     when (negb (xeth_port_qsfp_bus_prop pd =? 0)) (xeth_port_qsfp nd (xeth_port_qsfp_bus_prop pd))
   else mod_dev nd (upd_nd_eto (fun _ => Some EtoSubport))) ≫= fun _ =>
  mod_ks nd (if subport <? 0 then xeth_port_ksettings else xeth_subport_ksettings).

Definition xeth_port (pd : port_device) (mux : Z) (ifname : list Z) (port subport : Z)
    (addr : list Z) : M world Z :=
  m ← dev mux;
  new ← gets alloc_netdev;
  match new with
  | None => mret (- ENOMEM)
  | Some nd =>
      modify (upd_w_devs (insert nd (new_port_dev (nd_net m) ifname (subport <=? 0)))) ≫= fun _ =>
      port_base mux port subport addr nd ≫= fun _ =>
      port_extras pd subport nd ≫= fun _ =>
      xeth_mux_add_proxy nd ≫= fun _ =>
      err ← register_netdevice xeth_proxy_init xeth_port_uninit nd;
      when (negb (err =? 0)) (
        xeth_mux_del_proxy nd ≫= fun _ => modify (upd_w_devs (delete nd))) ≫= fun _ =>
      mret err
  end.

(** The module parameter, 512 numbers of subports. *)
Definition xeth_port_subports (provision : list Z) (port : Z) : Z :=
  if (0 <=? port) && (port <? 512) then default 0 (provision !! Z.to_nat port) else - EINVAL.

(** eth_addr_inc and the addition of the number of ports, in 48 bits. *)
Definition next_addr (ports : Z) (addr : list Z) : list Z :=
  be_bytes ETH_ALEN (be_val (be_bytes ETH_ALEN (be_val addr + 1)) + ports).

Definition xeth_name : list Z := [120; 101; 116; 104].
Definition port_name (base port : Z) : list Z := scnprintf IFNAMSIZ (xeth_name ++ dec (port + base)).
Definition subport_name (base port sp : Z) : list Z :=
  scnprintf IFNAMSIZ (xeth_name ++ dec (port + base) ++ [45] ++ dec (sp + base)).

(** The loop over the subports; [n] are left, [sp] is the next. *)
Fixpoint probe_subports (n : nat) (pd : port_device) (mux base ports port sp : Z) (addr : list Z)
  : M world Z :=
  match n with
  | O => mret 0
  | S n =>
      err ← xeth_port pd mux (subport_name base port sp) port sp addr;
      if negb (err =? 0) then mret err else
      probe_subports n pd mux base ports port (sp + 1) (next_addr ports addr)
  end.

Definition xeth_port_probe (provision : list Z) (pd : port_device) : M world Z :=
  found ← gets (fun w => dev_by_name w (pd_mux_name pd));
  match found with
  | None => mret (- EPROBE_DEFER)
  | Some mux =>
      dev_hold mux ≫= fun _ =>
      let port := xeth_port_index_prop pd in
      let addr := xeth_port_addr_prop pd in
      let subports := xeth_port_subports provision port in
      base ← xeth_mux_base_port;
      err ← (if 1 <? subports then
               ports ← xeth_mux_ports;
               probe_subports (Z.to_nat subports) pd mux base ports port 0 addr
             else xeth_port pd mux (port_name base port) port (-1) addr);
      dev_put mux ≫= fun _ => mret err
  end.

(** The mux removes the devices of the ports. *)
Definition xeth_port_remove : M world Z := mret 0.

(** The digits of the leading ports with a provision. *)
Fixpoint provisioned_show (provision : list Z) : list Z :=
  match provision with
  | [] => []
  | n :: provision => if n =? 0 then [] else u8 (n + 48) :: provisioned_show provision
  end.

(** ** Names and addresses *)

Lemma digit_sep c : c ∈ [45; 58] -> ~ is_digit c.
Proof. intros Hc. apply list_elem_of_In in Hc. unfold is_digit. simpl in Hc. lia. Qed.

Lemma port_names_fit base port sp :
  0 <= base <= 1 -> 0 <= port < 512 -> 0 <= sp < 512 ->
  port_name base port = xeth_name ++ dec (port + base) /\
  subport_name base port sp = xeth_name ++ dec (port + base) ++ [45] ++ dec (sp + base).
Proof.
  intros Hb Hp Hs. pose proof (dec_length (port + base) 3 ltac:(lia) ltac:(lia) ltac:(lia)).
  pose proof (dec_length (sp + base) 3 ltac:(lia) ltac:(lia) ltac:(lia)).
  split; apply scnprintf_fits; rewrite ?length_app; simpl; rewrite ?length_app; simpl;
    unfold IFNAMSIZ; lia.
Qed.

(** Ports and subports have different names. *)
Lemma port_names_differ base p1 s1 p2 s2 :
  0 <= base <= 1 -> 0 <= p1 < 512 -> 0 <= p2 < 512 -> 0 <= s1 < 512 -> 0 <= s2 < 512 ->
  port_name base p1 <> subport_name base p2 s2 /\
  (port_name base p1 = port_name base p2 -> p1 = p2) /\
  (subport_name base p1 s1 = subport_name base p2 s2 -> p1 = p2 /\ s1 = s2).
Proof.
  intros Hb Hp1 Hp2 Hs1 Hs2.
  destruct (port_names_fit base p1 s1) as [E1 F1]; [done..|].
  destruct (port_names_fit base p2 s2) as [E2 F2]; [done..|].
  rewrite E1, E2, F1, F2.
  assert (forall x y, 0 <= x < 513 -> 0 <= y < 513 -> dec x = dec y -> x = y) as Hinj.
  { intros x y Hx Hy E%dec_inj. by rewrite !u32_small in E by lia. }
  split; [|split].
  - intros E%app_inv_head. eapply digits_no_sep; [|apply (proj2 (dec_spec (p1 + base)))|exact E].
    apply digit_sep. left.
  - intros E%app_inv_head%Hinj; lia.
  - intros [E1' E2']%app_inv_head%digits_split; try apply dec_spec; [|apply digit_sep; left].
    apply Hinj in E1', E2'; lia.
Qed.

(** The address of subport [sp] is that many steps of [ports + 1] from the first. *)
Lemma next_addr_val ports addr :
  0 <= ports -> be_val (next_addr ports addr) = (be_val addr + 1 + ports) `mod` 256 ^ Z.of_nat ETH_ALEN.
Proof.
  intros Hp. unfold next_addr. rewrite !be_val_be_bytes. by rewrite Zplus_mod_idemp_l.
Qed.

(** ** Making a port *)

(** [w'] is [w] but for the devices and the reset lines. *)
Definition made_frame (w w' : world) : Prop :=
  w' = upd_w_priv (upd_mx_reset_gpios (fun _ => mx_reset_gpios (w_priv w')))
         (upd_w_devs (fun _ => w_devs w') w).

Lemma made_frame_devs w f : made_frame w (upd_w_devs f w).
Proof. destruct w as [mux []]; done. Qed.

#[global] Instance made_frame_preorder : PreOrder made_frame.
Proof.
  split.
  - intros [mux []]. done.
  - intros w1 w2 w3 E1 E2. unfold made_frame. rewrite E2, E1. done.
Qed.

Lemma made_frame_priv {X} (f : xeth_mux_priv -> X) w w' :
  (forall g r, f (upd_mx_reset_gpios g r) = f r) -> made_frame w w' -> f (w_priv w') = f (w_priv w).
Proof. intros Hf ->. simpl. by rewrite Hf. Qed.

Lemma made_frame_rep w w' l nd :
  made_frame w w' -> nd ∉ l -> (forall p, p <> nd -> w_devs w' !! p = w_devs w !! p) ->
  registry_rep w l -> registry_rep w' l.
Proof.
  intros F Hin Hd. apply registry_rep_frame_in; try (by apply (fun f Hf => made_frame_priv f w w' Hf F)).
  intros p Hp. assert (p <> nd) as Hne by (by intros ->).
  unfold xid_of, kind_of, registrable, proxy_at. by rewrite Hd.
Qed.

Lemma made_frame_ok w w' : made_frame w w' -> sb_ok w -> sb_ok w'.
Proof. intros F []. rewrite F. by split. Qed.

Context {KL : KernelDevLaws}.

(** *** Steps on one device *)

(** [c] takes a device at [nd] in [P] to one in [Q] and changes nothing else,
    while the mux at [mux] is [m] and has the private area [priv]. *)
Section steps.
Context (nd mux : Z) (m : net_device) (priv : xeth_mux_priv) (Hne : mux <> nd).

Definition on_dev (P : net_device -> Prop) (c : M world unit) (Q : net_device -> Prop) : Prop :=
  forall w d, w_priv w = priv -> w_devs w !! mux = Some m -> w_devs w !! nd = Some d -> P d ->
    exists d', c w = Some (tt, upd_w_devs (insert nd d') w) /\ Q d'.

Lemma on_dev_bind P Q R c k :
  on_dev P c Q -> on_dev Q k R -> on_dev P (c ≫= fun _ => k) R.
Proof.
  intros Hc Hk w d Hp Hm Hd HP. destruct (Hc w d Hp Hm Hd HP) as (d1 & E1 & HQ).
  destruct (Hk (upd_w_devs (insert nd d1) w) d1) as (d2 & E2 & HR);
    [done|simpl; by rewrite lookup_insert_ne|apply lookup_insert_eq|done|].
  exists d2. split; [|done]. rewrite bind_run, E1, E2. unfold upd_w_devs. simpl.
  by rewrite insert_insert_eq.
Qed.

Lemma on_dev_ports P Q (k : Z -> M world unit) :
  on_dev P (k (mx_n_ports priv)) Q -> on_dev P (x ← xeth_mux_ports; k x) Q.
Proof.
  intros Hk w d Hp. unfold xeth_mux_ports. rewrite !bind_run. unfold get_mux, gets.
  rewrite Hp. by apply Hk.
Qed.

Lemma on_dev_mux P Q (k : net_device -> M world unit) :
  on_dev P (k m) Q -> on_dev P (x ← dev mux; k x) Q.
Proof. intros Hk w d Hp Hm. rewrite bind_run, (dev_run _ _ _ Hm). by apply Hk. Qed.

(** A device that is a port, with facts about it, its proxy and private area. *)
Definition staged (F : net_device -> xeth_proxy -> xeth_port_priv -> Prop) (d : net_device) : Prop :=
  exists px pp, nd_proxy d = Some px /\ px_priv px = PrivPort pp /\ F d px pp.

Lemma on_dev_mod F G f :
  (forall d px pp, F d px pp -> nd_proxy (f d) = nd_proxy d /\ G (f d) px pp) ->
  on_dev (staged F) (mod_dev nd f) (staged G).
Proof.
  intros Hf w d _ _ Hd (px & pp & Ep & Epp & HF). exists (f d).
  split; [by rewrite (mod_dev_run _ _ _ _ Hd)|]. destruct (Hf _ _ _ HF) as [E HG].
  exists px, pp. by rewrite E.
Qed.

Lemma on_dev_proxy F G f :
  (forall d px pp, F d px pp -> px_priv (f px) = px_priv px /\
    G (upd_nd_proxy (fun _ => Some (f px)) d) (f px) pp) ->
  on_dev (staged F) (mod_proxy nd f) (staged G).
Proof.
  intros Hf w d _ _ Hd (px & pp & Ep & Epp & HF).
  exists (upd_nd_proxy (fun _ => Some (f px)) d).
  split; [by rewrite (mod_proxy_run _ _ _ _ _ Hd Ep)|]. destruct (Hf _ _ _ HF) as [E HG].
  exists (f px), pp. by rewrite E.
Qed.

Lemma on_dev_port F G f :
  (forall d px pp, F d px pp ->
    G (upd_nd_proxy (fun _ => Some (upd_px_priv (fun _ => PrivPort (f pp)) px)) d)
      (upd_px_priv (fun _ => PrivPort (f pp)) px) (f pp)) ->
  on_dev (staged F) (mod_port nd f) (staged G).
Proof.
  intros Hf w d _ _ Hd (px & pp & Ep & Epp & HF). unfold mod_port, port_priv.
  eexists. split.
  - rewrite !bind_run. erewrite netdev_priv_run by (unfold proxy_at; rewrite Hd; exact Ep).
    rewrite Epp. cbn [mret M_ret]. by rewrite (mod_proxy_run _ _ _ _ _ Hd Ep).
  - eexists _, (f pp). split; [done|]. split; [done|]. by apply Hf.
Qed.

Lemma on_dev_ext F G f :
  (forall d px pp, F d px pp -> exists ext, pp_ext pp = Some ext /\
    G (upd_nd_proxy (fun _ => Some (upd_px_priv (fun _ =>
         PrivPort (upd_pp_ext (fun _ => Some (f ext)) pp)) px)) d)
      (upd_px_priv (fun _ => PrivPort (upd_pp_ext (fun _ => Some (f ext)) pp)) px)
      (upd_pp_ext (fun _ => Some (f ext)) pp)) ->
  on_dev (staged F) (mod_ext nd f) (staged G).
Proof.
  intros Hf w d Hp Hm Hd (px & pp & Ep & Epp & HF). destruct (Hf _ _ _ HF) as (ext & Eext & HG).
  destruct (on_dev_port (fun d' px' pp' => d' = d /\ px' = px /\ pp' = pp) G
    (upd_pp_ext (fun _ => Some (f ext)))) with (w := w) (d := d) as (d' & E & HG');
    [by intros ? ? ? (-> & -> & ->)|done..|by exists px, pp|].
  exists d'. split; [|done]. unfold mod_ext, port_priv, port_ext. rewrite !bind_run.
  erewrite netdev_priv_run by (unfold proxy_at; rewrite Hd; exact Ep).
  rewrite Epp. cbn [mret M_ret]. rewrite bind_run, Eext. exact E.
Qed.

(** *** The steps of a port *)

Context (name addr : list Z) (port subport xid : Z).

(** What is known of the device after [k] of the steps. *)
Record port_facts (k : nat) (d : net_device) (px : xeth_proxy) (pp : xeth_port_priv) : Prop := {
  pf_name : nd_name d = name;
  pf_ext : pp_ext pp <> None <-> subport <= 0;
  pf_kind : (1 <= k)%nat -> px_kind px = XETH_DEV_KIND_PORT;
  pf_ops : (1 <= k)%nat -> is_xeth_port d = true;
  pf_xid : (2 <= k)%nat -> px_xid px = xid /\ px_mux px = Some mux;
  pf_mtu : (3 <= k)%nat -> nd_min_mtu d = nd_min_mtu m /\ nd_max_mtu d = nd_max_mtu m;
  pf_addr : (4 <= k)%nat -> is_zero_ether_addr addr = false -> nd_addr d = addr;
  pf_port : (5 <= k)%nat -> pp_port pp = port /\ pp_subport pp = subport;
  pf_eto : (6 <= k)%nat -> nd_eto d = Some (if subport <=? 0 then EtoPort else EtoSubport);
  pf_ks : (7 <= k)%nat -> exists zero, pp_ksettings pp =
    (if subport <? 0 then xeth_port_ksettings else xeth_subport_ksettings) zero;
}.

(** The facts that a step does not add are those before it. *)
Ltac facts :=
  split; [try done|]; split; simpl; try done; intros; try lia; eauto with lia.

Lemma setup_facts : on_dev (staged (port_facts 0)) (xeth_port_setup nd) (staged (port_facts 1)).
Proof.
  unfold xeth_port_setup, xeth_proxy_setup, netif_carrier_off.
  eapply on_dev_bind; [apply (on_dev_proxy _ (port_facts 0)); intros d px pp []; facts|].
  eapply on_dev_bind; [apply (on_dev_mod _ (port_facts 0)); intros d px pp []; facts|].
  eapply on_dev_bind; [apply (on_dev_proxy _ (fun d px pp => port_facts 0 d px pp /\
    px_kind px = XETH_DEV_KIND_PORT)); intros d px pp []; split; [done|]; facts|].
  apply on_dev_mod. intros d px pp [[] Hk].
  match goal with |- context [ether_setup ?d0] => pose proof (ether_setup_law d0) as (L1 & _ & L3 & _);
    pose proof (ether_setup_name d0) as L6; generalize dependent (ether_setup d0) end.
  intros d1 L1 L3 L6. simpl in *. split; [done|]. split; simpl; try done; intros; try lia; [congruence|].
  unfold is_xeth_port. simpl. by rewrite L1.
Qed.

Lemma base_facts :
  xid = port_xid (mx_n_ports priv) port subport ->
  on_dev (staged (port_facts 0)) (port_base mux port subport addr nd) (staged (port_facts 5)).
Proof.
  intros Hx. unfold port_base. eapply on_dev_bind; [exact setup_facts|].
  apply on_dev_ports.
  eapply on_dev_bind; [apply (on_dev_proxy _ (port_facts 2)); intros d px pp []; facts|].
  apply on_dev_mux.
  eapply on_dev_bind; [apply (on_dev_mod _ (port_facts 3)); intros d px pp []; facts|].
  apply (on_dev_bind _ (staged (port_facts 4))); [|apply on_dev_port; intros d px pp []; split; simpl; eauto with lia].
  destruct (is_zero_ether_addr addr) eqn:Z; cbn [negb].
  - intros w d Hp Hm Hd HP. unfold eth_hw_addr_random. rewrite bind_run. unfold gets.
    eapply on_dev_mod; [|done..]. intros d' px pp []; facts. congruence.
  - apply on_dev_mod. intros d px pp []; facts.
Qed.
End steps.

(** *** Steps that may change the reset lines, too *)

Section makes.
Context (nd mux : Z) (m : net_device) (Hne : mux <> nd).

Definition makes (P : net_device -> Prop) (c : M world unit) (Q : net_device -> Prop) : Prop :=
  forall w d, w_devs w !! mux = Some m -> w_devs w !! nd = Some d -> P d ->
    exists w' d', c w = Some (tt, w') /\ made_frame w w' /\
      w_devs w' = <[nd := d']> (w_devs w) /\ Q d'.

Lemma on_dev_makes P c Q : (forall priv, on_dev nd mux m priv P c Q) -> makes P c Q.
Proof.
  intros Hc w d Hm Hd HP. destruct (Hc (w_priv w) w d eq_refl Hm Hd HP) as (d' & E & HQ).
  exists (upd_w_devs (insert nd d') w), d'. split; [done|]. split; [apply made_frame_devs|done].
Qed.

Lemma makes_bind P Q R c k : makes P c Q -> makes Q k R -> makes P (c ≫= fun _ => k) R.
Proof.
  intros Hc Hk w d Hm Hd HP. destruct (Hc w d Hm Hd HP) as (w1 & d1 & E1 & F1 & D1 & HQ).
  destruct (Hk w1 d1) as (w2 & d2 & E2 & F2 & D2 & HR);
    [by rewrite D1, lookup_insert_ne|rewrite D1; apply lookup_insert_eq|done|].
  exists w2, d2. split; [by rewrite bind_run, E1|]. split; [by transitivity w1|].
  split; [|done]. by rewrite D2, D1, insert_insert_eq.
Qed.

Lemma makes_skip P : makes P (mret tt) P.
Proof.
  intros w d Hm Hd HP. exists w, d. split; [done|]. split; [reflexivity|]. split; [|done].
  by rewrite insert_id.
Qed.

Context (name addr : list Z) (port subport xid : Z).
Definition facts_at (k : nat) : net_device -> Prop :=
  staged (port_facts mux m name addr port subport xid k).

Lemma qsfp_makes bus :
  subport <= 0 -> is_Some (i2c_get_adapter bus) -> makes (facts_at 6) (xeth_port_qsfp nd bus) (facts_at 6).
Proof.
  intros Hs [adapter Ha] w d Hm Hd (px & pp & Ep & Epp & F).
  destruct (pf_xid _ _ _ _ _ _ _ _ _ _ _ F ltac:(lia)) as [_ Hmux]. unfold xeth_port_qsfp.
  assert (port_at w nd d px pp) as P by (split; [done..|by rewrite Hmux]).
  rewrite bind_run. erewrite netdev_priv_run by (unfold proxy_at; rewrite Hd; exact Ep).
  rewrite bind_run, (port_priv_run _ _ _ _ _ P), bind_run, Hmux. cbn [deref mret M_ret].
  unfold xeth_mux_qsfp_absent_gpio, xeth_mux_qsfp_reset_gpio, xeth_mux_qsfp_i2c_addrs.
  rewrite ?bind_run. unfold get_mux, gets. rewrite ?bind_run. cbn [mret M_ret]. rewrite ?bind_run.
  cbn [mret M_ret]. rewrite ?bind_run. cbn [mret M_ret].
  assert (facts_at 6 d) as St by (by exists px, pp).
  destruct (gpio_at (mx_absent_gpios _) _) as [ga|]; [|by apply (makes_skip (facts_at 6) w d)].
  destruct (gpio_at (mx_reset_gpios _) _) as [gr|]; [|by apply (makes_skip (facts_at 6) w d)].
  rewrite bind_run. unfold get_mux, gets. destruct (negb _); [by apply (makes_skip (facts_at 6) w d)|].
  rewrite bind_run. unfold mod_mux, modify. rewrite bind_run.
  unfold xeth_qsfp_client. rewrite Ha. cbn [deref mret M_ret].
  set (w1 := upd_w_priv (upd_mx_reset_gpios (fmap (<[gr := 0]>))) w).
  assert (made_frame w w1) as F1 by (destruct w as [? []]; done).
  destruct (on_dev_makes (facts_at 6) (mod_ext nd (upd_pe_qsfp (fun _ =>
    probe_addrs adapter (mx_qsfp_addrs (w_priv w))))) (facts_at 6)) with (w := w1) (d := d)
    as (w' & d' & E & F' & D' & St'); [|done..|].
  - intros priv. apply on_dev_ext. intros d0 px0 pp0 F0.
    destruct (pp_ext pp0) as [ext|] eqn:Ee; [|by apply (pf_ext _ _ _ _ _ _ _ _ _ _ _ F0) in Hs].
    exists ext. split; [done|]. destruct F0. by split.
  - exists w', d'. split; [exact E|]. split; [by transitivity w1|done].
Qed.

Lemma extras_make pd :
  (xeth_port_qsfp_bus_prop pd <> 0 -> is_Some (i2c_get_adapter (xeth_port_qsfp_bus_prop pd))) ->
  makes (facts_at 5) (port_extras pd subport nd) (facts_at 7).
Proof.
  intros Hbus. unfold port_extras.
  assert (forall e, e = (if subport <=? 0 then EtoPort else EtoSubport) ->
    makes (facts_at 5) (mod_dev nd (upd_nd_eto (fun _ => Some e))) (facts_at 6)) as Heto.
  { intros e ->. apply on_dev_makes. intros priv. apply on_dev_mod. intros d px pp [].
    split; [done|]. split; simpl; eauto with lia. }
  apply (makes_bind _ (facts_at 6)).
  - destruct (Z.leb_spec subport 0) as [Hs|Hs]; [|by apply Heto].
    eapply makes_bind; [by apply Heto|]. apply (makes_bind _ (facts_at 6)).
    + apply on_dev_makes. intros priv. apply on_dev_ext. intros d px pp F.
      destruct (pp_ext pp) as [ext|] eqn:Ee; [|by apply (pf_ext _ _ _ _ _ _ _ _ _ _ _ F) in Hs].
      exists ext. split; [done|]. destruct F. by split.
    + destruct (Z.eqb_spec (xeth_port_qsfp_bus_prop pd) 0); cbn [negb when]; [apply makes_skip|].
      apply qsfp_makes; auto.
  - apply on_dev_makes. intros priv. apply on_dev_port. intros d px pp [].
    split; simpl; eauto with lia.
Qed.
End makes.

Context {HL : KernelHashLaws} {AL : KernelAllocLaws}.

(** The device at [nd] is the registered port [port], [subport] of the mux. *)
Record port_made (w : world) (nd mux : Z) (m : net_device) (name addr : list Z)
    (port subport xid : Z) : Prop := {
  pm_dev : exists d px pp, port_at w nd d px pp /\ nd_registered d = true /\
    port_facts mux m name addr port subport xid 7 d px pp;
}.

Lemma fresh_not_registered w l nd : registry_rep w l -> w_devs w !! nd = None -> nd ∉ l.
Proof.
  intros R Hn Hin. destruct (rep_proxy _ _ _ R Hin) as (px & mux & Hpx & _).
  unfold proxy_at in Hpx. by rewrite Hn in Hpx.
Qed.

(** What the making of ports needs of the machine, and keeps. *)
Record port_world (w : world) (l : list Z) (mux : Z) (m : net_device) (ports : Z) (mem : nat)
  : Prop := {
  pw_rep : registry_rep w l;
  pw_ok : sb_ok w;
  pw_mux : w_devs w !! mux = Some m;
  pw_ports : mx_n_ports (w_priv w) = ports;
  pw_mem : (mem <= w_kmem w)%nat;
}.

Lemma xeth_port_run w l pd mux m ports mem name port subport addr nd :
  registers nd -> port_world w l mux m ports (S mem) -> alloc_netdev w = Some nd ->
  (xeth_port_qsfp_bus_prop pd <> 0 -> is_Some (i2c_get_adapter (xeth_port_qsfp_bus_prop pd))) ->
  port_xid ports port subport <> 0 ->
  exists w', xeth_port pd mux name port subport addr w = Some (0, w') /\
    port_world w' (nd :: l) mux m ports mem /\ (nd ∉ l) /\
    port_made w' nd mux m name addr port subport (port_xid ports port subport) /\
    (forall p, p <> nd -> w_devs w' !! p = w_devs w !! p) /\
    mx_base_port (w_priv w') = mx_base_port (w_priv w).
Proof.
  intros Hr [R Hw Hm Hp Hmem] Ha Hbus Hx. pose proof (alloc_netdev_fresh _ _ Ha) as Hf.
  pose proof (fresh_not_registered _ _ _ R Hf) as Hin. assert (mux <> nd) as Hne by congruence.
  set (d0 := new_port_dev (nd_net m) name (subport <=? 0)).
  set (w0 := upd_w_devs (insert nd d0) w). set (xid := port_xid ports port subport).
  destruct (base_facts nd mux m (w_priv w) Hne name addr port subport xid) with (w := w0) (d := d0)
    as (d1 & E1 & S1); [by rewrite Hp|done|simpl; by rewrite lookup_insert_ne|apply lookup_insert_eq| |].
  { eexists _, _. split; [reflexivity|]. split; [reflexivity|]. split; try (simpl; lia || done).
    simpl. destruct (Z.leb_spec subport 0); split; done || lia. }
  set (w1 := upd_w_devs (insert nd d1) w0) in *.
  destruct (extras_make nd mux m Hne name addr port subport xid pd Hbus w1 d1)
    as (w2 & d2 & E2 & F2 & D2 & px & pp & Ep & Epp & Fs);
    [simpl; by rewrite !lookup_insert_ne|apply lookup_insert_eq|done|].
  assert (made_frame w w2) as F.
  { transitivity w1; [|done]. unfold w1, w0. etransitivity; apply made_frame_devs. }
  assert (forall p, p <> nd -> w_devs w2 !! p = w_devs w !! p) as D.
  { intros p Hpn. rewrite D2. unfold w1, w0. simpl. by rewrite !lookup_insert_ne. }
  destruct (pf_xid _ _ _ _ _ _ _ _ _ _ _ Fs ltac:(lia)) as [Exid Emux].
  destruct (create_run xeth_proxy_init inited xeth_port_uninit w2 l nd d2 px)
    as (w3 & w' & d' & E3 & E4 & Cr);
    [apply proxy_inits|done|by eapply made_frame_rep|by eapply made_frame_ok
    |rewrite F; simpl; lia|done|rewrite D2; apply lookup_insert_eq|done|by rewrite Emux
    |by rewrite (pf_kind _ _ _ _ _ _ _ _ _ _ _ Fs) by lia|by rewrite Exid|].
  exists w'. destruct (cr_made _ _ _ _ _ _ _ _ Cr) as (i & _ & Ed').
  assert (w_kmem w2 = w_kmem w) as Ek by (by rewrite F).
  assert (mx_n_ports (w_priv w2) = ports) as Enp by (by rewrite (made_frame_priv mx_n_ports _ _ (fun _ _ => eq_refl) F)).
  split; [|split; [|split; [done|split; [|split]]]].
  - unfold xeth_port. rewrite bind_run, (dev_run _ _ _ Hm), bind_run. unfold gets. rewrite Ha.
    rewrite bind_run. unfold modify at 1. rewrite bind_run. fold d0 w0. rewrite E1, bind_run.
    rewrite E2, bind_run, E3, bind_run, E4. done.
  - pose proof (cr_mem _ _ _ _ _ _ _ _ Cr). split; [by destruct Cr..| | |lia].
    + by rewrite (cr_others _ _ _ _ _ _ _ _ Cr), D.
    + by rewrite (cr_n_ports _ _ _ _ _ _ _ _ Cr).
  - split. exists d', px, pp. split; [split; [by destruct Cr|by rewrite Ed'|done|by rewrite Emux]|].
    rewrite Ed'. split; [done|]. destruct Fs. by split.
  - intros p Hpn. rewrite (cr_others _ _ _ _ _ _ _ _ Cr) by done. by apply D.
  - by rewrite (cr_base_port _ _ _ _ _ _ _ _ Cr), (made_frame_priv mx_base_port _ _ (fun _ _ => eq_refl) F).
Qed.

(** *** The probe of a port *)

(** The devices [nds] are subports [sp] and the following. *)
Fixpoint subports_made (w : world) (nds : list Z) (mux : Z) (m : net_device)
    (base ports port sp : Z) (addr : list Z) : Prop :=
  match nds with
  | [] => True
  | nd :: nds =>
      port_made w nd mux m (subport_name base port sp) addr port sp (port_xid ports port sp) /\
      subports_made w nds mux m base ports port (sp + 1) (next_addr ports addr)
  end.

Lemma port_made_frame w w' nd mux m name addr port subport xid :
  w_devs w' !! nd = w_devs w !! nd ->
  port_made w nd mux m name addr port subport xid -> port_made w' nd mux m name addr port subport xid.
Proof.
  intros E [(d & px & pp & [P1 P2 P3 P4] & Hr & F)]. split. exists d, px, pp.
  split; [|done]. split; [by rewrite E|done..].
Qed.

Context (Hreg : forall nd, registers nd) (Halloc : forall w, is_Some (alloc_netdev w)).

Lemma probe_subports_run n w l pd mux m base ports port sp addr :
  port_world w l mux m ports n ->
  (xeth_port_qsfp_bus_prop pd <> 0 -> is_Some (i2c_get_adapter (xeth_port_qsfp_bus_prop pd))) ->
  (forall i, sp <= i < sp + Z.of_nat n -> port_xid ports port i <> 0) ->
  exists w' nds, probe_subports n pd mux base ports port sp addr w = Some (0, w') /\
    length nds = n /\ port_world w' (reverse nds ++ l) mux m ports 0 /\
    subports_made w' nds mux m base ports port sp addr /\
    (forall p, p ∉ nds -> w_devs w' !! p = w_devs w !! p).
Proof.
  intros Hw Hbus. revert w l sp addr Hw. induction n as [|n IH]; intros w l sp addr Hw Hx.
  { exists w, []. split; [done|]. split; [done|]. split; [done|]. done. }
  destruct (Halloc w) as [nd Ha].
  destruct (xeth_port_run w l pd mux m ports n (subport_name base port sp) port sp addr nd)
    as (w1 & E1 & W1 & Hin & M1 & D1 & _); [done..|apply Hx; lia|].
  destruct (IH w1 (nd :: l) (sp + 1) (next_addr ports addr)) as (w' & nds & E & Hlen & W' & S' & D');
    [done|intros i Hi; apply Hx; lia|].
  exists w', (nd :: nds). cbn [probe_subports]. rewrite bind_run, E1. cbn [Z.eqb negb].
  assert (nd ∉ nds) as Hnd.
  { intros Hi. pose proof (rep_nodup _ _ (pw_rep _ _ _ _ _ _ W')) as Nd.
    apply NoDup_app in Nd as (_ & Nd & _). apply (Nd nd); [by apply elem_of_reverse|left]. }
  split; [done|]. split; [simpl; by rewrite Hlen|].
  split; [rewrite reverse_cons, <- app_assoc; exact W'|]. split.
  - split; [|done]. eapply port_made_frame; [|exact M1]. by apply D'.
  - intros p Hp. rewrite not_elem_of_cons in Hp. rewrite D', D1 by tauto. done.
Qed.

(** The references that are held matter to none of this. *)
Lemma port_world_refs w l mux m ports mem f :
  port_world w l mux m ports mem -> port_world (upd_w_refs f w) l mux m ports mem.
Proof. intros [[] [] ? ? ?]. by split. Qed.

Lemma subports_made_refs f nds : forall w mux m base ports port sp addr,
  subports_made w nds mux m base ports port sp addr ->
  subports_made (upd_w_refs f w) nds mux m base ports port sp addr.
Proof.
  induction nds as [|nd nds IH]; intros w mux m base ports port sp addr S; [done|].
  destruct S as [M S]. split; [by apply (port_made_frame w)|by apply IH].
Qed.

(** The probe of a port that is not split. *)
Lemma probe_whole_run provision w l pd mux m ports mem :
  let port := xeth_port_index_prop pd in
  port_world w l mux m ports (S mem) -> xeth_port_subports provision port <= 1 ->
  (xeth_port_qsfp_bus_prop pd <> 0 -> is_Some (i2c_get_adapter (xeth_port_qsfp_bus_prop pd))) ->
  port_xid ports port (-1) <> 0 -> dev_by_name w (pd_mux_name pd) = Some mux ->
  exists w' nd, xeth_port_probe provision pd w = Some (0, w') /\
    port_world w' (nd :: l) mux m ports mem /\ (nd ∉ l) /\
    port_made w' nd mux m (port_name (mx_base_port (w_priv w)) port) (xeth_port_addr_prop pd) port (-1)
      (port_xid ports port (-1)) /\
    (forall p, p <> nd -> w_devs w' !! p = w_devs w !! p) /\
    mx_base_port (w_priv w') = mx_base_port (w_priv w).
Proof.
  intros port W Hsub Hbus Hx Hd. unfold xeth_port_probe. rewrite bind_run. unfold gets at 1. rewrite Hd.
  rewrite bind_run. unfold dev_hold, modify at 1. cbv zeta. set (w1 := upd_w_refs _ w).
  rewrite bind_run. unfold xeth_mux_base_port. rewrite bind_run. unfold get_mux, gets at 1.
  cbn [mret M_ret]. fold port. rewrite (proj2 (Z.ltb_ge _ _) Hsub). destruct (Halloc w1) as [nd Ha].
  destruct (xeth_port_run w1 l pd mux m ports mem (port_name (mx_base_port (w_priv w)) port) port (-1)
    (xeth_port_addr_prop pd) nd) as (w' & E & W' & Rest); [apply Hreg|by apply port_world_refs|done..|].
  change (w_priv w1) with (w_priv w). rewrite bind_run, E, bind_run. unfold dev_put, modify. eexists _, nd. split; [done|].
  split; [by apply port_world_refs|]. destruct Rest as (? & M & ? & ?). split; [done|].
  split; [by apply (port_made_frame w')|done].
Qed.

(** C25: The probe of a platform port that is to be split in [n] subports makes [n]
    devices, each a port of the mux with its own name, XID and address, the
    settings of a subport, registered with the driver and the kernel, and one
    device for the port otherwise; all other devices stay as they are.  Without its mux the
    probe is deferred and nothing changes. *)
Theorem probe_makes_ports provision w l pd mux m ports base :
  let port := xeth_port_index_prop pd in
  let addr := xeth_port_addr_prop pd in
  let n := Z.max 1 (xeth_port_subports provision port) in
  port_world w l mux m ports (Z.to_nat n) -> mx_base_port (w_priv w) = base ->
  (xeth_port_qsfp_bus_prop pd <> 0 -> is_Some (i2c_get_adapter (xeth_port_qsfp_bus_prop pd))) ->
  0 <= port < ports -> n <= 4 -> ports * 4 <= xeth_port_top_vid ->
  (dev_by_name w (pd_mux_name pd) = Some mux ->
   exists w' nds, xeth_port_probe provision pd w = Some (0, w') /\
     length nds = Z.to_nat n /\ registry_rep w' (reverse nds ++ l) /\ sb_ok w' /\
     (forall p, p ∉ nds -> w_devs w' !! p = w_devs w !! p) /\
     if 1 <? n then subports_made w' nds mux m base ports port 0 addr
     else exists nd, nds = [nd] /\
       port_made w' nd mux m (port_name base port) addr port (-1) (port_xid ports port (-1))) /\
  (dev_by_name w (pd_mux_name pd) = None ->
   xeth_port_probe provision pd w = Some (- EPROBE_DEFER, w)).
Proof.
  intros port addr n W Hb Hbus Hport Hn Hports.
  assert (forall i, -1 <= i < 4 -> port_xid ports port i <> 0) as Hx.
  { intros i Hi. pose proof (port_xid_range ports port i). lia. }
  split; intros Hd; [|unfold xeth_port_probe; rewrite bind_run; unfold gets at 1; by rewrite Hd].
  set (k := xeth_port_subports provision port) in *. destruct (Z.ltb_spec 1 k) as [Hk|Hk].
  - assert (n = k) as En by lia. rewrite (proj2 (Z.ltb_lt 1 n)) by lia.
    unfold xeth_port_probe. rewrite bind_run. unfold gets at 1. rewrite Hd.
    rewrite bind_run. unfold dev_hold, modify at 1. cbv zeta. set (w1 := upd_w_refs _ w).
    rewrite bind_run. unfold xeth_mux_base_port. rewrite bind_run. unfold get_mux, gets at 1.
    cbn [mret M_ret]. change (w_priv w1) with (w_priv w). rewrite Hb. fold port addr k. rewrite (proj2 (Z.ltb_lt 1 k)) by done.
    rewrite bind_run, bind_run. unfold xeth_mux_ports. rewrite bind_run. unfold get_mux, gets.
    cbn [mret M_ret]. change (w_priv w1) with (w_priv w). rewrite (pw_ports _ _ _ _ _ _ W), <- En.
    destruct (probe_subports_run (Z.to_nat n) w1 l pd mux m base ports port 0 addr)
      as (w' & nds & E & Hlen & W' & S' & D'); [by apply port_world_refs|done|intros i Hi; apply Hx; lia|].
    rewrite E, bind_run. unfold dev_put, modify. eexists _, nds.
    apply (port_world_refs _ _ _ _ _ _ (put mux)) in W'. destruct W'.
    repeat (split; [done|]). by apply subports_made_refs.
  - assert (n = 1) as En by lia. rewrite En in *. cbn [Z.ltb Z.compare Pos.compare Pos.compare_cont].
    destruct (probe_whole_run provision w l pd mux m ports 0) as (w' & nd & E & W' & _ & M' & D' & _);
      [done|done|done|apply Hx; lia|done|]. rewrite Hb in M'.
    exists w', [nd]. destruct W'. split; [done|]. split; [done|]. split; [done|]. split; [done|].
    split; [|by exists nd]. intros p Hp. apply D'. intros ->. apply Hp. left.
Qed.

(** ** Ports made through rtnl *)

(** A port without the extension that its subport number promises. *)
Definition no_ext (w : world) (nd : Z) : Prop :=
  exists d px pp, port_at w nd d px pp /\ px_kind px = XETH_DEV_KIND_PORT /\ px_xid px <> 0 /\
    pp_subport pp <= 0 /\ pp_ext pp = None.

Lemma no_ext_frame w w' nd : sb_frame w w' -> no_ext w nd -> no_ext w' nd.
Proof.
  intros F (d & px & pp & [P1 P2 P3 P4] & R). exists d, px, pp. split; [|done].
  split; [|done..]. by rewrite (sb_frame_devs _ _ F).
Qed.

Lemma no_ext_flags w nd : no_ext w nd -> xeth_port_ethtool_priv_flags nd w = None.
Proof.
  intros (d & px & pp & P & _ & _ & Hs & He). unfold xeth_port_ethtool_priv_flags.
  rewrite bind_run, (port_priv_run _ _ _ _ _ P), (proj2 (Z.leb_le _ _)) by done.
  rewrite bind_run. unfold port_ext. by rewrite He.
Qed.

Lemma no_ext_uninit w nd : no_ext w nd -> xeth_port_uninit nd w = None.
Proof.
  intros (d & px & pp & P & _ & _ & Hs & He). unfold xeth_port_uninit.
  rewrite bind_run, (port_priv_run _ _ _ _ _ P), (proj2 (Z.leb_le _ _)) by done.
  cbn [when]. rewrite !bind_run. unfold port_ext. by rewrite He.
Qed.

Lemma no_ext_dump w nd : no_ext w nd -> sb_ok w -> xeth_proxy_dump_ifinfo nd w = None.
Proof.
  intros He Hw. destruct (xeth_proxy_dump_ifinfo nd w) as [[[] w']|] eqn:E; [exfalso|done].
  pose proof He as (d & px & pp & P & Hk & Hx & _). unfold xeth_proxy_dump_ifinfo in E.
  rewrite bind_run in E.
  erewrite netdev_priv_run in E by (unfold proxy_at; rewrite (pa_dev _ _ _ _ _ P); exact (pa_proxy _ _ _ _ _ P)).
  rewrite (proj2 (Z.eqb_neq _ _) Hx), (bool_decide_eq_false_2 (px_mux px = None)) in E
    by (destruct (pa_mux _ _ _ _ _ P) as [? ->]; done).
  cbn [orb] in E. bind_step E.
  assert (sb_safe (ignore (xeth_sbtx_ifinfo nd 0 XETH_IFINFO_REASON_DUMP))) as S1 by auto with sb_safe.
  destruct (S1 _ _ _ Hw E0) as [Hw1 F1]. bind_step E. rewrite bool_decide_eq_true_2 in E1 by done.
  cbn [when] in E1. bind_step E1. bind_step E1.
  assert (port_at s nd d px pp) as P1.
  { destruct P. split; [|done..]. by rewrite (sb_frame_devs _ _ F1). }
  unfold xeth_port_ethtool_ksettings in E2. rewrite bind_run, (port_priv_run _ _ _ _ _ P1) in E2.
  injection E2 as <- <-.
  assert (sb_safe (ignore (xeth_sbtx_et_settings (px_xid px) (pp_ksettings pp)))) as S2 by auto with sb_safe.
  destruct (S2 _ _ _ Hw1 E3) as [Hw2 F2].
  rewrite bind_run, no_ext_flags in E1; [done|]. eapply no_ext_frame; [exact F2|]. by eapply no_ext_frame.
Qed.

(** Somewhere in the list the program oopses. *)
Lemma for_each_no_ext l w nd :
  nd ∈ l -> no_ext w nd -> sb_ok w -> for_each l xeth_proxy_dump_ifinfo w = None.
Proof.
  intros Hin. revert w. induction l as [|p l IH]; intros w He Hw; [by apply elem_of_nil in Hin|].
  cbn [for_each]. rewrite bind_run. apply elem_of_cons in Hin as [->|Hin].
  - by rewrite no_ext_dump.
  - destruct (xeth_proxy_dump_ifinfo p w) as [[[] w1]|] eqn:E; [|done].
    destruct (sb_safe_dump_ifinfo p _ _ _ Hw E) as [Hw1 F1]. apply IH; [done| |done].
    by eapply no_ext_frame.
Qed.

(** The port of a newlink request without a name of its own. *)
Definition rtnl_dev (d m : net_device) (px : xeth_proxy) (pp : xeth_port_priv) (mux xid : Z)
    (a : nlattrs) : net_device :=
  (if ifla_ifname a then id else upd_nd_name (fun _ =>
    scnprintf IFNAMSIZ (xeth_port_drvname ++ dec xid)))
  (upd_nd_min_mtu (fun _ => nd_min_mtu m) (upd_nd_max_mtu (fun _ => nd_max_mtu m)
  (upd_nd_proxy (fun _ => Some (upd_px_xid (fun _ => xid) (upd_px_mux (fun _ => Some mux)
    (upd_px_priv (fun _ => PrivPort (upd_pp_port (fun _ => -1) (upd_pp_subport (fun _ => -1) pp))) px)))) d))).

Lemma rtnl_newlink_prepares w l nd a index mux d px pp m :
  registry_rep w l -> nd ∉ l -> Z.of_nat (length l) <= xeth_port_top_vid ->
  w_devs w !! nd = Some d -> nd_proxy d = Some px -> px_priv px = PrivPort pp ->
  ifla_link a = Some index -> ifla_data a = None -> mux <> nd ->
  dev_by_index w (nd_net d) index = Some mux -> w_devs w !! mux = Some m ->
  exists xid, 0 <= xid <= xeth_port_top_vid /\ ~ taken w l xid /\
    (forall z, xid < z <= xeth_port_top_vid -> taken w l z) /\
    xeth_port_newlink (length l) nd a w =
      (xeth_mux_add_proxy nd ≫= fun _ =>
       err ← register_netdevice xeth_proxy_init xeth_port_uninit nd;
       if negb (err =? 0) then xeth_mux_del_proxy nd ≫= fun _ => mret err else
       xeth_sbtx_ifinfo nd 0 XETH_IFINFO_REASON_NEW)
      (upd_w_devs (insert nd (rtnl_dev d m px pp mux xid a)) w).
Proof.
  intros R Hin Hl Ed Ep Epp Ha Hdata Hne Hidx Em. unfold xeth_port_newlink.
  rewrite bind_run, (dev_run _ _ _ Ed), bind_run, Ha. cbn [deref mret M_ret].
  rewrite bind_run. unfold dev_get_by_index, gets at 1. rewrite Hidx, bind_run.
  erewrite mod_proxy_run; [|exact Ed|exact Ep]. rewrite bind_run. cbn [deref mret M_ret].
  rewrite bind_run. erewrite dev_run by (simpl; rewrite lookup_insert_ne by done; exact Em).
  rewrite bind_run. erewrite mod_dev_run by apply lookup_insert_eq. rewrite bind_run.
  unfold mod_port, port_priv. rewrite !bind_run.
  erewrite netdev_priv_run by (unfold proxy_at; simpl; rewrite lookup_insert_eq; reflexivity).
  cbn [px_priv upd_px_mux]. rewrite Epp. cbn [mret M_ret].
  erewrite mod_proxy_run; [|apply lookup_insert_eq|reflexivity]. rewrite Hdata, bind_run.
  match goal with |- context [alloc_port_xid _ ?w0] => set (w3 := w0) end.
  assert (exists d3, w3 = upd_w_devs (insert nd d3) w) as [d3 E3].
  { eexists. unfold w3, upd_w_devs. simpl. by rewrite !insert_insert_eq. }
  assert (forall x, taken w3 l x <-> taken w l x) as Ht.
  { intros x. unfold taken. rewrite E3. unfold spec_of_xid.
    erewrite filter_iff_elem; [reflexivity|]. intros p Hp. unfold xid_of, proxy_at. simpl.
    by rewrite lookup_insert_ne by (by intros ->). }
  destruct (xid_down_run w3 l (length l) xeth_port_top_vid) as (x & Ex & Hx & Hf & Hz);
    [rewrite E3; by apply registry_rep_other|unfold xeth_port_top_vid in *; lia|lia|lia|lia|].
  unfold alloc_port_xid. rewrite Ex.
  exists x. split; [done|]. split; [by rewrite <- Ht|].
  split; [intros z Hzr; apply Ht, Hz; lia|].
  rewrite bind_run. erewrite mod_proxy_run; [|unfold w3; apply lookup_insert_eq|reflexivity].
  rewrite bind_run. unfold rtnl_dev. destruct (ifla_ifname a); cbn [negb when].
  - cbn [mret M_ret]. f_equal. unfold w3, upd_w_devs. simpl. by rewrite !insert_insert_eq.
  - erewrite mod_dev_run by apply lookup_insert_eq. f_equal.
    unfold w3, upd_w_devs. simpl. by rewrite !insert_insert_eq.
Qed.

(** C36: A port made through rtnl without an XID of its own gets the greatest free
    one, a name after it, and is registered and announced.  But its private area
    ends before the extension that its subport number -1 promises: the next dump
    of the interfaces and the removal of the port both read past the end. *)
Theorem rtnl_port_out_of_bounds w l nd a index mux d px pp m :
  registers nd -> registry_rep w l -> sb_ok w -> (2 <= w_kmem w)%nat -> nd ∉ l ->
  Z.of_nat (length l) < xeth_port_top_vid ->
  w_devs w !! nd = Some d -> nd_proxy d = Some px -> px_priv px = PrivPort pp ->
  px_kind px = XETH_DEV_KIND_PORT -> pp_ext pp = None ->
  ifla_link a = Some index -> ifla_data a = None -> mux <> nd ->
  dev_by_index w (nd_net d) index = Some mux -> w_devs w !! mux = Some m ->
  exists w' dn pn, xeth_port_newlink (length l) nd a w = Some (0, w') /\
    registry_rep w' (nd :: l) /\ w_devs w' !! nd = Some dn /\ nd_proxy dn = Some pn /\
    1 <= px_xid pn <= xeth_port_top_vid /\ ~ taken w l (px_xid pn) /\
    (forall z, px_xid pn < z <= xeth_port_top_vid -> taken w l z) /\
    queued w' = queued w ++ announcement w dn pn /\
    xeth_mux_dump_all_ifinfo w' = None /\ xeth_port_uninit nd w' = None.
Proof.
  intros Hr R Hw Hm Hin Hl Ed Ep Epp Hk He Ha Hd Hne Hidx Em.
  destruct (rtnl_newlink_prepares w l nd a index mux d px pp m) as (x & Hx & Hf & Hz & E);
    [done|done|lia|done..|].
  assert (1 <= x) as Hx1.
  { destruct (decide (x = 0)) as [->|]; [|lia].
    pose proof (taken_le w l 1 xeth_port_top_vid ltac:(done)) as Ht.
    unfold xeth_port_top_vid in *. specialize (Ht ltac:(intros; apply Hz; lia)). lia. }
  set (d1 := rtnl_dev d m px pp mux x a) in *. set (w1 := upd_w_devs (insert nd d1) w) in *.
  assert (exists pn, nd_proxy d1 = Some pn /\ px_xid pn = x /\ px_mux pn = Some mux /\
    px_kind pn = XETH_DEV_KIND_PORT /\ exists ppn, px_priv pn = PrivPort ppn /\
    pp_subport ppn = -1 /\ pp_ext ppn = None) as (pn & Epn & Exn & Emn & Ekn & ppn & Eppn & Hsn & Hen).
  { eexists. split; [unfold d1, rtnl_dev; by destruct (ifla_ifname a)|].
    split; [done|]. split; [done|]. split; [done|]. by eexists. }
  destruct (create_run xeth_proxy_init inited xeth_port_uninit w1 l nd d1 pn)
    as (w2 & w3 & dn & E2 & E3 & Cr);
    [apply proxy_inits|done|by apply registry_rep_other|by apply sb_ok_devs|simpl; lia|done
    |apply lookup_insert_eq|done|by rewrite Emn|by rewrite Ekn|lia|].
  destruct (announce_new inited nd d1 pn l w1 w3 dn Cr Hm) as (w' & E4 & _ & Nl);
    [done|done|lia|by rewrite Emn|].
  assert (nd_proxy dn = Some pn) as Epdn.
  { destruct (nl_made _ _ _ _ _ _ _ _ Nl) as (i & _ & ->). exact Epn. }
  assert (no_ext w' nd) as Hno.
  { exists dn, pn, ppn. split; [split; [by destruct Nl|done|done|by rewrite Emn]|].
    split; [done|]. split; [lia|]. split; [lia|done]. }
  pose proof (nl_rep _ _ _ _ _ _ _ _ Nl) as R'.
  exists w', dn, pn. rewrite Exn. split; [|split; [done|split; [by destruct Nl|]]].
  - rewrite E, bind_run, E2, bind_run, E3. exact E4.
  - split; [done|]. split; [lia|]. split; [done|]. split; [done|].
    split; [exact (nl_queued _ _ _ _ _ _ _ _ Nl)|]. split; [|by apply no_ext_uninit].
    rewrite dump_all_run. apply (for_each_no_ext _ _ nd); [|done|by destruct Nl].
    unfold dump_order. rewrite (rep_ports _ _ R'). rewrite !elem_of_app. right. left.
    apply list_elem_of_filter. split; [|left]. unfold kind_of, proxy_at.
    rewrite (nl_dev _ _ _ _ _ _ _ _ Nl). simpl. rewrite Epdn. simpl. by rewrite Ekn.
Qed.

(** ** The low power line of the cage *)

Lemma set_lpmode_run w port v lines :
  mx_lpmode_gpios (w_priv w) = Some lines -> 0 <= port < Z.of_nat (length lines) ->
  set_lpmode port v w =
    Some (tt, upd_w_priv (upd_mx_lpmode_gpios (fun _ => Some (<[Z.to_nat port := v]> lines))) w).
Proof.
  intros El Hp. unfold set_lpmode, xeth_mux_qsfp_lpmode_gpio. rewrite !bind_run.
  unfold get_mux, gets. cbn [mret M_ret]. unfold gpio_at. rewrite El. simpl.
  rewrite (proj2 (Z.leb_le _ _)), (proj2 (Z.ltb_lt _ _)) by lia. simpl.
  unfold mod_mux, modify. do 2 f_equal. destruct w as [? []]. simpl in El. unfold upd_w_priv. simpl.
  unfold upd_mx_lpmode_gpios. simpl. by rewrite El.
Qed.

(** The line of [port] at [v] in the private area of the mux. *)
Definition lpmode_at (port v : Z) (lines : list Z) : xeth_mux_priv -> xeth_mux_priv :=
  upd_mx_lpmode_gpios (fun _ => Some (<[Z.to_nat port := v]> lines)).

Lemma lpmode_sb_ok port v lines w : sb_ok w -> sb_ok (upd_w_priv (lpmode_at port v lines) w).
Proof. intros []. by split. Qed.

Lemma port_open_run w nd d px pp mux m lines :
  port_at w nd d px pp -> px_xid px <> 0 -> px_mux px = Some mux ->
  w_devs w !! mux = Some m -> has_flag (nd_flags m) IFF_UP = true ->
  sb_ok w -> (1 <= w_kmem w)%nat -> mx_lpmode_gpios (w_priv w) = Some lines ->
  0 <= pp_port pp < Z.of_nat (length lines) ->
  exists w', xeth_port_open nd w = Some (0, w') /\
    emits (upd_w_priv (lpmode_at (pp_port pp) 0 lines) w)
      [ifinfo_bytes (w_priv w) d px (nd_flags d) XETH_IFINFO_REASON_UP] w'.
Proof.
  intros P Hx Hmux Em Hup Hw Hm El Hp.
  destruct (ifinfo_run (upd_w_priv (lpmode_at (pp_port pp) 0 lines) w) nd d px (nd_flags d)
    XETH_IFINFO_REASON_UP) as (w1 & E1 & M1);
    [by destruct P|by destruct P|done|by rewrite Hmux|by apply lpmode_sb_ok|done|].
  exists w1. split; [|done]. unfold xeth_port_open. rewrite bind_run.
  erewrite netdev_priv_run by (unfold proxy_at; destruct P as [-> Q ? ?]; exact Q).
  rewrite bind_run, (port_priv_run _ _ _ _ _ P), bind_run, Hmux.
  cbn [deref mret M_ret]. rewrite bind_run, (dev_run _ _ _ Em), Hup. cbn [negb when].
  rewrite bind_run. cbn [mret M_ret]. rewrite bind_run, (set_lpmode_run _ _ _ _ El Hp).
  fold (lpmode_at (pp_port pp) 0 lines). unfold xeth_proxy_open. rewrite bind_run.
  erewrite netdev_priv_run by (unfold proxy_at; simpl; destruct P as [-> Q ? ?]; exact Q).
  rewrite bind_run. erewrite dev_run by (destruct P as [Q ? ? ?]; exact Q).
  rewrite (proj2 (Z.eqb_neq _ _) Hx), Hmux. exact E1.
Qed.

Lemma port_stop_run w nd d px pp lines :
  port_at w nd d px pp -> px_xid px <> 0 -> sb_ok w -> (1 <= w_kmem w)%nat ->
  mx_lpmode_gpios (w_priv w) = Some lines -> 0 <= pp_port pp < Z.of_nat (length lines) ->
  exists w', xeth_port_stop nd w = Some (0, w') /\
    emits (upd_w_priv (lpmode_at (pp_port pp) 1 lines) w)
      [ifinfo_bytes (w_priv w) d px (nd_flags d) XETH_IFINFO_REASON_DOWN] w'.
Proof.
  intros P Hx Hw Hm El Hp. destruct (pa_mux _ _ _ _ _ P) as [mux Hmux].
  destruct (ifinfo_run (upd_w_priv (lpmode_at (pp_port pp) 1 lines) w) nd d px (nd_flags d)
    XETH_IFINFO_REASON_DOWN) as (w1 & E1 & M1);
    [by destruct P|by destruct P|done|by rewrite Hmux|by apply lpmode_sb_ok|done|].
  exists w1. split; [|done]. unfold xeth_port_stop. rewrite bind_run.
  erewrite netdev_priv_run by (unfold proxy_at; destruct P as [-> Q ? ?]; exact Q).
  rewrite bind_run, (port_priv_run _ _ _ _ _ P), bind_run, Hmux. cbn [deref mret M_ret].
  rewrite bind_run, (set_lpmode_run _ _ _ _ El Hp). fold (lpmode_at (pp_port pp) 1 lines).
  unfold xeth_proxy_stop. rewrite bind_run.
  erewrite dev_run by (destruct P as [Q ? ? ?]; exact Q). exact E1.
Qed.

(** While a port is up its cage is not in low power mode: open clears the line
    of the port and of no other, stop sets it, and the daemon is told of both. *)
Theorem open_stop_lpmode w nd d px pp mux m lines :
  port_at w nd d px pp -> px_xid px <> 0 -> px_mux px = Some mux ->
  w_devs w !! mux = Some m -> has_flag (nd_flags m) IFF_UP = true ->
  sb_ok w -> (2 <= w_kmem w)%nat -> mx_lpmode_gpios (w_priv w) = Some lines ->
  0 <= pp_port pp < Z.of_nat (length lines) ->
  exists w1 w2, xeth_port_open nd w = Some (0, w1) /\ xeth_port_stop nd w1 = Some (0, w2) /\
    mx_lpmode_gpios (w_priv w1) = Some (<[Z.to_nat (pp_port pp) := 0]> lines) /\
    mx_lpmode_gpios (w_priv w2) = Some (<[Z.to_nat (pp_port pp) := 1]> lines) /\
    w_devs w2 = w_devs w /\
    queued w2 = queued w ++ (if connected w then
      [ifinfo_bytes (w_priv w) d px (nd_flags d) XETH_IFINFO_REASON_UP;
       ifinfo_bytes (w_priv w) d px (nd_flags d) XETH_IFINFO_REASON_DOWN] else []).
Proof.
  intros P Hx Hmux Em Hup Hw Hm El Hp.
  destruct (port_open_run w nd d px pp mux m lines) as (w1 & E1 & M1); [done..|lia|done|done|].
  pose proof (emits_frame _ _ _ M1) as F1. pose proof (emits_mem _ _ _ M1) as Hm1.
  assert (port_at w1 nd d px pp) as P1.
  { destruct P. split; [|done..]. by rewrite (sb_frame_devs _ _ F1). }
  assert (mx_lpmode_gpios (w_priv w1) = Some (<[Z.to_nat (pp_port pp) := 0]> lines)) as El1.
  { by apply (f_equal (fun w => mx_lpmode_gpios (w_priv w))) in F1. }
  destruct (port_stop_run w1 nd d px pp (<[Z.to_nat (pp_port pp) := 0]> lines) P1 Hx) as (w2 & E2 & M2);
    [by apply emits_ok in M1|simpl in *; lia|exact El1|by rewrite length_insert|].
  pose proof (emits_frame _ _ _ M2) as F2. unfold lpmode_at in M2, F2.
  rewrite list_insert_insert_eq in M2, F2.
  exists w1, w2. split; [done|]. split; [done|]. split; [done|].
  split; [by apply (f_equal (fun w => mx_lpmode_gpios (w_priv w))) in F2|].
  split; [rewrite (sb_frame_devs _ _ F2); simpl; by rewrite (sb_frame_devs _ _ F1)|].
  rewrite (emits_queued _ _ _ M2), (ifinfo_bytes_ext (w_priv w1) (w_priv w))
    by exact (sb_frame_encap _ _ F1).
  pose proof (emits_queued _ _ _ M1) as Q1. pose proof (sb_frame_connected _ _ F1) as C1.
  change (queued w1 = queued w ++ (if connected w then
    [ifinfo_bytes (w_priv w) d px (nd_flags d) XETH_IFINFO_REASON_UP] else [])) in Q1.
  change (connected w1 = connected w) in C1.
  change (queued w1 ++ (if connected w1 then
    [ifinfo_bytes (w_priv w) d px (nd_flags d) XETH_IFINFO_REASON_DOWN] else []) = queued w ++
    (if connected w then [ifinfo_bytes (w_priv w) d px (nd_flags d) XETH_IFINFO_REASON_UP;
      ifinfo_bytes (w_priv w) d px (nd_flags d) XETH_IFINFO_REASON_DOWN] else [])).
  rewrite Q1, C1, <- app_assoc. by destruct (connected w).
Qed.
End port.

(** ** Witnesses *)

Definition demo_alloc : KernelAlloc := fun w => Some (fresh (dom (w_devs w))).
Lemma demo_alloc_laws : KernelAllocLaws (A:=demo_alloc).
Proof.
  intros w nd [= <-]. apply not_elem_of_dom. apply is_fresh.
Qed.
Definition demo_names : KernelNames := fun _ _ => Some 100.

(** The fourth port of the platform, to be split in two, on no I2C bus. *)
Definition demo_pd : port_device :=
  {| pd_id := 3; pd_id_auto := false; pd_index := None; pd_mac := Some [2; 70; 138; 0; 2; 164];
     pd_qsfp_bus := None; pd_mux_name := [] |}.

Lemma demo_port_world : port_world (H:=golden_hash) demo_full [7; 6; 4; 5; 3; 2; 1] 100
  (demo_dev 8 NdoMux (Some LnkoMux) None) 32 2.
Proof.
  split; [exact demo_full_rep|exact demo_full_ok|vm_compute; reflexivity|vm_compute; reflexivity|].
  vm_compute. lia.
Qed.

Lemma probe_makes_ports_witness :
  exists w' nds, xeth_port_probe (K:=plain_dev) (C:=demo_const) (N:=plain_notify) (H:=golden_hash)
      (A:=demo_alloc) (B:=demo_names) (I:=demo_i2c) [1; 1; 1; 2] demo_pd demo_full = Some (0, w') /\
    length nds = 2%nat /\ registry_rep (H:=golden_hash) w' (reverse nds ++ [7; 6; 4; 5; 3; 2; 1]).
Proof.
  destruct (probe_makes_ports (K:=plain_dev) (C:=demo_const) (N:=plain_notify) (H:=golden_hash)
    (A:=demo_alloc) (B:=demo_names) (I:=demo_i2c) (KL:=plain_dev_laws) (HL:=golden_hash_laws)
    (AL:=demo_alloc_laws)) with (provision := [1; 1; 1; 2]) (w := demo_full)
    (l := [7; 6; 4; 5; 3; 2; 1]) (pd := demo_pd) (mux := 100)
    (m := demo_dev 8 NdoMux (Some LnkoMux) None) (ports := 32) (base := 1) as [T _].
  - intros nd. split; reflexivity.
  - intros w. eexists. reflexivity.
  - exact demo_port_world.
  - vm_compute. reflexivity.
  - intros Hb. destruct Hb. reflexivity.
  - split; vm_compute; [discriminate|reflexivity].
  - vm_compute. discriminate.
  - vm_compute. discriminate.
  - destruct T as (w' & nds & E & L & R & _); [reflexivity|].
    exists w', nds. split; [exact E|]. split; [exact L|exact R].
Defined.

(** An rtnl port at 33, set up, with the mux as its link. *)
Definition demo_rtnl_pp : xeth_port_priv :=
  {| pp_port := 0; pp_subport := 0; pp_ksettings := demo_ks; pp_ext := None |}.
Definition demo_rtnl_proxy : xeth_proxy :=
  upd_px_mux (fun _ => None) (demo_proxy XETH_DEV_KIND_PORT 0 (PrivPort demo_rtnl_pp)).
Definition demo_rtnl_dev : net_device :=
  upd_nd_registered (fun _ => false) (demo_dev 0 NdoPort None (Some demo_rtnl_proxy)).
Definition demo_rtnl : world := upd_w_devs (insert 33 demo_rtnl_dev) demo_full.
Definition demo_rtnl_attrs : nlattrs :=
  {| ifla_address := false; ifla_link := Some 8; ifla_ifname := false; ifla_data := None |}.

Lemma demo_rtnl_rep : registry_rep (H:=golden_hash) demo_rtnl [7; 6; 4; 5; 3; 2; 1].
Proof.
  apply registry_rep_other; [|exact demo_full_rep].
  apply (bool_decide_unpack _). vm_compute. exact I.
Qed.
Lemma demo_rtnl_ok : sb_ok demo_rtnl.
Proof. apply sb_ok_devs. exact demo_full_ok. Qed.

Lemma rtnl_port_out_of_bounds_witness :
  exists w', xeth_port_newlink (K:=plain_dev) (C:=demo_const) (N:=plain_notify) (H:=golden_hash)
      7 33 demo_rtnl_attrs demo_rtnl = Some (0, w') /\
    xeth_mux_dump_all_ifinfo (C:=demo_const) w' = None.
Proof.
  destruct (rtnl_port_out_of_bounds (K:=plain_dev) (C:=demo_const) (N:=plain_notify)
    (H:=golden_hash) (KL:=plain_dev_laws) (HL:=golden_hash_laws)) with (w := demo_rtnl)
    (l := [7; 6; 4; 5; 3; 2; 1]) (nd := 33) (a := demo_rtnl_attrs) (index := 8) (mux := 100)
    (d := demo_rtnl_dev) (px := demo_rtnl_proxy) (pp := demo_rtnl_pp)
    (m := demo_dev 8 NdoMux (Some LnkoMux) None)
    as (w' & dn & pn & E & _ & _ & _ & _ & _ & _ & _ & O & _).
  - split; reflexivity.
  - exact demo_rtnl_rep.
  - exact demo_rtnl_ok.
  - vm_compute. lia.
  - apply (bool_decide_unpack _). vm_compute. exact I.
  - vm_compute. reflexivity.
  - apply lookup_insert_eq.
  - reflexivity.
  - reflexivity.
  - reflexivity.
  - reflexivity.
  - reflexivity.
  - reflexivity.
  - discriminate.
  - vm_compute. reflexivity.
  - vm_compute. reflexivity.
  - exists w'. split; [exact E|exact O].
Defined.

Definition demo_lines : list Z := replicate 32 1.

Lemma open_stop_lpmode_witness :
  exists w1 w2, xeth_port_open (K:=plain_dev) (C:=demo_const) (N:=plain_notify)
      2 demo_eth = Some (0, w1) /\
    xeth_port_stop (C:=demo_const) 2 w1 = Some (0, w2) /\
    mx_lpmode_gpios (w_priv w1) = Some (<[1%nat := 0]> demo_lines).
Proof.
  destruct (open_stop_lpmode (K:=plain_dev) (C:=demo_const) (N:=plain_notify))
    with (w := demo_eth) (nd := 2) (d := demo_eth_dev) (px := demo_eth_proxy) (pp := demo_eth_pp)
    (mux := 100) (m := demo_dev 8 NdoMux (Some LnkoMux) None) (lines := demo_lines)
    as (w1 & w2 & E1 & E2 & L & _).
  - exact demo_eth_port.
  - discriminate.
  - reflexivity.
  - vm_compute. reflexivity.
  - reflexivity.
  - exact demo_eth_ok.
  - exact demo_eth_mem.
  - vm_compute. reflexivity.
  - vm_compute. split; [discriminate|reflexivity].
  - exists w1, w2. split; [exact E1|]. split; [exact E2|exact L].
Defined.
