(* ===== verification/Props.v ===== *)
(** * The properties of the mux (dkms/xeth_mux.c)

    What the probe of the mux reads from the firmware: names, numbers, and the
    links, by their addresses or by a list of alternative names. *)

From stdpp Require Import base numbers list gmap.
From Stdlib Require Import ZArith Lia.
From S2P Require Import Prelude Bytes Monad Uapi State Stats Kernel Demo Carrier Netdev Ethtool Qsfp Text Port.

Local Open Scope Z_scope.

Definition xeth_mux_max_links : nat := 8.
Definition xeth_mux_max_qsfp_i2c_addrs : nat := 3.
Definition xeth_mux_max_flags : nat := 8.
Definition COMMA : Z := 44.

(** The properties of the platform device of a mux: None where there is none. *)
Record mux_device := {
  md_compatible : option (list Z);
  md_name : option (list Z);
  md_encap_vpls : bool;
  md_base_port : option Z;
  md_ports : option Z;
  md_link_mac : nat -> option (list Z);  (** link%d-mac-address *)
  md_link_akas : option (list (list Z));
  md_flags : option (list (list Z));
  md_stats : option (list (list Z));
  md_i2c_addrs : option (option (list Z));  (** Some None: there, but cannot be read *)
  md_txqs : option Z;
  md_rxqs : option Z;
}.

(** The devices of init_net, in the order of for_each_netdev. *)
Class KernelNetdevs := netdevs : world -> list Z.

(** ** Names and numbers *)

(** "xeth,mux" and "platina,mk1" *)
Definition s_xeth_mux : list Z := [120; 101; 116; 104; 44; 109; 117; 120].
Definition s_platina_mk1 : list Z := [112; 108; 97; 116; 105; 110; 97; 44; 109; 107; 49].

Definition xeth_mux_compatible_prop (md : mux_device) : list Z := default s_xeth_mux (md_compatible md).
Definition xeth_mux_is_platina_mk1 (md : mux_device) : bool :=
  bool_decide (xeth_mux_compatible_prop md = s_platina_mk1).
Definition xeth_mux_ifname_prop (md : mux_device) : option (list Z) := md_name md.

(** Commas become dashes, up to the NUL. *)
Fixpoint undash (s : list Z) : list Z :=
  match s with
  | [] => []
  | c :: s => if c =? 0 then c :: s else (if c =? COMMA then 45 else c) :: undash s
  end.
Definition xeth_mux_ifname (md : mux_device) : list Z :=
  undash (strncpy IFNAMSIZ (default (xeth_mux_compatible_prop md) (xeth_mux_ifname_prop md))).

Definition xeth_mux_qs_prop (val : option Z) : Z := default 1 val.
Definition xeth_mux_encap_prop (md : mux_device) : xeth_encap :=
  if md_encap_vpls md then XETH_ENCAP_VPLS else XETH_ENCAP_VLAN.
Definition xeth_mux_base_port_prop (md : mux_device) : Z :=
  match md_base_port md with Some val => Z.land val 1 | None => 1 end.
Definition xeth_mux_ports_prop (md : mux_device) : Z := default 32 (md_ports md).

(** "copper", "fec74", "fec91" *)
Definition mk1_flags : list (list Z) :=
  [[99; 111; 112; 112; 101; 114]; [102; 101; 99; 55; 52]; [102; 101; 99; 57; 49]].

(** The names that are stored; their number is what is returned. *)
Definition xeth_mux_flags_prop (md : mux_device) : list (list Z) :=
  strncpy ETH_GSTRING_LEN <$>
  match md_flags md with
  | None | Some [] => if xeth_mux_is_platina_mk1 md then mk1_flags else []
  | Some names => take xeth_mux_max_flags names
  end.
Definition xeth_mux_stats_prop (md : mux_device) : list (list Z) :=
  strncpy ETH_GSTRING_LEN <$> take xeth_mux_max_stats (default [] (md_stats md)).

(** The addresses, ended by I2C_CLIENT_END.  None is a write to [addrs[n]] with a
    negative [n]. *)
Definition xeth_mux_qsfp_i2c_addrs_prop (md : mux_device) : option (list Z) :=
  let addrs := [80; 81; I2C_CLIENT_END] in
  match md_i2c_addrs md with
  | None => Some addrs
  | Some None => None
  | Some (Some vals) =>
      let n := length vals in
      if (xeth_mux_max_qsfp_i2c_addrs <=? n)%nat then Some addrs else
      Some (<[n := I2C_CLIENT_END]> (vals ++ drop n addrs))
  end.

(** ** The links *)

(** The addresses up to the first that is missing or not six bytes long. *)
Fixpoint read_addrs (n a : nat) (md : mux_device) : list (list Z) :=
  match n with
  | O => []
  | S n =>
      match md_link_mac md a with
      | Some addr => if (length addr =? ETH_ALEN)%nat then addr :: read_addrs n (S a) md else []
      | None => []
      end
  end.

(** The inner loop: the links without a device whose address is that of [nd]. *)
Fixpoint match_addrs (nd : Z) (dev_addr : list Z) (addrs : list (list Z)) (links : list (option Z))
    (refs : list Z) : list (option Z) * list Z :=
  match addrs, links with
  | addr :: addrs, link :: links =>
      let hit := bool_decide (link = None) && bool_decide (take ETH_ALEN dev_addr = addr) in
      let '(ls, refs) := match_addrs nd dev_addr addrs links (if hit then hold nd refs else refs) in
      ((if hit then Some nd else link) :: ls, refs)
  | _, _ => (links, refs)
  end.

(** The loop over the devices. *)
Fixpoint match_devs (w : world) (nds : list Z) (addrs : list (list Z)) (links : list (option Z))
    (refs : list Z) : list (option Z) * list Z :=
  match nds with
  | [] => (links, refs)
  | nd :: nds =>
      let '(links, refs) := match_addrs nd (from_option nd_addr [] (w_devs w !! nd)) addrs links refs in
      match_devs w nds addrs links refs
  end.

(** dev_put of all links that were found. *)
Definition put_links (links : list (option Z)) (refs : list Z) : list Z :=
  foldl (fun refs link => match link with Some nd => put nd refs | None => refs end) refs links.

(** What is returned, the links and the references held. *)
Definition xeth_mux_link_addrs {D : KernelNetdevs} (md : mux_device) (w : world)
  : Z * list (option Z) * list Z :=
  let addrs := read_addrs xeth_mux_max_links 0 md in
  if (length addrs =? 0)%nat then (0, [], []) else
  let '(links, refs) := match_devs w (netdevs w) addrs (replicate (length addrs) None) [] in
  if existsb (fun link => bool_decide (link = None)) links
  then (- EPROBE_DEFER, (fun _ => None) <$> links, put_links links refs)
  else (Z.of_nat (length addrs), links, refs).

(** One name up to a comma, cut to [room] bytes, and the rest after the comma. *)
Fixpoint next_name (room : nat) (aka : list Z) : list Z * list Z :=
  match aka with
  | [] => ([], [])
  | c :: aka =>
      if c =? COMMA then ([], aka) else
      match room with
      | O => next_name O aka
      | S room => let '(name, rest) := next_name room aka in (c :: name, rest)
      end
  end.

(** The loop over the names of one link; None is a loop that did not end within
    [fuel] rounds, Some None the end of the names. *)
Fixpoint find_aka {B : KernelNames} (fuel : nat) (w : world) (aka : list Z) : option (option Z) :=
  match aka with
  | [] => Some None
  | _ :: _ =>
      let '(name, rest) := next_name (IFNAMSIZ - 1) aka in
      match dev_by_name w name with
      | Some nd => Some (Some nd)
      | None => match fuel with O => None | S fuel => find_aka fuel w rest end
      end
  end.

(** The loop over the links: the rest of the names, the links so far. *)
Fixpoint link_akas_loop {B : KernelNames} (w : world) (akas : list (list Z)) (links : list Z)
    (refs : list Z) : option (Z * list Z * list Z) :=
  match akas with
  | [] => Some (Z.of_nat (length links), links, refs)
  | aka :: akas =>
      found ← find_aka (length aka) w aka;
      match found with
      | Some nd => link_akas_loop w akas (links ++ [nd]) (hold nd refs)
      | None => Some (- EPROBE_DEFER, links, foldr put refs links)
      end
  end.

Definition xeth_mux_link_akas {B : KernelNames} (md : mux_device) (w : world)
  : option (Z * list Z * list Z) :=
  link_akas_loop w (take xeth_mux_max_links (default [] (md_link_akas md))) [] [].

(** ** References *)

(** Putting back everything that is held leaves nothing. *)
Lemma put_links_all links refs : refs ≡ₚ omap id links -> put_links links refs = [].
Proof.
  unfold put_links. revert refs. induction links as [|[nd|] links IH]; intros refs E; simpl.
  - by apply Permutation_nil_r in E.
  - apply IH, put_perm, E.
  - apply IH, E.
Qed.

Lemma foldr_put_perm links : forall rest refs,
  refs ≡ₚ links ++ rest -> foldr put refs links ≡ₚ rest.
Proof.
  induction links as [|nd links IH]; intros rest refs E; simpl; [done|].
  apply put_perm, IH. rewrite E. simpl. by rewrite Permutation_middle.
Qed.

Lemma put_all links refs : refs ≡ₚ links -> foldr put refs links = [].
Proof. intros E. apply Permutation_nil_r, foldr_put_perm. by rewrite app_nil_r. Qed.

(** What was held before stays. *)
Lemma put_all_app links refs held : refs ≡ₚ links -> foldr put (refs ++ held) links = held.
Proof.
  assert (forall nd r h, nd ∈ r -> put nd (r ++ h) = put nd r ++ h) as Happ.
  { intros nd r h. induction r as [|x r IH]; intros Hin; [by apply elem_of_nil in Hin|]. simpl.
    destruct (Z.eqb_spec x nd) as [|Hne]; [done|]. apply elem_of_cons in Hin as [->|Hin]; [done|].
    simpl. by rewrite IH. }
  intros E. enough (forall rest refs, refs ≡ₚ links ++ rest ->
    foldr put (refs ++ held) links = foldr put refs links ++ held) as Hall.
  { rewrite (Hall []) by (by rewrite app_nil_r). by rewrite put_all. }
  clear E refs. induction links as [|nd links IH]; intros rest refs E; simpl; [done|].
  assert (refs ≡ₚ links ++ nd :: rest) as E' by (rewrite E; simpl; by rewrite Permutation_middle).
  rewrite (IH (nd :: rest)) by done. apply Happ.
  rewrite (foldr_put_perm links (nd :: rest)) by done. left.
Qed.

(** ** The links by their addresses *)

Definition dev_addr (w : world) (nd : Z) : list Z := take ETH_ALEN (from_option nd_addr [] (w_devs w !! nd)).

(** The first device that has an address. *)
Definition first_with (w : world) (nds : list Z) (addr : list Z) : option Z :=
  head (filter (fun nd => dev_addr w nd = addr) nds).

(** A link that was found stays; the others have what [f] gives. *)
Definition fill (f : list Z -> option Z) (addr : list Z) (link : option Z) : option Z :=
  match link with Some nd => Some nd | None => f addr end.

Lemma match_addrs_spec w nd addrs links refs held :
  length addrs = length links -> refs ≡ₚ held ++ omap id links ->
  let '(links', refs') := match_addrs nd (from_option nd_addr [] (w_devs w !! nd)) addrs links refs in
  links' = zip_with (fill (first_with w [nd])) addrs links /\ refs' ≡ₚ held ++ omap id links'.
Proof.
  revert links refs held. induction addrs as [|addr addrs IH]; intros [|link links] refs held Hl Hr;
    simplify_eq/=; [done|].
  unfold first_with, dev_addr. cbn [filter list_filter].
  destruct link as [q|]; simpl.
  - specialize (IH links refs (held ++ [q]) Hl). destruct (match_addrs _ _ _ _ _) as [ls rs].
    destruct IH as [-> IH]; [by rewrite Hr, <- app_assoc|]. split; [done|]. by rewrite IH, <- app_assoc.
  - destruct (decide _) as [E|E].
    + rewrite (bool_decide_eq_true_2 _ E). simpl.
      specialize (IH links (hold nd refs) (held ++ [nd]) Hl). destruct (match_addrs _ _ _ _ _) as [ls rs].
      destruct IH as [-> IH]; [by rewrite <- app_assoc; unfold hold; rewrite Hr; simpl; rewrite Permutation_middle|].
      split; [done|]. by rewrite IH, <- app_assoc.
    + rewrite (bool_decide_eq_false_2 _ E). simpl.
      specialize (IH links refs held Hl). destruct (match_addrs _ _ _ _ _) as [ls rs].
      destruct IH as [-> IH]; done.
Qed.

Lemma first_with_cons w nd nds addr :
  first_with w (nd :: nds) addr = fill (first_with w nds) addr (first_with w [nd] addr).
Proof. unfold first_with. rewrite !filter_cons, filter_nil. by destruct (decide _). Qed.

Lemma match_devs_spec w nds addrs links refs :
  length addrs = length links -> refs ≡ₚ omap id links ->
  let '(links', refs') := match_devs w nds addrs links refs in
  links' = zip_with (fill (first_with w nds)) addrs links /\ refs' ≡ₚ omap id links'.
Proof.
  revert links refs. induction nds as [|nd nds IH]; intros links refs Hl Hr; cbn [match_devs].
  - split; [|done]. clear Hr. revert links Hl.
    induction addrs as [|addr addrs IH]; intros [|[q|] links] Hl; simplify_eq/=; f_equal; by apply IH.
  - pose proof (match_addrs_spec w nd addrs links refs [] Hl Hr) as Hm.
    destruct (match_addrs _ _ _ _ _) as [ls rs]. destruct Hm as [-> Hrs].
    assert (length addrs = length (zip_with (fill (first_with w [nd])) addrs links)) as Hl'
      by (rewrite length_zip_with; lia).
    specialize (IH _ rs Hl' Hrs). destruct (match_devs _ _ _ _ _) as [ls' rs'].
    destruct IH as [-> IH]; split; [|done]. clear. revert links.
    induction addrs as [|addr addrs IH]; intros [|link links]; simpl; try done.
    rewrite IH. f_equal. destruct link; [done|]. symmetry. apply first_with_cons.
Qed.

Lemma fill_replicate f addrs :
  zip_with (fill f) addrs (replicate (length addrs) None) = f <$> addrs.
Proof. induction addrs; simpl; by f_equal. Qed.

Section links.
Context {D : KernelNetdevs} {B : KernelNames}.

Lemma existsb_None (links : list (option Z)) :
  existsb (fun link => bool_decide (link = None)) links = true <-> None ∈ links.
Proof.
  rewrite existsb_exists. split.
  - intros (x & Hx & E%bool_decide_eq_true). subst. by apply list_elem_of_In.
  - intros Hx%list_elem_of_In. exists None. done.
Qed.

Lemma link_addrs_spec md w :
  let addrs := read_addrs xeth_mux_max_links 0 md in
  let found := first_with w (netdevs w) <$> addrs in
  let '(n, links, refs) := xeth_mux_link_addrs md w in
  (addrs = [] -> n = 0 /\ refs = []) /\
  (None ∈ found -> n = - EPROBE_DEFER /\ refs = []) /\
  (None ∉ found -> addrs <> [] ->
     n = Z.of_nat (length addrs) /\ links = found /\ refs ≡ₚ omap id links).
Proof.
  intros addrs. unfold xeth_mux_link_addrs. fold addrs. clearbody addrs.
  destruct (decide (addrs = [])) as [->|Ha].
  { simpl. split; [done|]. split; [|done]. intros Hn. by apply elem_of_nil in Hn. }
  replace (length addrs =? 0)%nat with false by (by destruct addrs).
  pose proof (match_devs_spec w (netdevs w) addrs (replicate (length addrs) None) []) as Hm.
  destruct (match_devs _ _ _ _ _) as [links refs]. destruct Hm as [-> Hr].
  { by rewrite length_replicate. }
  { generalize (length addrs). intros n. induction n; done. }
  rewrite fill_replicate in *. set (found := first_with w (netdevs w) <$> addrs) in *.
  pose proof (existsb_None found) as Hx. destruct (existsb _ found); (split; [done|]; split).
  - intros _. split; [done|]. by apply put_links_all.
  - intros Hn. destruct Hn. by apply Hx.
  - intros Hn%Hx. done.
  - done.
Qed.

(** C23: The loop of the probe over all devices and all links finds what a search per
    link finds: each link is the first device of init_net with its address.  When
    all are found the probe holds one reference for each, and when one is missing
    it is deferred and holds none. *)
Theorem link_addrs_first md w :
  let addrs := read_addrs xeth_mux_max_links 0 md in
  let found := first_with w (netdevs w) <$> addrs in
  let '(n, links, refs) := xeth_mux_link_addrs md w in
  (addrs = [] -> n = 0 /\ refs = []) /\
  (None ∈ found -> n = - EPROBE_DEFER /\ refs = []) /\
  (None ∉ found -> addrs <> [] ->
     n = Z.of_nat (length addrs) /\ links = found /\ refs ≡ₚ omap id links).
Proof. exact (link_addrs_spec md w). Qed.

(** ** The links by their names *)

(** The pieces of a string between its commas. *)
Fixpoint pieces (s : list Z) : list (list Z) :=
  match s with
  | [] => [[]]
  | c :: s =>
      match pieces s with
      | p :: ps => if c =? COMMA then [] :: p :: ps else (c :: p) :: ps
      | [] => []
      end
  end.

(** The names of a list: its pieces, but for an empty one at its end. *)
Definition names (s : list Z) : list (list Z) :=
  if bool_decide (last (pieces s) = Some []) then removelast (pieces s) else pieces s.

(** The first device with one of the names, each cut to the size of a name. *)
Definition first_named (w : world) (ns : list (list Z)) : option Z :=
  head (omap (fun n => dev_by_name w (take (IFNAMSIZ - 1) n)) ns).

Lemma pieces_cons s : exists p ps, pieces s = p :: ps.
Proof.
  induction s as [|c s (p & ps & IH)]; simpl; [eauto|]. rewrite IH. destruct (_ =? _); eauto.
Qed.

Lemma next_name_spec room s :
  s <> [] ->
  exists p ps rest, pieces s = p :: ps /\ next_name room s = (take room p, rest) /\
    (length rest < length s)%nat /\
    (ps = [] -> rest = [] /\ p <> []) /\ (ps <> [] -> pieces rest = ps).
Proof.
  revert room. induction s as [|c s IH]; intros room Hs; [done|]. cbn [pieces next_name].
  destruct (Z.eqb_spec c COMMA) as [->|Hc].
  { destruct (pieces_cons s) as (p & ps & E). rewrite E. exists [], (p :: ps), s.
    rewrite take_nil. repeat split; try done. simpl. lia. }
  destruct s as [|c' s'].
  { simpl. exists [c], [], []. destruct room; simpl; rewrite ?take_nil; repeat split; try done; lia. }
  destruct room as [|room].
  - destruct (IH O) as (p & ps & rest & E & En & Hl & H1 & H2); [done|]. rewrite E, En.
    exists (c :: p), ps, rest. split; [done|]. split; [done|]. split; [simpl in *; lia|].
    split; [|done]. intros Hps. split; [by apply H1|done].
  - destruct (IH room) as (p & ps & rest & E & En & Hl & H1 & H2); [done|]. rewrite E, En.
    exists (c :: p), ps, rest. split; [done|]. split; [done|]. split; [simpl in *; lia|].
    split; [|done]. intros Hps. split; [by apply H1|done].
Qed.

Lemma names_next room s :
  s <> [] ->
  exists p rest, next_name room s = (take room p, rest) /\ (length rest < length s)%nat /\
    names s = p :: names rest.
Proof.
  intros Hs. destruct (next_name_spec room s Hs) as (p & ps & rest & E & En & Hl & H1 & H2).
  exists p, rest. split; [done|]. split; [done|]. unfold names. rewrite E.
  destruct ps as [|q ps].
  - destruct H1 as [-> Hp]; [done|]. simpl. rewrite bool_decide_eq_false_2 by (by intros [= ?]).
    done.
  - rewrite H2 by done. rewrite last_cons_cons. by destruct (bool_decide _).
Qed.

(** The loop over the names ends: each round takes at least one byte. *)
Lemma find_aka_spec fuel w aka :
  (length aka <= fuel)%nat -> find_aka fuel w aka = Some (first_named w (names aka)).
Proof.
  revert aka. induction fuel as [|fuel IH]; intros [|c s] Hl; try done; [simpl in Hl; lia|].
  destruct (names_next (IFNAMSIZ - 1) (c :: s)) as (p & rest & En & Hlen & E); [done|].
  unfold first_named. rewrite E. cbn [find_aka omap list_omap]. rewrite En.
  destruct (dev_by_name w _); [done|]. apply IH. simpl in *. lia.
Qed.

Lemma link_akas_loop_spec w akas links refs :
  refs ≡ₚ links ->
  let found := (fun aka => first_named w (names aka)) <$> akas in
  exists n links' refs', link_akas_loop w akas links refs = Some (n, links', refs') /\
    (None ∈ found -> n = - EPROBE_DEFER /\ refs' = []) /\
    (None ∉ found -> n = Z.of_nat (length links') /\ Some <$> links' = (Some <$> links) ++ found /\
       refs' ≡ₚ links').
Proof.
  revert links refs. induction akas as [|aka akas IH]; intros links refs Hr; cbn [link_akas_loop].
  { eexists _, _, _. split; [done|]. split; [intros Hn; by apply elem_of_nil in Hn|].
    intros _. simpl. by rewrite app_nil_r. }
  rewrite find_aka_spec by done. simpl. destruct (first_named w (names aka)) as [nd|] eqn:E.
  - destruct (IH (links ++ [nd]) (hold nd refs)) as (n & links' & refs' & El & Hn & Hf).
    { unfold hold. by rewrite Hr, Permutation_app_comm. }
    exists n, links', refs'. split; [done|]. split.
    + intros Hin. apply Hn. apply elem_of_cons in Hin as [|]; done.
    + intros Hin. destruct Hf as (-> & Hf & Hp); [by intros ?; apply Hin; right|]. split; [done|]. split; [|done].
      rewrite Hf, fmap_app, <- app_assoc. done.
  - eexists _, _, _. split; [done|]. split; [|intros Hn; exfalso; apply Hn; left].
    intros _. split; [done|]. by apply put_all.
Qed.

Lemma link_akas_spec md w :
  let akas := take xeth_mux_max_links (default [] (md_link_akas md)) in
  let found := (fun aka => first_named w (names aka)) <$> akas in
  exists n links refs, xeth_mux_link_akas md w = Some (n, links, refs) /\
    (None ∈ found -> n = - EPROBE_DEFER /\ refs = []) /\
    (None ∉ found -> n = Z.of_nat (length akas) /\ Some <$> links = found /\ refs ≡ₚ links).
Proof.
  intros akas found. destruct (link_akas_loop_spec w akas [] []) as (n & links & refs & E & H1 & H2); [done|].
  exists n, links, refs. split; [exact E|]. split; [exact H1|]. intros Hn.
  destruct (H2 Hn) as (-> & E2 & E3). split; [|done].
  apply (f_equal length) in E2. rewrite length_app, !length_fmap in E2. simpl in E2. by rewrite E2.
Qed.

(** C24: The search by names ends for every value of the property: each link is the
    first device with one of the names its string lists between commas, every name
    cut to 15 bytes.  When all are found one reference is held for each, and when
    one is missing the probe is deferred with none. *)
Theorem link_akas_ends md w :
  let akas := take xeth_mux_max_links (default [] (md_link_akas md)) in
  let found := (fun aka => first_named w (names aka)) <$> akas in
  exists n links refs, xeth_mux_link_akas md w = Some (n, links, refs) /\
    (None ∈ found -> n = - EPROBE_DEFER /\ refs = []) /\
    (None ∉ found -> n = Z.of_nat (length akas) /\ Some <$> links = found /\ refs ≡ₚ links).
Proof. exact (link_akas_spec md w). Qed.
End links.

(** ** Witnesses *)

(** "eth1" and "eth2" *)
Definition demo_nic_name (i : Z) : list Z := [101; 116; 104; i].
Definition demo_boot_nic (i : Z) : net_device :=
  upd_nd_name (fun _ => demo_nic_name i) (upd_nd_addr (fun _ => [2; 0; 0; 0; 0; i])
    (demo_dev i NdoOther None None)).
Definition demo_boot : world :=
  upd_w_devs (fun _ => list_to_map [(20, demo_boot_nic 49); (21, demo_boot_nic 50)]) demo_world.

Definition demo_netdevs : KernelNetdevs := fun w => (map_to_list (w_devs w)).*1.
Definition boot_names : KernelNames := fun w name =>
  fst <$> find (fun '(_, d) => bool_decide (nd_name d = name)) (map_to_list (w_devs w)).

(** "eth9,eth1" and "eth2," are the names of its links. *)
Definition demo_mk1 : mux_device :=
  {| md_compatible := Some s_platina_mk1; md_name := None; md_encap_vpls := false; md_base_port := None;
     md_ports := None; md_link_mac := fun _ => None;
     md_link_akas := Some [[101; 116; 104; 57; 44; 101; 116; 104; 49]; [101; 116; 104; 50; 44]];
     md_flags := None; md_stats := None; md_i2c_addrs := None; md_txqs := None; md_rxqs := None |}.
(** The same with the address of a link. *)
Definition demo_mk1_addr : mux_device :=
  {| md_compatible := Some s_platina_mk1; md_name := None; md_encap_vpls := false; md_base_port := None;
     md_ports := None; md_link_mac := fun a => match a with O => Some [2; 0; 0; 0; 0; 50] | _ => None end;
     md_link_akas := None; md_flags := None; md_stats := None; md_i2c_addrs := None;
     md_txqs := None; md_rxqs := None |}.

Lemma demo_addr_found :
  first_with demo_boot (netdevs (KernelNetdevs:=demo_netdevs) demo_boot) <$>
    read_addrs xeth_mux_max_links 0 demo_mk1_addr = [Some 21].
Proof. vm_compute. reflexivity. Qed.

Lemma link_addrs_first_witness :
  exists n links refs, xeth_mux_link_addrs (D:=demo_netdevs) demo_mk1_addr demo_boot = (n, links, refs) /\
    links = [Some 21] /\ refs ≡ₚ [21].
Proof.
  pose proof (link_addrs_first (D:=demo_netdevs) demo_mk1_addr demo_boot) as T. cbv zeta in T.
  destruct (xeth_mux_link_addrs demo_mk1_addr demo_boot) as [[n links] refs]. destruct T as (_ & _ & T).
  rewrite demo_addr_found in T. destruct T as (_ & -> & T).
  - apply (bool_decide_unpack _). vm_compute. exact I.
  - discriminate.
  - exists n, [Some 21], refs. split; [reflexivity|]. split; [reflexivity|exact T].
Defined.

Lemma demo_akas_found :
  (fun aka => first_named (B:=boot_names) demo_boot (names aka)) <$>
    take xeth_mux_max_links (default [] (md_link_akas demo_mk1)) = [Some 20; Some 21].
Proof. vm_compute. reflexivity. Qed.

Lemma link_akas_ends_witness :
  exists refs, xeth_mux_link_akas (B:=boot_names) demo_mk1 demo_boot = Some (2, [20; 21], refs) /\
    refs ≡ₚ [20; 21].
Proof.
  destruct (link_akas_ends (B:=boot_names) demo_mk1 demo_boot) as (n & links & refs & E & _ & T).
  rewrite demo_akas_found in T. destruct T as (-> & Hl & T).
  - apply (bool_decide_unpack _). vm_compute. exact I.
  - destruct links as [|x [|y [|]]]; try discriminate Hl. injection Hl as -> ->.
    exists refs. split; [exact E|exact T].
Defined.
