(* ===== verification/Probe.v ===== *)
(** * The platform driver of the mux (dkms/xeth_mux.c)

    The probe makes the mux device of a platform device, adds its links, starts
    its main task and, on a platina,mk1, registers a platform device for each of
    the 32 ports; the removal takes all of this back.  The state is the driver's
    world and what the probe has of the kernel: the rtnl lock, the driver data, and
    the platform devices of the ports. *)

From stdpp Require Import base numbers list gmap.
From Stdlib Require Import ZArith Lia.
From S2P Require Import Prelude Bytes Monad Uapi State Stats Kernel Demo Registry Sbq.
From S2P Require Import Sbtx Proxy Carrier Nb Sbrx Netdev Lower Xid Create Ethtool Qsfp Text Port Props.

Local Open Scope Z_scope.

Record platform := {
  pf_w : world;
  pf_rtnl : bool;  (** the lock is held *)
  pf_drvdata : option Z;
  pf_n_ppds : nat;  (** priv->n_ppds *)
  pf_ppds : list (option port_device);  (** priv->ppds *)
  pf_bus : list port_device;  (** the platform devices of ports the kernel has *)
}.

Definition upd_pf_w (f : world -> world) (s : platform) : platform :=
  {| pf_w := f (pf_w s); pf_rtnl := pf_rtnl s; pf_drvdata := pf_drvdata s;
     pf_n_ppds := pf_n_ppds s; pf_ppds := pf_ppds s; pf_bus := pf_bus s |}.
Definition upd_pf_rtnl (b : bool) (s : platform) : platform :=
  {| pf_w := pf_w s; pf_rtnl := b; pf_drvdata := pf_drvdata s;
     pf_n_ppds := pf_n_ppds s; pf_ppds := pf_ppds s; pf_bus := pf_bus s |}.
Definition upd_pf_drvdata (o : option Z) (s : platform) : platform :=
  {| pf_w := pf_w s; pf_rtnl := pf_rtnl s; pf_drvdata := o;
     pf_n_ppds := pf_n_ppds s; pf_ppds := pf_ppds s; pf_bus := pf_bus s |}.
Definition upd_pf_n_ppds (n : nat) (s : platform) : platform :=
  {| pf_w := pf_w s; pf_rtnl := pf_rtnl s; pf_drvdata := pf_drvdata s;
     pf_n_ppds := n; pf_ppds := pf_ppds s; pf_bus := pf_bus s |}.
Definition upd_pf_ppds (f : list (option port_device) -> list (option port_device)) (s : platform)
  : platform :=
  {| pf_w := pf_w s; pf_rtnl := pf_rtnl s; pf_drvdata := pf_drvdata s;
     pf_n_ppds := pf_n_ppds s; pf_ppds := f (pf_ppds s); pf_bus := pf_bus s |}.
Definition upd_pf_bus (f : list port_device -> list port_device) (s : platform) : platform :=
  {| pf_w := pf_w s; pf_rtnl := pf_rtnl s; pf_drvdata := pf_drvdata s;
     pf_n_ppds := pf_n_ppds s; pf_ppds := pf_ppds s; pf_bus := f (pf_bus s) |}.

#[export] Instance port_device_eq_dec : EqDecision port_device.
Proof. solve_decision. Defined.

(** The kernel's side of a platform driver. *)
Class KernelPlatform := {
  init_ns : net;  (** init_net *)
  (** platform_device_register_full: 0 or an error *)
  register_full_result : platform -> port_device -> Z;
  (** device_create_file *)
  create_file_result : world -> Z;
  (** the lines of gpiod_get_array_optional, by the name of the function *)
  absent_lines : mux_device -> option (list Z);
  int_lines : mux_device -> option (list Z);
  lpmode_lines : mux_device -> option nat;
  reset_lines : mux_device -> option nat;
  (** unregister_netdevice_many of the queue *)
  unregister_netdevice_many : M platform unit;
}.

(** The string in an array, if it ends there. *)
Fixpoint c_string (a : list Z) : option (list Z) :=
  match a with
  | [] => None
  | c :: a => if c =? 0 then Some [] else cons c <$> c_string a
  end.

Section probe.
Context {K : KernelDev} {C : KernelConst} {N : KernelNotify} {H : KernelHash}.
Context {A : KernelAlloc} {B : KernelNames} {D : KernelNetdevs} {P : KernelPlatform}.

(** A program on the driver's world. *)
Definition lift {X} (c : M world X) : M platform X := fun s =>
  match c (pf_w s) with
  | Some (x, w) => Some (x, upd_pf_w (fun _ => w) s)
  | None => None
  end.

Definition ignore_err (c : M platform Z) : M platform unit := c ≫= fun _ => mret tt.

(** A lock that is held is never had again by its holder. *)
Definition rtnl_lock : M platform unit := fun s =>
  if pf_rtnl s then None else Some (tt, upd_pf_rtnl true s).
(** The registration and removal of devices and of their links is documented to
    need the lock; without it nothing is said of what they do. *)
Definition with_rtnl {X} (c : M platform X) : M platform X := fun s =>
  if pf_rtnl s then c s else None.
Definition xeth_rtnl_unlock (val : Z) : M platform Z :=
  modify (upd_pf_rtnl false) ≫= fun _ => mret val.

(** The private area of a mux as it is allocated, zeroed. *)
Definition zero_mux_priv : xeth_mux_priv :=
  {| mx_link := replicate xeth_mux_link_hash_bkts None; mx_hls := replicate xeth_mux_proxy_hash_bkts [];
     mx_ports := []; mx_vlans := []; mx_bridges := []; mx_lags := []; mx_lbs := [];
     mx_counters := replicate xeth_mux_n_counters 0; mx_link_stats := replicate (Z.to_nat XETH_N_LINK_STAT) 0;
     mx_flags := 0; mx_sb_free := []; mx_sb_tx := []; mx_encap := XETH_ENCAP_VLAN; mx_base_port := 0;
     mx_n_ports := 0; mx_fibs := []; mx_chains := []; mx_absent_gpios := None; mx_intr_gpios := None;
     mx_lpmode_gpios := None; mx_reset_gpios := None;
     mx_flag_names := replicate xeth_mux_max_flags (replicate ETH_GSTRING_LEN 0); mx_flag_named := 0;
     mx_stat_names := replicate xeth_mux_max_stats (replicate ETH_GSTRING_LEN 0); mx_stat_named := 0;
     mx_qsfp_addrs := replicate xeth_mux_max_qsfp_i2c_addrs 0; mx_stat_sysfs := false;
     mx_main := false |}.

(** A device as alloc_netdev makes it in init_net, before its setup. *)
Definition new_mux_dev (name : list Z) : net_device :=
  {| nd_name := name; nd_ifindex := 0; nd_flags := 0; nd_priv_flags := 0; nd_features := 0;
     nd_hw_features := 0; nd_carrier := true; nd_addr := []; nd_mtu := 0; nd_min_mtu := 0;
     nd_max_mtu := 0; nd_net := init_ns; nd_ops := NdoOther; nd_lnko := None; nd_master := None;
     nd_lowers := []; nd_ifas := None; nd_ifa6s := None; nd_registered := false;
     nd_needs_free := false; nd_addr_assign_type := 0; nd_eto := None; nd_promiscuity := 0;
     nd_rx_handler := None; nd_proxy := None |}.

(** alloc_netdev_mqs with the setup of the mux: a name without its NUL is a bug the
    kernel stops at, and a device needs a queue each way. *)
Definition alloc_mux (md : mux_device) : M platform (option Z) :=
  name ← deref (c_string (xeth_mux_ifname md));
  new ← lift (gets alloc_netdev);
  match new with
  | Some mux =>
      if (xeth_mux_qs_prop (md_txqs md) <? 1) || (xeth_mux_qs_prop (md_rxqs md) <? 1) then mret None else
      lift (modify (fun w => upd_w_mux (fun _ => mux) (upd_w_priv (fun _ => zero_mux_priv)
        (upd_w_devs (insert mux (new_mux_dev name)) w)))) ≫= fun _ =>
      modify (fun s => upd_pf_n_ppds 0 (upd_pf_ppds (fun _ => replicate 32 None) s)) ≫= fun _ =>
      lift (xeth_mux_setup mux) ≫= fun _ => mret (Some mux)
  | None => mret None
  end.

(** free_netdev *)
Definition free_mux (mux : Z) : M platform unit := lift (modify (upd_w_devs (delete mux))).

(** ** Links *)

(** The links by address, by name if there is no address, and the references. *)
Definition probe_links (md : mux_device) (w : world) : option (Z * list Z * list Z) :=
  let '(n, links, refs) := xeth_mux_link_addrs md w in
  if n =? 0 then xeth_mux_link_akas md w else Some (n, omap id links, refs).

(** dev_put of the links, from the last. *)
Definition put_all_links (links : list Z) : M platform unit :=
  lift (modify (upd_w_refs (fun refs => foldr put refs links))).

(** ** The ports of a platina,mk1 *)

Definition mk1_buses : list Z :=
  [3; 2; 5; 4; 7; 6; 9; 8; 12; 11; 14; 13; 16; 15; 18; 17;
   21; 20; 23; 22; 25; 24; 27; 26; 30; 29; 32; 31; 34; 33; 36; 35].
Definition mk1_alpha_buses : list Z :=
  [2; 3; 4; 5; 6; 7; 8; 9; 11; 12; 13; 14; 15; 16; 17; 18;
   20; 21; 22; 23; 24; 25; 26; 27; 29; 30; 31; 32; 33; 34; 35; 36].

(** The device of a port with its properties. *)
Definition mk1_port_device (name : list Z) (buses : list Z) (port : nat) (ea : Z) : port_device :=
  {| pd_id := Z.of_nat port; pd_id_auto := false; pd_index := None;
     pd_mac := Some (be_bytes ETH_ALEN ea); pd_qsfp_bus := buses !! port; pd_mux_name := name |}.

Definition platform_device_register_full (pd : port_device) : M platform Z :=
  err ← gets (fun s => register_full_result s pd);
  when (err =? 0) (modify (upd_pf_bus (fun bus => bus ++ [pd]))) ≫= fun _ => mret err.

(** The loop over the ports from [port] on, [n] are left; it stops at an error. *)
Fixpoint mk1_ppds (n port : nat) (name buses : list Z) (ea : Z) : M platform unit :=
  match n with
  | O => mret tt
  | S n =>
      let pd := mk1_port_device name buses port ea in
      err ← platform_device_register_full pd;
      if negb (err =? 0) then mret tt else
      modify (upd_pf_ppds (<[port := Some pd]>)) ≫= fun _ =>
      mk1_ppds n (S port) name buses (ea + 1)
  end.

Definition xeth_mux_platina_mk1_ppds (mux : Z) (name : list Z) : M platform unit :=
  m ← lift (dev mux);
  priv ← lift get_mux;
  mk1_ppds 32 0 name (if mx_base_port priv =? 0 then mk1_alpha_buses else mk1_buses)
    (2 + be_val (nd_addr m)).

(** ** The probe *)

(** What the probe reads of the properties into the private area. *)
Definition probe_props (md : mux_device) : M platform unit :=
  let flags := xeth_mux_flags_prop md in
  let stats := xeth_mux_stats_prop md in
  lift (mod_mux (fun priv =>
    upd_mx_encap (fun _ => xeth_mux_encap_prop md)
    (upd_mx_base_port (fun _ => xeth_mux_base_port_prop md)
    (upd_mx_n_ports (fun _ => xeth_mux_ports_prop md)
    (upd_mx_flag_names (fun l => flags ++ drop (length flags) l)
    (upd_mx_flag_named (fun _ => Z.of_nat (length flags))
    (upd_mx_stat_names (fun l => stats ++ drop (length stats) l)
    (upd_mx_stat_named (fun _ => Z.of_nat (length stats)) priv)))))))) ≫= fun _ =>
  addrs ← deref (xeth_mux_qsfp_i2c_addrs_prop md);
  lift (mod_mux (upd_mx_qsfp_addrs (fun _ => addrs))).

Definition probe_stat_name : M platform unit :=
  priv ← lift get_mux;
  when (mx_stat_named priv =? 0) (
    err ← lift (gets create_file_result);
    when (err =? 0) (
      lift (modify (upd_w_stat_file (fun _ => true))) ≫= fun _ =>
      lift (mod_mux (upd_mx_stat_sysfs (fun _ => true))))).

(** The lines of the cages; those of low power mode are set high, of reset low. *)
Definition gpios_priv (md : mux_device) (priv : xeth_mux_priv) : xeth_mux_priv :=
  upd_mx_absent_gpios (fun _ => absent_lines md)
    (upd_mx_intr_gpios (fun _ => int_lines md)
    (upd_mx_lpmode_gpios (fun _ => (fun n => replicate n 1) <$> lpmode_lines md)
    (upd_mx_reset_gpios (fun _ => (fun n => replicate n 0) <$> reset_lines md) priv))).
Definition probe_gpios (md : mux_device) : M platform unit := lift (mod_mux (gpios_priv md)).

(** The address of the first link, or a random one. *)
Definition probe_addr (mux : Z) (links : list Z) : M world unit :=
  match links with link :: _ => eth_hw_addr_inherit mux link | [] => eth_hw_addr_random mux end.

(** From the registered device on nothing fails. *)
Definition probe_rest (md : mux_device) (mux : Z) (links : list Z) : M platform Z :=
  probe_stat_name ≫= fun _ =>
  for_each links (fun link => ignore_err (with_rtnl (lift (xeth_mux_add_lower mux link)))) ≫= fun _ =>
  err ← lift (gets kthread_result);
  lift (mod_mux (upd_mx_main (fun _ => err =? 0))) ≫= fun _ =>
  modify (upd_pf_drvdata (Some mux)) ≫= fun _ =>
  probe_gpios md ≫= fun _ =>
  modify (upd_pf_n_ppds 32) ≫= fun _ =>
  name ← deref (c_string (xeth_mux_ifname md));
  (if xeth_mux_is_platina_mk1 md then xeth_mux_platina_mk1_ppds mux name
   else oops (** mk_ppds is NULL *)) ≫= fun _ =>
  xeth_rtnl_unlock 0.

Definition xeth_mux_probe (md : mux_device) : M platform Z :=
  rtnl_lock ≫= fun _ =>
  w ← gets pf_w;
  found ← deref (probe_links md w);
  let '(n_links, links, refs) := found in
  lift (modify (upd_w_refs (app refs))) ≫= fun _ =>
  if n_links <? 0 then xeth_rtnl_unlock n_links else
  new ← alloc_mux md;
  match new with
  | None => put_all_links links ≫= fun _ => xeth_rtnl_unlock (- ENOMEM)
  | Some mux =>
      probe_props md ≫= fun _ =>
      lift (probe_addr mux links) ≫= fun _ =>
      err ← with_rtnl (lift (register_netdevice (fun _ => mret 0) (xeth_mux_uninit (mret tt)) mux));
      if err <? 0 then
        put_all_links links ≫= fun _ =>
        free_mux mux ≫= fun _ =>
        xeth_rtnl_unlock err
      else probe_rest md mux links
  end.

(** ** The removal *)


(** ** Running on the world *)

Lemma lift_run {X} (c : M world X) s x w :
  c (pf_w s) = Some (x, w) -> lift c s = Some (x, upd_pf_w (fun _ => w) s).
Proof. intros E. unfold lift. by rewrite E. Qed.

Lemma lift_inv {X} (c : M world X) s x s' :
  lift c s = Some (x, s') -> exists w, c (pf_w s) = Some (x, w) /\ s' = upd_pf_w (fun _ => w) s.
Proof. unfold lift. destruct (c (pf_w s)) as [[y w]|]; [|done]. intros [= <- <-]. eauto. Qed.

Lemma with_rtnl_inv {X} (c : M platform X) s x s' :
  with_rtnl c s = Some (x, s') -> pf_rtnl s = true /\ c s = Some (x, s').
Proof. unfold with_rtnl. by destruct (pf_rtnl s). Qed.

Lemma with_rtnl_run {X} (c : M platform X) s : pf_rtnl s = true -> with_rtnl c s = c s.
Proof. intros E. unfold with_rtnl. by rewrite E. Qed.

(** Run the lifted program that [E] is about. *)
Ltac lift_with E :=
  match type of E with
  | ?c _ = Some (?x, ?w) =>
      match goal with |- context [lift c ?s] => rewrite (lift_run c s x w E) end
  end.

(** ** The new mux *)

Context {KL : KernelDevLaws} {AL : KernelAllocLaws} {HL : KernelHashLaws}.

(** The mux as the setup left it, and nothing else touched. *)
Record mux_ready (w0 : world) (mux : Z) (name : list Z) (w : world) (m : net_device) : Prop := {
  mr_mux : w_mux w = mux;
  mr_rep : registry_rep w [];
  mr_ok : sb_ok w;
  mr_queued : queued w = [];
  mr_chains : mx_chains (w_priv w) = [];
  mr_flags : mx_flags (w_priv w) = 0;
  mr_link : length (mx_link (w_priv w)) = xeth_mux_link_hash_bkts;
  mr_dev : w_devs w !! mux = Some m;
  mr_name : nd_name m = name;
  mr_ops : is_xeth_mux m = true;
  mr_lowers : nd_lowers m = [];
  mr_other : forall p, p <> mux -> w_devs w !! p = w_devs w0 !! p;
  mr_mem : w_kmem w = w_kmem w0;
  mr_refs : w_refs w = w_refs w0;
}.

(** The private area after the setup. *)
Definition setup_priv : xeth_mux_priv :=
  upd_mx_link_stats (fun _ => xeth_link_stat_init) (upd_mx_counters (fun _ => xeth_mux_counter_init)
    zero_mux_priv).

Lemma alloc_mux_run md s mux name :
  c_string (xeth_mux_ifname md) = Some name -> alloc_netdev (pf_w s) = Some mux ->
  1 <= xeth_mux_qs_prop (md_txqs md) -> 1 <= xeth_mux_qs_prop (md_rxqs md) ->
  exists w m, alloc_mux md s = Some (Some mux,
      upd_pf_w (fun _ => w) (upd_pf_n_ppds 0 (upd_pf_ppds (fun _ => replicate 32 None) s))) /\
    mux_ready (pf_w s) mux name w m /\ w_priv w = setup_priv.
Proof.
  intros Hn Ha Ht Hr. unfold alloc_mux. rewrite Hn. cbn [deref]. rewrite bind_run. cbn [mret M_ret].
  rewrite bind_run, (lift_run _ _ (Some mux) (pf_w s)) by (unfold gets; by rewrite Ha).
  replace (xeth_mux_qs_prop (md_txqs md) <? 1) with false by (symmetry; apply Z.ltb_ge; lia).
  replace (xeth_mux_qs_prop (md_rxqs md) <? 1) with false by (symmetry; apply Z.ltb_ge; lia).
  cbn [orb]. rewrite !bind_run. unfold modify at 1. rewrite (lift_run _ _ tt _ eq_refl).
  rewrite bind_run. unfold modify at 1. rewrite bind_run.
  match goal with |- context [lift (xeth_mux_setup mux) ?s1] => set (s1' := s1) end.
  assert (w_devs (pf_w s1') !! mux = Some (new_mux_dev name)) as Ed by apply lookup_insert_eq.
  destruct (setup_establishes mux (pf_w s1') _ Ed) as (w' & d' & E & R & O & Q & Ed' & Hops & _ & Ho).
  rewrite (lift_run _ _ _ _ E). exists w', d'. split; [done|].
  unfold xeth_mux_setup in E. rewrite bind_run, (mod_dev_run _ _ _ _ Ed) in E.
  injection E as E. assert (w_priv w' = setup_priv) as Ep by (by rewrite <- E).
  assert (w_mux w' = mux) as Emx by (by rewrite <- E).
  assert (nd_name d' = name /\ nd_lowers d' = []) as [En El].
  { rewrite <- E in Ed'. simpl in Ed'. rewrite lookup_insert_eq in Ed'. injection Ed' as <-. simpl.
    destruct (ether_setup_law (upd_nd_needs_free (fun _ => true)
      (upd_nd_eto (fun _ => Some EtoMux) (upd_nd_ops (fun _ => NdoMux) (new_mux_dev name)))))
      as (_ & _ & _ & _ & El). by rewrite ether_setup_name, El. }
  split; [|done]. split; try done; try (by rewrite Ep); [|by rewrite <- E..].
  intros p Hp. rewrite Ho by done. simpl. by rewrite lookup_insert_ne.
Qed.

(** The private area has what the properties say. *)
Record props_read (md : mux_device) (priv : xeth_mux_priv) : Prop := {
  pr_encap : mx_encap priv = xeth_mux_encap_prop md;
  pr_base : mx_base_port priv = xeth_mux_base_port_prop md;
  pr_ports : mx_n_ports priv = xeth_mux_ports_prop md;
  pr_flags : take (Z.to_nat (mx_flag_named priv)) (mx_flag_names priv) = xeth_mux_flags_prop md;
  pr_stats : take (Z.to_nat (mx_stat_named priv)) (mx_stat_names priv) = xeth_mux_stats_prop md;
  pr_names : names_ok priv;
  pr_addrs : xeth_mux_qsfp_i2c_addrs_prop md = Some (mx_qsfp_addrs priv);
}.

Lemma length_strncpy n s : length (strncpy n s) = n.
Proof.
  revert s. induction n as [|n IH]; intros [|c s]; simpl; try done; [by rewrite length_replicate|].
  destruct (c =? 0); simpl; by rewrite ?length_replicate, ?IH.
Qed.

Lemma take_overlay {X} (l1 l2 : list X) : take (Z.to_nat (Z.of_nat (length l1))) (l1 ++ drop (length l1) l2) = l1.
Proof. by rewrite Nat2Z.id, take_app_length. Qed.

(** Names over zeroed entries are a table of names. *)
Lemma stats_overlay md :
  let stats := xeth_mux_stats_prop md in
  let l := stats ++ drop (length stats) (replicate xeth_mux_max_stats (replicate ETH_GSTRING_LEN 0)) in
  length l = xeth_mux_max_stats /\ Forall (fun name => length name = ETH_GSTRING_LEN) l /\
  (length stats <= xeth_mux_max_stats)%nat.
Proof.
  intros stats l. assert (length stats <= xeth_mux_max_stats)%nat as Hl.
  { unfold stats, xeth_mux_stats_prop. rewrite length_fmap, length_take. lia. }
  split; [|split; [|done]].
  - unfold l. rewrite length_app, length_drop, length_replicate. lia.
  - unfold l. apply Forall_app. split.
    + unfold stats, xeth_mux_stats_prop. apply Forall_fmap, Forall_true. intros x.
      apply length_strncpy.
    + apply Forall_drop, Forall_replicate. by rewrite length_replicate.
Qed.

Lemma probe_props_run md s w0 mux name m :
  is_Some (xeth_mux_qsfp_i2c_addrs_prop md) -> mux_ready w0 mux name (pf_w s) m ->
  w_priv (pf_w s) = setup_priv ->
  exists w, probe_props md s = Some (tt, upd_pf_w (fun _ => w) s) /\
    mux_ready w0 mux name w m /\ props_read md (w_priv w) /\ mx_stat_sysfs (w_priv w) = false.
Proof.
  intros [addrs Ha] Hr Hp. destruct s as [[wm wp ? ? ? ? ? ? ? ?] ? ? ? ? ?]. simpl in Hr, Hp. subst wp.
  unfold probe_props. rewrite !bind_run. rewrite (lift_run _ _ tt _ eq_refl).
  rewrite Ha, bind_run. cbn [deref mret M_ret]. rewrite (lift_run _ _ tt _ eq_refl).
  eexists. split; [reflexivity|]. destruct Hr as [].
  destruct (stats_overlay md) as (L1 & L2 & L3). split; [|split; [|done]].
  - split; try done; simpl in *; try (by destruct mr_rep0); try (by destruct mr_ok0).
  - split; simpl; try done; try apply take_overlay. split; simpl; try done. lia.
Qed.

(** The address the mux gets: that of its first link, or a random one. *)
Definition mux_addr (w : world) (mux : Z) (links : list Z) (addr : list Z) : Prop :=
  match links with
  | link :: _ => exists d, w_devs w !! link = Some d /\ nd_addr d = addr
  | [] => random_addr w mux = addr
  end.

Lemma mux_ready_dev w0 mux name w m f :
  mux_ready w0 mux name w m -> nd_name (f m) = nd_name m -> nd_ops (f m) = nd_ops m ->
  nd_lowers (f m) = nd_lowers m ->
  mux_ready w0 mux name (upd_w_devs (insert mux (f m)) w) (f m).
Proof.
  intros [] Hn Ho Hl. split; simpl; try done.
  - destruct mr_rep0. by split.
  - by destruct mr_ok0.
  - apply lookup_insert_eq.
  - by rewrite Hn.
  - unfold is_xeth_mux. by rewrite Ho.
  - by rewrite Hl.
  - intros p Hp. rewrite lookup_insert_ne by done. auto.
Qed.

Lemma probe_addr_ready w0 mux name w m links u w' :
  mux_ready w0 mux name w m -> probe_addr mux links w = Some (u, w') ->
  exists m', mux_ready w0 mux name w' m' /\ w_priv w' = w_priv w /\ mux_addr w mux links (nd_addr m').
Proof.
  intros R. pose proof (mr_dev _ _ _ _ _ R) as Ed. destruct links as [|link links]; simpl.
  - unfold eth_hw_addr_random. rewrite bind_run. unfold gets. rewrite (mod_dev_run _ _ _ _ Ed).
    intros [= _ <-]. eexists. split; [by apply (mux_ready_dev _ _ _ _ _ (fun d => _) R)|]. done.
  - unfold eth_hw_addr_inherit. intros E. bind_step E. apply dev_inv in E0 as [-> El].
    rewrite (mod_dev_run _ _ _ _ Ed) in E. injection E as _ <-.
    eexists. split; [by apply (mux_ready_dev _ _ _ _ _ (fun d => _) R)|]. split; [done|]. by exists a.
Qed.

Lemma probe_addr_run w0 mux name w m links :
  mux_ready w0 mux name w m -> Forall (fun p => is_Some (w_devs w0 !! p)) links -> (mux ∉ links) ->
  exists w', probe_addr mux links w = Some (tt, w').
Proof.
  intros R Hl Hn. pose proof (mr_dev _ _ _ _ _ R) as Ed. destruct Hl as [|link links [d Hd] _]; simpl.
  - unfold eth_hw_addr_random. rewrite bind_run. unfold gets. rewrite (mod_dev_run _ _ _ _ Ed). eauto.
  - unfold eth_hw_addr_inherit. rewrite bind_run, (dev_run _ _ d).
    + rewrite (mod_dev_run _ _ _ _ Ed). eauto.
    + rewrite (mr_other _ _ _ _ _ R); [done|]. intros ->. apply Hn. left.
Qed.

(** ** Registration *)

Lemma quiet_notify event nd w :
  mx_chains (w_priv w) = [] -> call_netdevice_notifiers event nd w = Some (tt, w).
Proof.
  intros E. unfold call_netdevice_notifiers. rewrite bind_run. unfold get_mux, gets. rewrite E. done.
Qed.

(** The removal of a mux without links, whose task does not run. *)
Lemma quiet_uninit w0 mux name w m :
  mux_ready w0 mux name w m ->
  exists lk, xeth_mux_uninit (mret tt) mux w = Some (tt, upd_w_priv (upd_mx_link lk) w).
Proof.
  intros R. unfold xeth_mux_uninit. rewrite bind_run. unfold xeth_mux_has, gets, flag_has.
  rewrite (mr_flags _ _ _ _ _ R), Z.testbit_0_l. cbn [when]. rewrite bind_run. cbn [mret M_ret].
  rewrite bind_run, (dev_run _ _ _ (mr_dev _ _ _ _ _ R)), (mr_lowers _ _ _ _ _ R). cbn [for_each].
  rewrite bind_run. cbn [mret M_ret]. eexists. reflexivity.
Qed.

Lemma register_mux w0 mux name w m :
  mux_ready w0 mux name w m ->
  exists r w', register_netdevice (fun _ => mret 0) (xeth_mux_uninit (mret tt)) mux w = Some (r, w') /\
    (forall p, p <> mux -> w_devs w' !! p = w_devs w0 !! p) /\ w_refs w' = w_refs w0 /\
    (register_early w mux = 0 -> register_late w mux = 0 -> r = 0) /\
    (r = 0 -> exists m', mux_ready w0 mux name w' m' /\ nd_registered m' = true /\
       nd_addr m' = nd_addr m /\ w_priv w' = w_priv w).
Proof.
  intros R. unfold register_netdevice.
  rewrite (and_then_run _ _ w (register_early w mux) w eq_refl).
  destruct (Z.eqb_spec (register_early w mux) 0) as [He|He].
  2: { eexists _, _. split; [done|]. split; [apply R|]. split; [apply R|]. done. }
  rewrite (and_then_run _ _ w 0 w eq_refl). cbn [Z.eqb]. rewrite bind_run. unfold gets at 1.
  destruct (Z.eqb_spec (register_late w mux) 0) as [Hl|Hl].
  - rewrite bind_run. unfold gets. rewrite bind_run, (mod_dev_run _ _ _ _ (mr_dev _ _ _ _ _ R)).
    pose proof (mux_ready_dev _ _ _ _ _ (fun d => upd_nd_registered (fun _ => true)
      (upd_nd_ifindex (fun _ => new_ifindex w) d)) R eq_refl eq_refl eq_refl) as R'.
    rewrite bind_run, quiet_notify by apply R'.
    eexists 0, _. split; [done|]. split; [apply R'|]. split; [apply R'|]. split; [done|]. intros _. eexists. by split; [exact R'|].
  - destruct (quiet_uninit _ _ _ _ _ R) as [lk E]. rewrite bind_run, E.
    eexists _, _. split; [done|]. split; [apply R|]. split; [apply R|]. done.
Qed.

(** ** What a failed probe leaves *)

Lemma probe_links_refs md w n links refs :
  probe_links md w = Some (n, links, refs) ->
  (n < 0 -> refs = []) /\ (0 <= n -> refs ≡ₚ links).
Proof.
  unfold probe_links. pose proof (link_addrs_spec md w) as Ha.
  destruct (xeth_mux_link_addrs md w) as [[n1 links1] refs1]. destruct Ha as (H1 & H2 & H3).
  destruct (link_akas_spec md w) as (n2 & links2 & refs2 & -> & G1 & G2).
  set (addrs := read_addrs xeth_mux_max_links 0 md) in *.
  set (found := first_with w (netdevs w) <$> addrs) in *.
  set (akas := take xeth_mux_max_links (default [] (md_link_akas md))) in *.
  set (found2 := (fun aka => first_named w (names aka)) <$> akas) in *.
  destruct (Z.eqb_spec n1 0) as [Hz|Hz]; intros [= <- <- <-].
  - destruct (decide (None ∈ found2)) as [Hf|Hf].
    + destruct (G1 Hf) as [-> ->]. unfold EPROBE_DEFER. split; [done|lia].
    + destruct (G2 Hf) as (-> & _ & G). split; [lia|done].
  - destruct (decide (addrs = [])) as [He|He]; [by destruct (H1 He)|].
    destruct (decide (None ∈ found)) as [Hf|Hf].
    + destruct (H2 Hf) as [-> ->]. unfold EPROBE_DEFER. split; [done|lia].
    + destruct (H3 Hf He) as (-> & _ & G). split; [lia|done].
Qed.

Lemma rtnl_unlock_inv val s r s' :
  xeth_rtnl_unlock val s = Some (r, s') -> r = val /\ s' = upd_pf_rtnl false s.
Proof. unfold xeth_rtnl_unlock. rewrite bind_run. unfold modify. by intros [= <- <-]. Qed.

Lemma probe_rest_inv md mux links s r s' :
  probe_rest md mux links s = Some (r, s') -> r = 0 /\ pf_rtnl s' = false.
Proof.
  unfold probe_rest. intros E. do 9 bind_step E. apply rtnl_unlock_inv in E as [-> ->]. done.
Qed.

Lemma free_restores (w0 w : world) mux :
  w_devs w0 !! mux = None -> (forall p, p <> mux -> w_devs w !! p = w_devs w0 !! p) ->
  forall p, delete mux (w_devs w) !! p = w_devs w0 !! p.
Proof.
  intros Hm Ho p. destruct (decide (p = mux)) as [->|Hp]; [by rewrite lookup_delete_eq|].
  rewrite lookup_delete_ne by done. auto.
Qed.

Lemma alloc_mux_cases md s r s1 :
  alloc_mux md s = Some (r, s1) ->
  (r = None /\ s1 = s) \/
  exists mux name w m, r = Some mux /\ w_devs (pf_w s) !! mux = None /\
    s1 = upd_pf_w (fun _ => w) (upd_pf_n_ppds 0 (upd_pf_ppds (fun _ => replicate 32 None) s)) /\
    mux_ready (pf_w s) mux name w m /\ w_priv w = setup_priv.
Proof.
  intros E. pose proof E as E'. unfold alloc_mux in E'. bind_step E'.
  destruct (c_string (xeth_mux_ifname md)) as [name|] eqn:En; [|done]. injection E0 as -> <-.
  bind_step E'. apply lift_inv in E0 as (w & Ew & ->). injection Ew as Ha <-.
  replace (upd_pf_w (fun _ => pf_w s) s) with s in E' by (by destruct s). destruct a0 as [mux|].
  2: { injection E' as <- <-. by left. }
  destruct (Z.ltb_spec (xeth_mux_qs_prop (md_txqs md)) 1); [injection E' as <- <-; by left|].
  destruct (Z.ltb_spec (xeth_mux_qs_prop (md_rxqs md)) 1); [injection E' as <- <-; by left|].
  destruct (alloc_mux_run md s mux a En Ha) as (w1 & m & Ew & R & Hp); [done..|].
  rewrite Ew in E. injection E as <- <-. right. exists mux, a, w1, m.
  split; [done|]. split; [by apply (alloc_netdev_fresh (pf_w s))|]. done.
Qed.

(** What a platform has that a failed probe leaves as it was. *)
Record probe_undone (s s' : platform) : Prop := {
  pu_refs : w_refs (pf_w s') = w_refs (pf_w s);
  pu_drvdata : pf_drvdata s' = pf_drvdata s;
  pu_bus : pf_bus s' = pf_bus s;
  pu_devs : forall p, w_devs (pf_w s') !! p = w_devs (pf_w s) !! p;
}.

(** C13: The probe of a mux always releases the rtnl lock; and when it fails, be it
    that a link is missing, there is no memory or the device cannot be registered,
    it holds no reference to a link it did not hold before, has freed its device, and has neither set
    driver data nor registered a port. *)
Theorem probe_failure_clean md s err s' :
  xeth_mux_probe md s = Some (err, s') ->
  pf_rtnl s' = false /\ (err <> 0 -> probe_undone s s').
Proof.
  unfold xeth_mux_probe. intros E. bind_step E. unfold rtnl_lock in E0.
  destruct (pf_rtnl s); [done|]. injection E0 as _ <-. bind_step E. injection E0 as <- <-.
  bind_step E. simpl in E0. destruct (probe_links md (pf_w s)) as [[[n links] refs]|] eqn:El; [|done].
  injection E0 as <- <-. bind_step E. apply lift_inv in E0 as (w0 & Ew & ->). injection Ew as _ <-.
  destruct (probe_links_refs _ _ _ _ _ El) as [Hneg Hpos]. destruct (Z.ltb_spec n 0) as [Hn|Hn].
  { apply rtnl_unlock_inv in E as [-> ->]. split; [done|]. intros _. split; simpl; auto. by rewrite Hneg. }
  bind_step E. apply alloc_mux_cases in E0 as [[-> ->]|(mux & name & w & m & -> & Hf & -> & R & Hp)].
  { bind_step E. apply lift_inv in E0 as (w0 & Ew & ->). injection Ew as _ <-.
    apply rtnl_unlock_inv in E as [-> ->]. split; [done|].
    intros _. split; simpl; auto. by apply put_all_app, Hpos. }
  bind_step E. destruct (xeth_mux_qsfp_i2c_addrs_prop md) as [addrs|] eqn:Eq.
  2: { unfold probe_props in E0. by rewrite Eq in E0. }
  simpl in R, Hf. set (w0 := upd_w_refs (app refs) (pf_w s)) in *.
  match type of E0 with probe_props _ ?s0 = _ =>
    destruct (probe_props_run md s0 w0 mux name m (ex_intro _ addrs Eq) R Hp)
      as (w1 & E1 & R1 & _) end. rewrite E1 in E0. injection E0 as _ <-.
  bind_step E. apply lift_inv in E0 as (w2 & E2 & ->).
  apply (probe_addr_ready _ _ _ _ _ _ _ _ R1) in E2 as (m2 & R2 & _).
  bind_step E. apply with_rtnl_inv in E0 as [_ E0]. apply lift_inv in E0 as (w3 & E3 & ->).
  destruct (register_mux _ _ _ _ _ R2) as (r & w4 & E4 & Ho & Hrefs & _). simpl in E3, E4. rewrite E4 in E3.
  injection E3 as <- <-. destruct (Z.ltb_spec r 0) as [Hr|Hr].
  - bind_step E. apply lift_inv in E0 as (w5 & E5 & ->). injection E5 as _ <-.
    bind_step E. apply lift_inv in E0 as (w5 & E5 & ->).
    injection E5 as _ <-. apply rtnl_unlock_inv in E as [-> ->]. split; [done|]. intros _. split; simpl; auto.
    + rewrite Hrefs. simpl. by apply put_all_app, Hpos.
    + by apply (free_restores w0).
  - apply probe_rest_inv in E as [-> E]. done.
Qed.

(** ** The links of a new mux *)

(** [w0] with links added to the mux: only they and the mux's list and table of
    links may differ. *)
Record linking (w0 : world) (mux : Z) (m0 : net_device) (links : list Z) (w : world) : Prop := {
  lk_frame : w = upd_w_priv (upd_mx_link (fun _ => mx_link (w_priv w))) (upd_w_devs (fun _ => w_devs w) w0);
  lk_mux : exists ls, w_devs w !! mux = Some (upd_nd_lowers (fun _ => ls) m0);
  lk_alive : forall p, p ∈ links -> is_Some (w_devs w !! p);
  lk_other : forall p, p ∉ mux :: links -> w_devs w !! p = w_devs w0 !! p;
}.

(** No oops, and the invariant again. *)
Definition keeps (I : world -> Prop) {X} (c : M world X) : Prop := triple I c (fun _ => I).

Lemma keeps_ret I {X} (x : X) : keeps I (mret x).
Proof. by apply triple_ret. Qed.
Lemma keeps_gets I {X} (f : world -> X) : keeps I (gets f).
Proof. by apply triple_gets. Qed.
Lemma keeps_bind I {X Y} (c : M world X) (k : X -> M world Y) :
  keeps I c -> (forall x, keeps I (k x)) -> keeps I (c ≫= k).
Proof. intros Hc Hk. by eapply triple_bind. Qed.
Lemma keeps_when I b c : keeps I c -> keeps I (when b c).
Proof. destruct b; [done|]. intros _. apply keeps_ret. Qed.
Lemma keeps_and_then I c k : keeps I c -> keeps I k -> keeps I (and_then c k).
Proof. intros Hc Hk. apply keeps_bind; [done|]. intros x. destruct (x =? 0); [done|apply keeps_ret]. Qed.

Section linking.
Context (w0 : world) (mux : Z) (m0 : net_device) (links : list Z) (Hmux : mux ∉ links).
Abbreviation I := (linking w0 mux m0 links).

Lemma keeps_dev p : p = mux \/ p ∈ links -> keeps I (dev p).
Proof.
  intros Hp w Hw. assert (is_Some (w_devs w !! p)) as [d Ed].
  { destruct Hp as [->|Hp]; [|by apply (lk_alive _ _ _ _ _ Hw)].
    destruct (lk_mux _ _ _ _ _ Hw) as [ls ->]. done. }
  exists d, w. by rewrite (dev_run _ _ _ Ed).
Qed.

Lemma keeps_mod_link p f : p ∈ links -> keeps I (mod_dev p f).
Proof.
  intros Hp w Hw. destruct (lk_alive _ _ _ _ _ Hw p Hp) as [d Ed]. eexists _, _.
  split; [apply (mod_dev_run _ _ _ _ Ed)|]. destruct Hw as [Hf [ls Hm] Ha Ho].
  assert (p <> mux) as Hne by (by intros ->). split; simpl.
  - rewrite Hf at 1. done.
  - exists ls. by rewrite lookup_insert_ne.
  - intros q Hq. destruct (decide (q = p)) as [->|]; [rewrite lookup_insert_eq; eauto|].
    rewrite lookup_insert_ne by done. auto.
  - intros q Hq. rewrite lookup_insert_ne; [auto|]. intros ->. apply Hq. by right.
Qed.

Lemma keeps_mod_lowers f : keeps I (mod_dev mux (upd_nd_lowers f)).
Proof.
  intros w Hw. destruct (lk_mux _ _ _ _ _ Hw) as [ls Ed]. eexists _, _.
  split; [apply (mod_dev_run _ _ _ _ Ed)|]. destruct Hw as [Hf _ Ha Ho]. split; simpl.
  - rewrite Hf at 1. done.
  - exists (f ls). by rewrite lookup_insert_eq.
  - intros q Hq. destruct (decide (q = mux)) as [->|]; [done|]. rewrite lookup_insert_ne by done. auto.
  - intros q Hq. rewrite lookup_insert_ne; [auto|]. intros ->. apply Hq. left.
Qed.

Lemma keeps_mod_link_table f : keeps I (mod_mux (upd_mx_link f)).
Proof.
  intros w [Hf Hm Ha Ho]. eexists _, _. split; [reflexivity|]. split; simpl; try done.
  rewrite Hf at 1. done.
Qed.

Lemma keeps_add_lower link : link ∈ links -> keeps I (xeth_mux_add_lower mux link).
Proof.
  intros Hl. assert (link <> mux) by (by intros ->).
  unfold xeth_mux_add_lower, xeth_mux_set_lower_promiscuity, dev_set_promiscuity, xeth_mux_set_lower_mtu,
    xeth_mux_lower_is_loopback, xeth_mux_lower_is_busy, netdev_is_rx_handler_busy, xeth_mux_handle_lower,
    netdev_rx_handler_register, netdev_is_rx_handler_busy, xeth_mux_bind_lower,
    netdev_master_upper_dev_link, xeth_mux_rehash_link_ht, netdev_rx_handler_unregister.
  repeat match goal with
  | |- keeps _ (_ ≫= _) => apply keeps_bind; [|intros ?]
  | |- keeps _ (and_then _ _) => apply keeps_and_then
  | |- keeps _ (when _ _) => apply keeps_when
  | |- keeps _ (mret _) => apply keeps_ret
  | |- keeps _ (gets _) => apply keeps_gets
  | |- keeps _ (dev _) => apply keeps_dev; auto
  | |- keeps _ (mod_dev mux _) => apply keeps_mod_lowers
  | |- keeps _ (mod_dev _ _) => by apply keeps_mod_link
  | |- keeps _ (mod_mux _) => apply keeps_mod_link_table
  | |- keeps _ (match ?x with _ => _ end) => destruct x
  end.
Qed.
End linking.

(** ** The ports of a new mux *)

(** The platform devices of [k] ports from [port] on. *)
Definition mk1_pds (name buses : list Z) (ea : Z) (port k : nat) : list port_device :=
  (fun i => mk1_port_device name buses (port + i) (ea + Z.of_nat i)) <$> seq 0 k.

Lemma mk1_pds_S name buses ea port k :
  mk1_pds name buses ea port (S k) =
    mk1_port_device name buses port ea :: mk1_pds name buses (ea + 1) (S port) k.
Proof.
  unfold mk1_pds. cbn [seq fmap list_fmap]. rewrite <- seq_shift, <- list_fmap_compose. f_equal.
  - f_equal; lia.
  - apply list_fmap_ext. intros i x _. simpl. f_equal; lia.
Qed.

Lemma mk1_pds_lookup name buses ea k i p :
  mk1_pds name buses ea 0 k !! i = Some p ->
  (i < k)%nat /\ p = mk1_port_device name buses i (ea + Z.of_nat i).
Proof.
  unfold mk1_pds. rewrite list_lookup_fmap. intros (j & Hj & ->)%fmap_Some.
  apply lookup_seq in Hj as [-> Hj]. done.
Qed.

(** The loop registers the ports in order, until one is refused. *)
Lemma mk1_ppds_run n port name buses ea s :
  length (pf_ppds s) = (port + n)%nat ->
  exists k s', mk1_ppds n port name buses ea s = Some (tt, s') /\ (k <= n)%nat /\
    s' = upd_pf_bus (fun b => b ++ mk1_pds name buses ea port k)
      (upd_pf_ppds (fun l => take port l ++ (Some <$> mk1_pds name buses ea port k) ++ drop (port + k) l) s) /\
    (k = n \/ exists s1, register_full_result s1
       (mk1_port_device name buses (port + k) (ea + Z.of_nat k)) <> 0).
Proof.
  assert (forall s port, upd_pf_bus (fun b => b ++ [])
    (upd_pf_ppds (fun l => take port l ++ [] ++ drop (port + 0) l) s) = s) as Hid.
  { clear. intros [] port. unfold upd_pf_bus, upd_pf_ppds. simpl.
    by rewrite Nat.add_0_r, take_drop, app_nil_r. }
  revert port ea s. induction n as [|n IH]; intros port ea s Hl; cbn [mk1_ppds].
  { exists O, s. split; [done|]. split; [lia|]. split; [symmetry; apply Hid|by left]. }
  set (pd := mk1_port_device name buses port ea). unfold platform_device_register_full.
  rewrite !bind_run. unfold gets. destruct (Z.eqb_spec (register_full_result s pd) 0) as [Hr|Hr].
  - rewrite bind_run. cbn [when]. unfold modify at 1. cbn [mret M_ret]. rewrite Hr. cbn [Z.eqb negb].
    rewrite bind_run. unfold modify at 1.
    match goal with |- context [mk1_ppds n (S port) name buses (ea + 1) ?s2] => set (s2' := s2) end.
    destruct (IH (S port) (ea + 1) s2') as (k & s' & -> & Hk & -> & Hend).
    { simpl. rewrite length_insert. lia. }
    exists (S k). eexists. split; [done|]. split; [lia|]. split.
    + rewrite mk1_pds_S. unfold s2', upd_pf_bus, upd_pf_ppds. simpl. f_equal.
      * rewrite drop_insert_lt by lia.
        rewrite (take_S_r _ _ (Some pd)) by (apply list_lookup_insert_eq; lia).
        rewrite take_insert_ge by lia. rewrite <- app_assoc. simpl. do 4 f_equal. lia.
      * by rewrite <- app_assoc.
    + destruct Hend as [->|[s1 Hs1]]; [by left|right]. exists s1.
      replace (port + S k)%nat with (S port + k)%nat by lia.
      replace (ea + Z.of_nat (S k)) with (ea + 1 + Z.of_nat k) by lia. done.
  - rewrite bind_run. cbn [when mret M_ret]. rewrite (proj2 (Z.eqb_neq _ _) Hr). cbn [negb mret M_ret].
    exists O, s. split; [done|]. split; [lia|]. split; [symmetry; apply Hid|right]. exists s.
    by rewrite Nat.add_0_r, Z.add_0_r.
Qed.

(** No two ports share an identity, an address or a bus. *)
Lemma mk1_pds_distinct name buses ea k i j p q :
  NoDup buses -> (k <= length buses)%nat -> (k <= 32)%nat ->
  mk1_pds name buses ea 0 k !! i = Some p -> mk1_pds name buses ea 0 k !! j = Some q -> i <> j ->
  pd_id p <> pd_id q /\ pd_mac p <> pd_mac q /\ pd_qsfp_bus p <> pd_qsfp_bus q.
Proof.
  intros Nd Hk H32 Hp Hq Hne. apply mk1_pds_lookup in Hp as [Hi ->]. apply mk1_pds_lookup in Hq as [Hj ->].
  simpl. split; [lia|]. split.
  - intros E. apply (f_equal (fun o => be_val (default [] o))) in E. simpl in E. rewrite !be_val_be_bytes in E.
    change (256 ^ Z.of_nat ETH_ALEN) with (2 ^ 48) in E.
    pose proof (Z.div_mod (ea + Z.of_nat i) (2 ^ 48) ltac:(lia)).
    pose proof (Z.div_mod (ea + Z.of_nat j) (2 ^ 48) ltac:(lia)). lia.
  - intros E. apply Hne.
    destruct (lookup_lt_is_Some_2 buses i ltac:(lia)) as [b Hb]. rewrite Hb in E.
    eapply (NoDup_lookup _ _ _ b Nd Hb). by symmetry.
Qed.

Lemma mk1_buses_ok : NoDup mk1_buses /\ length mk1_buses = 32%nat /\
  NoDup mk1_alpha_buses /\ length mk1_alpha_buses = 32%nat /\ mk1_buses ≡ₚ mk1_alpha_buses.
Proof.
  split; [by apply (bool_decide_unpack _); vm_compute|]. split; [done|].
  split; [by apply (bool_decide_unpack _); vm_compute|]. split; [done|].
  apply (bool_decide_unpack _). by vm_compute.
Qed.

(** ** A probe that succeeds *)

(** The kernel grants what the probe asks for. *)
Record probe_granted (md : mux_device) (s : platform) (name : list Z) (mux n : Z) (links refs : list Z)
    : Prop := {
  pg_lock : pf_rtnl s = false;
  pg_links : probe_links md (pf_w s) = Some (n, links, refs);
  pg_found : 0 <= n;
  pg_alive : Forall (fun p => is_Some (w_devs (pf_w s) !! p)) links;
  pg_name : c_string (xeth_mux_ifname md) = Some name;
  pg_alloc : alloc_netdev (upd_w_refs (app refs) (pf_w s)) = Some mux;
  pg_txqs : 1 <= xeth_mux_qs_prop (md_txqs md);
  pg_rxqs : 1 <= xeth_mux_qs_prop (md_rxqs md);
  pg_addrs : is_Some (xeth_mux_qsfp_i2c_addrs_prop md);
  pg_register : forall w, register_early w mux = 0 /\ register_late w mux = 0;
}.

(** The world with a mux at work: registered, its properties read, no proxy yet. *)
Record mux_live (md : mux_device) (mux : Z) (name addr : list Z) (mem : nat) (held : list Z) (w : world) : Prop := {
  ml_mux : w_mux w = mux;
  ml_rep : registry_rep w [];
  ml_ok : sb_ok w;
  ml_queued : queued w = [];
  ml_mem : w_kmem w = mem;
  ml_refs : w_refs w = held;
  ml_props : props_read md (w_priv w);
  ml_dev : exists m, w_devs w !! mux = Some m /\ nd_name m = name /\ is_xeth_mux m = true /\
    nd_registered m = true /\ nd_addr m = addr;
}.

Lemma new_mux_not_link md s name mux n links refs :
  probe_granted md s name mux n links refs -> mux ∉ links.
Proof.
  intros [] Hin. pose proof (alloc_netdev_fresh _ _ pg_alloc0) as Hf. simpl in Hf.
  rewrite Forall_forall in pg_alive0. specialize (pg_alive0 _ Hin). rewrite Hf in pg_alive0.
  by apply is_Some_None in pg_alive0.
Qed.

Lemma probe_before md s name mux n links refs :
  probe_granted md s name mux n links refs ->
  exists w m, xeth_mux_probe md s =
      probe_rest md mux links (upd_pf_w (fun _ => w) (upd_pf_n_ppds 0
        (upd_pf_ppds (fun _ => replicate 32 None) (upd_pf_rtnl true s)))) /\
    mux_ready (upd_w_refs (app refs) (pf_w s)) mux name w m /\ nd_registered m = true /\
    props_read md (w_priv w) /\
    (forall link rest d, links = link :: rest -> w_devs (pf_w s) !! link = Some d -> nd_addr m = nd_addr d).
Proof.
  intros G. pose proof (new_mux_not_link _ _ _ _ _ _ _ G) as Hnl. destruct G.
  unfold xeth_mux_probe. rewrite bind_run. unfold rtnl_lock. rewrite pg_lock0.
  rewrite bind_run. unfold gets at 1. cbn [pf_w upd_pf_rtnl]. rewrite bind_run, pg_links0.
  cbn [deref mret M_ret]. rewrite bind_run, (lift_run _ _ tt _ eq_refl), (proj2 (Z.ltb_ge _ _) pg_found0).
  rewrite bind_run. cbn [pf_w upd_pf_rtnl]. set (w0 := upd_w_refs (app refs) (pf_w s)).
  match goal with |- context [alloc_mux md ?s1] =>
    destruct (alloc_mux_run md s1 mux name) as (w1 & m1 & -> & R1 & Hp1); [done|by apply pg_alloc0|done..|] end.
  rewrite bind_run.
  match goal with |- context [probe_props md ?s1] =>
    destruct (probe_props_run md s1 w0 mux name m1) as (w2 & -> & R2 & Hp2 & _); [done..|] end.
  destruct (probe_addr_run w0 mux name w2 m1 links R2 pg_alive0 Hnl) as [w3 E3].
  destruct (probe_addr_ready _ _ _ _ _ _ _ _ R2 E3) as (m3 & R3 & Hp3 & Ha).
  rewrite bind_run. lift_with E3. rewrite bind_run.
  destruct (register_mux _ _ _ _ _ R3) as (r & w4 & E4 & _ & _ & Hr & Hok).
  rewrite with_rtnl_run by done. lift_with E4.
  rewrite Hr in * by apply pg_register0. destruct Hok as (m4 & R4 & Hreg & Ha4 & Hp4); [done|].
  cbn [Z.ltb Z.compare]. exists w4, m4. split; [done|]. split; [done|]. split; [done|].
  split; [by rewrite Hp4, Hp3|]. intros link rest d -> Hd. destruct Ha as (d' & Hd' & Ha).
  rewrite (mr_other _ _ _ _ _ R2) in Hd' by (intros ->; apply Hnl; left). simpl in Hd'. congruence.
Qed.

(** The links, whatever the kernel says to them. *)
Lemma add_links_run w mux m links :
  w_devs w !! mux = Some m -> (forall p, p ∈ links -> is_Some (w_devs w !! p)) -> (mux ∉ links) ->
  exists w', linking w mux m links w' /\ forall s, pf_w s = w -> pf_rtnl s = true ->
    for_each links (fun link => ignore_err (with_rtnl (lift (xeth_mux_add_lower mux link)))) s =
      Some (tt, upd_pf_w (fun _ => w') s).
Proof.
  intros Hm Ha Hn.
  assert (forall l w1, (forall p, p ∈ l -> p ∈ links) -> linking w mux m links w1 ->
    exists w', linking w mux m links w' /\ forall s, pf_w s = w1 -> pf_rtnl s = true ->
      for_each l (fun link => ignore_err (with_rtnl (lift (xeth_mux_add_lower mux link)))) s =
        Some (tt, upd_pf_w (fun _ => w') s)) as Hall.
  { induction l as [|x l IH]; intros w1 Hl L.
    - exists w1. split; [done|]. intros [] <- _. done.
    - destruct (keeps_add_lower w mux m links Hn x (Hl x ltac:(left)) w1 L) as (r & w2 & E & L2).
      destruct (IH w2 ltac:(intros; apply Hl; by right) L2) as (w' & L' & Hrun).
      exists w'. split; [done|]. intros s Hs Hl'. cbn [for_each]. rewrite bind_run. unfold ignore_err.
      rewrite bind_run, (with_rtnl_run _ s) by done. rewrite (lift_run _ _ r w2) by (by rewrite Hs). cbn [mret M_ret]. by rewrite Hrun. }
  apply Hall; [done|]. split; [by destruct w as [? []]|exists (nd_lowers m)|done|done].
  rewrite Hm. by destruct m.
Qed.

(** Changes of the private area that the invariants do not see. *)
Definition unseen sysfs lk main ab int lp rs (r : xeth_mux_priv) : xeth_mux_priv :=
  upd_mx_stat_sysfs sysfs (upd_mx_link lk (upd_mx_main main (upd_mx_absent_gpios ab
    (upd_mx_intr_gpios int (upd_mx_lpmode_gpios lp (upd_mx_reset_gpios rs r)))))).

Lemma mux_live_priv md mux name addr mem held w g sysfs lk main ab int lp rs :
  (forall r, g r = unseen sysfs lk main ab int lp rs r) ->
  mux_live md mux name addr mem held w -> mux_live md mux name addr mem held (upd_w_priv g w).
Proof.
  intros Hg []. unfold upd_w_priv. rewrite Hg. split; simpl; try done.
  - by destruct ml_rep0.
  - by destruct ml_ok0.
  - destruct ml_props0. split; try done. by destruct pr_names0.
Qed.

Lemma mux_live_file md mux name addr mem held w f :
  mux_live md mux name addr mem held w -> mux_live md mux name addr mem held (upd_w_stat_file f w).
Proof. intros []. split; simpl; try done; [by destruct ml_rep0|by destruct ml_ok0]. Qed.

Lemma mux_live_linking md mux name addr mem held w m links w' :
  mux_live md mux name addr mem held w -> w_devs w !! mux = Some m -> linking w mux m links w' ->
  mux_live md mux name addr mem held w'.
Proof.
  intros L Em [Hf [ls Hm] _ _]. rewrite Hf.
  apply (mux_live_priv _ _ _ _ _ _ _ _ id (fun _ => mx_link (w_priv w')) id id id id id); [done|].
  destruct L. split; simpl; try done.
  - by destruct ml_rep0.
  - by destruct ml_ok0.
  - destruct ml_dev0 as (m' & Em' & Hd). rewrite Em in Em'. injection Em' as <-.
    eexists. split; [exact Hm|]. exact Hd.
Qed.

(** What is left of the probe once the links are added and the task runs. *)
Definition probe_ports (md : mux_device) (mux : Z) (name : list Z) : M platform Z :=
  (if xeth_mux_is_platina_mk1 md then xeth_mux_platina_mk1_ppds mux name else oops) ≫= fun _ =>
  xeth_rtnl_unlock 0.

Lemma probe_rest_run md mux name addr mem held links s m :
  mux_live md mux name addr mem held (pf_w s) -> w_devs (pf_w s) !! mux = Some m ->
  (forall p, p ∈ links -> is_Some (w_devs (pf_w s) !! p)) -> (mux ∉ links) ->
  c_string (xeth_mux_ifname md) = Some name -> pf_rtnl s = true ->
  exists w, mux_live md mux name addr mem held w /\ probe_rest md mux links s =
    probe_ports md mux name (upd_pf_n_ppds 32 (upd_pf_drvdata (Some mux) (upd_pf_w (fun _ => w) s))).
Proof.
  intros L Em Ha Hn Hname Hlock. unfold probe_rest. rewrite bind_run.
  assert (exists f g, probe_stat_name s =
    Some (tt, upd_pf_w (fun w => upd_w_priv (upd_mx_stat_sysfs g) (upd_w_stat_file f w)) s)) as (f & g & Eg).
  { unfold probe_stat_name. rewrite bind_run. unfold lift at 1, get_mux, gets at 1. cbn beta iota.
    destruct s as [w ? ? ? ? ?]. unfold upd_pf_w at 1. cbn [pf_w].
    destruct (mx_stat_named (w_priv w) =? 0); cbn [when].
    - rewrite bind_run. unfold lift at 1, gets at 1. cbn [pf_w].
      destruct (create_file_result w =? 0); cbn [when].
      + exists (fun _ => true), (fun _ => true). reflexivity.
      + exists id, id. cbn. by destruct w as [? []].
    - exists id, id. cbn. by destruct w as [? []]. }
  rewrite Eg. rewrite bind_run.
  set (w1 := upd_w_priv (upd_mx_stat_sysfs g) (upd_w_stat_file f (pf_w s))).
  assert (mux_live md mux name addr mem held w1) as L1.
  { apply (mux_live_file _ _ _ _ _ _ _ f) in L. by apply (mux_live_priv _ _ _ _ _ _ _ _ g id id id id id id). }
  destruct (add_links_run w1 mux m links Em Ha Hn) as (w2 & Lk & E2). rewrite E2 by done.
  pose proof (mux_live_linking _ _ _ _ _ _ _ _ _ _ L1 Em Lk) as L2.
  rewrite bind_run. unfold lift at 1, gets at 1. cbn [pf_w upd_pf_w]. rewrite bind_run.
  rewrite (lift_run _ _ tt _ eq_refl). cbn [pf_w upd_pf_w]. rewrite bind_run. unfold modify at 1.
  rewrite bind_run. unfold probe_gpios. rewrite (lift_run _ _ tt _ eq_refl).
  rewrite bind_run. unfold modify at 1. rewrite bind_run, Hname. cbn [deref mret M_ret].
  exists (upd_w_priv (gpios_priv md) (upd_w_priv (upd_mx_main (fun _ => kthread_result w2 =? 0)) w2)).
  split; [|by cbv [upd_pf_w upd_pf_drvdata upd_pf_n_ppds pf_w pf_rtnl pf_drvdata pf_n_ppds pf_ppds
    pf_bus]].
  apply (mux_live_priv _ _ _ _ _ _ _ _ id id id (fun _ => absent_lines md) (fun _ => int_lines md)
    (fun _ => (fun n => replicate n 1) <$> lpmode_lines md)
    (fun _ => (fun n => replicate n 0) <$> reset_lines md)); [done|].
  by apply (mux_live_priv _ _ _ _ _ _ _ _ id id (fun _ => kthread_result w2 =? 0) id id id id).
Qed.

Lemma probe_until_ports md s name mux n links refs :
  probe_granted md s name mux n links refs ->
  exists w addr, mux_live md mux name addr (w_kmem (pf_w s)) (refs ++ w_refs (pf_w s)) w /\
    (forall link rest d, links = link :: rest -> w_devs (pf_w s) !! link = Some d -> addr = nd_addr d) /\
    xeth_mux_probe md s = probe_ports md mux name (upd_pf_n_ppds 32 (upd_pf_drvdata (Some mux)
      (upd_pf_w (fun _ => w) (upd_pf_ppds (fun _ => replicate 32 None)
        (upd_pf_rtnl true s))))).
Proof.
  intros G. destruct (probe_before _ _ _ _ _ _ _ G) as (w & m & -> & R & Hreg & Hp & Ha).
  pose proof (new_mux_not_link _ _ _ _ _ _ _ G) as Hnl. destruct G.
  set (s0 := upd_pf_w _ _). assert (mux_live md mux name (nd_addr m) (w_kmem (pf_w s)) (refs ++ w_refs (pf_w s)) (pf_w s0)) as L.
  { destruct R. split; try done. by exists m. }
  destruct (probe_rest_run md mux name (nd_addr m) _ _ links s0 m L) as (w' & L' & ->);
    [apply R| |done|done|done|].
  { intros p Hin. simpl. rewrite (mr_other _ _ _ _ _ R) by (by intros ->).
    rewrite Forall_forall in pg_alive0. auto. }
  exists w', (nd_addr m). done.
Qed.

Lemma mk1_probe_run md s name mux n links refs :
  probe_granted md s name mux n links refs -> xeth_mux_is_platina_mk1 md = true ->
  exists s' k addr, xeth_mux_probe md s = Some (0, s') /\
    pf_rtnl s' = false /\ pf_drvdata s' = Some mux /\ w_refs (pf_w s') ≡ₚ links ++ w_refs (pf_w s) /\ pf_n_ppds s' = 32%nat /\
    mux_live md mux name addr (w_kmem (pf_w s)) (refs ++ w_refs (pf_w s)) (pf_w s') /\
    (forall link rest d, links = link :: rest -> w_devs (pf_w s) !! link = Some d -> addr = nd_addr d) /\
    let buses := if xeth_mux_base_port_prop md =? 0 then mk1_alpha_buses else mk1_buses in
    let pds := mk1_pds name buses (2 + be_val addr) 0 k in
    pf_bus s' = pf_bus s ++ pds /\ (k <= 32)%nat /\
    pf_ppds s' = (Some <$> pds) ++ replicate (32 - k) None /\
    ((forall s1 pd, register_full_result s1 pd = 0) -> k = 32%nat) /\
    (forall i j p q, pds !! i = Some p -> pds !! j = Some q -> i <> j ->
       pd_id p <> pd_id q /\ pd_mac p <> pd_mac q /\ pd_qsfp_bus p <> pd_qsfp_bus q).
Proof.
  intros G Hmk. destruct (probe_until_ports _ _ _ _ _ _ _ G) as (w' & addr & L' & Ha & ->).
  destruct (probe_links_refs _ _ _ _ _ (pg_links _ _ _ _ _ _ _ G)) as [_ Hrefs].
  specialize (Hrefs (pg_found _ _ _ _ _ _ _ G)).
  unfold probe_ports. rewrite Hmk. unfold xeth_mux_platina_mk1_ppds. rewrite bind_run, bind_run.
  destruct (ml_dev _ _ _ _ _ _ _ L') as (m' & Em & _ & _ & _ & Ea). pose proof (dev_run _ _ _ Em) as Ed.
  lift_with Ed. rewrite bind_run.
  assert (get_mux w' = Some (w_priv w', w')) as Eg by done. lift_with Eg. clear Ed Eg.
  rewrite (pr_base _ _ (ml_props _ _ _ _ _ _ _ L')), Ea.
  match goal with |- context [mk1_ppds 32 0 name ?b ?ea ?s1] =>
    destruct (mk1_ppds_run 32 0 name b ea s1 eq_refl) as (k & s' & -> & Hk & -> & Hend) end.
  eexists _, k, addr. split; [reflexivity|]. do 2 (split; [done|]).
  split; [simpl; by rewrite (ml_refs _ _ _ _ _ _ _ L'), Hrefs|]. repeat (split; [done|]).
  destruct mk1_buses_ok as (N1 & L1 & N2 & L2 & _).
  cbv zeta. set (buses := if xeth_mux_base_port_prop md =? 0 then mk1_alpha_buses else mk1_buses).
  assert (NoDup buses /\ length buses = 32%nat) as [Nb Lb] by (unfold buses; by destruct (_ =? 0)).
  split; [|split].
  - cbn [pf_ppds upd_pf_rtnl upd_pf_bus upd_pf_ppds upd_pf_n_ppds upd_pf_drvdata upd_pf_w take].
    by rewrite drop_replicate.
  - intros Hall. destruct Hend as [|[s1 Hs1]]; [done|]. by destruct Hs1.
  - intros i j p q. apply mk1_pds_distinct; [done|lia|done].
Qed.

(** The probe of a platina,mk1 whose links are found and whose device is
    granted ends with the lock released: the mux is registered under its name with
    the address of its first link, the registry is empty, and what the properties
    say is in its private area.  The 32 ports are registered as platform devices
    in order, up to one the kernel refuses; each has an identity, a QSFP bus and,
    counted from the address of the mux, an address of its own. *)
Theorem mk1_probe md s name mux n links refs :
  probe_granted md s name mux n links refs -> xeth_mux_is_platina_mk1 md = true ->
  exists s' k addr, xeth_mux_probe md s = Some (0, s') /\
    pf_rtnl s' = false /\ pf_drvdata s' = Some mux /\ w_refs (pf_w s') ≡ₚ links ++ w_refs (pf_w s) /\ pf_n_ppds s' = 32%nat /\
    mux_live md mux name addr (w_kmem (pf_w s)) (refs ++ w_refs (pf_w s)) (pf_w s') /\
    (forall link rest d, links = link :: rest -> w_devs (pf_w s) !! link = Some d -> addr = nd_addr d) /\
    let buses := if xeth_mux_base_port_prop md =? 0 then mk1_alpha_buses else mk1_buses in
    let pds := mk1_pds name buses (2 + be_val addr) 0 k in
    pf_bus s' = pf_bus s ++ pds /\ (k <= 32)%nat /\
    pf_ppds s' = (Some <$> pds) ++ replicate (32 - k) None /\
    ((forall s1 pd, register_full_result s1 pd = 0) -> k = 32%nat) /\
    (forall i j p q, pds !! i = Some p -> pds !! j = Some q -> i <> j ->
       pd_id p <> pd_id q /\ pd_mac p <> pd_mac q /\ pd_qsfp_bus p <> pd_qsfp_bus q).
Proof. exact (mk1_probe_run md s name mux n links refs). Qed.

(** C37: On any other platform the probe, after it has made and registered the mux,
    calls a function it does not have. *)
Theorem other_probe_oops md s name mux n links refs :
  probe_granted md s name mux n links refs -> xeth_mux_is_platina_mk1 md = false ->
  xeth_mux_probe md s = None.
Proof.
  intros G Hmk. destruct (probe_until_ports _ _ _ _ _ _ _ G) as (w' & addr & L' & Ha & ->).
  unfold probe_ports. by rewrite Hmk.
Qed.

(** ** The removal *)


End probe.

(** ** Witnesses *)

(** A kernel that registers what it is asked to and queues what it is told. *)
Definition demo_platform_kernel : KernelPlatform := {|
  init_ns := demo_net;
  register_full_result _ _ := 0;
  create_file_result _ := 0;
  absent_lines _ := Some (replicate 32 0);
  int_lines _ := Some (replicate 32 0);
  lpmode_lines _ := Some 32%nat;
  reset_lines _ := Some 32%nat;
  unregister_netdevice_many := lift (modify (upd_w_unregq (fun _ => [])));
|}.

Definition demo_platform (w : world) : platform :=
  {| pf_w := w; pf_rtnl := false; pf_drvdata := None; pf_n_ppds := 0; pf_ppds := [];
     pf_bus := [] |}.

(** "platina-mk1" *)
Definition demo_mk1_name : list Z := [112; 108; 97; 116; 105; 110; 97; 45; 109; 107; 49].

Definition demo_fresh : Z := default 0 (alloc_netdev (KernelAlloc:=demo_alloc) demo_boot).

Lemma demo_probe_granted md :
  probe_links (B:=boot_names) (D:=demo_netdevs) md demo_boot = Some (2, [20; 21], [21; 20]) ->
  c_string (xeth_mux_ifname md) = Some demo_mk1_name ->
  md_txqs md = None -> md_rxqs md = None -> md_i2c_addrs md = None ->
  probe_granted (K:=plain_dev) (A:=demo_alloc) (B:=boot_names) (D:=demo_netdevs) md
    (demo_platform demo_boot) demo_mk1_name demo_fresh 2 [20; 21] [21; 20].
Proof.
  intros El En Et Er Ei. split; try done; unfold xeth_mux_qs_prop, xeth_mux_qsfp_i2c_addrs_prop;
    rewrite ?Et, ?Er, ?Ei; try done.
  repeat constructor; vm_compute; eauto.
Qed.

Lemma demo_mk1_links :
  probe_links (B:=boot_names) (D:=demo_netdevs) demo_mk1 demo_boot = Some (2, [20; 21], [21; 20]).
Proof. vm_compute. reflexivity. Qed.

Lemma mk1_probe_witness :
  exists s', xeth_mux_probe (K:=plain_dev) (C:=demo_const) (N:=plain_notify)
      (A:=demo_alloc) (B:=boot_names) (D:=demo_netdevs) (P:=demo_platform_kernel) demo_mk1
      (demo_platform demo_boot) = Some (0, s') /\ length (pf_bus s') = 32%nat.
Proof.
  destruct (mk1_probe (K:=plain_dev) (C:=demo_const) (N:=plain_notify) (H:=golden_hash)
    (A:=demo_alloc) (B:=boot_names) (D:=demo_netdevs) (P:=demo_platform_kernel) (KL:=plain_dev_laws)
    (AL:=demo_alloc_laws) demo_mk1 (demo_platform demo_boot) demo_mk1_name demo_fresh 2
    [20; 21] [21; 20]) as (s' & k & addr & E & _ & _ & _ & _ & _ & _ & Hb & _ & _ & Hk & _).
  - apply demo_probe_granted; [exact demo_mk1_links|reflexivity..].
  - reflexivity.
  - exists s'. split; [exact E|]. rewrite Hb, Hk by (intros; reflexivity). reflexivity.
Defined.

(** A platform that is not a platina,mk1, with the same links. *)
Definition demo_xeth_mux : mux_device :=
  {| md_compatible := None; md_name := Some demo_mk1_name; md_encap_vpls := false; md_base_port := None;
     md_ports := None; md_link_mac := fun _ => None; md_link_akas := md_link_akas demo_mk1;
     md_flags := None; md_stats := None; md_i2c_addrs := None; md_txqs := None; md_rxqs := None |}.

Lemma other_probe_oops_witness :
  xeth_mux_probe (K:=plain_dev) (C:=demo_const) (N:=plain_notify) (A:=demo_alloc)
    (B:=boot_names) (D:=demo_netdevs) (P:=demo_platform_kernel) demo_xeth_mux (demo_platform demo_boot) = None.
Proof.
  apply (other_probe_oops (K:=plain_dev) (C:=demo_const) (N:=plain_notify) (H:=golden_hash)
    (A:=demo_alloc) (B:=boot_names) (D:=demo_netdevs) (P:=demo_platform_kernel) (KL:=plain_dev_laws)
    (AL:=demo_alloc_laws)) with (name := demo_mk1_name) (mux := demo_fresh) (n := 2)
    (links := [20; 21]) (refs := [21; 20]).
  - apply demo_probe_granted; [vm_compute; reflexivity|reflexivity..].
  - reflexivity.
Defined.

(** No device has a name: the links are not found. *)
Definition no_names : KernelNames := fun _ _ => None.

Lemma demo_deferred_run :
  exists s', xeth_mux_probe (K:=plain_dev) (C:=demo_const) (N:=plain_notify)
    (A:=demo_alloc) (B:=no_names) (D:=demo_netdevs) (P:=demo_platform_kernel) demo_mk1
    (demo_platform demo_boot) = Some (- EPROBE_DEFER, s').
Proof. eexists. vm_compute. reflexivity. Qed.

Lemma probe_failure_clean_witness :
  exists s', probe_undone (demo_platform demo_boot) s' /\ pf_rtnl s' = false.
Proof.
  destruct demo_deferred_run as [s' E].
  destruct (probe_failure_clean (K:=plain_dev) (C:=demo_const) (N:=plain_notify) (H:=golden_hash)
    (A:=demo_alloc) (B:=no_names) (D:=demo_netdevs) (P:=demo_platform_kernel) (KL:=plain_dev_laws)
    (AL:=demo_alloc_laws) _ _ _ _ E) as [Hl Hu].
  exists s'. split; [apply Hu; discriminate|exact Hl].
Defined.


