(* ===== verification/Boot.v ===== *)
(** * A platform comes up

    The probe of the mux and of the ports it registered, one after the other: the
    port driver is registered after the mux driver, and the driver core then offers
    it the platform devices it has, in their order. *)

From stdpp Require Import base numbers list gmap.
From Stdlib Require Import ZArith Lia.
From S2P Require Import Prelude Bytes Monad Uapi State Stats Kernel Demo Registry Sbq.
From S2P Require Import Sbtx Proxy Carrier Nb Sbrx Netdev Lower Xid Create Ethtool Qsfp Text Port Props Probe.

Local Open Scope Z_scope.

Section boot.
Context {K : KernelDev} {C : KernelConst} {N : KernelNotify} {H : KernelHash}.
Context {A : KernelAlloc} {B : KernelNames} {D : KernelNetdevs} {P : KernelPlatform} {I : KernelI2c}.

(** What each probe returns. *)
Fixpoint probe_all (provision : list Z) (pds : list port_device) : M world (list Z) :=
  match pds with
  | [] => mret []
  | pd :: pds =>
      err ← xeth_port_probe provision pd;
      errs ← probe_all provision pds;
      mret (err :: errs)
  end.

Context {KL : KernelDevLaws} {AL : KernelAllocLaws} {HL : KernelHashLaws}.
Context (Hreg : forall nd, registers nd) (Halloc : forall w, is_Some (alloc_netdev w)).

(** A registered device is found by its name. *)
Definition known_as (mux : Z) (name : list Z) : Prop :=
  forall w m, w_devs w !! mux = Some m -> nd_name m = name -> nd_registered m = true ->
    dev_by_name w name = Some mux.

Lemma probe_all_run provision name buses mux m base k : forall ea port w l,
  known_as mux name -> nd_name m = name -> nd_registered m = true ->
  (forall p, xeth_port_subports provision p <= 1) ->
  (forall bus, bus ∈ buses -> is_Some (i2c_get_adapter bus)) ->
  port_world w l mux m 32 k -> mx_base_port (w_priv w) = base -> (port + k <= 32)%nat ->
  exists w' nds, probe_all provision (mk1_pds name buses ea port k) w = Some (replicate k 0, w') /\
    length nds = k /\ port_world w' (reverse nds ++ l) mux m 32 0 /\
    (forall p, p ∉ nds -> w_devs w' !! p = w_devs w !! p) /\
    forall i nd, nds !! i = Some nd ->
      port_made w' nd mux m (port_name base (Z.of_nat (port + i))) (be_bytes ETH_ALEN (ea + Z.of_nat i))
        (Z.of_nat (port + i)) (-1) (xeth_port_top_vid - Z.of_nat (port + i)).
Proof.
  induction k as [|k IH]; intros ea port w l Hk Hn Hr Hsub Hbus W Hb Hp.
  { exists w, []. by split. }
  rewrite mk1_pds_S. set (pd := mk1_port_device name buses port ea).
  assert (xeth_port_index_prop pd = Z.of_nat port) as Hi.
  { unfold xeth_port_index_prop. simpl. rewrite (proj2 (Z.leb_le _ _)) by lia. done. }
  assert (port_xid 32 (Z.of_nat port) (-1) = xeth_port_top_vid - Z.of_nat port) as Hxid.
  { rewrite port_xid_eq by (unfold xeth_port_top_vid; lia). rewrite Z.max_l by lia. lia. }
  destruct (probe_whole_run Hreg Halloc provision w l pd mux m 32 k) as (w1 & nd & E1 & W1 & Hin & M1 & D1 & B1).
  - done.
  - apply Hsub.
  - unfold xeth_port_qsfp_bus_prop. simpl. destruct (buses !! port) as [bus|] eqn:Eb; [|done].
    intros _. apply Hbus. by eapply list_elem_of_lookup_2.
  - rewrite Hi, Hxid. unfold xeth_port_top_vid. lia.
  - apply (Hk w m); [apply W|done|done].
  - rewrite Hi, Hxid, Hb in M1.
    destruct (IH (ea + 1) (S port) w1 (nd :: l)) as (w' & nds & E & Hlen & W' & D' & M');
      [done..|by rewrite B1|lia|].
    assert (nd ∉ nds) as Hnd.
    { intros Hi'. pose proof (rep_nodup _ _ (pw_rep _ _ _ _ _ _ W')) as Nd.
      apply NoDup_app in Nd as (_ & Nd & _). apply (Nd nd); [by apply elem_of_reverse|left]. }
    exists w', (nd :: nds). split; [|split; [simpl; by rewrite Hlen|split; [|split]]].
    + cbn [probe_all]. rewrite bind_run, E1, bind_run, E. done.
    + rewrite reverse_cons, <- app_assoc. exact W'.
    + intros p Hp'. rewrite not_elem_of_cons in Hp'. rewrite D', D1 by tauto. done.
    + intros [|i] q Hq.
      * injection Hq as <-. rewrite Nat.add_0_r, Z.add_0_r. eapply port_made_frame; [|exact M1]. by apply D'.
      * replace (port + S i)%nat with (S port + i)%nat by lia.
        replace (ea + Z.of_nat (S i)) with (ea + 1 + Z.of_nat i) by lia. by apply M'.
Qed.

Lemma spec_unique w l xid p :
  p ∈ l -> xid_of w p = Some xid -> (forall q, q ∈ l -> xid_of w q = Some xid -> q = p) ->
  spec_of_xid w l xid = Some p.
Proof.
  intros Hin Hx Hu. unfold spec_of_xid. destruct (filter _ l) as [|q f] eqn:E.
  - assert (p ∈ filter (fun p => xid_of w p = Some xid) l) as Hp by (by apply list_elem_of_filter).
    rewrite E in Hp. by apply elem_of_nil in Hp.
  - assert (q ∈ filter (fun p => xid_of w p = Some xid) l) as Hq by (rewrite E; left).
    apply list_elem_of_filter in Hq as [Hq1 Hq2]. simpl. by rewrite (Hu q Hq2 Hq1).
Qed.

Lemma port_made_xid w nd mux m name addr port subport xid :
  port_made w nd mux m name addr port subport xid -> xid_of w nd = Some xid.
Proof.
  intros [(d & px & pp & [Ed Ep _ _] & _ & F)]. unfold xid_of, proxy_at. rewrite Ed. simpl. rewrite Ep.
  simpl. by rewrite (proj1 (pf_xid _ _ _ _ _ _ _ _ _ _ _ F ltac:(lia))).
Qed.

(** C6: A platina,mk1 comes up whole: when the kernel grants what the drivers ask
    for, the probe of the mux and then of the platform devices it registered make
    the mux and its 32 ports, xeth1 to xeth32 (from xeth0 with base-port 0), with
    the XIDs 3999 down to 3968 and the addresses that follow that of the mux by 2,
    3 and so on, all of them registered and found by their XIDs. *)
Theorem mk1_boot md s name mux n links refs provision :
  probe_granted md s name mux n links refs -> xeth_mux_is_platina_mk1 md = true ->
  xeth_mux_ports_prop md = 32 -> (32 <= w_kmem (pf_w s))%nat -> known_as mux name ->
  (forall s1 pd, register_full_result s1 pd = 0) ->
  (forall p, xeth_port_subports provision p <= 1) ->
  (forall bus, bus ∈ mk1_buses -> is_Some (i2c_get_adapter bus)) ->
  pf_bus s = [] ->
  exists s' m w' nds, xeth_mux_probe md s = Some (0, s') /\
    w_devs (pf_w s') !! mux = Some m /\
    probe_all provision (pf_bus s') (pf_w s') = Some (replicate 32 0, w') /\
    length nds = 32%nat /\ registry_rep w' (reverse nds) /\ sb_ok w' /\
    forall i nd, nds !! i = Some nd ->
      port_made w' nd mux m (port_name (xeth_mux_base_port_prop md) (Z.of_nat i))
        (be_bytes ETH_ALEN (2 + be_val (nd_addr m) + Z.of_nat i)) (Z.of_nat i) (-1)
        (xeth_port_top_vid - Z.of_nat i) /\
      xeth_mux_proxy_of_xid (xeth_port_top_vid - Z.of_nat i) w' = Some (Some nd, w').
Proof.
  intros G Hmk Hports Hmem Hk Hfull Hsub Hbus Hempty.
  destruct (mk1_probe_run md s name mux n links refs G Hmk)
    as (s' & k & addr & E & _ & _ & _ & _ & L & _ & Hb & _ & _ & H32 & _).
  rewrite (H32 Hfull), Hempty in Hb. simpl in Hb.
  destruct L as [_ Rl Ol _ Ml _ Pl (m & Em & Hn & _ & Hr & <-)].
  set (buses := if xeth_mux_base_port_prop md =? 0 then mk1_alpha_buses else mk1_buses) in *.
  destruct (probe_all_run provision name buses mux m (xeth_mux_base_port_prop md) 32 (2 + be_val (nd_addr m))
    0 (pf_w s') []) as (w' & nds & Ew & Hlen & W' & _ & Hmade); try done.
  { intros bus Hin. apply Hbus. unfold buses in Hin. destruct (_ =? 0); [|done].
    destruct mk1_buses_ok as (_ & _ & _ & _ & Hperm). by rewrite Hperm. }
  { split; try done; [by rewrite (pr_ports _ _ Pl)|by rewrite Ml]. }
  { by destruct Pl. }
  exists s', m, w', nds. rewrite app_nil_r in W'. split; [done|]. split; [done|]. rewrite Hb.
  split; [done|]. split; [done|]. split; [apply W'|]. split; [apply W'|].
  intros i nd Hi. pose proof (Hmade i nd Hi) as M. split; [done|].
  rewrite (proxy_of_xid_run _ _ _ (pw_rep _ _ _ _ _ _ W')). do 2 f_equal. apply spec_unique.
  - apply elem_of_reverse. by eapply list_elem_of_lookup_2.
  - by apply port_made_xid in M.
  - intros p Hp Hx. rewrite elem_of_reverse in Hp. apply list_elem_of_lookup_1 in Hp as [j Hj].
    pose proof (Hmade j p Hj) as Mj%port_made_xid. rewrite Mj in Hx. injection Hx as Hx.
    assert (i = j) as -> by lia. congruence.
Qed.
End boot.

(** ** Witness *)

(** A machine with an I2C bus of every number, and no module on them. *)
Definition bare_buses : KernelI2c := {|
  i2c_get_adapter nr := Some nr;
  i2c_reads_bytes _ := true;
  i2c_smbus_xfer _ _ := inl (- ENXIO);
  i2c_new_client_device _ _ := None;
  i2c_master_xfer _ := false;
  i2c_transfer _ _ _ := (0, []);
  i2c_smbus_read_byte_data _ _ := 0;
|}.

(** The mux of the demo is the registered device that has its name. *)
Definition mk1_names : KernelNames := fun w name =>
  match w_devs w !! demo_fresh with
  | Some m => if bool_decide (nd_name m = name) && nd_registered m then Some demo_fresh
              else dev_by_name (KernelNames:=boot_names) w name
  | None => dev_by_name (KernelNames:=boot_names) w name
  end.

Lemma demo_known : known_as (B:=mk1_names) demo_fresh demo_mk1_name.
Proof.
  intros w m Em En Er. unfold dev_by_name, mk1_names. by rewrite Em, bool_decide_eq_true_2, Er by done.
Qed.

Lemma demo_boot_granted :
  probe_granted (K:=plain_dev) (A:=demo_alloc) (B:=mk1_names) (D:=demo_netdevs) demo_mk1
    (demo_platform demo_boot) demo_mk1_name demo_fresh 2 [20; 21] [21; 20].
Proof.
  split; try done. repeat constructor; vm_compute; eauto.
Qed.

Lemma mk1_boot_witness :
  exists s' w' nds, xeth_mux_probe (K:=plain_dev) (C:=demo_const) (N:=plain_notify)
      (A:=demo_alloc) (B:=mk1_names) (D:=demo_netdevs) (P:=demo_platform_kernel) demo_mk1
      (demo_platform demo_boot) = Some (0, s') /\
    registry_rep (H:=golden_hash) w' nds /\ length nds = 32%nat.
Proof.
  destruct (mk1_boot (K:=plain_dev) (C:=demo_const) (N:=plain_notify) (H:=golden_hash)
    (A:=demo_alloc) (B:=mk1_names) (D:=demo_netdevs) (P:=demo_platform_kernel) (I:=bare_buses)
    (KL:=plain_dev_laws) (AL:=demo_alloc_laws) (HL:=golden_hash_laws))
    with (md := demo_mk1) (s := demo_platform demo_boot) (name := demo_mk1_name) (mux := demo_fresh)
    (n := 2) (links := [20; 21]) (refs := [21; 20]) (provision := @nil Z)
    as (s' & m & w' & nds & E & _ & _ & Hlen & R & _).
  - intros nd. split; reflexivity.
  - intros w. eexists. reflexivity.
  - exact demo_boot_granted.
  - reflexivity.
  - reflexivity.
  - apply Nat.leb_le. vm_compute. reflexivity.
  - exact demo_known.
  - reflexivity.
  - intros p. unfold xeth_port_subports. destruct (_ && _); [rewrite lookup_nil; simpl; lia|unfold EINVAL; lia].
  - intros bus _. eexists. reflexivity.
  - reflexivity.
  - exists s', w', (reverse nds). split; [exact E|]. split; [exact R|]. by rewrite length_reverse.
Defined.
