(* ===== verification/Muxeto.v ===== *)
(** * The ethtool operations of the mux (dkms/xeth_mux.c, dkms/xeth.h)

    The counters and flags of the mux as ethtool shows them: how many there are,
    their names and their values. *)

From stdpp Require Import base numbers list strings.
From Stdlib Require Import ZArith Lia.
From S2P Require Import Prelude Monad Uapi State Stats Demo Ethtool.

Local Open Scope Z_scope.

(** The codes of a C string. *)
Definition chars (s : string) : list Z := (fun c => Z.of_nat (Ascii.nat_of_ascii c)) <$> String.list_ascii_of_string s.

(** ** Names *)

Definition xeth_mux_counter_name (c : xeth_mux_counter) : list Z :=
  chars match c with
  | xeth_mux_counter_ex_frames => "ex_frames"
  | xeth_mux_counter_ex_bytes => "ex_bytes"
  | xeth_mux_counter_sb_connections => "sb_connections"
  | xeth_mux_counter_sbex_invalid => "sbex_invalid"
  | xeth_mux_counter_sbex_dropped => "sbex_dropped"
  | xeth_mux_counter_sbrx_invalid => "sbrx_invalid"
  | xeth_mux_counter_sbrx_no_dev => "sbrx_no_dev"
  | xeth_mux_counter_sbrx_no_mem => "sbrx_no_mem"
  | xeth_mux_counter_sbrx_msgs => "sbrx_msgs"
  | xeth_mux_counter_sbrx_ticks => "sbrx_ticks"
  | xeth_mux_counter_sbtx_msgs => "sbtx_msgs"
  | xeth_mux_counter_sbtx_retries => "sbtx_retries"
  | xeth_mux_counter_sbtx_no_mem => "sbtx_no_mem"
  | xeth_mux_counter_sbtx_queued => "sbtx_queued"
  | xeth_mux_counter_sbtx_free => "sbtx_free"
  | xeth_mux_counter_sbtx_ticks => "sbtx_ticks"
  end%string.

(** The tables, indexed by the enumerations and ended by NULL. *)
Definition xeth_mux_counter_names : list (option (list Z)) :=
  ((fun c => Some (xeth_mux_counter_name c)) <$> xeth_mux_counter_all) ++ [None].

(** The table has no entry for the notifier of routes. *)
Definition xeth_mux_flag_name (f : xeth_mux_flag) : option (list Z) :=
  chars <$> match f with
  | xeth_mux_flag_main_task => Some "main_task"
  | xeth_mux_flag_sb_listen => Some "sb_listen"
  | xeth_mux_flag_sb_connection => Some "sb_connection"
  | xeth_mux_flag_sbrx_task => Some "sbrx_task"
  | xeth_mux_flag_fib_notifier => None
  | xeth_mux_flag_inetaddr_notifier => Some "inetaddr_notifier"
  | xeth_mux_flag_inet6addr_notifier => Some "inet6addr_notifier"
  | xeth_mux_flag_netdevice_notifier => Some "netdevice_notifier"
  | xeth_mux_flag_netevent_notifier => Some "netevent_notifier"
  end%string.
Definition xeth_mux_flag_names : list (option (list Z)) :=
  (xeth_mux_flag_name <$> xeth_mux_flag_all) ++ [None].

(** ** Operations *)

(** Driver, version, firmware, EEPROM and bus; the numbers of flags and counters. *)
Record drvinfo := {
  di_driver : list Z;
  di_version : list Z;
  di_fw_version : list Z;
  di_erom_version : list Z;
  di_bus_info : list Z;
  di_n_priv_flags : Z;
  di_n_stats : Z;
}.

(** What strlcpy leaves in a buffer of [n] bytes, up to the NUL. *)
Definition strlcpy_str (n : nat) (s : list Z) : list Z := take (n - 1) s.

Definition xeth_mux_eto_get_drvinfo (xeth_version : list Z) : drvinfo :=
  {| di_driver := strlcpy_str 32 (chars "xeth-mux"); di_version := strlcpy_str 32 xeth_version;
     di_fw_version := strlcpy_str 32 (chars "n/a"); di_erom_version := strlcpy_str 32 (chars "n/a");
     di_bus_info := strlcpy_str 32 (chars "n/a"); di_n_priv_flags := Z.of_nat xeth_mux_n_flags;
     di_n_stats := Z.of_nat xeth_mux_n_counters |}.

Definition xeth_mux_eto_get_sset_count (sset : Z) : Z :=
  if sset =? ETH_SS_TEST then 0 else
  if sset =? ETH_SS_STATS then Z.of_nat xeth_mux_n_counters else
  if sset =? ETH_SS_PRIV_FLAGS then Z.of_nat xeth_mux_n_flags else
  - EOPNOTSUPP.

(** strlcpy into an entry of the buffer: what is after the NUL stays. *)
Definition strlcpy (dst src : list Z) : list Z :=
  let s := take (length dst - 1) src in s ++ take (length dst - length s) (0 :: drop (length s + 1) dst).

(** The loop over a table up to its first NULL. *)
Fixpoint put_names (table : list (option (list Z))) (data : list (list Z)) : list (list Z) :=
  match table, data with
  | Some name :: table, cell :: data => strlcpy cell name :: put_names table data
  | _, _ => data
  end.

Definition xeth_mux_eto_get_strings (sset : Z) (data : list (list Z)) : list (list Z) :=
  if sset =? ETH_SS_STATS then put_names xeth_mux_counter_names data else
  if sset =? ETH_SS_PRIV_FLAGS then put_names xeth_mux_flag_names data else
  data.

Definition xeth_mux_eto_get_stats : M world (list Z) :=
  gets (fun w => (fun c => u64 (counter_get c (w_priv w))) <$> xeth_mux_counter_all).

(** The low 32 bits of the flags. *)
Definition xeth_mux_eto_get_priv_flags : M world Z := gets (fun w => u32 (mx_flags (w_priv w))).

(** ** What ethtool shows *)

(** The string at the head of an entry. *)
Fixpoint shown_str (cell : list Z) : list Z :=
  match cell with
  | [] => []
  | c :: cell => if c =? 0 then [] else c :: shown_str cell
  end.

Lemma shown_strlcpy name cell :
  Forall (fun c => c <> 0) name -> (length name < length cell)%nat -> shown_str (strlcpy cell name) = name.
Proof.
  intros Hn Hl. unfold strlcpy. rewrite take_ge by lia.
  destruct (length cell - length name)%nat as [|k] eqn:E; [lia|]. cbn [take].
  generalize (take k (drop (length name + 1) cell)). intros rest. clear Hl E.
  induction Hn as [|c name Hc _ IH]; simpl; [done|].
  rewrite (proj2 (Z.eqb_neq _ _) Hc). f_equal. exact IH.
Qed.

Lemma put_names_lookup table : forall data i name cell,
  (i < length data)%nat -> table !! i = Some (Some name) -> data !! i = Some cell ->
  Forall is_Some (take i table) -> put_names table data !! i = Some (strlcpy cell name).
Proof.
  induction table as [|[n|] table IH]; intros [|x data] [|i] name cell Hi Ht Hd Hall; simplify_eq/=; try lia.
  - done.
  - inversion Hall; subst. apply IH; [lia|done..].
  - inversion Hall as [|? ? [? ?]]; done.
Qed.

(** Entries from the first NULL of the table on are not written. *)
Lemma put_names_stops k : forall table data i,
  table !! k = Some None -> (k <= i)%nat -> put_names table data !! i = data !! i.
Proof.
  induction k as [|k IH]; intros [|[n|] table] [|x data] [|i] Ht Hi; simplify_eq/=; try done; try lia.
  apply IH; [done|lia].
Qed.

(** Every counter of the mux is shown by ethtool under its name, with its value.
    Of the flags only the first four are named: the table of names has a hole where
    the flag of the route notifier is, and the loop ends there, though the number
    of flags that is announced counts all nine. *)
Theorem mux_strings w data :
  (forall cell, cell ∈ data -> length cell = ETH_GSTRING_LEN) ->
  (Z.of_nat (length data) = xeth_mux_eto_get_sset_count ETH_SS_STATS ->
   forall i c, xeth_mux_counter_all !! i = Some c ->
     (shown_str <$> xeth_mux_eto_get_strings ETH_SS_STATS data !! i) = Some (xeth_mux_counter_name c) /\
     exists vals, xeth_mux_eto_get_stats w = Some (vals, w) /\
       vals !! i = Some (u64 (counter_get c (w_priv w)))) /\
  (Z.of_nat (length data) = xeth_mux_eto_get_sset_count ETH_SS_PRIV_FLAGS ->
   forall f, if flag_bit f <? 4
     then (shown_str <$> xeth_mux_eto_get_strings ETH_SS_PRIV_FLAGS data !! Z.to_nat (flag_bit f)) =
       xeth_mux_flag_name f
     else xeth_mux_eto_get_strings ETH_SS_PRIV_FLAGS data !! Z.to_nat (flag_bit f) =
       data !! Z.to_nat (flag_bit f)).
Proof.
  intros Hcell. split.
  - intros Hlen i c Hi. apply lookup_lt_Some in Hi as Hlt.
    change (xeth_mux_eto_get_sset_count ETH_SS_STATS) with (Z.of_nat xeth_mux_n_counters) in Hlen.
    fold xeth_mux_n_counters in Hlt.
    destruct (lookup_lt_is_Some_2 data i) as [cell Hd]; [lia|].
    split.
    + change (xeth_mux_eto_get_strings ETH_SS_STATS data) with (put_names xeth_mux_counter_names data).
      rewrite (put_names_lookup _ _ _ (xeth_mux_counter_name c) cell); [|lia| |done|].
      * simpl. f_equal. apply shown_strlcpy.
        -- destruct c; repeat constructor; discriminate.
        -- rewrite (Hcell cell) by (by eapply list_elem_of_lookup_2).
           destruct c; apply Nat.ltb_lt; vm_compute; reflexivity.
      * unfold xeth_mux_counter_names. rewrite lookup_app_l by (rewrite length_fmap; exact Hlt).
        rewrite list_lookup_fmap, Hi. done.
      * unfold xeth_mux_counter_names. rewrite take_app_le by (rewrite length_fmap; unfold xeth_mux_n_counters in Hlt; lia).
        apply Forall_take, Forall_fmap, Forall_true. intros x. simpl. eauto.
    + eexists. split; [done|]. by rewrite list_lookup_fmap, Hi.
  - intros Hlen f. change (xeth_mux_eto_get_sset_count ETH_SS_PRIV_FLAGS) with (Z.of_nat 9) in Hlen.
    change (xeth_mux_eto_get_strings ETH_SS_PRIV_FLAGS data) with (put_names xeth_mux_flag_names data).
    assert (forall i name, (i < 4)%nat -> xeth_mux_flag_names !! i = Some (Some name) ->
      Forall (fun c => c <> 0) name -> (length name < 32)%nat ->
      shown_str <$> put_names xeth_mux_flag_names data !! i = Some name) as Hshown.
    { intros i name Hi Hn Hz Hl. destruct (lookup_lt_is_Some_2 data i) as [cell Hd]; [lia|].
      rewrite (put_names_lookup _ _ _ name cell); [|lia|done|done|].
      - simpl. f_equal. apply shown_strlcpy; [done|].
        rewrite (Hcell cell) by (by eapply list_elem_of_lookup_2). exact Hl.
      - destruct i as [|[|[|[|i]]]]; [..|lia]; repeat constructor; eauto. }
    destruct f; cbn [flag_bit]; try (apply (put_names_stops 4); [reflexivity|apply Nat.leb_le; reflexivity]);
      (apply Hshown; [apply Nat.ltb_lt; reflexivity|reflexivity|repeat constructor; discriminate
                     |apply Nat.ltb_lt; vm_compute; reflexivity]).
Qed.

(** ** Witness *)

Lemma mux_strings_witness :
  shown_str <$> xeth_mux_eto_get_strings ETH_SS_STATS (replicate 16 (replicate ETH_GSTRING_LEN 0)) !! 8%nat =
    Some (chars "sbrx_msgs").
Proof.
  destruct (mux_strings demo_world (replicate 16 (replicate ETH_GSTRING_LEN 0))) as [T _].
  - intros cell Hc. apply elem_of_replicate in Hc as [-> _]. apply length_replicate.
  - destruct (T eq_refl 8%nat xeth_mux_counter_sbrx_msgs eq_refl) as [E _]. exact E.
Defined.
