(* ===== verification/Mod.v ===== *)
(** * The module (dkms/xeth_mod.c)

    Loading registers the platform drivers and the link types in the order of two
    tables; unloading unregisters them.  The state is what the kernel has registered
    and, for the order of removal, what was unregistered so far. *)

From stdpp Require Import base numbers list.
From Stdlib Require Import ZArith Lia.
From S2P Require Import Prelude Monad State.

Local Open Scope Z_scope.

Inductive platform_driver := xeth_mux_driver | xeth_port_driver.
#[export] Instance platform_driver_eq_dec : EqDecision platform_driver.
Proof. solve_decision. Defined.

Record module_state := {
  ms_drivers : list platform_driver;
  ms_lnkos : list lnko;
  ms_removed : list (platform_driver + lnko);
}.

Definition xeth_mod_drivers : list platform_driver := [xeth_mux_driver; xeth_port_driver].

(** Bridges before LAGs and VLANs, so that these are released before their bridge. *)
Definition xeth_mod_lnkos : list lnko := [LnkoBridge; LnkoLag; LnkoVlan; LnkoPort; LnkoLb; LnkoMux].

(** 0 or a negated errno. *)
Class KernelModule := {
  driver_register_result : module_state -> platform_driver -> Z;
  link_register_result : module_state -> lnko -> Z;
}.

Section module.
Context {K : KernelModule}.

Definition platform_driver_register (d : platform_driver) : M module_state Z :=
  err ← gets (fun s => driver_register_result s d);
  when (err =? 0) (modify (fun s => {| ms_drivers := ms_drivers s ++ [d]; ms_lnkos := ms_lnkos s;
    ms_removed := ms_removed s |})) ≫= fun _ => mret err.

(** A driver that is not registered is warned of and left alone. *)
Definition platform_driver_unregister (d : platform_driver) : M module_state unit :=
  s ← gets id;
  when (bool_decide (d ∈ ms_drivers s)) (modify (fun s =>
    {| ms_drivers := filter (fun e => e <> d) (ms_drivers s); ms_lnkos := ms_lnkos s;
       ms_removed := ms_removed s ++ [inl d] |})).

Definition rtnl_link_register (o : lnko) : M module_state Z :=
  err ← gets (fun s => link_register_result s o);
  when (err =? 0) (modify (fun s => {| ms_drivers := ms_drivers s; ms_lnkos := ms_lnkos s ++ [o];
    ms_removed := ms_removed s |})) ≫= fun _ => mret err.

(** Unlinks it from the list of link types: the pointers of one that was never
    registered are NULL. *)
Definition rtnl_link_unregister (o : lnko) : M module_state unit :=
  s ← gets id;
  if bool_decide (o ∈ ms_lnkos s) then
    modify (fun s => {| ms_drivers := ms_drivers s; ms_lnkos := filter (fun e => e <> o) (ms_lnkos s);
      ms_removed := ms_removed s ++ [inr o] |})
  else oops.

(** A loop of the module over a table while [err] is not negative.  The result is
    [err] and what the pointer has gone past, the last first: the entry that failed,
    too. *)
Fixpoint register_loop {X} (reg : X -> M module_state Z) (table past : list X) (err : Z)
  : M module_state (Z * list X) :=
  match table with
  | [] => mret (err, past)
  | x :: table =>
      if err <? 0 then mret (err, past) else
      err ← reg x;
      register_loop reg table (x :: past) err
  end.

(** [garbage] is the initial value of [err], which is not set. *)
Definition xeth_mod_init (garbage : Z) : M module_state Z :=
  drvr ← register_loop platform_driver_register xeth_mod_drivers [] garbage;
  lnko ← register_loop rtnl_link_register xeth_mod_lnkos [] (fst drvr);
  let err := fst lnko in
  when (negb (err =? 0)) (
    for_each (snd drvr) platform_driver_unregister ≫= fun _ =>
    for_each (snd lnko) rtnl_link_unregister) ≫= fun _ =>
  mret err.

Definition xeth_mod_exit : M module_state unit :=
  for_each xeth_mod_drivers platform_driver_unregister ≫= fun _ =>
  for_each xeth_mod_lnkos (fun o =>
    s ← gets id;
    when (bool_decide (o ∈ ms_lnkos s)) (rtnl_link_unregister o)).

(** ** Loading and unloading *)

Definition unloaded : module_state := {| ms_drivers := []; ms_lnkos := []; ms_removed := [] |}.
Definition loaded : module_state :=
  {| ms_drivers := xeth_mod_drivers; ms_lnkos := xeth_mod_lnkos; ms_removed := [] |}.

Definition driver_errs : Prop := forall s d, driver_register_result s d <= 0.
Definition link_errs : Prop := forall s o, link_register_result s o <= 0.

Lemma driver_register_run d s :
  platform_driver_register d s =
    Some (driver_register_result s d,
      if driver_register_result s d =? 0
      then {| ms_drivers := ms_drivers s ++ [d]; ms_lnkos := ms_lnkos s; ms_removed := ms_removed s |}
      else s).
Proof.
  unfold platform_driver_register. rewrite bind_run. unfold gets.
  destruct (driver_register_result s d =? 0); done.
Qed.

Lemma link_register_run o s :
  rtnl_link_register o s =
    Some (link_register_result s o,
      if link_register_result s o =? 0
      then {| ms_drivers := ms_drivers s; ms_lnkos := ms_lnkos s ++ [o]; ms_removed := ms_removed s |}
      else s).
Proof.
  unfold rtnl_link_register. rewrite bind_run. unfold gets.
  destruct (link_register_result s o =? 0); done.
Qed.

(** The link types are registered in order up to the first that is refused; [past]
    has that one, too. *)
Lemma link_loop_run table : forall past s,
  link_errs ->
  exists err done_, err <= 0 /\
    (exists past', register_loop rtnl_link_register table past 0 s =
       Some ((err, past'), {| ms_drivers := ms_drivers s; ms_lnkos := ms_lnkos s ++ done_;
         ms_removed := ms_removed s |}) /\
       ((err = 0 /\ done_ = table /\ past' = reverse table ++ past /\
         forall o, o ∈ table -> exists s', link_register_result s' o = 0) \/
        (err < 0 /\ exists o rest s', table = done_ ++ o :: rest /\ past' = o :: reverse done_ ++ past /\
         link_register_result s' o < 0))).
Proof.
  induction table as [|o table IH]; intros past s Hle; cbn [register_loop].
  { exists 0, []. split; [lia|]. exists past. rewrite app_nil_r. destruct s. split; [done|].
    left. do 3 (split; [done|]). intros o Ho. by apply elem_of_nil in Ho. }
  cbn [Z.ltb Z.compare]. rewrite bind_run, link_register_run.
  pose proof (Hle s o) as Ho. destruct (Z.eqb_spec (link_register_result s o) 0) as [Hz|Hne].
  - rewrite Hz. destruct (IH (o :: past) {| ms_drivers := ms_drivers s; ms_lnkos := ms_lnkos s ++ [o];
      ms_removed := ms_removed s |} Hle) as (err & dn & He & past' & E & Hc).
    exists err, (o :: dn). split; [done|]. exists past'. rewrite E. simpl. rewrite <- app_assoc.
    split; [done|]. destruct Hc as [(-> & -> & -> & Hall)|(Hneg & o' & rest & s' & -> & -> & Hs')].
    + left. rewrite reverse_cons, <- app_assoc. do 3 (split; [done|]).
      intros x [->|Hx]%elem_of_cons; [by exists s|auto].
    + right. split; [done|]. exists o', rest, s'. by rewrite reverse_cons, <- app_assoc.
  - exists (link_register_result s o), []. split; [done|]. exists (o :: past). rewrite app_nil_r.
    assert (link_register_result s o < 0) as Hneg by lia.
    split; [|right; split; [done|]; by exists o, table, s].
    destruct s. destruct table as [|o' table]; cbn [register_loop]; [done|].
    by rewrite (proj2 (Z.ltb_lt _ _) Hneg).
Qed.

(** Unregistering one that is not registered is an oops. *)
Lemma unregister_unknown o rest s :
  (o ∉ ms_lnkos s) -> for_each (o :: rest) rtnl_link_unregister s = None.
Proof.
  intros Ho. cbn [for_each]. rewrite bind_run. unfold rtnl_link_unregister. rewrite bind_run.
  unfold gets, id. by rewrite bool_decide_eq_false_2.
Qed.

(** The drivers: both, or up to the first that is refused. *)
Lemma driver_loop_ok garbage :
  0 <= garbage -> (forall s d, driver_register_result s d = 0) ->
  register_loop platform_driver_register xeth_mod_drivers [] garbage unloaded =
    Some ((0, reverse xeth_mod_drivers),
      {| ms_drivers := xeth_mod_drivers; ms_lnkos := []; ms_removed := [] |}).
Proof.
  intros Hg Hd. cbn [register_loop xeth_mod_drivers]. rewrite (proj2 (Z.ltb_ge _ _) Hg).
  rewrite bind_run, driver_register_run, Hd. cbn [Z.eqb Z.ltb Z.compare].
  rewrite bind_run, driver_register_run, Hd. done.
Qed.

Lemma driver_loop_fails garbage d err :
  0 <= garbage -> (forall s, driver_register_result s d = err) -> err < 0 ->
  (forall s e, e <> d -> driver_register_result s e = 0) ->
  exists before past, register_loop platform_driver_register xeth_mod_drivers [] garbage unloaded =
    Some ((err, past), {| ms_drivers := before; ms_lnkos := []; ms_removed := [] |}) /\
    (before = [] /\ past = [xeth_mux_driver] \/
     before = [xeth_mux_driver] /\ past = [xeth_port_driver; xeth_mux_driver]).
Proof.
  intros Hg Hd Herr Ho. assert ((err =? 0) = false) as Hz by (apply Z.eqb_neq; lia).
  cbn [register_loop xeth_mod_drivers]. rewrite (proj2 (Z.ltb_ge _ _) Hg).
  rewrite bind_run, driver_register_run. destruct d.
  - rewrite Hd, Hz, (proj2 (Z.ltb_lt _ _) Herr). eexists _, _. split; [done|]. by left.
  - rewrite Ho by done. cbn [Z.eqb Z.ltb Z.compare]. rewrite bind_run, driver_register_run, Hd, Hz.
    eexists _, _. split; [done|]. by right.
Qed.

Lemma lnkos_nodup : NoDup xeth_mod_lnkos.
Proof. apply (bool_decide_unpack _). by vm_compute. Qed.

(** C38: What loading the module does, for each way it may go.  When the kernel
    registers everything the module is loaded with 0 and unloading it unregisters
    the drivers and then every link type, bridges first.  When it refuses a driver
    nothing stays registered and the error is returned.  When it refuses a link
    type the unwinding unregisters that one, too, which is an oops.  And when the
    uninitialised error happens to be negative, nothing is registered and that
    number is returned. *)
Theorem module_load garbage :
  link_errs ->
  (garbage < 0 -> xeth_mod_init garbage unloaded = Some (garbage, unloaded)) /\
  (0 <= garbage ->
    ((forall s d, driver_register_result s d = 0) -> (forall s o, link_register_result s o = 0) ->
       xeth_mod_init garbage unloaded = Some (0, loaded) /\
       exists s', xeth_mod_exit loaded = Some (tt, s') /\ ms_drivers s' = [] /\ ms_lnkos s' = [] /\
         ms_removed s' = (inl <$> xeth_mod_drivers) ++ (inr <$> xeth_mod_lnkos)) /\
    (forall d err, (forall s, driver_register_result s d = err) -> err < 0 ->
       (forall s e, e <> d -> driver_register_result s e = 0) ->
       exists s', xeth_mod_init garbage unloaded = Some (err, s') /\ ms_drivers s' = [] /\ ms_lnkos s' = []) /\
    (forall o, (forall s d, driver_register_result s d = 0) -> o ∈ xeth_mod_lnkos ->
       (forall s, link_register_result s o < 0) -> xeth_mod_init garbage unloaded = None)).
Proof.
  intros Hle. unfold xeth_mod_init. split.
  { intros Hg. cbn [register_loop xeth_mod_drivers xeth_mod_lnkos]. rewrite (proj2 (Z.ltb_lt _ _) Hg).
    rewrite !bind_run. cbn [mret M_ret fst snd]. rewrite (proj2 (Z.ltb_lt _ _) Hg), bind_run.
    cbn [mret M_ret fst snd]. rewrite (proj2 (Z.eqb_neq garbage 0)) by lia. done. }
  intros Hg. split; [|split].
  - intros Hd Hl. split.
    + rewrite bind_run, driver_loop_ok by done. cbn [fst snd].
      destruct (link_loop_run xeth_mod_lnkos [] {| ms_drivers := xeth_mod_drivers; ms_lnkos := [];
        ms_removed := [] |} Hle)
        as (err & dn & _ & past & E & [(-> & -> & -> & _)|(_ & o & _ & s' & _ & _ & Hneg)]).
      * rewrite bind_run, E. done.
      * rewrite Hl in Hneg. lia.
    + eexists. split; [vm_compute; reflexivity|]. done.
  - intros d err Hd Herr Ho.
    destruct (driver_loop_fails garbage d err Hg Hd Herr Ho) as (before & past & E & Hc).
    rewrite bind_run, E. cbn [fst snd register_loop xeth_mod_lnkos].
    rewrite (proj2 (Z.ltb_lt _ _) Herr), bind_run. cbn [mret M_ret fst snd].
    rewrite (proj2 (Z.eqb_neq err 0)) by lia. cbn [negb when].
    destruct Hc as [[-> ->]|[-> ->]]; eexists; (split; [vm_compute; reflexivity|done]).
  - intros o Hd Ho Hneg. rewrite bind_run, driver_loop_ok by done. cbn [fst snd].
    destruct (link_loop_run xeth_mod_lnkos [] {| ms_drivers := xeth_mod_drivers; ms_lnkos := [];
      ms_removed := [] |} Hle)
      as (err & dn & _ & past & E & [(_ & _ & _ & Hall)|(Herr & o' & rest & _ & Et & -> & _)]).
    + destruct (Hall o Ho) as [s' Hs']. specialize (Hneg s'). lia.
    + rewrite bind_run, E. cbn [fst snd ms_drivers ms_lnkos ms_removed].
      rewrite (proj2 (Z.eqb_neq err 0)) by lia. cbn [negb when]. rewrite !bind_run.
      replace (for_each (reverse xeth_mod_drivers) platform_driver_unregister _) with
        (Some (tt, {| ms_drivers := []; ms_lnkos := dn;
           ms_removed := [inl xeth_port_driver; inl xeth_mux_driver] |})) by reflexivity.
      rewrite unregister_unknown; [done|]. simpl. pose proof lnkos_nodup as Nd. rewrite Et in Nd.
      apply NoDup_app in Nd as (_ & Nd & _). intros Hin. apply (Nd o' Hin). left.
Qed.
End module.

(** ** Witness *)

(** A kernel that already has a link type "xeth-vlan" registers all but that. *)
Definition vlan_taken : KernelModule := {|
  driver_register_result _ _ := 0;
  link_register_result _ o := if bool_decide (o = LnkoVlan) then -17 else 0;
|}.

Lemma module_load_witness : xeth_mod_init (K:=vlan_taken) 0 unloaded = None.
Proof.
  destruct (module_load (K:=vlan_taken) 0) as [_ T].
  - intros s o. simpl. destruct (bool_decide _); lia.
  - destruct (T ltac:(lia)) as (_ & _ & Hl). apply (Hl LnkoVlan).
    + reflexivity.
    + apply (bool_decide_unpack _). vm_compute. exact I.
    + intros s. simpl. reflexivity.
Defined.
