(* ===== verification/Ops.v ===== *)
(** * The operation tables and the kernel that calls them

    The tables of net_device_ops and rtnl_link_ops of each kind of device
    (dkms/xeth_mux.c, xeth_port.c, xeth_vlan.c, xeth_lag.c, xeth_bridge.c,
    xeth_lb.c), and how the kernel goes through them when a device is brought up or
    down, made and removed.  With these the removal of a mux is followed from its
    dellink to the last free_netdev. *)

From stdpp Require Import base numbers list gmap strings.
From Stdlib Require Import ZArith Lia.
From S2P Require Import Prelude Bytes Monad Uapi State Stats Kernel Demo Registry Sbq.
From S2P Require Import Sbtx Proxy Carrier Nb Sbrx Service Encap Netdev Lower Xid Create Team Vlan Ethtool.
From S2P Require Import Qsfp Text Port Muxeto.

Local Open Scope Z_scope.

Definition NETDEV_DOWN : Z := 2.
Definition NETDEV_GOING_DOWN : Z := 10.

(** None where the table has no such operation. *)
Record net_device_ops := {
  op_init : Z -> M world Z;
  op_uninit : Z -> M world unit;
  op_open : Z -> M world Z;
  op_stop : Z -> M world Z;
  op_start_xmit : sk_buff -> Z -> M world unit;
  op_get_iflink : option (Z -> M world Z);
  op_get_stats64 : Z -> M world rtnl_link_stats64;
  op_add_slave : option (Z -> Z -> M world Z);
  op_del_slave : option (Z -> Z -> M world Z);
  op_change_mtu : option (Z -> Z -> M world Z);
  op_fix_features : option (Z -> Z);
  op_set_features : option (Z -> Z -> M world Z);
}.

Inductive nla_type := NLA_U8 | NLA_U16.

(** The number of attributes of each kind, the unspecified one included. *)
Definition XETH_PORT_N_IFLA : Z := 2.
Definition XETH_VLAN_N_IFLA : Z := 2.
Definition XETH_LB_N_IFLA : Z := 2.

Record rtnl_link_ops := {
  lo_kind : list Z;
  lo_setup : Z -> M world unit;
  lo_validate : nlattrs -> Z;
  lo_newlink : Z -> nlattrs -> M world Z;
  lo_dellink : Z -> M world unit;
  lo_get_link_net : Z -> M world net;
  (** the type of the attribute 1, and the greatest attribute *)
  lo_policy : option nla_type;
  lo_maxtype : Z;
}.

Section ops.
Context {K : KernelDev} {C : KernelConst} {N : KernelNotify} {H : KernelHash}.
Context {A : KernelAlloc} {B : KernelNames} {I : KernelI2c} {T : KernelTx} {F : KernelFeatures} {S : KernelStr}.

(** What is left of the run of the main task of the mux. *)
Context (rest : M world unit).

(** ** Device operations *)

Definition xeth_mux_ndo : net_device_ops := {|
  op_init _ := mret 0; op_uninit := xeth_mux_uninit rest; op_open := xeth_mux_open;
  op_stop := xeth_mux_stop; op_start_xmit skb _ := xeth_mux_xmit skb; op_get_iflink := None;
  op_get_stats64 _ := xeth_mux_get_stats64; op_add_slave := None; op_del_slave := None;
  op_change_mtu := None; op_fix_features := None; op_set_features := None;
|}.

Definition xeth_port_ndo : net_device_ops := {|
  op_init := xeth_proxy_init; op_uninit := xeth_port_uninit; op_open := xeth_port_open;
  op_stop := xeth_port_stop; op_start_xmit := xeth_proxy_start_xmit;
  op_get_iflink := Some xeth_proxy_get_iflink; op_get_stats64 := xeth_proxy_get_stats64;
  op_add_slave := None; op_del_slave := None; op_change_mtu := Some xeth_proxy_change_mtu;
  op_fix_features := Some xeth_proxy_fix_features; op_set_features := Some xeth_proxy_set_features;
|}.

Definition xeth_vlan_ndo : net_device_ops := {|
  op_init := xeth_proxy_init; op_uninit := xeth_proxy_uninit; op_open := xeth_vlan_open;
  op_stop := xeth_vlan_stop; op_start_xmit := xeth_proxy_start_xmit;
  op_get_iflink := Some xeth_vlan_get_iflink; op_get_stats64 := xeth_proxy_get_stats64;
  op_add_slave := None; op_del_slave := None; op_change_mtu := Some xeth_proxy_change_mtu;
  op_fix_features := Some xeth_proxy_fix_features; op_set_features := Some xeth_proxy_set_features;
|}.

Definition xeth_lb_ndo : net_device_ops := {|
  op_init := xeth_proxy_init; op_uninit := xeth_proxy_uninit; op_open := xeth_lb_open;
  op_stop := xeth_lb_stop; op_start_xmit := xeth_proxy_start_xmit;
  op_get_iflink := Some xeth_lb_get_iflink; op_get_stats64 := xeth_proxy_get_stats64;
  op_add_slave := None; op_del_slave := None; op_change_mtu := Some xeth_proxy_change_mtu;
  op_fix_features := Some xeth_proxy_fix_features; op_set_features := Some xeth_proxy_set_features;
|}.

Definition xeth_lag_ndo : net_device_ops := {|
  op_init := xeth_lag_init; op_uninit := xeth_lag_uninit; op_open := xeth_lag_open;
  op_stop := xeth_lag_stop; op_start_xmit := xeth_proxy_start_xmit;
  op_get_iflink := Some xeth_proxy_get_iflink; op_get_stats64 := xeth_proxy_get_stats64;
  op_add_slave := Some xeth_lag_add_lower; op_del_slave := Some xeth_lag_del_lower;
  op_change_mtu := Some xeth_proxy_change_mtu;
  op_fix_features := Some xeth_proxy_fix_features; op_set_features := Some xeth_proxy_set_features;
|}.

Definition xeth_bridge_ndo : net_device_ops := {|
  op_init := xeth_bridge_init; op_uninit := xeth_bridge_uninit; op_open := xeth_bridge_open;
  op_stop := xeth_bridge_stop; op_start_xmit := xeth_proxy_start_xmit;
  op_get_iflink := Some xeth_proxy_get_iflink; op_get_stats64 := xeth_proxy_get_stats64;
  op_add_slave := Some xeth_bridge_add_lower; op_del_slave := Some xeth_bridge_del_lower;
  op_change_mtu := Some xeth_proxy_change_mtu;
  op_fix_features := Some xeth_proxy_fix_features; op_set_features := Some xeth_proxy_set_features;
|}.

(** The table a device points to; that of another driver is not known. *)
Definition netdev_ops (o : ndo) : option net_device_ops :=
  match o with
  | NdoMux => Some xeth_mux_ndo
  | NdoPort => Some xeth_port_ndo
  | NdoVlan => Some xeth_vlan_ndo
  | NdoBridge => Some xeth_bridge_ndo
  | NdoLag => Some xeth_lag_ndo
  | NdoLb => Some xeth_lb_ndo
  | NdoOther => None
  end.

(** ** Driver information of LAGs, bridges and loopbacks *)

(** The kernel clears the information first; [bus] is printed. *)
Definition proxy_drvinfo (driver xeth_version bus : list Z) : drvinfo :=
  {| di_driver := strlcpy_str 32 driver; di_version := strlcpy_str 32 xeth_version;
     di_fw_version := strlcpy_str 32 (chars "n/a"%string);
     di_erom_version := strlcpy_str 32 (chars "n/a"%string);
     di_bus_info := scnprintf 32 bus; di_n_priv_flags := 0; di_n_stats := 0 |}.

Definition xeth_lag_get_drvinfo (xeth_version : list Z) (nd : Z) : M world drvinfo :=
  px ← netdev_priv nd; mret (proxy_drvinfo (chars "xeth-lag"%string) xeth_version (dec (px_xid px))).
Definition xeth_bridge_get_drvinfo (xeth_version : list Z) (nd : Z) : M world drvinfo :=
  px ← netdev_priv nd; mret (proxy_drvinfo (chars "xeth-bridge"%string) xeth_version (dec (px_xid px))).
Definition xeth_lb_get_drvinfo (xeth_version : list Z) (nd : Z) : M world drvinfo :=
  px ← netdev_priv nd;
  match px_priv px with
  | PrivLb chan => mret (proxy_drvinfo (chars "xeth-lb"%string) xeth_version (dec chan ++ [58] ++ dec (px_xid px)))
  | _ => oops
  end.

(** ** The kernel's walk through the tables *)

(** dev_open and dev_close *)
Definition link_up (nd : Z) : M world Z :=
  d ← dev nd;
  if has_flag (nd_flags d) IFF_UP then mret 0 else
  match netdev_ops (nd_ops d) with
  | None => dev_open nd
  | Some ops =>
      and_then (op_open ops nd) (
        mod_dev nd (upd_nd_flags (fun f => Z.lor f IFF_UP)) ≫= fun _ =>
        call_netdevice_notifiers NETDEV_UP nd ≫= fun _ => mret 0)
  end.

Definition link_down (nd : Z) : M world unit :=
  d ← dev nd;
  when (has_flag (nd_flags d) IFF_UP) (
    call_netdevice_notifiers NETDEV_GOING_DOWN nd ≫= fun _ =>
    match netdev_ops (nd_ops d) with Some ops => ignore (op_stop ops nd) | None => mret tt end ≫= fun _ =>
    dev_close nd ≫= fun _ =>
    call_netdevice_notifiers NETDEV_DOWN nd).

(** unregister_netdevice_many: the devices are closed, then each is announced to
    be gone and uninitialised, and freed in the end. *)
Definition unregister_one (nd : Z) : M world unit :=
  call_netdevice_notifiers NETDEV_UNREGISTER nd ≫= fun _ =>
  d ← dev nd;
  match netdev_ops (nd_ops d) with Some ops => op_uninit ops nd | None => mret tt end ≫= fun _ =>
  mod_dev nd (upd_nd_registered (fun _ => false)).

Definition free_one (nd : Z) : M world unit :=
  d ← dev nd;
  when (nd_needs_free d) (modify (upd_w_devs (delete nd))).

Definition unregister_many : M world unit :=
  q ← gets w_unregq;
  for_each q link_down ≫= fun _ =>
  for_each q unregister_one ≫= fun _ =>
  for_each q free_one ≫= fun _ =>
  modify (upd_w_unregq (fun _ => [])).

(** ** Link operations *)

(** [fuel] bounds the search for the XID of a port, [garbage] is what an
    uninitialised variable has, [link_addr] an address taken for an error, and
    [other] what a master of another driver does. *)
Context (fuel : nat) (garbage link_addr : Z) (other : Z -> Z -> M world unit).

(** dev_net, for each kind of device. *)
Definition xeth_get_link_net (nd : Z) : M world net := d ← dev nd; mret (nd_net d).

Definition xeth_mux_lnko : rtnl_link_ops := {|
  lo_kind := chars "xeth-mux"%string; lo_setup := xeth_mux_setup; lo_validate := xeth_mux_validate;
  lo_newlink nd a := xeth_mux_newlink nd a link_addr; lo_dellink := xeth_mux_dellink;
  lo_get_link_net := xeth_get_link_net; lo_policy := None; lo_maxtype := 0 |}.
Definition xeth_port_lnko : rtnl_link_ops := {|
  lo_kind := xeth_port_drvname; lo_setup := xeth_port_setup; lo_validate := xeth_port_validate;
  lo_newlink := xeth_port_newlink fuel; lo_dellink := xeth_port_dellink other;
  lo_get_link_net := xeth_get_link_net; lo_policy := Some NLA_U16; lo_maxtype := XETH_PORT_N_IFLA - 1 |}.
Definition xeth_vlan_lnko : rtnl_link_ops := {|
  lo_kind := chars "xeth-vlan"%string; lo_setup := xeth_vlan_setup; lo_validate := xeth_vlan_validate;
  lo_newlink nd a := xeth_vlan_newlink nd a garbage; lo_dellink := xeth_vlan_dellink other;
  lo_get_link_net := xeth_get_link_net; lo_policy := Some NLA_U16; lo_maxtype := XETH_VLAN_N_IFLA - 1 |}.
Definition xeth_lag_lnko : rtnl_link_ops := {|
  lo_kind := chars "xeth-lag"%string; lo_setup := xeth_lag_setup; lo_validate := xeth_lag_validate;
  lo_newlink := xeth_lag_newlink; lo_dellink := xeth_lag_dellink other;
  lo_get_link_net := xeth_get_link_net; lo_policy := None; lo_maxtype := 0 |}.
Definition xeth_bridge_lnko : rtnl_link_ops := {|
  lo_kind := chars "xeth-bridge"%string; lo_setup := xeth_bridge_setup; lo_validate := xeth_bridge_validate;
  lo_newlink := xeth_bridge_newlink; lo_dellink := xeth_bridge_dellink;
  lo_get_link_net := xeth_get_link_net; lo_policy := None; lo_maxtype := 0 |}.
Definition xeth_lb_lnko : rtnl_link_ops := {|
  lo_kind := chars "xeth-lb"%string; lo_setup := xeth_lb_setup; lo_validate := xeth_lb_validate;
  lo_newlink := xeth_lb_newlink; lo_dellink := xeth_lb_dellink;
  lo_get_link_net := xeth_get_link_net; lo_policy := Some NLA_U8; lo_maxtype := XETH_LB_N_IFLA - 1 |}.

Definition link_ops (o : lnko) : option rtnl_link_ops :=
  match o with
  | LnkoMux => Some xeth_mux_lnko
  | LnkoPort => Some xeth_port_lnko
  | LnkoVlan => Some xeth_vlan_lnko
  | LnkoBridge => Some xeth_bridge_lnko
  | LnkoLag => Some xeth_lag_lnko
  | LnkoLb => Some xeth_lb_lnko
  | LnkoOther => None
  end.

(** rtnl_newlink of a device that was allocated as [nd], and rtnl_dellink.  The
    attributes of the kind are handed over only if the table has a greatest one. *)
Definition link_attrs (ops : rtnl_link_ops) (a : nlattrs) : nlattrs :=
  {| ifla_address := ifla_address a; ifla_link := ifla_link a; ifla_ifname := ifla_ifname a;
     ifla_data := if lo_maxtype ops =? 0 then None else ifla_data a |}.

Definition link_add (o : lnko) (nd : Z) (a : nlattrs) : M world Z :=
  match link_ops o with
  | None => mret (- EOPNOTSUPP)
  | Some ops =>
      let a := link_attrs ops a in
      let err := lo_validate ops a in
      if err <? 0 then mret err else
      lo_setup ops nd ≫= fun _ => lo_newlink ops nd a
  end.

Definition link_del (o : lnko) (nd : Z) : M world Z :=
  match link_ops o with
  | None => mret (- EOPNOTSUPP)
  | Some ops => lo_dellink ops nd ≫= fun _ => unregister_many ≫= fun _ => mret 0
  end.

(** ** The removal keeps the invariants *)

Context {KL : KernelDevLaws} {NL : KernelNotifyLaws} {HL : KernelHashLaws}.

(** What the operations of a device leave of it: its table, and whether it is freed
    when it is unregistered. *)
Definition shape (d : net_device) : ndo * bool := (nd_ops d, nd_needs_free d).
Definition shape_of (w : world) (p : Z) : option (ndo * bool) := shape <$> w_devs w !! p.

(** The invariants with the registered proxies [l], and the shapes [L] of devices. *)
Definition live (L : list (Z * (ndo * bool))) (l : list Z) (w : world) : Prop :=
  inv l w /\ Forall (fun s => shape_of w s.1 = Some s.2) L.

Lemma live_sb_safe L l {X} (c : M world X) : sb_safe c -> preserves (live L l) c.
Proof.
  intros Hc w r w' [Hi Hd] E. split; [by eapply inv_sb_safe|].
  destruct Hi as [[_ Hs] _]. destruct (Hc _ _ _ Hs E) as [_ Fr].
  unfold shape_of. by rewrite (sb_frame_devs _ _ Fr).
Qed.

Lemma shapes_insert w L p d d' :
  w_devs w !! p = Some d -> shape d' = shape d -> Forall (fun s => shape_of w s.1 = Some s.2) L ->
  Forall (fun s => shape_of (upd_w_devs (insert p d') w) s.1 = Some s.2) L.
Proof.
  intros Ed Hs Hd. eapply Forall_impl; [exact Hd|]. intros [q s] Hq. unfold shape_of in *. simpl in *.
  destruct (decide (q = p)) as [->|Hne]; [|by rewrite lookup_insert_ne].
  rewrite lookup_insert_eq. rewrite Ed in Hq. simpl in *. congruence.
Qed.

Lemma live_mod_dev L l p f :
  (forall d, nd_proxy (f d) = nd_proxy d) -> (forall d, shape (f d) = shape d) ->
  preserves (live L l) (mod_dev p f).
Proof.
  intros Hp Ho w r w' [Hi Hd] E. split; [by eapply (inv_mod_dev l p f)|].
  apply mod_dev_inv in E as (d & Ed & ->). by eapply shapes_insert.
Qed.

Lemma live_mod_proxy L l p f :
  (forall px, px_xid (f px) = px_xid px /\ px_kind (f px) = px_kind px /\ px_mux (f px) = px_mux px) ->
  preserves (live L l) (mod_proxy p f).
Proof.
  intros Hf w r w' [Hi Hd] E. split; [by eapply (inv_mod_proxy l p f)|].
  unfold mod_proxy in E. bind_step E. apply netdev_priv_inv in E0 as [-> _].
  apply mod_dev_inv in E as (d & Ed & ->). by eapply shapes_insert.
Qed.

Ltac unseen := split; [split; [split; by split|by split]|done].

(** The lines of the cages and the table of links are in no invariant. *)
Lemma live_mod_lines L l f : preserves (live L l) (mod_mux (upd_mx_lpmode_gpios f)).
Proof. intros w r w' [[[[] []] []] Hd] [= <- <-]. unseen. Qed.
Lemma live_mod_link L l f : preserves (live L l) (mod_mux (upd_mx_link f)).
Proof. intros w r w' [[[[] []] []] Hd] [= <- <-]. unseen. Qed.
Lemma live_mod_main L l f : preserves (live L l) (mod_mux (upd_mx_main f)).
Proof. intros w r w' [[[[] []] []] Hd] [= <- <-]. unseen. Qed.

Lemma live_hold L l p : preserves (live L l) (dev_hold p).
Proof. intros w r w' [[[[] []] []] Hd] [= <- <-]. unseen. Qed.
Lemma live_put L l p : preserves (live L l) (dev_put p).
Proof. intros w r w' [[[[] []] []] Hd] [= <- <-]. unseen. Qed.
Lemma live_stat_file L l f : preserves (live L l) (modify (upd_w_stat_file f)).
Proof. intros w r w' [[[[] []] []] Hd] [= <- <-]. unseen. Qed.

#[local] Hint Resolve live_sb_safe live_mod_lines live_mod_link live_mod_main live_hold live_put
  live_stat_file sb_safe_ignore : preserves.
#[local] Hint Extern 1 (preserves (live _ _) (mod_dev _ _)) => apply live_mod_dev; done : preserves.
#[local] Hint Extern 1 (preserves (live _ _) (mod_proxy _ _)) => apply live_mod_proxy; done : preserves.
#[local] Hint Extern 1 (preserves (live _ _) (xeth_mux_has _)) => apply preserves_gets : preserves.
#[local] Hint Extern 1 (preserves (live _ _) get_mux) => apply preserves_gets : preserves.
#[local] Hint Extern 1 (preserves (live _ _) (dev _)) => apply live_sb_safe, sb_safe_dev : preserves.
#[local] Hint Extern 1 (preserves (live _ _) (netdev_priv _)) => apply live_sb_safe, sb_safe_priv : preserves.

Lemma live_ignore L l {X} (c : M world X) : preserves (live L l) c -> preserves (live L l) (ignore c).
Proof. apply preserves_ignore. Qed.

(** The notifier of devices, when the driver is told of a device that goes. *)
Lemma live_stop_net_fib L l n : preserves (live L l) (xeth_nb_stop_net_fib n).
Proof.
  assert (forall m, preserves (live L l) (stop_fib m)) as Hs.
  { intros m w r w' [[Hn R] Hd] E. destruct (stop_fib_run _ _ _ _ Hn E) as [Hn' _].
    unfold stop_fib in E. bind_step E. injection E as _ <-.
    apply unregister_law in E0 as (Fr & _); [|done].
    split; [split; [done|]|].
    - eapply reg_frame_rep; [|exact R]. etransitivity; [apply reg_frame_nb, Fr|]. by split.
    - unfold shape_of. simpl. by rewrite (nb_frame_devs _ _ Fr). }
  unfold xeth_nb_stop_net_fib. by_structure.
Qed.

Lemma live_proxy_of_nd L l nd : preserves (live L l) (xeth_mux_proxy_of_nd nd).
Proof. apply live_sb_safe, sb_safe_proxy_of_nd. Qed.

Lemma live_check_lowers L l : preserves (live L l) xeth_mux_check_lower_carrier.
Proof.
  assert (forall xs b, preserves (live L l) (lowers_carrier xs b)) as Hl.
  { induction xs as [|x xs IH]; intros b; simpl; unfold netif_carrier_ok; by_structure. }
  unfold xeth_mux_check_lower_carrier, netif_carrier_ok, netif_carrier_on, netif_carrier_off.
  by_structure; apply Hl.
Qed.

Lemma live_nb_netdevice L l event nd : preserves (live L l) (xeth_nb_netdevice event nd).
Proof.
  unfold xeth_nb_netdevice. pose proof (live_stop_net_fib L l). pose proof (live_check_lowers L l).
  pose proof (live_proxy_of_nd L l). by_structure; auto using live_sb_safe with sb_safe.
Qed.

Lemma live_notify L l event nd : preserves (live L l) (call_netdevice_notifiers event nd).
Proof. unfold call_netdevice_notifiers. pose proof (live_nb_netdevice L l event nd). by_structure. Qed.

(** ** Closing a device *)

Lemma live_proxy_stop L l nd : preserves (live L l) (xeth_proxy_stop nd).
Proof. unfold xeth_proxy_stop. by_structure; auto using live_sb_safe with sb_safe. Qed.

Lemma live_set_lpmode L l port v : preserves (live L l) (set_lpmode port v).
Proof. unfold set_lpmode, xeth_mux_qsfp_lpmode_gpio. by_structure. Qed.

Lemma live_op_stop L l o ops nd : netdev_ops o = Some ops -> preserves (live L l) (op_stop ops nd).
Proof.
  pose proof (live_proxy_stop L l nd). pose proof (live_set_lpmode L l).
  intros E. destruct o; [..|discriminate E]; injection E as <-; simpl;
    unfold xeth_mux_stop, xeth_port_stop, xeth_vlan_stop, xeth_lag_stop, xeth_bridge_stop, team_stop,
      xeth_lb_stop, netif_carrier_ok, netif_carrier_off, port_priv, dev_close; by_structure; auto.
Qed.

Lemma live_link_down L l nd : preserves (live L l) (link_down nd).
Proof.
  unfold link_down, dev_close. pose proof (fun e => live_notify L l e nd). apply preserves_bind; [by_structure|].
  intros d. pose proof (live_op_stop L l (nd_ops d)). by_structure; auto using live_ignore.
Qed.

(** ** Uninitialising a device *)

(** A proxy is taken out of the registry. *)
Lemma live_del_proxy L l nd w r w' :
  live L l w -> nd ∈ l -> xeth_mux_del_proxy nd w = Some (r, w') -> live L (unlink nd l) w'.
Proof.
  intros [[[[] []] R] Hd] Hin E. destruct (del_proxy_run w l nd R Hin) as (w2 & E2 & R2 & Hw).
  rewrite E in E2. injection E2 as _ <-.
  split; [split; [|done]|]; rewrite Hw; [split; by split|done].
Qed.

(** The uninit of a proxy: what is done first keeps [live]. *)
Lemma live_uninit L l nd (pre : M world unit) w r w' :
  preserves (live L l) pre -> live L l w -> nd ∈ l ->
  (pre ≫= fun _ => xeth_proxy_uninit nd) w = Some (r, w') -> live L (unlink nd l) w'.
Proof.
  intros Hp Hl Hin E. bind_step E. unfold xeth_proxy_uninit in E. bind_step E.
  eapply live_del_proxy; [|done|exact E]. eapply live_sb_safe; [|by eapply Hp|exact E1]. auto with sb_safe.
Qed.

Lemma live_port_priv L l nd : preserves (live L l) (port_priv nd).
Proof. unfold port_priv. by_structure. Qed.

Lemma live_port_uninit L l nd w r w' :
  live L l w -> nd ∈ l -> xeth_port_uninit nd w = Some (r, w') -> live L (unlink nd l) w'.
Proof.
  intros Hl Hin E. unfold xeth_port_uninit in E. bind_step E.
  eapply live_uninit; [|by eapply live_port_priv|done|exact E].
  unfold mod_ext, mod_port, port_ext, port_priv. by_structure.
Qed.

Lemma live_dump_ifas L l p : preserves (live L l) (xeth_proxy_dump_ifa p).
Proof. unfold xeth_proxy_dump_ifa. by_structure. all: auto using live_sb_safe with sb_safe. Qed.
Lemma live_dump_ifa6s L l p : preserves (live L l) (xeth_proxy_dump_ifa6 p).
Proof. unfold xeth_proxy_dump_ifa6. by_structure. all: auto using live_sb_safe with sb_safe. Qed.

Lemma live_team_uninit L l t nd w r w' :
  (forall d, nd_proxy (tm_unmark t d) = nd_proxy d /\ shape (tm_unmark t d) = shape d) ->
  live L l w -> nd ∈ l -> team_uninit t nd w = Some (r, w') -> live L (unlink nd l) w'.
Proof.
  intros Ht Hl Hin E. unfold team_uninit in E. bind_step E. apply dev_inv in E0 as [-> _].
  eapply live_uninit; [|done|done|exact E]. clear E.
  pose proof (live_dump_ifas L l). pose proof (live_dump_ifa6s L l).
  assert (forall p, preserves (live L l) (mod_dev p (tm_unmark t))) by (intros p; apply live_mod_dev; apply Ht).
  apply preserves_for_each. intros p. apply preserves_ignore.
  unfold team_del_lower, netdev_upper_dev_unlink, netdev_update_features, xeth_proxy_set_features.
  by_structure; auto using live_sb_safe with sb_safe.
  apply live_ignore. by_structure. auto using live_sb_safe with sb_safe.
Qed.

Lemma live_op_uninit L l o ops nd w r w' :
  netdev_ops o = Some ops -> o <> NdoMux -> live L l w -> nd ∈ l ->
  op_uninit ops nd w = Some (r, w') -> live L (unlink nd l) w'.
Proof.
  intros E Hm Hl Hin. assert (preserves (live L l) (mret tt)) as Hr by by_structure.
  destruct o; [done|..|discriminate E]; injection E as <-; simpl.
  - by apply live_port_uninit.
  - exact (live_uninit L l nd (mret tt) w r w' Hr Hl Hin).
  - by apply live_team_uninit.
  - by apply live_team_uninit.
  - exact (live_uninit L l nd (mret tt) w r w' Hr Hl Hin).
Qed.

Lemma live_mux_uninit L mux :
  (forall L, preserves (live L []) rest) -> preserves (live L []) (xeth_mux_uninit rest mux).
Proof.
  intros Hr. pose proof (Hr L). unfold xeth_mux_uninit, wait_main_task. by_structure.
  apply live_ignore. unfold xeth_mux_del_lower, netdev_upper_dev_unlink, netdev_rx_handler_unregister,
    dev_set_promiscuity. by_structure.
Qed.

(** ** Unregistering the queue *)

Definition is_proxy_ops (o : ndo) : bool :=
  match o with NdoPort | NdoVlan | NdoBridge | NdoLag | NdoLb => true | NdoMux | NdoOther => false end.

Lemma live_shape L l w p o : live L l w -> (p, o) ∈ L -> shape_of w p = Some o.
Proof. intros [_ Hd] Hp. rewrite Forall_forall in Hd. by apply (Hd (p, o)). Qed.

Lemma unregister_proxy L l p o w r w' :
  (p, o) ∈ L -> is_proxy_ops o.1 = true -> live L l w -> p ∈ l ->
  unregister_one p w = Some (r, w') -> live L (unlink p l) w'.
Proof.
  intros Hp Ho Hl Hin E. unfold unregister_one in E. bind_step E. bind_step E. bind_step E.
  eapply live_notify in E0; [|exact Hl]. apply dev_inv in E1 as [-> Ed].
  pose proof (live_shape _ _ _ _ _ E0 Hp) as Es. unfold shape_of in Es. rewrite Ed in Es.
  injection Es as <-. simpl in Ho.
  destruct (netdev_ops (nd_ops a0)) as [ops|] eqn:Eo; [|by destruct (nd_ops a0)].
  eapply live_op_uninit in E2; [|exact Eo|by intros Em; rewrite Em in Ho|exact E0|done].
  eapply live_mod_dev; [| |exact E2|exact E]; done.
Qed.

Lemma unregister_proxies L qs : forall l w r w',
  NoDup qs -> (forall p, p ∈ qs -> p ∈ l /\ exists o, (p, o) ∈ L /\ is_proxy_ops o.1 = true) ->
  live L l w -> for_each qs unregister_one w = Some (r, w') ->
  live L (filter (fun p => p ∉ qs) l) w'.
Proof.
  induction qs as [|p qs IH]; intros l w r w' Hn Hq Hl E.
  { injection E as <- <-. rewrite filter_all by (intros; apply not_elem_of_nil). done. }
  apply NoDup_cons in Hn as [Hp Hn]. simpl in E. bind_step E.
  destruct (Hq p) as (Hin & o & Ho & Hx); [by left|].
  eapply unregister_proxy in E0; [|done..].
  eapply IH in E; [|done| |exact E0].
  - replace (filter (fun q => q ∉ p :: qs) l) with (filter (fun q => q ∉ qs) (unlink p l)); [done|].
    unfold unlink. rewrite list_filter_filter. apply list_filter_iff.
    intros q. rewrite not_elem_of_cons. tauto.
  - intros q Hq'. destruct (Hq q) as (Hin' & Ho'); [by right|]. split; [|done].
    apply list_elem_of_filter. split; [congruence|done].
Qed.

(** ** Freeing the queue *)

Lemma free_devs qs : forall w r w',
  for_each qs free_one w = Some (r, w') ->
  exists D, w' = upd_w_devs (fun _ => D) w /\
    forall p, D !! p = match w_devs w !! p with
                       | Some d => if bool_decide (p ∈ qs) && nd_needs_free d then None else Some d
                       | None => None
                       end.
Proof.
  induction qs as [|q qs IH]; intros w r w' E.
  { injection E as <- <-. exists (w_devs w). split; [by destruct w|]. intros p.
    rewrite bool_decide_eq_false_2 by apply not_elem_of_nil. by destruct (w_devs w !! p). }
  simpl in E. bind_step E. unfold free_one in E0. bind_step E0. apply dev_inv in E1 as [-> Ed].
  apply IH in E as (D & -> & HD). clear IH.
  destruct (nd_needs_free a0) eqn:Ef; injection E0 as <- <-; exists D; (split; [done|]); intros p; rewrite HD; simpl.
  - destruct (decide (p = q)) as [->|Hne].
    + rewrite lookup_delete_eq, Ed, Ef, bool_decide_eq_true_2 by (by left). done.
    + rewrite lookup_delete_ne by done. destruct (w_devs w !! p) as [d|]; [|done].
      rewrite (bool_decide_ext (p ∈ q :: qs) (p ∈ qs)) by (rewrite elem_of_cons; tauto). done.
  - destruct (decide (p = q)) as [->|Hne].
    + rewrite Ed, Ef, !andb_false_r. done.
    + destruct (w_devs w !! p) as [d|]; [|done].
      rewrite (bool_decide_ext (p ∈ q :: qs) (p ∈ qs)) by (rewrite elem_of_cons; tauto). done.
Qed.

(** ** Removing the mux *)

Lemma live_dellink L l mux : preserves (live L l) (xeth_mux_dellink mux).
Proof.
  assert (forall p, preserves (live L l) (unregister_netdevice_queue p)) as Hq.
  { intros p w r w' [[[[] []] []] Hd] [= <- <-]. unseen. }
  assert (preserves (live L l) (mod_mux (fun priv => upd_mx_absent_gpios (fun _ => None)
    (upd_mx_intr_gpios (fun _ => None) (upd_mx_lpmode_gpios (fun _ => None)
    (upd_mx_reset_gpios (fun _ => None) priv)))))) as Hg.
  { intros w r w' [[[[] []] []] Hd] [= <- <-]. unseen. }
  unfold xeth_mux_dellink. by_structure.
Qed.

(** Once the mux is uninitialised its task does not run and it has no links. *)
Definition stopped (w : world) : Prop :=
  flag_has xeth_mux_flag_main_task (w_priv w) = false /\ Forall (eq None) (mx_link (w_priv w)).

Definition same_priv (w w' : world) : Prop := w_priv w' = w_priv w.
#[local] Instance same_priv_preorder : PreOrder same_priv.
Proof. split; [done|]. unfold same_priv. congruence. Qed.

Lemma same_priv_dev p f : steps same_priv (mod_dev p f).
Proof. intros w r w' (d & _ & ->)%mod_dev_inv. done. Qed.
Lemma same_priv_get p : steps same_priv (dev p).
Proof. by intros w r w' [-> _]%dev_inv. Qed.
Lemma same_priv_put p : steps same_priv (dev_put p).
Proof. by intros w r w' [= <- <-]. Qed.
#[local] Hint Resolve same_priv_dev same_priv_get same_priv_put : steps.

Lemma mux_uninit_stops mux w r w' : xeth_mux_uninit rest mux w = Some (r, w') -> stopped w'.
Proof.
  intros E. unfold xeth_mux_uninit in E. apply bind_inv in E as (task & w0 & E0 & E).
  injection E0 as <- <-. apply bind_inv in E as (u & w1 & E1 & E).
  apply bind_inv in E as (d & w2 & E2 & E). apply dev_inv in E2 as [-> _].
  apply bind_inv in E as (v & w2 & E2 & E). injection E as <- <-.
  assert (same_priv w1 w2) as Hs.
  { revert E2. apply steps_for_each; [exact _|]. intros p.
    unfold ignore, xeth_mux_del_lower, netdev_upper_dev_unlink, netdev_rx_handler_unregister,
      dev_set_promiscuity. by_structure. }
  unfold stopped, flag_has. simpl. split; [|by apply Forall_replicate]. rewrite Hs.
  destruct (flag_has xeth_mux_flag_main_task (w_priv w)) eqn:Ef; [|by injection E1 as <- <-].
  cbn [when] in E1. apply bind_inv in E1 as (? & w3 & _ & E1). apply bind_inv in E1 as (? & w4 & _ & E1).
  unfold wait_main_task in E1. apply bind_inv in E1 as (b & w5 & E3 & E1). injection E3 as <- <-.
  destruct (flag_has xeth_mux_flag_main_task (w_priv w4)) eqn:Ef'; [done|by injection E1 as _ <-].
Qed.

Lemma unregister_mux L mux b w r w' :
  (forall L, preserves (live L []) rest) -> (mux, (NdoMux, b)) ∈ L -> live L [] w ->
  unregister_one mux w = Some (r, w') -> live L [] w' /\ stopped w'.
Proof.
  intros Hr Hm Hl E. unfold unregister_one in E. apply bind_inv in E as (? & w1 & E1 & E).
  eapply live_notify in E1; [|exact Hl].
  apply bind_inv in E as (d & w2 & E2 & E). apply dev_inv in E2 as [-> Ed].
  pose proof (live_shape _ _ _ _ _ E1 Hm) as Es. unfold shape_of in Es. rewrite Ed in Es.
  injection Es as Es _. rewrite Es in E. apply bind_inv in E as (? & w2 & E2 & E).
  pose proof (mux_uninit_stops _ _ _ _ E2) as Hs. eapply live_mux_uninit in E2; [|done|exact E1].
  split; [eapply live_mod_dev; [| |exact E2|exact E]; done|].
  apply mod_dev_inv in E as (? & _ & ->). exact Hs.
Qed.

Lemma for_each_snoc {X} (xs : list X) (x : X) (f : X -> M world unit) w r w' :
  for_each (xs ++ [x]) f w = Some (r, w') ->
  exists w1, for_each xs f w = Some (tt, w1) /\ f x w1 = Some (tt, w').
Proof.
  revert w. induction xs as [|y xs IH]; intros w E; simpl in *; bind_step E.
  - injection E as _ <-. destruct a. by eexists.
  - apply IH in E as (w1 & E1 & E2). exists w1. by rewrite bind_run, E0.
Qed.

Lemma inv_nil_devs w D : inv [] w -> inv [] (upd_w_unregq (fun _ => []) (upd_w_devs (fun _ => D) w)).
Proof. intros [[[] []] []]. split; [split; by split|]. by split. Qed.

Lemma unregister_many_clears L l q mux b w r w' :
  (forall L, preserves (live L []) rest) -> live L l w -> w_unregq w = q ++ [mux] -> q ≡ₚ l ->
  (forall p, p ∈ q -> exists o, (p, o) ∈ L /\ is_proxy_ops o.1 = true) -> (mux, (NdoMux, b)) ∈ L ->
  unregister_many w = Some (r, w') ->
  inv [] w' /\ stopped w' /\ w_unregq w' = [] /\
  forall p o, (p, (o, true)) ∈ L -> p ∈ q ++ [mux] -> w_devs w' !! p = None.
Proof.
  intros Hr Hl Hq Hperm Hp Hm E. unfold unregister_many in E. apply bind_inv in E as (x & w0 & E0 & E).
  injection E0 as <- <-. rewrite Hq in E. apply bind_inv in E as (? & w1 & E1 & E).
  assert (live L l w1) as H1.
  { eapply preserves_for_each; [|exact Hl|exact E1]. intros p. apply live_link_down. }
  apply bind_inv in E as (? & w2 & E2 & E). apply for_each_snoc in E2 as (w3 & E3 & E2).
  assert (live L [] w3) as H3.
  { eapply unregister_proxies in E3; [| | |exact H1].
    - destruct (filter (fun p => p ∉ q) l) as [|p ps] eqn:Ef; [done|].
      assert (p ∈ filter (fun p => p ∉ q) l) as [Hn Hi]%list_elem_of_filter by (rewrite Ef; by left).
      by rewrite Hperm in Hn.
    - rewrite Hperm. destruct Hl as [[_ []] _]. done.
    - intros p Hpq. split; [by rewrite <- Hperm|by apply Hp]. }
  destruct (unregister_mux L mux b _ _ _ Hr Hm H3 E2) as [H2 Hs].
  apply bind_inv in E as (? & w4 & E4 & E). apply free_devs in E4 as (D & -> & HD).
  injection E as <- <-. split; [apply inv_nil_devs, H2|]. split; [exact Hs|]. split; [done|].
  intros p o Ho Hin. pose proof (live_shape _ _ _ _ _ H2 Ho) as Es. unfold shape_of in Es. simpl. rewrite HD.
  destruct (w_devs w2 !! p) as [d|]; [|done]. injection Es as _ ->. by rewrite bool_decide_eq_true_2.
Qed.

(** The end of the main task is one that keeps the invariants. *)
Lemma live_flag L l f : task_flag f = true ->
  preserves (live L l) (xeth_mux_set f) /\ preserves (live L l) (xeth_mux_clear f).
Proof.
  intros Hf. split; intros w r w' [Hi Hd] E;
    (split; [first [by eapply (inv_set l f)|by eapply (inv_clear l f)]|by injection E as <- <-]).
Qed.
Lemma live_main_exit L l b err : preserves (live L l) (ignore (xeth_mux_main_exit b err)).
Proof.
  assert (forall f, task_flag f = true -> preserves (live L l) (xeth_mux_clear f)) as Hf by (intros; by apply live_flag).
  apply preserves_ignore. unfold xeth_mux_main_exit. by_structure; by apply Hf.
Qed.

Lemma live_mux_add_lower L l mux lower : preserves (live L l) (xeth_mux_add_lower mux lower).
Proof.
  unfold xeth_mux_add_lower, and_then, xeth_mux_set_lower_promiscuity, xeth_mux_set_lower_mtu,
    xeth_mux_lower_is_loopback, xeth_mux_lower_is_busy, xeth_mux_handle_lower, xeth_mux_bind_lower,
    netdev_rx_handler_register, netdev_rx_handler_unregister, netdev_is_rx_handler_busy,
    netdev_master_upper_dev_link, xeth_mux_rehash_link_ht, dev_set_promiscuity. by_structure.
Qed.

Lemma live_lag_add_lower L l nd lower : preserves (live L l) (xeth_lag_add_lower nd lower).
Proof.
  unfold xeth_lag_add_lower, team_add_lower, and_then, netdev_master_upper_dev_link.
  by_structure; auto using live_sb_safe with sb_safe.
Qed.

(** C14: [rtnl_dellink] of a mux: the kernel calls the dellink of its table, then
    closes, uninitialises and frees what was queued, by the table of each device.  When
    it is done, every proxy is out of the registry and the mux has no task and no
    links, the invariants of buffers, notifiers and registry hold, nothing is queued for
    removal, and the mux and every proxy that was to be freed is. *)
Theorem mux_link_removed mux b d l w r w' :
  (forall L, preserves (live L []) rest) -> inv l w -> w_unregq w = [] ->
  w_devs w !! mux = Some d -> nd_registered d = true -> shape d = (NdoMux, b) ->
  Forall (fun p => exists o, shape_of w p = Some o /\ is_proxy_ops o.1 = true) l ->
  link_del LnkoMux mux w = Some (r, w') ->
  r = 0 /\ inv [] w' /\ stopped w' /\ w_unregq w' = [] /\
  forall p o, p ∈ mux :: l -> shape_of w p = Some (o, true) -> w_devs w' !! p = None.
Proof.
  intros Hr Hi Hq Ed Hreg Hs Hall E. cbn [link_del link_ops xeth_mux_lnko lo_dellink] in E.
  destruct (dellink_run mux w l d) as (w1 & q & E1 & Eq & Hperm & _); [apply Hi|done|done|].
  rewrite bind_run, E1 in E. apply bind_inv in E as (u & w2 & E2 & E). injection E as <- <-.
  set (L := (fun p => (p, default (NdoOther, false) (shape_of w p))) <$> (q ++ [mux])).
  rewrite Hq in Eq. simpl in Eq.
  assert (forall p o, p ∈ q ++ [mux] -> shape_of w p = Some o -> (p, o) ∈ L) as Hsh.
  { intros p o Hp Ho. apply list_elem_of_fmap. exists p. by rewrite Ho. }
  assert (forall p, p ∈ q -> exists o, shape_of w p = Some o /\ is_proxy_ops o.1 = true) as Hpx.
  { intros p Hp. rewrite Forall_forall in Hall. apply Hall. by rewrite <- Hperm. }
  assert (shape_of w mux = Some (NdoMux, b)) as Hmx by (unfold shape_of; rewrite Ed; simpl; congruence).
  assert (mux ∈ q ++ [mux]) as Hin by (apply elem_of_app; right; by left).
  destruct (unregister_many_clears L l q mux b w1 u w2) as (H1 & H2 & H3 & H4); try done.
  - eapply live_dellink; [|exact E1]. split; [done|]. apply Forall_forall. intros s Hx.
    apply list_elem_of_fmap in Hx as (p & -> & Hx). simpl.
    apply elem_of_app in Hx as [Hx|Hx%list_elem_of_singleton]; [|subst p; by rewrite Hmx].
    destruct (Hpx p Hx) as (o & -> & _). done.
  - intros p Hp. destruct (Hpx p Hp) as (o & Ho & Hk). exists o. split; [|done].
    apply Hsh; [apply elem_of_app; by left|done].
  - by apply Hsh.
  - do 4 (split; [done|]). intros p o Hp Ho.
    assert (p ∈ q ++ [mux]) as Hp' by (rewrite Hperm, elem_of_app, list_elem_of_singleton;
      apply elem_of_cons in Hp; tauto).
    by apply (H4 p o); [apply Hsh|].
Qed.

(** ** The encapsulation of a new mux *)

Definition same_encap (w w' : world) : Prop := mx_encap (w_priv w') = mx_encap (w_priv w).
#[local] Instance same_encap_preorder : PreOrder same_encap.
Proof. split; [done|]. unfold same_encap. congruence. Qed.

Lemma same_encap_dev p f : steps same_encap (mod_dev p f).
Proof. intros w r w' E. unfold same_encap. by rewrite (same_priv_dev p f _ _ _ E). Qed.
Lemma same_encap_get p : steps same_encap (dev p).
Proof. by intros w r w' [-> _]%dev_inv. Qed.
Lemma same_encap_priv p : steps same_encap (netdev_priv p).
Proof. by intros w r w' [-> _]%netdev_priv_inv. Qed.
Lemma same_encap_mux f : (forall p, mx_encap (f p) = mx_encap p) -> steps same_encap (mod_mux f).
Proof. intros Hf w r w' [= <- <-]. apply Hf. Qed.
Lemma same_encap_hold p : steps same_encap (dev_hold p).
Proof. by intros w r w' [= <- <-]. Qed.
Lemma same_encap_put p : steps same_encap (dev_put p).
Proof. by intros w r w' [= <- <-]. Qed.
#[local] Hint Resolve same_encap_dev same_encap_get same_encap_priv same_encap_hold same_encap_put : steps.
#[local] Hint Extern 1 (steps same_encap (mod_mux _)) => apply same_encap_mux; done : steps.
#[local] Hint Extern 1 (steps same_encap get_mux) => apply steps_gets; exact _ : steps.
#[local] Hint Extern 1 (steps same_encap (xeth_mux_has _)) => apply steps_gets; exact _ : steps.

Lemma same_encap_msg {X} `{!Wire X} kind (x : X) : steps same_encap (sbtx_msg kind x).
Proof.
  assert (steps sb_frame (sbtx_msg kind x)) as Hm.
  { unfold sbtx_msg. apply steps_bind; [exact _|apply steps_alloc|]. intros b.
    apply steps_bind; [exact _|by intros w r w' [-> _]%sbtxb_write_inv|]. intros b'.
    apply steps_bind; [exact _|apply steps_queue|]. intros _. apply steps_ret. exact _. }
  intros w r w' E. apply Hm in E. by apply (f_equal (fun w => mx_encap (w_priv w))) in E.
Qed.

Lemma same_encap_register nd : steps same_encap (call_netdevice_notifiers NETDEV_REGISTER nd).
Proof.
  pose proof @same_encap_msg.
  unfold call_netdevice_notifiers, xeth_nb_netdevice, ignore, xeth_sbtx_netns, xeth_mux_proxy_of_nd,
    xeth_sbtx_ifinfo. cbn [Z.eqb NETDEV_REGISTER NETDEV_UNREGISTER NETDEV_CHANGE Pos.eqb].
  by_structure; auto.
Qed.

Lemma same_encap_mux_uninit mux : steps same_encap (xeth_mux_uninit (mret tt) mux).
Proof.
  unfold xeth_mux_uninit, wait_main_task, ignore, xeth_mux_del_lower, netdev_upper_dev_unlink,
    netdev_rx_handler_unregister, dev_set_promiscuity. by_structure.
Qed.

Lemma same_encap_add_lower mux lower : steps same_encap (xeth_mux_add_lower mux lower).
Proof.
  unfold xeth_mux_add_lower, and_then, xeth_mux_set_lower_promiscuity, xeth_mux_set_lower_mtu,
    xeth_mux_lower_is_loopback, xeth_mux_lower_is_busy, xeth_mux_handle_lower, xeth_mux_bind_lower,
    netdev_rx_handler_register, netdev_rx_handler_unregister, netdev_is_rx_handler_busy,
    netdev_master_upper_dev_link, xeth_mux_rehash_link_ht, dev_set_promiscuity. by_structure.
Qed.

(** The newlink of a mux gives it the encapsulation of the attribute. *)
Lemma mux_newlink_encap mux a w r w' :
  xeth_mux_newlink mux a link_addr w = Some (r, w') ->
  mx_encap (w_priv w') = from_option xeth_encap_of XETH_ENCAP_VLAN (ifla_data a).
Proof.
  intros E. unfold xeth_mux_newlink in E. apply bind_inv in E as (u & w1 & E1 & E). injection E1 as <- <-.
  pose proof same_encap_register. pose proof same_encap_mux_uninit. pose proof same_encap_add_lower.
  match type of E with ?c ?w1 = _ => assert (steps same_encap c) as Hs end.
  { unfold dev_get_by_index, eth_hw_addr_inherit, eth_hw_addr_random, register_netdevice, and_then.
    by_structure; auto. }
  apply Hs in E. exact E.
Qed.

(** C33: The table of the mux has no greatest attribute, so the kernel hands its
    newlink and validate none: a mux that is made by rtnl has the VLAN
    encapsulation, whatever encapsulation was asked for, and an encapsulation out of range
    is not refused. *)
Theorem mux_encap_attribute_ignored nd a w :
  link_add LnkoMux nd a w =
    link_add LnkoMux nd {| ifla_address := ifla_address a; ifla_link := ifla_link a;
                           ifla_ifname := ifla_ifname a; ifla_data := None |} w /\
  forall r w', ifla_address a = false -> link_add LnkoMux nd a w = Some (r, w') ->
    mx_encap (w_priv w') = XETH_ENCAP_VLAN.
Proof.
  split; [done|]. intros r w' Ha E.
  unfold link_add in E. cbn [link_ops] in E. unfold link_attrs, xeth_mux_lnko in E.
  cbn [lo_maxtype lo_validate lo_setup lo_newlink Z.eqb] in E. unfold xeth_mux_validate in E.
  cbn [ifla_address ifla_data] in E. rewrite Ha in E. cbn [Z.ltb Z.compare] in E.
  apply bind_inv in E as (u & w1 & _ & E). by apply mux_newlink_encap in E.
Qed.

End ops.

(** ** Witnesses *)

(** The demo mux with two links and its task running; port 2 is a member of the LAG. *)
Definition demo_busy : world :=
  ends (xeth_lag_add_lower (K:=plain_dev) 5 2)
    (ends (xeth_mux_set xeth_mux_flag_main_task) demo_two_links).

Lemma preserves_ends {X} (J : world -> Prop) (c : M world X) w : preserves J c -> J w -> J (ends c w).
Proof. intros Hc Hw. unfold ends. destruct (c w) as [[r w']|] eqn:E; [by eapply Hc|done]. Qed.

Lemma inv_others `{!KernelHash} l p d p' d' p'' d'' w :
  p ∉ l -> p' ∉ l -> p'' ∉ l -> inv l w ->
  inv l (upd_w_devs (fun devs => <[p := d]> (<[p' := d']> (<[p'' := d'']> devs))) w).
Proof.
  intros Hp Hp' Hp'' [[[] []] R]. split; [split; by split|].
  apply (registry_rep_other _ _ p'' d'' Hp'') in R. apply (registry_rep_other _ _ p' d' Hp') in R.
  exact (registry_rep_other _ _ p d Hp R).
Qed.

Lemma demo_busy_inv : inv (H:=golden_hash) [7; 6; 4; 5; 3; 2; 1] demo_busy.
Proof.
  set (J := live (H:=golden_hash) [] [7; 6; 4; 5; 3; 2; 1]). assert (J demo_busy) as []; [|done].
  apply (preserves_ends J); [apply live_lag_add_lower|].
  apply (preserves_ends J); [by apply live_flag|].
  do 2 (apply (preserves_ends J); [apply live_mux_add_lower|]).
  split; [|constructor].
  apply inv_others; [by apply (bool_decide_unpack _); vm_compute..|exact demo_full_inv].
Qed.

Definition demo_link_del : M world Z :=
  link_del (K:=plain_dev) (C:=demo_const) (N:=plain_notify) (H:=golden_hash) (T:=plain_tx)
    (F:=same_features) (S:=no_digits) (ignore (xeth_mux_main_exit true 0)) 0 0 0 (fun _ _ => mret tt)
    LnkoMux 100.

Lemma mux_link_removed_witness :
  exists w', demo_link_del demo_busy = Some (0, w') /\ inv (H:=golden_hash) [] w' /\ stopped w' /\
    w_devs w' !! 5 = None.
Proof.
  assert (demo_link_del demo_busy = Some (0, ends demo_link_del demo_busy)) as E by (vm_compute; reflexivity).
  destruct (mux_link_removed (K:=plain_dev) (C:=demo_const) (N:=plain_notify) (H:=golden_hash) (T:=plain_tx)
    (F:=same_features) (S:=no_digits) (ignore (xeth_mux_main_exit true 0)) 0 0 0 (fun _ _ => mret tt)
    (NL:=plain_notify_laws) (HL:=golden_hash_laws) 100 true
    (default (demo_nic 0) (w_devs demo_busy !! 100)) [7; 6; 4; 5; 3; 2; 1] demo_busy 0
    (ends demo_link_del demo_busy)) as (_ & Hi & Hs & _ & Hf).
  - intros L. apply live_main_exit.
  - exact demo_busy_inv.
  - vm_compute. reflexivity.
  - vm_compute. reflexivity.
  - vm_compute. reflexivity.
  - vm_compute. reflexivity.
  - repeat constructor; eexists; (split; [vm_compute; reflexivity|vm_compute; reflexivity]).
  - exact E.
  - exists (ends demo_link_del demo_busy). split; [exact E|]. split; [exact Hi|]. split; [exact Hs|].
    apply (Hf 5 NdoLag); [apply (bool_decide_unpack _); vm_compute; exact I|vm_compute; reflexivity].
Defined.

(** A request for a VPLS mux. *)
Definition demo_vpls : nlattrs :=
  {| ifla_address := false; ifla_link := None; ifla_ifname := true; ifla_data := Some 1 |}.
Definition demo_link_add : M world Z :=
  link_add (K:=plain_dev) (C:=demo_const) (N:=plain_notify) (H:=golden_hash) (F:=same_features) (S:=no_digits) 0 0 0 (fun _ _ => mret tt)
    LnkoMux 100 demo_vpls.

Lemma mux_encap_attribute_ignored_witness :
  exists w', demo_link_add demo_nics = Some (0, w') /\ mx_encap (w_priv w') = XETH_ENCAP_VLAN.
Proof.
  assert (demo_link_add demo_nics = Some (0, ends demo_link_add demo_nics)) as E by (vm_compute; reflexivity).
  exists (ends demo_link_add demo_nics). split; [exact E|].
  apply (mux_encap_attribute_ignored (K:=plain_dev) (C:=demo_const) (N:=plain_notify) (H:=golden_hash)
    (F:=same_features) (S:=no_digits)
    0 0 0 (fun _ _ => mret tt) 100 demo_vpls demo_nics) with (r := 0); [reflexivity|exact E].
Defined.
